(* ===== verification/_CoqProject ===== *)
-Q . S2P
Prelude.v
Heap.v
Words.v
Text.v
Cksum.v
LinkedList.v
Segment.v
ConnLib.v
Ctcp.v
CtcpSpec.v
CtcpSteps.v
CtcpInv.v
CtcpRefine.v
Script.v
CtcpSafety.v
CtcpProps.v
Streams.v
Delivery.v
Network.v
Transfer.v
CtcpTimer.v
Recovery.v
Host.v
Packet.v
PacketProps.v
Conn.v
Queue.v
ConnInv.v
ConnOut.v
ConnSend.v
ConnInput.v
ConnLaws.v
ConnScript.v
LibTransfer.v
Loop.v
LoopProps.v
Wire.v
Accept.v
Start.v
StartProps.v
Connect.v
Logging.v
Printing.v
Echo.v
Client.v
Steady.v
Server.v
