(* ===== verification/Prelude.v ===== *)
(** * cTCP: a verification library for the cTCP lab

    ** The program

    [src/ctcp.c] is an endpoint of a reliable stop-and-wait transport: it reads
    input, sends it in segments of at most 1440 bytes, acknowledges, retransmits
    and closes connections. It runs on a library, [src/ctcp_sys_internal.c] and
    [.h], that polls file descriptors, carries cTCP segments in TCP packets on a
    raw socket (with the losses, duplicates, delays and corruption that the user
    asks for), keeps an output queue per connection, and calls [ctcp_read],
    [ctcp_receive], [ctcp_output] and [ctcp_timer]. [src/ctcp_utils.c] has the
    checksum and [src/ctcp_linked_list.c] a doubly linked list.

    ** The model

    Functions of C are computations in the monad [M] of this file over explicit
    memories. Every structure type has its own typed heap ([Heap.v]): a pointer is
    a location or null, [calloc] gives a fresh one, and a null or dangling
    pointer, a double [free] or an index out of a buffer is the outcome [Undef].
    [exit] and a failed [assert] are the outcome [Exit]. Integers are [Z] with the
    wrap-around of their width written out ([u8], [u16], [u32], [u64], [i16],
    [i32] of [Words.v]); signed overflow, of which C says nothing, wraps around as
    it does in the compiled program. Bytes in buffers are lists of [byte].
    Definitions have the names of the functions, types and fields they model.

    Files, in order, with what they model:
    - [Prelude.v] (this file): outcomes, the monad, weakest preconditions [wp] and
      their rules, the automation; [Heap.v], [Words.v]: heaps, machine integers,
      byte order; [Text.v]: characters, the conversions of [printf], [snprintf] and
      [strlen] on a buffer.
    - [Cksum.v]: [cksum] of [ctcp_utils.c], against its arithmetic.
    - [LinkedList.v]: [ctcp_linked_list.c], against Rocq lists.
    - [Segment.v]: [ctcp_segment_t] with its layout, [_segment_hton],
      [_segment_ntoh], [_is_segment_valid], and [flipbit].
    - [ConnLib.v]: the class [ConnLib] of the functions that [ctcp.c] calls, and
      the class [ConnLaws] of what it may assume of them.
    - [Ctcp.v]: all of [ctcp.c], against [ConnLib].
    - [CtcpSpec.v]: the abstract endpoint, a record for each connection and a
      function for each entry point, with the calls to the library and nothing
      of pointers; [CtcpSteps.v], [CtcpInv.v], [CtcpRefine.v]: which memories
      represent a set of endpoints, and that [Ctcp.v] simulates [CtcpSpec.v];
      [CtcpSafety.v], [CtcpProps.v], [CtcpTimer.v]: the theorems on [ctcp.c];
      [Streams.v]: what the record of calls says of the bytes that went in, were
      sent and came out; [Delivery.v]: the invariant of one end against the record
      of the other; [Network.v]: two ends and a network, as a step relation;
      [Transfer.v]: a schedule of that system on which everything arrives, for
      libraries of the class [Lossless]; [Recovery.v]: one on which segments and
      acknowledgements are lost;
      [Script.v]: an instance of [ConnLib] that follows a script, for examples.
    - [Host.v]: the global variables and types of [ctcp_sys_internal.c] as the
      record [sys], and the class [Os] of the system calls, with the laws
      [OsLaws] that the manual pages state (a write takes no more than it is given,
      a read gives no more than it is asked for, a datagram is sent whole or not).
    - [Packet.v], [PacketProps.v]: IP and TCP headers, [create_datagram],
      [create_tcp_seg], [create_tcp_rst], [cksum_tcp], [convert_to_ctcp],
      [convert_to_datagram], [add_network_line_ending], [conn_setup].
    - [Conn.v]: [conn_add], [conn_input], [conn_send], [conn_output],
      [conn_bufspace], [conn_drain], [conn_remove], [conn_free], [end_client],
      [recv_filter], the handshake's segments; [Queue.v], [ConnInv.v]: the output
      queue as a list of chunks, and the invariant of the library's memory;
      [ConnOut.v], [ConnSend.v], [ConnInput.v]: what the operations do;
      [ConnLaws.v]: the list of connections, and the instance of [ConnLib] and
      [ConnLaws] for the code itself; [ConnScript.v]: a scripted operating
      system and the examples; [LibTransfer.v]: the instance of [Lossless].
    - [Loop.v], [LoopProps.v]: [tcp_handshake], [tcp_new_connection],
      [execute_program], the timer and [do_loop], where both sides meet;
      [Wire.v]: the two sides of a connection with packets between them;
      [Accept.v]: what [tcp_new_connection] leaves.
    - [Start.v], [StartProps.v]: from [main] to the main loop: the command line,
      [do_config], [do_config_server], [ip_from_self], [ip_from_hostname],
      [send_resets], [setup_poll], [start_client], [start_server], over a class
      [Setup] of the system calls they make, with its laws [SetupLaws];
      [Connect.v]: a client that connects to a server that waits, on a calm system,
      up to the two ends of [Wire.v].
    - [Logging.v]: [log_segment] and the functions it calls, on the buffer of the
      line, [write_log_header], [current_time]; [Printing.v]: [print_hdr_ctcp],
      [_print_segment_info], [print_addr_ip], [print_hdrs] and what it calls,
      [usage], as text; [Echo.v]: [src/test.c].
    - [Client.v]: a client in its main loop, iteration after iteration; [Steady.v],
      [Server.v]: a server in its own, with any number of connections, none of which
      ends.

    ** The theorems

    - Safety: on any segment, of any contents, in any state, [ctcp_read],
      [ctcp_receive] and [retransmission_handler] keep the endpoints well formed
      and have no undefined behaviour, provided that the library keeps
      [ConnLaws]; the library does ([ConnLaws.v]), off the web. In [LoopProps.v]
      the two are put together for a packet that comes in and for the keyboard,
      under any invariant that satisfies [LoopLaws]. In [Client.v] one does, on the
      machine of the server and with a terminal that takes what it is given, for
      every step of [do_loop]: such a client has no undefined behaviour from its
      start on ([client_never_undefined]). With output left in the queue it may
      have some, in [conn_drain]. In [Server.v] a server whose input goes on
      and whose clients send no FIN has none either, however many connect, if it
      runs no program for them ([server_never_undefined]): it runs on, or is caught
      in the endless loop of [ctcp_timer]. A server that ends a connection may have
      some, in [conn_free] and in [ctcp_timer].
    - The network: from two ends just set up, whatever is lost, repeated, reordered
      or damaged (so that the validity test rejects it) and in whatever order the
      calls come, each end outputs what the other has read, in order, each piece at
      most once, until one has sent 2^32 - 1 bytes ([delivered_in_order], by an
      invariant over the steps of the system). That every piece comes out is
      false: every run with the ends in step and something to read at both can go
      on so that one piece does not, whatever happens afterwards ([data_lost]).
    - When nothing is lost: on a library that sends what it is given and a schedule
      that hands over each segment before the next read, all that is read at one
      end is output at the other, however long the transfer ([all_delivered]); and
      both ends close, by exactly the calls that [both_close] lists, when
      [end_client] returns at the end that closes last, as on a server.
    - When segments are lost: as long as one of its six transmissions arrives a
      piece comes out, once, whatever becomes of the acknowledgement ([recovered]),
      until the sequence numbers wrap around ([wrapped_copy]). On the functions of
      the library, what is typed at a client is written on the terminal of the
      server ([typed_comes_out]).
    - In packets: when nothing is lost and the ends take turns, what one host sends
      is the packet that the loop of the other receives through [recv_filter] and
      writes on its terminal ([conversation]); from the SYN of a client on, two
      hosts connect and talk ([hosts_talk]). This is so until the numbers in the
      packets, which count from random initial ones, wrap around: what comes then
      is dropped by [recv_filter] ([wrapped_packet_dropped]).
    - Log files: the line of a segment fits in its buffer, has the columns of the
      headers, and its data can be read back ([log_segment_line]).
    - Connections: accepting a client keeps the invariants of both memories and
      notes the numbers of its SYN; the handshake leaves both ends with each
      other's numbers, which is what the conversion of packets relies on.
    - From the start: [main] reaches the main loop in a state that satisfies the
      invariants of the theorems on safety, or ends ([main_enters_loop]).
    - Refinement: each entry point simulates its abstract version; the output
      queue is a queue of bytes; the linked list is a list.
    - What each entry point does on each branch: data, acknowledgements, flow
      control, end of file, and the states of the closing of a connection; the
      exact schedule of retransmissions; the countdown at the end and the flow
      control.
    - From end to end: what [_segment_send] sends is accepted and decoded by the
      receiver; segments survive the conversion to TCP packets and back; a packet
      from one host makes the other output exactly its data and acknowledge it;
      [conn_send] sends the segment or a copy with a bit flipped after the flags,
      which [_is_segment_valid] rejects.
    - Where the code goes wrong: [ctcp_timer] never returns with two
      connections, and follows a null pointer when the only one ends;
      [ctcp_output] after a segment has been handled; long lines on the web;
      [conn_free] of what a server has accepted; the announced length of packets; the 16-bit
      countdown; the handshake's last packet; the change of the second; the names
      of interfaces; windows of more than 45 segments; copies after the sequence
      numbers have wrapped around.

    ** Fuel

    Loops over linked structures take as fuel the size of the heap and one
    more, which is enough since the chains are without repetition (or, for
    [ll_destroy], since each iteration frees a node): the theorems prove that they
    return. The carry loop of [cksum] has fuel 2, enough for any 32-bit sum.
    The fuel of [ctcp_timer] and the number of iterations of [do_loop] are
    arguments: these are loops that may not end. So is the number of packets that
    [send_resets] answers before it is cancelled.

    ** Not modelled

    Where the library logs a segment, [Conn.v] notes an event, whose line in the
    file is that of [Logging.v]; the messages on [stderr] are left out, but for
    those of [Printing.v]. [inet_ntop], [getifaddrs] and the like are parameters.
    [getopt_long] is the system's: what it
    finds is an argument of the model. [send_resets] runs to its end, or to the
    number of packets given, before [do_config] goes on, as the main thread waits
    for it; [srand] and [signal] have no effect on the model's memory. A forked
    process is followed like its parent, one at a time, and ends where [execvp]
    puts another program in its place; the name and the arguments of the program
    are left out, as are the descriptors that [dup2] changes.
    [src/tester-student.py] drives the program from outside and is not part of
    it. *)

From Stdlib Require Export ZArith Lia.
From stdpp Require Export base tactics gmap numbers option.
From stdpp Require Export list.

#[global] Open Scope Z_scope.

(** ** Outcomes of a C function

    A call may return, end the process ([exit], a failed [assert]), touch
    memory it must not touch (undefined behaviour of C: a null or dangling
    pointer, a double [free], an index out of bounds), or, for the loops that
    the model runs with fuel, not have come to an end within the fuel. *)

Inductive outcome (S A : Type) : Type :=
  | Done (a : A) (s : S)
  | Exit (code : Z) (s : S)
  | Undef
  | NoFuel.
Arguments Done {S A} a s.
Arguments Exit {S A} code s.
Arguments Undef {S A}.
Arguments NoFuel {S A}.

(** The monad of the model: a computation over the memory [S]. *)
Definition M (S A : Type) : Type := S -> outcome S A.

#[export] Instance M_ret (S : Type) : MRet (M S) := fun A a s => Done a s.

#[export] Instance M_bind (S : Type) : MBind (M S) := fun A B k m s =>
  match m s with
  | Done a s' => k a s'
  | Exit c s' => Exit c s'
  | Undef => Undef
  | NoFuel => NoFuel
  end.

(** Exit status of the processes: [EXIT_SUCCESS], [EXIT_FAILURE], and the
    status a shell reports for [abort], which a failed [assert] calls. *)
Definition EXIT_SUCCESS : Z := 0.
Definition EXIT_FAILURE : Z := 1.
Definition SIGABRT_STATUS : Z := 134.

Section Operations.
Context {S : Type}.

Definition undef {A} : M S A := fun _ => Undef.
Definition no_fuel {A} : M S A := fun _ => NoFuel.
Definition exit_with {A} (code : Z) : M S A := fun s => Exit code s.
Definition gets {A} (f : S -> A) : M S A := fun s => Done (f s) s.
Definition modify (f : S -> S) : M S unit := fun s => Done tt (f s).

(** Following a pointer, or reading a result that must exist. *)
Definition deref {A} (o : option A) : M S A :=
  match o with Some a => mret a | None => undef end.

(** A memory access that is defined only under [b]. *)
Definition access (b : bool) : M S unit := if b then mret tt else undef.

(** C's [assert]. *)
Definition assert_c (b : bool) : M S unit :=
  if b then mret tt else exit_with SIGABRT_STATUS.

Definition when (b : bool) (m : M S unit) : M S unit :=
  if b then m else mret tt.
End Operations.

(** A computation over a part [T] of the memory [S]. *)
Definition zoom {S T A : Type} (get : S -> T) (set : T -> S -> S) (m : M T A) :
    M S A := fun s =>
  match m (get s) with
  | Done a t => Done a (set t s)
  | Exit c t => Exit c (set t s)
  | Undef => Undef
  | NoFuel => NoFuel
  end.

(** ** Weakest preconditions

    [wp m Q X s]: from [s], [m] has no undefined behaviour and comes to an
    end; if it returns, [Q] holds of the result, and if it ends the process,
    [X] holds of the memory at that point. *)

Definition wp {S A} (m : M S A) (Q : A -> S -> Prop) (X : S -> Prop) (s : S) :
    Prop :=
  match m s with
  | Done a s' => Q a s'
  | Exit _ s' => X s'
  | Undef => False
  | NoFuel => False
  end.

Section WpRules.
Context {S : Type} (X : S -> Prop).

Lemma wp_ret {A} (a : A) (Q : A -> S -> Prop) s : Q a s -> wp (mret a) Q X s.
Proof. done. Qed.

Lemma wp_bind {A B} (m : M S A) (k : A -> M S B) Q s :
  wp m (fun a s' => wp (k a) Q X s') X s -> wp (m ≫= k) Q X s.
Proof. unfold wp, mbind, M_bind. by destruct (m s). Qed.

Lemma wp_mono {A} (m : M S A) (Q Q' : A -> S -> Prop) s :
  wp m Q X s -> (forall a s', Q a s' -> Q' a s') -> wp m Q' X s.
Proof. unfold wp. destruct (m s); eauto. Qed.

Lemma wp_mono_exit {A} (m : M S A) (Q Q' : A -> S -> Prop) (Y : S -> Prop) s :
  wp m Q Y s -> (forall s', Y s' -> X s') -> (forall a s', Q a s' -> Q' a s') -> wp m Q' X s.
Proof. unfold wp. destruct (m s); eauto. Qed.

(** Two facts about one run. *)
Lemma wp_with {A} (m : M S A) (Q Q' : A -> S -> Prop) s :
  wp m Q X s -> wp m Q' (fun _ => True) s -> wp m (fun a s' => Q a s' /\ Q' a s') X s.
Proof. unfold wp. destruct (m s); auto. Qed.

Lemma wp_gets {A} (f : S -> A) (Q : A -> S -> Prop) s :
  Q (f s) s -> wp (gets f) Q X s.
Proof. done. Qed.

Lemma wp_modify f (Q : unit -> S -> Prop) s : Q tt (f s) -> wp (modify f) Q X s.
Proof. done. Qed.

Lemma wp_deref {A} (o : option A) a (Q : A -> S -> Prop) s :
  o = Some a -> Q a s -> wp (deref o) Q X s.
Proof. by intros ->. Qed.

Lemma wp_access b (Q : unit -> S -> Prop) s :
  b = true -> Q tt s -> wp (access b) Q X s.
Proof. by intros ->. Qed.

Lemma wp_exit {A} code (Q : A -> S -> Prop) s : X s -> wp (exit_with code) Q X s.
Proof. done. Qed.

Lemma wp_when (b : bool) m (Q : unit -> S -> Prop) s :
  (b = true -> wp m Q X s) -> (b = false -> Q tt s) -> wp (when b m) Q X s.
Proof. destruct b; intros H1 H2; [by apply H1|by apply H2]. Qed.
End WpRules.

Lemma wp_zoom {S T A} (get : S -> T) (set : T -> S -> S) (m : M T A) Q X s :
  wp m (fun a t => Q a (set t s)) (fun t => X (set t s)) (get s) ->
  wp (zoom get set m) Q X s.
Proof. unfold wp, zoom. by destruct (m (get s)). Qed.

(** What [wp] says when the run is known, and the converse. *)
Lemma wp_Done {S A} (m : M S A) Q X s a s' :
  m s = Done a s' -> Q a s' -> wp m Q X s.
Proof. unfold wp. by intros ->. Qed.

Lemma wp_inv {S A} (m : M S A) Q X s :
  wp m Q X s -> (exists a s', m s = Done a s' /\ Q a s') \/
                (exists c s', m s = Exit c s' /\ X s').
Proof.
  unfold wp. destruct (m s); intros HQ; try done; [left|right]; eauto.
Qed.

Lemma wp_run {S A} (m : M S A) Q X s a s' : wp m Q X s -> m s = Done a s' -> Q a s'.
Proof. intros H E. unfold wp in H. by rewrite E in H. Qed.

Lemma wp_and_run {S A} (m : M S A) (Q P : A -> S -> Prop) X s :
  wp m Q X s -> (forall a s', m s = Done a s' -> P a s') -> wp m (fun a s' => Q a s' /\ P a s') X s.
Proof. unfold wp. destruct (m s); auto. Qed.

Lemma wp_returns {S A} (m : M S A) Q s :
  wp m Q (fun _ => False) s <-> exists a s', m s = Done a s' /\ Q a s'.
Proof.
  unfold wp. destruct (m s) as [a s'| | |]; split; try done.
  - eauto.
  - by intros (? & ? & [= -> ->] & HQ).
  - by intros (? & ? & ? & _).
  - by intros (? & ? & ? & _).
  - by intros (? & ? & ? & _).
Qed.

(** ** Runs of the monad, as equations *)

Lemma bind_Done {S A B} (m : M S A) (k : A -> M S B) s a s' :
  m s = Done a s' -> (m ≫= k) s = k a s'.
Proof. unfold mbind, M_bind. by intros ->. Qed.

Lemma bind_run {S A B} (m : M S A) (k : A -> M S B) s b s' :
  (m ≫= k) s = Done b s' -> exists a s1, m s = Done a s1 /\ k a s1 = Done b s'.
Proof. unfold mbind, M_bind. destruct (m s); try done. eauto. Qed.

Lemma bind_Undef {S A B} (m : M S A) (k : A -> M S B) s :
  m s = Undef -> (m ≫= k) s = Undef.
Proof. unfold mbind, M_bind. by intros ->. Qed.

Lemma bind_Exit {S A B} (m : M S A) (k : A -> M S B) s c s' :
  m s = Exit c s' -> (m ≫= k) s = Exit c s'.
Proof. unfold mbind, M_bind. by intros ->. Qed.

(** The steps that need no fact about the memory. *)
Ltac wp_step :=
  lazymatch goal with
  | |- wp (mbind _ _) _ _ _ => apply wp_bind
  | |- wp (mret _) _ _ _ => apply wp_ret
  | |- wp (gets _) _ _ _ => apply wp_gets
  | |- wp (modify _) _ _ _ => apply wp_modify
  | |- wp (exit_with _) _ _ _ => apply wp_exit
  | |- wp (deref (Some _)) _ _ _ => eapply wp_deref; [reflexivity|]
  | |- wp (access true) _ _ _ => apply wp_access; [reflexivity|]
  end.
Ltac wp_steps := repeat (wp_step; cbv beta).

Create HintDb ctcp.
Create Rewrite HintDb ctcp.

(** ** Bits

    Putting a field above the low [n] bits is an addition. *)

Lemma lor_shiftl_add a k n :
  0 <= n -> 0 <= a < 2 ^ n -> Z.lor a (Z.shiftl k n) = a + k * 2 ^ n.
Proof.
  intros Hn Ha. rewrite <- Z.add_lor_land. rewrite Z.shiftl_mul_pow2 by lia.
  replace (Z.land _ _) with 0; [lia|].
  symmetry. apply Z.bits_inj'. intros i Hi. rewrite Z.bits_0, Z.land_spec.
  destruct (decide (i < n)).
  - rewrite Z.mul_pow2_bits_low by lia. by rewrite andb_false_r.
  - rewrite <- (Z.mod_small a (2 ^ n)) by lia.
    by rewrite Z.mod_pow2_bits_high by lia.
Qed.

Lemma lor_range a b n :
  0 <= n -> 0 <= a < 2 ^ n -> 0 <= b < 2 ^ n -> 0 <= Z.lor a b < 2 ^ n.
Proof.
  intros Hn Ha Hb. replace (Z.lor a b) with (Z.lor a b mod 2 ^ n).
  - apply Z.mod_pos_bound. lia.
  - rewrite <- !Z.land_ones, Z.land_lor_distr_l, !Z.land_ones by lia.
    by rewrite !Z.mod_small.
Qed.

Lemma lxor_range a b n :
  0 <= n -> 0 <= a < 2 ^ n -> 0 <= b < 2 ^ n -> 0 <= Z.lxor a b < 2 ^ n.
Proof.
  intros Hn Ha Hb. replace (Z.lxor a b) with (Z.lxor a b mod 2 ^ n).
  - apply Z.mod_pos_bound. lia.
  - apply Z.bits_inj'. intros i Hi. destruct (decide (i < n)).
    + by rewrite Z.mod_pow2_bits_low by lia.
    + rewrite Z.mod_pow2_bits_high, Z.lxor_spec by lia.
      rewrite <- (Z.mod_small a (2 ^ n)), <- (Z.mod_small b (2 ^ n)) by lia.
      by rewrite !Z.mod_pow2_bits_high by lia.
Qed.

(** ** Lists *)

(** Induction two elements at a time. *)
Lemma list_pair_ind {A} (P : list A -> Prop) :
  P [] -> (forall x, P [x]) -> (forall x y l, P l -> P (x :: y :: l)) -> forall l, P l.
Proof.
  intros H0 H1 H2 l. enough (P l /\ forall x, P (x :: l)) by tauto.
  induction l as [|y l [IH1 IH2]]; split; auto.
Qed.

Lemma last_snoc_inv {A} (l : list A) : l = [] \/ exists l' x, l = l' ++ [x].
Proof.
  destruct (decide (l = [])) as [->|Hne]; [by left|right].
  destruct (exists_last Hne) as (l' & x & ->). eauto.
Qed.

Lemma head_app_cons {A} (l1 l2 : list A) (x y : A) :
  head (l1 ++ x :: l2) = head (l1 ++ [x]).
Proof. by destruct l1. Qed.

(** A segment of a list, cut at a member. *)
Lemma elem_of_split {A} (x : A) (l : list A) :
  x ∈ l -> exists l1 l2, l = l1 ++ x :: l2.
Proof. apply list_elem_of_split. Qed.

(** Goals [m !! k = Some ?v] on a map built by updates. *)
Ltac solve_lookup :=
  repeat first
    [ rewrite lookup_insert_eq
    | rewrite lookup_insert_ne by (congruence || done)
    | rewrite lookup_delete_ne by (congruence || done) ];
  first [ reflexivity | eassumption | eauto ].
