(* ===== verification/Heap.v ===== *)
(** * Typed C heaps

    The memory [calloc] hands out, one heap per type of object: a finite map
    from addresses to objects and the next address. Addresses are never used
    twice, so an access through a dangling pointer is always seen, and [calloc]
    never fails, as the program never tests its result. *)

From S2P Require Import Prelude.

(** A non-null address; a pointer is an [option loc], [None] being [NULL]. *)
Abbreviation loc := positive.
Abbreviation ptr := (option positive).

Record heap (A : Type) := Heap { mem : gmap loc A; brk : loc }.
Arguments Heap {A} mem brk.
Arguments mem {A} h.
Arguments brk {A} h.

Section Heap.
Context {A : Type}.
Implicit Types (h : heap A) (l : loc) (p : ptr) (a : A).

Definition heap_empty : heap A := Heap ∅ 1%positive.

Definition calloc (a : A) : M (heap A) loc := fun h =>
  Done (brk h) (Heap (<[brk h := a]> (mem h)) (Pos.succ (brk h))).

Definition load (l : loc) : M (heap A) A := fun h =>
  match mem h !! l with Some a => Done a h | None => Undef end.

Definition store (l : loc) (a : A) : M (heap A) unit := fun h =>
  match mem h !! l with
  | Some _ => Done tt (Heap (<[l := a]> (mem h)) (brk h))
  | None => Undef
  end.

(** [free]: nothing for a null pointer, undefined for one that is not live. *)
Definition free (p : ptr) : M (heap A) unit := fun h =>
  match p with
  | None => Done tt h
  | Some l =>
      match mem h !! l with
      | Some _ => Done tt (Heap (delete l (mem h)) (brk h))
      | None => Undef
      end
  end.

(** Updating fields of the object at [l]. *)
Definition update (l : loc) (f : A -> A) : M (heap A) unit :=
  a ← load l; store l (f a).

(** Every live object lies below the next address. *)
Definition heap_wf h : Prop := forall l, is_Some (mem h !! l) -> (l < brk h)%positive.

Lemma heap_wf_empty : heap_wf heap_empty.
Proof. intros l [a Ha]. simpl in Ha. by rewrite lookup_empty in Ha. Qed.

Lemma heap_wf_fresh h : heap_wf h -> mem h !! brk h = None.
Proof.
  intros Hwf. destruct (mem h !! brk h) eqn:E; [|done].
  specialize (Hwf (brk h) (mk_is_Some _ _ E)). lia.
Qed.

Lemma heap_wf_calloc h a :
  heap_wf h -> heap_wf (Heap (<[brk h := a]> (mem h)) (Pos.succ (brk h))).
Proof.
  intros Hwf l Hl. simpl in *. destruct (decide (l = brk h)) as [->|Hne]; [lia|].
  rewrite lookup_insert_ne in Hl by done. specialize (Hwf _ Hl). lia.
Qed.

Lemma heap_wf_insert h l a :
  heap_wf h -> is_Some (mem h !! l) -> heap_wf (Heap (<[l := a]> (mem h)) (brk h)).
Proof.
  intros Hwf Hl k Hk. simpl in *. destruct (decide (k = l)) as [->|Hne]; [by apply Hwf|].
  rewrite lookup_insert_ne in Hk by done. by apply Hwf.
Qed.

Lemma heap_wf_delete h l : heap_wf h -> heap_wf (Heap (delete l (mem h)) (brk h)).
Proof.
  intros Hwf k [a Hk]. simpl in *. apply lookup_delete_Some in Hk as [_ Hk].
  apply Hwf. eauto.
Qed.

Section Rules.
Context (X : heap A -> Prop).

Lemma wp_calloc a (Q : loc -> heap A -> Prop) h :
  Q (brk h) (Heap (<[brk h := a]> (mem h)) (Pos.succ (brk h))) ->
  wp (calloc a) Q X h.
Proof. done. Qed.

Lemma wp_load l a (Q : A -> heap A -> Prop) h :
  mem h !! l = Some a -> Q a h -> wp (load l) Q X h.
Proof. unfold wp, load. by intros ->. Qed.

Lemma wp_store l a (Q : unit -> heap A -> Prop) h :
  is_Some (mem h !! l) -> Q tt (Heap (<[l := a]> (mem h)) (brk h)) ->
  wp (store l a) Q X h.
Proof. unfold wp, store. by intros [? ->]. Qed.

Lemma wp_free l (Q : unit -> heap A -> Prop) h :
  is_Some (mem h !! l) -> Q tt (Heap (delete l (mem h)) (brk h)) ->
  wp (free (Some l)) Q X h.
Proof. unfold wp, free. by intros [? ->]. Qed.

Lemma wp_update l a f (Q : unit -> heap A -> Prop) h :
  mem h !! l = Some a -> Q tt (Heap (<[l := f a]> (mem h)) (brk h)) ->
  wp (update l f) Q X h.
Proof.
  intros Ha HQ. unfold update. apply wp_bind, (wp_load l a); [done|].
  apply wp_store; eauto.
Qed.
End Rules.
End Heap.

Arguments heap_empty {A}.

#[export] Hint Resolve heap_wf_empty heap_wf_calloc heap_wf_insert heap_wf_delete
  heap_wf_fresh : ctcp.

(** Checking well-formedness of a concrete heap by computation. *)
Lemma heap_wf_check {A} (h : heap A) :
  bool_decide (map_Forall (fun l (_ : A) => (l < brk h)%positive) (mem h)) = true ->
  heap_wf h.
Proof. intros Hm%bool_decide_eq_true l [a Ha]. by apply (Hm l a). Qed.
