(* ===== verification/Words.v ===== *)
(** * Machine integers and byte order

    The fixed-width integers of the program as [Z] with the wrap-around
    written out, their little-endian representation in the memory of the host
    (x86-64, where the program is built), and the byte-order conversions of
    [<arpa/inet.h>]. Bytes are [Byte.byte]; the lists of bytes and their values
    are those of coqutil. *)

From coqutil Require Import Byte Word.LittleEndianList.
From S2P Require Import Prelude.

Abbreviation byte := Corelib.Init.Byte.byte.

(** The value of a byte as an [unsigned char], and the byte of an integer. *)
Abbreviation b2z := coqutil.Byte.byte.unsigned.
Abbreviation z2b := coqutil.Byte.byte.of_Z.

Lemma b2z_range b : 0 <= b2z b < 2 ^ 8.
Proof. apply byte.unsigned_range. Qed.
Lemma b2z_z2b x : b2z (z2b x) = x mod 2 ^ 8.
Proof. apply byte.unsigned_of_Z. Qed.
Lemma z2b_b2z b : z2b (b2z b) = b.
Proof. apply byte.of_Z_unsigned. Qed.
Lemma b2z_inj b1 b2 : b2z b1 = b2z b2 -> b1 = b2.
Proof. apply byte.unsigned_inj. Qed.

#[export] Hint Resolve b2z_range : ctcp.

(** ** Conversions to the integer types of C *)

Definition u8 (x : Z) : Z := x mod 2 ^ 8.
Definition u16 (x : Z) : Z := x mod 2 ^ 16.
Definition u32 (x : Z) : Z := x mod 2 ^ 32.
Definition u64 (x : Z) : Z := x mod 2 ^ 64.
Definition i16 (x : Z) : Z := (x + 2 ^ 15) mod 2 ^ 16 - 2 ^ 15.
Definition i32 (x : Z) : Z := (x + 2 ^ 31) mod 2 ^ 32 - 2 ^ 31.

Lemma u8_range x : 0 <= u8 x < 2 ^ 8.
Proof. by apply Z.mod_pos_bound. Qed.
Lemma u16_range x : 0 <= u16 x < 2 ^ 16.
Proof. by apply Z.mod_pos_bound. Qed.
Lemma u32_range x : 0 <= u32 x < 2 ^ 32.
Proof. by apply Z.mod_pos_bound. Qed.

Lemma u8_small x : 0 <= x < 2 ^ 8 -> u8 x = x.
Proof. apply Z.mod_small. Qed.
Lemma u16_small x : 0 <= x < 2 ^ 16 -> u16 x = x.
Proof. apply Z.mod_small. Qed.
Lemma u32_small x : 0 <= x < 2 ^ 32 -> u32 x = x.
Proof. apply Z.mod_small. Qed.
Lemma i16_small x : - 2 ^ 15 <= x < 2 ^ 15 -> i16 x = x.
Proof. unfold i16. intros ?. rewrite Z.mod_small; lia. Qed.
Lemma i32_small x : - 2 ^ 31 <= x < 2 ^ 31 -> i32 x = x.
Proof. unfold i32. intros ?. rewrite Z.mod_small; lia. Qed.

Lemma u16_idemp x : u16 (u16 x) = u16 x.
Proof. apply u16_small, u16_range. Qed.
Lemma u32_idemp x : u32 (u32 x) = u32 x.
Proof. apply u32_small, u32_range. Qed.

Lemma u32_add_sub x y : 0 <= x < 2 ^ 32 -> u32 (u32 (x + y) - y) = x.
Proof. intros. unfold u32. rewrite Zminus_mod_idemp_l. rewrite Z.mod_small; lia. Qed.
Lemma u32_sub_add x y : 0 <= x < 2 ^ 32 -> u32 (u32 (x - y) + y) = x.
Proof. intros. unfold u32. rewrite Zplus_mod_idemp_l. rewrite Z.mod_small; lia. Qed.

#[export] Hint Resolve u8_range u16_range u32_range : ctcp.
#[export] Hint Rewrite u16_idemp u32_idemp : ctcp.

(** ** Integers in memory *)

(** The [n] bytes of a little-endian integer, and the integer of some bytes. *)
Definition le_bytes (n : nat) (x : Z) : list byte := le_split n x.
Definition le_int (bs : list byte) : Z := le_combine bs.

Lemma le_bytes_length n x : length (le_bytes n x) = n.
Proof. apply length_le_split. Qed.

Lemma le_int_bytes n x : 0 <= x < 2 ^ (Z.of_nat n * 8) -> le_int (le_bytes n x) = x.
Proof. intros. unfold le_int, le_bytes. rewrite le_combine_split. by apply Z.mod_small. Qed.

Lemma le_bytes_int bs : le_bytes (length bs) (le_int bs) = bs.
Proof. apply split_le_combine. Qed.

Lemma le_bytes_int' n bs : length bs = n -> le_bytes n (le_int bs) = bs.
Proof. intros <-. apply le_bytes_int. Qed.

Lemma le_int_range bs : 0 <= le_int bs < 2 ^ (8 * Z.of_nat (length bs)).
Proof. apply le_combine_bound. Qed.

#[export] Hint Rewrite le_bytes_length : ctcp.

(** ** Byte order: [htons], [htonl] and their inverses *)

Definition htons (x : Z) : Z := le_int (rev (le_bytes 2 x)).
Definition ntohs (x : Z) : Z := le_int (rev (le_bytes 2 x)).
Definition htonl (x : Z) : Z := le_int (rev (le_bytes 4 x)).
Definition ntohl (x : Z) : Z := le_int (rev (le_bytes 4 x)).

Lemma swap_swap n x :
  0 <= x < 2 ^ (Z.of_nat n * 8) ->
  le_int (rev (le_bytes n (le_int (rev (le_bytes n x))))) = x.
Proof.
  intros Hx. rewrite (le_bytes_int' n).
  - rewrite rev_involutive. by apply le_int_bytes.
  - by rewrite length_rev, le_bytes_length.
Qed.

Lemma ntohs_htons x : 0 <= x < 2 ^ 16 -> ntohs (htons x) = x.
Proof. apply (swap_swap 2). Qed.
Lemma htons_ntohs x : 0 <= x < 2 ^ 16 -> htons (ntohs x) = x.
Proof. apply (swap_swap 2). Qed.
Lemma ntohl_htonl x : 0 <= x < 2 ^ 32 -> ntohl (htonl x) = x.
Proof. apply (swap_swap 4). Qed.
Lemma htonl_ntohl x : 0 <= x < 2 ^ 32 -> htonl (ntohl x) = x.
Proof. apply (swap_swap 4). Qed.

Lemma htons_range x : 0 <= htons x < 2 ^ 16.
Proof.
  pose proof (le_int_range (rev (le_bytes 2 x))) as H.
  by rewrite length_rev, le_bytes_length in H.
Qed.
Lemma ntohs_range x : 0 <= ntohs x < 2 ^ 16.
Proof. apply htons_range. Qed.
Lemma htonl_range x : 0 <= htonl x < 2 ^ 32.
Proof.
  pose proof (le_int_range (rev (le_bytes 4 x))) as H.
  by rewrite length_rev, le_bytes_length in H.
Qed.
Lemma ntohl_range x : 0 <= ntohl x < 2 ^ 32.
Proof. apply htonl_range. Qed.

Lemma htons_inj x y :
  0 <= x < 2 ^ 16 -> 0 <= y < 2 ^ 16 -> htons x = htons y -> x = y.
Proof. intros Hx Hy E. by rewrite <- (ntohs_htons x), E, ntohs_htons. Qed.
Lemma htonl_inj x y :
  0 <= x < 2 ^ 32 -> 0 <= y < 2 ^ 32 -> htonl x = htonl y -> x = y.
Proof. intros Hx Hy E. by rewrite <- (ntohl_htonl x), E, ntohl_htonl. Qed.

(** The memory image of a converted integer is its big-endian image. *)
Lemma le_bytes_htons x : le_bytes 2 (htons x) = rev (le_bytes 2 x).
Proof. apply le_bytes_int'. by rewrite length_rev, le_bytes_length. Qed.
Lemma le_bytes_htonl x : le_bytes 4 (htonl x) = rev (le_bytes 4 x).
Proof. apply le_bytes_int'. by rewrite length_rev, le_bytes_length. Qed.

#[export] Hint Resolve htons_range ntohs_range htonl_range ntohl_range : ctcp.
#[export] Hint Rewrite ntohs_htons htons_ntohs ntohl_htonl htonl_ntohl
  using (auto with ctcp; lia) : ctcp.

(** The bytes of a 16-bit integer. *)
Lemma le_bytes_2 x : le_bytes 2 x = [z2b x; z2b (Z.shiftr x 8)].
Proof. reflexivity. Qed.

Lemma le_int_2 b0 b1 : le_int [b0; b1] = b2z b0 + 256 * b2z b1.
Proof.
  unfold le_int. change (Z.lor (b2z b0) (Z.shiftl (le_combine [b1]) 8)
    = b2z b0 + 256 * b2z b1).
  rewrite le_combine_1. pose proof (b2z_range b0).
  rewrite lor_shiftl_add; lia.
Qed.
