(* ===== verification/Text.v ===== *)
(** * C strings and their formats

    Text as the program writes it: lists of bytes without a zero, the
    conversions of [printf] that it uses, [snprintf] and [strlen] on a buffer,
    with what happens at its end, and reading the formats back. *)

From stdpp Require Import strings pretty.
From S2P Require Import Prelude Words.

Abbreviation text := (list byte).

#[export] Instance byte_dec : EqDecision byte := Byte.byte_eq_dec.

Definition lit (s : string) : text := String.list_byte_of_string s.

Definition TAB : byte := Byte.x09.
Definition NUL : byte := Byte.x00.

(** ** Conversions *)

(** [%d] and [%lu]. *)
Definition dec (z : Z) : text := lit (pretty z).

(** [%02x] of a byte, and [%x] of a 32-bit number. *)
Definition hex_digit (n : Z) : byte := z2b (if n <? 10 then 48 + n else 87 + n).
Definition hex2 (b : byte) : text := [hex_digit (b2z b / 16); hex_digit (b2z b mod 16)].

Fixpoint hex_go (fuel : nat) (n : Z) (acc : text) : text :=
  match fuel with
  | O => acc
  | S fuel => if n =? 0 then acc else hex_go fuel (n / 16) (hex_digit (n mod 16) :: acc)
  end.
Definition hex (n : Z) : text := if n =? 0 then [hex_digit 0] else hex_go 8 n [].

(** ** Buffers *)

(** [snprintf(buf + off, n, ...)], [s] being what is printed: it is cut after
    [n - 1] bytes and ended by a zero. *)
Definition snprintf (off n : Z) (s : text) : M text unit :=
  buf ← gets id;
  let out := take (Z.to_nat (n - 1)) s ++ [NUL] in
  access ((0 <=? off) && (off + Z.of_nat (length out) <=? Z.of_nat (length buf)));;
  modify (fun _ => take (Z.to_nat off) buf ++ out ++ drop (Z.to_nat off + length out) buf).

(** [strlen(buf)]. *)
Definition strlen : M text Z :=
  buf ← gets id; '(i, _) ← deref (list_find (fun b => b = NUL) buf); mret (Z.of_nat i).

(** ** What the conversions give *)

Definition numeral (b : byte) : Prop := 45 <= b2z b <= 57.

Lemma lit_length s : length (lit s) = String.length s.
Proof. induction s as [|c s IH]; [done|]. cbn. by rewrite <- IH. Qed.

Lemma pretty_N_go_spec k x s :
  (x < 10 ^ N.of_nat k)%N ->
  exists ds, lit (pretty_N_go x s) = ds ++ lit s /\ (length ds <= k)%nat /\ Forall numeral ds.
Proof.
  revert x s. induction k as [|k IH]; intros x s Hx.
  - simpl in Hx. assert (x = 0%N) as -> by lia. rewrite pretty_N_go_0. exists []. split_and!; [done|done|constructor].
  - destruct (decide (x = 0%N)) as [->|Hne].
    { rewrite pretty_N_go_0. exists []. split_and!; [done|simpl; lia|constructor]. }
    rewrite pretty_N_go_step by lia.
    destruct (IH (x `div` 10)%N (String (pretty_N_char (x `mod` 10)) s)) as (ds & E & Hl & Hd).
    { apply N.Div0.div_lt_upper_bound. rewrite <- N.pow_succ_r'. by rewrite <- Nat2N.inj_succ. }
    exists (ds ++ [Ascii.byte_of_ascii (pretty_N_char (x `mod` 10))]). split_and!.
    + rewrite E, <- app_assoc. done.
    + rewrite length_app. simpl. lia.
    + apply Forall_app. split; [done|]. apply Forall_singleton. unfold numeral, pretty_N_char.
      by repeat case_match.
Qed.

Lemma dec_spec k z :
  (0 < k)%nat -> - 10 ^ Z.of_nat k < z < 10 ^ Z.of_nat k ->
  Forall numeral (dec z) /\ (length (dec z) <= (if (z <? 0)%Z then 1 else 0) + k)%nat.
Proof.
  intros Hk Hz.
  assert (Hp : forall p, Z.pos p < 10 ^ Z.of_nat k ->
    exists ds, lit (pretty p) = ds /\ (length ds <= k)%nat /\ Forall numeral ds).
  { intros p Hp. destruct (pretty_N_go_spec k (N.pos p) "") as (ds & E & H).
    - apply N2Z.inj_lt. rewrite N2Z.inj_pow, nat_N_Z. exact Hp.
    - exists ds. split; [|done].
      change (lit (pretty p)) with (lit (pretty_N_go (N.pos p) "")). by rewrite E, app_nil_r. }
  unfold dec, pretty, pretty_Z. destruct z as [|p|p].
  - split; [|simpl; lia]. by repeat constructor.
  - destruct (Hp p) as (ds & -> & Hl & Hd); [lia|]. split; [done|]. simpl. lia.
  - destruct (Hp p) as (ds & E & Hl & Hd); [lia|].
    change (lit ("-" +:+ pretty p)) with (Byte.x2d :: lit (pretty p)). rewrite E.
    split; [constructor; [by vm_compute|done]|simpl; lia].
Qed.

(** Numbers are read back: what is printed determines them. *)
Lemma lit_inj s1 s2 : lit s1 = lit s2 -> s1 = s2.
Proof.
  revert s2. induction s1 as [|c1 s1 IH]; intros [|c2 s2]; try done. intros [= Hc Hs].
  f_equal; [|by apply IH]. by rewrite <- (Ascii.ascii_of_byte_of_ascii c1), Hc, Ascii.ascii_of_byte_of_ascii.
Qed.

Lemma dec_inj z1 z2 : dec z1 = dec z2 -> z1 = z2.
Proof. intros E. by apply lit_inj, (inj pretty) in E. Qed.

(** *** Hexadecimal *)

Definition unhex (b : byte) : Z := if b2z b <? 58 then b2z b - 48 else b2z b - 87.

Definition hexadecimal (b : byte) : Prop := 48 <= b2z b <= 102.

Lemma hex_digit_value n : 0 <= n < 16 -> b2z (hex_digit n) = if n <? 10 then 48 + n else 87 + n.
Proof. intros Hn. unfold hex_digit. rewrite b2z_z2b. destruct (Z.ltb_spec n 10); rewrite Z.mod_small; lia. Qed.

Lemma unhex_digit n : 0 <= n < 16 -> unhex (hex_digit n) = n.
Proof.
  intros Hn. unfold unhex. rewrite hex_digit_value by done.
  destruct (Z.ltb_spec n 10); [destruct (Z.ltb_spec (48 + n) 58)|destruct (Z.ltb_spec (87 + n) 58)]; lia.
Qed.

Lemma hex_digit_ok n : 0 <= n < 16 -> hexadecimal (hex_digit n).
Proof. intros Hn. unfold hexadecimal. rewrite hex_digit_value by done. destruct (Z.ltb_spec n 10); lia. Qed.

Lemma hex2_digits b : Forall hexadecimal (hex2 b).
Proof.
  pose proof (b2z_range b).
  apply Forall_cons; split; [|apply Forall_cons; split; [|done]]; apply hex_digit_ok;
    [|by apply Z.mod_pos_bound].
  split; [apply Z.div_pos; lia|apply Z.div_lt_upper_bound; lia].
Qed.

Lemma hex_go_spec fuel n acc :
  exists ds, hex_go fuel n acc = ds ++ acc /\ (length ds <= fuel)%nat /\ Forall hexadecimal ds.
Proof.
  revert n acc. induction fuel as [|fuel IH]; intros n acc; simpl.
  { exists []. split_and!; [done|done|constructor]. }
  destruct (n =? 0); [exists []; split_and!; [done|simpl; lia|constructor]|].
  destruct (IH (n / 16) (hex_digit (n mod 16) :: acc)) as (ds & -> & Hl & Hd).
  exists (ds ++ [hex_digit (n mod 16)]). split_and!.
  - by rewrite <- app_assoc.
  - rewrite length_app. simpl. lia.
  - apply Forall_app. split; [done|]. apply Forall_singleton, hex_digit_ok. by apply Z.mod_pos_bound.
Qed.

Lemma hex_spec n : Forall hexadecimal (hex n) /\ (length (hex n) <= 8)%nat.
Proof.
  unfold hex. destruct (n =? 0).
  - split; [apply Forall_singleton; by vm_compute|simpl; lia].
  - destruct (hex_go_spec 8 n []) as (ds & -> & Hl & Hd). by rewrite app_nil_r.
Qed.

(** ** A buffer that holds a string *)

Definition plain (b : byte) : Prop := b <> NUL.

Definition buffer (t : text) (k : nat) : text := t ++ replicate k NUL.

(** What is printed after the string in a buffer with room for it. *)
Lemma snprintf_append t k n s :
  (length s < k)%nat -> Z.of_nat (length s) < n ->
  snprintf (Z.of_nat (length t)) n s (buffer t k) = Done tt (buffer (t ++ s) (k - length s)).
Proof.
  intros Hk Hn. unfold snprintf, mbind, M_bind, gets, id, access, modify.
  rewrite (firstn_all2 s) by lia. rewrite Nat2Z.id.
  assert (Hb : (0 <=? Z.of_nat (length t)) && (Z.of_nat (length t) + Z.of_nat (length (s ++ [NUL])) <=?
    Z.of_nat (length (buffer t k))) = true).
  { unfold buffer. rewrite !length_app, length_replicate, andb_true_iff, !Z.leb_le. simpl. lia. }
  rewrite Hb. f_equal. unfold buffer. rewrite take_app_length, <- !app_assoc. do 2 f_equal.
  rewrite drop_app_ge by lia.
  replace (length t + length (s ++ [NUL]) - length t)%nat with (length (s ++ [NUL])) by lia.
  rewrite drop_replicate, length_app. simpl.
  replace (k - length s)%nat with (Datatypes.S (k - (length s + 1))) by lia. done.
Qed.

Lemma strlen_run t k :
  Forall plain t -> (0 < k)%nat ->
  strlen (buffer t k) = Done (Z.of_nat (length t)) (buffer t k).
Proof.
  intros Ht Hk. unfold strlen, mbind, M_bind, gets, id.
  assert (E : list_find (fun b => b = NUL) (buffer t k) = Some (length t, NUL)).
  { apply list_find_Some. unfold buffer. destruct k as [|k]; [lia|]. split_and!.
    - by rewrite lookup_app_r, Nat.sub_diag by lia.
    - done.
    - intros j y Hj Hlt. rewrite lookup_app_l in Hj by done.
      rewrite Forall_forall in Ht. apply Ht. by eapply list_elem_of_lookup_2. }
  by rewrite E.
Qed.

(** ** Columns *)

(** A line is cut at its tabs. *)
Fixpoint columns (t : text) : list text :=
  match t with
  | [] => [[]]
  | b :: t =>
      if bool_decide (b = TAB) then [] :: columns t
      else match columns t with [] => [[b]] | c :: cs => (b :: c) :: cs end
  end.

Definition no_tab (b : byte) : Prop := b <> TAB.

Lemma columns_app c t :
  Forall no_tab c -> columns (c ++ TAB :: t) = c :: columns t.
Proof.
  induction 1 as [|b c Hb _ IH]; [done|]. simpl. rewrite bool_decide_false by done.
  by rewrite IH.
Qed.

Lemma columns_last c : Forall no_tab c -> columns c = [c].
Proof.
  induction 1 as [|b c Hb _ IH]; [done|]. simpl. rewrite bool_decide_false by done. by rewrite IH.
Qed.

(** Characters of lines: neither zeros nor tabs. *)
Definition visible (b : byte) : Prop := 32 <= b2z b.

Lemma visible_check t : forallb (fun b => 32 <=? b2z b) t = true -> Forall visible t.
Proof.
  intros H. rewrite forallb_forall in H. apply Forall_forall. intros b Hb.
  by apply Z.leb_le, H, list_elem_of_In.
Qed.

Lemma visible_plain b : visible b -> plain b.
Proof. unfold visible. by intros H ->. Qed.
Lemma visible_no_tab b : visible b -> no_tab b.
Proof. unfold visible. by intros H ->. Qed.
Lemma numeral_visible b : numeral b -> visible b.
Proof. unfold numeral, visible. lia. Qed.
Lemma hexadecimal_visible b : hexadecimal b -> visible b.
Proof. unfold hexadecimal, visible. lia. Qed.

Lemma dec_visible z : Forall visible (dec z).
Proof.
  eapply Forall_impl; [|apply numeral_visible].
  apply (dec_spec (Z.to_nat (Z.abs z + 1)) z); [lia|].
  pose proof (Z.pow_gt_lin_r 10 (Z.abs z + 1)). rewrite Z2Nat.id by lia. lia.
Qed.
Lemma hex_visible n : Forall visible (hex n).
Proof. eapply Forall_impl; [apply hex_spec|apply hexadecimal_visible]. Qed.
Lemma hex2_visible b : Forall visible (hex2 b).
Proof. eapply Forall_impl; [apply hex2_digits|apply hexadecimal_visible]. Qed.

(** The length of the numbers of the program's types. *)
Lemma dec_length_int z : - 2 ^ 31 <= z < 2 ^ 31 -> (length (dec z) <= 11)%nat.
Proof.
  intros Hz. destruct (dec_spec 10 z) as [_ H]; [lia|lia|]. destruct (z <? 0); lia.
Qed.
Lemma dec_length_pos k z : (0 < k)%nat -> 0 <= z < 10 ^ Z.of_nat k -> (length (dec z) <= k)%nat.
Proof.
  intros Hk Hz. destruct (dec_spec k z) as [_ H]; [done|lia|].
  by rewrite (proj2 (Z.ltb_ge z 0)) in H by lia.
Qed.

(** [snprintf(buf + strlen(buf), n, ...)]. *)
Definition snprintf_end (n : Z) (s : text) : M text unit := off ← strlen; snprintf off n s.

Lemma snprintf_end_run t k n s :
  Forall plain t -> (length s < k)%nat -> Z.of_nat (length s) < n ->
  snprintf_end n s (buffer t k) = Done tt (buffer (t ++ s) (k - length s)).
Proof.
  intros Ht Hk Hn. unfold snprintf_end. erewrite bind_Done by (apply strlen_run; [done|lia]).
  by apply snprintf_append.
Qed.
