(* ===== verification/Cksum.v ===== *)
(** * The Internet checksum ([src/ctcp_utils.c])

    [cksum] with its loop over pairs of bytes on a 32-bit accumulator and its
    loop that folds the carries, and what it computes: the complement of the
    sum of the big-endian 16-bit words modulo 65535, in network byte order. *)

From S2P Require Import Prelude Words.

(** The first loop: two bytes at a time, then a last odd byte. Reading past
    the end of the data has no result. *)
Fixpoint cksum_words (data : list byte) (len : nat) (sum : Z) : option Z :=
  match len with
  | O => Some sum
  | S O =>
      match data with
      | b0 :: _ => Some (u32 (sum + Z.shiftl (b2z b0) 8))
      | _ => None
      end
  | S (S len') =>
      match data with
      | b0 :: b1 :: data' =>
          cksum_words data' len' (u32 (sum + Z.lor (Z.shiftl (b2z b0) 8) (b2z b1)))
      | _ => None
      end
  end.

(** The second loop: [while (sum > 0xffff)]. *)
Fixpoint fold_carry {S} (fuel : nat) (sum : Z) : M S Z :=
  if sum >? 0xffff then
    match fuel with
    | O => no_fuel
    | S fuel' => fold_carry fuel' (u32 (Z.shiftr sum 16 + Z.land sum 0xffff))
    end
  else mret sum.

(** Two iterations are enough for any 32-bit sum ([fold_carry_run]). *)
Definition fold_fuel : nat := 2.

Definition cksum {S} (data : list byte) (len : Z) : M S Z :=
  sum ← deref (cksum_words data (Z.to_nat (u16 len)) 0);
  sum ← fold_carry fold_fuel sum;
  let sum := htons (u16 (Z.lnot sum)) in
  mret (if bool_decide (sum = 0) then 0xffff else sum).

(** ** The value of the checksum *)

(** The sum of the big-endian 16-bit words, an odd last byte padded with 0. *)
Fixpoint word_sum (bs : list byte) : Z :=
  match bs with
  | [] => 0
  | [b0] => 256 * b2z b0
  | b0 :: b1 :: bs' => 256 * b2z b0 + b2z b1 + word_sum bs'
  end.

Definition cksum_of (bs : list byte) : Z := htons (65535 - word_sum bs mod 65535).

Lemma word_sum_nonneg bs : 0 <= word_sum bs.
Proof.
  induction bs as [|b|b0 b1 bs IH] using list_pair_ind; simpl; [lia| |].
  - pose proof (b2z_range b). lia.
  - pose proof (b2z_range b0). pose proof (b2z_range b1). lia.
Qed.

Lemma word_sum_le bs : word_sum bs <= 65535 * Z.of_nat (length bs).
Proof.
  induction bs as [|b|b0 b1 bs IH] using list_pair_ind; simpl length; simpl word_sum; [lia| |].
  - pose proof (b2z_range b). lia.
  - pose proof (b2z_range b0). pose proof (b2z_range b1). lia.
Qed.

Lemma word_sum_app bs1 bs2 :
  Nat.Even (length bs1) -> word_sum (bs1 ++ bs2) = word_sum bs1 + word_sum bs2.
Proof.
  induction bs1 as [|b|b0 b1 bs IH] using list_pair_ind; simpl; intros He; [lia| |].
  - destruct He as [k Hk]. lia.
  - rewrite IH; [lia|]. destruct He as [k Hk]. exists (k - 1)%nat. lia.
Qed.

Lemma be_word_add b0 b1 : Z.lor (Z.shiftl (b2z b0) 8) (b2z b1) = 256 * b2z b0 + b2z b1.
Proof. rewrite Z.lor_comm, lor_shiftl_add; [lia|lia|apply b2z_range]. Qed.

(** The first loop computes the sum of the words, on 32 bits. *)
Lemma cksum_words_run data : forall (len : nat) sum,
  (len <= length data)%nat -> 0 <= sum < 2 ^ 32 ->
  cksum_words data len sum = Some (u32 (sum + word_sum (take len data))).
Proof.
  induction data as [|b|b0 b1 bs IH] using list_pair_ind; intros len sum Hlen Hs; simpl in Hlen.
  - destruct len; [|lia]. simpl. by rewrite Z.add_0_r, u32_small.
  - destruct len as [|[|]]; simpl; [|f_equal|lia].
    + by rewrite Z.add_0_r, u32_small.
    + rewrite Z.shiftl_mul_pow2 by lia. f_equal. lia.
  - destruct len as [|[|len]]; simpl.
    + by rewrite Z.add_0_r, u32_small.
    + rewrite Z.shiftl_mul_pow2 by lia. do 2 f_equal. lia.
    + rewrite IH by (lia || apply u32_range). rewrite be_word_add. f_equal.
      unfold u32. rewrite Zplus_mod_idemp_l. f_equal. lia.
Qed.

(** Folding keeps the value modulo 65535, and ends within [fold_fuel]. *)
Lemma fold_step sum :
  0 <= sum < 2 ^ 32 -> u32 (Z.shiftr sum 16 + Z.land sum 0xffff) = sum / 65536 + sum mod 65536.
Proof.
  intros Hs. change 0xffff with (Z.ones 16). rewrite Z.land_ones, Z.shiftr_div_pow2 by lia.
  change (2 ^ 16) with 65536. apply u32_small. Z.div_mod_to_equations. lia.
Qed.

Lemma fold_step_mod sum : (sum / 65536 + sum mod 65536) mod 65535 = sum mod 65535.
Proof.
  rewrite (Z.div_mod sum 65536) at 3 by lia.
  replace (65536 * (sum / 65536) + sum mod 65536)
    with (sum / 65536 + sum mod 65536 + (sum / 65536) * 65535) by lia.
  by rewrite Z_mod_plus_full.
Qed.

Lemma fold_carry_run {S} sum (s : S) :
  0 <= sum < 2 ^ 32 ->
  exists r, fold_carry fold_fuel sum s = Done r s /\ 0 <= r <= 65535 /\
            r mod 65535 = sum mod 65535.
Proof.
  intros Hs. unfold fold_fuel, fold_carry.
  destruct (Z.gtb_spec sum 0xffff); [|exists sum; split_and!; [done|lia|lia|done]].
  rewrite fold_step by done. pose proof (fold_step_mod sum) as E1.
  set (s1 := sum / 65536 + sum mod 65536) in *.
  assert (0 <= s1 <= 131070) by (subst s1; Z.div_mod_to_equations; lia). clearbody s1.
  destruct (Z.gtb_spec s1 0xffff); [|exists s1; split_and!; [done|lia|lia|done]].
  rewrite fold_step by lia. pose proof (fold_step_mod s1) as E2.
  set (s2 := s1 / 65536 + s1 mod 65536) in *.
  assert (0 <= s2 <= 65535) by (subst s2; Z.div_mod_to_equations; lia). clearbody s2.
  destruct (Z.gtb_spec s2 0xffff); [lia|]. exists s2. split_and!; [done|lia|lia|congruence].
Qed.

(** The complement, with 0 written as 0xffff, depends on the sum modulo 65535. *)
Lemma cksum_finish r m :
  0 <= r <= 65535 -> r mod 65535 = m ->
  (if bool_decide (htons (u16 (Z.lnot r)) = 0) then 0xffff else htons (u16 (Z.lnot r))) =
  htons (65535 - m).
Proof.
  intros Hr Hm. assert (E : u16 (Z.lnot r) = 65535 - r).
  { unfold u16. rewrite <- (Z.mod_small (65535 - r) (2 ^ 16)) by lia.
    replace (Z.lnot r) with (65535 - r + (-1) * 2 ^ 16) by (unfold Z.lnot; lia).
    apply Z_mod_plus_full. }
  rewrite E. destruct (decide (r = 65535)) as [->|Hne].
  - simpl in Hm. subst m. by vm_compute.
  - rewrite Z.mod_small in Hm by lia. subst m. rewrite bool_decide_false; [done|].
    intros E0. change 0 with (htons 0) in E0. apply htons_inj in E0; lia.
Qed.

Lemma cksum_run {S} data len (s : S) :
  0 <= len < 2 ^ 16 -> (Z.to_nat len <= length data)%nat ->
  cksum data len s = Done (cksum_of (take (Z.to_nat len) data)) s.
Proof.
  intros Hlen Hd. unfold cksum. rewrite u16_small by done.
  rewrite cksum_words_run by lia. rewrite Z.add_0_l.
  set (bs := take _ data).
  assert (Hb : 0 <= word_sum bs < 2 ^ 32).
  { pose proof (word_sum_nonneg bs). pose proof (word_sum_le bs).
    subst bs. rewrite length_take in *. lia. }
  rewrite u32_small by done. cbn [deref]. erewrite bind_Done by done.
  destruct (fold_carry_run (word_sum bs) s Hb) as (r & Hr & Hr1 & Hr2).
  rewrite (bind_Done _ _ _ _ _ Hr). unfold cksum_of, mret, M_ret. f_equal.
  by apply cksum_finish.
Qed.

(** Reading past the end of the data is the only failure. *)
Lemma cksum_words_short data : forall (len : nat) sum,
  (length data < len)%nat -> cksum_words data len sum = None.
Proof.
  induction data as [|b|b0 b1 bs IH] using list_pair_ind; intros len sum Hlen; simpl in Hlen.
  - by destruct len as [|[|]]; [lia| |].
  - by destruct len as [|[|]]; [lia|lia|].
  - destruct len as [|[|len]]; [lia|lia|]. simpl. apply IH. lia.
Qed.

(** ** What the checksum tells apart *)

Lemma cksum_of_range bs : 0 < cksum_of bs < 2 ^ 16.
Proof.
  unfold cksum_of. pose proof (Z.mod_pos_bound (word_sum bs) 65535 ltac:(lia)).
  pose proof (htons_range (65535 - word_sum bs mod 65535)).
  assert (htons (65535 - word_sum bs mod 65535) <> 0); [|lia].
  intros E. change 0 with (htons 0) in E. apply htons_inj in E; lia.
Qed.

Lemma cksum_of_eq bs1 bs2 :
  cksum_of bs1 = cksum_of bs2 <-> word_sum bs1 mod 65535 = word_sum bs2 mod 65535.
Proof.
  unfold cksum_of. split; [|by intros ->]. intros E.
  pose proof (Z.mod_pos_bound (word_sum bs1) 65535 ltac:(lia)).
  pose proof (Z.mod_pos_bound (word_sum bs2) 65535 ltac:(lia)).
  apply htons_inj in E; lia.
Qed.

(** The two bytes of the checksum in memory are a big-endian word. *)
Lemma word_sum_le_bytes v : 0 <= v < 2 ^ 16 -> word_sum (le_bytes 2 (htons v)) = v.
Proof.
  intros Hv. rewrite le_bytes_htons, le_bytes_2. simpl.
  rewrite !b2z_z2b, Z.shiftr_div_pow2 by lia. Z.div_mod_to_equations. lia.
Qed.

Lemma word_sum_zeros n : word_sum (replicate n Byte.x00) = 0.
Proof.
  enough (word_sum (replicate n Byte.x00) = 0 /\
          word_sum (Byte.x00 :: replicate n Byte.x00) = 0) by tauto.
  induction n as [|n [IH1 IH2]]; [done|]. split; [done|].
  change (0 + 0 + word_sum (replicate n Byte.x00) = 0). lia.
Qed.

(** Inserting the computed checksum where the data had two zero bytes makes
    the 16-bit words of the data sum to a multiple of 65535, which is the test
    of the Internet checksum (RFC 1071). *)
Theorem cksum_verifies {S} pre post (s : S) :
  Nat.Even (length pre) -> Z.of_nat (length pre + 2 + length post) < 2 ^ 16 ->
  exists c, cksum (pre ++ [Byte.x00; Byte.x00] ++ post)
              (Z.of_nat (length pre + 2 + length post)) s = Done c s /\
            word_sum (pre ++ le_bytes 2 c ++ post) mod 65535 = 0.
Proof.
  intros He Hlen. set (bs := pre ++ _). eexists. split.
  - rewrite cksum_run; [done|lia|]. subst bs. rewrite !length_app. simpl. lia.
  - rewrite firstn_all2 by (subst bs; rewrite !length_app; simpl; lia).
    unfold cksum_of. pose proof (Z.mod_pos_bound (word_sum bs) 65535 ltac:(lia)).
    rewrite (word_sum_app pre) by done.
    rewrite (word_sum_app (le_bytes 2 _)) by (rewrite le_bytes_length; by exists 1%nat).
    rewrite word_sum_le_bytes by lia.
    assert (E : word_sum bs = word_sum pre + word_sum post).
    { subst bs. rewrite (word_sum_app pre) by done.
      rewrite (word_sum_app [_; _]) by (by exists 1%nat). done. }
    replace (word_sum pre + (65535 - word_sum bs mod 65535 + word_sum post))
      with (word_sum bs - word_sum bs mod 65535 + 1 * 65535) by lia.
    rewrite Z_mod_plus_full, Zminus_mod, Zmod_mod, Z.sub_diag. done.
Qed.

(** Changing one byte. *)
Lemma word_sum_insert bs i b b' :
  bs !! i = Some b ->
  word_sum (<[i := b']> bs) =
  word_sum bs + (b2z b' - b2z b) * (if Nat.even i then 256 else 1).
Proof.
  revert i. induction bs as [|x|x y bs IH] using list_pair_ind; intros i Hi; [done| |].
  - destruct i as [|i]; [|done]. simplify_eq/=. lia.
  - destruct i as [|[|i]]; simplify_eq/=; [lia|lia|]. rewrite (IH i) by done. lia.
Qed.

Lemma cksum_of_insert_ne bs i b b' :
  bs !! i = Some b -> b' <> b -> cksum_of (<[i := b']> bs) <> cksum_of bs.
Proof.
  intros Hi Hb. rewrite cksum_of_eq, (word_sum_insert _ _ b) by done. intros E.
  pose proof (b2z_range b). pose proof (b2z_range b').
  assert (b2z b' <> b2z b) by (intros ?%b2z_inj; done).
  destruct (Nat.even i); cbn iota in E; Z.div_mod_to_equations; lia.
Qed.

(** Two buffers of the same length that differ in exactly one byte have
    different checksums. *)
Theorem cksum_detects_byte {S} bs i b b' (s : S) c :
  Z.of_nat (length bs) < 2 ^ 16 -> bs !! i = Some b -> b' <> b ->
  cksum bs (Z.of_nat (length bs)) s = Done c s ->
  exists c', cksum (<[i := b']> bs) (Z.of_nat (length bs)) s = Done c' s /\ c' <> c.
Proof.
  intros Hlen Hi Hb. rewrite cksum_run by lia. intros [= <-].
  eexists. split; [apply cksum_run; [lia|rewrite length_insert; lia]|].
  rewrite !firstn_all2 by (rewrite ?length_insert; lia). by eapply cksum_of_insert_ne.
Qed.

(** C39: the loop over pairs of bytes, with the odd byte at its end, the carry loop and
    the replacement of 0 compute the Internet checksum of the bytes: in network
    order, 65535 less their big-endian 16-bit sum modulo 65535. *)
Theorem cksum_reference {S} data len (s : S) :
  0 <= len < 2 ^ 16 -> len <= Z.of_nat (length data) ->
  cksum data len s = Done (htons (65535 - word_sum (take (Z.to_nat len) data) mod 65535)) s.
Proof. intros Hl Hd. by rewrite cksum_run by lia. Qed.

(** [cksum] never runs out of the model's fuel, and it is undefined exactly
    when its 16-bit length runs past the data. *)
Theorem cksum_total {S} data len (s : S) :
  (exists c, cksum data len s = Done c s /\ 0 < c < 2 ^ 16) \/
  (cksum data len s = Undef /\ Z.of_nat (length data) < u16 len).
Proof.
  pose proof (u16_range len) as Hr.
  assert (E : cksum data len s = cksum data (u16 len) s)
    by (unfold cksum; by rewrite u16_idemp).
  destruct (decide (Z.to_nat (u16 len) <= length data)%nat) as [Hle|Hgt].
  - left. rewrite E, cksum_run by done. eexists. split; [done|]. apply cksum_of_range.
  - right. split; [|lia]. unfold cksum. by rewrite cksum_words_short by lia.
Qed.

Definition cksum_example : list byte := [Byte.x45; Byte.x00; Byte.x00; Byte.x3c].

Lemma cksum_verifies_witness :
  exists c, cksum ([Byte.x45; Byte.x00] ++ [Byte.x00; Byte.x00] ++ [Byte.x3c]) 5 tt = Done c tt /\
            word_sum ([Byte.x45; Byte.x00] ++ le_bytes 2 c ++ [Byte.x3c]) mod 65535 = 0.
Proof. apply (cksum_verifies [Byte.x45; Byte.x00] [Byte.x3c] tt); [by exists 1%nat|done]. Defined.

Lemma cksum_detects_byte_witness :
  exists c', cksum [Byte.x45; Byte.x10; Byte.x00; Byte.x3c] 4 tt = Done c' tt /\ c' <> 0xc3ba.
Proof.
  apply (cksum_detects_byte cksum_example 1 Byte.x00 Byte.x10 tt 0xc3ba);
    [done|done|done|by vm_compute].
Defined.

Lemma cksum_reference_witness :
  cksum cksum_example 3 tt =
  Done (htons (65535 - word_sum (take (Z.to_nat 3) cksum_example) mod 65535)) tt.
Proof. apply cksum_reference; [lia|by vm_compute]. Defined.
