(* ===== verification/LinkedList.v ===== *)
(** * Doubly linked lists ([src/ctcp_linked_list.c])

    Nodes and list heads live in two typed heaps, and the operations follow
    and update the [next], [prev], [head] and [tail] pointers as the C code
    does. [ll_repr] relates the memory to the sequence of a list's nodes with
    their objects; each operation is proved to implement its operation on
    sequences and to leave every other node and list alone. *)

From S2P Require Import Prelude Heap Words.

(** [struct ll_node] and [struct linked_list]. *)
Record ll_node := LLNode { n_next : ptr; n_prev : ptr; n_object : ptr }.
Record linked_list := LList { l_head : ptr; l_tail : ptr; l_length : Z }.

Record ll_mem := LLMem { lists : heap linked_list; nodes : heap ll_node }.

Definition ll_mem_empty : ll_mem := LLMem heap_empty heap_empty.

Definition on_lists {A} : M (heap linked_list) A -> M ll_mem A :=
  zoom lists (fun h s => LLMem h (nodes s)).
Definition on_nodes {A} : M (heap ll_node) A -> M ll_mem A :=
  zoom nodes (fun h s => LLMem (lists s) h).

(** Assignments to one field. *)
Definition set_next (p : ptr) (n : ll_node) : ll_node := LLNode p (n_prev n) (n_object n).
Definition set_prev (p : ptr) (n : ll_node) : ll_node := LLNode (n_next n) p (n_object n).
Definition set_object (p : ptr) (n : ll_node) : ll_node := LLNode (n_next n) (n_prev n) p.
Definition set_head (p : ptr) (l : linked_list) : linked_list := LList p (l_tail l) (l_length l).
Definition set_tail (p : ptr) (l : linked_list) : linked_list := LList (l_head l) p (l_length l).
Definition set_length (k : Z) (l : linked_list) : linked_list := LList (l_head l) (l_tail l) k.

(** ** The operations *)

Definition ll_create : M ll_mem ptr :=
  list ← on_lists (calloc (LList None None 0));
  on_lists (update list (set_head None));;
  on_lists (update list (set_tail None));;
  on_lists (update list (set_length 0));;
  mret (Some list).

(** The loop of [ll_destroy]. *)
Fixpoint ll_destroy_loop (fuel : nat) (curr : ptr) : M ll_mem unit :=
  match curr with
  | None => mret tt
  | Some c =>
      match fuel with
      | O => no_fuel
      | S fuel' =>
          node ← on_nodes (load c);
          let next := n_next node in
          on_nodes (free (Some c));;
          ll_destroy_loop fuel' next
      end
  end.

Definition ll_destroy (list : ptr) : M ll_mem unit :=
  match list with
  | None => mret tt
  | Some l =>
      lst ← on_lists (load l);
      fuel ← gets (fun s => S (size (mem (nodes s))));
      ll_destroy_loop fuel (l_head lst);;
      on_lists (free (Some l))
  end.

Definition ll_create_node (object : ptr) : M ll_mem loc :=
  node ← on_nodes (calloc (LLNode None None None));
  on_nodes (update node (set_next None));;
  on_nodes (update node (set_prev None));;
  on_nodes (update node (set_object object));;
  mret node.

(** [list->length++] and [list->length--], on an [unsigned int]. *)
Definition incr_length (l : linked_list) : linked_list := set_length (u32 (l_length l + 1)) l.
Definition decr_length (l : linked_list) : linked_list := set_length (u32 (l_length l - 1)) l.

Definition ll_add (list object : ptr) : M ll_mem ptr :=
  match list, object with
  | Some l, Some _ =>
      node ← ll_create_node object;
      lst ← on_lists (load l);
      match l_head lst with
      | None =>
          on_lists (update l (set_head (Some node)));;
          on_lists (update l (set_tail (Some node)))
      | Some _ =>
          tail ← deref (l_tail lst);
          on_nodes (update tail (set_next (Some node)));;
          on_nodes (update node (set_prev (l_tail lst)));;
          on_lists (update l (set_tail (Some node)))
      end;;
      on_lists (update l incr_length);;
      mret (Some node)
  | _, _ => mret None
  end.

Definition ll_add_front (list object : ptr) : M ll_mem ptr :=
  match list, object with
  | Some l, Some _ =>
      node ← ll_create_node object;
      lst ← on_lists (load l);
      match l_head lst with
      | None =>
          on_lists (update l (set_head (Some node)));;
          on_lists (update l (set_tail (Some node)))
      | Some head =>
          on_nodes (update node (set_next (l_head lst)));;
          on_nodes (update head (set_prev (Some node)));;
          on_lists (update l (set_head (Some node)))
      end;;
      on_lists (update l incr_length);;
      mret (Some node)
  | _, _ => mret None
  end.

Definition ll_add_after (list node object : ptr) : M ll_mem ptr :=
  match list, node, object with
  | Some l, Some n, Some _ =>
      new_node ← ll_create_node object;
      on_nodes (update new_node (set_prev (Some n)));;
      nd ← on_nodes (load n);
      on_nodes (update new_node (set_next (n_next nd)));;
      match n_next nd with
      | None => mret tt
      | Some nx => on_nodes (update nx (set_prev (Some new_node)))
      end;;
      on_nodes (update n (set_next (Some new_node)));;
      lst ← on_lists (load l);
      when (bool_decide (Some n = l_tail lst))
        (on_lists (update l (set_tail (Some new_node))));;
      on_lists (update l incr_length);;
      mret (Some new_node)
  | _, _, _ => mret None
  end.

Definition ll_remove (list node : ptr) : M ll_mem ptr :=
  match list, node with
  | Some l, Some n =>
      nd ← on_nodes (load n);
      let object := n_object nd in
      lst ← on_lists (load l);
      (if bool_decide (Some n = l_head lst)
       then on_lists (update l (set_head (n_next nd)))
       else p ← deref (n_prev nd); on_nodes (update p (set_next (n_next nd))));;
      nd ← on_nodes (load n);
      lst ← on_lists (load l);
      (if bool_decide (Some n = l_tail lst)
       then on_lists (update l (set_tail (n_prev nd)))
       else q ← deref (n_next nd); on_nodes (update q (set_prev (n_prev nd))));;
      on_nodes (free (Some n));;
      on_lists (update l decr_length);;
      mret object
  | _, _ => mret None
  end.

(** The loop of [ll_find]. The nodes it visits are live; one that visits more
    nodes than there are comes back to a node and never ends. *)
Fixpoint ll_find_loop (fuel : nat) (object curr : ptr) : M ll_mem ptr :=
  match curr with
  | None => mret None
  | Some c =>
      match fuel with
      | O => no_fuel
      | S fuel' =>
          node ← on_nodes (load c);
          if bool_decide (n_object node = object) then mret (Some c)
          else ll_find_loop fuel' object (n_next node)
      end
  end.

Definition ll_find (list object : ptr) : M ll_mem ptr :=
  match list, object with
  | Some l, Some _ =>
      lst ← on_lists (load l);
      fuel ← gets (fun s => S (size (mem (nodes s))));
      ll_find_loop fuel object (l_head lst)
  | _, _ => mret None
  end.

Definition ll_front (list : ptr) : M ll_mem ptr :=
  l ← deref list; lst ← on_lists (load l); mret (l_head lst).
Definition ll_back (list : ptr) : M ll_mem ptr :=
  l ← deref list; lst ← on_lists (load l); mret (l_tail lst).
Definition ll_length (list : ptr) : M ll_mem Z :=
  l ← deref list; lst ← on_lists (load l); mret (l_length lst).

(** ** The memory of a list as a sequence *)

(** [dseg m pp p q qn xs]: following [next] from [p], the memory [m] holds the
    nodes and objects [xs]; [pp] is the node before the segment, [q] its last
    node ([pp] when it is empty) and [qn] the node after it. *)
Fixpoint dseg (m : gmap loc ll_node) (pp p q qn : ptr) (xs : list (loc * loc)) : Prop :=
  match xs with
  | [] => p = qn /\ pp = q
  | (x, o) :: xs' =>
      exists r, p = Some x /\ m !! x = Some (LLNode r pp (Some o)) /\
                dseg m (Some x) r q qn xs'
  end.

Definition ll_repr (s : ll_mem) (l : loc) (xs : list (loc * loc)) : Prop :=
  exists head tail,
    mem (lists s) !! l = Some (LList head tail (u32 (Z.of_nat (length xs)))) /\
    dseg (mem (nodes s)) None head tail None xs /\
    NoDup xs.*1.

Definition ll_wf (s : ll_mem) : Prop := heap_wf (lists s) /\ heap_wf (nodes s).

(** The nodes outside [ns] and the lists other than [l] are as before. *)
Definition ll_frame (s s' : ll_mem) (l : loc) (ns : list loc) : Prop :=
  (forall k, k ∉ ns -> mem (nodes s') !! k = mem (nodes s) !! k) /\
  (forall k, k <> l -> mem (lists s') !! k = mem (lists s) !! k).

Section Dseg.
Implicit Types (m : gmap loc ll_node) (pp p q qn : ptr) (xs ys : list (loc * loc)).

Lemma dseg_frame m m' pp p q qn xs :
  (forall k, k ∈ xs.*1 -> m' !! k = m !! k) ->
  dseg m pp p q qn xs -> dseg m' pp p q qn xs.
Proof.
  revert pp p. induction xs as [|[x o] xs IH]; intros pp p Hm; simpl; [done|].
  intros (r & -> & Hx & Hs). exists r. rewrite Hm by set_solver.
  split_and!; [done..|]. apply IH; [|done]. intros; apply Hm; set_solver.
Qed.

Lemma dseg_insert m k n pp p q qn xs :
  k ∉ xs.*1 -> dseg m pp p q qn xs -> dseg (<[k := n]> m) pp p q qn xs.
Proof.
  intros Hk. apply dseg_frame. intros j Hj. apply lookup_insert_ne. by intros ->.
Qed.

Lemma dseg_delete m k pp p q qn xs :
  k ∉ xs.*1 -> dseg m pp p q qn xs -> dseg (delete k m) pp p q qn xs.
Proof.
  intros Hk. apply dseg_frame. intros j Hj. apply lookup_delete_ne. by intros ->.
Qed.

Lemma dseg_app m pp p q qn xs ys :
  dseg m pp p q qn (xs ++ ys) <->
  exists j jn, dseg m pp p j jn xs /\ dseg m j jn q qn ys.
Proof.
  revert pp p. induction xs as [|[x o] xs IH]; intros pp p; simpl.
  - split; [intros H; exists pp, p; split; [by split|exact H]|]. by intros (? & ? & [-> ->] & ?).
  - split.
    + intros (r & -> & Hx & (j & jn & H1 & H2)%IH). exists j, jn. split; [|done].
      by exists r.
    + intros (j & jn & (r & -> & Hx & H1) & H2). exists r. rewrite IH. eauto 10.
Qed.

Lemma dseg_live m pp p q qn xs k :
  dseg m pp p q qn xs -> k ∈ xs.*1 -> is_Some (m !! k).
Proof.
  revert pp p. induction xs as [|[x o] xs IH]; intros pp p; simpl; [set_solver|].
  intros (r & -> & Hx & Hs) [->|Hk]%elem_of_cons; eauto.
Qed.

(** A segment that is not empty starts and ends at nodes. *)
Lemma dseg_last m pp p q qn xs x o :
  dseg m pp p q qn (xs ++ [(x, o)]) ->
  q = Some x /\ exists j, m !! x = Some (LLNode qn j (Some o)) /\ dseg m pp p j (Some x) xs.
Proof.
  intros (j & jn & H1 & (r & -> & Hx & [-> <-]))%dseg_app. eauto.
Qed.

(** Redirecting the pointer that leaves a segment, and the one back. *)
Lemma dseg_set_next m pp p x o qn qn' xs nd :
  NoDup (xs ++ [(x, o)]).*1 ->
  dseg m pp p (Some x) qn (xs ++ [(x, o)]) -> m !! x = Some nd ->
  dseg (<[x := set_next qn' nd]> m) pp p (Some x) qn' (xs ++ [(x, o)]).
Proof.
  rewrite fmap_app, NoDup_app. intros (_ & Hx & _) [_ (j & Hnd & Hs)]%dseg_last Hnd'.
  simplify_eq. apply dseg_app. exists j, (Some x). split.
  - apply dseg_insert; [|done]. intros Hin. apply (Hx x Hin). set_solver.
  - exists qn'. split_and!; [done|apply lookup_insert_eq|by split].
Qed.

Lemma dseg_set_prev m pp pp' x o q qn xs nd :
  NoDup ((x, o) :: xs).*1 ->
  dseg m pp (Some x) q qn ((x, o) :: xs) -> m !! x = Some nd ->
  dseg (<[x := set_prev pp' nd]> m) pp' (Some x) q qn ((x, o) :: xs).
Proof.
  simpl. intros [Hx _]%NoDup_cons (r & _ & Hnd & Hs) Hnd'. simplify_eq.
  exists r. split_and!; [done| |].
  - apply lookup_insert_eq.
  - by apply dseg_insert.
Qed.
End Dseg.

(** ** Symbolic execution on an explicit memory *)

Section LLRules.
Context (X : ll_mem -> Prop) (HL : heap linked_list) (HN : heap ll_node).
Context (L : gmap loc linked_list) (N : gmap loc ll_node) (bl bn : loc).

Lemma wp_node_load c nd (Q : ll_node -> ll_mem -> Prop) :
  N !! c = Some nd -> Q nd (LLMem HL (Heap N bn)) ->
  wp (on_nodes (load c)) Q X (LLMem HL (Heap N bn)).
Proof. intros. by apply wp_zoom, (wp_load _ c nd). Qed.

Lemma wp_node_update c nd f (Q : unit -> ll_mem -> Prop) :
  N !! c = Some nd -> Q tt (LLMem HL (Heap (<[c := f nd]> N) bn)) ->
  wp (on_nodes (update c f)) Q X (LLMem HL (Heap N bn)).
Proof. intros. by apply wp_zoom, (wp_update _ c nd). Qed.

Lemma wp_node_free c nd (Q : unit -> ll_mem -> Prop) :
  N !! c = Some nd -> Q tt (LLMem HL (Heap (delete c N) bn)) ->
  wp (on_nodes (free (Some c))) Q X (LLMem HL (Heap N bn)).
Proof. intros. apply wp_zoom, wp_free; simpl; eauto. Qed.

Lemma wp_list_load l ls (Q : linked_list -> ll_mem -> Prop) :
  L !! l = Some ls -> Q ls (LLMem (Heap L bl) HN) ->
  wp (on_lists (load l)) Q X (LLMem (Heap L bl) HN).
Proof. intros. by apply wp_zoom, (wp_load _ l ls). Qed.

Lemma wp_list_update l ls f (Q : unit -> ll_mem -> Prop) :
  L !! l = Some ls -> Q tt (LLMem (Heap (<[l := f ls]> L) bl) HN) ->
  wp (on_lists (update l f)) Q X (LLMem (Heap L bl) HN).
Proof. intros. by apply wp_zoom, (wp_update _ l ls). Qed.

Lemma wp_list_free l ls (Q : unit -> ll_mem -> Prop) :
  L !! l = Some ls -> Q tt (LLMem (Heap (delete l L) bl) HN) ->
  wp (on_lists (free (Some l))) Q X (LLMem (Heap L bl) HN).
Proof. intros. apply wp_zoom, wp_free; simpl; eauto. Qed.
End LLRules.

(** [ll_create_node] allocates a node that holds the object. *)
Lemma ll_create_node_run o HL N bn :
  ll_create_node o (LLMem HL (Heap N bn)) =
  Done bn (LLMem HL (Heap (<[bn := LLNode None None o]> N) (Pos.succ bn))).
Proof.
  unfold ll_create_node, on_nodes, zoom, update, mbind, M_bind, calloc, load, store.
  cbn. repeat (rewrite lookup_insert_eq; cbn). by rewrite !insert_insert_eq.
Qed.

Ltac ll_step :=
  first
    [ wp_step
    | eapply wp_node_load; [by solve_lookup|]
    | eapply wp_node_update; [by solve_lookup|]
    | eapply wp_node_free; [by solve_lookup|]
    | eapply wp_list_load; [by solve_lookup|]
    | eapply wp_list_update; [by solve_lookup|]
    | eapply wp_list_free; [by solve_lookup|]
    | eapply wp_Done; [apply ll_create_node_run|] ];
  cbn [l_head l_tail l_length n_next n_prev n_object set_next set_prev set_object
       set_head set_tail set_length incr_length decr_length].
Ltac ll_steps := repeat ll_step.

(** A list whose head pointer is null is empty, and conversely; a list that is
    not empty has a last node. *)
Lemma dseg_nonempty m p q xs :
  dseg m None p q None xs -> xs <> [] ->
  exists x xs' t o, p = Some x /\ q = Some t /\ xs = xs' ++ [(t, o)] /\ x ∈ xs.*1.
Proof.
  intros Hs Hne. destruct (last_snoc_inv xs) as [->|(xs' & [t o] & ->)]; [done|].
  pose proof (dseg_last _ _ _ _ _ _ _ _ Hs) as [-> _].
  destruct xs' as [|[x ox] xs'].
  - destruct Hs as (r & -> & _). exists t, [], t, o. set_solver.
  - destruct Hs as (r & -> & _). exists x, ((x, ox) :: xs'), t, o. set_solver.
Qed.

Lemma u32_length_succ (n : nat) : u32 (u32 (Z.of_nat n) + 1) = u32 (Z.of_nat (S n)).
Proof. unfold u32. rewrite Zplus_mod_idemp_l. f_equal. lia. Qed.

Lemma u32_length_pred (n : nat) : u32 (u32 (Z.of_nat (S n)) - 1) = u32 (Z.of_nat n).
Proof. unfold u32. rewrite Zminus_mod_idemp_l. f_equal. lia. Qed.

(** What an insertion promises: the list now reads [ys], which holds the new
    node [n], and the rest of the memory is untouched. *)
Definition inserted (s : ll_mem) (l : loc) (xs ys : list (loc * loc)) (n : loc)
    (r : ptr) (s' : ll_mem) : Prop :=
  r = Some n /\ ll_repr s' l ys /\ ll_wf s' /\ mem (nodes s) !! n = None /\
  ll_frame s s' l (n :: xs.*1).

Lemma live_not_fresh h (l : loc) (a : ll_node) :
  heap_wf h -> mem h !! l = Some a -> l <> brk h.
Proof. intros Hwf Hl ->. by rewrite heap_wf_fresh in Hl. Qed.

(** Establishing [inserted] from the maps that an insertion ends with. *)
Lemma inserted_intro L bl N bn l ls xs ys hd tl L' N' :
  ll_wf (LLMem (Heap L bl) (Heap N bn)) -> L !! l = Some ls ->
  (forall k, k ∈ xs.*1 -> is_Some (N !! k)) ->
  L' = <[l := LList hd tl (u32 (Z.of_nat (length ys)))]> L ->
  dseg N' None hd tl None ys -> NoDup ys.*1 ->
  (forall k, k ∉ bn :: xs.*1 -> N' !! k = N !! k) ->
  inserted (LLMem (Heap L bl) (Heap N bn)) l xs ys bn (Some bn)
    (LLMem (Heap L' bl) (Heap N' (Pos.succ bn))).
Proof.
  intros [HwL HwN] Hl Hlive -> Hs Hnd HN. split; [done|]. split_and!.
  - exists hd, tl. split_and!; [apply lookup_insert_eq|done..].
  - split; [apply (heap_wf_insert (Heap L bl)); [done|by eexists]|].
    intros k Hk. simpl in *. destruct (decide (k = bn)) as [->|Hne]; [lia|].
    assert (k < bn)%positive; [|lia]. apply HwN. simpl.
    destruct (decide (k ∈ xs.*1)) as [Hin|Hin]; [by apply Hlive|].
    rewrite <- HN; [done|]. set_solver.
  - by apply (heap_wf_fresh (Heap N bn)).
  - split; [done|]. intros k Hk. by apply lookup_insert_ne.
Qed.

(** The facts every proof about the list [l] starts from. *)
Ltac ll_open s Hwf Hrepr :=
  destruct s as [[L bl] [N bn]]; pose proof Hwf as [HwL HwN];
  destruct Hrepr as (hd & tl & Hl & Hs & Hnd); simpl in *;
  pose proof (heap_wf_fresh _ HwN) as Hfresh; simpl in Hfresh;
  assert (forall k, k ∈ _ -> is_Some (N !! k)) as Hlive
    by (intros k; exact (dseg_live _ _ _ _ _ _ _ Hs));
  lazymatch type of Hs with
  | dseg _ _ _ _ _ ?xs =>
      assert (bn ∉ xs.*1) as Hnew by (intros [? ?]%Hlive; congruence)
  end.

Ltac ll_length :=
  unfold incr_length, decr_length, set_length, set_head, set_tail; cbn;
  rewrite ?insert_insert_eq, ?length_app; cbn [length]; rewrite ?Nat.add_succ_r;
  rewrite ?u32_length_succ, ?u32_length_pred; repeat f_equal; lia.

Lemma nodup_snoc (xs : list (loc * loc)) n o :
  NoDup xs.*1 -> n ∉ xs.*1 -> NoDup (xs ++ [(n, o)]).*1.
Proof.
  intros Hnd Hn. rewrite fmap_app. apply NoDup_app. split_and!; [done| |].
  - intros k Hk ->%list_elem_of_singleton. done.
  - apply NoDup_singleton.
Qed.

(** [ll_add] implements adding at the back of a sequence. *)
Theorem ll_add_appends s l xs o :
  ll_wf s -> ll_repr s l xs ->
  wp (ll_add (Some l) (Some o))
    (fun r s' => exists n, inserted s l xs (xs ++ [(n, o)]) n r s') (fun _ => False) s.
Proof.
  intros Hwf Hr. ll_open s Hwf Hr. unfold ll_add.
  destruct (decide (xs = [])) as [->|Hne].
  - simpl in Hs. destruct Hs as [-> <-]. ll_steps.
    exists bn. eapply inserted_intro; eauto; [by ll_length| | |].
    + exists None. by rewrite lookup_insert_eq.
    + apply NoDup_singleton.
    + intros k Hk. by rewrite lookup_insert_ne by set_solver.
  - destruct (dseg_nonempty _ _ _ _ Hs Hne) as (x & xs' & t & ot & -> & -> & -> & Hx).
    destruct (dseg_last _ _ _ _ _ _ _ _ Hs) as (_ & j & Ht & _).
    assert (t <> bn) by congruence. ll_steps.
    exists bn. eapply inserted_intro; eauto; [by ll_length| | |].
    + apply dseg_app. exists (Some t), (Some bn). split.
      * apply dseg_insert; [done|]. eapply dseg_set_next; [done| |by solve_lookup].
        by apply dseg_insert.
      * exists None. by rewrite lookup_insert_eq.
    + by apply nodup_snoc.
    + intros k Hk. by rewrite !lookup_insert_ne by set_solver.
Qed.

(** [ll_add_front] implements adding at the front of a sequence. *)
Theorem ll_add_front_prepends s l xs o :
  ll_wf s -> ll_repr s l xs ->
  wp (ll_add_front (Some l) (Some o))
    (fun r s' => exists n, inserted s l xs ((n, o) :: xs) n r s') (fun _ => False) s.
Proof.
  intros Hwf Hr. ll_open s Hwf Hr. unfold ll_add_front.
  destruct xs as [|[x ox] xs].
  - simpl in Hs. destruct Hs as [-> <-]. ll_steps.
    exists bn. eapply inserted_intro; eauto; [by ll_length| | |].
    + exists None. by rewrite lookup_insert_eq.
    + apply NoDup_singleton.
    + intros k Hk. by rewrite lookup_insert_ne by set_solver.
  - pose proof Hs as (r & -> & Hx & _). assert (x <> bn) by congruence. ll_steps.
    exists bn. eapply inserted_intro; eauto; [by ll_length| | |].
    + exists (Some x). split_and!; [done|by solve_lookup|].
      eapply dseg_set_prev; [done| |by solve_lookup]. do 2 (apply dseg_insert; [done|]).
      done.
    + by apply NoDup_cons.
    + intros k Hk. by rewrite !lookup_insert_ne by set_solver.
Qed.

(** A node in the middle of a list, with the two segments around it. *)
Lemma dseg_middle m p q xs1 n o xs2 :
  NoDup (xs1 ++ (n, o) :: xs2).*1 -> dseg m None p q None (xs1 ++ (n, o) :: xs2) ->
  exists j r, m !! n = Some (LLNode r j (Some o)) /\
    dseg m None p j (Some n) xs1 /\ dseg m (Some n) r q None xs2 /\
    ~ (n ∈ xs1.*1) /\ ~ (n ∈ xs2.*1) /\ NoDup xs1.*1 /\ NoDup xs2.*1 /\
    (forall k, k ∈ xs1.*1 -> ~ (k ∈ xs2.*1)).
Proof.
  rewrite fmap_app, NoDup_app. simpl.
  intros (H1 & H12 & [Hn H2]%NoDup_cons).
  intros (j & jn & Hs1 & (r & -> & Hx & Hs2))%dseg_app.
  exists j, r. split_and!; try done.
  - intros Hin. destruct (H12 n Hin). by left.
  - intros k Hk1 Hk2. destruct (H12 k Hk1). by right.
Qed.

(** Keys that a proof has to keep apart, as separate hypotheses. *)
Ltac split_notin H :=
  rewrite ?fmap_app, ?fmap_cons, ?not_elem_of_cons, ?not_elem_of_app in H;
  cbn [fst] in H;
  rewrite ?not_elem_of_app, ?not_elem_of_cons in H; destruct_and? H.

Ltac dseg_skip := repeat (apply dseg_insert; [assumption|]).

(** The last node of a segment is one of its nodes. *)
Lemma dseg_tail_in m pp p t qn xs :
  xs <> [] -> dseg m pp p t qn xs -> exists x, t = Some x /\ x ∈ xs.*1.
Proof.
  intros Hne Hs. destruct (last_snoc_inv xs) as [->|(xs' & [x o] & ->)]; [done|].
  destruct (dseg_last _ _ _ _ _ _ _ _ Hs) as [-> _]. exists x. split; [done|].
  rewrite fmap_app. set_solver.
Qed.

(** [ll_add_after] implements inserting right after a member of a
    sequence, the last one included. *)
Theorem ll_add_after_inserts s l xs1 n on xs2 o :
  ll_wf s -> ll_repr s l (xs1 ++ (n, on) :: xs2) ->
  wp (ll_add_after (Some l) (Some n) (Some o))
    (fun r s' => exists k, inserted s l (xs1 ++ (n, on) :: xs2)
       (xs1 ++ (n, on) :: (k, o) :: xs2) k r s') (fun _ => False) s.
Proof.
  intros Hwf Hr. ll_open s Hwf Hr. unfold ll_add_after.
  destruct (dseg_middle _ _ _ _ _ _ _ Hnd Hs)
    as (j & r & Hn & Hs1 & Hs2 & Hn1 & Hn2 & Hnd1 & Hnd2 & H12).
  split_notin Hnew.
  assert (Hnd' : NoDup (xs1 ++ (n, on) :: (bn, o) :: xs2).*1).
  { rewrite fmap_app. apply NoDup_app. split; [done|]. cbn.
    rewrite !NoDup_cons. set_solver. }
  destruct xs2 as [|[y oy] xs2].
  - simpl in Hs2. destruct Hs2 as [-> <-]. ll_steps.
    rewrite bool_decide_true by done. unfold when. ll_steps.
    exists bn. eapply inserted_intro; eauto; [by ll_length| |].
    + apply dseg_app. exists j, (Some n). split; [by dseg_skip|].
      exists (Some bn). split_and!; [done|by solve_lookup|].
      exists None. split_and!; [done|by solve_lookup|done].
    + intros k Hk. split_notin Hk. by rewrite !lookup_insert_ne by congruence.
  - pose proof Hs2 as (r' & -> & Hy & _).
    assert (~ (y ∈ xs1.*1)) by (intros Hin; apply (H12 _ Hin); by left).
    destruct (dseg_tail_in _ _ _ _ _ ((y, oy) :: xs2) ltac:(done) Hs2)
      as (t & -> & Ht).
    assert (bn ∉ ((y, oy) :: xs2).*1) by done. assert (n <> t) by (by intros ->).
    pose proof Hn2 as Hn2'. split_notin Hn2. ll_steps.
    rewrite bool_decide_false by congruence. unfold when. ll_steps.
    exists bn. eapply inserted_intro; eauto; [by ll_length| |].
    + apply dseg_app. exists j, (Some n). split; [by dseg_skip|].
      exists (Some bn). split_and!; [done|by solve_lookup|].
      exists (Some y). split_and!; [done|by solve_lookup|].
      apply dseg_insert; [done|]. eapply dseg_set_prev; [done| |by solve_lookup].
      by dseg_skip.
    + intros k Hk. split_notin Hk. by rewrite !lookup_insert_ne by congruence.
Qed.

(** What [ll_remove] promises for the node [n] that holds [o]. *)
Definition removed (s : ll_mem) (l : loc) (xs ys : list (loc * loc)) (n o : loc)
    (r : ptr) (s' : ll_mem) : Prop :=
  r = Some o /\ ll_repr s' l ys /\ ll_wf s' /\ mem (nodes s') !! n = None /\
  ll_frame s s' l xs.*1.

Lemma removed_intro L bl N bn l ls xs ys n o hd tl L' N' :
  ll_wf (LLMem (Heap L bl) (Heap N bn)) -> L !! l = Some ls ->
  (forall k, k ∈ xs.*1 -> is_Some (N !! k)) ->
  L' = <[l := LList hd tl (u32 (Z.of_nat (length ys)))]> L ->
  dseg N' None hd tl None ys -> NoDup ys.*1 -> N' !! n = None ->
  (forall k, k ∉ xs.*1 -> N' !! k = N !! k) ->
  removed (LLMem (Heap L bl) (Heap N bn)) l xs ys n o (Some o)
    (LLMem (Heap L' bl) (Heap N' bn)).
Proof.
  intros [HwL HwN] Hl Hlive -> Hs Hnd Hn HN. split; [done|]. split_and!; [|split| |split].
  - exists hd, tl. split_and!; [apply lookup_insert_eq|done..].
  - apply (heap_wf_insert (Heap L bl)); [done|by eexists].
  - intros k Hk. simpl in *. apply HwN. simpl.
    destruct (decide (k ∈ xs.*1)) as [Hin|Hin]; [by apply Hlive|].
    by rewrite <- HN.
  - done.
  - done.
  - intros k Hk. by apply lookup_insert_ne.
Qed.

(** Redirecting what leaves the segment [xs1] to the front of [xs2]. *)
Lemma dseg_join m p j q xs1 xs2 r :
  dseg m None p j r xs1 -> dseg m j r q None xs2 -> dseg m None p q None (xs1 ++ xs2).
Proof. intros. apply dseg_app. eauto. Qed.

Lemma dseg_head_in m pp p q qn xs :
  xs <> [] -> dseg m pp p q qn xs -> exists x, p = Some x /\ x ∈ xs.*1.
Proof.
  destruct xs as [|[x o] xs]; [done|]. intros _ (r & -> & _). exists x. set_solver.
Qed.

(** The end of a removal: lengths, the frame and the relinked segments. *)
Ltac ll_remove_done :=
  eapply removed_intro; eauto;
  [ by ll_length | | by rewrite lookup_delete_eq
  | let k := fresh in let Hk := fresh in intros k Hk; split_notin Hk;
    rewrite lookup_delete_ne by congruence; by rewrite ?lookup_insert_ne by congruence ];
  apply dseg_delete; [rewrite ?fmap_app, ?fmap_cons; set_solver|].

(** C40: [ll_remove] takes the node out of the sequence wherever it is, frees
    it and returns its object; the order of the others is kept. *)
Theorem ll_remove_removes s l xs1 n o xs2 :
  ll_wf s -> ll_repr s l (xs1 ++ (n, o) :: xs2) ->
  wp (ll_remove (Some l) (Some n))
    (removed s l (xs1 ++ (n, o) :: xs2) (xs1 ++ xs2) n o) (fun _ => False) s.
Proof.
  intros Hwf Hr. ll_open s Hwf Hr. unfold ll_remove.
  destruct (dseg_middle _ _ _ _ _ _ _ Hnd Hs)
    as (j & r & Hn & Hs1 & Hs2 & Hn1 & Hn2 & Hnd1 & Hnd2 & H12).
  assert (Hnd' : NoDup (xs1 ++ xs2).*1)
    by (rewrite fmap_app; by apply NoDup_app).
  destruct (last_snoc_inv xs1) as [->|(ys1 & [t ot] & ->)];
    (destruct xs2 as [|[y oy] xs2];
      [simpl in Hs2; destruct Hs2 as [-> <-]
      |pose proof Hs2 as (r' & -> & Hy & _);
       destruct (dseg_tail_in _ _ _ _ _ ((y, oy) :: xs2) ltac:(done) Hs2)
         as (e & -> & He);
       assert (n <> e) by (by intros ->); assert (n <> y) by set_solver]).
  - simpl in Hs1. destruct Hs1 as [-> <-]. ll_steps. rewrite bool_decide_true by done.
    ll_steps. rewrite bool_decide_true by done. ll_steps. by ll_remove_done.
  - simpl in Hs1. destruct Hs1 as [-> <-]. ll_steps. rewrite bool_decide_true by done.
    ll_steps. rewrite bool_decide_false by congruence. ll_steps. ll_remove_done.
    by eapply dseg_set_prev.
  - destruct (dseg_last _ _ _ _ _ _ _ _ Hs1) as (-> & jt & Ht & _).
    destruct (dseg_head_in _ _ _ _ _ (ys1 ++ [(t, ot)]) ltac:(by destruct ys1) Hs1)
      as (x & -> & Hx).
    assert (n <> x) by (by intros ->). assert (n <> t) by set_solver.
    ll_steps. rewrite bool_decide_false by congruence.
    ll_steps. rewrite bool_decide_true by done. ll_steps. ll_remove_done.
    rewrite app_nil_r. by eapply dseg_set_next.
  - destruct (dseg_last _ _ _ _ _ _ _ _ Hs1) as (-> & jt & Ht & _).
    destruct (dseg_head_in _ _ _ _ _ (ys1 ++ [(t, ot)]) ltac:(by destruct ys1) Hs1)
      as (x & -> & Hx).
    assert (n <> x) by (by intros ->). assert (n <> t) by set_solver.
    assert (Ht1 : t ∈ (ys1 ++ [(t, ot)]).*1) by (rewrite fmap_app; set_solver).
    assert (Hy1 : ~ (y ∈ (ys1 ++ [(t, ot)]).*1)) by (intros Hin; apply (H12 _ Hin); by left).
    assert (y <> t) by (by intros ->).
    ll_steps. rewrite bool_decide_false by congruence.
    ll_steps. rewrite bool_decide_false by congruence. ll_steps. ll_remove_done.
    apply dseg_app. exists (Some t), (Some y). split.
    + apply dseg_insert; [done|]. by eapply dseg_set_next.
    + eapply dseg_set_prev; [done| |by solve_lookup].
      apply dseg_insert; [by apply H12|done].
Qed.

(** ** Searching *)

(** The first node of a sequence that holds [o]. *)
Fixpoint find_node (o : loc) (xs : list (loc * loc)) : ptr :=
  match xs with
  | [] => None
  | (x, o') :: xs' => if decide (o' = o) then Some x else find_node o xs'
  end.

(** The nodes of a list are among the live nodes. *)
Lemma dseg_length m p q xs :
  NoDup xs.*1 -> dseg m None p q None xs -> (length xs <= size m)%nat.
Proof.
  intros Hnd Hs. rewrite <- (length_fmap fst), <- (size_list_to_set (C := gset loc)) by done.
  rewrite <- (size_dom (D := gset loc)). apply subseteq_size. intros k.
  rewrite elem_of_list_to_set, elem_of_dom. by apply (dseg_live _ _ _ _ _ _ _ Hs).
Qed.

Lemma ll_find_loop_run s fuel o pp p q xs :
  dseg (mem (nodes s)) pp p q None xs -> (length xs <= fuel)%nat ->
  ll_find_loop fuel (Some o) p s = Done (find_node o xs) s.
Proof.
  destruct s as [HL [N bn]]. revert fuel pp p.
  induction xs as [|[x ox] xs IH]; intros fuel pp p Hs Hf; simpl in *.
  - destruct Hs as [-> _]. by destruct fuel.
  - destruct Hs as (r & -> & Hx & Hs). destruct fuel as [|fuel]; simpl in Hf; [lia|].
    simpl. unfold mbind, M_bind, on_nodes, zoom, load. simpl. rewrite Hx. simpl.
    destruct (decide (ox = o)) as [->|Hne].
    + by rewrite bool_decide_true.
    + rewrite bool_decide_false by congruence. apply (IH fuel (Some x)); [done|lia].
Qed.

(** [ll_find] returns the first node that holds the object, null if none
    does, and leaves the memory as it is. *)
Theorem ll_find_first s l xs o :
  ll_repr s l xs -> ll_find (Some l) (Some o) s = Done (find_node o xs) s.
Proof.
  destruct s as [[L bl] [N bn]]. intros (hd & tl & Hl & Hs & Hnd). simpl in *.
  unfold ll_find, mbind, M_bind, on_lists, zoom, load, gets. simpl. rewrite Hl. simpl.
  apply (ll_find_loop_run (LLMem (Heap L bl) (Heap N bn)) (S (size N)) o None hd tl);
    [exact Hs|]. apply le_S. by eapply dseg_length.
Qed.

(** ** Destroying a list *)

(** The loop frees the nodes it walks over. *)
Lemma ll_destroy_loop_run HL N bn fuel pp p q xs :
  NoDup xs.*1 -> dseg N pp p q None xs -> (length xs <= fuel)%nat ->
  ll_destroy_loop fuel p (LLMem HL (Heap N bn)) =
  Done tt (LLMem HL (Heap (foldr delete N (reverse xs.*1)) bn)).
Proof.
  revert N fuel pp p. induction xs as [|[x ox] xs IH]; intros N fuel pp p Hnd Hs Hf; simpl in *.
  - destruct Hs as [-> _]. by destruct fuel.
  - destruct Hs as (r & -> & Hx & Hs). apply NoDup_cons in Hnd as [Hin Hnd].
    destruct fuel as [|fuel]; simpl in Hf; [lia|]. simpl.
    unfold mbind, M_bind, on_nodes, zoom, load, free. simpl. rewrite Hx. simpl. rewrite Hx.
    rewrite (IH _ fuel (Some x)); [|done| |lia].
    + do 3 f_equal. by rewrite reverse_cons, foldr_app.
    + by apply dseg_delete.
Qed.

Lemma lookup_foldr_delete {A} (m : gmap loc A) (ks : list loc) k :
  foldr delete m ks !! k = if decide (k ∈ ks) then None else m !! k.
Proof.
  induction ks as [|j ks IH]; simpl; [done|].
  destruct (decide (k = j)) as [->|Hne].
  - rewrite lookup_delete_eq. by rewrite decide_True by set_solver.
  - rewrite lookup_delete_ne by done. rewrite IH.
    destruct (decide (k ∈ ks)); [by rewrite decide_True by set_solver|].
    by rewrite decide_False by set_solver.
Qed.

(** The list [l] and its nodes [ns] are gone, and nothing else. *)
Definition destroyed (s : ll_mem) (l : loc) (ns : list loc) (s' : ll_mem) : Prop :=
  mem (lists s') !! l = None /\
  (forall k, k ∈ ns -> mem (nodes s') !! k = None) /\ ll_frame s s' l ns.

(** [ll_destroy] frees the list and its nodes, each once, and nothing else. *)
Theorem ll_destroy_frees s l xs :
  ll_repr s l xs ->
  wp (ll_destroy (Some l)) (fun _ s' => destroyed s l xs.*1 s') (fun _ => False) s.
Proof.
  destruct s as [[L bl] [N bn]]. intros (hd & tl & Hl & Hs & Hnd). simpl in *.
  unfold ll_destroy. ll_steps.
  eapply wp_Done; [eapply ll_destroy_loop_run; [done..|apply le_S; by eapply dseg_length]|].
  cbn beta. ll_steps. unfold destroyed, ll_frame. simpl. split_and!.
  - by rewrite lookup_delete_eq.
  - intros k Hk. rewrite lookup_foldr_delete. by rewrite decide_True by set_solver.
  - intros k Hk. rewrite lookup_foldr_delete. by rewrite decide_False by set_solver.
  - intros k Hk. by rewrite lookup_delete_ne.
Qed.

(** Each iteration frees a live node, so the loop ends from any memory. *)
Lemma ll_destroy_loop_ends HL N bn fuel p :
  (size N < fuel)%nat -> ll_destroy_loop fuel p (LLMem HL (Heap N bn)) <> NoFuel.
Proof.
  revert N p. induction fuel as [|fuel IH]; intros N p Hf; [lia|].
  destruct p as [c|]; [|done]. simpl.
    unfold mbind, M_bind, on_nodes, zoom, load, free. simpl.
    destruct (N !! c) as [nd|] eqn:Hc; [|done]. simpl. rewrite Hc. apply IH.
    assert (0 < size N)%nat.
    { destruct (size N) eqn:E; [|lia]. apply map_size_empty_iff in E. subst.
      by rewrite lookup_empty in Hc. }
    rewrite map_size_delete_Some by eauto. lia.
Qed.

(** [ll_destroy] comes to an end from any memory, a corrupt one included. *)
Theorem ll_destroy_ends list s : ll_destroy list s <> NoFuel.
Proof.
  destruct list as [l|]; [|done]. destruct s as [[L bl] [N bn]].
  unfold ll_destroy, mbind, M_bind, on_lists, zoom, load, gets. cbn -[ll_destroy_loop].
  destruct (L !! l) as [ls|] eqn:Hl; [|done]. cbn -[ll_destroy_loop].
  pose proof (ll_destroy_loop_ends (Heap L bl) N bn (S (size N)) (l_head ls)) as Hend.
  destruct (ll_destroy_loop _ _ _) as [[] [[L' bl'] N']| | |]; try done.
  - unfold free. simpl. by destruct (L' !! l).
  - apply Hend. lia.
Qed.

(** [ll_create]: a fresh empty list. *)
Lemma ll_create_run L bl HN :
  ll_create (LLMem (Heap L bl) HN) =
  Done (Some bl) (LLMem (Heap (<[bl := LList None None 0]> L) (Pos.succ bl)) HN).
Proof.
  unfold ll_create, on_lists, zoom, update, mbind, M_bind, calloc, load, store.
  cbn. repeat (rewrite lookup_insert_eq; cbn). by rewrite !insert_insert_eq.
Qed.

Lemma ll_create_repr s :
  ll_wf s ->
  exists l s', ll_create s = Done (Some l) s' /\ ll_repr s' l [] /\ ll_wf s' /\
    mem (lists s) !! l = None /\ nodes s' = nodes s /\
    (forall k, k <> l -> mem (lists s') !! k = mem (lists s) !! k).
Proof.
  destruct s as [[L bl] HN]. intros [HwL HwN]. rewrite ll_create_run.
  eexists bl, _. split; [done|]. simpl. split_and!.
  - exists None, None. split_and!; [apply lookup_insert_eq|done|constructor].
  - split; [by apply (heap_wf_calloc (Heap L bl))|done].
  - by apply (heap_wf_fresh (Heap L bl)).
  - done.
  - intros k Hk. by apply lookup_insert_ne.
Qed.

(** [ll_front], [ll_back] and [ll_length] read the ends and the length. *)
Theorem ll_accessors_spec s l xs :
  ll_repr s l xs ->
  ll_front (Some l) s = Done (head xs.*1) s /\
  ll_back (Some l) s = Done (last xs.*1) s /\
  ll_length (Some l) s = Done (u32 (Z.of_nat (length xs))) s.
Proof.
  destruct s as [[L bl] HN]. intros (hd & tl & Hl & Hs & Hnd). simpl in *.
  unfold ll_front, ll_back, ll_length, mbind, M_bind, on_lists, zoom, load. simpl.
  rewrite Hl. simpl. split_and!; [| |done]; do 2 f_equal.
  - destruct xs as [|[x o] xs]; [by destruct Hs as [-> _]|by destruct Hs as (? & -> & _)].
  - destruct (last_snoc_inv xs) as [->|(xs' & [t o] & ->)]; [by destruct Hs as [-> <-]|].
    rewrite fmap_app. change ([(t, o)].*1) with [t]. rewrite last_snoc. by destruct (dseg_last _ _ _ _ _ _ _ _ Hs) as [-> _].
Qed.

(** ** Witnesses: a list with two objects *)

Definition ll_example : ll_mem :=
  match (l ← ll_create; ll_add l (Some 10%positive);; ll_add l (Some 11%positive))
          ll_mem_empty with
  | Done _ s => s
  | _ => ll_mem_empty
  end.

Definition ll_example_seq : list (loc * loc) := [(1, 10); (2, 11)]%positive.

Lemma ll_example_wf : ll_wf ll_example.
Proof. split; apply heap_wf_check; by vm_compute. Qed.

Lemma ll_example_repr : ll_repr ll_example 1%positive ll_example_seq.
Proof.
  exists (Some 1%positive), (Some 2%positive). split; [by vm_compute|]. split.
  - exists (Some 2%positive). split_and!; [done|by vm_compute|].
    exists None. split_and!; [done|by vm_compute|done].
  - apply (bool_decide_unpack _). by vm_compute.
Qed.

Lemma ll_add_appends_witness :
  wp (ll_add (Some 1%positive) (Some 12%positive))
    (fun r s' => exists n, inserted ll_example 1%positive ll_example_seq
       (ll_example_seq ++ [(n, 12%positive)]) n r s') (fun _ => False) ll_example.
Proof. apply ll_add_appends; [exact ll_example_wf|exact ll_example_repr]. Defined.

Lemma ll_add_front_prepends_witness :
  wp (ll_add_front (Some 1%positive) (Some 12%positive))
    (fun r s' => exists n, inserted ll_example 1%positive ll_example_seq
       ((n, 12%positive) :: ll_example_seq) n r s') (fun _ => False) ll_example.
Proof. apply ll_add_front_prepends; [exact ll_example_wf|exact ll_example_repr]. Defined.

Lemma ll_add_after_inserts_witness :
  wp (ll_add_after (Some 1%positive) (Some 1%positive) (Some 12%positive))
    (fun r s' => exists k, inserted ll_example 1%positive ll_example_seq
       [(1, 10); (k, 12); (2, 11)]%positive k r s') (fun _ => False) ll_example.
Proof.
  apply (ll_add_after_inserts ll_example 1 [] 1 10 [(2, 11)]%positive 12);
    [exact ll_example_wf|exact ll_example_repr].
Defined.

Lemma ll_remove_removes_witness :
  wp (ll_remove (Some 1%positive) (Some 2%positive))
    (removed ll_example 1%positive ll_example_seq [(1, 10)]%positive 2%positive 11%positive)
    (fun _ => False) ll_example.
Proof.
  apply (ll_remove_removes ll_example 1 [(1, 10)]%positive 2 11 []);
    [exact ll_example_wf|exact ll_example_repr].
Defined.

Lemma ll_find_first_witness :
  ll_find (Some 1%positive) (Some 11%positive) ll_example = Done (Some 2%positive) ll_example.
Proof. apply (ll_find_first ll_example 1 ll_example_seq 11). exact ll_example_repr. Defined.

Lemma ll_destroy_frees_witness :
  wp (ll_destroy (Some 1%positive))
    (fun _ s' => destroyed ll_example 1%positive [1; 2]%positive s') (fun _ => False) ll_example.
Proof. apply (ll_destroy_frees ll_example 1 ll_example_seq). exact ll_example_repr. Defined.

Lemma ll_accessors_spec_witness :
  ll_front (Some 1%positive) ll_example = Done (Some 1%positive) ll_example /\
  ll_back (Some 1%positive) ll_example = Done (Some 2%positive) ll_example /\
  ll_length (Some 1%positive) ll_example = Done 2 ll_example.
Proof. apply (ll_accessors_spec ll_example 1 ll_example_seq). exact ll_example_repr. Defined.
