(* ===== verification/Segment.v ===== *)
(** * cTCP segments ([src/ctcp_sys.h], [src/ctcp.h], [src/ctcp.c])

    The segment structure and its bytes in memory, the conversions between
    host and network byte order, the flags, the test a received segment has to
    pass ([_is_segment_valid]), and the bit flip that stands for corruption
    ([flipbit]). *)

From S2P Require Import Prelude Words Cksum.

(** ** Constants *)

Definition MAX_SEG_DATA_SIZE : Z := 1440.

(** The flags of [<netinet/tcp.h>], and those of [ctcp.h] in host order. *)
Definition TH_FIN : Z := 0x01.
Definition TH_SYN : Z := 0x02.
Definition TH_RST : Z := 0x04.
Definition TH_ACK : Z := 0x10.
Definition SYN : Z := ntohl TH_SYN.
Definition ACK : Z := ntohl TH_ACK.
Definition FIN : Z := ntohl TH_FIN.

(** C's truth value of [flags & f]. *)
Definition has_flag (flags f : Z) : bool := negb (bool_decide (Z.land flags f = 0)).

(** ** The segment structure

    The fields hold what a load from memory gives, whatever the byte order the
    program has put them in. The compiler leaves two bytes of padding after
    [len] to align [flags]; they count in checksums, so they are kept. *)
Record ctcp_segment := Segment {
  seg_seqno : Z;
  seg_ackno : Z;
  seg_len : Z;
  seg_pad : Z;
  seg_flags : Z;
  seg_window : Z;
  seg_cksum : Z;
  seg_data : list byte;
}.

Definition SEGMENT_HDR_SIZE : Z := 20.

Definition set_seqno (v : Z) (s : ctcp_segment) : ctcp_segment :=
  Segment v (seg_ackno s) (seg_len s) (seg_pad s) (seg_flags s) (seg_window s)
    (seg_cksum s) (seg_data s).
Definition set_ackno (v : Z) (s : ctcp_segment) : ctcp_segment :=
  Segment (seg_seqno s) v (seg_len s) (seg_pad s) (seg_flags s) (seg_window s)
    (seg_cksum s) (seg_data s).
Definition set_len (v : Z) (s : ctcp_segment) : ctcp_segment :=
  Segment (seg_seqno s) (seg_ackno s) v (seg_pad s) (seg_flags s) (seg_window s)
    (seg_cksum s) (seg_data s).
Definition set_flags (v : Z) (s : ctcp_segment) : ctcp_segment :=
  Segment (seg_seqno s) (seg_ackno s) (seg_len s) (seg_pad s) v (seg_window s)
    (seg_cksum s) (seg_data s).
Definition set_window (v : Z) (s : ctcp_segment) : ctcp_segment :=
  Segment (seg_seqno s) (seg_ackno s) (seg_len s) (seg_pad s) (seg_flags s) v
    (seg_cksum s) (seg_data s).
Definition set_cksum (v : Z) (s : ctcp_segment) : ctcp_segment :=
  Segment (seg_seqno s) (seg_ackno s) (seg_len s) (seg_pad s) (seg_flags s)
    (seg_window s) v (seg_data s).
Definition set_data (d : list byte) (s : ctcp_segment) : ctcp_segment :=
  Segment (seg_seqno s) (seg_ackno s) (seg_len s) (seg_pad s) (seg_flags s)
    (seg_window s) (seg_cksum s) d.

(** Every field within its width. *)
Record segment_wf (s : ctcp_segment) : Prop := SegmentWf {
  wf_seqno : 0 <= seg_seqno s < 2 ^ 32;
  wf_ackno : 0 <= seg_ackno s < 2 ^ 32;
  wf_len : 0 <= seg_len s < 2 ^ 16;
  wf_pad : 0 <= seg_pad s < 2 ^ 16;
  wf_flags : 0 <= seg_flags s < 2 ^ 32;
  wf_window : 0 <= seg_window s < 2 ^ 16;
  wf_cksum : 0 <= seg_cksum s < 2 ^ 16;
}.

(** [calloc(len, 1)] as a segment. *)
Definition zero_segment (len : Z) : ctcp_segment :=
  Segment 0 0 0 0 0 0 0 (replicate (Z.to_nat (len - SEGMENT_HDR_SIZE)) Byte.x00).

(** ** The bytes of a segment in memory *)

Definition segment_bytes (s : ctcp_segment) : list byte :=
  le_bytes 4 (seg_seqno s) ++ le_bytes 4 (seg_ackno s) ++ le_bytes 2 (seg_len s) ++
  le_bytes 2 (seg_pad s) ++ le_bytes 4 (seg_flags s) ++ le_bytes 2 (seg_window s) ++
  le_bytes 2 (seg_cksum s) ++ seg_data s.

(** [n] bytes at offset [o]. *)
Definition slice (o n : nat) (bs : list byte) : list byte := take n (drop o bs).

(** A buffer seen as a segment: it has to hold at least the header. *)
Definition segment_of_bytes (bs : list byte) : option ctcp_segment :=
  if bool_decide (Z.of_nat (length bs) < SEGMENT_HDR_SIZE) then None
  else Some (Segment (le_int (slice 0 4 bs)) (le_int (slice 4 4 bs)) (le_int (slice 8 2 bs))
               (le_int (slice 10 2 bs)) (le_int (slice 12 4 bs)) (le_int (slice 16 2 bs))
               (le_int (slice 18 2 bs)) (drop 20 bs)).

Lemma set_cksum_twice c d s : set_cksum c (set_cksum d s) = set_cksum c s.
Proof. reflexivity. Qed.

Lemma segment_bytes_length s :
  length (segment_bytes s) = (20 + length (seg_data s))%nat.
Proof. unfold segment_bytes. rewrite !length_app, !le_bytes_length. lia. Qed.

(** ** Host and network byte order *)

Definition _segment_hton (segment : ctcp_segment) : ctcp_segment :=
  let segment := set_seqno (htonl (seg_seqno segment)) segment in
  let segment := set_ackno (htonl (seg_ackno segment)) segment in
  let segment := set_len (htons (seg_len segment)) segment in
  let segment := set_flags (htonl (seg_flags segment)) segment in
  set_window (htons (seg_window segment)) segment.

Definition _segment_ntoh (segment : ctcp_segment) : ctcp_segment :=
  let segment := set_seqno (ntohl (seg_seqno segment)) segment in
  let segment := set_ackno (ntohl (seg_ackno segment)) segment in
  let segment := set_len (ntohs (seg_len segment)) segment in
  let segment := set_flags (ntohl (seg_flags segment)) segment in
  set_window (ntohs (seg_window segment)) segment.

(** ** The test of a received segment

    Returns the C result and the segment, whose checksum field the C code
    clears on the way. *)
Definition _is_segment_valid {S} (segment : ctcp_segment) (len : Z) :
    M S (Z * ctcp_segment) :=
  let segment_len := ntohs (seg_len segment) in
  if segment_len >? u16 len then mret (-1, segment)
  else
    let sum := seg_cksum segment in
    let segment := set_cksum 0 segment in
    c ← cksum (segment_bytes segment) segment_len;
    if negb (bool_decide (c = sum)) then mret (-1, segment)
    else mret (0, segment).

(** ** Corruption: [flipbit] *)

Definition flipbit (segment : list byte) (bit : Z) : option (list byte) :=
  let mask := Z.shiftl 1 (bit mod 8) in
  b ← segment !! Z.to_nat (bit / 8);
  Some (<[Z.to_nat (bit / 8) := z2b (Z.lxor (b2z b) mask)]> segment).

(** ** The structure and its bytes *)

Lemma segment_of_bytes_bytes s :
  segment_wf s -> segment_of_bytes (segment_bytes s) = Some s.
Proof.
  intros [Hs Ha Hl Hp Hf Hw Hc]. unfold segment_of_bytes.
  rewrite bool_decide_false
    by (rewrite segment_bytes_length; unfold SEGMENT_HDR_SIZE; lia).
  destruct s as [sq ak ln pd fl wn ck dt]. simpl in *. f_equal.
  change (Segment (le_int (le_bytes 4 sq)) (le_int (le_bytes 4 ak)) (le_int (le_bytes 2 ln))
            (le_int (le_bytes 2 pd)) (le_int (le_bytes 4 fl)) (le_int (le_bytes 2 wn))
            (le_int (le_bytes 2 ck)) dt = Segment sq ak ln pd fl wn ck dt).
  by rewrite !le_int_bytes.
Qed.

Lemma le_int_slice_range o n bs : 0 <= le_int (slice o n bs) < 2 ^ (8 * Z.of_nat n).
Proof.
  pose proof (le_int_range (slice o n bs)) as [H1 H2]. split; [done|].
  eapply Z.lt_le_trans; [exact H2|]. apply Z.pow_le_mono_r; [lia|].
  unfold slice. rewrite length_take. lia.
Qed.

Lemma segment_bytes_of bs s :
  segment_of_bytes bs = Some s -> segment_bytes s = bs /\ segment_wf s.
Proof.
  unfold segment_of_bytes. case_bool_decide as Hlen; [done|]. intros [= <-]. split.
  - unfold SEGMENT_HDR_SIZE in Hlen.
    do 20 (destruct bs as [|? bs]; [simpl in Hlen; lia|]).
    unfold segment_bytes, slice. cbn [seg_seqno seg_ackno seg_len seg_pad seg_flags
      seg_window seg_cksum seg_data drop take]. by rewrite !le_bytes_int' by done.
  - split; simpl; exact (le_int_slice_range _ _ bs).
Qed.

Lemma segment_of_bytes_length bs s :
  segment_of_bytes bs = Some s -> length bs = (20 + length (seg_data s))%nat.
Proof. intros [<- _]%segment_bytes_of. apply segment_bytes_length. Qed.

(** The fields the validity test reads, from the bytes. *)
Lemma slice_len s : slice 8 2 (segment_bytes s) = le_bytes 2 (seg_len s).
Proof. reflexivity. Qed.
Lemma slice_cksum s : slice 18 2 (segment_bytes s) = le_bytes 2 (seg_cksum s).
Proof. reflexivity. Qed.
Lemma set_cksum_bytes v s :
  segment_bytes (set_cksum v s) =
  take 18 (segment_bytes s) ++ le_bytes 2 v ++ drop 20 (segment_bytes s).
Proof. reflexivity. Qed.

(** Converting to network order and back. *)
Lemma segment_ntoh_hton s : segment_wf s -> _segment_ntoh (_segment_hton s) = s.
Proof.
  intros [Hs Ha Hl Hp Hf Hw Hc]. destruct s. unfold _segment_ntoh, _segment_hton.
  simpl in *. by rewrite !ntohl_htonl, !ntohs_htons.
Qed.

Lemma segment_hton_ntoh s : segment_wf s -> _segment_hton (_segment_ntoh s) = s.
Proof.
  intros [Hs Ha Hl Hp Hf Hw Hc]. destruct s. unfold _segment_ntoh, _segment_hton.
  simpl in *. by rewrite !htonl_ntohl, !htons_ntohs.
Qed.

Lemma segment_hton_wf s : segment_wf s -> segment_wf (_segment_hton s).
Proof.
  intros [Hs Ha Hl Hp Hf Hw Hc]. split; simpl; auto with ctcp.
Qed.

Lemma segment_ntoh_wf s : segment_wf s -> segment_wf (_segment_ntoh s).
Proof.
  intros [Hs Ha Hl Hp Hf Hw Hc]. split; simpl; auto with ctcp.
Qed.

Lemma set_cksum_wf v s : 0 <= v < 2 ^ 16 -> segment_wf s -> segment_wf (set_cksum v s).
Proof. intros Hv [Hs Ha Hl Hp Hf Hw Hc]. by split. Qed.

#[export] Hint Resolve segment_hton_wf segment_ntoh_wf set_cksum_wf : ctcp.

(** The flag bits of a segment in network order are those of the host flags
    after [_segment_ntoh]: the constants of [ctcp.h] are distinct bits. *)
Lemma has_flag_values :
  has_flag FIN FIN = true /\ has_flag FIN ACK = false /\ has_flag ACK ACK = true /\
  has_flag ACK FIN = false /\ has_flag (Z.lor FIN ACK) FIN = true /\
  has_flag (Z.lor FIN ACK) ACK = true.
Proof. by vm_compute. Qed.

(** ** The validity test *)

Definition seg_cksum_of (segment : ctcp_segment) : Z :=
  cksum_of (take (Z.to_nat (ntohs (seg_len segment))) (segment_bytes (set_cksum 0 segment))).

Lemma seg_cksum_of_range s : 0 <= seg_cksum_of s < 2 ^ 16.
Proof. pose proof (cksum_of_range (take (Z.to_nat (ntohs (seg_len s)))
  (segment_bytes (set_cksum 0 s)))). unfold seg_cksum_of. lia. Qed.

(** What the test computes, when the buffer holds the announced length. *)
Definition segment_valid (segment : ctcp_segment) (len : Z) : bool :=
  (ntohs (seg_len segment) <=? u16 len) &&
  bool_decide (seg_cksum_of segment = seg_cksum segment).

(** A segment as it is received: [len] is announced by the caller, and the
    buffer holds the length that the segment announces when that is smaller. *)
Definition arrived (seg : ctcp_segment) (len : Z) : Prop :=
  ntohs (seg_len seg) <= u16 len -> ntohs (seg_len seg) <= Z.of_nat (length (segment_bytes seg)).

Lemma is_segment_valid_run {S} segment len (s : S) :
  arrived segment len ->
  _is_segment_valid segment len s =
  Done (if segment_valid segment len then 0 else -1,
        if ntohs (seg_len segment) <=? u16 len then set_cksum 0 segment else segment) s.
Proof.
  intros Hlen. unfold _is_segment_valid, segment_valid.
  pose proof (ntohs_range (seg_len segment)) as Hr.
  destruct (Z.gtb_spec (ntohs (seg_len segment)) (u16 len)) as [Hgt|Hle].
  - by rewrite (proj2 (Z.leb_gt _ _) Hgt).
  - rewrite (proj2 (Z.leb_le _ _) Hle). cbn [andb].
    assert (E : length (segment_bytes (set_cksum 0 segment)) = length (segment_bytes segment))
      by (rewrite !segment_bytes_length; done).
    specialize (Hlen Hle). erewrite bind_Done by (apply cksum_run; [done|lia]).
    fold (seg_cksum_of segment).
    by destruct (bool_decide (seg_cksum_of segment = seg_cksum segment)).
Qed.

(** The checksum of a segment as [_segment_send] stores it passes the test. *)
Lemma segment_valid_built segment len :
  seg_cksum segment = 0 -> ntohs (seg_len segment) <= u16 len ->
  segment_valid (set_cksum (seg_cksum_of segment) segment) len = true.
Proof.
  intros Hc Hlen. unfold segment_valid. apply andb_true_iff. split; [by apply Z.leb_le|].
  apply bool_decide_eq_true. done.
Qed.

(** ** Corruption is detected *)

Lemma lxor_bit_ne x k : Z.lxor x (Z.shiftl 1 k) = x -> k < 0.
Proof.
  intros E. destruct (decide (k < 0)) as [|Hk]; [done|]. exfalso.
  assert (E' : Z.testbit (Z.lxor x (Z.shiftl 1 k)) k = Z.testbit x k) by by rewrite E.
  rewrite Z.lxor_spec, Z.shiftl_spec, Z.sub_diag in E' by lia.
  by destruct (Z.testbit x k).
Qed.

(** A flipped bit changes one byte of the buffer, and does change it. *)
Lemma flipbit_insert bs bit :
  0 <= bit < 8 * Z.of_nat (length bs) ->
  exists b b', bs !! Z.to_nat (bit / 8) = Some b /\ b' <> b /\
    flipbit bs bit = Some (<[Z.to_nat (bit / 8) := b']> bs).
Proof.
  intros Hbit. assert (Hi : (Z.to_nat (bit / 8) < length bs)%nat)
    by (Z.div_mod_to_equations; lia).
  apply lookup_lt_is_Some in Hi as [b Hb]. eexists b, _. split; [done|].
  unfold flipbit. rewrite Hb. split; [|done]. intros E.
  apply (f_equal b2z) in E. rewrite b2z_z2b in E.
  pose proof (Z.mod_pos_bound bit 8 ltac:(lia)). pose proof (b2z_range b).
  rewrite Z.mod_small in E; [apply lxor_bit_ne in E; lia|].
  assert (Hm : 0 <= Z.shiftl 1 (bit mod 8) < 2 ^ 8).
  { rewrite Z.shiftl_1_l. split; [lia|]. apply Z.pow_lt_mono_r; lia. }
  apply lxor_range; [lia|done|done].
Qed.

(** The bytes the checksum covers, once the checksum field is cleared. *)
Definition cleared_bytes (bs : list byte) : list byte :=
  take 18 bs ++ le_bytes 2 0 ++ drop 20 bs.

Lemma cleared_length bs : (20 <= length bs)%nat -> length (cleared_bytes bs) = length bs.
Proof.
  intros H. unfold cleared_bytes.
  rewrite !length_app, le_bytes_length, length_take, length_drop. lia.
Qed.

(** Changing a byte outside the checksum field changes the same byte of the
    cleared buffer; changing one inside leaves the cleared buffer alone. *)
Lemma cleared_insert_out bs i b :
  (20 <= length bs)%nat -> (i < 18 \/ 20 <= i)%nat ->
  cleared_bytes (<[i := b]> bs) = <[i := b]> (cleared_bytes bs).
Proof.
  intros Hlen [Hi|Hi]; unfold cleared_bytes.
  - rewrite take_insert_lt, drop_insert_lt by lia.
    by rewrite insert_app_l by (rewrite length_take; lia).
  - rewrite take_insert_ge, drop_insert_ge by lia. rewrite !app_assoc.
    rewrite insert_app_r_alt
      by (rewrite length_app, length_take, le_bytes_length; lia).
    do 3 f_equal. rewrite length_app, length_take, le_bytes_length. lia.
Qed.

Lemma cleared_insert_in bs i b :
  (18 <= i < 20)%nat -> cleared_bytes (<[i := b]> bs) = cleared_bytes bs.
Proof.
  intros Hi. unfold cleared_bytes. by rewrite take_insert_ge, drop_insert_lt by lia.
Qed.

Lemma cleared_lookup_out bs i :
  (20 <= length bs)%nat -> (i < 18 \/ 20 <= i)%nat -> cleared_bytes bs !! i = bs !! i.
Proof.
  intros Hlen [Hi|Hi]; unfold cleared_bytes.
  - rewrite lookup_app_l by (rewrite length_take; lia). by rewrite lookup_take_lt.
  - rewrite app_assoc, lookup_app_r
      by (rewrite length_app, length_take, le_bytes_length; lia).
    rewrite lookup_drop. f_equal. rewrite length_app, length_take, le_bytes_length. lia.
Qed.

Lemma slice_insert_ne o n bs i b :
  (i < o \/ o + n <= i)%nat -> slice o n (<[i := b]> bs) = slice o n bs.
Proof.
  intros [Hi|Hi]; unfold slice.
  - by rewrite drop_insert_lt by lia.
  - rewrite drop_insert_ge by lia. by rewrite take_insert_ge by lia.
Qed.

(** The fields of the segment that a changed buffer holds. *)
Lemma insert_segment s i b :
  segment_wf s -> (16 <= i < length (segment_bytes s))%nat ->
  exists s', segment_of_bytes (<[i := b]> (segment_bytes s)) = Some s' /\
    segment_wf s' /\ segment_bytes s' = <[i := b]> (segment_bytes s) /\
    seg_len s' = seg_len s.
Proof.
  intros Hwf Hi. set (bs := <[i := b]> (segment_bytes s)).
  assert (Hlen : length bs = length (segment_bytes s)) by (subst bs; apply length_insert).
  pose proof (segment_bytes_length s) as Hb.
  destruct (segment_of_bytes bs) as [s'|] eqn:E.
  - destruct (segment_bytes_of _ _ E) as [E1 E2]. exists s'. split_and!; try done.
    assert (Hs : slice 8 2 (segment_bytes s') = slice 8 2 (segment_bytes s)).
    { rewrite E1. apply slice_insert_ne. lia. }
    rewrite !slice_len in Hs. apply (f_equal le_int) in Hs.
    rewrite !le_int_bytes in Hs by (apply Hwf || apply E2). done.
  - unfold segment_of_bytes in E. case_bool_decide as Hd; [|done].
    unfold SEGMENT_HDR_SIZE in Hd. lia.
Qed.

Lemma seg_cksum_of_cleared s :
  seg_cksum_of s = cksum_of (take (Z.to_nat (ntohs (seg_len s))) (cleared_bytes (segment_bytes s))).
Proof. reflexivity. Qed.

(** A change of one byte from the window field on, within the announced
    length, turns a valid segment into an invalid one. *)
Lemma insert_invalid s s' i b b' len :
  segment_wf s -> segment_wf s' -> seg_len s' = seg_len s ->
  segment_bytes s' = <[i := b']> (segment_bytes s) ->
  segment_bytes s !! i = Some b -> b' <> b ->
  (16 <= i)%nat -> Z.of_nat i < ntohs (seg_len s) ->
  segment_valid s len = true -> segment_valid s' len = false.
Proof.
  intros Hwf Hwf' Hl Hb Hi Hne Hi16 Hil [Hv1 Hv2%bool_decide_eq_true]%andb_true_iff.
  unfold segment_valid. rewrite Hl, Hv1. cbn [andb]. apply bool_decide_eq_false. intros E.
  pose proof (segment_bytes_length s) as Hlen.
  rewrite seg_cksum_of_cleared, Hl, Hb in E. rewrite seg_cksum_of_cleared in Hv2.
  assert (Hc : slice 18 2 (<[i := b']> (segment_bytes s)) = le_bytes 2 (seg_cksum s'))
    by (rewrite <- Hb; apply slice_cksum).
  destruct (decide (18 <= i < 20)%nat) as [Hin|Hout].
  - rewrite cleared_insert_in, Hv2 in E by done.
    rewrite <- E, <- slice_cksum in Hc. unfold slice in Hc.
    rewrite drop_insert_ge, take_insert_lt in Hc by lia.
    apply (f_equal (lookup (i - 18)%nat)) in Hc.
    rewrite list_lookup_insert_eq, lookup_take_lt, lookup_drop in Hc
      by (rewrite ?length_take, ?length_drop; lia).
    replace (18 + (i - 18))%nat with i in Hc by lia. congruence.
  - rewrite slice_insert_ne, slice_cksum in Hc by lia.
    apply (f_equal le_int) in Hc. rewrite !le_int_bytes in Hc by (apply Hwf || apply Hwf').
    rewrite <- Hc, <- Hv2, cleared_insert_out, take_insert_lt in E by lia.
    revert E. eapply cksum_of_insert_ne; [|done].
    by rewrite lookup_take_lt, cleared_lookup_out by lia.
Qed.

(** C38: a single bit flipped anywhere from the window field to the end of a
    segment that passes [_is_segment_valid] makes the test fail. The flips that
    [conn_send] makes to corrupt a segment are of this kind. *)
Theorem flipbit_detected {S} s len bit (m : S) :
  segment_wf s -> arrived s len ->
  _is_segment_valid s len m = Done (0, set_cksum 0 s) m ->
  128 <= bit < 8 * ntohs (seg_len s) ->
  exists bs s', flipbit (segment_bytes s) bit = Some bs /\ segment_of_bytes bs = Some s' /\
    _is_segment_valid s' len m = Done (-1, set_cksum 0 s') m.
Proof.
  intros Hwf Hlen Hv Hbit. rewrite is_segment_valid_run in Hv by done.
  destruct (segment_valid s len) eqn:Hsv; [|done].
  pose proof Hsv as [Hle _]%andb_true_iff. pose proof Hle as Hle'%Z.leb_le.
  specialize (Hlen Hle').
  destruct (flipbit_insert (segment_bytes s) bit) as (b & b' & Hb & Hne & Hf); [lia|].
  destruct (insert_segment s (Z.to_nat (bit / 8)) b' Hwf) as (s' & Hs' & Hwf' & Hb' & Hl').
  { Z.div_mod_to_equations. lia. }
  exists (<[Z.to_nat (bit / 8) := b']> (segment_bytes s)), s'. split_and!; [done|done|].
  rewrite is_segment_valid_run by (intros _; rewrite Hb', length_insert, Hl'; lia).
  rewrite Hl', Hle.
  rewrite (insert_invalid s s' (Z.to_nat (bit / 8)) b b') by
    (done || (Z.div_mod_to_equations; lia)). done.
Qed.

(** [_is_segment_valid] accepts a segment exactly when the announced length
    fits in the received one and the checksum over the announced length, with
    the checksum field cleared, is the one the segment carries. *)
Theorem is_segment_valid_spec {S} s len (m : S) :
  arrived s len ->
  exists r s', _is_segment_valid s len m = Done (r, s') m /\
    (r = 0 \/ r = -1) /\
    (r = 0 <-> ntohs (seg_len s) <= u16 len /\ seg_cksum s = seg_cksum_of s).
Proof.
  intros Hlen. rewrite is_segment_valid_run by done. eexists _, _. split; [done|].
  unfold segment_valid. rewrite <- (bool_decide_eq_true (seg_cksum s = seg_cksum_of s)).
  rewrite <- Z.leb_le.
  rewrite (bool_decide_ext (seg_cksum s = seg_cksum_of s) (seg_cksum_of s = seg_cksum s)) by done.
  destruct (_ <=? _), (bool_decide _); simpl; naive_solver.
Qed.

(** ** Witnesses: a segment with two bytes of data *)

Definition segment_example : ctcp_segment :=
  let s := _segment_hton (Segment 1 1 22 0 ACK 1440 0 [Byte.x68; Byte.x69]) in
  set_cksum (seg_cksum_of s) s.

Lemma segment_example_wf : segment_wf segment_example.
Proof. by split; vm_compute. Qed.

Lemma flipbit_detected_witness :
  exists bs s', flipbit (segment_bytes segment_example) 165 = Some bs /\
    segment_of_bytes bs = Some s' /\
    _is_segment_valid s' 22 tt = Done (-1, set_cksum 0 s') tt.
Proof.
  apply (flipbit_detected segment_example 22 165 tt);
    [exact segment_example_wf|by vm_compute|by vm_compute|by vm_compute].
Defined.

Lemma is_segment_valid_spec_witness :
  exists r s', _is_segment_valid segment_example 22 tt = Done (r, s') tt /\
    (r = 0 \/ r = -1) /\
    (r = 0 <-> ntohs (seg_len segment_example) <= u16 22 /\
               seg_cksum segment_example = seg_cksum_of segment_example).
Proof. apply (is_segment_valid_spec segment_example 22 tt). by vm_compute. Defined.
