(* ===== verification/ConnLib.v ===== *)
(** * What [ctcp.c] uses of the library ([src/ctcp_sys.h])

    The connection functions that the starter code offers to [ctcp.c], as an
    interface, and what [ctcp.c] may assume of them. [Ctcp.v] is written and
    proved against this interface only. *)

From S2P Require Import Prelude Heap Words Segment.

(** A [conn_t *] is a pointer of the library; buffers and segments are passed
    as the memory their pointers designate, [None] being a null pointer. *)
Class ConnLib (S : Type) := {
  (** [conn_input(conn, buf, len)]: the result and the new contents of [buf]. *)
  conn_input : ptr -> option (list byte) -> Z -> M S (Z * list byte);
  (** [conn_send(conn, segment, len)]. *)
  conn_send : ptr -> option (list byte) -> Z -> M S Z;
  (** [conn_output(conn, buf, len)]. *)
  conn_output : ptr -> list byte -> Z -> M S Z;
  (** [conn_bufspace(conn)]. *)
  conn_bufspace : ptr -> M S Z;
  (** [conn_remove(conn)]. *)
  conn_remove : ptr -> M S unit;
  (** [end_client()]. *)
  end_client : M S unit;
}.

(** The size of the output queue (src/ctcp_sys_internal.h). *)
Definition MAX_BUF_SPACE : Z := 8192.

(** The contract. A connection is open from its creation until [conn_remove];
    only [conn_remove] of a connection closes it. The functions have no
    undefined behaviour on an open connection; [conn_send] may end the process,
    which is then a child the library has forked, and so may [end_client]. *)
Class ConnLaws (S : Type) `{ConnLib S} := {
  lib_inv : S -> Prop;
  conn_open : S -> ptr -> Prop;
  (** What is known when [end_client] returns. *)
  end_returns : S -> Prop;

  conn_input_law c buf s :
    lib_inv s -> conn_open s c -> Z.of_nat (length buf) = MAX_SEG_DATA_SIZE ->
    wp (conn_input c (Some buf) MAX_SEG_DATA_SIZE)
      (fun '(r, buf') s' =>
         lib_inv s' /\ (forall c', conn_open s c' -> conn_open s' c') /\
         length buf' = length buf /\ (r = -1 \/ 0 <= r <= MAX_SEG_DATA_SIZE))
      (fun _ => True) s;

  conn_send_law c seg len s :
    lib_inv s -> conn_open s c -> Z.of_nat (length seg) = len ->
    SEGMENT_HDR_SIZE <= len <= SEGMENT_HDR_SIZE + MAX_SEG_DATA_SIZE ->
    wp (conn_send c (Some seg) len)
      (fun _ s' => lib_inv s' /\ (forall c', conn_open s c' -> conn_open s' c'))
      (fun _ => True) s;

  conn_output_law c buf len s :
    lib_inv s -> conn_open s c -> 0 <= len <= Z.of_nat (length buf) -> len <= MAX_BUF_SPACE ->
    wp (conn_output c buf len)
      (fun r s' => lib_inv s' /\ (forall c', conn_open s c' -> conn_open s' c') /\
                   (len = 0 -> r = 0) /\ (r = -1 \/ r = 0 \/ r = len))
      (fun _ => True) s;

  conn_bufspace_law c s :
    lib_inv s -> conn_open s c ->
    exists n, conn_bufspace c s = Done n s /\ 0 <= n <= MAX_BUF_SPACE;

  conn_remove_law c s :
    lib_inv s -> conn_open s c ->
    wp (conn_remove c)
      (fun _ s' => lib_inv s' /\ (forall c', c' <> c -> conn_open s c' -> conn_open s' c'))
      (fun _ => True) s;

  end_client_law s :
    lib_inv s ->
    wp end_client
      (fun _ s' => lib_inv s' /\ (forall c', conn_open s c' -> conn_open s' c') /\
                   end_returns s')
      (fun _ => True) s;
}.
