(* ===== verification/Ctcp.v ===== *)
(** * The cTCP endpoint ([src/ctcp.c]): state and operations

    Every function of [ctcp.c], in a monad over the memory of the file: its
    global variables, one typed heap per structure, the linked lists, and the
    library behind the interface of [ConnLib.v]. Pointers are followed in the
    heaps, so that a dangling pointer, a double [free] or a null pointer is
    seen. Output on [stderr] is left out. *)

From S2P Require Import Prelude Heap Words Cksum LinkedList Segment ConnLib.

(** ** Data *)

Definition MAX_BUFF_SIZE : Z := MAX_SEG_DATA_SIZE.

(** [ctcp_config_t]. *)
Record ctcp_config := CtcpConfig {
  cfg_recv_window : Z;
  cfg_send_window : Z;
  cfg_timer : Z;
  cfg_rt_timeout : Z;
}.

Inductive conn_state :=
  | WAIT_INPUT
  | DATA_TRANSFER
  | TEAR_DOWN
  | WAIT_LAST_ACK
  | WAIT_LAST_FIN.

Inductive teardown_state :=
  | NOT_TEARDOWN
  | WAIT_DESTROY
  | DESTROYED.

#[export] Instance conn_state_eq_dec : EqDecision conn_state.
Proof. solve_decision. Defined.
#[export] Instance teardown_state_eq_dec : EqDecision teardown_state.
Proof. solve_decision. Defined.

Record segment_attr := SegmentAttr {
  sa_no_of_times : Z;
  sa_time : Z;
  sa_segment : ptr;
}.

Record tear_down_nums := TearDownNums { fin_seq_no : Z; fin_ack_no : Z }.

(** The type of [prev], a pointer to a pointer: null, [&state_list], or the
    address of the [next] field of a state. *)
Inductive prev_ptr :=
  | PrevNull
  | PrevHead
  | PrevNext (s : loc).

Record ctcp_state := CtcpState {
  st_next : ptr;
  st_prev : prev_ptr;
  st_conn : ptr;
  st_segments_send : ptr;
  st_conn_state : conn_state;
  st_seqno : Z;
  st_ackno : Z;
  st_received_segment : ptr;
  st_sent_segment_attr : ptr;
  st_td_state : teardown_state;
  st_tim : Z;
  st_timer : Z;
  st_rt_timeout : Z;
  st_tear_down_nums : ptr;
}.

(** [calloc(sizeof(ctcp_state_t), 1)]: the enumerations start at their first
    constructor. *)
Definition zero_state : ctcp_state :=
  CtcpState None PrevNull None None WAIT_INPUT 0 0 None None NOT_TEARDOWN 0 0 0 None.

Definition st_set_next (v : ptr) (s : ctcp_state) : ctcp_state :=
  CtcpState v (st_prev s) (st_conn s) (st_segments_send s) (st_conn_state s) (st_seqno s)
    (st_ackno s) (st_received_segment s) (st_sent_segment_attr s) (st_td_state s) (st_tim s)
    (st_timer s) (st_rt_timeout s) (st_tear_down_nums s).
Definition st_set_prev (v : prev_ptr) (s : ctcp_state) : ctcp_state :=
  CtcpState (st_next s) v (st_conn s) (st_segments_send s) (st_conn_state s) (st_seqno s)
    (st_ackno s) (st_received_segment s) (st_sent_segment_attr s) (st_td_state s) (st_tim s)
    (st_timer s) (st_rt_timeout s) (st_tear_down_nums s).
Definition st_set_conn (v : ptr) (s : ctcp_state) : ctcp_state :=
  CtcpState (st_next s) (st_prev s) v (st_segments_send s) (st_conn_state s) (st_seqno s)
    (st_ackno s) (st_received_segment s) (st_sent_segment_attr s) (st_td_state s) (st_tim s)
    (st_timer s) (st_rt_timeout s) (st_tear_down_nums s).
Definition st_set_segments_send (v : ptr) (s : ctcp_state) : ctcp_state :=
  CtcpState (st_next s) (st_prev s) (st_conn s) v (st_conn_state s) (st_seqno s)
    (st_ackno s) (st_received_segment s) (st_sent_segment_attr s) (st_td_state s) (st_tim s)
    (st_timer s) (st_rt_timeout s) (st_tear_down_nums s).
Definition st_set_conn_state (v : conn_state) (s : ctcp_state) : ctcp_state :=
  CtcpState (st_next s) (st_prev s) (st_conn s) (st_segments_send s) v (st_seqno s)
    (st_ackno s) (st_received_segment s) (st_sent_segment_attr s) (st_td_state s) (st_tim s)
    (st_timer s) (st_rt_timeout s) (st_tear_down_nums s).
Definition st_set_seqno (v : Z) (s : ctcp_state) : ctcp_state :=
  CtcpState (st_next s) (st_prev s) (st_conn s) (st_segments_send s) (st_conn_state s) v
    (st_ackno s) (st_received_segment s) (st_sent_segment_attr s) (st_td_state s) (st_tim s)
    (st_timer s) (st_rt_timeout s) (st_tear_down_nums s).
Definition st_set_ackno (v : Z) (s : ctcp_state) : ctcp_state :=
  CtcpState (st_next s) (st_prev s) (st_conn s) (st_segments_send s) (st_conn_state s)
    (st_seqno s) v (st_received_segment s) (st_sent_segment_attr s) (st_td_state s) (st_tim s)
    (st_timer s) (st_rt_timeout s) (st_tear_down_nums s).
Definition st_set_received_segment (v : ptr) (s : ctcp_state) : ctcp_state :=
  CtcpState (st_next s) (st_prev s) (st_conn s) (st_segments_send s) (st_conn_state s)
    (st_seqno s) (st_ackno s) v (st_sent_segment_attr s) (st_td_state s) (st_tim s)
    (st_timer s) (st_rt_timeout s) (st_tear_down_nums s).
Definition st_set_sent_segment_attr (v : ptr) (s : ctcp_state) : ctcp_state :=
  CtcpState (st_next s) (st_prev s) (st_conn s) (st_segments_send s) (st_conn_state s)
    (st_seqno s) (st_ackno s) (st_received_segment s) v (st_td_state s) (st_tim s)
    (st_timer s) (st_rt_timeout s) (st_tear_down_nums s).
Definition st_set_td_state (v : teardown_state) (s : ctcp_state) : ctcp_state :=
  CtcpState (st_next s) (st_prev s) (st_conn s) (st_segments_send s) (st_conn_state s)
    (st_seqno s) (st_ackno s) (st_received_segment s) (st_sent_segment_attr s) v (st_tim s)
    (st_timer s) (st_rt_timeout s) (st_tear_down_nums s).
Definition st_set_tim (v : Z) (s : ctcp_state) : ctcp_state :=
  CtcpState (st_next s) (st_prev s) (st_conn s) (st_segments_send s) (st_conn_state s)
    (st_seqno s) (st_ackno s) (st_received_segment s) (st_sent_segment_attr s) (st_td_state s) v
    (st_timer s) (st_rt_timeout s) (st_tear_down_nums s).
Definition st_set_timer (v : Z) (s : ctcp_state) : ctcp_state :=
  CtcpState (st_next s) (st_prev s) (st_conn s) (st_segments_send s) (st_conn_state s)
    (st_seqno s) (st_ackno s) (st_received_segment s) (st_sent_segment_attr s) (st_td_state s)
    (st_tim s) v (st_rt_timeout s) (st_tear_down_nums s).
Definition st_set_rt_timeout (v : Z) (s : ctcp_state) : ctcp_state :=
  CtcpState (st_next s) (st_prev s) (st_conn s) (st_segments_send s) (st_conn_state s)
    (st_seqno s) (st_ackno s) (st_received_segment s) (st_sent_segment_attr s) (st_td_state s)
    (st_tim s) (st_timer s) v (st_tear_down_nums s).
Definition st_set_tear_down_nums (v : ptr) (s : ctcp_state) : ctcp_state :=
  CtcpState (st_next s) (st_prev s) (st_conn s) (st_segments_send s) (st_conn_state s)
    (st_seqno s) (st_ackno s) (st_received_segment s) (st_sent_segment_attr s) (st_td_state s)
    (st_tim s) (st_timer s) (st_rt_timeout s) v.

Definition sa_set_no_of_times (v : Z) (a : segment_attr) : segment_attr :=
  SegmentAttr v (sa_time a) (sa_segment a).
Definition sa_set_time (v : Z) (a : segment_attr) : segment_attr :=
  SegmentAttr (sa_no_of_times a) v (sa_segment a).
Definition sa_set_segment (v : ptr) (a : segment_attr) : segment_attr :=
  SegmentAttr (sa_no_of_times a) (sa_time a) v.

(** ** Memory

    [w_trace] is not part of the program: it records the calls that [ctcp.c]
    makes to the library, with their results, the latest last. *)

Inductive event :=
  | EvInput (c : ptr) (r : Z)
  | EvSend (c : ptr) (segment : list byte) (n : Z)
  | EvOutput (c : ptr) (buf : list byte) (r : Z)
  | EvRemove (c : ptr)
  | EvEndClient.

Record world (S : Type) := World {
  w_state_list : ptr;
  w_states : heap ctcp_state;
  w_segments : heap ctcp_segment;
  w_attrs : heap segment_attr;
  w_tdns : heap tear_down_nums;
  w_ll : ll_mem;
  w_buffer_out : list byte;
  w_trace : list event;
  w_sys : S;
}.
Arguments World {S} _ _ _ _ _ _ _ _ _.
Arguments w_state_list {S} _.
Arguments w_states {S} _.
Arguments w_segments {S} _.
Arguments w_attrs {S} _.
Arguments w_tdns {S} _.
Arguments w_ll {S} _.
Arguments w_buffer_out {S} _.
Arguments w_trace {S} _.
Arguments w_sys {S} _.

Section Ctcp.
Context {S : Type} `{!ConnLib S}.

Definition w_set_state_list (p : ptr) (w : world S) : world S :=
  World p (w_states w) (w_segments w) (w_attrs w) (w_tdns w) (w_ll w) (w_buffer_out w)
    (w_trace w) (w_sys w).
Definition w_set_states (h : heap ctcp_state) (w : world S) : world S :=
  World (w_state_list w) h (w_segments w) (w_attrs w) (w_tdns w) (w_ll w) (w_buffer_out w)
    (w_trace w) (w_sys w).
Definition w_set_segments (h : heap ctcp_segment) (w : world S) : world S :=
  World (w_state_list w) (w_states w) h (w_attrs w) (w_tdns w) (w_ll w) (w_buffer_out w)
    (w_trace w) (w_sys w).
Definition w_set_attrs (h : heap segment_attr) (w : world S) : world S :=
  World (w_state_list w) (w_states w) (w_segments w) h (w_tdns w) (w_ll w) (w_buffer_out w)
    (w_trace w) (w_sys w).
Definition w_set_tdns (h : heap tear_down_nums) (w : world S) : world S :=
  World (w_state_list w) (w_states w) (w_segments w) (w_attrs w) h (w_ll w) (w_buffer_out w)
    (w_trace w) (w_sys w).
Definition w_set_ll (m : ll_mem) (w : world S) : world S :=
  World (w_state_list w) (w_states w) (w_segments w) (w_attrs w) (w_tdns w) m (w_buffer_out w)
    (w_trace w) (w_sys w).
Definition w_set_buffer_out (b : list byte) (w : world S) : world S :=
  World (w_state_list w) (w_states w) (w_segments w) (w_attrs w) (w_tdns w) (w_ll w) b
    (w_trace w) (w_sys w).
Definition w_set_trace (t : list event) (w : world S) : world S :=
  World (w_state_list w) (w_states w) (w_segments w) (w_attrs w) (w_tdns w) (w_ll w)
    (w_buffer_out w) t (w_sys w).
Definition w_set_sys (s : S) (w : world S) : world S :=
  World (w_state_list w) (w_states w) (w_segments w) (w_attrs w) (w_tdns w) (w_ll w)
    (w_buffer_out w) (w_trace w) s.

Definition on_states {A} : M (heap ctcp_state) A -> M (world S) A := zoom w_states w_set_states.
Definition on_segments {A} : M (heap ctcp_segment) A -> M (world S) A :=
  zoom w_segments w_set_segments.
Definition on_attrs {A} : M (heap segment_attr) A -> M (world S) A := zoom w_attrs w_set_attrs.
Definition on_tdns {A} : M (heap tear_down_nums) A -> M (world S) A := zoom w_tdns w_set_tdns.
Definition on_ll {A} : M ll_mem A -> M (world S) A := zoom w_ll w_set_ll.
Definition on_sys {A} : M S A -> M (world S) A := zoom w_sys w_set_sys.

Definition log (e : event) : M (world S) unit :=
  modify (fun w => w_set_trace (w_trace w ++ [e]) w).

(** The calls to the library, recorded. *)
Definition call_input (c : ptr) (buf : list byte) (len : Z) : M (world S) (Z * list byte) :=
  '(r, buf') ← on_sys (conn_input c (Some buf) len); log (EvInput c r);; mret (r, buf').
Definition call_send (c : ptr) (seg : list byte) (len : Z) : M (world S) Z :=
  n ← on_sys (conn_send c (Some seg) len); log (EvSend c seg n);; mret n.
Definition call_output (c : ptr) (buf : list byte) (len : Z) : M (world S) Z :=
  r ← on_sys (conn_output c buf len); log (EvOutput c (take (Z.to_nat len) buf) r);; mret r.
Definition call_remove (c : ptr) : M (world S) unit :=
  on_sys (conn_remove c);; log (EvRemove c).
Definition call_end_client : M (world S) unit :=
  log EvEndClient;; on_sys end_client.

(** ** Sending a segment *)

Definition _save_sent_segment (state : loc) (segment : ptr) : M (world S) unit :=
  attr ← on_attrs (calloc (SegmentAttr 0 0 None));
  on_states (update state (st_set_sent_segment_attr (Some attr)));;
  on_attrs (update attr (sa_set_time 0));;
  on_attrs (update attr (sa_set_no_of_times 0));;
  on_attrs (update attr (sa_set_segment segment)).

(** [memcpy(segment->data, data, n)], with [n] bytes of room. *)
Definition copy_data (data : list byte) (n : Z) (s : ctcp_segment) : ctcp_segment :=
  set_data (take (Z.to_nat n) data ++ drop (Z.to_nat n) (seg_data s)) s.

Definition _segment_send (state : loc) (flags len : Z) (data : list byte) :
    M (world S) Z :=
  let datalen := i32 (len - SEGMENT_HDR_SIZE) in
  segment ← on_segments (calloc (zero_segment len));
  access (SEGMENT_HDR_SIZE <=? len);;
  st ← on_states (load state);
  on_segments (update segment (set_len (u16 len)));;
  on_segments (update segment (set_seqno (st_seqno st)));;
  on_segments (update segment (set_ackno (st_ackno st)));;
  on_segments (update segment (set_flags (u32 flags)));;
  on_segments (update segment (set_window MAX_SEG_DATA_SIZE));;
  access ((0 <=? datalen) && (datalen <=? Z.of_nat (length data)));;
  on_segments (update segment (copy_data data datalen));;
  on_segments (update segment _segment_hton);;
  on_segments (update segment (set_cksum 0));;
  seg ← on_segments (load segment);
  sum ← cksum (segment_bytes seg) (u16 len);
  on_segments (update segment (set_cksum (u16 sum)));;
  seg ← on_segments (load segment);
  n ← call_send (st_conn st) (segment_bytes seg) len;
  if n <? 0 then mret (-1)
  else
    (if has_flag flags FIN then
       on_states (update state (fun st => st_set_seqno (u32 (st_seqno st + 1)) st));;
       nums ← on_tdns (calloc (TearDownNums 0 0));
       on_states (update state (st_set_tear_down_nums (Some nums)));;
       st ← on_states (load state);
       on_tdns (update nums (fun t => TearDownNums (st_seqno st) (fin_ack_no t)));;
       on_tdns (update nums (fun t => TearDownNums (fin_seq_no t) (st_ackno st)))
     else on_states (update state (fun st => st_set_seqno (u32 (st_seqno st + datalen)) st)));;
    when ((datalen >? 0) || has_flag flags FIN) (_save_sent_segment state (Some segment));;
    mret (i16 len).

Definition _destroy_acked_segment (state : loc) : M (world S) unit :=
  st ← on_states (load state);
  match st_sent_segment_attr st with
  | None => mret tt
  | Some attr =>
      a ← on_attrs (load attr);
      on_segments (free (sa_segment a));;
      on_attrs (free (Some attr));;
      on_states (update state (st_set_sent_segment_attr None))
  end.

(** ** Connection set-up and removal *)

Definition ctcp_init (conn : ptr) (cfg : ctcp_config) : M (world S) ptr :=
  match conn with
  | None => mret None
  | Some _ =>
      state ← on_states (calloc zero_state);
      head ← gets w_state_list;
      on_states (update state (st_set_next head));;
      on_states (update state (st_set_prev PrevHead));;
      match head with
      | None => mret tt
      | Some h => on_states (update h (st_set_prev (PrevNext state)))
      end;;
      modify (w_set_state_list (Some state));;
      on_states (update state (st_set_conn conn));;
      on_states (update state (st_set_ackno 1));;
      on_states (update state (st_set_seqno 1));;
      on_states (update state (st_set_tim 0));;
      on_states (update state (st_set_td_state NOT_TEARDOWN));;
      on_states (update state (st_set_timer (u16 (cfg_timer cfg))));;
      on_states (update state (st_set_rt_timeout (u16 (cfg_rt_timeout cfg))));;
      on_states (update state (st_set_conn_state DATA_TRANSFER));;
      on_states (update state (st_set_sent_segment_attr None));;
      list ← on_ll ll_create;
      on_states (update state (st_set_segments_send list));;
      mret (Some state)
  end.

Definition ctcp_destroy (state : loc) : M (world S) unit :=
  st ← on_states (load state);
  match st_next st with
  | None => mret tt
  | Some next => on_states (update next (st_set_prev (st_prev st)))
  end;;
  st ← on_states (load state);
  match st_prev st with
  | PrevNull => undef
  | PrevHead => modify (w_set_state_list (st_next st))
  | PrevNext p => on_states (update p (st_set_next (st_next st)))
  end;;
  st ← on_states (load state);
  call_remove (st_conn st);;
  on_ll (ll_destroy (st_segments_send st));;
  on_tdns (free (st_tear_down_nums st));;
  on_states (free (Some state));;
  call_end_client.

(** ** Retransmission *)

(** The part after the [switch], on the attributes of the saved segment. *)
Definition retransmit (state attr : loc) : M (world S) unit :=
  st ← on_states (load state);
  on_attrs (update attr (fun a => sa_set_time (u16 (sa_time a + st_timer st)) a));;
  a ← on_attrs (load attr);
  when (sa_time a >=? st_rt_timeout st)
    (segment ← deref (sa_segment a);
     seg ← on_segments (load segment);
     call_send (st_conn st) (segment_bytes seg) (ntohs (seg_len seg));;
     on_attrs (update attr (fun a => sa_set_no_of_times (u16 (sa_no_of_times a + 1)) a));;
     a ← on_attrs (load attr);
     when (sa_no_of_times a >=? 5) (_destroy_acked_segment state)).

Definition retransmission_handler (state : loc) : M (world S) unit :=
  st ← on_states (load state);
  let segment_attr := st_sent_segment_attr st in
  let rest := match segment_attr with
              | None => mret tt
              | Some attr => retransmit state attr
              end in
  match st_td_state st with
  | NOT_TEARDOWN => rest
  | WAIT_DESTROY =>
      on_states (update state (fun st => st_set_tim (u16 (st_tim st + st_timer st)) st));;
      st ← on_states (load state);
      if st_tim st >=? st_rt_timeout st * 50 then ctcp_destroy state else rest
  | DESTROYED => rest
  end.

(** The loop of [ctcp_timer]: [state = state_list->next]. *)
Fixpoint ctcp_timer_loop (fuel : nat) (state : ptr) : M (world S) unit :=
  match state with
  | None => mret tt
  | Some s =>
      match fuel with
      | O => no_fuel
      | Datatypes.S fuel' =>
          retransmission_handler s;;
          head ← gets w_state_list;
          h ← deref head;
          st ← on_states (load h);
          ctcp_timer_loop fuel' (st_next st)
      end
  end.

Definition ctcp_timer (fuel : nat) : M (world S) unit :=
  head ← gets w_state_list;
  ctcp_timer_loop fuel head.

(** ** Input and output *)

Definition ctcp_read (state : loc) : M (world S) unit :=
  modify (w_set_buffer_out (replicate (Z.to_nat MAX_BUFF_SIZE) Byte.x00));;
  st ← on_states (load state);
  match st_sent_segment_attr st with
  | Some _ => mret tt
  | None =>
      buf ← gets w_buffer_out;
      '(r, buf) ← call_input (st_conn st) buf MAX_BUFF_SIZE;
      modify (w_set_buffer_out buf);;
      let retval := u32 r in
      if bool_decide (u32 (-1) = retval) then
        n ← _segment_send state FIN SEGMENT_HDR_SIZE [];
        if n <? 0 then mret tt
        else on_states (update state (st_set_conn_state TEAR_DOWN))
      else
        let len := u32 (retval + SEGMENT_HDR_SIZE) in
        buf ← gets w_buffer_out;
        _segment_send state ACK (i32 len) buf;;
        mret tt
  end.

Definition ctcp_output (state : loc) : M (world S) unit :=
  st ← on_states (load state);
  segment ← deref (st_received_segment st);
  seg ← on_segments (load segment);
  let datalen := u32 (seg_len seg - SEGMENT_HDR_SIZE) in
  space ← on_sys (conn_bufspace (st_conn st));
  let avail_buf := u32 space in
  if bool_decide (avail_buf = 0) then on_segments (free (Some segment))
  else if avail_buf >=? datalen then
    if bool_decide (datalen = 0) then
      on_states (update state (st_set_ackno (seg_seqno seg)));;
      _destroy_acked_segment state;;
      on_segments (free (Some segment))
    else
      r ← call_output (st_conn st) (seg_data seg) datalen;
      if r <? 0 then ctcp_destroy state
      else
        on_states (update state (st_set_ackno (u32 (seg_seqno seg + datalen))));;
        _segment_send state ACK SEGMENT_HDR_SIZE [];;
        _destroy_acked_segment state;;
        on_segments (free (Some segment))
  else mret tt.

(** ** Receiving a segment *)

(** [case DATA_TRANSFER]. *)
Definition receive_data_transfer (state segment : loc) : M (world S) unit :=
  st ← on_states (load state);
  seg ← on_segments (load segment);
  if seg_seqno seg <? st_ackno st then mret tt
  else if has_flag (seg_flags seg) FIN then
    call_output (st_conn st) [] 0;;
    on_states (update state (st_set_ackno (u32 (seg_seqno seg + 1))));;
    _segment_send state ACK SEGMENT_HDR_SIZE [];;
    _segment_send state FIN SEGMENT_HDR_SIZE [];;
    on_states (update state (st_set_conn_state WAIT_LAST_ACK))
  else if has_flag (seg_flags seg) ACK then
    if bool_decide (seg_len seg = SEGMENT_HDR_SIZE) then
      on_states (update state (st_set_ackno (seg_seqno seg)));;
      _destroy_acked_segment state;;
      on_segments (free (Some segment))
    else
      on_states (update state (st_set_received_segment (Some segment)));;
      ctcp_output state
  else mret tt.

(** [case WAIT_LAST_FIN]. *)
Definition receive_wait_last_fin (state segment : loc) : M (world S) unit :=
  seg ← on_segments (load segment);
  when (has_flag (seg_flags seg) FIN)
    (on_states (update state (st_set_ackno (u32 (seg_seqno seg + 1))));;
     _segment_send state ACK SEGMENT_HDR_SIZE [];;
     on_states (update state (st_set_tim 0));;
     on_states (update state (st_set_td_state WAIT_DESTROY))).

(** [case TEAR_DOWN], which falls through to the next case when the segment
    carries neither flag. *)
Definition receive_tear_down (state segment : loc) : M (world S) unit :=
  seg ← on_segments (load segment);
  if has_flag (seg_flags seg) ACK then
    if has_flag (seg_flags seg) FIN
    then on_states (update state (st_set_conn_state WAIT_LAST_ACK))
    else on_states (update state (st_set_conn_state WAIT_LAST_FIN))
  else if has_flag (seg_flags seg) FIN then
    on_states (update state (st_set_ackno (u32 (seg_seqno seg + 1))));;
    _segment_send state ACK SEGMENT_HDR_SIZE [];;
    ctcp_destroy state
  else receive_wait_last_fin state segment.

(** [case WAIT_LAST_ACK]. *)
Definition receive_wait_last_ack (state segment : loc) : M (world S) unit :=
  seg ← on_segments (load segment);
  when (has_flag (seg_flags seg) ACK) (ctcp_destroy state).

Definition ctcp_receive (state segment : loc) (len : Z) : M (world S) unit :=
  seg ← on_segments (load segment);
  '(r, seg) ← _is_segment_valid seg (u16 len);
  on_segments (store segment seg);;
  if negb (bool_decide (r = 0)) then mret tt
  else
    on_segments (update segment _segment_ntoh);;
    st ← on_states (load state);
    match st_conn_state st with
    | DATA_TRANSFER => receive_data_transfer state segment
    | TEAR_DOWN => receive_tear_down state segment
    | WAIT_LAST_FIN => receive_wait_last_fin state segment
    | WAIT_LAST_ACK => receive_wait_last_ack state segment
    | WAIT_INPUT => mret tt
    end.
End Ctcp.
