(* ===== verification/CtcpSpec.v ===== *)
(** * The abstract endpoint

    What [src/ctcp.c] does for one connection, without pointers, lists or
    memory management: an endpoint is a value, a segment is a value, and each
    entry point maps an endpoint to the next one, calling the library on the
    way. [None] is an endpoint that has been destroyed. [CtcpRefine.v] proves
    that the C functions do this. *)

From S2P Require Import Prelude Heap Words Cksum Segment ConnLib Ctcp.

(** The segment kept for retransmission, in network order, with the number of
    retransmissions and the clock. *)
Record unacked := Unacked { un_segment : ctcp_segment; un_times : Z; un_time : Z }.

(** [received_segment]: never set, a live segment, or a freed one. *)
Inductive received :=
  | RecvNone
  | RecvKept (segment : ctcp_segment)
  | RecvFreed.

Record endpoint := Endpoint {
  ep_conn : ptr;
  ep_phase : conn_state;
  ep_seqno : Z;
  ep_ackno : Z;
  ep_received : received;
  ep_unacked : option unacked;
  ep_td : teardown_state;
  ep_tim : Z;
  ep_timer : Z;
  ep_rt_timeout : Z;
}.

Definition ep_with_phase (v : conn_state) (e : endpoint) : endpoint :=
  Endpoint (ep_conn e) v (ep_seqno e) (ep_ackno e) (ep_received e) (ep_unacked e) (ep_td e)
    (ep_tim e) (ep_timer e) (ep_rt_timeout e).
Definition ep_with_seqno (v : Z) (e : endpoint) : endpoint :=
  Endpoint (ep_conn e) (ep_phase e) v (ep_ackno e) (ep_received e) (ep_unacked e) (ep_td e)
    (ep_tim e) (ep_timer e) (ep_rt_timeout e).
Definition ep_with_ackno (v : Z) (e : endpoint) : endpoint :=
  Endpoint (ep_conn e) (ep_phase e) (ep_seqno e) v (ep_received e) (ep_unacked e) (ep_td e)
    (ep_tim e) (ep_timer e) (ep_rt_timeout e).
Definition ep_with_received (v : received) (e : endpoint) : endpoint :=
  Endpoint (ep_conn e) (ep_phase e) (ep_seqno e) (ep_ackno e) v (ep_unacked e) (ep_td e)
    (ep_tim e) (ep_timer e) (ep_rt_timeout e).
Definition ep_with_unacked (v : option unacked) (e : endpoint) : endpoint :=
  Endpoint (ep_conn e) (ep_phase e) (ep_seqno e) (ep_ackno e) (ep_received e) v (ep_td e)
    (ep_tim e) (ep_timer e) (ep_rt_timeout e).
Definition ep_with_td (td : teardown_state) (tim : Z) (e : endpoint) : endpoint :=
  Endpoint (ep_conn e) (ep_phase e) (ep_seqno e) (ep_ackno e) (ep_received e) (ep_unacked e) td
    tim (ep_timer e) (ep_rt_timeout e).

(** The segment on the wire: the fields in network order, the checksum set. *)
Definition wire_segment (seqno ackno flags len : Z) (data : list byte) : ctcp_segment :=
  let s := _segment_hton (Segment seqno ackno (u16 len) 0 (u32 flags) MAX_SEG_DATA_SIZE 0
                            (take (Z.to_nat (len - SEGMENT_HDR_SIZE)) data)) in
  set_cksum (seg_cksum_of s) s.

Section Spec.
Context {S : Type} `{!ConnLib S}.

(** The library and the record of the calls made to it. *)
Definition lib : Type := list event * S.

Definition lib_sys {A} (m : M S A) : M lib A := zoom snd (fun s l => (fst l, s)) m.
Definition lib_log (e : event) : M lib unit := modify (fun l => (fst l ++ [e], snd l)).

Definition lib_input (c : ptr) (buf : list byte) (len : Z) : M lib (Z * list byte) :=
  '(r, buf') ← lib_sys (conn_input c (Some buf) len); lib_log (EvInput c r);; mret (r, buf').
Definition lib_send (c : ptr) (seg : list byte) (len : Z) : M lib Z :=
  n ← lib_sys (conn_send c (Some seg) len); lib_log (EvSend c seg n);; mret n.
Definition lib_output (c : ptr) (buf : list byte) (len : Z) : M lib Z :=
  r ← lib_sys (conn_output c buf len); lib_log (EvOutput c (take (Z.to_nat len) buf) r);; mret r.
Definition lib_remove (c : ptr) : M lib unit := lib_sys (conn_remove c);; lib_log (EvRemove c).
Definition lib_end_client : M lib unit := lib_log EvEndClient;; lib_sys end_client.

(** The start of a connection. *)
Definition ep_init (c : ptr) (cfg : ctcp_config) : endpoint :=
  Endpoint c DATA_TRANSFER 1 1 RecvNone None NOT_TEARDOWN 0 (u16 (cfg_timer cfg))
    (u16 (cfg_rt_timeout cfg)).

(** A segment with data or a FIN takes sequence numbers and is kept. *)
Definition ep_sent (flags len : Z) (segment : ctcp_segment) (e : endpoint) : endpoint :=
  let datalen := len - SEGMENT_HDR_SIZE in
  let e := ep_with_seqno (u32 (ep_seqno e + if has_flag flags FIN then 1 else datalen)) e in
  if (datalen >? 0) || has_flag flags FIN
  then ep_with_unacked (Some (Unacked segment 0 0)) e else e.

Definition ep_send (flags len : Z) (data : list byte) (e : endpoint) : M lib (Z * endpoint) :=
  let segment := wire_segment (ep_seqno e) (ep_ackno e) flags len data in
  n ← lib_send (ep_conn e) (segment_bytes segment) len;
  mret (if n <? 0 then (-1, e) else (len, ep_sent flags len segment e)).

(** Sending whatever comes of it. *)
Definition ep_send_ (flags : Z) (e : endpoint) : M lib endpoint :=
  '(_, e) ← ep_send flags SEGMENT_HDR_SIZE [] e; mret e.

Definition ep_destroy (e : endpoint) : M lib (option endpoint) :=
  lib_remove (ep_conn e);; lib_end_client;; mret None.

(** ** Timer *)

Definition ep_retransmit (u : unacked) (e : endpoint) : M lib endpoint :=
  let segment := un_segment u in
  let time := u16 (un_time u + ep_timer e) in
  if time >=? ep_rt_timeout e then
    lib_send (ep_conn e) (segment_bytes segment) (ntohs (seg_len segment));;
    let times := u16 (un_times u + 1) in
    mret (ep_with_unacked (if times >=? 5 then None else Some (Unacked segment times time)) e)
  else mret (ep_with_unacked (Some (Unacked segment (un_times u) time)) e).

Definition ep_resend (e : endpoint) : M lib endpoint :=
  match ep_unacked e with None => mret e | Some u => ep_retransmit u e end.

Definition ep_tick (e : endpoint) : M lib (option endpoint) :=
  match ep_td e with
  | WAIT_DESTROY =>
      let tim := u16 (ep_tim e + ep_timer e) in
      let e := ep_with_td WAIT_DESTROY tim e in
      if tim >=? ep_rt_timeout e * 50 then ep_destroy e
      else e ← ep_resend e; mret (Some e)
  | _ => e ← ep_resend e; mret (Some e)
  end.

(** ** Input *)

(** What [conn_input] promises of its results is checked, so that the
    specification says nothing of a library that breaks its promise. *)
Definition ep_read (e : endpoint) : M lib endpoint :=
  match ep_unacked e with
  | Some _ => mret e
  | None =>
      '(r, buf) ← lib_input (ep_conn e) (replicate (Z.to_nat MAX_BUFF_SIZE) Byte.x00)
                    MAX_BUFF_SIZE;
      if bool_decide (r = -1) then
        '(n, e) ← ep_send FIN SEGMENT_HDR_SIZE [] e;
        mret (if n <? 0 then e else ep_with_phase TEAR_DOWN e)
      else
        access ((0 <=? r) && (r <=? MAX_BUFF_SIZE) && (r <=? Z.of_nat (length buf)));;
        '(_, e) ← ep_send ACK (SEGMENT_HDR_SIZE + r) buf e; mret e
  end.

(** ** Received segments *)

(** [ctcp_output], on the received segment. *)
Definition ep_output (e : endpoint) : M lib (option endpoint) :=
  match ep_received e with
  | RecvKept segment =>
      let datalen := u32 (seg_len segment - SEGMENT_HDR_SIZE) in
      avail_buf ← lib_sys (conn_bufspace (ep_conn e));
      if bool_decide (u32 avail_buf = 0) then mret (Some (ep_with_received RecvFreed e))
      else if u32 avail_buf >=? datalen then
        if bool_decide (datalen = 0) then
          mret (Some (ep_with_received RecvFreed
                        (ep_with_unacked None (ep_with_ackno (seg_seqno segment) e))))
        else
          r ← lib_output (ep_conn e) (seg_data segment) datalen;
          if r <? 0 then ep_destroy e
          else
            e ← ep_send_ ACK (ep_with_ackno (u32 (seg_seqno segment + datalen)) e);
            mret (Some (ep_with_received RecvFreed (ep_with_unacked None e)))
      else mret (Some e)
  | RecvNone | RecvFreed => undef
  end.

(** The handling of a valid segment [segment], in host order, by phase. *)
Definition ep_data_transfer (segment : ctcp_segment) (e : endpoint) :
    M lib (option endpoint) :=
  if seg_seqno segment <? ep_ackno e then mret (Some e)
  else if has_flag (seg_flags segment) FIN then
    lib_output (ep_conn e) [] 0;;
    e ← ep_send_ ACK (ep_with_ackno (u32 (seg_seqno segment + 1)) e);
    e ← ep_send_ FIN e;
    mret (Some (ep_with_phase WAIT_LAST_ACK e))
  else if has_flag (seg_flags segment) ACK then
    if bool_decide (seg_len segment = SEGMENT_HDR_SIZE)
    then mret (Some (ep_with_unacked None (ep_with_ackno (seg_seqno segment) e)))
    else ep_output (ep_with_received (RecvKept segment) e)
  else mret (Some e).

Definition ep_wait_last_fin (segment : ctcp_segment) (e : endpoint) :
    M lib (option endpoint) :=
  if has_flag (seg_flags segment) FIN then
    e ← ep_send_ ACK (ep_with_ackno (u32 (seg_seqno segment + 1)) e);
    mret (Some (ep_with_td WAIT_DESTROY 0 e))
  else mret (Some e).

Definition ep_tear_down (segment : ctcp_segment) (e : endpoint) : M lib (option endpoint) :=
  if has_flag (seg_flags segment) ACK then
    mret (Some (ep_with_phase (if has_flag (seg_flags segment) FIN then WAIT_LAST_ACK
                               else WAIT_LAST_FIN) e))
  else if has_flag (seg_flags segment) FIN then
    e ← ep_send_ ACK (ep_with_ackno (u32 (seg_seqno segment + 1)) e);
    ep_destroy e
  else mret (Some e).

Definition ep_wait_last_ack (segment : ctcp_segment) (e : endpoint) :
    M lib (option endpoint) :=
  if has_flag (seg_flags segment) ACK then ep_destroy e else mret (Some e).

Definition ep_handle (segment : ctcp_segment) (e : endpoint) : M lib (option endpoint) :=
  match ep_phase e with
  | DATA_TRANSFER => ep_data_transfer segment e
  | TEAR_DOWN => ep_tear_down segment e
  | WAIT_LAST_FIN => ep_wait_last_fin segment e
  | WAIT_LAST_ACK => ep_wait_last_ack segment e
  | WAIT_INPUT => mret (Some e)
  end.

(** [ctcp_receive]: [segment] as it arrives, in network order. *)
Definition ep_receive (segment : ctcp_segment) (len : Z) (e : endpoint) :
    M lib (option endpoint) :=
  if segment_valid segment (u16 len) then ep_handle (_segment_ntoh (set_cksum 0 segment)) e
  else mret (Some e).
End Spec.

Arguments lib : clear implicits.
