(* ===== verification/CtcpSteps.v ===== *)
(** * Symbolic execution of [ctcp.c]

    Rules that run the operations of [Ctcp.v] on an explicit memory, and the
    run of [_segment_send], which the handlers share. *)

From S2P Require Import Prelude Heap Words Cksum LinkedList Segment ConnLib Ctcp CtcpSpec.

Section Rules.
Context {S : Type} `{!ConnLib S}.
Context (X : world S -> Prop).
Context (sl : ptr) (HST : heap ctcp_state) (HSG : heap ctcp_segment).
Context (HAT : heap segment_attr) (HTD : heap tear_down_nums) (LL : ll_mem).
Context (buf : list byte) (tr : list event) (sys : S).
Context (ST : gmap loc ctcp_state) (SG : gmap loc ctcp_segment).
Context (AT : gmap loc segment_attr) (TD : gmap loc tear_down_nums).
Context (bst bsg bat btd : loc).

Lemma wp_st_load k a (Q : ctcp_state -> world S -> Prop) :
  ST !! k = Some a -> Q a (World sl (Heap ST bst) HSG HAT HTD LL buf tr sys) ->
  wp (on_states (load k)) Q X (World sl (Heap ST bst) HSG HAT HTD LL buf tr sys).
Proof. intros. by apply wp_zoom, (wp_load _ k a). Qed.

Lemma wp_st_update k a f (Q : unit -> world S -> Prop) :
  ST !! k = Some a ->
  Q tt (World sl (Heap (<[k := f a]> ST) bst) HSG HAT HTD LL buf tr sys) ->
  wp (on_states (update k f)) Q X (World sl (Heap ST bst) HSG HAT HTD LL buf tr sys).
Proof. intros. by apply wp_zoom, (wp_update _ k a). Qed.

Lemma wp_st_calloc a (Q : loc -> world S -> Prop) :
  Q bst (World sl (Heap (<[bst := a]> ST) (Pos.succ bst)) HSG HAT HTD LL buf tr sys) ->
  wp (on_states (calloc a)) Q X (World sl (Heap ST bst) HSG HAT HTD LL buf tr sys).
Proof. intros. by apply wp_zoom, wp_calloc. Qed.

Lemma wp_st_free k a (Q : unit -> world S -> Prop) :
  ST !! k = Some a ->
  Q tt (World sl (Heap (delete k ST) bst) HSG HAT HTD LL buf tr sys) ->
  wp (on_states (free (Some k))) Q X (World sl (Heap ST bst) HSG HAT HTD LL buf tr sys).
Proof. intros. apply wp_zoom, wp_free; simpl; eauto. Qed.

Lemma wp_sg_load k a (Q : ctcp_segment -> world S -> Prop) :
  SG !! k = Some a -> Q a (World sl HST (Heap SG bsg) HAT HTD LL buf tr sys) ->
  wp (on_segments (load k)) Q X (World sl HST (Heap SG bsg) HAT HTD LL buf tr sys).
Proof. intros. by apply wp_zoom, (wp_load _ k a). Qed.

Lemma wp_sg_store k a b (Q : unit -> world S -> Prop) :
  SG !! k = Some a ->
  Q tt (World sl HST (Heap (<[k := b]> SG) bsg) HAT HTD LL buf tr sys) ->
  wp (on_segments (store k b)) Q X (World sl HST (Heap SG bsg) HAT HTD LL buf tr sys).
Proof. intros. apply wp_zoom, wp_store; simpl; eauto. Qed.

Lemma wp_sg_update k a f (Q : unit -> world S -> Prop) :
  SG !! k = Some a ->
  Q tt (World sl HST (Heap (<[k := f a]> SG) bsg) HAT HTD LL buf tr sys) ->
  wp (on_segments (update k f)) Q X (World sl HST (Heap SG bsg) HAT HTD LL buf tr sys).
Proof. intros. by apply wp_zoom, (wp_update _ k a). Qed.

Lemma wp_sg_calloc a (Q : loc -> world S -> Prop) :
  Q bsg (World sl HST (Heap (<[bsg := a]> SG) (Pos.succ bsg)) HAT HTD LL buf tr sys) ->
  wp (on_segments (calloc a)) Q X (World sl HST (Heap SG bsg) HAT HTD LL buf tr sys).
Proof. intros. by apply wp_zoom, wp_calloc. Qed.

Lemma wp_sg_free k a (Q : unit -> world S -> Prop) :
  SG !! k = Some a ->
  Q tt (World sl HST (Heap (delete k SG) bsg) HAT HTD LL buf tr sys) ->
  wp (on_segments (free (Some k))) Q X (World sl HST (Heap SG bsg) HAT HTD LL buf tr sys).
Proof. intros. apply wp_zoom, wp_free; simpl; eauto. Qed.

Lemma wp_at_load k a (Q : segment_attr -> world S -> Prop) :
  AT !! k = Some a -> Q a (World sl HST HSG (Heap AT bat) HTD LL buf tr sys) ->
  wp (on_attrs (load k)) Q X (World sl HST HSG (Heap AT bat) HTD LL buf tr sys).
Proof. intros. by apply wp_zoom, (wp_load _ k a). Qed.

Lemma wp_at_update k a f (Q : unit -> world S -> Prop) :
  AT !! k = Some a ->
  Q tt (World sl HST HSG (Heap (<[k := f a]> AT) bat) HTD LL buf tr sys) ->
  wp (on_attrs (update k f)) Q X (World sl HST HSG (Heap AT bat) HTD LL buf tr sys).
Proof. intros. by apply wp_zoom, (wp_update _ k a). Qed.

Lemma wp_at_calloc a (Q : loc -> world S -> Prop) :
  Q bat (World sl HST HSG (Heap (<[bat := a]> AT) (Pos.succ bat)) HTD LL buf tr sys) ->
  wp (on_attrs (calloc a)) Q X (World sl HST HSG (Heap AT bat) HTD LL buf tr sys).
Proof. intros. by apply wp_zoom, wp_calloc. Qed.

Lemma wp_at_free k a (Q : unit -> world S -> Prop) :
  AT !! k = Some a ->
  Q tt (World sl HST HSG (Heap (delete k AT) bat) HTD LL buf tr sys) ->
  wp (on_attrs (free (Some k))) Q X (World sl HST HSG (Heap AT bat) HTD LL buf tr sys).
Proof. intros. apply wp_zoom, wp_free; simpl; eauto. Qed.

Lemma wp_td_update k a f (Q : unit -> world S -> Prop) :
  TD !! k = Some a ->
  Q tt (World sl HST HSG HAT (Heap (<[k := f a]> TD) btd) LL buf tr sys) ->
  wp (on_tdns (update k f)) Q X (World sl HST HSG HAT (Heap TD btd) LL buf tr sys).
Proof. intros. by apply wp_zoom, (wp_update _ k a). Qed.

Lemma wp_td_calloc a (Q : loc -> world S -> Prop) :
  Q btd (World sl HST HSG HAT (Heap (<[btd := a]> TD) (Pos.succ btd)) LL buf tr sys) ->
  wp (on_tdns (calloc a)) Q X (World sl HST HSG HAT (Heap TD btd) LL buf tr sys).
Proof. intros. by apply wp_zoom, wp_calloc. Qed.

Lemma wp_td_free_null (Q : unit -> world S -> Prop) :
  Q tt (World sl HST HSG HAT HTD LL buf tr sys) ->
  wp (on_tdns (free None)) Q X (World sl HST HSG HAT HTD LL buf tr sys).
Proof. done. Qed.

Lemma wp_td_free k a (Q : unit -> world S -> Prop) :
  TD !! k = Some a ->
  Q tt (World sl HST HSG HAT (Heap (delete k TD) btd) LL buf tr sys) ->
  wp (on_tdns (free (Some k))) Q X (World sl HST HSG HAT (Heap TD btd) LL buf tr sys).
Proof. intros. apply wp_zoom, wp_free; simpl; eauto. Qed.

Lemma wp_log e (Q : unit -> world S -> Prop) :
  Q tt (World sl HST HSG HAT HTD LL buf (tr ++ [e]) sys) ->
  wp (log e) Q X (World sl HST HSG HAT HTD LL buf tr sys).
Proof. done. Qed.

Lemma wp_cksum data len (Q : Z -> world S -> Prop) w :
  0 <= len < 2 ^ 16 -> (Z.to_nat len <= length data)%nat ->
  Q (cksum_of (take (Z.to_nat len) data)) w -> wp (cksum data len) Q X w.
Proof. intros. eapply wp_Done; [by apply cksum_run|done]. Qed.

(** The recorded calls only touch the library and the trace. *)
Lemma wp_call_send c seg len (Q : Z -> world S -> Prop) :
  wp (conn_send c (Some seg) len)
    (fun n sys' => Q n (World sl HST HSG HAT HTD LL buf (tr ++ [EvSend c seg n]) sys'))
    (fun sys' => X (World sl HST HSG HAT HTD LL buf tr sys')) sys ->
  wp (call_send c seg len) Q X (World sl HST HSG HAT HTD LL buf tr sys).
Proof. intros HQ. unfold call_send. wp_steps. apply wp_zoom. exact HQ. Qed.

Lemma wp_call_output c b len (Q : Z -> world S -> Prop) :
  wp (conn_output c b len)
    (fun r sys' => Q r (World sl HST HSG HAT HTD LL buf
       (tr ++ [EvOutput c (take (Z.to_nat len) b) r]) sys'))
    (fun sys' => X (World sl HST HSG HAT HTD LL buf tr sys')) sys ->
  wp (call_output c b len) Q X (World sl HST HSG HAT HTD LL buf tr sys).
Proof. intros HQ. unfold call_output. wp_steps. apply wp_zoom. exact HQ. Qed.

Lemma wp_call_remove c (Q : unit -> world S -> Prop) :
  wp (conn_remove c)
    (fun _ sys' => Q tt (World sl HST HSG HAT HTD LL buf (tr ++ [EvRemove c]) sys'))
    (fun sys' => X (World sl HST HSG HAT HTD LL buf tr sys')) sys ->
  wp (call_remove c) Q X (World sl HST HSG HAT HTD LL buf tr sys).
Proof.
  intros HQ. unfold call_remove. wp_steps. apply wp_zoom.
  eapply wp_mono; [exact HQ|]. by intros [] s'.
Qed.

Lemma wp_call_end_client (Q : unit -> world S -> Prop) :
  wp end_client
    (fun _ sys' => Q tt (World sl HST HSG HAT HTD LL buf (tr ++ [EvEndClient]) sys'))
    (fun sys' => X (World sl HST HSG HAT HTD LL buf (tr ++ [EvEndClient]) sys')) sys ->
  wp call_end_client Q X (World sl HST HSG HAT HTD LL buf tr sys).
Proof.
  intros HQ. unfold call_end_client. wp_steps. apply wp_zoom.
  eapply wp_mono; [exact HQ|]. by intros [] s'.
Qed.

Lemma wp_bufspace c n (Q : Z -> world S -> Prop) :
  conn_bufspace c sys = Done n sys ->
  Q n (World sl HST HSG HAT HTD LL buf tr sys) ->
  wp (on_sys (conn_bufspace c)) Q X (World sl HST HSG HAT HTD LL buf tr sys).
Proof. intros Hn HQ. apply wp_zoom. by eapply wp_Done. Qed.
End Rules.

(** [call_input] takes a pair apart, so its rule stands on its own. *)
Lemma wp_call_input {S} `{!ConnLib S} X sl HST HSG HAT HTD LL buf tr sys c b len
    (Q : Z * list byte -> world S -> Prop) :
  wp (conn_input c (Some b) len)
    (fun rb sys' => Q rb (World sl HST HSG HAT HTD LL buf (tr ++ [EvInput c (fst rb)]) sys'))
    (fun sys' => X (World sl HST HSG HAT HTD LL buf tr sys')) sys ->
  wp (call_input c b len) Q X (World sl HST HSG HAT HTD LL buf tr sys).
Proof.
  intros HQ. unfold call_input. wp_steps. apply wp_zoom.
  eapply wp_mono; [exact HQ|]. by intros [r b'] s'.
Qed.

(** One step of symbolic execution; updates of the same object are merged. *)
Ltac ctcp_simpl :=
  cbn [st_next st_prev st_conn st_segments_send st_conn_state st_seqno st_ackno
    st_received_segment st_sent_segment_attr st_td_state st_tim st_timer st_rt_timeout
    st_tear_down_nums st_set_next st_set_prev st_set_conn st_set_segments_send
    st_set_conn_state st_set_seqno st_set_ackno st_set_received_segment
    st_set_sent_segment_attr st_set_td_state st_set_tim st_set_timer st_set_rt_timeout
    st_set_tear_down_nums sa_no_of_times sa_time sa_segment sa_set_no_of_times sa_set_time
    sa_set_segment fin_seq_no fin_ack_no w_state_list w_states w_segments w_attrs w_tdns
    w_ll w_buffer_out w_trace w_sys w_set_state_list w_set_states w_set_segments w_set_attrs
    w_set_tdns w_set_ll w_set_buffer_out w_set_trace w_set_sys fst snd andb orb negb].

Ltac ctcp_step :=
  first
    [ wp_step
    | eapply wp_st_load; [by solve_lookup|]
    | eapply wp_st_update; [by solve_lookup|]; rewrite ?insert_insert_eq
    | eapply wp_st_calloc
    | eapply wp_sg_load; [by solve_lookup|]
    | eapply wp_sg_store; [by solve_lookup|]; rewrite ?insert_insert_eq
    | eapply wp_sg_update; [by solve_lookup|]; rewrite ?insert_insert_eq
    | eapply wp_sg_calloc
    | eapply wp_sg_free; [by solve_lookup|]
    | eapply wp_at_load; [by solve_lookup|]
    | eapply wp_at_update; [by solve_lookup|]; rewrite ?insert_insert_eq
    | eapply wp_at_calloc
    | eapply wp_at_free; [by solve_lookup|]
    | eapply wp_td_update; [by solve_lookup|]; rewrite ?insert_insert_eq
    | eapply wp_td_calloc
    | eapply wp_log ];
  cbv beta; ctcp_simpl.
Ltac ctcp_steps := repeat ctcp_step.

(** ** [_segment_send] *)

Section Send.
Context (seqno ackno flags len : Z) (data : list byte).
Hypothesis (Hlen : SEGMENT_HDR_SIZE <= len <= SEGMENT_HDR_SIZE + MAX_SEG_DATA_SIZE).
Hypothesis (Hdata : len - SEGMENT_HDR_SIZE <= Z.of_nat (length data)).

Lemma send_datalen : i32 (len - SEGMENT_HDR_SIZE) = len - SEGMENT_HDR_SIZE.
Proof. unfold SEGMENT_HDR_SIZE, MAX_SEG_DATA_SIZE in *. apply i32_small. lia. Qed.

Lemma send_len : u16 len = len.
Proof. unfold SEGMENT_HDR_SIZE, MAX_SEG_DATA_SIZE in *. apply u16_small. lia. Qed.

Lemma wire_data : seg_data (wire_segment seqno ackno flags len data) =
  take (Z.to_nat (len - SEGMENT_HDR_SIZE)) data.
Proof. reflexivity. Qed.

Lemma wire_bytes_length :
  length (segment_bytes (wire_segment seqno ackno flags len data)) = Z.to_nat len.
Proof.
  rewrite segment_bytes_length, wire_data, length_take.
  unfold SEGMENT_HDR_SIZE in *. lia.
Qed.

Lemma wire_ntohs_len : ntohs (seg_len (wire_segment seqno ackno flags len data)) = len.
Proof.
  cbn [wire_segment seg_len set_cksum _segment_hton set_window set_flags set_len set_ackno
       set_seqno]. rewrite send_len, ntohs_htons; [done|].
  rewrite <- send_len. apply u16_range.
Qed.

(** What the assignments of [_segment_send] leave in the new segment. *)
Lemma built_segment :
  copy_data data (len - SEGMENT_HDR_SIZE)
    (set_window MAX_SEG_DATA_SIZE (set_flags (u32 flags) (set_ackno ackno
       (set_seqno seqno (set_len (u16 len) (zero_segment len)))))) =
  Segment seqno ackno (u16 len) 0 (u32 flags) MAX_SEG_DATA_SIZE 0
    (take (Z.to_nat (len - SEGMENT_HDR_SIZE)) data).
Proof.
  unfold copy_data, zero_segment, set_window, set_flags, set_ackno, set_seqno, set_len,
    set_data. cbn [seg_seqno seg_ackno seg_len seg_pad seg_flags seg_window seg_cksum seg_data].
  rewrite drop_ge by (rewrite length_replicate; lia). by rewrite app_nil_r.
Qed.

Lemma built_cksum s :
  s = _segment_hton (Segment seqno ackno (u16 len) 0 (u32 flags) MAX_SEG_DATA_SIZE 0
        (take (Z.to_nat (len - SEGMENT_HDR_SIZE)) data)) ->
  cksum_of (take (Z.to_nat (u16 len)) (segment_bytes (set_cksum 0 s))) = seg_cksum_of s.
Proof.
  intros ->. unfold seg_cksum_of. do 3 f_equal.
  cbn [seg_len _segment_hton set_window set_flags set_len set_ackno set_seqno].
  by rewrite ntohs_htons by apply u16_range.
Qed.

(** The segment on the wire passes the receiver's test and gives back the
    fields and the data. *)
Lemma wire_valid rlen :
  len <= u16 rlen -> segment_valid (wire_segment seqno ackno flags len data) rlen = true.
Proof.
  intros Hr. apply segment_valid_built; [done|].
  pose proof wire_ntohs_len as E. unfold wire_segment in E. cbn [seg_len set_cksum] in E.
  lia.
Qed.

(** The segment before the conversion to network order. *)
Definition plain_segment : ctcp_segment :=
  Segment seqno ackno (u16 len) 0 (u32 flags) MAX_SEG_DATA_SIZE 0
    (take (Z.to_nat (len - SEGMENT_HDR_SIZE)) data).

Lemma plain_wf :
  0 <= seqno < 2 ^ 32 -> 0 <= ackno < 2 ^ 32 -> segment_wf plain_segment.
Proof.
  intros Hs Ha.
  split; cbn [plain_segment seg_seqno seg_ackno seg_len seg_pad seg_flags seg_window seg_cksum];
    try done; auto using u16_range, u32_range.
Qed.

Lemma wire_plain :
  wire_segment seqno ackno flags len data =
  set_cksum (seg_cksum_of (_segment_hton plain_segment)) (_segment_hton plain_segment).
Proof. reflexivity. Qed.

Lemma wire_ntoh :
  0 <= seqno < 2 ^ 32 -> 0 <= ackno < 2 ^ 32 -> 0 <= flags < 2 ^ 32 ->
  _segment_ntoh (set_cksum 0 (wire_segment seqno ackno flags len data)) =
  Segment seqno ackno len 0 flags MAX_SEG_DATA_SIZE 0
    (take (Z.to_nat (len - SEGMENT_HDR_SIZE)) data).
Proof.
  intros Hs Ha Hf.
  change (_segment_ntoh (_segment_hton plain_segment) = Segment seqno ackno len 0 flags
    MAX_SEG_DATA_SIZE 0 (take (Z.to_nat (len - SEGMENT_HDR_SIZE)) data)).
  rewrite segment_ntoh_hton by by apply plain_wf. unfold plain_segment.
  by rewrite send_len, u32_small.
Qed.

Lemma wire_wf :
  0 <= seqno < 2 ^ 32 -> 0 <= ackno < 2 ^ 32 ->
  segment_wf (wire_segment seqno ackno flags len data).
Proof.
  intros Hs Ha. rewrite wire_plain. apply set_cksum_wf.
  - apply seg_cksum_of_range.
  - by apply segment_hton_wf, plain_wf.
Qed.
End Send.

(** The state, the attributes and the numbers of the FIN after a segment has
    been handed to the library. *)
Definition sent_state (flags len : Z) (attr nums : loc) (st : ctcp_state) : ctcp_state :=
  let st := if has_flag flags FIN
            then st_set_tear_down_nums (Some nums) (st_set_seqno (u32 (st_seqno st + 1)) st)
            else st_set_seqno (u32 (st_seqno st + (len - SEGMENT_HDR_SIZE))) st in
  if (len - SEGMENT_HDR_SIZE >? 0) || has_flag flags FIN
  then st_set_sent_segment_attr (Some attr) st else st.

Definition sent_attrs (flags len : Z) (segment : loc) (h : heap segment_attr) :
    heap segment_attr :=
  if (len - SEGMENT_HDR_SIZE >? 0) || has_flag flags FIN
  then Heap (<[brk h := SegmentAttr 0 0 (Some segment)]> (mem h)) (Pos.succ (brk h)) else h.

Definition sent_tdns (flags : Z) (st : ctcp_state) (h : heap tear_down_nums) :
    heap tear_down_nums :=
  if has_flag flags FIN
  then Heap (<[brk h := TearDownNums (u32 (st_seqno st + 1)) (st_ackno st)]> (mem h))
         (Pos.succ (brk h))
  else h.

Section SendDone.
Context {S : Type} `{!ConnLib S}.
Context (X : world S -> Prop).
Context (sl : ptr) (ST : gmap loc ctcp_state) (SG : gmap loc ctcp_segment).
Context (AT : gmap loc segment_attr) (TD : gmap loc tear_down_nums) (LL : ll_mem).
Context (bst bsg bat btd : loc) (buf : list byte) (tr : list event) (sys : S).

Definition send_done (state segment : loc) (flags len : Z) : M (world S) Z :=
  (if has_flag flags FIN then
       on_states (update state (fun st => st_set_seqno (u32 (st_seqno st + 1)) st));;
       nums ← on_tdns (calloc (TearDownNums 0 0));
       on_states (update state (st_set_tear_down_nums (Some nums)));;
       st ← on_states (load state);
       on_tdns (update nums (fun t => TearDownNums (st_seqno st) (fin_ack_no t)));;
       on_tdns (update nums (fun t => TearDownNums (fin_seq_no t) (st_ackno st)))
     else on_states (update state (fun st => st_set_seqno
        (u32 (st_seqno st + (len - SEGMENT_HDR_SIZE))) st)));;
    when ((len - SEGMENT_HDR_SIZE >? 0) || has_flag flags FIN)
      (_save_sent_segment state (Some segment));;
    mret (i16 len).

Lemma wp_send_done state segment st flags len HSG (Q : Z -> world S -> Prop) :
  ST !! state = Some st ->
  Q (i16 len) (World sl (Heap (<[state := sent_state flags len bat btd st]> ST) bst) HSG
                 (sent_attrs flags len segment (Heap AT bat)) (sent_tdns flags st (Heap TD btd))
                      LL buf tr sys) ->
  wp (send_done state segment flags len) Q X
    (World sl (Heap ST bst) HSG (Heap AT bat) (Heap TD btd) LL buf tr sys).
Proof.
  intros Hst. unfold send_done, sent_state, sent_attrs, sent_tdns, when, _save_sent_segment.
  destruct (has_flag flags FIN) eqn:Hf, (len - SEGMENT_HDR_SIZE >? 0) eqn:Hl;
    cbn [orb]; intros HQ; ctcp_steps; exact HQ.
Qed.

End SendDone.

Section SendRun.
Context {S : Type} `{!ConnLib S}.
Context (X : world S -> Prop).
Context (sl : ptr) (ST : gmap loc ctcp_state) (SG : gmap loc ctcp_segment).
Context (AT : gmap loc segment_attr) (TD : gmap loc tear_down_nums) (LL : ll_mem).
Context (bst bsg bat btd : loc) (buf : list byte) (tr : list event) (sys : S).

Lemma wire_built seqno ackno flags len data :
  set_cksum (seg_cksum_of (_segment_hton (plain_segment seqno ackno flags len data)))
    (set_cksum 0 (_segment_hton (plain_segment seqno ackno flags len data))) =
  wire_segment seqno ackno flags len data.
Proof. rewrite wire_plain. apply set_cksum_twice. Qed.

Lemma wp_send_cksum seqno ackno flags len data (Q : Z -> world S -> Prop) w :
  SEGMENT_HDR_SIZE <= len <= SEGMENT_HDR_SIZE + MAX_SEG_DATA_SIZE ->
  len - SEGMENT_HDR_SIZE <= Z.of_nat (length data) ->
  Q (seg_cksum_of (_segment_hton (plain_segment seqno ackno flags len data))) w ->
  wp (cksum (segment_bytes (set_cksum 0
       (_segment_hton (plain_segment seqno ackno flags len data)))) (u16 len)) Q X w.
Proof.
  intros Hlen Hdata HQ. apply wp_cksum; [apply u16_range| |].
  - rewrite segment_bytes_length, send_len by done.
    cbn [plain_segment seg_data _segment_hton set_cksum set_window set_flags set_len set_ackno
         set_seqno].
    rewrite length_take. unfold SEGMENT_HDR_SIZE in *. lia.
  - unfold plain_segment. by rewrite (built_cksum seqno ackno flags len data _ eq_refl).
Qed.
Lemma wp_segment_send state st flags len data (Q : Z -> world S -> Prop) :
  ST !! state = Some st ->
  SEGMENT_HDR_SIZE <= len <= SEGMENT_HDR_SIZE + MAX_SEG_DATA_SIZE ->
  len - SEGMENT_HDR_SIZE <= Z.of_nat (length data) ->
  (let B := wire_segment (st_seqno st) (st_ackno st) flags len data in
   let SG' := Heap (<[bsg := B]> SG) (Pos.succ bsg) in
   wp (conn_send (st_conn st) (Some (segment_bytes B)) len)
     (fun n sys' =>
        let tr' := tr ++ [EvSend (st_conn st) (segment_bytes B) n] in
        if n <? 0
        then Q (-1) (World sl (Heap ST bst) SG' (Heap AT bat) (Heap TD btd) LL buf tr' sys')
        else Q len (World sl (Heap (<[state := sent_state flags len bat btd st]> ST) bst) SG'
                      (sent_attrs flags len bsg (Heap AT bat)) (sent_tdns flags st (Heap TD btd))
                      LL buf tr' sys'))
     (fun sys' => X (World sl (Heap ST bst) SG' (Heap AT bat) (Heap TD btd) LL buf tr sys'))
     sys) ->
  wp (_segment_send state flags len data) Q X
    (World sl (Heap ST bst) (Heap SG bsg) (Heap AT bat) (Heap TD btd) LL buf tr sys).
Proof.
  intros Hst Hlen Hdata HQ. unfold _segment_send.
  rewrite (send_datalen len) by done.
  apply wp_bind, wp_sg_calloc. apply wp_bind.
  rewrite (proj2 (Z.leb_le SEGMENT_HDR_SIZE len)) by lia.
  do 12 ctcp_step.
  rewrite (proj2 (Z.leb_le 0 (len - SEGMENT_HDR_SIZE))) by lia.
  rewrite (proj2 (Z.leb_le (len - SEGMENT_HDR_SIZE) _)) by lia.
  do 12 ctcp_step.
  rewrite built_segment by done. fold (plain_segment (st_seqno st) (st_ackno st) flags len data).
  apply wp_send_cksum; [done|done|].
  do 5 ctcp_step. rewrite u16_small by apply seg_cksum_of_range.
  rewrite wire_built.
  apply wp_call_send. eapply wp_mono; [exact HQ|]. cbv zeta beta. clear HQ.
  intros n sys' HQ. destruct (n <? 0); [by apply wp_ret|].
  apply wp_send_done with (st := st); [done|].
  rewrite i16_small; [exact HQ|]. unfold SEGMENT_HDR_SIZE, MAX_SEG_DATA_SIZE in *. lia.
Qed.
End SendRun.
