(* ===== verification/CtcpInv.v ===== *)
(** * The memory of [src/ctcp.c] represents a set of abstract endpoints

    The representation invariant [inv]: the state list is well linked, each
    state on it represents an endpoint of [CtcpSpec.v], and the objects that
    states point to are live and owned by one state only. The simulation
    relation [rwp] and its rules, and the frame lemmas by which an operation on
    one state keeps what the others represent. *)

From S2P Require Import Prelude Heap Words Cksum LinkedList Segment ConnLib Ctcp CtcpSpec.
From S2P Require Import CtcpSteps.

(** ** Ownership

    Who owns an object: for a segment, a state and whether as the segment it
    sent or the one it received. Objects that no state owns any more may still
    be listed. *)
Record owners := Owners {
  o_seg : gmap loc (loc * bool);
  o_attr : gmap loc loc;
  o_nums : gmap loc loc;
  o_list : gmap loc loc;
}.

Definition sent_repr (O : owners) (SG : heap ctcp_segment) (AT : heap segment_attr) (l : loc)
    (p : ptr) (u : option unacked) : Prop :=
  match u with
  | None => p = None
  | Some u => exists a s, p = Some a /\
      mem AT !! a = Some (SegmentAttr (un_times u) (un_time u) (Some s)) /\
      mem SG !! s = Some (un_segment u) /\
      o_attr O !! a = Some l /\ o_seg O !! s = Some (l, true)
  end.

Definition recv_repr (O : owners) (SG : heap ctcp_segment) (l : loc) (p : ptr) (r : received) :
    Prop :=
  match r with
  | RecvNone => p = None
  | RecvKept seg => exists s, p = Some s /\ mem SG !! s = Some seg /\
                              o_seg O !! s = Some (l, false)
  | RecvFreed => exists s, p = Some s /\ mem SG !! s = None /\ (s < brk SG)%positive
  end.

Definition nums_repr (O : owners) (TD : heap tear_down_nums) (l : loc) (p : ptr) : Prop :=
  match p with
  | None => True
  | Some k => is_Some (mem TD !! k) /\ o_nums O !! k = Some l
  end.

(** [segments_send]: an empty list, never used. *)
Definition list_repr (O : owners) (LL : heap linked_list) (l : loc) (p : ptr) : Prop :=
  exists k, p = Some k /\ mem LL !! k = Some (LList None None 0) /\ o_list O !! k = Some l.

(** The endpoint that the fields of a state represent. *)
Definition ep_of (st : ctcp_state) (r : received) (u : option unacked) : endpoint :=
  Endpoint (st_conn st) (st_conn_state st) (st_seqno st) (st_ackno st) r u (st_td_state st)
    (st_tim st) (st_timer st) (st_rt_timeout st).

Section Inv.
Context {S : Type}.
Implicit Types (w : world S) (O : owners) (E : gmap loc endpoint).

Definition ep_repr O w (l : loc) (e : endpoint) : Prop :=
  exists st r u, mem (w_states w) !! l = Some st /\ e = ep_of st r u /\
    sent_repr O (w_segments w) (w_attrs w) l (st_sent_segment_attr st) u /\
    recv_repr O (w_segments w) l (st_received_segment st) r /\
    nums_repr O (w_tdns w) l (st_tear_down_nums st) /\
    list_repr O (lists (w_ll w)) l (st_segments_send st).

(** The state list from [p] on, [pv] being what points to its first state. *)
Fixpoint chain (ST : gmap loc ctcp_state) (pv : prev_ptr) (p : ptr) (order : list loc) : Prop :=
  match order with
  | [] => p = None
  | l :: order' => p = Some l /\ exists st, ST !! l = Some st /\ st_prev st = pv /\
                     chain ST (PrevNext l) (st_next st) order'
  end.

Definition below {A B} (m : gmap loc A) (h : heap B) : Prop :=
  forall k, is_Some (m !! k) -> (k < brk h)%positive.

Record mem_wf O w : Prop := {
  wf_states : heap_wf (w_states w);
  wf_segments : heap_wf (w_segments w);
  wf_attrs : heap_wf (w_attrs w);
  wf_tdns : heap_wf (w_tdns w);
  wf_lists : heap_wf (lists (w_ll w));
  wf_o_seg : below (o_seg O) (w_segments w);
  wf_o_attr : below (o_attr O) (w_attrs w);
  wf_o_nums : below (o_nums O) (w_tdns w);
  wf_o_list : below (o_list O) (lists (w_ll w));
}.

Record inv O w (order : list loc) E : Prop := {
  inv_wf : mem_wf O w;
  inv_nodup : NoDup order;
  inv_dom : forall l, is_Some (E !! l) <-> l ∈ order;
  inv_chain : chain (mem (w_states w)) PrevHead (w_state_list w) order;
  inv_repr : forall l e, E !! l = Some e -> ep_repr O w l e;
}.

(** ** The simulation relation

    If the specification [a] has a run from what [w] shows of the library, the
    code [m] has one from [w] with the same calls to the library. Nothing is
    said where the specification is undefined. *)
Definition lib_of w : lib S := (w_trace w, w_sys w).

Definition rwp {A B} (m : M (world S) A) (a : M (lib S) B) (Q : A -> B -> world S -> Prop) w :
    Prop :=
  match a (lib_of w) with
  | Done b s => wp m (fun x w' => lib_of w' = s /\ Q x b w') (fun _ => False) w
  | Exit _ s => wp m (fun _ _ => False) (fun w' => lib_of w' = s) w
  | _ => True
  end.

Lemma rwp_bind {A A' B B'} (m : M (world S) A) (k : A -> M (world S) A') (a : M (lib S) B)
    (h : B -> M (lib S) B') Q w :
  rwp m a (fun x b w' => rwp (k x) (h b) Q w') w -> rwp (m ≫= k) (a ≫= h) Q w.
Proof.
  unfold rwp, wp, mbind, M_bind. destruct (a (lib_of w)) as [b s|c s| |]; [|by destruct (m w)|done..].
  destruct (m w) as [x w'| | |]; [|by destruct (h b s)..].
  intros [<- HQ]. exact HQ.
Qed.

(** The last step of the code against a step of the specification. *)
Lemma rwp_bind_last {A B B'} (m : M (world S) A) (a : M (lib S) B) (h : B -> M (lib S) B') Q w :
  rwp m a (fun x b w' => rwp (mret x) (h b) Q w') w -> rwp m (a ≫= h) Q w.
Proof.
  unfold rwp, wp, mbind, M_bind. destruct (a (lib_of w)) as [b s|c s| |]; [|done..].
  destruct (m w) as [x w'| | |]; [|by destruct (h b s)..].
  intros [<- HQ]. exact HQ.
Qed.

Lemma rwp_mono {A B} (m : M (world S) A) (a : M (lib S) B) (Q Q' : A -> B -> world S -> Prop) w :
  rwp m a Q w -> (forall x b w', Q x b w' -> Q' x b w') -> rwp m a Q' w.
Proof.
  unfold rwp. intros Hm HQ. destruct (a (lib_of w)); try done.
  eapply wp_mono; [exact Hm|]. naive_solver.
Qed.

Lemma rwp_ret {A B} (x : A) (b : B) (Q : A -> B -> world S -> Prop) w :
  Q x b w -> rwp (mret x) (mret b) Q w.
Proof. done. Qed.

(** A step of the code that does not call the library. *)
Lemma rwp_code {A A' B} (m : M (world S) A) (k : A -> M (world S) A') (a : M (lib S) B) Q w :
  wp m (fun x w' => lib_of w' = lib_of w /\ rwp (k x) a Q w') (fun _ => False) w ->
  rwp (m ≫= k) a Q w.
Proof.
  unfold rwp, wp, mbind, M_bind. destruct (m w) as [x w'| | |]; try done.
  intros [-> HQ]. exact HQ.
Qed.

(** A step of the code at the end of a handler. *)
Lemma rwp_code_last {A B} (m : M (world S) A) (b : B) (Q : A -> B -> world S -> Prop) w :
  wp m (fun x w' => lib_of w' = lib_of w /\ Q x b w') (fun _ => False) w ->
  rwp m (mret b) Q w.
Proof. done. Qed.

(** A step of the specification alone. *)
Lemma rwp_spec {A B B'} (m : M (world S) A) (b : B) (h : B -> M (lib S) B') Q w :
  rwp m (h b) Q w -> rwp m (mret b ≫= h) Q w.
Proof. done. Qed.

Lemma rwp_access {A B} (m : M (world S) A) (c : bool) (h : unit -> M (lib S) B) Q w :
  (c = true -> rwp m (h tt) Q w) -> rwp m (access c ≫= h) Q w.
Proof. unfold access. destruct c; [by intros H; apply H|done]. Qed.

(** Regrouping sequences on either side. *)
Lemma rwp_spec_assoc {A B B' B''} (m : M (world S) A) (a : M (lib S) B) (h : B -> M (lib S) B')
    (g : B' -> M (lib S) B'') Q w :
  rwp m (a ≫= fun b => h b ≫= g) Q w -> rwp m ((a ≫= h) ≫= g) Q w.
Proof. unfold rwp, mbind, M_bind. by destruct (a (lib_of w)). Qed.

Lemma rwp_code_assoc {A A' A'' B} (m : M (world S) A) (k : A -> M (world S) A')
    (g : A' -> M (world S) A'') (a : M (lib S) B) Q w :
  rwp (m ≫= fun x => k x ≫= g) a Q w -> rwp ((m ≫= k) ≫= g) a Q w.
Proof. unfold rwp, wp, mbind, M_bind. by destruct (m w). Qed.

(** What it means for complete runs. *)
Lemma rwp_Done {A B} (m : M (world S) A) (a : M (lib S) B) Q w b s :
  rwp m a Q w -> a (lib_of w) = Done b s ->
  exists x w', m w = Done x w' /\ lib_of w' = s /\ Q x b w'.
Proof. unfold rwp. intros Hm Ha. rewrite Ha in Hm. by apply wp_returns in Hm. Qed.

Lemma rwp_Exit {A B} (m : M (world S) A) (a : M (lib S) B) Q w c s :
  rwp m a Q w -> a (lib_of w) = Exit c s ->
  exists c' w', m w = Exit c' w' /\ lib_of w' = s.
Proof.
  unfold rwp. intros Hm Ha. rewrite Ha in Hm.
  apply wp_inv in Hm as [(x & w' & _ & [])|(c' & w' & Hm & Hs)]. eauto.
Qed.
End Inv.

(** ** Frames

    [own_frame foreign o o' h h']: the objects of [h] with a foreign owner keep
    their owner and their contents. *)
Section OwnFrame.
Context {A T : Type} (foreign : T -> Prop).
Implicit Types (o : gmap loc T) (h : heap A).

Definition own_frame o o' h h' : Prop :=
  forall k t, o !! k = Some t -> foreign t -> o' !! k = Some t /\ mem h' !! k = mem h !! k.

Lemma own_frame_refl o h : own_frame o o h h.
Proof. done. Qed.

Lemma own_frame_update o h k t v b :
  o !! k = Some t -> ~ foreign t -> own_frame o o h (Heap (<[k := v]> (mem h)) b).
Proof. intros Hk Ht j t' Hj Hf. simpl. rewrite lookup_insert_ne by naive_solver. done. Qed.

Lemma own_frame_delete o h k t b :
  o !! k = Some t -> ~ foreign t -> own_frame o o h (Heap (delete k (mem h)) b).
Proof. intros Hk Ht j t' Hj Hf. simpl. rewrite lookup_delete_ne by naive_solver. done. Qed.

Lemma own_frame_drop o h k b :
  o !! k = None -> own_frame o o h (Heap (delete k (mem h)) b).
Proof. intros Hk j t' Hj Hf. simpl. rewrite lookup_delete_ne by naive_solver. done. Qed.

Lemma own_frame_claim o h k t : o !! k = None -> own_frame o (<[k := t]> o) h h.
Proof. intros Hk j t' Hj Hf. rewrite lookup_insert_ne by naive_solver. done. Qed.

Lemma below_fresh o h : below o h -> o !! brk h = None.
Proof. intros Hb. destruct (o !! brk h) eqn:Ho; [|done]. specialize (Hb _ (mk_is_Some _ _ Ho)). lia. Qed.

Lemma own_frame_alloc o h t v :
  below o h ->
  own_frame o (<[brk h := t]> o) h (Heap (<[brk h := v]> (mem h)) (Pos.succ (brk h))).
Proof.
  intros Hb%below_fresh j t' Hj Hf. simpl. by rewrite !lookup_insert_ne by naive_solver.
Qed.

(** An object allocated and never owned. *)
Lemma own_frame_alloc_none o h v :
  below o h -> own_frame o o h (Heap (<[brk h := v]> (mem h)) (Pos.succ (brk h))).
Proof. intros Hb%below_fresh j t' Hj Hf. simpl. by rewrite lookup_insert_ne by naive_solver. Qed.

Lemma below_alloc o h t (v : gmap loc A) :
  below o h -> below (<[brk h := t]> o) (Heap v (Pos.succ (brk h))).
Proof.
  intros Hb k Hk. simpl. destruct (decide (k = brk h)) as [->|]; [lia|].
  rewrite lookup_insert_ne in Hk by done. specialize (Hb _ Hk). lia.
Qed.

Lemma below_succ o h (v : gmap loc A) : below o h -> below o (Heap v (Pos.succ (brk h))).
Proof. intros Hb k Hk. simpl. specialize (Hb _ Hk). lia. Qed.

Lemma below_mem o h (v : gmap loc A) : below o h -> below o (Heap v (brk h)).
Proof. done. Qed.

Lemma below_claim o h k t :
  below o h -> heap_wf h -> is_Some (mem h !! k) -> below (<[k := t]> o) h.
Proof.
  intros Hb Hwf Hk j Hj. destruct (decide (j = k)) as [->|]; [by apply Hwf|].
  rewrite lookup_insert_ne in Hj by done. by apply Hb.
Qed.
End OwnFrame.

#[export] Hint Resolve own_frame_refl own_frame_update own_frame_delete own_frame_drop
  own_frame_claim own_frame_alloc own_frame_alloc_none below_alloc below_succ below_mem
  below_claim : ctcp.

(** What a state represents, under a frame that covers its objects. *)
Lemma sent_repr_frame P Q O O' SG SG' AT AT' l p u :
  own_frame P (o_seg O) (o_seg O') SG SG' -> own_frame Q (o_attr O) (o_attr O') AT AT' ->
  P (l, true) -> Q l -> sent_repr O SG AT l p u -> sent_repr O' SG' AT' l p u.
Proof.
  intros Hsg Hat HP HQ. destruct u as [u|]; [|done]. intros (a & s & -> & Ha & Hse & Hoa & Hos).
  exists a, s. destruct (Hat a l Hoa HQ) as [-> ->]. by destruct (Hsg s _ Hos HP) as [-> ->].
Qed.

Lemma recv_repr_frame P O O' SG SG' l p r :
  own_frame P (o_seg O) (o_seg O') SG SG' -> P (l, false) ->
  (forall s, mem SG !! s = None -> (s < brk SG)%positive ->
     mem SG' !! s = None /\ (s < brk SG')%positive) ->
  recv_repr O SG l p r -> recv_repr O' SG' l p r.
Proof.
  intros Hsg HP Hfr. destruct r as [|seg|]; [done| |].
  - intros (s & -> & Hse & Hos). exists s. by destruct (Hsg s _ Hos HP) as [-> ->].
  - intros (s & -> & Hse & Hlt). exists s. by destruct (Hfr s Hse Hlt).
Qed.

Lemma nums_repr_frame P O O' TD TD' l p :
  own_frame P (o_nums O) (o_nums O') TD TD' -> P l -> nums_repr O TD l p -> nums_repr O' TD' l p.
Proof.
  intros Hn HP. destruct p as [n|]; [|done]. intros [Hl Ho].
  destruct (Hn n l Ho HP) as [Ho' Hm]. split; congruence.
Qed.

Lemma list_repr_frame P O O' LL LL' l p :
  own_frame P (o_list O) (o_list O') LL LL' -> P l -> list_repr O LL l p -> list_repr O' LL' l p.
Proof. intros Hn HP (i & -> & Hi & Ho). exists i. by destruct (Hn i l Ho HP) as [-> ->]. Qed.

Section Frame.
Context {S : Type}.
Implicit Types (w : world S) (O : owners) (E : gmap loc endpoint).

(** The links of a state in the state list, and the rest of it. *)
Definition links (st : ctcp_state) : ptr * prev_ptr := (st_next st, st_prev st).
Definition body (st : ctcp_state) : ctcp_state := st_set_next None (st_set_prev PrevNull st).

(** What the states other than [l] may rely on. *)
Record frame (l : loc) O w O' w' : Prop := {
  fr_states : forall k, k <> l -> body <$> (mem (w_states w') !! k) =
                                  body <$> (mem (w_states w) !! k);
  fr_segs : own_frame (fun t => t.1 <> l) (o_seg O) (o_seg O') (w_segments w) (w_segments w');
  fr_freed : forall s, mem (w_segments w) !! s = None -> (s < brk (w_segments w))%positive ->
      mem (w_segments w') !! s = None /\ (s < brk (w_segments w'))%positive;
  fr_attrs : own_frame (fun t => t <> l) (o_attr O) (o_attr O') (w_attrs w) (w_attrs w');
  fr_nums : own_frame (fun t => t <> l) (o_nums O) (o_nums O') (w_tdns w) (w_tdns w');
  fr_lists : own_frame (fun t => t <> l) (o_list O) (o_list O') (lists (w_ll w)) (lists (w_ll w'));
}.

Lemma body_ep_of st st' r u : body st = body st' -> ep_of st r u = ep_of st' r u.
Proof. intros Hb. destruct st, st'. unfold ep_of. simpl. injection Hb. congruence. Qed.

Lemma body_ptrs st st' : body st = body st' ->
  st_sent_segment_attr st = st_sent_segment_attr st' /\
  st_received_segment st = st_received_segment st' /\
  st_tear_down_nums st = st_tear_down_nums st' /\ st_segments_send st = st_segments_send st'.
Proof. intros Hb. destruct st, st'. simpl in *. injection Hb. auto. Qed.

Lemma ep_repr_frame l k O w O' w' e :
  frame l O w O' w' -> k <> l -> ep_repr O w k e -> ep_repr O' w' k e.
Proof.
  intros [Hst Hsg Hfr Hat Hnm Hls] Hk (st & r & u & Hl & -> & Hs & Hr & Hn & Hli).
  specialize (Hst k Hk). rewrite Hl in Hst. simpl in Hst.
  destruct (mem (w_states w') !! k) as [st'|] eqn:Hl'; [|done]. apply (inj Some) in Hst as Hb.
  destruct (body_ptrs st' st Hb) as (E1 & E2 & E3 & E4).
  exists st', r, u. rewrite E1, E2, E3, E4. split_and!; [done| | | | |].
  - symmetry. by apply body_ep_of.
  - by eapply sent_repr_frame.
  - by eapply recv_repr_frame.
  - by eapply nums_repr_frame.
  - by eapply list_repr_frame.
Qed.

Lemma chain_links (ST ST' : gmap loc ctcp_state) order : forall pv p,
  (forall k, k ∈ order -> links <$> (ST' !! k) = links <$> (ST !! k)) ->
  chain ST pv p order -> chain ST' pv p order.
Proof.
  induction order as [|l order IH]; intros pv p Hl; [done|].
  intros (-> & st & Hst & Hpv & Hc). split; [done|].
  pose proof (Hl l ltac:(set_solver)) as E. rewrite Hst in E.
  destruct (ST' !! l) as [st'|]; [|done]. injection E as E1 E2. exists st'.
  split_and!; [done|congruence|]. rewrite E1. apply IH; [set_solver|done].
Qed.

Lemma inv_live O w order E l e :
  inv O w order E -> E !! l = Some e -> ep_repr O w l e.
Proof. intros Hi. apply (inv_repr _ _ _ _ Hi). Qed.

(** One state changes, the state list does not. *)
Lemma inv_step O O' w w' order E l e' :
  inv O w order E -> is_Some (E !! l) -> frame l O w O' w' -> mem_wf O' w' ->
  w_state_list w' = w_state_list w ->
  (forall k, links <$> (mem (w_states w') !! k) = links <$> (mem (w_states w) !! k)) ->
  ep_repr O' w' l e' -> inv O' w' order (<[l := e']> E).
Proof.
  intros Hi Hl Hfr Hwf Hsl Hlk Hr. split; [done|by apply Hi| | |].
  - intros k. rewrite lookup_insert_is_Some', <- (inv_dom _ _ _ _ Hi k).
    split; [by intros [<-|?]|by right].
  - rewrite Hsl. eapply chain_links; [intros; apply Hlk|by apply Hi].
  - intros k e. rewrite lookup_insert_Some. intros [[<- <-]|[Hne He]]; [done|].
    eapply ep_repr_frame; [done|congruence|]. by apply Hi.
Qed.

(** [w_set_states] and updates of one field. *)
Lemma links_update (ST : gmap loc ctcp_state) (l : loc) (st st' : ctcp_state) :
  ST !! l = Some st -> links st' = links st ->
  forall k, links <$> (<[l := st']> ST !! k) = links <$> (ST !! k).
Proof.
  intros Hl Hs k. destruct (decide (k = l)) as [->|].
  - rewrite lookup_insert_eq, Hl. simpl. by rewrite Hs.
  - by rewrite lookup_insert_ne.
Qed.
End Frame.

(** ** The operations on one state *)
Section Primitives.
Context {S : Type} `{!ConnLib S}.
Implicit Types (w : world S) (O : owners) (E : gmap loc endpoint).

(** The segments that no state owns are left alone: such is the segment that
    the library passes to [ctcp_receive]. *)
Definition keep O w O' w' : Prop :=
  forall s seg, o_seg O !! s = None -> mem (w_segments w) !! s = Some seg ->
    o_seg O' !! s = None /\ mem (w_segments w') !! s = Some seg.

(** [state->received_segment]. *)
Definition received_of w (l : loc) : option ptr :=
  st_received_segment <$> mem (w_states w) !! l.

(** [state->sent_segment_attr]. *)
Definition sent_of w (l : loc) : option ptr := st_sent_segment_attr <$> mem (w_states w) !! l.

(** The library's part of the memory does not matter. *)
Lemma inv_lib O sl ST SG AT TD LL buf buf' tr tr' (sys sys' : S) order E :
  inv O (World sl ST SG AT TD LL buf tr sys) order E ->
  inv O (World sl ST SG AT TD LL buf' tr' sys') order E.
Proof. intros [[] Hn Hd Hc Hr]. split; [split|..]; done. Qed.

(** Assignments to the fields of a state that hold no pointer. *)
Record scalar (f : ctcp_state -> ctcp_state) (g : endpoint -> endpoint) : Prop := {
  sc_links : forall st, links (f st) = links st;
  sc_sent : forall st, st_sent_segment_attr (f st) = st_sent_segment_attr st;
  sc_recv : forall st, st_received_segment (f st) = st_received_segment st;
  sc_nums : forall st, st_tear_down_nums (f st) = st_tear_down_nums st;
  sc_list : forall st, st_segments_send (f st) = st_segments_send st;
  sc_ep : forall st r u, ep_of (f st) r u = g (ep_of st r u);
}.

Lemma scalar_ackno v : scalar (st_set_ackno v) (ep_with_ackno v).
Proof. done. Qed.
Lemma scalar_conn_state v : scalar (st_set_conn_state v) (ep_with_phase v).
Proof. done. Qed.

Lemma wp_scalar f g O w order E l e (Q : unit -> world S -> Prop) X :
  scalar f g -> inv O w order E -> E !! l = Some e ->
  (forall w', lib_of w' = lib_of w -> inv O w' order (<[l := g e]> E) ->
     w_segments w' = w_segments w -> w_attrs w' = w_attrs w /\ sent_of w' l = sent_of w l ->
     received_of w' l = received_of w l -> Q tt w') ->
  wp (on_states (update l f)) Q X w.
Proof.
  intros Hf Hi He HQ. destruct (inv_live _ _ _ _ _ _ Hi He) as (st & r & u & Hst & -> & Hs & Hr & Hn & Hl).
  destruct w as [sl [ST bst] SG AT TD LL buf tr sys]. simpl in *.
  eapply wp_st_update; [done|]. apply HQ; try done.
  2: { split; [done|]. unfold sent_of. simpl. rewrite lookup_insert_eq, Hst. simpl. f_equal. by apply Hf. }
  2: { unfold received_of. simpl. rewrite lookup_insert_eq, Hst. simpl. f_equal. by apply Hf. }
  eapply inv_step; [done|done| | |done| |].
  - split; simpl; auto with ctcp. intros k Hk. by rewrite lookup_insert_ne.
  - destruct Hi as [[]]. split; simpl in *; auto with ctcp.
    apply (heap_wf_insert (Heap ST bst)); [done|]. simpl. eauto.
  - apply (links_update ST l st); [done|]. by apply Hf.
  - exists (f st), r, u. simpl. rewrite lookup_insert_eq.
    destruct Hf as [Ha Hb Hc Hd Hg Hh]. rewrite Hb, Hc, Hd, Hg. split_and!; auto.
Qed.

(** Reading a state. *)
Lemma wp_state O w order E l e (Q : ctcp_state -> world S -> Prop) X :
  inv O w order E -> E !! l = Some e ->
  (forall st r u, mem (w_states w) !! l = Some st -> e = ep_of st r u ->
     sent_repr O (w_segments w) (w_attrs w) l (st_sent_segment_attr st) u ->
     recv_repr O (w_segments w) l (st_received_segment st) r -> Q st w) ->
  wp (on_states (load l)) Q X w.
Proof.
  intros Hi He HQ. destruct (inv_live _ _ _ _ _ _ Hi He) as (st & r & u & Hst & Heq & Hs & Hr & _ & _).
  destruct w as [sl [ST bst] SG AT TD LL buf tr sys]. simpl in *.
  eapply wp_st_load; [done|]. eapply HQ; eauto.
Qed.

(** [_destroy_acked_segment]. *)
Lemma wp_destroy_acked O w order E l e (Q : unit -> world S -> Prop) X :
  inv O w order E -> E !! l = Some e ->
  (forall w', lib_of w' = lib_of w ->
     inv O w' order (<[l := ep_with_unacked None e]> E) -> keep O w O w' ->
     (forall s, o_seg O !! s <> Some (l, true) ->
        mem (w_segments w') !! s = mem (w_segments w) !! s) ->
     received_of w' l = received_of w l -> Q tt w') ->
  wp (_destroy_acked_segment l) Q X w.
Proof.
  intros Hi He HQ. destruct (inv_live _ _ _ _ _ _ Hi He) as (st & r & u & Hst & -> & Hs & Hr & Hn & Hl).
  destruct w as [sl [ST bst] [SG bsg] [AT bat] TD LL buf tr sys]. simpl in *.
  unfold _destroy_acked_segment. ctcp_step. ctcp_step. destruct u as [u|]; simpl in Hs.
  - destruct Hs as (a & s & Ea & Ha & Hseg & Hoa & Hos). rewrite Ea. ctcp_steps.
    apply HQ; try done.
    + eapply inv_step; [done|done| | |done| |].
      * split; simpl.
        -- intros k Hk. by rewrite lookup_insert_ne.
        -- eapply (own_frame_delete _ _ (Heap SG bsg)); [done|]. naive_solver.
        -- intros s' Hs' Hlt. split; [|done]. destruct (decide (s' = s)) as [->|]; [congruence|].
           by rewrite lookup_delete_ne.
        -- eapply (own_frame_delete _ _ (Heap AT bat)); [done|]. naive_solver.
        -- auto with ctcp.
        -- auto with ctcp.
      * destruct Hi as [[]]. split; simpl in *; auto with ctcp.
        -- apply (heap_wf_insert (Heap ST bst)); [done|]. simpl. eauto.
        -- by apply (heap_wf_delete (Heap SG bsg)).
        -- by apply (heap_wf_delete (Heap AT bat)).
      * by apply (links_update ST l st).
      * exists (st_set_sent_segment_attr None st), r, None. simpl. rewrite lookup_insert_eq.
        split_and!; try done. destruct r as [|seg|]; [done| |].
        -- destruct Hr as (k & Ek & Hk & Hok). exists k. split_and!; [done| |done]. simpl.
           rewrite lookup_delete_ne; [done|]. congruence.
        -- destruct Hr as (k & Ek & Hk & Hlt). exists k. split_and!; [done| |done]. simpl.
           destruct (decide (k = s)) as [->|]; [by rewrite lookup_delete_eq|].
           by rewrite lookup_delete_ne.
    + intros k seg Hk Hkseg. split; [done|]. simpl in *. rewrite lookup_delete_ne; [done|].
      congruence.
    + intros k Hk. simpl. rewrite lookup_delete_ne; [done|]. congruence.
    + unfold received_of. simpl. by rewrite lookup_insert_eq, Hst.
  - rewrite Hs. apply wp_ret.
    replace (ep_with_unacked None (ep_of st r None)) with (ep_of st r None) in HQ by done.
    rewrite insert_id in HQ by done. by apply HQ.
Qed.

(** The owners after a segment has been sent. *)
Definition sent_owners O (l : loc) (flags len : Z) (seg attr nums : loc) : owners :=
  Owners (<[seg := (l, true)]> (o_seg O))
    (if (len - SEGMENT_HDR_SIZE >? 0) || has_flag flags FIN
     then <[attr := l]> (o_attr O) else o_attr O)
    (if has_flag flags FIN then <[nums := l]> (o_nums O) else o_nums O) (o_list O).

Section Sent.
Context (O : owners) (sl : ptr) (ST : gmap loc ctcp_state) (SG : gmap loc ctcp_segment).
Context (AT : gmap loc segment_attr) (TD : gmap loc tear_down_nums) (LL : ll_mem).
Context (bst bsg bat btd : loc) (buf buf' : list byte) (tr tr' : list event) (sys sys' : S).
Context (l : loc) (st : ctcp_state) (flags len : Z) (seg : ctcp_segment).
Hypothesis (Hst : ST !! l = Some st).
Let w := World sl (Heap ST bst) (Heap SG bsg) (Heap AT bat) (Heap TD btd) LL buf tr sys.
Let O' := sent_owners O l flags len bsg bat btd.
Let w' := World sl (Heap (<[l := sent_state flags len bat btd st]> ST) bst)
            (Heap (<[bsg := seg]> SG) (Pos.succ bsg)) (sent_attrs flags len bsg (Heap AT bat))
            (sent_tdns flags st (Heap TD btd)) LL buf' tr' sys'.
Hypothesis (Hwf : mem_wf O w).

Lemma sent_mem_wf : mem_wf O' w'.
Proof.
  destruct Hwf as [H1 H2 H3 H4 H5 H6 H7 H8 H9]. subst w w' O'. simpl in *.
  unfold sent_owners, sent_attrs, sent_tdns. split; simpl; try done.
  - apply (heap_wf_insert (Heap ST bst)); [done|]. simpl. eauto.
  - by apply (heap_wf_calloc (Heap SG bsg)).
  - destruct (_ || _); [|done]. by apply (heap_wf_calloc (Heap AT bat)).
  - destruct (has_flag _ _); [|done]. by apply (heap_wf_calloc (Heap TD btd)).
  - by apply (below_alloc _ (Heap SG bsg)).
  - destruct (_ || _); [|done]. by apply (below_alloc _ (Heap AT bat)).
  - destruct (has_flag _ _); [|done]. by apply (below_alloc _ (Heap TD btd)).
Qed.

Lemma sent_frame : frame l O w O' w'.
Proof.
  destruct Hwf as [H1 H2 H3 H4 H5 H6 H7 H8 H9]. subst w w' O'. simpl in *.
  unfold sent_owners, sent_attrs, sent_tdns. split; simpl.
  - intros k Hk. by rewrite lookup_insert_ne.
  - by apply (own_frame_alloc _ _ (Heap SG bsg)).
  - intros s Hs Hlt. rewrite lookup_insert_ne by lia. split; [done|lia].
  - destruct (_ || _); [|auto with ctcp]. by apply (own_frame_alloc _ _ (Heap AT bat)).
  - destruct (has_flag _ _); [|auto with ctcp]. by apply (own_frame_alloc _ _ (Heap TD btd)).
  - auto with ctcp.
Qed.

Lemma sent_keep : keep O w O' w'.
Proof.
  destruct Hwf as [H1 H2 H3 H4 H5 H6 H7 H8 H9]. subst w w' O'. simpl in *.
  intros s sg Hs Hsg. simpl in *. pose proof (H2 s (mk_is_Some _ _ Hsg)) as Hlt. simpl in Hlt.
  by rewrite !lookup_insert_ne by lia.
Qed.

Lemma sent_ep_repr e r u :
  e = ep_of st r u ->
  sent_repr O (Heap SG bsg) (Heap AT bat) l (st_sent_segment_attr st) u ->
  recv_repr O (Heap SG bsg) l (st_received_segment st) r ->
  nums_repr O (Heap TD btd) l (st_tear_down_nums st) ->
  list_repr O (lists LL) l (st_segments_send st) ->
  ep_repr O' w' l (ep_sent flags len seg e).
Proof.
  destruct Hwf as [H1 H2 H3 H4 H5 H6 H7 H8 H9]. intros -> Hs Hr Hn Hl. subst w w' O'. simpl in *.
  pose proof (own_frame_alloc (fun _ => True) _ _ (l, true) seg H6) as Fs. simpl in Fs.
  pose proof (own_frame_alloc (fun _ => True) _ _ l (SegmentAttr 0 0 (Some bsg)) H7) as Fa.
  pose proof (own_frame_alloc (fun _ => True) _ _ l
                (TearDownNums (u32 (st_seqno st + 1)) (st_ackno st)) H8) as Fn.
  assert (Hfr : forall s, SG !! s = None -> (s < bsg)%positive ->
            <[bsg := seg]> SG !! s = None /\ (s < Pos.succ bsg)%positive).
  { intros s Hse Hlt. rewrite lookup_insert_ne by lia. split; [done|lia]. }
  unfold ep_repr, sent_owners, sent_attrs, sent_tdns, sent_state, ep_sent. simpl.
  rewrite lookup_insert_eq.
  eexists _, r, (if (len - SEGMENT_HDR_SIZE >? 0) || has_flag flags FIN
                 then Some (Unacked seg 0 0) else u). split; [done|].
  destruct (has_flag flags FIN), (len - SEGMENT_HDR_SIZE >? 0); simpl; split_and!; try done;
    try (by eapply (sent_repr_frame (fun _ => True) (fun _ => True))); try (by eapply recv_repr_frame);
    try (by eapply nums_repr_frame); try (by eapply list_repr_frame);
    try (eexists _, _; split_and!; [done| | | |]; simpl; by rewrite lookup_insert_eq);
    try (rewrite lookup_insert_eq; by eauto).
Qed.
End Sent.

(** A segment that is allocated and that no state owns: the segments that come
    from the network, and the one [_segment_send] leaves behind on an error. *)
Lemma inv_alloc_segment O sl ST SG bsg AT TD LL buf tr (sys : S) v order E :
  inv O (World sl ST (Heap SG bsg) AT TD LL buf tr sys) order E ->
  let w' := World sl ST (Heap (<[bsg := v]> SG) (Pos.succ bsg)) AT TD LL buf tr sys in
  inv O w' order E /\ keep O (World sl ST (Heap SG bsg) AT TD LL buf tr sys) O w' /\
  o_seg O !! bsg = None.
Proof.
  intros [Hwf Hn Hd Hc Hr]. pose proof Hwf as [H1 H2 H3 H4 H5 H6 H7 H8 H9]. simpl in *.
  split_and!.
  - split; [|done..|].
    + split; simpl; auto with ctcp.
      * by apply (heap_wf_calloc (Heap SG bsg)).
      * by apply (below_succ _ (Heap SG bsg)).
    + intros k e He. destruct (Hr k e He) as (st & r & u & Hst & -> & Hs & Hrv & Hnm & Hl).
      exists st, r, u. split_and!; [done|done| | |done|done].
      * eapply (sent_repr_frame (fun _ => True) (fun _ => True));
          [by apply (own_frame_alloc_none _ _ (Heap SG bsg))|apply own_frame_refl|done..].
      * eapply (recv_repr_frame (fun _ => True));
          [by apply (own_frame_alloc_none _ _ (Heap SG bsg))|done| |done].
        intros s Hse Hlt. simpl in *. rewrite lookup_insert_ne by lia. split; [done|lia].
  - intros s sg Hs Hsg. simpl in *. pose proof (H2 s (mk_is_Some _ _ Hsg)) as Hlt.
    simpl in Hlt. by rewrite lookup_insert_ne by lia.
  - by apply (below_fresh _ (Heap SG bsg)).
Qed.

Lemma rwp_send O w order E l e flags len data (Q : Z -> Z * endpoint -> world S -> Prop) :
  inv O w order E -> E !! l = Some e ->
  SEGMENT_HDR_SIZE <= len <= SEGMENT_HDR_SIZE + MAX_SEG_DATA_SIZE ->
  len - SEGMENT_HDR_SIZE <= Z.of_nat (length data) ->
  (forall n e' O' w', inv O' w' order (<[l := e']> E) -> keep O w O' w' ->
     ep_received e' = ep_received e -> received_of w' l = received_of w l -> Q n (n, e') w') ->
  rwp (_segment_send l flags len data) (ep_send flags len data e) Q w.
Proof.
  intros Hi He Hlen Hdata HQ.
  destruct (inv_live _ _ _ _ _ _ Hi He) as (st & r & u & Hst & -> & Hs & Hr & Hn & Hl).
  destruct w as [sl [ST bst] [SG bsg] [AT bat] [TD btd] LL buf tr sys]. simpl in *.
  unfold rwp, ep_send, lib_send, lib_sys, lib_log, zoom, mbind, M_bind, modify, lib_of. simpl.
  destruct (conn_send (st_conn st) _ len sys) as [n sys'|c sys'| |] eqn:Hc; try done; simpl.
  - eapply wp_segment_send; [done..|]. cbv zeta. unfold wp at 1. rewrite Hc.
    destruct (n <? 0).
    + split; [done|].
      destruct (inv_alloc_segment _ _ _ _ _ _ _ _ buf tr sys
        (wire_segment (st_seqno st) (st_ackno st) flags len data) _ _ Hi) as (Hi' & Hk & _).
      apply (HQ (-1) (ep_of st r u) O); [|exact Hk|done|done]. rewrite (insert_id E) by done.
      by eapply inv_lib.
    + split; [done|]. apply HQ with (sent_owners O l flags len bsg bat btd).
      * eapply inv_step; [done|done| | |done| |].
        -- eapply sent_frame. apply Hi.
        -- eapply sent_mem_wf; [done|apply Hi].
        -- apply (links_update ST l st); [done|]. unfold sent_state.
           by destruct (has_flag flags FIN), (len - SEGMENT_HDR_SIZE >? 0).
        -- eapply sent_ep_repr; [apply Hi|done..].
      * eapply sent_keep. apply Hi.
      * unfold ep_sent. by destruct (_ || _).
      * unfold received_of, sent_state. simpl. rewrite lookup_insert_eq, Hst. simpl.
        by destruct (has_flag flags FIN), (len - SEGMENT_HDR_SIZE >? 0).
  - eapply wp_segment_send; [done..|]. cbv zeta. unfold wp at 1. rewrite Hc. done.
Qed.
End Primitives.

(** ** Received segments, and the calls to the library *)
Section Received.
Context {S : Type} `{!ConnLib S}.
Implicit Types (w : world S) (O : owners) (E : gmap loc endpoint).

(** A change to the heap of segments alone that leaves what states own. *)
Lemma inv_segments O sl ST SG SG' AT TD LL buf tr (sys : S) order E :
  inv O (World sl ST SG AT TD LL buf tr sys) order E ->
  own_frame (fun _ => True) (o_seg O) (o_seg O) SG SG' ->
  (forall s, mem SG !! s = None -> (s < brk SG)%positive ->
     mem SG' !! s = None /\ (s < brk SG')%positive) ->
  heap_wf SG' -> brk SG' = brk SG ->
  inv O (World sl ST SG' AT TD LL buf tr sys) order E.
Proof.
  intros [[] Hn Hd Hc Hr] Hf Hfr Hwf Hb. simpl in *. split; [|done..|].
  - split; simpl; try done. intros k Hk. rewrite Hb. auto.
  - intros k e He. destruct (Hr k e He) as (st & r & u & Hst & -> & Hs & Hrv & Hnm & Hl).
    exists st, r, u. split_and!; [done|done| | |done|done].
    + by eapply (sent_repr_frame (fun _ => True) (fun _ => True)); [|apply own_frame_refl|..].
    + by eapply (recv_repr_frame (fun _ => True)).
Qed.

(** [free] of the segment that the library handed over. *)
Lemma wp_free_handed O w order E s seg (Q : unit -> world S -> Prop) X :
  inv O w order E -> o_seg O !! s = None -> mem (w_segments w) !! s = Some seg ->
  (forall w', lib_of w' = lib_of w -> inv O w' order E -> Q tt w') ->
  wp (on_segments (free (Some s))) Q X w.
Proof.
  intros Hi Ho Hs HQ. destruct w as [sl ST [SG bsg] AT TD LL buf tr sys]. simpl in *.
  eapply wp_sg_free; [done|]. apply HQ; [done|]. eapply inv_segments; [done| | | |done].
  - by apply (own_frame_drop _ _ (Heap SG bsg)).
  - intros k Hk Hlt. simpl in *. split; [|done]. apply lookup_delete_None. by right.
  - destruct Hi as [[]]. by apply (heap_wf_delete (Heap SG bsg)).
Qed.

(** Changes to a segment that no state owns. *)
Lemma inv_handed O sl ST SG bsg AT TD LL buf tr (sys : S) order E s seg v :
  inv O (World sl ST (Heap SG bsg) AT TD LL buf tr sys) order E ->
  o_seg O !! s = None -> SG !! s = Some seg ->
  inv O (World sl ST (Heap (<[s := v]> SG) bsg) AT TD LL buf tr sys) order E.
Proof.
  intros Hi Ho Hs. eapply inv_segments; [done| | | |done].
  - intros k t Hk _. simpl. by rewrite lookup_insert_ne by naive_solver.
  - intros k Hk Hlt. simpl in *. split; [|done]. rewrite lookup_insert_ne by congruence. done.
  - destruct Hi as [[]]. apply (heap_wf_insert (Heap SG bsg)); [done|]. simpl. eauto.
Qed.

Lemma wp_store_handed O w order E s seg v (Q : unit -> world S -> Prop) X :
  inv O w order E -> o_seg O !! s = None -> mem (w_segments w) !! s = Some seg ->
  (forall w', lib_of w' = lib_of w -> inv O w' order E ->
     mem (w_segments w') !! s = Some v -> Q tt w') ->
  wp (on_segments (store s v)) Q X w.
Proof.
  intros Hi Ho Hs HQ. destruct w as [sl ST [SG bsg] AT TD LL buf tr sys]. simpl in *.
  eapply wp_sg_store; [done|]. apply HQ; [done| |simpl; by rewrite lookup_insert_eq].
  by eapply inv_handed.
Qed.

Lemma wp_update_handed O w order E s seg f (Q : unit -> world S -> Prop) X :
  inv O w order E -> o_seg O !! s = None -> mem (w_segments w) !! s = Some seg ->
  (forall w', lib_of w' = lib_of w -> inv O w' order E ->
     mem (w_segments w') !! s = Some (f seg) -> Q tt w') ->
  wp (on_segments (update s f)) Q X w.
Proof.
  intros Hi Ho Hs HQ. destruct w as [sl ST [SG bsg] AT TD LL buf tr sys]. simpl in *.
  eapply wp_sg_update; [done|]. apply HQ; [done| |simpl; by rewrite lookup_insert_eq].
  by eapply inv_handed.
Qed.

(** [state->received_segment = segment]: the state takes the segment over. *)
Lemma wp_set_received O w order E l e s seg (Q : unit -> world S -> Prop) X :
  inv O w order E -> E !! l = Some e ->
  o_seg O !! s = None -> mem (w_segments w) !! s = Some seg ->
  (forall O' w', lib_of w' = lib_of w ->
     inv O' w' order (<[l := ep_with_received (RecvKept seg) e]> E) ->
     received_of w' l = Some (Some s) -> Q tt w') ->
  wp (on_states (update l (st_set_received_segment (Some s)))) Q X w.
Proof.
  intros Hi He Ho Hseg HQ.
  destruct (inv_live _ _ _ _ _ _ Hi He) as (st & r & u & Hst & -> & Hs & Hr & Hn & Hl).
  destruct w as [sl [ST bst] SG AT TD LL buf tr sys]. simpl in *.
  eapply wp_st_update; [done|].
  set (O' := Owners (<[s := (l, false)]> (o_seg O)) (o_attr O) (o_nums O) (o_list O)).
  assert (Hf : forall P, own_frame P (o_seg O) (o_seg O') SG SG).
  { intros P. by apply own_frame_claim. }
  apply (HQ O'); [done| |unfold received_of; simpl; by rewrite lookup_insert_eq].
  eapply inv_step; [done|done| | |done| |].
  - split; simpl; auto with ctcp. intros k Hk. by rewrite lookup_insert_ne.
  - destruct Hi as [[]]. split; simpl in *; auto with ctcp.
    apply (heap_wf_insert (Heap ST bst)); [done|]. simpl. eauto.
  - by apply (links_update ST l st).
  - exists (st_set_received_segment (Some s) st), (RecvKept seg), u. simpl.
    rewrite lookup_insert_eq. split_and!; [done|done| | |done|done].
    + eapply (sent_repr_frame (fun _ => True) (fun _ => True));
        [apply Hf|apply own_frame_refl|done..].
    + exists s. simpl. by rewrite lookup_insert_eq.
Qed.

(** [free(state->received_segment)]: the pointer of the state now dangles. *)
Lemma wp_free_received O w order E l e s seg (Q : unit -> world S -> Prop) X :
  inv O w order E -> E !! l = Some e -> ep_received e = RecvKept seg ->
  received_of w l = Some (Some s) ->
  (forall w', lib_of w' = lib_of w ->
     inv O w' order (<[l := ep_with_received RecvFreed e]> E) -> Q tt w') ->
  wp (on_segments (free (Some s))) Q X w.
Proof.
  intros Hi He Hrk Hro HQ.
  destruct (inv_live _ _ _ _ _ _ Hi He) as (st & r & u & Hst & -> & Hs & Hr & Hn & Hl).
  simpl in Hrk. subst r.
  assert (Hrs : st_received_segment st = Some s).
  { unfold received_of in Hro. rewrite Hst in Hro. simpl in Hro. congruence. }
  destruct Hr as (s' & Es & Hseg & Hos). assert (s' = s) as -> by congruence. clear Es.
  destruct w as [sl ST [SG bsg] AT TD LL buf tr sys]. simpl in *.
  eapply wp_sg_free; [done|]. apply HQ; [done|].
  assert (Hlt : (s < bsg)%positive). { destruct Hi as [[]]. by apply (wf_segments0 s). }
  assert (Hdel : forall k, SG !! k = None -> (k < bsg)%positive ->
            delete s SG !! k = None /\ (k < bsg)%positive).
  { intros k Hk Hkl. split; [|done]. apply lookup_delete_None. by right. }
  eapply inv_step; [done|done| | |done|done|].
  - split; simpl; auto with ctcp.
    eapply (own_frame_delete _ _ (Heap SG bsg)); [done|]. naive_solver.
  - destruct Hi as [[]]. split; simpl in *; auto with ctcp.
    by apply (heap_wf_delete (Heap SG bsg)).
  - exists st, RecvFreed, u. simpl. split_and!; [done|done| | |done|done].
    + destruct u as [u|]; [|done]. destruct Hs as (a & s' & Ea & Ha & Hse & Hoa & Hos').
      exists a, s'. split_and!; try done. simpl. rewrite lookup_delete_ne; [done|]. congruence.
    + exists s. split_and!; [done|apply lookup_delete_eq|done].
Qed.

(** The calls to the library that a handler makes. *)
Lemma rwp_call_output O w order E c buf len (Q : Z -> Z -> world S -> Prop) :
  inv O w order E ->
  (forall r w', inv O w' order E -> w_states w' = w_states w -> w_segments w' = w_segments w ->
     Q r r w') ->
  rwp (call_output c buf len) (lib_output c buf len) Q w.
Proof.
  intros Hi HQ. destruct w as [sl ST SG AT TD LL b tr sys].
  unfold rwp, lib_output, lib_sys, lib_log, zoom, mbind, M_bind, modify, lib_of. simpl.
  destruct (conn_output c buf len sys) as [n sys'|c' sys'| |] eqn:Hc; try done; simpl;
    apply wp_call_output; unfold wp; rewrite Hc; [|done]. split; [done|]. apply HQ; [|done..].
  by eapply inv_lib.
Qed.

Lemma rwp_call_send O w order E c seg len (Q : Z -> Z -> world S -> Prop) :
  inv O w order E ->
  (forall r w', inv O w' order E -> w_states w' = w_states w -> w_segments w' = w_segments w ->
     w_attrs w' = w_attrs w -> Q r r w') ->
  rwp (call_send c seg len) (lib_send c seg len) Q w.
Proof.
  intros Hi HQ. destruct w as [sl ST SG AT TD LL b tr sys].
  unfold rwp, lib_send, lib_sys, lib_log, zoom, mbind, M_bind, modify, lib_of. simpl.
  destruct (conn_send c _ len sys) as [n sys'|c' sys'| |] eqn:Hc; try done; simpl;
    apply wp_call_send; unfold wp; rewrite Hc; [|done]. split; [done|]. apply HQ; [|done..].
  by eapply inv_lib.
Qed.

Lemma rwp_bufspace O w order E c (Q : Z -> Z -> world S -> Prop) :
  inv O w order E ->
  (forall r w', inv O w' order E -> w_states w' = w_states w -> w_segments w' = w_segments w ->
     Q r r w') ->
  rwp (on_sys (conn_bufspace c)) (lib_sys (conn_bufspace c)) Q w.
Proof.
  intros Hi HQ. destruct w as [sl ST SG AT TD LL b tr sys].
  unfold rwp, lib_sys, zoom, lib_of. simpl.
  destruct (conn_bufspace c sys) as [n sys'|c' sys'| |] eqn:Hc; try done; simpl;
    apply wp_zoom; unfold wp; simpl; rewrite Hc; [|done]. split; [done|]. apply HQ; [|done..].
  by eapply inv_lib.
Qed.

Lemma rwp_call_input O w order E c buf len (Q : Z * list byte -> Z * list byte -> world S -> Prop) :
  inv O w order E ->
  (forall r w', inv O w' order E -> w_states w' = w_states w -> w_segments w' = w_segments w ->
     Q r r w') ->
  rwp (call_input c buf len) (lib_input c buf len) Q w.
Proof.
  intros Hi HQ. destruct w as [sl ST SG AT TD LL b tr sys].
  unfold rwp, lib_input, lib_sys, lib_log, zoom, mbind, M_bind, modify, lib_of. simpl.
  destruct (conn_input c (Some buf) len sys) as [[n b'] sys'|c' sys'| |] eqn:Hc; try done; simpl;
    apply wp_call_input; unfold wp; rewrite Hc; [|done]. split; [done|]. apply HQ; [|done..].
  by eapply inv_lib.
Qed.
End Received.

(** ** The state list *)

(** A piece of the state list, up to [q]; [last_prev] is what points to [q]. *)
Fixpoint chain_seg (ST : gmap loc ctcp_state) (pv : prev_ptr) (p : ptr) (order : list loc)
    (q : ptr) : Prop :=
  match order with
  | [] => p = q
  | l :: order' => p = Some l /\ exists st, ST !! l = Some st /\ st_prev st = pv /\
                     chain_seg ST (PrevNext l) (st_next st) order' q
  end.

Fixpoint last_prev (pv : prev_ptr) (order : list loc) : prev_ptr :=
  match order with [] => pv | l :: order' => last_prev (PrevNext l) order' end.

Lemma last_prev_snoc order : forall pv k, last_prev pv (order ++ [k]) = PrevNext k.
Proof. induction order as [|l order IH]; intros pv k; simpl; [done|apply IH]. Qed.

Section Chain.
Implicit Types (ST : gmap loc ctcp_state) (order : list loc).

Lemma chain_app ST l1 l2 : forall pv p,
  chain ST pv p (l1 ++ l2) <->
  exists q, chain_seg ST pv p l1 q /\ chain ST (last_prev pv l1) q l2.
Proof.
  induction l1 as [|l l1 IH]; intros pv p; simpl.
  - split; [eauto|]. by intros (q & -> & Hc).
  - split.
    + intros (-> & st & Hst & Hp & (q & Hs & Hc)%IH). eauto 10.
    + intros (q & (-> & st & Hst & Hp & Hs) & Hc). split; [done|]. exists st.
      split_and!; [done..|]. apply IH. eauto.
Qed.

Lemma chain_seg_app ST l1 l2 r : forall pv p,
  chain_seg ST pv p (l1 ++ l2) r <->
  exists q, chain_seg ST pv p l1 q /\ chain_seg ST (last_prev pv l1) q l2 r.
Proof.
  induction l1 as [|l l1 IH]; intros pv p; simpl.
  - split; [eauto|]. by intros (q & -> & Hc).
  - split.
    + intros (-> & st & Hst & Hp & (q & Hs & Hc)%IH). eauto 10.
    + intros (q & (-> & st & Hst & Hp & Hs) & Hc). split; [done|]. exists st.
      split_and!; [done..|]. apply IH. eauto.
Qed.

Lemma chain_ext ST ST' order : forall pv p,
  (forall k, k ∈ order -> ST' !! k = ST !! k) -> chain ST pv p order -> chain ST' pv p order.
Proof. intros pv p Hk. apply chain_links. intros k Hin. by rewrite Hk. Qed.

Lemma chain_seg_ext ST ST' order q : forall pv p,
  (forall k, k ∈ order -> ST' !! k = ST !! k) ->
  chain_seg ST pv p order q -> chain_seg ST' pv p order q.
Proof.
  induction order as [|l order IH]; intros pv p Hk; simpl; [done|].
  intros (-> & st & Hst & Hp & Hc). split; [done|]. exists st. rewrite Hk by set_solver.
  split_and!; [done..|]. apply IH; [set_solver|done].
Qed.

Lemma chain_ptr ST pv p order : chain ST pv p order -> p = head order.
Proof. destruct order; simpl; [done|by intros (-> & _)]. Qed.

Lemma chain_live ST pv p order l : chain ST pv p order -> l ∈ order -> is_Some (ST !! l).
Proof.
  revert pv p. induction order as [|k order IH]; intros pv p; simpl; [set_solver|].
  intros (_ & st & Hst & _ & Hc) [->|Hin]%elem_of_cons; [eauto|by eapply IH].
Qed.

(** The first state of a piece gets another [prev]. *)
Definition repoint (pv : prev_ptr) (p : ptr) ST : gmap loc ctcp_state :=
  match p with None => ST | Some n => alter (st_set_prev pv) n ST end.

Lemma repoint_ne pv p ST k : p <> Some k -> repoint pv p ST !! k = ST !! k.
Proof. intros Hk. destruct p as [n|]; [|done]. apply lookup_alter_ne. congruence. Qed.

Lemma repoint_insert pv p ST k st :
  p <> Some k -> repoint pv p (<[k := st]> ST) = <[k := st]> (repoint pv p ST).
Proof. intros Hk. destruct p as [n|]; [|done]. apply alter_insert_ne. congruence. Qed.

Lemma repoint_live pv p ST k : is_Some (ST !! k) -> is_Some (repoint pv p ST !! k).
Proof. intros Hk. destruct p; [|done]. by apply lookup_alter_is_Some. Qed.

Lemma alter_body f j ST k :
  (forall s, body (f s) = body s) -> body <$> (alter f j ST !! k) = body <$> (ST !! k).
Proof.
  intros Hf. destruct (decide (j = k)) as [->|].
  - rewrite lookup_alter_eq. destruct (ST !! k); simpl; [by rewrite Hf|done].
  - by rewrite lookup_alter_ne.
Qed.

Lemma repoint_body pv p ST k : body <$> (repoint pv p ST !! k) = body <$> (ST !! k).
Proof. destruct p; [|done]. by apply alter_body. Qed.

Lemma chain_repoint ST pv pv' p order :
  NoDup order -> chain ST pv p order -> chain (repoint pv' p ST) pv' p order.
Proof.
  destruct order as [|l order]; simpl; [by intros _ ->|]. intros [Hl Hn]%NoDup_cons (-> & st & Hst & _ & Hc).
  split; [done|]. exists (st_set_prev pv' st). simpl. rewrite lookup_alter_eq, Hst.
  split_and!; [done..|]. eapply chain_ext; [|exact Hc]. intros k Hk.
  rewrite lookup_alter_ne; [done|]. by intros ->.
Qed.

(** What [ctcp_destroy] does to the links around a state. *)
Definition unlink (st : ctcp_state) ST : gmap loc ctcp_state :=
  let ST1 := repoint (st_prev st) (st_next st) ST in
  match st_prev st with PrevNext k => alter (st_set_next (st_next st)) k ST1 | _ => ST1 end.

(** The neighbours of a state are live, and other states. *)
Definition linked ST (l : loc) (st : ctcp_state) : Prop :=
  (forall n, st_next st = Some n -> n <> l /\ is_Some (ST !! n)) /\
  match st_prev st with
  | PrevNull => False
  | PrevHead => True
  | PrevNext p => p <> l /\ is_Some (ST !! p)
  end.

Lemma unlink_self ST l st : linked ST l st -> ST !! l = Some st -> unlink st ST !! l = Some st.
Proof.
  intros [Hn Hp] Hl. unfold unlink.
  assert (H1 : repoint (st_prev st) (st_next st) ST !! l = Some st).
  { rewrite repoint_ne; [done|]. by intros [? _]%Hn. }
  destruct (st_prev st); [done..|]. destruct Hp. by rewrite lookup_alter_ne.
Qed.

Lemma chain_unlink ST sl l1 l l2 st :
  NoDup (l1 ++ l :: l2) -> chain ST PrevHead sl (l1 ++ l :: l2) -> ST !! l = Some st ->
  st_prev st = last_prev PrevHead l1 /\ st_next st = head l2 /\
  chain (delete l (unlink st ST)) PrevHead
    (match st_prev st with PrevHead => st_next st | _ => sl end) (l1 ++ l2).
Proof.
  intros Hnd Hc Hst. pose proof Hnd as (Hn1 & Hd & [Hl2 Hn2]%NoDup_cons)%NoDup_app.
  apply chain_app in Hc as (q & Hs & -> & st' & Hst' & Hpv & Hc).
  assert (st' = st) as -> by congruence. pose proof (chain_ptr _ _ _ _ Hc) as Hnext.
  split_and!; [done..|]. apply (chain_repoint _ _ (st_prev st)) in Hc; [|done].
  set (ST1 := repoint (st_prev st) (st_next st) ST) in Hc.
  assert (H1 : forall k, k ∉ l2 -> ST1 !! k = ST !! k).
  { intros k Hk. apply repoint_ne. rewrite Hnext. destruct l2; [done|]. intros [= ->]. set_solver. }
  unfold unlink. fold ST1.
  destruct (last_snoc_inv l1) as [->|(l0 & k & ->)].
  - simpl in *. subst sl. rewrite Hpv in *. eapply chain_ext; [|exact Hc].
    intros k Hk. rewrite lookup_delete_ne; [done|]. by intros ->.
  - rewrite last_prev_snoc in Hpv. rewrite Hpv in *.
    apply NoDup_app in Hn1 as (Hn0 & Hd0 & _).
    apply chain_seg_app in Hs as (q & Hs & -> & stk & Hstk & Hpk & Hnk). simpl in Hnk.
    rewrite <- app_assoc. apply chain_app. exists (Some k). split.
    + eapply chain_seg_ext; [|exact Hs]. intros j Hj.
      rewrite lookup_delete_ne by set_solver. rewrite lookup_alter_ne by set_solver.
      apply H1. set_solver.
    + simpl. split; [done|]. exists (st_set_next (st_next st) stk).
      rewrite lookup_delete_ne by set_solver. rewrite lookup_alter_eq, H1 by set_solver.
      rewrite Hstk. split_and!; [done..|]. simpl. eapply chain_ext; [|exact Hc].
      intros j Hj. rewrite lookup_delete_ne by set_solver. by rewrite lookup_alter_ne by set_solver.
Qed.

Lemma chain_linked ST sl l1 l l2 st :
  NoDup (l1 ++ l :: l2) -> chain ST PrevHead sl (l1 ++ l :: l2) -> ST !! l = Some st ->
  linked ST l st.
Proof.
  intros Hnd Hc Hst. destruct (chain_unlink _ _ _ _ _ _ Hnd Hc Hst) as (Hp & Hn & _).
  apply NoDup_app in Hnd as (_ & Hd & [Hl2 _]%NoDup_cons). split.
  - intros n Hnx. rewrite Hn in Hnx. destruct l2 as [|n' l2]; [done|]. injection Hnx as ->.
    split; [set_solver|]. eapply chain_live; [exact Hc|]. set_solver.
  - rewrite Hp. destruct (last_snoc_inv l1) as [->|(l0 & p & ->)]; [done|].
    rewrite last_prev_snoc. split; [intros ->; by apply (Hd l); set_solver|].
    eapply chain_live; [exact Hc|]. set_solver.
Qed.

Lemma unlink_body st ST k : body <$> (unlink st ST !! k) = body <$> (ST !! k).
Proof. unfold unlink. destruct (st_prev st); rewrite ?alter_body, ?repoint_body; done. Qed.

End Chain.

(** ** Removing and adding a state *)
Section Lifecycle.
Context {S : Type} `{!ConnLib S}.
Implicit Types (w : world S) (O : owners) (E : gmap loc endpoint).

Lemma wp_st_alter (X : world S -> Prop) sl ST bst SG AT TD LL buf tr sys k f
    (Q : unit -> world S -> Prop) :
  is_Some (ST !! k) ->
  Q tt (World sl (Heap (alter f k ST) bst) SG AT TD LL buf tr sys) ->
  wp (on_states (update k f)) Q X (World sl (Heap ST bst) SG AT TD LL buf tr sys).
Proof.
  intros [st Hst] HQ. eapply wp_st_update; [done|].
  replace (<[k := f st]> ST) with (alter f k ST); [done|].
  apply map_eq. intros j. destruct (decide (j = k)) as [->|].
  - by rewrite lookup_alter_eq, lookup_insert_eq, Hst.
  - by rewrite lookup_alter_ne, lookup_insert_ne.
Qed.

Lemma wp_repoint (X : world S -> Prop) sl ST bst SG AT TD LL buf tr sys pv p
    (Q : unit -> world S -> Prop) :
  (forall n, p = Some n -> is_Some (ST !! n)) ->
  Q tt (World sl (Heap (repoint pv p ST) bst) SG AT TD LL buf tr sys) ->
  wp (match p with None => mret tt | Some n => on_states (update n (st_set_prev pv)) end) Q X
    (World sl (Heap ST bst) SG AT TD LL buf tr sys).
Proof. intros Hl HQ. destruct p as [n|]; [|by apply wp_ret]. apply wp_st_alter; auto. Qed.

(** [*state->prev = state->next], after the next state has been repointed. *)
Lemma wp_unlink (X : world S -> Prop) sl ST bst SG AT TD LL buf tr sys l st
    (Q : unit -> world S -> Prop) :
  linked ST l st ->
  Q tt (World (match st_prev st with PrevHead => st_next st | _ => sl end)
          (Heap (unlink st ST) bst) SG AT TD LL buf tr sys) ->
  wp (match st_prev st with
      | PrevNull => undef
      | PrevHead => modify (w_set_state_list (st_next st))
      | PrevNext p => on_states (update p (st_set_next (st_next st)))
      end) Q X (World sl (Heap (repoint (st_prev st) (st_next st) ST) bst) SG AT TD LL buf tr sys).
Proof.
  intros [_ Hp] HQ. unfold unlink in HQ. destruct (st_prev st) as [| |p]; [done|by apply wp_modify|].
  apply wp_st_alter; [by apply repoint_live, Hp|done].
Qed.

(** Freeing the numbers of the closing, which the state may have. *)
Lemma wp_nums_free (X : world S -> Prop) O sl ST SG AT TD btd LL buf tr sys l p
    (Q : unit -> world S -> Prop) :
  heap_wf (Heap TD btd) -> nums_repr O (Heap TD btd) l p ->
  (forall TD', own_frame (fun t => t <> l) (o_nums O) (o_nums O) (Heap TD btd) (Heap TD' btd) ->
     heap_wf (Heap TD' btd) -> Q tt (World sl ST SG AT (Heap TD' btd) LL buf tr sys)) ->
  wp (on_tdns (free p)) Q X (World sl ST SG AT (Heap TD btd) LL buf tr sys).
Proof.
  intros Hwf Hn HQ. destruct p as [n|]; [|by apply wp_td_free_null, HQ].
  destruct Hn as [[v Hv] Hon]. eapply wp_td_free; [done|].
  apply HQ; [|by apply (heap_wf_delete (Heap TD btd))].
  eapply (own_frame_delete _ _ (Heap TD btd)); [done|]. naive_solver.
Qed.

Lemma rwp_call_remove w c (Q : unit -> unit -> world S -> Prop) :
  (forall sys' tr', Q tt tt (w_set_sys sys' (w_set_trace tr' w))) ->
  rwp (call_remove c) (lib_remove c) Q w.
Proof.
  intros HQ. destruct w as [sl ST SG AT TD LL b tr sys].
  unfold rwp, lib_remove, lib_sys, lib_log, zoom, mbind, M_bind, modify, lib_of. simpl.
  destruct (conn_remove c sys) as [[] sys'|c' sys'| |] eqn:Hc; try done; simpl;
    apply wp_call_remove; unfold wp; rewrite Hc; [|done]. split; [done|]. apply HQ.
Qed.

Lemma rwp_call_end_client w (Q : unit -> unit -> world S -> Prop) :
  (forall sys' tr', Q tt tt (w_set_sys sys' (w_set_trace tr' w))) ->
  rwp call_end_client lib_end_client Q w.
Proof.
  intros HQ. destruct w as [sl ST SG AT TD LL b tr sys].
  unfold rwp, lib_end_client, lib_sys, lib_log, zoom, mbind, M_bind, modify, lib_of. simpl.
  destruct (end_client sys) as [[] sys'|c' sys'| |] eqn:Hc; try done; simpl;
    apply wp_call_end_client; unfold wp; rewrite Hc; [|done]. split; [done|]. apply HQ.
Qed.

Lemma wp_ll_destroy_empty sl ST SG AT TD L bl N buf tr (sys : S) k (Q : unit -> world S -> Prop) X :
  L !! k = Some (LList None None 0) ->
  Q tt (World sl ST SG AT TD (LLMem (Heap (delete k L) bl) N) buf tr sys) ->
  wp (on_ll (ll_destroy (Some k))) Q X
    (World sl ST SG AT TD (LLMem (Heap L bl) N) buf tr sys).
Proof.
  intros Hk HQ. apply wp_zoom. simpl. unfold wp, ll_destroy, on_lists, zoom, mbind, M_bind. simpl.
  unfold load. simpl. rewrite Hk. simpl. unfold free. simpl. by rewrite Hk.
Qed.

(** A state joins the list, at its head. *)
Lemma inv_add O O' w w' order l e E :
  inv O w order E -> l ∉ order -> frame l O w O' w' -> mem_wf O' w' ->
  chain (mem (w_states w')) PrevHead (w_state_list w') (l :: order) -> ep_repr O' w' l e ->
  inv O' w' (l :: order) (<[l := e]> E).
Proof.
  intros [_ Hnd Hd _ Hr] Hl Hfr Hwf Hc He. split; [done| | |done|].
  - by apply NoDup_cons.
  - intros k. rewrite lookup_insert_is_Some', (Hd k). set_solver.
  - intros k e'. rewrite lookup_insert_Some. intros [[<- <-]|[Hne Hk]]; [done|].
    eapply ep_repr_frame; [exact Hfr|done|]. by apply Hr.
Qed.

(** A state leaves the list. *)
Lemma inv_remove O O' w w' l1 l l2 E :
  inv O w (l1 ++ l :: l2) E -> frame l O w O' w' -> mem_wf O' w' ->
  chain (mem (w_states w')) PrevHead (w_state_list w') (l1 ++ l2) ->
  inv O' w' (l1 ++ l2) (delete l E).
Proof.
  intros Hi Hfr Hwf Hc. destruct Hi as [_ Hnd Hd _ Hr].
  pose proof Hnd as (Hn1 & Hdis & [Hl2 Hn2]%NoDup_cons)%NoDup_app.
  assert (Hl1 : l ∉ l1) by (intros ?; by apply (Hdis l); [|left]).
  split; [done| | |done|].
  - apply NoDup_app. split_and!; [done|set_solver|done].
  - intros k. rewrite lookup_delete_is_Some, Hd. set_solver.
  - intros k e [Hne Hk]%lookup_delete_Some. by eapply ep_repr_frame; [done| |apply Hr].
Qed.

Lemma rwp_destroy O w l1 l l2 E e (Q : unit -> option endpoint -> world S -> Prop) :
  inv O w (l1 ++ l :: l2) E -> E !! l = Some e ->
  (forall w', inv O w' (l1 ++ l2) (delete l E) -> mem (w_states w') !! l = None -> Q tt None w') ->
  rwp (ctcp_destroy l) (ep_destroy e) Q w.
Proof.
  intros Hi He HQ.
  destruct (inv_live _ _ _ _ _ _ Hi He) as (st & r & u & Hst & -> & Hs & Hr & Hn & (k & Ek & Hk & Hok)).
  destruct w as [sl [ST bst] SG AT [TD btd] [[L bl] N] buf tr sys]. simpl in *.
  pose proof (inv_nodup _ _ _ _ Hi) as Hnd. pose proof (inv_chain _ _ _ _ Hi) as Hch. simpl in Hch.
  pose proof (chain_linked _ _ _ _ _ _ Hnd Hch Hst) as Hlk.
  pose proof (unlink_self _ _ _ Hlk Hst) as Hst'.
  unfold ctcp_destroy, ep_destroy. apply rwp_code. eapply wp_st_load; [done|]. split; [done|].
  apply rwp_code, wp_repoint; [intros n [_ Hnl]%Hlk; exact Hnl|]. split; [done|].
  apply rwp_code. eapply wp_st_load; [rewrite repoint_ne; [done|]; by intros [? _]%Hlk|]. split; [done|].
  apply rwp_code. eapply wp_unlink; [done|]. split; [done|].
  set (sl' := match st_prev st with PrevHead => st_next st | _ => sl end).
  apply rwp_code. eapply wp_st_load; [done|]. split; [done|].
  apply rwp_bind, rwp_call_remove. intros sys' tr'. simpl.
  rewrite Ek. apply rwp_code. eapply wp_ll_destroy_empty; [done|]. split; [done|].
  apply rwp_code. eapply wp_nums_free; [apply Hi|done|]. intros TD' Hftd Hwftd. split; [done|].
  apply rwp_code. eapply wp_st_free; [done|]. split; [done|].
  apply rwp_bind_last, rwp_call_end_client. intros sys'' tr''. simpl. apply rwp_ret.
  apply HQ; [|apply lookup_delete_eq].
  eapply inv_remove; [exact Hi| | |by eapply chain_unlink].
  - split; simpl; auto with ctcp.
    + intros j Hj. rewrite lookup_delete_ne by done. apply unlink_body.
    + eapply (own_frame_delete _ _ (Heap L bl)); [done|]. naive_solver.
  - destruct Hi as [[]]. split; simpl in *; auto with ctcp.
    + intros j [v Hjv]. simpl in *. apply lookup_delete_Some in Hjv as [Hj Hv].
      pose proof (unlink_body st ST j) as Hb. rewrite Hv in Hb.
      destruct (ST !! j) eqn:HSTj; [|done]. eauto.
    + by apply (heap_wf_delete (Heap L bl)).
Qed.

Lemma wp_ll_create sl ST SG AT TD L bl N buf tr (sys : S) (Q : ptr -> world S -> Prop) X :
  Q (Some bl) (World sl ST SG AT TD
    (LLMem (Heap (<[bl := LList None None 0]> L) (Pos.succ bl)) N) buf tr sys) ->
  wp (on_ll ll_create) Q X (World sl ST SG AT TD (LLMem (Heap L bl) N) buf tr sys).
Proof.
  intros HQ. apply wp_zoom. simpl.
  eapply wp_Done; [apply ll_create_run|]. exact HQ.
Qed.

(** The state of a new connection goes to the front of the list. *)
Lemma wp_init O w order E c cfg (Q : ptr -> world S -> Prop) X :
  inv O w order E ->
  (forall l O' w', lib_of w' = lib_of w -> l ∉ order ->
     inv O' w' (l :: order) (<[l := ep_init (Some c) cfg]> E) -> keep O w O' w' ->
     Q (Some l) w') ->
  wp (ctcp_init (Some c) cfg) Q X w.
Proof.
  intros Hi HQ. destruct w as [sl [ST bst] SG AT TD [[L bl] N] buf tr sys].
  pose proof (inv_wf _ _ _ _ Hi) as [H1 H2 H3 H4 H5 H6 H7 H8 H9]. simpl in *.
  assert (Hfresh : ST !! bst = None) by exact (heap_wf_fresh _ H1).
  pose proof (inv_chain _ _ _ _ Hi) as Hch. simpl in Hch.
  assert (Hnew : bst ∉ order).
  { intros Hin. destruct (chain_live _ _ _ _ bst Hch Hin) as [st Hst]. congruence. }
  pose proof (chain_ptr _ _ _ _ Hch) as Hsl.
  assert (Hne : sl <> Some bst) by (rewrite Hsl; destruct order; [done|set_solver]).
  unfold ctcp_init. do 9 ctcp_step. eapply wp_repoint.
  { intros n ->. rewrite lookup_insert_ne by congruence. eapply chain_live; [exact Hch|].
    destruct order; [done|]. injection Hsl as ->. set_solver. }
  rewrite repoint_insert by done. set (ST1 := repoint (PrevNext bst) sl ST).
  assert (Hb1 : forall k, body <$> (ST1 !! k) = body <$> (ST !! k)) by (intros; apply repoint_body).
  do 21 ctcp_step. apply wp_ll_create. ctcp_steps.
  set (O' := Owners (o_seg O) (o_attr O) (o_nums O) (<[bl := bst]> (o_list O))).
  apply (HQ bst O'); [done|done| |done]. eapply inv_add; [exact Hi|done|..].
  - split; simpl; auto with ctcp.
    + intros k Hk. rewrite lookup_insert_ne by done. apply Hb1.
    + by apply (own_frame_alloc _ _ (Heap L bl)).
  - split; simpl; auto with ctcp.
    + intros k [v Hkv]. simpl in *. apply lookup_insert_Some in Hkv as [[<- _]|[_ Hkv]]; [lia|].
      pose proof (Hb1 k) as Hb. rewrite Hkv in Hb. destruct (ST !! k) eqn:Hk; [|done].
      pose proof (H1 k (mk_is_Some _ _ Hk)). simpl in *. lia.
    + by apply (heap_wf_calloc (Heap L bl)).
    + by apply (below_alloc _ (Heap L bl)).
  - simpl. split; [done|]. eexists. rewrite lookup_insert_eq. split_and!; [done..|]. simpl.
    eapply (chain_ext ST1); [|eapply chain_repoint; [apply Hi|exact Hch]].
    intros k Hk. rewrite lookup_insert_ne; [done|]. by intros ->.
  - eexists _, RecvNone, None. simpl. rewrite lookup_insert_eq. split_and!; [done..|].
    exists bl. simpl. by rewrite !lookup_insert_eq.
Qed.
End Lifecycle.
