(* ===== verification/CtcpRefine.v ===== *)
(** * The entry points of [src/ctcp.c] implement the abstract endpoint

    From any memory that represents a set of endpoints, each entry point of the
    C program makes exactly the calls to the library that [CtcpSpec.v] says,
    touches no memory it must not, and leaves a memory that represents the next
    endpoint, the other connections being as they were. *)

From S2P Require Import Prelude Heap Words Cksum LinkedList Segment ConnLib Ctcp CtcpSpec.
From S2P Require Import CtcpSteps CtcpInv.

Section Refine.
Context {S : Type} `{!ConnLib S}.
Implicit Types (w : world S) (O : owners) (E : gmap loc endpoint) (e : endpoint).

(** The memory represents the endpoints [E], in the order of [state_list]. *)
Definition represents w (order : list loc) E : Prop := exists O, inv O w order E.

(** The endpoint at [l] becomes [r], [None] when it was destroyed: its state is
    freed and no longer on the list. *)
Definition becomes (order : list loc) E (l : loc) (r : option endpoint) w' : Prop :=
  match r with
  | Some e => represents w' order (<[l := e]> E)
  | None => mem (w_states w') !! l = None /\
      exists l1 l2, order = l1 ++ l :: l2 /\ represents w' (l1 ++ l2) (delete l E)
  end.

Lemma inv_set_buffer O w order E b : inv O w order E -> inv O (w_set_buffer_out b w) order E.
Proof. destruct w. apply inv_lib. Qed.

Lemma becomes_some O w order E E' l e :
  inv O w order E' -> E' = <[l := e]> E -> becomes order E l (Some e) w.
Proof. intros Hi ->. by exists O. Qed.

Lemma rwp_destroy_becomes O w order E E' l e (Q : unit -> option endpoint -> world S -> Prop) :
  inv O w order E' -> E' !! l = Some e -> delete l E' = delete l E ->
  (forall w', becomes order E l None w' -> Q tt None w') ->
  rwp (ctcp_destroy l) (ep_destroy e) Q w.
Proof.
  intros Hi He Hd HQ. assert (l ∈ order) as (l1 & l2 & ->)%elem_of_split.
  { apply (inv_dom _ _ _ _ Hi). eauto. }
  eapply rwp_destroy; [done|done|]. intros w' Hw' Hf. apply HQ. split; [done|]. exists l1, l2. split; [done|].
  exists O. by rewrite <- Hd.
Qed.

Lemma refine_read w order E l e :
  represents w order E -> E !! l = Some e ->
  rwp (ctcp_read l) (ep_read e) (fun _ e' w' => becomes order E l (Some e') w') w.
Proof.
  intros (O & Hi) He. unfold ctcp_read, ep_read.
  apply rwp_code, wp_modify. split; [by destruct w|].
  apply (inv_set_buffer _ _ _ _ (replicate (Z.to_nat MAX_BUFF_SIZE) Byte.x00)) in Hi.
  remember (w_set_buffer_out _ w) as w1 eqn:Hw1.
  apply rwp_code. eapply wp_state; [done|done|]. intros st r u Hst -> Hs Hr. split; [done|].
  simpl. destruct u as [u|].
  - destruct Hs as (a & s & -> & _). apply rwp_ret. exists O. by rewrite insert_id.
  - simpl in Hs. rewrite Hs. apply rwp_code, wp_gets. split; [done|].
    replace (w_buffer_out w1) with (replicate (Z.to_nat MAX_BUFF_SIZE) Byte.x00) by by subst w1.
    apply rwp_bind. eapply rwp_call_input; [done|]. intros [n buf] w2 Hi2 _ _.
    apply rwp_code, wp_modify. split; [by destruct w2|].
    apply (inv_set_buffer _ _ _ _ buf) in Hi2. remember (w_set_buffer_out buf w2) as w3 eqn:Hw3.
    destruct (bool_decide_reflect (n = -1)) as [->|Hn].
    + rewrite bool_decide_true by done. apply rwp_bind.
      eapply rwp_send; [done|done|done|done|]. intros n e' O' w' Hi' _ _ _.
      destruct (n <? 0); [apply rwp_ret; by eexists|].
      apply rwp_code_last. eapply (wp_scalar _ _ _ _ _ _ _ _ _ _ (scalar_conn_state TEAR_DOWN));
        [done|apply lookup_insert_eq|].
      intros w4 Hl4 Hi4 _ _ _. split; [done|]. exists O'. by rewrite insert_insert_eq in Hi4.
    + apply rwp_access. intros [[H1%Z.leb_le H2%Z.leb_le]%andb_true_iff H3%Z.leb_le]%andb_true_iff.
      unfold MAX_BUFF_SIZE, MAX_SEG_DATA_SIZE in *.
      assert (Hu : u32 n = n) by (apply u32_small; lia).
      rewrite bool_decide_false by (rewrite Hu; change (u32 (-1)) with 4294967295; lia).
      rewrite Hu. apply rwp_code, wp_gets. split; [done|].
      replace (i32 (u32 (n + SEGMENT_HDR_SIZE))) with (SEGMENT_HDR_SIZE + n).
      2: { unfold SEGMENT_HDR_SIZE. rewrite u32_small, i32_small by lia. lia. }
      replace (w_buffer_out w3) with buf by by subst w3; destruct w2.
      apply rwp_bind. eapply rwp_send; [done|done|unfold SEGMENT_HDR_SIZE, MAX_SEG_DATA_SIZE; lia
        |unfold SEGMENT_HDR_SIZE; lia|]. intros m e' O' w' Hi' _ _ _. apply rwp_ret. by eexists.
Qed.

Lemma wp_segment O w order E s seg (Q : ctcp_segment -> world S -> Prop) X :
  inv O w order E -> mem (w_segments w) !! s = Some seg -> Q seg w ->
  wp (on_segments (load s)) Q X w.
Proof. intros _ Hs HQ. destruct w as [sl ST [SG bsg] AT TD LL buf tr sys]. by eapply wp_sg_load. Qed.

(** An acknowledgement or a FIN, sent whatever comes of it. *)
Lemma rwp_send_ O w order E l e flags {A B} (m : M (world S) A) (k : endpoint -> M (lib S) B) Q :
  inv O w order E -> E !! l = Some e ->
  (forall e' O' w', inv O' w' order (<[l := e']> E) -> keep O w O' w' ->
     ep_received e' = ep_received e -> received_of w' l = received_of w l -> rwp m (k e') Q w') ->
  rwp (_segment_send l flags SEGMENT_HDR_SIZE [];; m) (ep_send_ flags e ≫= k) Q w.
Proof.
  intros Hi He HQ. unfold ep_send_. apply rwp_spec_assoc, rwp_bind.
  eapply rwp_send; [done|done|done|done|]. intros n e' O' w' Hi' Hk Hr Hro.
  apply rwp_spec. eauto.
Qed.

Lemma refine_output w order E l e :
  represents w order E -> E !! l = Some e ->
  rwp (ctcp_output l) (ep_output e) (fun _ r w' => becomes order E l r w') w.
Proof.
  intros (O & Hi) He. unfold ctcp_output, ep_output.
  destruct (ep_received e) as [|seg|] eqn:Hre; [done| |done].
  apply rwp_code. eapply wp_state; [done|done|]. intros st r u Hst -> Hs Hr. split; [done|].
  simpl in Hre. subst r. destruct Hr as (s & Es & Hseg & Hos).
  assert (Hro : received_of w l = Some (Some s)) by (unfold received_of; by rewrite Hst, <- Es).
  rewrite Es. apply rwp_code. eapply wp_deref; [done|]. split; [done|].
  apply rwp_code. eapply wp_segment; [done|done|]. split; [done|].
  apply rwp_bind. eapply rwp_bufspace; [done|]. intros space w1 Hi1 Hst1 Hsg1.
  assert (Hro1 : received_of w1 l = Some (Some s)) by (unfold received_of in *; by rewrite Hst1).
  set (e := ep_of st (RecvKept seg) u) in *.
  destruct (bool_decide (u32 space = 0)).
  - apply rwp_code_last. eapply wp_free_received; [done|done|done|done|].
    intros w2 Hl2 Hi2. split; [done|]. by eapply becomes_some.
  - destruct (u32 space >=? _); [|apply rwp_ret; eapply becomes_some; [done|by rewrite insert_id]].
    destruct (bool_decide (u32 _ = 0)).
    + apply rwp_code. eapply wp_scalar; [apply scalar_ackno|done|done|].
      intros w2 Hl2 Hi2 _ _ Hro2. split; [done|]. rewrite Hro1 in Hro2.
      apply rwp_code. eapply wp_destroy_acked; [done|apply lookup_insert_eq|].
      intros w3 Hl3 Hi3 _ _ Hro3. split; [done|]. rewrite Hro2 in Hro3.
      rewrite insert_insert_eq in Hi3.
      apply rwp_code_last. eapply wp_free_received; [done|apply lookup_insert_eq|done|done|].
      intros w4 Hl4 Hi4. split; [done|]. eapply becomes_some; [done|].
      by rewrite insert_insert_eq.
    + apply rwp_bind. eapply rwp_call_output; [done|]. intros r w2 Hi2 Hst2 Hsg2.
      assert (Hro2 : received_of w2 l = Some (Some s))
        by (unfold received_of in *; by rewrite Hst2).
      destruct (r <? 0); [eapply rwp_destroy_becomes; [done|done|done|auto]|].
      apply rwp_code. eapply wp_scalar; [apply scalar_ackno|done|done|].
      intros w3 Hl3 Hi3 _ _ Hro3. split; [done|]. rewrite Hro2 in Hro3.
      eapply rwp_send_; [done|apply lookup_insert_eq|].
      intros e' O' w4 Hi4 _ Hre4 Hro4. rewrite insert_insert_eq in Hi4. rewrite Hro3 in Hro4.
      apply rwp_code. eapply wp_destroy_acked; [done|apply lookup_insert_eq|].
      intros w5 Hl5 Hi5 _ _ Hro5. split; [done|]. rewrite Hro4 in Hro5.
      rewrite insert_insert_eq in Hi5.
      apply rwp_code_last. eapply wp_free_received; [done|apply lookup_insert_eq|exact Hre4|done|].
      intros w6 Hl6 Hi6. split; [done|]. eapply becomes_some; [done|].
      by rewrite insert_insert_eq.
Qed.

(** The library hands the segment [seg], at [s], over to [ctcp_receive]. *)
Definition handed w order E (s : loc) (seg : ctcp_segment) : Prop :=
  exists O, inv O w order E /\ o_seg O !! s = None /\ mem (w_segments w) !! s = Some seg.

(** [calloc] of the segment that has arrived. *)
Lemma wp_calloc_segment w order E seg (Q : loc -> world S -> Prop) X :
  represents w order E ->
  (forall g w', lib_of w' = lib_of w -> handed w' order E g seg -> represents w' order E -> Q g w') ->
  wp (on_segments (calloc seg)) Q X w.
Proof.
  intros (O & Hi) HQ. destruct w as [sl ST [SG bsg] AT TD LL buf tr sys].
  apply wp_zoom, wp_calloc. cbn [w_segments mem brk w_set_segments].
  destruct (inv_alloc_segment _ _ _ _ _ _ _ _ _ _ _ seg _ _ Hi) as (Hi' & _ & Ho).
  apply HQ; [done| |by exists O]. exists O. split_and!; [done|done|].
  simpl. by rewrite lookup_insert_eq.
Qed.

Lemma refine_data_transfer w order E l e s seg :
  handed w order E s seg -> E !! l = Some e ->
  rwp (receive_data_transfer l s) (ep_data_transfer seg e)
    (fun _ r w' => becomes order E l r w') w.
Proof.
  intros (O & Hi & Ho & Hseg) He. unfold receive_data_transfer, ep_data_transfer.
  apply rwp_code. eapply wp_state; [done|done|]. intros st r u Hst He' Hs Hr. split; [done|].
  replace (st_ackno st) with (ep_ackno e) by by subst e.
  replace (st_conn st) with (ep_conn e) by by subst e. clear st r u Hst He' Hs Hr.
  apply rwp_code. eapply wp_segment; [done|done|]. split; [done|].
  destruct (_ <? _); [apply rwp_ret; exists O; by rewrite insert_id|].
  destruct (has_flag _ FIN).
  - apply rwp_bind. eapply rwp_call_output; [done|]. intros r w1 Hi1 Hst1 Hsg1.
    apply rwp_code. eapply wp_scalar; [apply scalar_ackno|done|done|].
    intros w2 Hl2 Hi2 _ _ _. split; [done|].
    eapply rwp_send_; [done|apply lookup_insert_eq|]. intros e3 O3 w3 Hi3 _ _ _.
    rewrite insert_insert_eq in Hi3.
    eapply rwp_send_; [done|apply lookup_insert_eq|]. intros e4 O4 w4 Hi4 _ _ _.
    rewrite insert_insert_eq in Hi4.
    apply rwp_code_last. eapply wp_scalar; [apply scalar_conn_state|done|apply lookup_insert_eq|].
    intros w5 Hl5 Hi5 _ _ _. split; [done|]. eapply becomes_some; [done|]. by rewrite insert_insert_eq.
  - destruct (has_flag _ ACK); [|apply rwp_ret; exists O; by rewrite insert_id].
    destruct (bool_decide (seg_len seg = SEGMENT_HDR_SIZE)).
    + apply rwp_code. eapply wp_scalar; [apply scalar_ackno|done|done|].
      intros w2 Hl2 Hi2 Hsg2 _ _. split; [done|]. rewrite <- Hsg2 in Hseg.
      apply rwp_code. eapply wp_destroy_acked; [done|apply lookup_insert_eq|].
      intros w3 Hl3 Hi3 Hk3 _ _. split; [done|]. rewrite insert_insert_eq in Hi3.
      destruct (Hk3 _ _ Ho Hseg) as [Ho3 Hseg3].
      apply rwp_code_last. eapply wp_free_handed; [done|done|done|].
      intros w4 Hl4 Hi4. split; [done|]. by eapply becomes_some.
    + apply rwp_code. eapply wp_set_received; [done|done|done|done|].
      intros O' w2 Hl2 Hi2 _. split; [done|].
      eapply rwp_mono; [eapply refine_output; [by exists O'|apply lookup_insert_eq]|].
      intros x r w3 Hb. destruct r as [e3|]; simpl in *; [by rewrite insert_insert_eq in Hb|].
      destruct Hb as (Hf & l1 & l2 & -> & Hb). split; [done|]. exists l1, l2. by rewrite delete_insert_eq in Hb.
Qed.

Lemma represents_same w order E l e :
  represents w order E -> E !! l = Some e -> becomes order E l (Some e) w.
Proof. intros [O Hi] He. exists O. by rewrite insert_id. Qed.

Lemma refine_wait_last_fin w order E l e s seg :
  handed w order E s seg -> E !! l = Some e ->
  rwp (receive_wait_last_fin l s) (ep_wait_last_fin seg e)
    (fun _ r w' => becomes order E l r w') w.
Proof.
  intros (O & Hi & Ho & Hseg) He. unfold receive_wait_last_fin, ep_wait_last_fin.
  apply rwp_code. eapply wp_segment; [done|done|]. split; [done|]. unfold when.
  destruct (has_flag _ FIN); [|apply rwp_ret; by eapply represents_same; [eexists|]].
  apply rwp_code. eapply wp_scalar; [apply scalar_ackno|done|done|].
  intros w2 Hl2 Hi2 _ _ _. split; [done|].
  eapply rwp_send_; [done|apply lookup_insert_eq|]. intros e3 O3 w3 Hi3 _ _ _.
  rewrite insert_insert_eq in Hi3.
  apply rwp_code. eapply (wp_scalar (st_set_tim 0)
    (fun e => ep_with_td (ep_td e) 0 e)); [done|done|apply lookup_insert_eq|].
  intros w4 Hl4 Hi4 _ _ _. split; [done|]. rewrite insert_insert_eq in Hi4.
  apply rwp_code_last. eapply (wp_scalar (st_set_td_state WAIT_DESTROY)
    (fun e => ep_with_td WAIT_DESTROY (ep_tim e) e)); [done|done|apply lookup_insert_eq|].
  intros w5 Hl5 Hi5 _ _ _. split; [done|]. eapply becomes_some; [done|]. by rewrite insert_insert_eq.
Qed.

Lemma refine_wait_last_ack w order E l e s seg :
  handed w order E s seg -> E !! l = Some e ->
  rwp (receive_wait_last_ack l s) (ep_wait_last_ack seg e)
    (fun _ r w' => becomes order E l r w') w.
Proof.
  intros (O & Hi & Ho & Hseg) He. unfold receive_wait_last_ack, ep_wait_last_ack.
  apply rwp_code. eapply wp_segment; [done|done|]. split; [done|]. unfold when.
  destruct (has_flag _ ACK); [|apply rwp_ret; by eapply represents_same; [eexists|]].
  eapply rwp_destroy_becomes; [done|done|done|auto].
Qed.

Lemma refine_tear_down w order E l e s seg :
  handed w order E s seg -> E !! l = Some e ->
  rwp (receive_tear_down l s) (ep_tear_down seg e) (fun _ r w' => becomes order E l r w') w.
Proof.
  intros (O & Hi & Ho & Hseg) He. unfold receive_tear_down, ep_tear_down.
  apply rwp_code. eapply wp_segment; [done|done|]. split; [done|].
  destruct (has_flag _ ACK).
  - destruct (has_flag _ FIN); apply rwp_code_last;
      (eapply wp_scalar; [apply scalar_conn_state|done|done|]); intros w2 Hl2 Hi2 _ _ _;
      (split; [done|]); by eapply becomes_some.
  - destruct (has_flag _ FIN) eqn:Hf.
    + apply rwp_code. eapply wp_scalar; [apply scalar_ackno|done|done|].
      intros w2 Hl2 Hi2 _ _ _. split; [done|].
      eapply rwp_send_; [done|apply lookup_insert_eq|]. intros e3 O3 w3 Hi3 _ _ _.
      rewrite insert_insert_eq in Hi3.
      eapply rwp_destroy_becomes; [done|apply lookup_insert_eq|by rewrite delete_insert_eq|auto].
    + unfold receive_wait_last_fin. apply rwp_code. eapply wp_segment; [done|done|].
      split; [done|]. rewrite Hf. apply rwp_ret. by eapply represents_same; [eexists|].
Qed.

Lemma refine_receive w order E l e s seg len :
  handed w order E s seg -> E !! l = Some e ->
  arrived seg len ->
  rwp (ctcp_receive l s len) (ep_receive seg len e) (fun _ r w' => becomes order E l r w') w.
Proof.
  intros (O & Hi & Ho & Hseg) He Hlen. unfold ctcp_receive, ep_receive.
  apply rwp_code. eapply wp_segment; [done|done|]. split; [done|].
  apply rwp_code. eapply wp_Done; [apply is_segment_valid_run; unfold arrived; by rewrite u16_idemp|].
  split; [done|].
  apply rwp_code. eapply wp_store_handed; [done|done|done|]. intros w1 Hl1 Hi1 Hs1.
  split; [done|]. destruct (segment_valid seg (u16 len)) eqn:Hv; simpl.
  2: { apply rwp_ret. by eapply represents_same; [eexists|]. }
  apply andb_true_iff in Hv as [Hv _]. rewrite Hv in Hs1.
  apply rwp_code. eapply wp_update_handed; [done|done|done|]. intros w2 Hl2 Hi2 Hs2.
  split; [done|].
  apply rwp_code. eapply wp_state; [done|done|]. intros st r u Hst He' _ _. split; [done|].
  replace (st_conn_state st) with (ep_phase e) by by subst e. clear st r u Hst He'.
  assert (handed w2 order E s (_segment_ntoh (set_cksum 0 seg))) by (by exists O).
  unfold ep_handle. destruct (ep_phase e).
  - apply rwp_ret. by eapply represents_same; [eexists|].
  - by apply refine_data_transfer.
  - by apply refine_tear_down.
  - by apply refine_wait_last_ack.
  - by apply refine_wait_last_fin.
Qed.

(** The attributes of the segment sent. *)
Lemma wp_attr_load O w order E l e a u (Q : segment_attr -> world S -> Prop) X :
  inv O w order E -> E !! l = Some e -> ep_unacked e = Some u -> sent_of w l = Some (Some a) ->
  (forall s, mem (w_segments w) !! s = Some (un_segment u) ->
     Q (SegmentAttr (un_times u) (un_time u) (Some s)) w) ->
  wp (on_attrs (load a)) Q X w.
Proof.
  intros Hi He Hu Ha HQ. destruct (inv_live _ _ _ _ _ _ Hi He) as (st & r & u' & Hst & -> & Hs & _).
  simpl in Hu. subst u'. destruct Hs as (a' & s & Ea & Hat & Hsg & _).
  unfold sent_of in Ha. rewrite Hst in Ha. simpl in Ha. assert (a' = a) as -> by congruence.
  destruct w as [sl ST SG [AT bat] TD LL buf tr sys]. eapply wp_at_load; [done|]. by apply HQ.
Qed.

Lemma wp_attr_update O w order E l e a u f n t (Q : unit -> world S -> Prop) X :
  inv O w order E -> E !! l = Some e -> ep_unacked e = Some u -> sent_of w l = Some (Some a) ->
  (forall p, f (SegmentAttr (un_times u) (un_time u) p) = SegmentAttr n t p) ->
  (forall w', lib_of w' = lib_of w -> sent_of w' l = Some (Some a) ->
     inv O w' order (<[l := ep_with_unacked (Some (Unacked (un_segment u) n t)) e]> E) ->
     Q tt w') ->
  wp (on_attrs (update a f)) Q X w.
Proof.
  intros Hi He Hu Ha Hf HQ.
  destruct (inv_live _ _ _ _ _ _ Hi He) as (st & r & u' & Hst & -> & Hs & Hr & Hn & Hl).
  simpl in Hu. subst u'. destruct Hs as (a' & s & Ea & Hat & Hsg & Hoa & Hos).
  unfold sent_of in Ha. rewrite Hst in Ha. simpl in Ha. assert (a' = a) as -> by congruence.
  destruct w as [sl [ST bst] SG [AT bat] TD LL buf tr sys]. simpl in *.
  eapply wp_at_update; [done|]. rewrite Hf.
  apply HQ; [done|unfold sent_of; simpl; by rewrite Hst|].
  eapply inv_step; [done|done| | |done|done|].
  - split; simpl; auto with ctcp. eapply (own_frame_update _ _ (Heap AT bat)); [done|]. naive_solver.
  - destruct Hi as [[]]. split; simpl in *; auto with ctcp.
    apply (heap_wf_insert (Heap AT bat)); [done|]. simpl. eauto.
  - exists st, r, (Some (Unacked (un_segment u) n t)). simpl. split_and!; [done|done| |done..].
    exists a, s. simpl. by rewrite lookup_insert_eq.
Qed.

Lemma refine_retransmit w order E l e a u :
  represents w order E -> E !! l = Some e -> ep_unacked e = Some u -> sent_of w l = Some (Some a) ->
  rwp (retransmit l a) (ep_retransmit u e) (fun _ e' w' => becomes order E l (Some e') w') w.
Proof.
  intros (O & Hi) He Hu Ha. unfold retransmit, ep_retransmit.
  apply rwp_code. eapply wp_state; [done|done|]. intros st r u' Hst He' _ _. split; [done|].
  replace (st_timer st) with (ep_timer e) by by subst e.
  replace (st_rt_timeout st) with (ep_rt_timeout e) by by subst e.
  replace (st_conn st) with (ep_conn e) by by subst e. clear st r u' Hst He'.
  apply rwp_code.
  eapply (wp_attr_update _ _ _ _ _ _ _ _ _ (un_times u) (u16 (un_time u + ep_timer e)));
    [done..|]. intros w1 Hl1 Ha1 Hi1. split; [done|].
  set (e1 := ep_with_unacked _ e) in *.
  apply rwp_code. eapply wp_attr_load; [done|apply lookup_insert_eq|done|done|].
  intros s Hseg. split; [done|]. simpl. unfold when.
  destruct (_ >=? _); [|apply rwp_ret; by eapply becomes_some].
  apply rwp_code, wp_ret. split; [done|].
  apply rwp_code. eapply wp_segment; [done|done|]. split; [done|].
  apply rwp_bind. eapply rwp_call_send; [done|]. intros n w2 Hi2 Hst2 Hsg2 Hat2.
  assert (Ha2 : sent_of w2 l = Some (Some a)) by (unfold sent_of in *; by rewrite Hst2).
  apply rwp_code.
  eapply (wp_attr_update _ _ _ _ _ _ _ _ _ (u16 (un_times u + 1)) (u16 (un_time u + ep_timer e)));
    [done|apply lookup_insert_eq|done|done|done|]. intros w3 Hl3 Ha3 Hi3. split; [done|].
  rewrite insert_insert_eq in Hi3.
  apply rwp_code. eapply wp_attr_load; [done|apply lookup_insert_eq|done|done|].
  intros s' _. split; [done|]. simpl. destruct (_ >=? 5).
  - apply rwp_code_last. eapply wp_destroy_acked; [done|apply lookup_insert_eq|].
    intros w4 Hl4 Hi4 _ _ _. split; [done|]. eapply becomes_some; [done|].
    by rewrite insert_insert_eq.
  - apply rwp_ret. by eapply becomes_some.
Qed.

Lemma becomes_insert w order E l e r :
  becomes order (<[l := e]> E) l r w -> becomes order E l r w.
Proof.
  destruct r as [e'|]; simpl; [by rewrite insert_insert_eq|].
  intros (Hf & l1 & l2 & -> & Hr). split; [done|]. exists l1, l2. by rewrite delete_insert_eq in Hr.
Qed.

Lemma refine_timer w order E l e :
  represents w order E -> E !! l = Some e ->
  rwp (retransmission_handler l) (ep_tick e) (fun _ r w' => becomes order E l r w') w.
Proof.
  intros (O & Hi) He. unfold retransmission_handler, ep_tick.
  apply rwp_code. eapply wp_state; [done|done|]. intros st r u Hst He' Hs _. split; [done|].
  replace (st_td_state st) with (ep_td e) by by subst e.
  assert (Hrest : forall O' w' e', inv O' w' order (<[l := e']> E) -> sent_of w' l = sent_of w l ->
    ep_unacked e' = u ->
    rwp (match st_sent_segment_attr st with None => mret tt | Some attr => retransmit l attr end)
      (ep_resend e' ≫= fun e => mret (Some e)) (fun _ r w' => becomes order E l r w') w').
  { intros O' w' e' Hi' Hse Hu. unfold ep_resend. rewrite Hu. destruct u as [u|].
    - destruct Hs as (a & s & Ea & _). rewrite Ea. apply rwp_bind_last.
      eapply rwp_mono; [eapply (refine_retransmit _ order (<[l := e']> E));
        [by eexists|apply lookup_insert_eq|done|]|].
      + rewrite Hse. unfold sent_of. by rewrite Hst, <- Ea.
      + intros [] e2 w2 Hb. apply rwp_ret. by eapply becomes_insert in Hb.
    - simpl in Hs. rewrite Hs. apply rwp_ret. by exists O'. }
  assert (Hu : ep_unacked e = u) by by subst e.
  destruct (ep_td e) eqn:Htd.
  - eapply Hrest; [by rewrite insert_id|done|done].
  - apply rwp_code. eapply (wp_scalar (fun st => st_set_tim (u16 (st_tim st + st_timer st)) st)
      (fun e => ep_with_td (ep_td e) (u16 (ep_tim e + ep_timer e)) e)); [done|done|done|].
    intros w1 Hl1 Hi1 _ [_ Hse1] _. split; [done|]. rewrite Htd in Hi1.
    apply rwp_code. eapply wp_state; [done|apply lookup_insert_eq|].
    intros st1 r1 u1 Hst1 He1 Hs1 _. split; [done|].
    replace (st_tim st1) with (u16 (ep_tim e + ep_timer e)) by by injection He1.
    replace (st_rt_timeout st1) with (ep_rt_timeout e) by by injection He1.
    change (ep_rt_timeout (ep_with_td _ _ e)) with (ep_rt_timeout e).
    destruct (_ >=? _); [|by eapply Hrest].
    eapply rwp_destroy_becomes; [done|apply lookup_insert_eq|by rewrite delete_insert_eq|auto].
  - eapply Hrest; [by rewrite insert_id|done|done].
Qed.

(** [ctcp_destroy] called by the library. *)
Lemma refine_destroy w order E l e :
  represents w order E -> E !! l = Some e ->
  rwp (ctcp_destroy l) (ep_destroy e) (fun _ r w' => becomes order E l None w' /\ r = None) w.
Proof. intros (O & Hi) He. eapply rwp_destroy_becomes; [done|done|done|auto]. Qed.

(** A new connection, which goes to the front of the list. *)
Lemma refine_init w order E c cfg :
  represents w order E ->
  wp (ctcp_init (Some c) cfg)
    (fun p w' => exists l, p = Some l /\ (l ∉ order) /\ lib_of w' = lib_of w /\
       represents w' (l :: order) (<[l := ep_init (Some c) cfg]> E))
    (fun _ => False) w.
Proof.
  intros (O & Hi). eapply wp_init; [done|]. intros l O' w' Hl Hn Hi' _.
  exists l. split_and!; [done..|by exists O'].
Qed.

Lemma init_null cfg w : ctcp_init None cfg w = Done None w.
Proof. done. Qed.
End Refine.
