(* ===== verification/Script.v ===== *)
(** * A library that follows a script, and a memory with one connection

    An instance of the interface of [ConnLib.v] that keeps its contract: what
    is read, what becomes of the segments sent and the room for output are
    given in advance. With [one_world], the memory of [ctcp.c] with one
    connection in a given condition, it is what the properties of [ctcp.c] are
    tried on. *)

From S2P Require Import Prelude Heap Words Cksum LinkedList Segment ConnLib Ctcp CtcpSpec.
From S2P Require Import CtcpSteps CtcpInv CtcpRefine.

Record script := Script {
  sc_inputs : list (option (list byte));  (** [None]: end of file *)
  sc_sends : list bool;                   (** whether sending fails; then never *)
  sc_space : Z;
  sc_removed : list ptr;
}.

Definition sc_set_inputs v s := Script v (sc_sends s) (sc_space s) (sc_removed s).
Definition sc_set_sends v s := Script (sc_inputs s) v (sc_space s) (sc_removed s).

(** The functions of the library assert that the connection is open. *)
Definition assert_open (c : ptr) : M script unit :=
  r ← gets sc_removed; assert_c (negb (bool_decide (c ∈ r))).

#[export] Instance script_lib : ConnLib script := {|
  conn_input c buf len :=
    assert_open c;;
    b ← deref buf;
    i ← gets sc_inputs;
    match i with
    | [] => mret (0, b)
    | None :: i => modify (sc_set_inputs i);; mret (-1, b)
    | Some bs :: i =>
        modify (sc_set_inputs i);;
        let bs := take (Z.to_nat len) bs in
        mret (Z.of_nat (length bs), bs ++ drop (length bs) b)
    end;
  conn_send c seg len :=
    assert_open c;;
    i ← gets sc_sends;
    match i with
    | [] => mret len
    | fails :: i => modify (sc_set_sends i);; mret (if fails : bool then -1 else len)
    end;
  conn_output c buf len := assert_open c;; mret len;
  conn_bufspace c := gets sc_space;
  conn_remove c := modify (fun s => Script (sc_inputs s) (sc_sends s) (sc_space s) (c :: sc_removed s));
  end_client := mret tt;
|}.

#[export] Program Instance script_laws : ConnLaws script := {|
  lib_inv s := 0 <= sc_space s <= MAX_BUF_SPACE;
  conn_open s c := c ∉ sc_removed s;
  end_returns s := True;
|}.
Next Obligation.
  intros c buf s Hi Ho Hb. simpl. unfold assert_open. wp_steps.
  rewrite bool_decide_false by done. simpl. wp_steps.
  destruct (sc_inputs s) as [|[bs|] i]; wp_steps; simpl;
    unfold MAX_SEG_DATA_SIZE, MAX_BUF_SPACE in *; (split_and!; [lia|lia|by auto| |]).
  - done.
  - right. lia.
  - rewrite length_app, length_drop, !length_take. lia.
  - right. rewrite length_take. lia.
  - done.
  - by left.
Qed.
Next Obligation.
  intros c seg len s Hi Ho _ _. simpl. unfold assert_open. wp_steps.
  rewrite bool_decide_false by done. simpl. wp_steps. destruct (sc_sends s); wp_steps; auto.
Qed.
Next Obligation.
  intros c buf len s Hi Ho Hl Hmax. simpl. unfold assert_open. wp_steps.
  rewrite bool_decide_false by done. simpl. wp_steps. auto 10.
Qed.
Next Obligation. intros c s Hi Ho. by exists (sc_space s). Qed.
Next Obligation. intros c s Hi Ho. simpl. wp_steps. split; [done|]. simpl. set_solver. Qed.
Next Obligation. intros s Hi. simpl. wp_steps. auto. Qed.

(** ** A memory with one connection

    The state of the endpoint [e], at 1, and the segment [seg], at 2, that the
    library is about to hand over. *)
Section OneWorld.
Context {S : Type} (e : endpoint) (seg : ctcp_segment) (sys : S).

Definition one_state : ctcp_state :=
  CtcpState None PrevHead (ep_conn e) (Some 1%positive) (ep_phase e) (ep_seqno e) (ep_ackno e)
    (match ep_received e with RecvNone => None | _ => Some 3%positive end)
    (match ep_unacked e with None => None | Some _ => Some 1%positive end)
    (ep_td e) (ep_tim e) (ep_timer e) (ep_rt_timeout e) None.

Definition one_segments : gmap loc ctcp_segment :=
  let m := {[2%positive := seg]} in
  let m := match ep_unacked e with Some u => <[1%positive := un_segment u]> m | None => m end in
  match ep_received e with RecvKept s => <[3%positive := s]> m | _ => m end.

Definition one_attrs : gmap loc segment_attr :=
  match ep_unacked e with
  | Some u => {[1%positive := SegmentAttr (un_times u) (un_time u) (Some 1%positive)]}
  | None => ∅
  end.

Definition one_world : world S :=
  World (Some 1%positive) (Heap {[1%positive := one_state]} 2%positive)
    (Heap one_segments 4%positive) (Heap one_attrs 2%positive) heap_empty
    (LLMem (Heap {[1%positive := LList None None 0]} 2%positive) heap_empty) [] [] sys.

Definition one_owners : owners :=
  Owners {[1%positive := (1%positive, true); 3%positive := (1%positive, false)]}
    {[1%positive := 1%positive]} ∅ {[1%positive := 1%positive]}.

Lemma one_inv : inv one_owners one_world [1%positive] {[1%positive := e]}.
Proof.
  assert (Hs : forall A (a : A) (k j b : positive), (k < b)%positive ->
    is_Some (({[k := a]} : gmap positive A) !! j) -> (j < b)%positive).
  { intros A a k j b Hlt [x [<- _]%lookup_singleton_Some]. done. }
  split.
  - split; simpl; try (intros k; simpl; by apply Hs).
    + intros k [s Hk]. simpl in *. unfold one_segments in Hk.
      destruct (ep_received e), (ep_unacked e);
        repeat first [apply lookup_insert_Some in Hk as [[<- _]|[_ Hk]]
                     |apply lookup_singleton_Some in Hk as [<- _]]; lia.
    + intros k Hk. simpl in *. unfold one_attrs in Hk. destruct (ep_unacked e).
      * refine (Hs _ _ 1%positive k 2%positive _ Hk). lia.
      * rewrite lookup_empty in Hk. by destruct Hk.
    + apply heap_wf_empty.
    + intros k [s Hk]. simpl in *.
      apply lookup_insert_Some in Hk as [[<- _]|[_ [<- _]%lookup_singleton_Some]]; lia.
    + intros k Hk. simpl in *. rewrite lookup_empty in Hk. by destruct Hk.
  - apply NoDup_singleton.
  - intros l. rewrite list_elem_of_singleton. split.
    + by intros [x [<- _]%lookup_singleton_Some].
    + intros ->. rewrite lookup_singleton_eq. eauto.
  - simpl. split; [done|]. exists one_state. by rewrite lookup_singleton_eq.
  - intros l e' [<- <-]%lookup_singleton_Some.
    exists one_state, (ep_received e), (ep_unacked e). split_and!.
    + apply lookup_singleton_eq.
    + unfold ep_of, one_state. by destruct e.
    + simpl. unfold one_attrs, one_segments. destruct (ep_unacked e) as [u|]; [|done].
      exists 1%positive, 1%positive. destruct (ep_received e); by vm_compute.
    + simpl. unfold one_segments. destruct (ep_received e), (ep_unacked e); simpl;
        first [done | exists 3%positive; by vm_compute].
    + done.
    + by exists 1%positive.
Qed.

Lemma one_represents : represents one_world [1%positive] {[1%positive := e]}.
Proof. exists one_owners. apply one_inv. Qed.

Lemma one_handed : handed one_world [1%positive] {[1%positive := e]} 2%positive seg.
Proof.
  exists one_owners. split_and!; [apply one_inv|done|]. simpl. unfold one_segments.
  destruct (ep_received e), (ep_unacked e); by vm_compute.
Qed.
End OneWorld.
