(* ===== verification/CtcpSafety.v ===== *)
(** * The endpoints are safe under the contract of the library

    From endpoints whose connections are open, and a library that keeps its
    contract, no operation has undefined behaviour: first for the abstract
    endpoint, then for the code, through the refinement. *)

From S2P Require Import Prelude Heap Words Cksum LinkedList Segment ConnLib Ctcp CtcpSpec.
From S2P Require Import CtcpSteps CtcpInv CtcpRefine Script.

(** The segments an endpoint holds are whole. *)
Definition whole (len : Z) (s : ctcp_segment) : Prop :=
  SEGMENT_HDR_SIZE <= len <= SEGMENT_HDR_SIZE + MAX_SEG_DATA_SIZE /\
  Z.of_nat (length (segment_bytes s)) = len.

Record ep_wf (e : endpoint) : Prop := {
  wf_unacked : forall u, ep_unacked e = Some u ->
    whole (ntohs (seg_len (un_segment u))) (un_segment u);
  wf_received : forall s, ep_received e = RecvKept s ->
    0 <= seg_len s <= Z.of_nat (length (segment_bytes s)) /\ seg_len s < 2 ^ 16;
}.

Lemma ep_wf_init c cfg : ep_wf (ep_init c cfg).
Proof. by split. Qed.

Lemma ep_wf_unacked_none e : ep_wf e -> ep_wf (ep_with_unacked None e).
Proof. by intros [H1 H2]. Qed.
Lemma ep_wf_freed e : ep_wf e -> ep_wf (ep_with_received RecvFreed e).
Proof. by intros [H1 H2]. Qed.

Lemma ep_wf_sent flags len seqno ackno data e :
  SEGMENT_HDR_SIZE <= len <= SEGMENT_HDR_SIZE + MAX_SEG_DATA_SIZE ->
  len - SEGMENT_HDR_SIZE <= Z.of_nat (length data) ->
  ep_wf e -> ep_wf (ep_sent flags len (wire_segment seqno ackno flags len data) e).
Proof.
  intros Hlen Hdata [H1 H2]. unfold ep_sent. destruct (_ || _); [|by split].
  split; [|exact H2]. intros u [= <-]. cbn [un_segment].
  rewrite wire_ntohs_len by done. split; [done|].
  rewrite wire_bytes_length by done. unfold SEGMENT_HDR_SIZE in *. lia.
Qed.

#[export] Hint Resolve ep_wf_init ep_wf_unacked_none ep_wf_freed ep_wf_sent : ctcp.

Section Safety.
Context {S : Type} `{!ConnLib S} `{!ConnLaws S}.
Implicit Types (C : ptr -> Prop) (ls : lib S) (e : endpoint).

(** The connections [C] are open. *)
Definition live C ls : Prop := lib_inv (snd ls) /\ forall c, C c -> conn_open (snd ls) c.

Definition without C (c : ptr) : ptr -> Prop := fun c' => C c' /\ c' <> c.

(** What an operation on the endpoint of the connection [c] guarantees. *)
Definition safe_post C (c : ptr) (r : option endpoint) ls : Prop :=
  match r with
  | Some e => live C ls /\ ep_wf e /\ ep_conn e = c
  | None => live (without C c) ls /\ end_returns (snd ls)
  end.

Abbreviation anywhere := (fun _ => True).

Lemma lib_sys_safe {A} (m : M S A) (Q : A -> lib S -> Prop) ls :
  wp m (fun x s => Q x (fst ls, s)) anywhere (snd ls) -> wp (lib_sys m) Q anywhere ls.
Proof.
  intros Hm. apply wp_zoom. unfold wp in *. by destruct (m (snd ls)).
Qed.

Lemma lib_send_safe C ls c seg len (Q : Z -> lib S -> Prop) :
  live C ls -> C c -> Z.of_nat (length seg) = len ->
  SEGMENT_HDR_SIZE <= len <= SEGMENT_HDR_SIZE + MAX_SEG_DATA_SIZE ->
  (forall n ls', live C ls' -> Q n ls') -> wp (lib_send c seg len) Q anywhere ls.
Proof.
  intros [Hi Ho] Hc Hl Hlen HQ. unfold lib_send. apply wp_bind, lib_sys_safe.
  eapply wp_mono; [by apply conn_send_law; auto|]. intros n s' [Hi' Hm]. apply wp_bind, wp_modify.
  apply wp_ret, HQ. split; simpl; auto.
Qed.

Lemma lib_output_safe C ls c buf len (Q : Z -> lib S -> Prop) :
  live C ls -> C c -> 0 <= len <= Z.of_nat (length buf) -> len <= MAX_BUF_SPACE ->
  (forall n ls', live C ls' -> Q n ls') -> wp (lib_output c buf len) Q anywhere ls.
Proof.
  intros [Hi Ho] Hc Hlen Hmax HQ. unfold lib_output. apply wp_bind, lib_sys_safe.
  eapply wp_mono; [by apply conn_output_law; auto|]. intros n s' (Hi' & Hm & _).
  apply wp_bind, wp_modify. apply wp_ret, HQ. split; simpl; auto.
Qed.

Lemma ep_send_safe C ls e flags len data (Q : Z * endpoint -> lib S -> Prop) :
  live C ls -> C (ep_conn e) -> ep_wf e ->
  SEGMENT_HDR_SIZE <= len <= SEGMENT_HDR_SIZE + MAX_SEG_DATA_SIZE ->
  len - SEGMENT_HDR_SIZE <= Z.of_nat (length data) ->
  (forall n e' ls', live C ls' -> ep_wf e' -> ep_conn e' = ep_conn e -> Q (n, e') ls') ->
  wp (ep_send flags len data e) Q anywhere ls.
Proof.
  intros Hl Hc Hwf Hlen Hdata HQ. unfold ep_send. apply wp_bind.
  eapply lib_send_safe; [done|done| |done|].
  { rewrite wire_bytes_length by done. unfold SEGMENT_HDR_SIZE in *. lia. }
  intros n ls' Hl'. apply wp_ret. destruct (n <? 0); apply HQ; auto with ctcp.
  unfold ep_sent. by destruct (_ || _).
Qed.

Lemma ep_send_safe_ C ls e flags (Q : endpoint -> lib S -> Prop) :
  live C ls -> C (ep_conn e) -> ep_wf e ->
  (forall e' ls', live C ls' -> ep_wf e' -> ep_conn e' = ep_conn e -> Q e' ls') ->
  wp (ep_send_ flags e) Q anywhere ls.
Proof.
  intros Hl Hc Hwf HQ. unfold ep_send_. apply wp_bind.
  eapply ep_send_safe; [done..|]. intros n e' ls' Hl' Hwf' Hc'. apply wp_ret. auto.
Qed.

Lemma ep_destroy_safe C ls e :
  live C ls -> C (ep_conn e) ->
  wp (ep_destroy e) (safe_post C (ep_conn e)) anywhere ls.
Proof.
  intros [Hi Ho] Hc. unfold ep_destroy, lib_remove, lib_end_client.
  apply wp_bind, wp_bind, lib_sys_safe.
  eapply wp_mono; [by apply conn_remove_law; auto|]. intros [] s1 [Hi1 Hm1].
  apply wp_modify, wp_bind, wp_bind, wp_modify, lib_sys_safe.
  eapply wp_mono; [by apply end_client_law|]. intros [] s2 (Hi2 & Hm2 & Hend).
  apply wp_ret. split; [|done]. split; simpl; [done|]. intros c [HC Hne]. auto.
Qed.

Lemma ep_read_safe C ls e :
  live C ls -> C (ep_conn e) -> ep_wf e ->
  wp (ep_read e) (fun e' ls' => live C ls' /\ ep_wf e' /\ ep_conn e' = ep_conn e) anywhere ls.
Proof.
  intros Hl Hc Hwf. unfold ep_read. destruct (ep_unacked e); [by apply wp_ret|].
  unfold lib_input. apply wp_bind, wp_bind, lib_sys_safe. pose proof Hl as [Hi Ho].
  eapply wp_mono; [apply conn_input_law; auto; by rewrite length_replicate|].
  intros [r buf] s1 (Hi1 & Hm1 & Hb1 & Hr). apply wp_bind, wp_modify, wp_ret.
  rewrite length_replicate in Hb1.
  assert (Hl1 : live C (fst (fst ls, s1) ++ [EvInput (ep_conn e) r], snd (fst ls, s1))).
  { split; simpl; auto. }
  destruct (bool_decide_reflect (r = -1)) as [->|Hne].
  - apply wp_bind. eapply ep_send_safe; [done..|]. intros n e' ls' Hl' Hwf' Hc'.
    apply wp_ret. destruct (n <? 0); [done|]. destruct Hwf'. done.
  - destruct Hr as [?|Hr]; [done|]. apply wp_bind, wp_access.
    { rewrite Hb1. unfold MAX_BUFF_SIZE, MAX_SEG_DATA_SIZE in *.
      rewrite !andb_true_iff, !Z.leb_le. lia. }
    apply wp_bind. eapply ep_send_safe; [done..| | |].
    + unfold MAX_BUFF_SIZE, MAX_SEG_DATA_SIZE, SEGMENT_HDR_SIZE in *. lia.
    + rewrite Hb1. unfold MAX_BUFF_SIZE, MAX_SEG_DATA_SIZE, SEGMENT_HDR_SIZE in *. lia.
    + intros n e' ls' Hl' Hwf' Hc'. by apply wp_ret.
Qed.

(** The length of the data as [ctcp_output] computes it is that of the data, or so
    large that there is no space for it. *)
Lemma datalen_fits seg :
  0 <= seg_len seg <= Z.of_nat (length (segment_bytes seg)) -> seg_len seg < 2 ^ 16 ->
  let datalen := u32 (seg_len seg - SEGMENT_HDR_SIZE) in
  datalen <= Z.of_nat (length (seg_data seg)) \/ MAX_BUF_SPACE < datalen.
Proof.
  intros Hlen Hlt. rewrite segment_bytes_length in Hlen. unfold SEGMENT_HDR_SIZE, MAX_BUF_SPACE in *.
  cbv zeta. destruct (Z.le_gt_cases 20 (seg_len seg)) as [H20|H20].
  - left. rewrite u32_small by lia. lia.
  - right. unfold u32. rewrite <- (Z_mod_plus_full _ 1), Z.mod_small by lia. lia.
Qed.

Lemma ep_output_safe C ls e :
  live C ls -> C (ep_conn e) -> ep_wf e -> (exists seg, ep_received e = RecvKept seg) ->
  wp (ep_output e) (safe_post C (ep_conn e)) anywhere ls.
Proof.
  intros Hl Hc Hwf [seg Hr]. unfold ep_output. rewrite Hr.
  destruct (wf_received e Hwf seg Hr) as [Hlen Hlt].
  apply wp_bind, lib_sys_safe. pose proof Hl as [Hi Ho].
  destruct (conn_bufspace_law (ep_conn e) (snd ls) Hi (Ho _ Hc)) as (n & Hn & Hrange).
  eapply wp_Done; [exact Hn|]. assert (Hl1 : live C (fst ls, snd ls)) by done.
  unfold MAX_BUF_SPACE in Hrange. rewrite (u32_small n) by lia.
  set (datalen := u32 (seg_len seg - SEGMENT_HDR_SIZE)).
  destruct (bool_decide (n = 0)); [by apply wp_ret; destruct Hwf|].
  destruct (Z.geb_spec n datalen) as [Hge|Hlt'].
  2: { by apply wp_ret. }
  destruct (bool_decide_reflect (datalen = 0)) as [_|Hne]; [by apply wp_ret; destruct Hwf|].
  apply wp_bind. eapply lib_output_safe; [done|done| |unfold MAX_BUF_SPACE; lia|].
  { pose proof (datalen_fits seg Hlen Hlt). pose proof (u32_range (seg_len seg - SEGMENT_HDR_SIZE)).
    unfold MAX_BUF_SPACE, datalen in *. lia. }
  intros r ls' Hl'. destruct (r <? 0); [by apply ep_destroy_safe|].
  apply wp_bind. eapply ep_send_safe_; [done|done|by destruct Hwf|].
  intros e' ls2 Hl2 Hwf2 Hc2. apply wp_ret. split; [done|]. split; [|done]. by destruct Hwf2.
Qed.

Lemma ep_receive_safe C ls e seg len :
  live C ls -> C (ep_conn e) -> ep_wf e -> arrived seg len ->
  wp (ep_receive seg len e) (safe_post C (ep_conn e)) anywhere ls.
Proof.
  intros Hl Hc Hwf Harr. unfold ep_receive.
  destruct (segment_valid seg (u16 len)) eqn:Hv; [|by apply wp_ret].
  apply andb_true_iff in Hv as [Hv%Z.leb_le _]. rewrite u16_idemp in Hv.
  specialize (Harr Hv).
  assert (Hlen : 0 <= seg_len (_segment_ntoh (set_cksum 0 seg)) <=
    Z.of_nat (length (segment_bytes (_segment_ntoh (set_cksum 0 seg)))) /\
    seg_len (_segment_ntoh (set_cksum 0 seg)) < 2 ^ 16).
  { pose proof (ntohs_range (seg_len seg)). rewrite segment_bytes_length in *.
    change (seg_len (_segment_ntoh (set_cksum 0 seg))) with (ntohs (seg_len seg)).
    change (seg_data (_segment_ntoh (set_cksum 0 seg))) with (seg_data seg). lia. }
  set (sg := _segment_ntoh _) in *. unfold ep_handle. destruct (ep_phase e).
  - by apply wp_ret.
  - unfold ep_data_transfer. destruct (_ <? _); [by apply wp_ret|].
    destruct (has_flag _ FIN).
    + apply wp_bind. eapply lib_output_safe; [done|done|by split|done|]. intros n ls1 Hl1.
      apply wp_bind. eapply ep_send_safe_; [done|done|by destruct Hwf|].
      intros e2 ls2 Hl2 Hwf2 Hc2. apply wp_bind.
      eapply ep_send_safe_; [done|by rewrite Hc2|done|].
      intros e3 ls3 Hl3 Hwf3 Hc3. apply wp_ret. split; [done|].
      split; [by destruct Hwf3|]. simpl in *. congruence.
    + destruct (has_flag _ ACK); [|by apply wp_ret].
      destruct (bool_decide _); [by apply wp_ret; destruct Hwf|].
      apply (ep_output_safe C ls (ep_with_received (RecvKept sg) e)); [done|done| |by eexists].
      destruct Hwf as [H1 H2]. split; [exact H1|]. by intros s [= <-].
  - unfold ep_tear_down. destruct (has_flag _ ACK); [by apply wp_ret; destruct Hwf|].
    destruct (has_flag _ FIN); [|by apply wp_ret].
    apply wp_bind. eapply ep_send_safe_; [done|done|by destruct Hwf|].
    intros e2 ls2 Hl2 Hwf2 Hc2. simpl in Hc2. rewrite <- Hc2.
    apply ep_destroy_safe; [done|by rewrite Hc2].
  - unfold ep_wait_last_ack. destruct (has_flag _ ACK); [|by apply wp_ret].
    by apply ep_destroy_safe.
  - unfold ep_wait_last_fin. destruct (has_flag _ FIN); [|by apply wp_ret].
    apply wp_bind. eapply ep_send_safe_; [done|done|by destruct Hwf|].
    intros e2 ls2 Hl2 Hwf2 Hc2. apply wp_ret. split; [done|]. by split; [destruct Hwf2|].
Qed.

Lemma ep_retransmit_safe C ls e u :
  live C ls -> C (ep_conn e) -> ep_wf e -> ep_unacked e = Some u ->
  wp (ep_retransmit u e) (fun e' ls' => live C ls' /\ ep_wf e' /\ ep_conn e' = ep_conn e)
    anywhere ls.
Proof.
  intros Hl Hc Hwf Hu. destruct (wf_unacked e Hwf u Hu) as [H1 H2]. unfold ep_retransmit.
  destruct (_ >=? _).
  - apply wp_bind. eapply lib_send_safe; [done|done|done|done|].
    intros n ls1 Hl1. apply wp_ret. split; [done|]. split; [|done].
    destruct Hwf as [W1 W2]. destruct (_ >=? 5); split; simpl; try done. by intros ? [= <-].
  - apply wp_ret. split; [done|]. split; [|done]. destruct Hwf as [W1 W2].
    split; simpl; [by intros ? [= <-]|done].
Qed.

Lemma ep_resend_safe C ls e :
  live C ls -> C (ep_conn e) -> ep_wf e ->
  wp (ep_resend e) (fun e' ls' => live C ls' /\ ep_wf e' /\ ep_conn e' = ep_conn e) anywhere ls.
Proof.
  intros Hl Hc Hwf. unfold ep_resend. destruct (ep_unacked e) eqn:Hu; [|by apply wp_ret].
  by apply ep_retransmit_safe.
Qed.

Lemma ep_tick_safe C ls e :
  live C ls -> C (ep_conn e) -> ep_wf e ->
  wp (ep_tick e) (safe_post C (ep_conn e)) anywhere ls.
Proof.
  intros Hl Hc Hwf. unfold ep_tick.
  assert (Hrest : forall e', ep_wf e' -> ep_conn e' = ep_conn e ->
    wp (ep_resend e' ≫= fun e => mret (Some e)) (safe_post C (ep_conn e)) anywhere ls).
  { intros e' Hwf' He'. apply wp_bind.
    eapply wp_mono; [apply (ep_resend_safe C); by rewrite ?He'|].
    intros e2 ls2 (Hl2 & Hwf2 & Hc2). apply wp_ret. split; [done|]. split; [done|congruence]. }
  destruct (ep_td e); [by apply Hrest| |by apply Hrest].
  destruct (_ >=? _).
  - by apply (ep_destroy_safe C ls (ep_with_td WAIT_DESTROY _ e)).
  - apply Hrest; [by destruct Hwf|done].
Qed.

(** ** The code *)

Lemma rwp_wp {A B} (m : M (world S) A) (a : M (lib S) B) Q P (w : world S) :
  rwp m a Q w -> wp a P anywhere (lib_of w) ->
  wp m (fun x w' => exists b, P b (lib_of w') /\ Q x b w') anywhere w.
Proof.
  intros Hr Ha. apply wp_inv in Ha as [(b & s & Ha & HP)|(c & s & Ha & _)].
  - destruct (rwp_Done _ _ _ _ _ _ Hr Ha) as (x & w' & Hm & <- & HQ).
    eapply wp_Done; [done|]. eauto.
  - destruct (rwp_Exit _ _ _ _ _ _ Hr Ha) as (c' & w' & Hm & _). unfold wp. by rewrite Hm.
Qed.

(** The endpoints [E] are in memory, with distinct and open connections, and
    the library keeps its invariant. *)
Record safe_state (w : world S) (order : list loc) (E : gmap loc endpoint) : Prop := {
  ss_represents : represents w order E;
  ss_lib : lib_inv (w_sys w);
  ss_open : forall l e, E !! l = Some e -> conn_open (w_sys w) (ep_conn e);
  ss_wf : forall l e, E !! l = Some e -> ep_wf e;
  ss_distinct : forall l1 l2 e1 e2, E !! l1 = Some e1 -> E !! l2 = Some e2 ->
    ep_conn e1 = ep_conn e2 -> l1 = l2;
}.

Definition conns (E : gmap loc endpoint) : ptr -> Prop :=
  fun c => exists l e, E !! l = Some e /\ ep_conn e = c.

(** What an operation on the state at [l] leaves: a safe state, the other
    endpoints unchanged, and the endpoint at [l] too, or [end_client] has been
    called and has returned. *)
Definition stays_safe (order : list loc) (E : gmap loc endpoint) (l : loc) (w' : world S) : Prop :=
  exists order' E', safe_state w' order' E' /\ (order' = order \/ ((l ∉ order') /\ end_returns (w_sys w'))) /\
    forall k, k <> l -> E' !! k = E !! k.

Lemma safe_live w order E : safe_state w order E -> live (conns E) (lib_of w).
Proof. intros [_ Hi Ho _ _]. split; [done|]. intros c (l & e & He & <-). by eapply Ho. Qed.

Lemma safe_goes_on w order E l e e' w' :
  safe_state w order E -> E !! l = Some e -> represents w' order (<[l := e']> E) ->
  live (conns E) (lib_of w') -> ep_wf e' -> ep_conn e' = ep_conn e ->
  safe_state w' order (<[l := e']> E).
Proof.
  intros [_ _ _ Hwf Hd] He Hb [Hli Hlo] Hwf' Hc'. split; [done|done| | |].
  - intros k f [[<- <-]|[Hne Hf]]%lookup_insert_Some; apply Hlo; [by exists l, e|by exists k, f].
  - intros k f [[<- <-]|[Hne Hf]]%lookup_insert_Some; eauto.
  - intros l1 l2 e1 e2 [[<- <-]|[Hne Hf]]%lookup_insert_Some
      [[<- <-]|[Hne' Hf']]%lookup_insert_Some Heq; [done| | |by eauto].
    + apply (Hd l l2 e e2); [done..|congruence].
    + apply (Hd l1 l e1 e); [done..|congruence].
Qed.

Lemma safe_next w order E l e r w' :
  safe_state w order E -> E !! l = Some e -> becomes order E l r w' ->
  safe_post (conns E) (ep_conn e) r (lib_of w') ->
  exists order' E', safe_state w' order' E' /\ (order' = order \/ ((l ∉ order') /\ end_returns (w_sys w'))) /\
    (forall k, k <> l -> E' !! k = E !! k) /\ E' !! l = r.
Proof.
  intros Hs He Hb Hp. destruct r as [e'|].
  - destruct Hp as (Hlive & Hwf' & Hc'). exists order, (<[l := e']> E).
    split_and!; [|by left|intros; by rewrite lookup_insert_ne|apply lookup_insert_eq].
    by apply (safe_goes_on w order E l e).
  - destruct Hs as [(O & Hi) _ _ Hwf Hd]. destruct Hp as [[Hli Hlo] Hend], Hb as (_ & l1 & l2 & -> & Hb). exists (l1 ++ l2), (delete l E).
    split_and!; [|right|intros; by rewrite lookup_delete_ne|apply lookup_delete_eq].
    + split; [done|done| | |].
      * intros k f [Hne Hf]%lookup_delete_Some. apply Hlo. split; [by exists k, f|]. eauto.
      * intros k f [Hne Hf]%lookup_delete_Some. eauto.
      * intros k1 k2 e1 e2 [Hne Hf]%lookup_delete_Some [Hne' Hf']%lookup_delete_Some. eauto.
    + split; [|exact Hend]. pose proof (inv_nodup _ _ _ _ Hi) as (_ & Hx & [Hl2 _]%NoDup_cons)%NoDup_app.
      intros [Hl1|?]%elem_of_app; [|done]. by apply (Hx l Hl1); left.
Qed.

Lemma safe_becomes w order E l e r w' :
  safe_state w order E -> E !! l = Some e -> becomes order E l r w' ->
  safe_post (conns E) (ep_conn e) r (lib_of w') -> stays_safe order E l w'.
Proof.
  intros Hs He Hb Hp. destruct (safe_next _ _ _ _ _ _ _ Hs He Hb Hp) as (o & E' & H1 & H2 & H3 & _).
  by exists o, E'.
Qed.

Lemma safe_endpoint w order E l : safe_state w order E -> l ∈ order -> is_Some (E !! l).
Proof. intros [(O & Hi) _ _ _ _] Hl. by apply (inv_dom _ _ _ _ Hi). Qed.

Lemma safe_state_lib w w' order E :
  safe_state w order E -> represents w' order E -> lib_of w' = lib_of w -> safe_state w' order E.
Proof.
  intros [Hr Hl Ho Hwf Hd] Hr' E'. assert (Es : w_sys w' = w_sys w) by (by apply (f_equal snd) in E').
  by split; rewrite ?Es.
Qed.

(** From a safe state, with what the specification guarantees. *)
Lemma safe_run {B} (m : M (world S) unit) (a : M (lib S) B) (f : B -> option endpoint)
    w order E l e :
  safe_state w order E -> E !! l = Some e ->
  rwp m a (fun _ b w' => becomes order E l (f b) w') w ->
  wp a (fun b ls => safe_post (conns E) (ep_conn e) (f b) ls) anywhere (lib_of w) ->
  wp m (fun _ w' => stays_safe order E l w') anywhere w.
Proof.
  intros Hs He Hr Ha. eapply wp_mono; [by eapply rwp_wp|].
  intros [] w' (b & Hp & Hb). by eapply safe_becomes.
Qed.

Lemma read_safe w order E l :
  safe_state w order E -> l ∈ order ->
  wp (ctcp_read l) (fun _ w' => stays_safe order E l w') anywhere w.
Proof.
  intros Hs Hl. destruct (safe_endpoint _ _ _ _ Hs Hl) as [e He].
  eapply (safe_run _ _ Some); [done|done|by eapply refine_read; [apply Hs|]|].
  eapply wp_mono; [apply (ep_read_safe (conns E))|by intros e' ls].
  - by eapply safe_live.
  - by exists l, e.
  - by eapply ss_wf.
Qed.

(** [ctcp_read] on the state of an open connection has no undefined
    behaviour, whatever is read and whatever becomes of the segment; all the
    endpoints stay well formed and those of the other connections unchanged. *)
Theorem ctcp_read_safe w order E l :
  safe_state w order E -> l ∈ order ->
  wp (ctcp_read l) (fun _ w' => stays_safe order E l w') anywhere w.
Proof. apply read_safe. Qed.

Lemma receive_safe w order E l s seg len :
  safe_state w order E -> l ∈ order -> handed w order E s seg -> arrived seg len ->
  wp (ctcp_receive l s len) (fun _ w' => stays_safe order E l w') anywhere w.
Proof.
  intros Hs Hl Hh Ha. destruct (safe_endpoint _ _ _ _ Hs Hl) as [e He].
  eapply (safe_run _ _ id); [done|done|by eapply refine_receive|].
  apply (ep_receive_safe (conns E)); [by eapply safe_live|by exists l, e|by eapply ss_wf|done].
Qed.

(** C8: [ctcp_receive] has no undefined behaviour on any segment that the
    network delivers, truncated, padded, corrupted, of any length field, flags
    and sequence numbers, in any state of the connection: no access outside a
    buffer, no dangling or null pointer, no double [free]. *)
Theorem ctcp_receive_safe w order E l s seg len :
  safe_state w order E -> l ∈ order -> handed w order E s seg -> arrived seg len ->
  wp (ctcp_receive l s len) (fun _ w' => stays_safe order E l w') anywhere w.
Proof. apply receive_safe. Qed.

Lemma handler_safe w order E l :
  safe_state w order E -> l ∈ order ->
  wp (retransmission_handler l) (fun _ w' => stays_safe order E l w') anywhere w.
Proof.
  intros Hs Hl. destruct (safe_endpoint _ _ _ _ Hs Hl) as [e He].
  eapply (safe_run _ _ id); [done|done|by eapply refine_timer; [apply Hs|]|].
  apply (ep_tick_safe (conns E)); [by eapply safe_live|by exists l, e|by eapply ss_wf].
Qed.

(** [retransmission_handler] has no undefined behaviour on the state of an
    open connection. *)
Theorem retransmission_handler_safe w order E l :
  safe_state w order E -> l ∈ order ->
  wp (retransmission_handler l) (fun _ w' => stays_safe order E l w') anywhere w.
Proof. apply handler_safe. Qed.

(** [ctcp_output] is safe while the received segment is kept, that is, when
    the output was short of space. *)
Theorem ctcp_output_safe w order E l e seg :
  safe_state w order E -> E !! l = Some e -> ep_received e = RecvKept seg ->
  wp (ctcp_output l) (fun _ w' => stays_safe order E l w') anywhere w.
Proof.
  intros Hs He Hr. eapply (safe_run _ _ id); [done|done|by eapply refine_output; [apply Hs|]|].
  apply (ep_output_safe (conns E)); [by eapply safe_live|by exists l, e|by eapply ss_wf|eauto].
Qed.

Lemma output_dangling w order E l e :
  represents w order E -> E !! l = Some e ->
  (ep_received e = RecvFreed \/ ep_received e = RecvNone) -> ctcp_output l w = Undef.
Proof.
  intros (O & Hi) He Hr. destruct (inv_live _ _ _ _ _ _ Hi He) as (st & r & u & Hst & -> & _ & Hrec & _).
  destruct w as [sl [ST bst] [SG bsg] AT TD LL buf tr sys]. simpl in *.
  unfold ctcp_output, on_states, on_segments, zoom, load, mbind, M_bind. simpl. rewrite Hst.
  destruct Hr as [->| ->]; simpl in Hrec.
  - destruct Hrec as (s & -> & Hs & _). simpl. by rewrite Hs.
  - by rewrite Hrec.
Qed.

(** C34: but a call of [ctcp_output] once a received segment has been handled, as
    [conn_drain] makes when the output queue has been written out, follows a
    dangling pointer, and before any data has been received a null pointer. *)
Theorem ctcp_output_use_after_free w order E l e :
  represents w order E -> E !! l = Some e ->
  (ep_received e = RecvFreed \/ ep_received e = RecvNone) -> ctcp_output l w = Undef.
Proof. apply output_dangling. Qed.
End Safety.

(** ** Witnesses: a client's connection, with data sent and not acknowledged *)

Definition ex_cfg : ctcp_config := CtcpConfig 1440 1440 40 200.
Definition ex_script : script := Script [Some [Byte.x68; Byte.x69]; None] [] 8192 [].
Definition ex_idle : endpoint := ep_init (Some 5%positive) ex_cfg.
Definition ex_wire : ctcp_segment := wire_segment 1 1 ACK 22 [Byte.x68; Byte.x69].
Definition ex_busy : endpoint := ep_sent ACK 22 ex_wire ex_idle.

Lemma ex_safe_state e seg :
  ep_wf e -> ep_conn e = Some 5%positive ->
  safe_state (one_world e seg ex_script) [1%positive] {[1%positive := e]}.
Proof.
  intros Hwf Hc. split.
  - apply one_represents.
  - by vm_compute.
  - intros l e' [<- <-]%lookup_singleton_Some. rewrite Hc. simpl. set_solver.
  - by intros l e' [<- <-]%lookup_singleton_Some.
  - by intros l1 l2 e1 e2 [<- <-]%lookup_singleton_Some [<- <-]%lookup_singleton_Some.
Qed.

Lemma ex_busy_wf : ep_wf ex_busy.
Proof. by apply ep_wf_sent; [vm_compute| |apply ep_wf_init]. Qed.

Lemma ctcp_read_safe_witness :
  wp (ctcp_read 1%positive)
    (fun _ w' => stays_safe [1%positive] {[1%positive := ex_idle]} 1%positive w') (fun _ => True)
    (one_world ex_idle ex_wire ex_script).
Proof.
  apply (ctcp_read_safe _ [1%positive] {[1%positive := ex_idle]} 1%positive).
  - apply ex_safe_state; [apply ep_wf_init|reflexivity].
  - set_solver.
Defined.

Lemma ctcp_receive_safe_witness :
  wp (ctcp_receive 1%positive 2%positive 22)
    (fun _ w' => stays_safe [1%positive] {[1%positive := ex_busy]} 1%positive w') (fun _ => True)
    (one_world ex_busy ex_wire ex_script).
Proof.
  apply (ctcp_receive_safe _ [1%positive] {[1%positive := ex_busy]} 1%positive 2%positive ex_wire).
  - apply ex_safe_state; [apply ex_busy_wf|reflexivity].
  - set_solver.
  - apply one_handed.
  - by vm_compute.
Defined.

Lemma retransmission_handler_safe_witness :
  wp (retransmission_handler 1%positive)
    (fun _ w' => stays_safe [1%positive] {[1%positive := ex_busy]} 1%positive w') (fun _ => True)
    (one_world ex_busy ex_wire ex_script).
Proof.
  apply (retransmission_handler_safe _ [1%positive] {[1%positive := ex_busy]} 1%positive).
  - apply ex_safe_state; [apply ex_busy_wf|reflexivity].
  - set_solver.
Defined.

Definition ex_kept : endpoint :=
  ep_with_received (RecvKept (_segment_ntoh (set_cksum 0 ex_wire))) ex_busy.

Lemma ex_kept_wf : ep_wf ex_kept.
Proof.
  split; [apply ex_busy_wf|]. intros s [= <-]. by vm_compute.
Qed.

Lemma ctcp_output_safe_witness :
  wp (ctcp_output 1%positive)
    (fun _ w' => stays_safe [1%positive] {[1%positive := ex_kept]} 1%positive w') (fun _ => True)
    (one_world ex_kept ex_wire ex_script).
Proof.
  eapply (ctcp_output_safe _ [1%positive] {[1%positive := ex_kept]} 1%positive ex_kept).
  - apply ex_safe_state; [apply ex_kept_wf|reflexivity].
  - apply lookup_singleton_eq.
  - reflexivity.
Defined.

Lemma ctcp_output_use_after_free_witness :
  ctcp_output 1%positive (one_world (ep_with_received RecvFreed ex_busy) ex_wire ex_script) = Undef.
Proof.
  eapply (ctcp_output_use_after_free _ [1%positive] {[1%positive := _]} 1%positive).
  - apply one_represents.
  - apply lookup_singleton_eq.
  - by left.
Defined.
