(* ===== verification/CtcpProps.v ===== *)
(** * What the entry points of [src/ctcp.c] do

    Functional properties of the code, obtained through the refinement of
    [CtcpRefine.v]: sending, receiving and acknowledging data, connection
    tear-down, retransmission. *)

From S2P Require Import Prelude Heap Words Cksum LinkedList Segment ConnLib Ctcp CtcpSpec.
From S2P Require Import CtcpSteps CtcpInv CtcpRefine Script CtcpSafety.

Section Props.
Context {S : Type} `{!ConnLib S}.
Implicit Types (w : world S) (E : gmap loc endpoint) (e : endpoint).

(** ** Refinement *)

(** C19: [ctcp_receive] implements the abstract endpoint: from a memory that
    represents the endpoints [E], with a segment at [s] that the library hands
    over, it makes exactly the calls to the library that [ep_receive] makes and
    leaves the memory of the endpoint that [ep_receive] returns, the state being
    unlinked and freed when that is none, and the other endpoints as they
    were. *)
Theorem ctcp_receive_refines w order E l e s seg len :
  handed w order E s seg -> E !! l = Some e -> arrived seg len ->
  rwp (ctcp_receive l s len) (ep_receive seg len e) (fun _ r w' => becomes order E l r w') w.
Proof. apply refine_receive. Qed.

(** [ctcp_read] implements [ep_read]. *)
Theorem ctcp_read_refines w order E l e :
  represents w order E -> E !! l = Some e ->
  rwp (ctcp_read l) (ep_read e) (fun _ e' w' => becomes order E l (Some e') w') w.
Proof. apply refine_read. Qed.

(** [retransmission_handler] implements [ep_tick]. *)
Theorem retransmission_handler_refines w order E l e :
  represents w order E -> E !! l = Some e ->
  rwp (retransmission_handler l) (ep_tick e) (fun _ r w' => becomes order E l r w') w.
Proof. apply refine_timer. Qed.

(** [ctcp_init] puts a new state at the front of the state list, for an
    endpoint in [DATA_TRANSFER] with both numbers 1 and nothing sent or
    received, leaves the other endpoints as they are, and does not call the
    library; without a connection it returns null and does nothing. *)
Theorem ctcp_init_spec w order E c cfg :
  represents w order E ->
  ctcp_init None cfg w = Done None w /\
  exists l w', ctcp_init (Some c) cfg w = Done (Some l) w' /\ (l ∉ order) /\
    lib_of w' = lib_of w /\ represents w' (l :: order) (<[l := ep_init (Some c) cfg]> E).
Proof.
  intros Hr. split; [done|].
  destruct (proj1 (wp_returns _ _ _) (refine_init w order E c cfg Hr))
    as (p & w' & Hrun & l & -> & Hl & Hlib & Hr'). eauto 10.
Qed.

(** [ctcp_destroy] of a state on the list closes its connection, tells
    [end_client], and unlinks and frees the state with its list and the numbers
    of its FIN, leaving the rest of the list linked in the same order. *)
Theorem ctcp_destroy_spec w order E l e s1 s2 :
  represents w order E -> E !! l = Some e ->
  conn_remove (ep_conn e) (w_sys w) = Done tt s1 -> end_client s1 = Done tt s2 ->
  exists w' l1 l2, ctcp_destroy l w = Done tt w' /\
    lib_of w' = (w_trace w ++ [EvRemove (ep_conn e); EvEndClient], s2) /\
    order = l1 ++ l :: l2 /\ represents w' (l1 ++ l2) (delete l E).
Proof.
  intros Hr He H1 H2.
  assert (Hs : ep_destroy e (lib_of w) =
    Done None (w_trace w ++ [EvRemove (ep_conn e); EvEndClient], s2)).
  { unfold ep_destroy, lib_remove, lib_end_client, lib_sys, lib_log, zoom, mbind, M_bind, modify.
    simpl. rewrite H1. simpl. rewrite H2. by rewrite <- app_assoc. }
  destruct (rwp_Done _ _ _ _ _ _ (refine_destroy w order E l e Hr He) Hs)
    as ([] & w' & Hrun & Hl & (_ & l1 & l2 & Ho & Hr') & _).
  exists w', l1, l2. auto.
Qed.

(** ** Runs of the specification *)

Lemma lib_send_run c seg len tr (sys sys' : S) n :
  conn_send c (Some seg) len sys = Done n sys' ->
  lib_send c seg len (tr, sys) = Done n (tr ++ [EvSend c seg n], sys').
Proof. intros H. unfold lib_send, lib_sys, zoom, mbind, M_bind. simpl. by rewrite H. Qed.

Lemma lib_output_run c buf len tr (sys sys' : S) n :
  conn_output c buf len sys = Done n sys' ->
  lib_output c buf len (tr, sys) = Done n (tr ++ [EvOutput c (take (Z.to_nat len) buf) n], sys').
Proof. intros H. unfold lib_output, lib_sys, zoom, mbind, M_bind. simpl. by rewrite H. Qed.

Lemma lib_input_run c buf len tr (sys sys' : S) r b :
  conn_input c (Some buf) len sys = Done (r, b) sys' ->
  lib_input c buf len (tr, sys) = Done (r, b) (tr ++ [EvInput c r], sys').
Proof. intros H. unfold lib_input, lib_sys, zoom, mbind, M_bind. simpl. by rewrite H. Qed.

Lemma lib_bufspace_run c tr (sys : S) n :
  conn_bufspace c sys = Done n sys ->
  lib_sys (conn_bufspace c) (tr, sys) = Done n (tr, sys).
Proof. intros H. unfold lib_sys, zoom. simpl. by rewrite H. Qed.

Lemma ep_send_run e flags len data tr (sys sys' : S) n :
  let B := wire_segment (ep_seqno e) (ep_ackno e) flags len data in
  conn_send (ep_conn e) (Some (segment_bytes B)) len sys = Done n sys' ->
  ep_send flags len data e (tr, sys) =
  Done (if n <? 0 then (-1, e) else (len, ep_sent flags len B e))
    (tr ++ [EvSend (ep_conn e) (segment_bytes B) n], sys').
Proof. cbv zeta. intros H. unfold ep_send. by erewrite bind_Done by (by apply lib_send_run). Qed.

Lemma ep_send_run_ e flags tr (sys sys' : S) n :
  let B := wire_segment (ep_seqno e) (ep_ackno e) flags SEGMENT_HDR_SIZE [] in
  conn_send (ep_conn e) (Some (segment_bytes B)) SEGMENT_HDR_SIZE sys = Done n sys' ->
  ep_send_ flags e (tr, sys) =
  Done (if n <? 0 then e else ep_sent flags SEGMENT_HDR_SIZE B e)
    (tr ++ [EvSend (ep_conn e) (segment_bytes B) n], sys').
Proof.
  cbv zeta. intros H. unfold ep_send_. erewrite bind_Done by (by apply ep_send_run).
  by destruct (n <? 0).
Qed.

(** What sending does to the endpoint: a FIN, an acknowledgement. *)
Lemma ep_sent_fin B e :
  ep_sent FIN SEGMENT_HDR_SIZE B e =
  ep_with_unacked (Some (Unacked B 0 0)) (ep_with_seqno (u32 (ep_seqno e + 1)) e).
Proof. unfold ep_sent. rewrite (proj1 has_flag_values), orb_true_r. done. Qed.

Lemma ep_sent_ack B e :
  ep_sent ACK SEGMENT_HDR_SIZE B e = ep_with_seqno (u32 (ep_seqno e)) e.
Proof.
  unfold ep_sent. rewrite (proj1 (proj2 (proj2 (proj2 has_flag_values)))).
  replace (SEGMENT_HDR_SIZE - SEGMENT_HDR_SIZE) with 0 by lia. cbn [Z.gtb Z.compare orb].
  by rewrite Z.add_0_r.
Qed.

Lemma simulated {A B} (m : M (world S) A) (a : M (lib S) B) Q w b tr sys :
  rwp m a Q w -> a (w_trace w, w_sys w) = Done b (tr, sys) ->
  exists x w', m w = Done x w' /\ w_trace w' = tr /\ w_sys w' = sys /\ Q x b w'.
Proof.
  intros Hr Ha. destruct (rwp_Done _ _ _ _ _ _ Hr Ha) as (x & w' & Hm & Hl & HQ).
  injection Hl as H1 H2. eauto 10.
Qed.

(** ** Sending *)

(** Padding after the announced length does not count. *)
Lemma segment_bytes_pad s pad :
  segment_bytes s ++ pad = segment_bytes (set_data (seg_data s ++ pad) s).
Proof.
  unfold segment_bytes, set_data.
  cbn [seg_seqno seg_ackno seg_len seg_pad seg_flags seg_window seg_cksum seg_data].
  by rewrite <- !app_assoc.
Qed.

Lemma segment_valid_pad s pad rlen :
  segment_valid s rlen = true -> ntohs (seg_len s) <= Z.of_nat (length (segment_bytes s)) ->
  segment_valid (set_data (seg_data s ++ pad) s) rlen = true.
Proof.
  intros Hv Hlen. unfold segment_valid in *. apply andb_true_iff in Hv as [Hv1 Hv2].
  apply andb_true_iff. split; [exact Hv1|].
  apply bool_decide_eq_true in Hv2. apply bool_decide_eq_true.
  change (seg_cksum (set_data _ s)) with (seg_cksum s). rewrite <- Hv2. unfold seg_cksum_of.
  change (seg_len (set_data _ s)) with (seg_len s).
  change (set_cksum 0 (set_data (seg_data s ++ pad) s)) with
    (set_data (seg_data (set_cksum 0 s) ++ pad) (set_cksum 0 s)).
  rewrite <- segment_bytes_pad. f_equal. apply take_app_le.
  rewrite segment_bytes_length in *. change (seg_data (set_cksum 0 s)) with (seg_data s). lia.
Qed.

Lemma ntoh_set_data d s :
  _segment_ntoh (set_cksum 0 (set_data d s)) = set_data d (_segment_ntoh (set_cksum 0 s)).
Proof. reflexivity. Qed.

(** Segments on the wire are reasoned about through their lemmas. *)
#[local] Opaque wire_segment segment_bytes seg_cksum_of.

(** What a receiver makes of a segment on the wire. *)
Lemma wire_received seqno ackno flags len data pad rlen {T} (m : T) :
  let B := wire_segment seqno ackno flags len data in
  0 <= seqno < 2 ^ 32 -> 0 <= ackno < 2 ^ 32 -> 0 <= flags < 2 ^ 32 ->
  SEGMENT_HDR_SIZE <= len <= SEGMENT_HDR_SIZE + MAX_SEG_DATA_SIZE ->
  len - SEGMENT_HDR_SIZE <= Z.of_nat (length data) ->
  len <= u16 rlen ->
  Z.of_nat (length (segment_bytes B)) = len /\
  exists s, segment_of_bytes (segment_bytes B ++ pad) = Some s /\
    _is_segment_valid s rlen m = Done (0, set_cksum 0 s) m /\
    _segment_ntoh (set_cksum 0 s) = Segment seqno ackno len 0 flags MAX_SEG_DATA_SIZE 0
        (take (Z.to_nat (len - SEGMENT_HDR_SIZE)) data ++ pad).
Proof.
  intros B Hs Ha Hf Hlen Hdata Hr.
  pose proof (wire_bytes_length seqno ackno flags len data Hlen Hdata) as Hb.
  pose proof (wire_valid seqno ackno flags len data Hlen rlen Hr) as Hv.
  pose proof (wire_ntohs_len seqno ackno flags len data Hlen) as El.
  pose proof (wire_wf seqno ackno flags len data Hs Ha) as Hwf.
  pose proof (wire_ntoh seqno ackno flags len data Hlen Hs Ha Hf) as Hn.
  pose proof (wire_data seqno ackno flags len data) as Hd.
  fold B in Hb, Hv, Hwf, Hn, Hd, El. clearbody B.
  assert (Hlb : Z.of_nat (length (segment_bytes B)) = len)
    by (rewrite Hb; unfold SEGMENT_HDR_SIZE in Hlen; lia).
  apply (segment_valid_pad _ pad) in Hv; [|lia].
  split; [done|]. exists (set_data (seg_data B ++ pad) B). split_and!.
  - rewrite segment_bytes_pad. apply segment_of_bytes_bytes. destruct Hwf. by split.
  - rewrite is_segment_valid_run.
    + rewrite Hv. apply andb_true_iff in Hv as [-> _]. done.
    + intros _. rewrite <- segment_bytes_pad, length_app.
      change (seg_len (set_data (seg_data B ++ pad) B)) with (seg_len B). lia.
  - by rewrite ntoh_set_data, Hn, Hd.
Qed.

(** C12: a segment sent by [_segment_send] is what the receiver needs: where
    [conn_send] returns on the bytes of the segment, exactly these are handed to
    it, and whatever padding the network adds behind them, [_is_segment_valid]
    accepts them and [_segment_ntoh] gives back the sequence and acknowledgement
    numbers of the state, the flags, the length, the window and the data. *)
Theorem segment_send_received w order E l e flags len data n s' pad rlen :
  represents w order E -> E !! l = Some e ->
  0 <= ep_seqno e < 2 ^ 32 -> 0 <= ep_ackno e < 2 ^ 32 -> 0 <= flags < 2 ^ 32 ->
  SEGMENT_HDR_SIZE <= len <= SEGMENT_HDR_SIZE + MAX_SEG_DATA_SIZE ->
  len - SEGMENT_HDR_SIZE <= Z.of_nat (length data) ->
  let bs := segment_bytes (wire_segment (ep_seqno e) (ep_ackno e) flags len data) in
  conn_send (ep_conn e) (Some bs) len (w_sys w) = Done n s' ->
  len <= u16 rlen ->
  exists r w' s, _segment_send l flags len data w = Done r w' /\
    w_trace w' = w_trace w ++ [EvSend (ep_conn e) bs n] /\ w_sys w' = s' /\
    Z.of_nat (length bs) = len /\ segment_of_bytes (bs ++ pad) = Some s /\
    _is_segment_valid s rlen w' = Done (0, set_cksum 0 s) w' /\
    _segment_ntoh (set_cksum 0 s) =
      Segment (ep_seqno e) (ep_ackno e) len 0 flags MAX_SEG_DATA_SIZE 0
        (take (Z.to_nat (len - SEGMENT_HDR_SIZE)) data ++ pad).
Proof.
  intros (O & Hi) He Hs Ha Hf Hlen Hdata bs Hc Hr.
  set (B := wire_segment (ep_seqno e) (ep_ackno e) flags len data).
  assert (Hsim : rwp (_segment_send l flags len data) (ep_send flags len data e)
                   (fun _ _ _ => True) w) by (eapply rwp_send; [done|done|done|done|auto]).
  destruct (simulated _ _ _ _ _ _ _ Hsim
    (ep_send_run e flags len data (w_trace w) (w_sys w) s' n Hc))
    as (r & w' & Hrun & Htr & Hsy & _).
  destruct (wire_received (ep_seqno e) (ep_ackno e) flags len data pad rlen w')
    as (Hl & s & Hb & Hv & Hn); [done..|].
  exists r, w', s. auto 10.
Qed.

(** Stop and wait: while a segment is unacknowledged, [ctcp_read] reads and
    sends nothing, makes no call to the library at all, and changes no
    endpoint. *)
Theorem ctcp_read_waits w order E l e u :
  represents w order E -> E !! l = Some e -> ep_unacked e = Some u ->
  exists w', ctcp_read l w = Done tt w' /\ w_trace w' = w_trace w /\ w_sys w' = w_sys w /\
    represents w' order E.
Proof.
  intros Hr He Hu.
  assert (Hs : ep_read e (lib_of w) = Done e (w_trace w, w_sys w)) by (unfold ep_read; by rewrite Hu).
  destruct (simulated _ _ _ _ _ _ _ (refine_read w order E l e Hr He) Hs)
    as ([] & w' & Hrun & Ht & Hsy & Hb).
  exists w'. split_and!; [done..|]. simpl in Hb. by rewrite insert_id in Hb.
Qed.

(** What is sent for [r] bytes of input [buf]. *)
Definition data_segment e (r : Z) (buf : list byte) : ctcp_segment :=
  wire_segment (ep_seqno e) (ep_ackno e) ACK (SEGMENT_HDR_SIZE + r) buf.
Definition ctl_segment e (flags : Z) : ctcp_segment :=
  wire_segment (ep_seqno e) (ep_ackno e) flags SEGMENT_HDR_SIZE [].

Definition zero_buffer : list byte := replicate (Z.to_nat MAX_BUFF_SIZE) Byte.x00.

(** The runs of [ep_read] on some input, and at the end of the input. *)
Lemma ep_read_run_data e (r : Z) buf n tr (s s1 s2 : S) :
  ep_unacked e = None ->
  conn_input (ep_conn e) (Some zero_buffer) MAX_BUFF_SIZE s = Done (r, buf) s1 ->
  0 <= r <= MAX_BUFF_SIZE -> r <= Z.of_nat (length buf) ->
  conn_send (ep_conn e) (Some (segment_bytes (data_segment e r buf))) (SEGMENT_HDR_SIZE + r) s1 =
    Done n s2 -> 0 <= n ->
  ep_read e (tr, s) =
  Done (ep_sent ACK (SEGMENT_HDR_SIZE + r) (data_segment e r buf) e)
    (tr ++ [EvInput (ep_conn e) r;
            EvSend (ep_conn e) (segment_bytes (data_segment e r buf)) n], s2).
Proof.
  intros Hu Hin Hrange Hlen Hsend Hn.
  unfold ep_read. rewrite Hu. erewrite bind_Done by (by apply lib_input_run).
  cbv beta iota.
  rewrite bool_decide_false by lia. erewrite bind_Done.
  2: { unfold access. rewrite (proj2 (Z.leb_le 0 r)) by lia.
       rewrite (proj2 (Z.leb_le r _)) by lia. by rewrite (proj2 (Z.leb_le r _)) by lia. }
  cbv beta iota. erewrite bind_Done by (by apply ep_send_run). cbv beta iota.
  rewrite (proj2 (Z.ltb_ge n 0)) by lia. by rewrite <- app_assoc.
Qed.

Lemma ep_read_run_eof e buf n tr (s s1 s2 : S) :
  ep_unacked e = None ->
  conn_input (ep_conn e) (Some zero_buffer) MAX_BUFF_SIZE s = Done (-1, buf) s1 ->
  conn_send (ep_conn e) (Some (segment_bytes (ctl_segment e FIN))) SEGMENT_HDR_SIZE s1 =
    Done n s2 -> 0 <= n ->
  ep_read e (tr, s) =
  Done (ep_with_phase TEAR_DOWN (ep_sent FIN SEGMENT_HDR_SIZE (ctl_segment e FIN) e))
    (tr ++ [EvInput (ep_conn e) (-1);
            EvSend (ep_conn e) (segment_bytes (ctl_segment e FIN)) n], s2).
Proof.
  intros Hu Hin Hsend Hn. unfold ep_read. rewrite Hu. erewrite bind_Done by (by apply lib_input_run).
  cbv beta iota.
  rewrite bool_decide_true by done. erewrite bind_Done by (by apply ep_send_run).
  cbv beta iota.
  rewrite (proj2 (Z.ltb_ge n 0)) by lia. by rewrite <- app_assoc.
Qed.

(** C18: with nothing unacknowledged, [ctcp_read] reads once and sends exactly
    the bytes read, in one segment with the current sequence number; the
    sequence number advances by their number and the segment is kept for
    retransmission, except when nothing was read: then an empty segment is sent
    and nothing is kept. *)
Theorem ctcp_read_sends w order E l e r buf n s1 s2 :
  represents w order E -> E !! l = Some e -> ep_unacked e = None ->
  conn_input (ep_conn e) (Some zero_buffer) MAX_BUFF_SIZE (w_sys w) = Done (r, buf) s1 ->
  0 <= r <= MAX_BUFF_SIZE -> r <= Z.of_nat (length buf) ->
  conn_send (ep_conn e) (Some (segment_bytes (data_segment e r buf))) (SEGMENT_HDR_SIZE + r) s1 =
    Done n s2 -> 0 <= n ->
  exists w', ctcp_read l w = Done tt w' /\ w_sys w' = s2 /\
    w_trace w' = w_trace w ++ [EvInput (ep_conn e) r;
                               EvSend (ep_conn e) (segment_bytes (data_segment e r buf)) n] /\
    seg_data (data_segment e r buf) = take (Z.to_nat r) buf /\
    represents w' order (<[l := ep_with_seqno (u32 (ep_seqno e + r))
      (if 0 <? r then ep_with_unacked (Some (Unacked (data_segment e r buf) 0 0)) e else e)]> E).
Proof.
  intros Hr He Hu Hin Hrange Hlen Hsend Hn.
  pose proof (ep_read_run_data e r buf n (w_trace w) _ _ _ Hu Hin Hrange Hlen Hsend Hn) as Hs.
  destruct (simulated _ _ _ _ _ _ _ (refine_read w order E l e Hr He) Hs)
    as ([] & w' & Hrun & Ht & Hsy & Hb).
  exists w'. split_and!; [done..| |].
  - unfold data_segment. rewrite wire_data. do 2 f_equal. lia.
  - simpl in Hb. revert Hb. unfold ep_sent.
    rewrite (proj1 (proj2 (proj2 (proj2 has_flag_values)))), orb_false_r.
    replace (SEGMENT_HDR_SIZE + r - SEGMENT_HDR_SIZE) with r by lia.
    rewrite Z.gtb_ltb. by destruct (0 <? r).
Qed.

(** On end of file, [ctcp_read] sends a FIN, which takes one sequence number
    and is kept for retransmission, and the connection goes to [TEAR_DOWN]. *)
Theorem ctcp_read_eof w order E l e buf n s1 s2 :
  represents w order E -> E !! l = Some e -> ep_unacked e = None ->
  conn_input (ep_conn e) (Some zero_buffer) MAX_BUFF_SIZE (w_sys w) = Done (-1, buf) s1 ->
  conn_send (ep_conn e) (Some (segment_bytes (ctl_segment e FIN))) SEGMENT_HDR_SIZE s1 =
    Done n s2 -> 0 <= n ->
  exists w', ctcp_read l w = Done tt w' /\ w_sys w' = s2 /\
    w_trace w' = w_trace w ++ [EvInput (ep_conn e) (-1);
                               EvSend (ep_conn e) (segment_bytes (ctl_segment e FIN)) n] /\
    represents w' order (<[l := ep_with_phase TEAR_DOWN (ep_with_seqno (u32 (ep_seqno e + 1))
      (ep_with_unacked (Some (Unacked (ctl_segment e FIN) 0 0)) e))]> E).
Proof.
  intros Hr He Hu Hin Hsend Hn.
  pose proof (ep_read_run_eof e buf n (w_trace w) _ _ _ Hu Hin Hsend Hn) as Hs.
  destruct (simulated _ _ _ _ _ _ _ (refine_read w order E l e Hr He) Hs)
    as ([] & w' & Hrun & Ht & Hsy & Hb).
  exists w'. split_and!; [done..|]. rewrite ep_sent_fin in Hb. exact Hb.
Qed.

(** ** Receiving *)

(** The segment as the handlers see it. *)
Definition host_segment (seg : ctcp_segment) : ctcp_segment := _segment_ntoh (set_cksum 0 seg).

Lemma host_seqno seg : seg_seqno (host_segment seg) = ntohl (seg_seqno seg).
Proof. reflexivity. Qed.

(** C31: a segment that fails [_is_segment_valid], and a segment below the
    acknowledgement number while data is transferred, are dropped: no call to the
    library, so neither an acknowledgement nor output, and no endpoint changes. *)
Theorem ctcp_receive_drops w order E l e s seg len :
  handed w order E s seg -> E !! l = Some e -> arrived seg len ->
  segment_valid seg len = false \/
  (ep_phase e = DATA_TRANSFER /\ ntohl (seg_seqno seg) < ep_ackno e) ->
  exists w', ctcp_receive l s len w = Done tt w' /\ w_trace w' = w_trace w /\
    w_sys w' = w_sys w /\ represents w' order E.
Proof.
  intros Hh He Ha Hd.
  assert (Hs : ep_receive seg len e (w_trace w, w_sys w) = Done (Some e) (w_trace w, w_sys w)).
  { unfold ep_receive. replace (segment_valid seg (u16 len)) with (segment_valid seg len)
      by (unfold segment_valid; by rewrite u16_idemp).
    destruct Hd as [->|[Hp Hlt]]; [done|]. destruct (segment_valid seg len); [|done].
    unfold ep_handle. rewrite Hp. unfold ep_data_transfer.
    fold (host_segment seg). rewrite host_seqno. by rewrite (proj2 (Z.ltb_lt _ _) Hlt). }
  destruct (simulated _ _ _ _ _ _ _ (refine_receive w order E l e s seg len Hh He Ha) Hs)
    as ([] & w' & Hrun & Ht & Hsy & Hb).
  exists w'. split_and!; [done..|]. simpl in Hb. by rewrite insert_id in Hb.
Qed.

Lemma receive_runs w order E l e s seg len r tr sys :
  handed w order E s seg -> E !! l = Some e -> arrived seg len ->
  segment_valid seg len = true ->
  ep_handle (host_segment seg) e (w_trace w, w_sys w) = Done r (tr, sys) ->
  exists w', ctcp_receive l s len w = Done tt w' /\ w_trace w' = tr /\ w_sys w' = sys /\
    becomes order E l r w'.
Proof.
  intros Hh He Ha Hv Hs.
  assert (Hs' : ep_receive seg len e (w_trace w, w_sys w) = Done r (tr, sys)).
  { unfold ep_receive. replace (segment_valid seg (u16 len)) with (segment_valid seg len)
      by (unfold segment_valid; by rewrite u16_idemp). by rewrite Hv. }
  destruct (simulated _ _ _ _ _ _ _ (refine_receive w order E l e s seg len Hh He Ha) Hs')
    as ([] & w' & Hrun & Ht & Hsy & Hb). eauto 10.
Qed.

Lemma ep_data_run e sg space r n tr (s s1 s2 : S) :
  let datalen := seg_len sg - SEGMENT_HDR_SIZE in
  let e' := ep_with_ackno (u32 (seg_seqno sg + datalen)) e in
  ep_phase e = DATA_TRANSFER -> ep_ackno e <= seg_seqno sg ->
  has_flag (seg_flags sg) FIN = false -> has_flag (seg_flags sg) ACK = true -> 0 < datalen ->
  conn_bufspace (ep_conn e) s = Done space s -> datalen <= space < 2 ^ 32 ->
  conn_output (ep_conn e) (seg_data sg) datalen s = Done r s1 -> 0 <= r ->
  conn_send (ep_conn e) (Some (segment_bytes (ctl_segment e' ACK))) SEGMENT_HDR_SIZE s1 =
    Done n s2 ->
  ep_handle sg e (tr, s) =
  Done (Some (ep_with_received RecvFreed (ep_with_unacked None
          (if n <? 0 then e' else ep_with_seqno (u32 (ep_seqno e)) e'))))
    (tr ++ [EvOutput (ep_conn e) (take (Z.to_nat datalen) (seg_data sg)) r;
            EvSend (ep_conn e) (segment_bytes (ctl_segment e' ACK)) n], s2).
Proof.
  intros datalen e' Hp Hseq Hfin Hack Hpos Hsp Hrange Hout Hr Hsend.
  assert (Hlen : u32 datalen = datalen) by (apply u32_small; lia).
  unfold ep_handle. rewrite Hp. unfold ep_data_transfer.
  rewrite (proj2 (Z.ltb_ge _ _) Hseq), Hfin, Hack.
  rewrite bool_decide_false by lia. unfold ep_output.
  change (ep_received (ep_with_received (RecvKept sg) e)) with (RecvKept sg). cbv iota zeta.
  change (ep_conn (ep_with_received (RecvKept sg) e)) with (ep_conn e).
  erewrite bind_Done by (by apply lib_bufspace_run).
  fold datalen. rewrite Hlen. rewrite (u32_small space) by lia.
  rewrite bool_decide_false by lia. rewrite (proj2 (Z.geb_le _ _)) by lia.
  rewrite bool_decide_false by lia. erewrite bind_Done by (by apply lib_output_run).
  rewrite (proj2 (Z.ltb_ge r 0)) by lia.
  erewrite bind_Done by (by apply (ep_send_run_
    (ep_with_ackno (u32 (seg_seqno sg + datalen)) (ep_with_received (RecvKept sg) e)))).
  rewrite ep_sent_ack, <- app_assoc. by destruct (n <? 0).
Qed.

Lemma receive_data_run w order E l e s seg len space r n s1 s2 :
  let sg := host_segment seg in
  let datalen := seg_len sg - SEGMENT_HDR_SIZE in
  let e' := ep_with_ackno (u32 (seg_seqno sg + datalen)) e in
  handed w order E s seg -> E !! l = Some e -> arrived seg len ->
  segment_valid seg len = true -> ep_phase e = DATA_TRANSFER -> ep_ackno e <= seg_seqno sg ->
  has_flag (seg_flags sg) FIN = false -> has_flag (seg_flags sg) ACK = true -> 0 < datalen ->
  conn_bufspace (ep_conn e) (w_sys w) = Done space (w_sys w) ->
  datalen <= space < 2 ^ 32 ->
  conn_output (ep_conn e) (seg_data sg) datalen (w_sys w) = Done r s1 -> 0 <= r ->
  conn_send (ep_conn e) (Some (segment_bytes (ctl_segment e' ACK))) SEGMENT_HDR_SIZE s1 =
    Done n s2 ->
  exists w', ctcp_receive l s len w = Done tt w' /\ w_sys w' = s2 /\
    w_trace w' = w_trace w ++ [EvOutput (ep_conn e) (take (Z.to_nat datalen) (seg_data sg)) r;
                               EvSend (ep_conn e) (segment_bytes (ctl_segment e' ACK)) n] /\
    represents w' order (<[l := ep_with_received RecvFreed (ep_with_unacked None
      (if n <? 0 then e' else ep_with_seqno (u32 (ep_seqno e)) e'))]> E).
Proof.
  intros sg datalen e' Hh He Ha Hv Hp Hseq Hfin Hack Hpos Hsp Hrange Hout Hr Hsend.
  destruct (receive_runs w order E l e s seg len _ _ _ Hh He Ha Hv
    (ep_data_run e sg space r n (w_trace w) _ _ _ Hp Hseq Hfin Hack Hpos Hsp Hrange Hout Hr Hsend))
    as (w' & Hrun & Ht & Hsy & Hb). eauto 10.
Qed.

(** C11: a valid data segment that is not below the acknowledgement number, when
    the output has room: its data, all of it and nothing else, is output once,
    and acknowledged with the number after it; whatever was unacknowledged is
    taken as acknowledged; the segment is freed. *)
Theorem ctcp_receive_data w order E l e s seg len space r n s1 s2 :
  let sg := host_segment seg in
  let datalen := seg_len sg - SEGMENT_HDR_SIZE in
  let e' := ep_with_ackno (u32 (seg_seqno sg + datalen)) e in
  handed w order E s seg -> E !! l = Some e -> arrived seg len ->
  segment_valid seg len = true -> ep_phase e = DATA_TRANSFER -> ep_ackno e <= seg_seqno sg ->
  has_flag (seg_flags sg) FIN = false -> has_flag (seg_flags sg) ACK = true -> 0 < datalen ->
  conn_bufspace (ep_conn e) (w_sys w) = Done space (w_sys w) ->
  datalen <= space < 2 ^ 32 ->
  conn_output (ep_conn e) (seg_data sg) datalen (w_sys w) = Done r s1 -> 0 <= r ->
  conn_send (ep_conn e) (Some (segment_bytes (ctl_segment e' ACK))) SEGMENT_HDR_SIZE s1 =
    Done n s2 ->
  exists w', ctcp_receive l s len w = Done tt w' /\ w_sys w' = s2 /\
    w_trace w' = w_trace w ++ [EvOutput (ep_conn e) (take (Z.to_nat datalen) (seg_data sg)) r;
                               EvSend (ep_conn e) (segment_bytes (ctl_segment e' ACK)) n] /\
    represents w' order (<[l := ep_with_received RecvFreed (ep_with_unacked None
      (if n <? 0 then e' else ep_with_seqno (u32 (ep_seqno e)) e'))]> E).
Proof. apply receive_data_run. Qed.

(** Flow control: when the output has no room at all, a data segment is
    neither output nor acknowledged, and is freed; when it has some room, but too
    little for the data, it is kept for a later [ctcp_output]. *)
Theorem ctcp_receive_no_room w order E l e s seg len space :
  let sg := host_segment seg in
  handed w order E s seg -> E !! l = Some e -> arrived seg len ->
  segment_valid seg len = true -> ep_phase e = DATA_TRANSFER -> ep_ackno e <= seg_seqno sg ->
  has_flag (seg_flags sg) FIN = false -> has_flag (seg_flags sg) ACK = true ->
  SEGMENT_HDR_SIZE < seg_len sg ->
  conn_bufspace (ep_conn e) (w_sys w) = Done space (w_sys w) ->
  0 <= space < seg_len sg - SEGMENT_HDR_SIZE ->
  exists w', ctcp_receive l s len w = Done tt w' /\ w_trace w' = w_trace w /\
    w_sys w' = w_sys w /\
    represents w' order
      (<[l := ep_with_received (if bool_decide (space = 0) then RecvFreed else RecvKept sg) e]> E).
Proof.
  intros sg Hh He Ha Hv Hp Hseq Hfin Hack Hpos Hsp Hrange.
  assert (Hl16 : seg_len sg < 2 ^ 16) by apply ntohs_range.
  unfold SEGMENT_HDR_SIZE in *.
  destruct (receive_runs w order E l e s seg len
    (Some (ep_with_received (if bool_decide (space = 0) then RecvFreed else RecvKept sg) e))
    (w_trace w) (w_sys w)) as (w' & Hrun & Ht & Hsy & Hb); [done..| |eauto 10].
  unfold ep_handle. rewrite Hp. unfold ep_data_transfer, SEGMENT_HDR_SIZE.
  change (host_segment seg) with sg. rewrite (proj2 (Z.ltb_ge _ _) Hseq), Hfin, Hack.
  rewrite bool_decide_false by lia. unfold ep_output, SEGMENT_HDR_SIZE.
  change (ep_received (ep_with_received (RecvKept sg) e)) with (RecvKept sg). cbv iota zeta.
  change (ep_conn (ep_with_received (RecvKept sg) e)) with (ep_conn e).
  erewrite bind_Done by (by apply lib_bufspace_run).
  rewrite (u32_small space) by lia. rewrite (u32_small (seg_len sg - 20)) by lia.
  destruct (bool_decide (space = 0)); [done|].
  destruct (Z.geb_spec space (seg_len sg - 20)); [lia|done].
Qed.

(** ** Closing a connection *)

Lemma ep_destroy_run e tr (s s1 s2 : S) :
  conn_remove (ep_conn e) s = Done tt s1 -> end_client s1 = Done tt s2 ->
  ep_destroy e (tr, s) = Done None (tr ++ [EvRemove (ep_conn e); EvEndClient], s2).
Proof.
  intros H1 H2. unfold ep_destroy, lib_remove, lib_end_client, lib_sys, lib_log, zoom, mbind,
    M_bind, modify. simpl. rewrite H1. simpl. rewrite H2. by rewrite <- app_assoc.
Qed.

Lemma ep_sent_conn flags len segment e : ep_conn (ep_sent flags len segment e) = ep_conn e.
Proof. unfold ep_sent. by destruct (_ || _). Qed.

Lemma ep_sent_ack_ B e : 0 <= ep_seqno e < 2 ^ 32 -> ep_sent ACK SEGMENT_HDR_SIZE B e = e.
Proof. intros H. rewrite ep_sent_ack, u32_small by done. by destruct e. Qed.

Lemma ep_fin_run e sg r n1 n2 tr (s s1 s2 s3 : S) :
  let e1 := ep_with_ackno (u32 (seg_seqno sg + 1)) e in
  ep_phase e = DATA_TRANSFER -> ep_ackno e <= seg_seqno sg ->
  has_flag (seg_flags sg) FIN = true -> 0 <= ep_seqno e < 2 ^ 32 ->
  conn_output (ep_conn e) [] 0 s = Done r s1 ->
  conn_send (ep_conn e) (Some (segment_bytes (ctl_segment e1 ACK))) SEGMENT_HDR_SIZE s1 =
    Done n1 s2 -> 0 <= n1 ->
  conn_send (ep_conn e) (Some (segment_bytes (ctl_segment e1 FIN))) SEGMENT_HDR_SIZE s2 =
    Done n2 s3 -> 0 <= n2 ->
  ep_handle sg e (tr, s) =
  Done (Some (ep_with_phase WAIT_LAST_ACK
          (ep_with_unacked (Some (Unacked (ctl_segment e1 FIN) 0 0))
            (ep_with_seqno (u32 (ep_seqno e + 1)) e1))))
    (tr ++ [EvOutput (ep_conn e) [] r; EvSend (ep_conn e) (segment_bytes (ctl_segment e1 ACK)) n1;
            EvSend (ep_conn e) (segment_bytes (ctl_segment e1 FIN)) n2], s3).
Proof.
  intros e1 Hp Hseq Hfin Hsn Hout Hs1 Hn1 Hs2 Hn2.
  unfold ep_handle. rewrite Hp. unfold ep_data_transfer.
  rewrite (proj2 (Z.ltb_ge _ _) Hseq), Hfin.
  erewrite bind_Done by (by apply lib_output_run).
  erewrite bind_Done by (exact (ep_send_run_ e1 ACK _ _ _ _ Hs1)).
  rewrite (proj2 (Z.ltb_ge n1 0)) by lia. fold (ctl_segment e1 ACK). rewrite ep_sent_ack_ by done.
  erewrite bind_Done by (exact (ep_send_run_ e1 FIN _ _ _ _ Hs2)).
  rewrite (proj2 (Z.ltb_ge n2 0)) by lia. fold (ctl_segment e1 FIN).
  by rewrite ep_sent_fin, <- !app_assoc.
Qed.

(** Passive close: a FIN that arrives while data is transferred is passed
    on as an end of file, acknowledged with the number after it, and answered with
    a FIN of its own, and the connection waits for the last acknowledgement. *)
Theorem ctcp_receive_fin w order E l e s seg len r n1 n2 s1 s2 s3 :
  let sg := host_segment seg in
  let e1 := ep_with_ackno (u32 (seg_seqno sg + 1)) e in
  handed w order E s seg -> E !! l = Some e -> arrived seg len ->
  segment_valid seg len = true -> ep_phase e = DATA_TRANSFER -> ep_ackno e <= seg_seqno sg ->
  has_flag (seg_flags sg) FIN = true -> 0 <= ep_seqno e < 2 ^ 32 ->
  conn_output (ep_conn e) [] 0 (w_sys w) = Done r s1 ->
  conn_send (ep_conn e) (Some (segment_bytes (ctl_segment e1 ACK))) SEGMENT_HDR_SIZE s1 =
    Done n1 s2 -> 0 <= n1 ->
  conn_send (ep_conn e) (Some (segment_bytes (ctl_segment e1 FIN))) SEGMENT_HDR_SIZE s2 =
    Done n2 s3 -> 0 <= n2 ->
  exists w', ctcp_receive l s len w = Done tt w' /\ w_sys w' = s3 /\
    w_trace w' = w_trace w ++ [EvOutput (ep_conn e) [] r;
                               EvSend (ep_conn e) (segment_bytes (ctl_segment e1 ACK)) n1;
                               EvSend (ep_conn e) (segment_bytes (ctl_segment e1 FIN)) n2] /\
    represents w' order (<[l := ep_with_phase WAIT_LAST_ACK
      (ep_with_unacked (Some (Unacked (ctl_segment e1 FIN) 0 0))
        (ep_with_seqno (u32 (ep_seqno e + 1)) e1))]> E).
Proof.
  intros sg e1 Hh He Ha Hv Hp Hseq Hfin Hsn Hout Hs1 Hn1 Hs2 Hn2.
  destruct (receive_runs w order E l e s seg len _ _ _ Hh He Ha Hv
    (ep_fin_run e sg r n1 n2 (w_trace w) _ _ _ _ Hp Hseq Hfin Hsn Hout Hs1 Hn1 Hs2 Hn2))
    as (w' & Hrun & Ht & Hsy & Hb). eauto 10.
Qed.

(** The last acknowledgement closes the connection: in [WAIT_LAST_ACK] a
    valid segment with ACK has the connection removed and the state destroyed, and
    any other segment changes nothing. *)
Theorem ctcp_receive_last_ack w order E l e s seg len s1 s2 :
  let sg := host_segment seg in
  handed w order E s seg -> E !! l = Some e -> arrived seg len ->
  segment_valid seg len = true -> ep_phase e = WAIT_LAST_ACK ->
  conn_remove (ep_conn e) (w_sys w) = Done tt s1 -> end_client s1 = Done tt s2 ->
  if has_flag (seg_flags sg) ACK then
    exists w' l1 l2, ctcp_receive l s len w = Done tt w' /\ w_sys w' = s2 /\
      w_trace w' = w_trace w ++ [EvRemove (ep_conn e); EvEndClient] /\
      order = l1 ++ l :: l2 /\ represents w' (l1 ++ l2) (delete l E)
  else
    exists w', ctcp_receive l s len w = Done tt w' /\ w_sys w' = w_sys w /\
      w_trace w' = w_trace w /\ represents w' order E.
Proof.
  intros sg Hh He Ha Hv Hp H1 H2.
  pose proof (ep_destroy_run e (w_trace w) _ _ _ H1 H2) as Hd.
  destruct (has_flag (seg_flags sg) ACK) eqn:Hack.
  - destruct (receive_runs w order E l e s seg len None
      (w_trace w ++ [EvRemove (ep_conn e); EvEndClient]) s2)
      as (w' & Hrun & Ht & Hsy & (_ & l1 & l2 & Ho & Hr)); [done..| |].
    { unfold ep_handle, ep_wait_last_ack. rewrite Hp. change (host_segment seg) with sg.
      by rewrite Hack. }
    exists w', l1, l2. auto.
  - destruct (receive_runs w order E l e s seg len (Some e) (w_trace w) (w_sys w))
      as (w' & Hrun & Ht & Hsy & Hr); [done..| |].
    { unfold ep_handle, ep_wait_last_ack. rewrite Hp. change (host_segment seg) with sg.
      by rewrite Hack. }
    exists w'. split_and!; [done..|]. simpl in Hr. by rewrite insert_id in Hr.
Qed.

(** C32: active close: in [TEAR_DOWN], after the FIN has been sent, a valid
    segment with ACK makes the connection wait for the FIN of the other side, or
    for the last acknowledgement if it carries that FIN, without any call to the
    library; a FIN alone is acknowledged and the state destroyed. *)
Theorem ctcp_receive_tear_down w order E l e s seg len n s1 s2 s3 :
  let sg := host_segment seg in
  let e1 := ep_with_ackno (u32 (seg_seqno sg + 1)) e in
  handed w order E s seg -> E !! l = Some e -> arrived seg len ->
  segment_valid seg len = true -> ep_phase e = TEAR_DOWN ->
  conn_send (ep_conn e) (Some (segment_bytes (ctl_segment e1 ACK))) SEGMENT_HDR_SIZE (w_sys w) =
    Done n s1 ->
  conn_remove (ep_conn e) s1 = Done tt s2 -> end_client s2 = Done tt s3 ->
  exists w', ctcp_receive l s len w = Done tt w' /\
    if has_flag (seg_flags sg) ACK then
      w_sys w' = w_sys w /\ w_trace w' = w_trace w /\
      represents w' order (<[l := ep_with_phase
        (if has_flag (seg_flags sg) FIN then WAIT_LAST_ACK else WAIT_LAST_FIN) e]> E)
    else if has_flag (seg_flags sg) FIN then
      w_sys w' = s3 /\
      w_trace w' = w_trace w ++ [EvSend (ep_conn e) (segment_bytes (ctl_segment e1 ACK)) n;
                                 EvRemove (ep_conn e); EvEndClient] /\
      mem (w_states w') !! l = None /\
      exists l1 l2, order = l1 ++ l :: l2 /\ represents w' (l1 ++ l2) (delete l E)
    else w_sys w' = w_sys w /\ w_trace w' = w_trace w /\ represents w' order E.
Proof.
  intros sg e1 Hh He Ha Hv Hp Hsend H1 H2.
  destruct (has_flag (seg_flags sg) ACK) eqn:Hack; [|destruct (has_flag (seg_flags sg) FIN) eqn:Hfin].
  - destruct (receive_runs w order E l e s seg len (Some (ep_with_phase
        (if has_flag (seg_flags sg) FIN then WAIT_LAST_ACK else WAIT_LAST_FIN) e))
      (w_trace w) (w_sys w)) as (w' & Hrun & Ht & Hsy & Hr); [done..| |eauto 10].
    unfold ep_handle, ep_tear_down. rewrite Hp. change (host_segment seg) with sg. by rewrite Hack.
  - destruct (receive_runs w order E l e s seg len None
      (w_trace w ++ [EvSend (ep_conn e) (segment_bytes (ctl_segment e1 ACK)) n;
                     EvRemove (ep_conn e); EvEndClient]) s3)
      as (w' & Hrun & Ht & Hsy & Hr); [done..| |eauto 10].
    unfold ep_handle, ep_tear_down. rewrite Hp. change (host_segment seg) with sg.
    rewrite Hack, Hfin. erewrite bind_Done by (exact (ep_send_run_ e1 ACK _ _ _ _ Hsend)).
    assert (Ec : ep_conn (if n <? 0 then e1 else ep_sent ACK SEGMENT_HDR_SIZE
        (ctl_segment e1 ACK) e1) = ep_conn e) by (destruct (n <? 0); by rewrite ?ep_sent_conn).
    fold (ctl_segment e1 ACK). rewrite (ep_destroy_run _ _ s1 s2 s3); rewrite ?Ec; [|done..].
    by rewrite <- app_assoc.
  - destruct (receive_runs w order E l e s seg len (Some e) (w_trace w) (w_sys w))
      as (w' & Hrun & Ht & Hsy & Hr); [done..| |].
    + unfold ep_handle, ep_tear_down. rewrite Hp. change (host_segment seg) with sg.
      by rewrite Hack, Hfin.
    + exists w'. split_and!; [done..|]. simpl in Hr. by rewrite insert_id in Hr.
Qed.

(** In [WAIT_LAST_FIN] the FIN of the other side is acknowledged with the
    number after it and the connection starts waiting for its end; any other
    segment changes nothing. *)
Theorem ctcp_receive_wait_last_fin w order E l e s seg len n s1 :
  let sg := host_segment seg in
  let e1 := ep_with_ackno (u32 (seg_seqno sg + 1)) e in
  handed w order E s seg -> E !! l = Some e -> arrived seg len ->
  segment_valid seg len = true -> ep_phase e = WAIT_LAST_FIN -> 0 <= ep_seqno e < 2 ^ 32 ->
  conn_send (ep_conn e) (Some (segment_bytes (ctl_segment e1 ACK))) SEGMENT_HDR_SIZE (w_sys w) =
    Done n s1 ->
  exists w', ctcp_receive l s len w = Done tt w' /\
    if has_flag (seg_flags sg) FIN then
      w_sys w' = s1 /\
      w_trace w' = w_trace w ++ [EvSend (ep_conn e) (segment_bytes (ctl_segment e1 ACK)) n] /\
      represents w' order (<[l := ep_with_td WAIT_DESTROY 0 e1]> E)
    else w_sys w' = w_sys w /\ w_trace w' = w_trace w /\ represents w' order E.
Proof.
  intros sg e1 Hh He Ha Hv Hp Hsn Hsend.
  destruct (has_flag (seg_flags sg) FIN) eqn:Hfin.
  - destruct (receive_runs w order E l e s seg len (Some (ep_with_td WAIT_DESTROY 0 e1))
      (w_trace w ++ [EvSend (ep_conn e) (segment_bytes (ctl_segment e1 ACK)) n]) s1)
      as (w' & Hrun & Ht & Hsy & Hr); [done..| |eauto 10].
    unfold ep_handle, ep_wait_last_fin. rewrite Hp. change (host_segment seg) with sg.
    rewrite Hfin. erewrite bind_Done by (exact (ep_send_run_ e1 ACK _ _ _ _ Hsend)).
    fold (ctl_segment e1 ACK). rewrite ep_sent_ack_ by done. by destruct (n <? 0).
  - destruct (receive_runs w order E l e s seg len (Some e) (w_trace w) (w_sys w))
      as (w' & Hrun & Ht & Hsy & Hr); [done..| |].
    + unfold ep_handle, ep_wait_last_fin. rewrite Hp. change (host_segment seg) with sg.
      by rewrite Hfin.
    + exists w'. split_and!; [done..|]. simpl in Hr. by rewrite insert_id in Hr.
Qed.
End Props.

(** ** Witnesses *)

Definition ex_world (e : endpoint) (seg : ctcp_segment) : world script :=
  one_world e seg ex_script.
Definition ex_map (e : endpoint) : gmap loc endpoint := {[1%positive := e]}.

Lemma ex_represents e seg : represents (ex_world e seg) [1%positive] (ex_map e).
Proof. apply one_represents. Qed.
Lemma ex_handed e seg : handed (ex_world e seg) [1%positive] (ex_map e) 2%positive seg.
Proof. apply one_handed. Qed.
Lemma ex_lookup e : ex_map e !! 1%positive = Some e.
Proof. apply lookup_singleton_eq. Qed.

(** Segments as the other side would send them. *)
Definition ex_fin : ctcp_segment := wire_segment 1 1 FIN 20 [].
Definition ex_ack : ctcp_segment := wire_segment 1 1 ACK 20 [].
Definition ex_full : script := Script [] [] 1 [].
Definition ex_removed : script := Script (sc_inputs ex_script) [] 8192 [Some 5%positive].

Lemma ctcp_receive_refines_witness :
  rwp (ctcp_receive 1%positive 2%positive 22) (ep_receive ex_wire 22 ex_busy)
    (fun _ r w' => becomes [1%positive] (ex_map ex_busy) 1%positive r w')
    (ex_world ex_busy ex_wire).
Proof.
  apply ctcp_receive_refines; [apply ex_handed|apply ex_lookup|by vm_compute].
Defined.

Lemma ctcp_read_refines_witness :
  rwp (ctcp_read 1%positive) (ep_read ex_idle)
    (fun _ e' w' => becomes [1%positive] (ex_map ex_idle) 1%positive (Some e') w')
    (ex_world ex_idle ex_wire).
Proof. apply ctcp_read_refines; [apply ex_represents|apply ex_lookup]. Defined.

Lemma retransmission_handler_refines_witness :
  rwp (retransmission_handler 1%positive) (ep_tick ex_busy)
    (fun _ r w' => becomes [1%positive] (ex_map ex_busy) 1%positive r w')
    (ex_world ex_busy ex_wire).
Proof. apply retransmission_handler_refines; [apply ex_represents|apply ex_lookup]. Defined.

Lemma ctcp_init_spec_witness :
  exists l w', ctcp_init (Some 6%positive) ex_cfg (ex_world ex_busy ex_wire) = Done (Some l) w' /\
    l <> 1%positive.
Proof.
  destruct (ctcp_init_spec (ex_world ex_busy ex_wire) [1%positive] (ex_map ex_busy) 6%positive ex_cfg)
    as (_ & l & w' & Hrun & Hl & _); [apply ex_represents|].
  exists l, w'. split; [exact Hrun|]. intros ->. apply Hl. by left.
Defined.

Lemma ctcp_destroy_spec_witness :
  exists w', ctcp_destroy 1%positive (ex_world ex_busy ex_wire) = Done tt w' /\
    w_trace w' = [EvRemove (Some 5%positive); EvEndClient].
Proof.
  destruct (ctcp_destroy_spec (ex_world ex_busy ex_wire) [1%positive] (ex_map ex_busy) 1%positive
    ex_busy ex_removed ex_removed (ex_represents _ _) (ex_lookup _)
    ltac:(by vm_compute) ltac:(by vm_compute))
    as (w' & l1 & l2 & Hrun & Hl & _).
  exists w'. split; [exact Hrun|]. by injection Hl.
Defined.

Lemma ctcp_read_waits_witness :
  exists w', ctcp_read 1%positive (ex_world ex_busy ex_wire) = Done tt w' /\ w_trace w' = [].
Proof.
  destruct (ctcp_read_waits (ex_world ex_busy ex_wire) [1%positive] (ex_map ex_busy) 1%positive
    ex_busy (Unacked ex_wire 0 0)) as (w' & Hrun & Ht & _);
    [apply ex_represents|apply ex_lookup|by vm_compute|].
  exists w'. split; [exact Hrun|exact Ht].
Defined.

Lemma ctcp_read_sends_witness :
  exists w', ctcp_read 1%positive (ex_world ex_idle ex_wire) = Done tt w' /\
    length (w_trace w') = 2%nat.
Proof.
  destruct (ctcp_read_sends (ex_world ex_idle ex_wire) [1%positive] (ex_map ex_idle) 1%positive
    ex_idle 2 ([Byte.x68; Byte.x69] ++ drop 2 zero_buffer) 22
    (Script [None] [] 8192 []) (Script [None] [] 8192 [])) as (w' & Hrun & _ & Ht & _);
    [apply ex_represents|apply ex_lookup|done|by vm_compute|by vm_compute|by vm_compute|done|done|].
  exists w'. split; [exact Hrun|]. by rewrite Ht.
Defined.

Lemma ctcp_read_eof_witness :
  exists w', ctcp_read 1%positive (one_world ex_idle ex_wire (Script [None] [] 8192 [])) = Done tt w' /\
    length (w_trace w') = 2%nat.
Proof.
  destruct (ctcp_read_eof (one_world ex_idle ex_wire (Script [None] [] 8192 [])) [1%positive]
    (ex_map ex_idle) 1%positive ex_idle zero_buffer 20 (Script [] [] 8192 [])
    (Script [] [] 8192 [])) as (w' & Hrun & _ & Ht & _);
    [apply one_represents|apply ex_lookup|done|by vm_compute|done|done|].
  exists w'. split; [exact Hrun|]. by rewrite Ht.
Defined.

Lemma ctcp_receive_drops_witness :
  exists w', ctcp_receive 1%positive 2%positive 22
    (ex_world (ep_with_ackno 3 ex_idle) ex_wire) = Done tt w' /\ w_trace w' = [].
Proof.
  destruct (ctcp_receive_drops (ex_world (ep_with_ackno 3 ex_idle) ex_wire) [1%positive]
    (ex_map (ep_with_ackno 3 ex_idle)) 1%positive (ep_with_ackno 3 ex_idle) 2%positive ex_wire 22)
    as (w' & Hrun & Ht & _); [apply ex_handed|apply ex_lookup|by vm_compute|right; by vm_compute|].
  exists w'. split; [exact Hrun|exact Ht].
Defined.

Lemma ctcp_receive_data_witness :
  exists w', ctcp_receive 1%positive 2%positive 22 (ex_world ex_idle ex_wire) = Done tt w' /\
    length (w_trace w') = 2%nat.
Proof.
  destruct (ctcp_receive_data (ex_world ex_idle ex_wire) [1%positive] (ex_map ex_idle) 1%positive
    ex_idle 2%positive ex_wire 22 8192 2 20 ex_script ex_script) as (w' & Hrun & _ & Ht & _);
    [apply ex_handed|apply ex_lookup|by vm_compute..|].
  exists w'. split; [exact Hrun|]. by rewrite Ht.
Defined.

Lemma ctcp_receive_no_room_witness :
  exists w', ctcp_receive 1%positive 2%positive 22 (one_world ex_idle ex_wire ex_full) = Done tt w' /\
    w_trace w' = [].
Proof.
  destruct (ctcp_receive_no_room (one_world ex_idle ex_wire ex_full) [1%positive] (ex_map ex_idle)
    1%positive ex_idle 2%positive ex_wire 22 1) as (w' & Hrun & Ht & _);
    [apply one_handed|apply ex_lookup|by vm_compute..|].
  exists w'. split; [exact Hrun|exact Ht].
Defined.

Lemma ctcp_receive_fin_witness :
  exists w', ctcp_receive 1%positive 2%positive 20 (ex_world ex_idle ex_fin) = Done tt w' /\
    length (w_trace w') = 3%nat.
Proof.
  destruct (ctcp_receive_fin (ex_world ex_idle ex_fin) [1%positive] (ex_map ex_idle) 1%positive
    ex_idle 2%positive ex_fin 20 0 20 20 ex_script ex_script ex_script) as (w' & Hrun & _ & Ht & _);
    [apply ex_handed|apply ex_lookup|by vm_compute..|].
  exists w'. split; [exact Hrun|]. by rewrite Ht.
Defined.

Lemma ctcp_receive_last_ack_witness :
  exists w', ctcp_receive 1%positive 2%positive 20
    (ex_world (ep_with_phase WAIT_LAST_ACK ex_busy) ex_ack) = Done tt w'.
Proof.
  pose proof (ctcp_receive_last_ack (ex_world (ep_with_phase WAIT_LAST_ACK ex_busy) ex_ack)
    [1%positive] (ex_map (ep_with_phase WAIT_LAST_ACK ex_busy)) 1%positive
    (ep_with_phase WAIT_LAST_ACK ex_busy) 2%positive ex_ack 20 ex_removed ex_removed (ex_handed _ _) (ex_lookup _)
    ltac:(by vm_compute) ltac:(by vm_compute) eq_refl ltac:(by vm_compute)
    ltac:(by vm_compute)) as H.
  destruct (has_flag _ ACK); [destruct H as (w' & l1 & l2 & H & _)|destruct H as (w' & H & _)];
      exists w'; exact H.
Defined.

Lemma ctcp_receive_tear_down_witness :
  exists w', ctcp_receive 1%positive 2%positive 20
    (ex_world (ep_with_phase TEAR_DOWN ex_busy) ex_fin) = Done tt w'.
Proof.
  destruct (ctcp_receive_tear_down (ex_world (ep_with_phase TEAR_DOWN ex_busy) ex_fin)
    [1%positive] (ex_map (ep_with_phase TEAR_DOWN ex_busy)) 1%positive
    (ep_with_phase TEAR_DOWN ex_busy) 2%positive ex_fin 20 20 ex_script
    ex_removed ex_removed) as (w' & Hrun & _);
    [apply ex_handed|apply ex_lookup|by vm_compute|by vm_compute|done|by vm_compute|done|done|].
  exists w'. exact Hrun.
Defined.

Lemma ctcp_receive_wait_last_fin_witness :
  exists w', ctcp_receive 1%positive 2%positive 20
    (ex_world (ep_with_phase WAIT_LAST_FIN ex_busy) ex_fin) = Done tt w'.
Proof.
  destruct (ctcp_receive_wait_last_fin (ex_world (ep_with_phase WAIT_LAST_FIN ex_busy) ex_fin)
    [1%positive] (ex_map (ep_with_phase WAIT_LAST_FIN ex_busy)) 1%positive
    (ep_with_phase WAIT_LAST_FIN ex_busy) 2%positive ex_fin 20 20 ex_script) as (w' & Hrun & _);
    [apply ex_handed|apply ex_lookup|by vm_compute|by vm_compute|done|by vm_compute|by vm_compute|].
  exists w'. exact Hrun.
Defined.
