(* ===== verification/Streams.v ===== *)
(** * Streams of bytes

    What an endpoint has read and sent, and what it has output, as they appear
    in the record of its calls to the library; and what its operations keep of
    them: the segments on the network carry chunks of what has been read, in
    increasing positions, and what is output is a chunk at a position that has
    not been passed. *)

From Stdlib Require Import Sorted.
From S2P Require Import Prelude Heap Words Cksum Segment ConnLib Ctcp CtcpSpec CtcpSteps.

(** ** Chunks of a stream, at their sequence numbers *)

Definition piece : Type := Z * list byte.
Definition piece_end (p : piece) : Z := p.1 + Z.of_nat (length p.2).

Definition ordered : list piece -> Prop := StronglySorted (fun p q => piece_end p <= q.1).
Definition nonempty (p : piece) : Prop := p.2 <> [].

Lemma piece_end_gt p : nonempty p -> p.1 < piece_end p.
Proof. destruct p as [x [|b bs]]; [done|]. unfold piece_end. simpl. lia. Qed.

Lemma ordered_snoc ps p :
  ordered ps -> Forall (fun q => piece_end q <= p.1) ps -> ordered (ps ++ [p]).
Proof.
  induction 1 as [|q ps Hs IH Hq]; intros Hp.
  - repeat constructor.
  - inversion_clear Hp. simpl. constructor; [by apply IH|].
    apply Forall_app. split; [done|]. by constructor.
Qed.

(** A chunk of [ps] after those of the sublist [qs] extends it. *)
Lemma ordered_extend ps qs p :
  ordered ps -> Forall nonempty ps -> qs `sublist_of` ps -> p ∈ ps ->
  Forall (fun q => piece_end q <= p.1) qs -> (qs ++ [p]) `sublist_of` ps.
Proof.
  intros Hs Hne Hq Hp Hb. apply elem_of_split in Hp as (p1 & p2 & ->).
  apply sublist_app_r in Hq as (q1 & q2 & -> & H1 & H2).
  assert (q2 = []) as ->.
  { destruct q2 as [|x q2]; [done|]. exfalso.
    assert (Hx : x ∈ p :: p2) by (eapply elem_of_submseteq; [|by apply sublist_submseteq]; left).
    apply Forall_app in Hb as [_ [Hxb _]%Forall_cons].
    apply Forall_app in Hne as [_ Hne]. pose proof Hne as [Hpn _]%Forall_cons.
    apply elem_of_cons in Hx as [->|Hx].
    - pose proof (piece_end_gt p Hpn). lia.
    - assert (Hle : piece_end p <= x.1).
      { clear -Hs Hx. induction p1 as [|y p1 IH]; simpl in Hs; inversion_clear Hs; [|by apply IH].
        rewrite Forall_forall in H0. by apply H0. }
      apply Forall_cons in Hne as [_ Hne]. rewrite Forall_forall in Hne.
      pose proof (piece_end_gt x (Hne x Hx)). pose proof (piece_end_gt p Hpn). lia. }
  rewrite app_nil_r. apply sublist_app; [done|]. apply sublist_skip, sublist_nil_l.
Qed.

(** ** The record of the calls *)

(** The data of the segments that [ctcp_read] has sent: those sent right after
    some input. The flag tells that the last call was such an input. *)
Definition piece_step (st : list piece * bool) (ev : event) : list piece * bool :=
  match ev with
  | EvInput _ r => (st.1, 0 <? r)
  | EvSend _ bs n =>
      (if st.2 && (0 <=? n) then
         match segment_of_bytes bs with
         | Some s => st.1 ++ [(ntohl (seg_seqno s), seg_data s)]
         | None => st.1
         end
       else st.1, false)
  | _ => (st.1, false)
  end.

Definition scan (tr : list event) : list piece * bool := foldl piece_step ([], false) tr.
Definition pieces (tr : list event) : list piece := (scan tr).1.
Definition pending (tr : list event) : bool := (scan tr).2.

(** What has been read and sent, and what has been output. *)
Definition inputs (tr : list event) : list (list byte) := snd <$> pieces tr.
Definition outputs (tr : list event) : list (list byte) :=
  omap (fun ev => match ev with
                  | EvOutput _ (b :: bs) _ => Some (b :: bs)
                  | _ => None
                  end) tr.

(** The bytes of all the segments sent. *)
Definition volume (tr : list event) : Z :=
  foldr (fun ev v => match ev with EvSend _ bs _ => Z.of_nat (length bs) + v | _ => v end) 0 tr.

Lemma scan_snoc tr ev : scan (tr ++ [ev]) = piece_step (scan tr) ev.
Proof. unfold scan. by rewrite foldl_app. Qed.

Lemma outputs_app tr evs : outputs (tr ++ evs) = outputs tr ++ outputs evs.
Proof. apply omap_app. Qed.

Lemma volume_app tr evs : volume (tr ++ evs) = volume tr + volume evs.
Proof. induction tr as [|[] tr IH]; simpl; rewrite ?IH; lia. Qed.

Lemma volume_pos tr : 0 <= volume tr.
Proof. induction tr as [|[] tr IH]; simpl; lia. Qed.

Lemma pieces_app tr evs : exists ps, pieces (tr ++ evs) = pieces tr ++ ps.
Proof.
  unfold pieces. induction evs as [|ev evs IH] using rev_ind; [exists []; by rewrite !app_nil_r|].
  destruct IH as [ps IH]. rewrite app_assoc, scan_snoc.
  destruct ev; simpl; rewrite ?IH; try by exists ps.
  destruct (_ && _); [|by exists ps]. destruct (segment_of_bytes _); [|by exists ps].
  eexists. by rewrite <- app_assoc.
Qed.

(** ** Partial correctness: what holds if the run returns *)

Definition pwp {S A} (m : M S A) (Q : A -> S -> Prop) (s : S) : Prop :=
  match m s with Done a s' => Q a s' | _ => True end.

Lemma pwp_ret {S A} (a : A) (Q : A -> S -> Prop) s : Q a s -> pwp (mret a) Q s.
Proof. done. Qed.
Lemma pwp_bind {S A B} (m : M S A) (k : A -> M S B) Q s :
  pwp m (fun a s' => pwp (k a) Q s') s -> pwp (m ≫= k) Q s.
Proof. unfold pwp, mbind, M_bind. by destruct (m s). Qed.
Lemma pwp_mono {S A} (m : M S A) (Q Q' : A -> S -> Prop) s :
  pwp m Q s -> (forall a s', Q a s' -> Q' a s') -> pwp m Q' s.
Proof. unfold pwp. destruct (m s); auto. Qed.
Lemma pwp_access {S} b (Q : unit -> S -> Prop) s : (b = true -> Q tt s) -> pwp (access b) Q s.
Proof. intros H. destruct b; [by apply H|done]. Qed.

Section Calls.
Context {S : Type} `{!ConnLib S}.
Implicit Types (tr : list event) (s : S).

Lemma pwp_lib_sys {A} (m : M S A) (Q : A -> lib S -> Prop) tr s :
  (forall a s', Q a (tr, s')) -> pwp (lib_sys m) Q (tr, s).
Proof. intros HQ. unfold pwp, lib_sys, zoom. simpl. by destruct (m s). Qed.

Lemma pwp_lib_send c seg len (Q : Z -> lib S -> Prop) tr s :
  (forall n s', Q n (tr ++ [EvSend c seg n], s')) -> pwp (lib_send c seg len) Q (tr, s).
Proof. intros HQ. apply pwp_bind, pwp_lib_sys. intros n s'. by apply HQ. Qed.

Lemma pwp_lib_output c buf len (Q : Z -> lib S -> Prop) tr s :
  (forall n s', Q n (tr ++ [EvOutput c (take (Z.to_nat len) buf) n], s')) ->
  pwp (lib_output c buf len) Q (tr, s).
Proof. intros HQ. apply pwp_bind, pwp_lib_sys. intros n s'. by apply HQ. Qed.

Lemma pwp_lib_input c buf len (Q : Z * list byte -> lib S -> Prop) tr s :
  (forall n buf' s', Q (n, buf') (tr ++ [EvInput c n], s')) -> pwp (lib_input c buf len) Q (tr, s).
Proof. intros HQ. apply pwp_bind, pwp_lib_sys. intros [n buf'] s'. by apply HQ. Qed.

Lemma pwp_ep_destroy e (Q : option endpoint -> lib S -> Prop) tr s :
  (forall s', Q None ((tr ++ [EvRemove (ep_conn e)]) ++ [EvEndClient], s')) ->
  pwp (ep_destroy e) Q (tr, s).
Proof.
  intros HQ. unfold ep_destroy, lib_remove, lib_end_client.
  apply pwp_bind, pwp_bind, pwp_lib_sys. intros [] s1.
  apply pwp_bind. apply (pwp_bind (lib_log EvEndClient)). apply pwp_lib_sys. intros [] s2. apply HQ.
Qed.
End Calls.

(** ** The sender's side *)

Definition MAX_VOLUME : Z := 2 ^ 32 - 1.

(** A segment on the network: a piece, or a bare ACK or FIN, before [top]. *)
Definition carried (ps : list piece) (top : Z) (bs : list byte) : Prop :=
  exists seqno ackno flags data,
    bs = segment_bytes (wire_segment seqno ackno flags
                          (SEGMENT_HDR_SIZE + Z.of_nat (length data)) data) /\
    0 <= seqno < 2 ^ 32 /\ 0 <= ackno < 2 ^ 32 /\ Z.of_nat (length data) <= MAX_SEG_DATA_SIZE /\
    (flags = ACK /\ data <> [] /\ (seqno, data) ∈ ps \/
     flags = ACK /\ data = [] /\ seqno <= top \/
     flags = FIN /\ data = [] /\ seqno + 1 <= top).

Lemma carried_mono ps ps' top top' bs :
  carried ps top bs -> (forall p, p ∈ ps -> p ∈ ps') -> top <= top' -> carried ps' top' bs.
Proof.
  intros (x & a & fl & d & E & Hx & Ha & Hd & H) Hps Ht. exists x, a, fl, d.
  split; [exact E|]. split; [exact Hx|]. split; [exact Ha|]. split; [exact Hd|].
  destruct H as [(? & ? & ?)|[(? & ? & ?)|(? & ? & ?)]]; [left|right; left|right; right];
    split_and!; auto; lia.
Qed.

(** What the record of the calls shows of an endpoint whose next number is [top]. *)
Record sent (tr : list event) (top : Z) : Prop := {
  sn_pending : pending tr = false;
  sn_ordered : ordered (pieces tr);
  sn_pieces : Forall (fun p => nonempty p /\ 1 <= p.1 /\ piece_end p <= top) (pieces tr);
  sn_sent c bs n : EvSend c bs n ∈ tr -> 0 <= n -> carried (pieces tr) top bs;
  sn_top : 1 <= top <= 1 + volume tr;
}.

Lemma sent_nil : sent [] 1.
Proof.
  split; [done|apply SSorted_nil|by apply Forall_nil| |by vm_compute].
  intros c bs n Hin. by apply not_elem_of_nil in Hin.
Qed.

Definition sender (tr : list event) (e : endpoint) : Prop :=
  volume tr < MAX_VOLUME ->
  sent tr (ep_seqno e) /\ 0 <= ep_ackno e < 2 ^ 32 /\
  forall u, ep_unacked e = Some u ->
    carried (pieces tr) (ep_seqno e) (segment_bytes (un_segment u)).

(** The same for an endpoint that may have been destroyed. *)
Definition sender_of (tr : list event) (o : option endpoint) : Prop :=
  match o with
  | Some e => sender tr e
  | None => volume tr < MAX_VOLUME -> exists top, sent tr top
  end.

Lemma sender_fields tr e e' :
  sender tr e -> ep_seqno e' = ep_seqno e -> 0 <= ep_ackno e' < 2 ^ 32 ->
  (ep_unacked e' = ep_unacked e \/ ep_unacked e' = None) -> sender tr e'.
Proof.
  intros H Es Ha Hu Hv. destruct (H Hv) as (Hs & _ & Hc). rewrite Es.
  split; [exact Hs|]. split; [exact Ha|].
  intros u. destruct Hu as [-> | ->]; [apply Hc|done].
Qed.

(** Calls other than sending and reading. *)
Definition other_call (ev : event) : Prop :=
  match ev with EvSend _ _ _ => False | EvInput _ r => r <= 0 | _ => True end.

Lemma scan_other tr ev : other_call ev -> scan (tr ++ [ev]) = (pieces tr, false).
Proof.
  intros H. rewrite scan_snoc. destruct ev; simpl in *; try done.
  by rewrite (proj2 (Z.ltb_ge 0 r)).
Qed.

Lemma volume_other tr ev : other_call ev -> volume (tr ++ [ev]) = volume tr.
Proof. intros H. rewrite volume_app. destruct ev; simpl in *; [lia|done|lia..]. Qed.

Lemma sent_other tr ev top : other_call ev -> sent tr top -> sent (tr ++ [ev]) top.
Proof.
  intros H [Hp Ho Hf Hs Ht]. pose proof (scan_other tr ev H) as E.
  assert (Epc : pieces (tr ++ [ev]) = pieces tr) by (unfold pieces at 1; by rewrite E).
  split; rewrite ?Epc, ?volume_other by done; try done.
  - unfold pending. by rewrite E.
  - intros c bs n [Hin|Hin%list_elem_of_singleton]%elem_of_app; [by eapply Hs|]. by subst ev.
Qed.

Lemma sender_other tr ev e : other_call ev -> sender tr e -> sender (tr ++ [ev]) e.
Proof.
  intros H Hs. unfold sender. rewrite volume_other by done. intros Hv.
  destruct (Hs Hv) as (H1 & H2 & H3).
  split; [by apply sent_other|]. split; [exact H2|].
  intros u Hu. unfold pieces. rewrite scan_other by done. by apply H3.
Qed.

Lemma scan_send tr c bs n :
  pending tr = false -> scan (tr ++ [EvSend c bs n]) = (pieces tr, false).
Proof. intros Hp. rewrite scan_snoc. unfold pending in Hp. simpl. by rewrite Hp. Qed.

Lemma volume_send tr c bs n : volume (tr ++ [EvSend c bs n]) = volume tr + Z.of_nat (length bs).
Proof. rewrite volume_app. simpl. lia. Qed.

Lemma pieces_send tr c bs n : pending tr = false -> pieces (tr ++ [EvSend c bs n]) = pieces tr.
Proof. intros Hp. unfold pieces at 1. by rewrite scan_send. Qed.

(** A segment that carries no new piece. *)
Lemma sent_send tr c bs n top top' :
  sent tr top -> top <= top' <= top + Z.of_nat (length bs) ->
  (0 <= n -> carried (pieces tr) top' bs) -> sent (tr ++ [EvSend c bs n]) top'.
Proof.
  intros [Hp Ho Hf Hs Ht] Htop Hc.
  split; rewrite ?pieces_send, ?volume_send by done.
  - unfold pending. by rewrite scan_send.
  - done.
  - eapply Forall_impl; [exact Hf|]. intros p (? & ? & ?). split_and!; [done|done|lia].
  - intros c' bs' n' [Hin|Hin%list_elem_of_singleton]%elem_of_app Hn.
    + eapply carried_mono; [by eapply Hs|done|lia].
    + injection Hin as -> -> ->. by apply Hc.
  - lia.
Qed.

Lemma scan_piece tr c r bs n seg :
  0 < r -> 0 <= n -> segment_of_bytes bs = Some seg ->
  scan ((tr ++ [EvInput c r]) ++ [EvSend c bs n]) =
  (pieces tr ++ [(ntohl (seg_seqno seg), seg_data seg)], false).
Proof.
  intros Hr Hn Hseg. rewrite !scan_snoc. simpl.
  rewrite (proj2 (Z.ltb_lt 0 r)), (proj2 (Z.leb_le 0 n)) by done. cbn [andb]. by rewrite Hseg.
Qed.

(** A segment with a new piece, after the input it comes from. *)
Lemma sent_piece tr c r bs n top seg data :
  sent tr top -> 0 < r -> 0 <= n -> segment_of_bytes bs = Some seg ->
  ntohl (seg_seqno seg) = top -> seg_data seg = data -> data <> [] ->
  (length data <= length bs)%nat ->
  carried [(top, data)] (piece_end (top, data)) bs ->
  sent ((tr ++ [EvInput c r]) ++ [EvSend c bs n]) (piece_end (top, data)).
Proof.
  intros [Hp Ho Hf Hs Ht] Hr Hn Hseg Hq Hd Hne Hl Hc.
  assert (Esc : scan ((tr ++ [EvInput c r]) ++ [EvSend c bs n]) = (pieces tr ++ [(top, data)], false)).
  { by erewrite scan_piece, Hq, Hd by done. }
  assert (Ep : pieces ((tr ++ [EvInput c r]) ++ [EvSend c bs n]) = pieces tr ++ [(top, data)])
    by (unfold pieces at 1; by rewrite Esc).
  assert (Ev : volume ((tr ++ [EvInput c r]) ++ [EvSend c bs n]) = volume tr + Z.of_nat (length bs))
    by (rewrite volume_send, volume_app; simpl; lia).
  assert (Hend : top < piece_end (top, data)) by by apply (piece_end_gt (top, data)).
  split; rewrite ?Ep, ?Ev.
  - unfold pending. by rewrite Esc.
  - apply ordered_snoc; [done|]. eapply Forall_impl; [exact Hf|]. by intros p (_ & _ & ?).
  - apply Forall_app. split; [eapply Forall_impl; [exact Hf|]; intros p (? & ? & ?);
      split_and!; [done|done|lia]|].
    apply Forall_singleton. split_and!; [done|simpl; lia|lia].
  - intros c' bs' n' Hin Hn'. rewrite <- app_assoc in Hin.
    apply elem_of_app in Hin as [Hin|Hin].
    + eapply carried_mono; [by eapply Hs| |lia]. intros p Hp'. apply elem_of_app. by left.
    + apply elem_of_cons in Hin as [Hin|Hin%list_elem_of_singleton]; [done|].
      injection Hin as -> -> ->. eapply carried_mono; [exact Hc| |lia].
      intros p Hp'. apply elem_of_app. by right.
  - unfold piece_end in *. simpl in *. lia.
Qed.

(** What sending leaves alone. *)
Definition same_view (e e' : endpoint) : Prop :=
  ep_conn e' = ep_conn e /\ ep_phase e' = ep_phase e /\ ep_ackno e' = ep_ackno e /\
  ep_received e' = ep_received e.

Lemma same_view_sent flags len g e : same_view e (ep_sent flags len g e).
Proof. unfold ep_sent. by destruct (_ || _). Qed.

Lemma ep_sent_data (r : Z) g e :
  0 < r -> ep_sent ACK (SEGMENT_HDR_SIZE + r) g e =
  ep_with_unacked (Some (Unacked g 0 0)) (ep_with_seqno (u32 (ep_seqno e + r)) e).
Proof.
  intros Hr. unfold ep_sent. replace (SEGMENT_HDR_SIZE + r - SEGMENT_HDR_SIZE) with r by lia.
  destruct (Z.gtb_spec r 0); [done|lia].
Qed.

Section Sender.
Context {S : Type} `{!ConnLib S}.
Implicit Types (tr : list event) (s : S) (e : endpoint).

Lemma carried_ctl ps top seqno ackno flags :
  0 <= seqno < 2 ^ 32 -> 0 <= ackno < 2 ^ 32 ->
  (flags = ACK /\ seqno <= top \/ flags = FIN /\ seqno + 1 <= top) ->
  carried ps top (segment_bytes (wire_segment seqno ackno flags SEGMENT_HDR_SIZE [])).
Proof.
  intros Hs Ha H. exists seqno, ackno, flags, []. split; [done|]. split; [done|]. split; [done|].
  split; [by vm_compute|]. destruct H as [[-> H]|[-> H]]; [right; left|right; right]; done.
Qed.

(** Sending a bare ACK or FIN. *)
Lemma sender_ctl tr s e flags data :
  sender tr e -> flags = ACK \/ flags = FIN ->
  pwp (ep_send flags SEGMENT_HDR_SIZE data e)
    (fun '(_, e') ls' => sender (fst ls') e' /\ same_view e e' /\
       exists bs n, fst ls' = tr ++ [EvSend (ep_conn e) bs n]) (tr, s).
Proof.
  intros Hs Hfl. unfold ep_send. apply pwp_bind, pwp_lib_send. intros n s'. apply pwp_ret.
  change (wire_segment (ep_seqno e) (ep_ackno e) flags SEGMENT_HDR_SIZE data)
    with (wire_segment (ep_seqno e) (ep_ackno e) flags SEGMENT_HDR_SIZE []).
  set (g := wire_segment _ _ _ _ _). cbn [fst].
  assert (Hl : Z.of_nat (length (segment_bytes g)) = 20).
  { unfold g. rewrite wire_bytes_length; by vm_compute. }
  pose (e' := if n <? 0 then e else ep_sent flags SEGMENT_HDR_SIZE g e).
  replace (if n <? 0 then (-1, e) else (SEGMENT_HDR_SIZE, ep_sent flags SEGMENT_HDR_SIZE g e))
    with (if n <? 0 then -1 else SEGMENT_HDR_SIZE, e') by (unfold e'; by destruct (n <? 0)).
  assert (Hcase : n < 0 /\ e' = e \/ 0 <= n /\ e' = ep_sent flags SEGMENT_HDR_SIZE g e).
  { unfold e'. destruct (Z.ltb_spec n 0); [left|right]; auto. }
  assert (Hview : same_view e e').
  { destruct Hcase as [[_ ->]|[_ ->]]; [done|apply same_view_sent]. }
  split_and!; [|exact Hview|by exists (segment_bytes g), n].
  intros Hv. cbn [fst] in Hv |- *. rewrite volume_send in Hv. destruct Hs as (Hs & Ha & Hu); [lia|].
  pose proof (sn_top _ _ Hs) as Ht. pose proof (sn_pending _ _ Hs) as Hp.
  unfold MAX_VOLUME in Hv. rewrite pieces_send by done.
  destruct Hcase as [[Hn ->]|[Hn ->]].
  { split; [apply (sent_send _ _ _ _ (ep_seqno e)); [done|lia|lia]|]. by split. }
  assert (Hcar : carried (pieces tr) (ep_seqno (ep_sent flags SEGMENT_HDR_SIZE g e)) (segment_bytes g)
    /\ ep_seqno e <= ep_seqno (ep_sent flags SEGMENT_HDR_SIZE g e) <= ep_seqno e + 1).
  { destruct Hfl as [-> | ->].
    - change (ep_seqno (ep_sent ACK SEGMENT_HDR_SIZE g e)) with (u32 (ep_seqno e + 0)).
      rewrite u32_small by lia. split; [apply carried_ctl; lia|lia].
    - change (ep_seqno (ep_sent FIN SEGMENT_HDR_SIZE g e)) with (u32 (ep_seqno e + 1)).
      rewrite u32_small by lia. split; [apply carried_ctl; lia|lia]. }
  destruct Hcar as [Hcar Hrange]. split; [|split].
  - apply (sent_send _ _ _ _ (ep_seqno e)); [done|lia|done].
  - destruct Hfl as [-> | ->]; exact Ha.
  - intros u Hu'. destruct Hfl as [-> | ->].
    + eapply carried_mono; [by apply Hu|done|lia].
    + injection Hu' as <-. exact Hcar.
Qed.

(** The segment of [r] bytes of a buffer. *)
Lemma wire_take seqno ackno flags (r : Z) (buf : list byte) :
  0 <= r <= Z.of_nat (length buf) ->
  wire_segment seqno ackno flags (SEGMENT_HDR_SIZE + r) buf =
  wire_segment seqno ackno flags
    (SEGMENT_HDR_SIZE + Z.of_nat (length (take (Z.to_nat r) buf))) (take (Z.to_nat r) buf).
Proof.
  intros Hr. rewrite length_take, Nat.min_l, Z2Nat.id by lia. unfold wire_segment.
  replace (SEGMENT_HDR_SIZE + r - SEGMENT_HDR_SIZE) with r by lia.
  by rewrite take_take, Nat.min_id.
Qed.

Lemma scan_failed tr c r bs n :
  n < 0 -> scan ((tr ++ [EvInput c r]) ++ [EvSend c bs n]) = (pieces tr, false).
Proof.
  intros Hn. rewrite !scan_snoc. simpl. rewrite (proj2 (Z.leb_gt 0 n)) by done.
  by rewrite andb_false_r.
Qed.

Lemma pieces_failed tr c r bs n :
  n < 0 -> pieces ((tr ++ [EvInput c r]) ++ [EvSend c bs n]) = pieces tr.
Proof. intros Hn. unfold pieces at 1. by rewrite scan_failed. Qed.

Lemma sent_failed tr c r bs n top :
  sent tr top -> n < 0 -> sent ((tr ++ [EvInput c r]) ++ [EvSend c bs n]) top.
Proof.
  intros [Hp Ho Hf Hs Ht] Hn.
  split; rewrite ?pieces_failed by done; try done.
  - unfold pending. by rewrite scan_failed.
  - intros c' bs' n' Hin Hn'. rewrite <- app_assoc in Hin.
    apply elem_of_app in Hin as [Hin|Hin]; [by eapply Hs|].
    apply elem_of_cons in Hin as [Hin|Hin%list_elem_of_singleton]; [done|].
    injection Hin as -> -> ->. lia.
  - rewrite volume_send, volume_app. simpl. lia.
Qed.

(** A segment with data, as [_segment_send] makes it. *)
Lemma wire_piece seqno ackno data :
  0 <= seqno < 2 ^ 32 -> 0 <= ackno < 2 ^ 32 -> 0 < Z.of_nat (length data) <= MAX_SEG_DATA_SIZE ->
  let g := wire_segment seqno ackno ACK (SEGMENT_HDR_SIZE + Z.of_nat (length data)) data in
  Z.of_nat (length (segment_bytes g)) = SEGMENT_HDR_SIZE + Z.of_nat (length data) /\
  segment_of_bytes (segment_bytes g) = Some g /\ ntohl (seg_seqno g) = seqno /\ seg_data g = data /\
  forall ps top, (seqno, data) ∈ ps -> carried ps top (segment_bytes g).
Proof.
  intros Hs Ha Hd g.
  assert (Hr : SEGMENT_HDR_SIZE <= SEGMENT_HDR_SIZE + Z.of_nat (length data) <=
               SEGMENT_HDR_SIZE + MAX_SEG_DATA_SIZE) by lia.
  assert (Hl : Z.of_nat (length data) = SEGMENT_HDR_SIZE + Z.of_nat (length data) - SEGMENT_HDR_SIZE) by lia.
  split_and!.
  - unfold g. rewrite wire_bytes_length by (exact Hr || lia). unfold SEGMENT_HDR_SIZE. lia.
  - apply segment_of_bytes_bytes, wire_wf; (exact Hr || lia).
  - change (seg_seqno (_segment_ntoh (set_cksum 0 g)) = seqno). unfold g.
    rewrite wire_ntoh; [done|exact Hr|exact Hs|exact Ha|by vm_compute].
  - unfold g. rewrite wire_data, <- Hl, Nat2Z.id. apply firstn_all.
  - intros ps top Hin. exists seqno, ackno, ACK, data. split; [done|]. split; [done|]. split; [done|].
    split; [lia|]. left. split; [done|]. split; [|done]. intros E. rewrite E in Hd. simpl in Hd. lia.
Qed.

(** Sending [data] that has just been read. *)
Lemma sender_data tr s e (r : Z) (buf : list byte) :
  sender tr e -> 0 < r <= MAX_BUFF_SIZE -> r <= Z.of_nat (length buf) ->
  pwp (ep_send ACK (SEGMENT_HDR_SIZE + r) buf e)
    (fun '(_, e') ls' => sender (fst ls') e' /\ same_view e e' /\
       exists bs n, fst ls' = (tr ++ [EvInput (ep_conn e) r]) ++ [EvSend (ep_conn e) bs n])
    (tr ++ [EvInput (ep_conn e) r], s).
Proof.
  intros Hs Hr Hb. unfold ep_send. apply pwp_bind, pwp_lib_send. intros n s'. apply pwp_ret.
  rewrite wire_take by lia. set (data := take (Z.to_nat r) buf).
  assert (Hld : Z.of_nat (length data) = r) by (unfold data; rewrite length_take; lia).
  rewrite Hld. set (g := wire_segment _ _ _ _ data).
  pose (e' := if n <? 0 then e else ep_sent ACK (SEGMENT_HDR_SIZE + r) g e).
  replace (if n <? 0 then (-1, e)
           else (SEGMENT_HDR_SIZE + r, ep_sent ACK (SEGMENT_HDR_SIZE + r) g e))
    with (if n <? 0 then -1 else SEGMENT_HDR_SIZE + r, e') by (unfold e'; by destruct (n <? 0)).
  assert (Hcase : n < 0 /\ e' = e \/ 0 <= n /\ e' = ep_sent ACK (SEGMENT_HDR_SIZE + r) g e).
  { unfold e'. destruct (Z.ltb_spec n 0); [left|right]; auto. }
  assert (Hview : same_view e e').
  { destruct Hcase as [[_ ->]|[_ ->]]; [done|apply same_view_sent]. }
  split_and!; [|exact Hview|by exists (segment_bytes g), n].
  intros Hv. cbn [fst] in Hv |- *. rewrite volume_send, volume_app in Hv.
  change (volume [EvInput (ep_conn e) r]) with 0 in Hv.
  destruct Hs as (Hs & Ha & Hu); [lia|]. pose proof (sn_top _ _ Hs) as Ht.
  unfold MAX_VOLUME, MAX_BUFF_SIZE, MAX_SEG_DATA_SIZE in *.
  destruct Hcase as [[Hn ->]|[Hn ->]].
  { rewrite pieces_failed by done. split; [by apply sent_failed|]. by split. }
  destruct (wire_piece (ep_seqno e) (ep_ackno e) data) as (Hlen & Hgb & Hgs & Hgd & Hcar);
    [lia|exact Ha|unfold MAX_SEG_DATA_SIZE; lia|].
  rewrite Hld in Hlen, Hgb, Hgs, Hgd, Hcar. fold g in Hlen, Hgb, Hgs, Hgd, Hcar.
  rewrite Hlen in Hv. unfold SEGMENT_HDR_SIZE in Hv, Hlen.
  assert (Htop : piece_end (ep_seqno e, data) = ep_seqno e + r) by (unfold piece_end; simpl; lia).
  rewrite ep_sent_data by lia. cbn [ep_with_unacked ep_with_seqno ep_seqno ep_ackno ep_unacked].
  rewrite u32_small by lia. rewrite <- Htop.
  assert (Hsent : sent ((tr ++ [EvInput (ep_conn e) r]) ++ [EvSend (ep_conn e) (segment_bytes g) n])
                    (piece_end (ep_seqno e, data))).
  { apply (sent_piece tr (ep_conn e) r _ n (ep_seqno e) g data); try done; try lia.
    { intros E. rewrite E in Hld. simpl in Hld. lia. }
    apply Hcar, list_elem_of_singleton. done. }
  split; [exact Hsent|]. split; [exact Ha|]. intros u [= <-]. apply Hcar.
  unfold pieces at 1. rewrite (scan_piece _ _ _ _ _ g) by (exact Hgb || lia). rewrite Hgs, Hgd.
  apply elem_of_app. right. by apply list_elem_of_singleton.
Qed.
End Sender.
