(* ===== verification/Delivery.v ===== *)
(** * Delivery in order

    What an endpoint outputs is what its peer has read, in order, without
    repetition: the invariant of both sides, and that every operation keeps
    it, whatever the library and the network do. *)

From Stdlib Require Import Sorted.
From S2P Require Import Prelude Heap Words Cksum Segment ConnLib Ctcp CtcpSpec CtcpSteps Streams.

(** ** The receiver's side *)

(** What is known of the pieces that the peer has sent. *)
Record peer (ps : list piece) (top : Z) : Prop := {
  pr_ordered : ordered ps;
  pr_pieces : Forall (fun p => nonempty p /\ 1 <= p.1 /\ piece_end p <= top) ps;
  pr_top : top < 2 ^ 32;
}.

Definition all_before (ps : list piece) (x : Z) : Prop := Forall (fun p => piece_end p <= x) ps.

(** The segment [g], in host order, carries a piece after those of [qs]. *)
Definition carries (ps qs : list piece) (g : ctcp_segment) : Prop :=
  exists p, p ∈ ps /\ seg_seqno g = p.1 /\
    seg_len g = SEGMENT_HDR_SIZE + Z.of_nat (length p.2) /\
    seg_data g = p.2 /\ Z.of_nat (length p.2) <= MAX_SEG_DATA_SIZE /\ all_before qs p.1.

(** What has been output are pieces that the peer has sent, in order; none is
    at or after the acknowledgement number while data is transferred. *)
Definition got (ps : list piece) (outs : list (list byte)) (phase : conn_state) (ackno : Z)
    (rc : received) : Prop :=
  exists qs, qs `sublist_of` ps /\ snd <$> qs = outs /\
    (phase = DATA_TRANSFER -> all_before qs ackno) /\
    forall g, rc = RecvKept g -> carries ps qs g.

Definition receiver (ps : list piece) (tr : list event) (e : endpoint) : Prop :=
  got ps (outputs tr) (ep_phase e) (ep_ackno e) (ep_received e).

Definition receiver_of (ps : list piece) (tr : list event) (o : option endpoint) : Prop :=
  match o with
  | Some e => receiver ps tr e
  | None => exists qs, qs `sublist_of` ps /\ snd <$> qs = outputs tr
  end.

Lemma got_more ps ps' outs phase ackno rc :
  got ps outs phase ackno rc -> got (ps ++ ps') outs phase ackno rc.
Proof.
  intros (qs & Hs & Ho & Ha & Hk). exists qs. split_and!; [by apply sublist_inserts_r|done|done|].
  intros g Hg. destruct (Hk g Hg) as (p & Hp & H). exists p. split; [|done].
  apply elem_of_app. by left.
Qed.

Lemma got_weaken ps outs phase phase' ackno ackno' rc rc' :
  got ps outs phase ackno rc ->
  (phase' = DATA_TRANSFER -> phase = DATA_TRANSFER /\ ackno <= ackno') ->
  (rc' = rc \/ rc' = RecvFreed) -> got ps outs phase' ackno' rc'.
Proof.
  intros (qs & Hs & Ho & Ha & Hk) Hp Hrc. exists qs. split_and!; [done|done| |].
  - intros E. destruct (Hp E) as [E' Hle]. eapply Forall_impl; [by apply Ha|]. simpl. lia.
  - intros g Hg. apply Hk. destruct Hrc as [->| ->]; [done|discriminate].
Qed.

(** A piece is output. *)
Lemma got_output ps top outs phase ackno g x :
  peer ps top -> got ps outs phase ackno (RecvKept g) ->
  seg_seqno g + Z.of_nat (length (seg_data g)) <= x ->
  seg_data g <> [] /\ got ps (outs ++ [seg_data g]) phase x RecvFreed.
Proof.
  intros [Ho Hp _] (qs & Hs & Hq & Ha & Hk) Hx.
  destruct (Hk g eq_refl) as (p & Hin & Es & El & Ed & Hm & Hb).
  rewrite Forall_forall in Hp. destruct (Hp p Hin) as (Hne & _). rewrite Ed. split; [exact Hne|].
  exists (qs ++ [p]). split_and!.
  - apply ordered_extend; try done. rewrite Forall_forall. intros q Hq'. by apply Hp.
  - by rewrite fmap_app, Hq.
  - intros _. apply Forall_app. split.
    + eapply Forall_impl; [exact Hb|]. intros q. rewrite Es, Ed in Hx. simpl. lia.
    + apply Forall_singleton. unfold piece_end. rewrite Es, Ed in Hx. exact Hx.
  - discriminate.
Qed.

Lemma receiver_gone ps tr e : receiver ps tr e -> receiver_of ps tr None.
Proof. intros (qs & Hs & Ho & _). by exists qs. Qed.

(** ** The operations *)

(** Both sides of an endpoint, and a later state of it. *)
Definition ok (ps : list piece) (tr : list event) (o : option endpoint) : Prop :=
  sender_of tr o /\ receiver_of ps tr o.

Definition extends (tr tr' : list event) : Prop := exists evs, tr' = tr ++ evs.

#[export] Instance extends_refl : Reflexive extends.
Proof. intros tr. exists []. by rewrite app_nil_r. Qed.
#[export] Instance extends_trans : Transitive extends.
Proof. intros tr1 tr2 tr3 [e1 ->] [e2 ->]. exists (e1 ++ e2). by rewrite app_assoc. Qed.

Lemma extends_app tr evs : extends tr (tr ++ evs).
Proof. by exists evs. Qed.

Lemma outputs_silent tr ev :
  outputs [ev] = [] -> outputs (tr ++ [ev]) = outputs tr.
Proof. intros E. by rewrite outputs_app, E, app_nil_r. Qed.

Section Operations.
Context {S : Type} `{!ConnLib S}.
Context (ps : list piece) (top : Z).
Implicit Types (tr : list event) (s : S) (e : endpoint).

Definition later tr (o : option endpoint) (ls : lib S) : Prop :=
  extends tr (fst ls) /\ ok ps (fst ls) o.

Lemma receiver_view tr tr' e e' :
  receiver ps tr e -> outputs tr' = outputs tr -> same_view e e' -> receiver ps tr' e'.
Proof. intros Hr E (_ & Hp & Ha & Hrc). unfold receiver. by rewrite E, Hp, Ha, Hrc. Qed.

(** Sending a bare ACK or FIN. *)
Lemma ok_ctl tr s e flags :
  sender tr e -> flags = ACK \/ flags = FIN ->
  pwp (ep_send_ flags e)
    (fun e' ls => sender (fst ls) e' /\ same_view e e' /\ extends tr (fst ls) /\
       outputs (fst ls) = outputs tr) (tr, s).
Proof.
  intros Hs Hf. unfold ep_send_. apply pwp_bind.
  eapply pwp_mono; [by apply sender_ctl|]. intros [n e'] ls (Hs' & Hv & bs & m & E).
  apply pwp_ret. rewrite E in *. split_and!; [done|done|apply extends_app|by apply outputs_silent].
Qed.

Lemma ok_destroy tr s e :
  sender tr e -> receiver_of ps tr None ->
  pwp (ep_destroy e) (fun o ls => later tr o ls) (tr, s).
Proof.
  intros Hs Hr. apply pwp_ep_destroy. intros s'. split.
  - cbn [fst]. rewrite <- app_assoc. apply extends_app.
  - split; simpl.
    + rewrite !volume_other by done. intros Hv. destruct (Hs Hv) as (H & _).
      exists (ep_seqno e). apply sent_other; [done|]. by apply sent_other.
    + by rewrite !outputs_silent by done.
Qed.

Lemma ok_read tr s e :
  ok ps tr (Some e) -> pwp (ep_read e) (fun e' ls => later tr (Some e') ls) (tr, s).
Proof.
  intros [Hs Hr]. unfold ep_read. destruct (ep_unacked e); [by apply pwp_ret|].
  apply pwp_bind, pwp_lib_input. intros r buf s1.
  assert (Ho : outputs (tr ++ [EvInput (ep_conn e) r]) = outputs tr) by by apply outputs_silent.
  assert (Hlast : forall e1 tr2, sender tr2 e1 -> same_view e e1 ->
    (exists bs n, tr2 = (tr ++ [EvInput (ep_conn e) r]) ++ [EvSend (ep_conn e) bs n]) ->
    forall s2, later tr (Some e1) (tr2, s2)).
  { intros e1 tr2 Hs1 Hv (bs & n & ->) s2. split; [cbn [fst]; rewrite <- app_assoc; apply extends_app|].
    split; [done|]. eapply receiver_view; [exact Hr| |exact Hv].
    cbn [fst]. by rewrite outputs_silent, Ho. }
  case_bool_decide as Hr1.
  - apply pwp_bind. eapply pwp_mono; [apply sender_ctl; [|by right]|].
    { apply sender_other; [simpl; lia|done]. }
    intros [n e1] [tr2 s2] (Hs1 & Hv & bs & m & E). apply pwp_ret. simpl in *.
    pose proof (Hlast e1 tr2 Hs1 Hv ltac:(eauto) s2) as Hl. destruct (n <? 0); [done|].
    destruct Hl as [Hx [Hsx Hrx]]. split; [exact Hx|]. split; [exact Hsx|].
    eapply got_weaken; [exact Hrx|done|by left].
  - apply pwp_bind, pwp_access. intros [[H0%Z.leb_le H1%Z.leb_le]%andb_true_iff H2%Z.leb_le]%andb_true_iff.
    apply pwp_bind. destruct (decide (r = 0)) as [->|Hn0].
    + change (SEGMENT_HDR_SIZE + 0) with SEGMENT_HDR_SIZE.
      eapply pwp_mono; [apply sender_ctl; [|by left]|].
      { by apply sender_other. }
      intros [n e1] [tr2 s2] (Hs1 & Hv & bs & m & E). apply pwp_ret. apply Hlast; eauto.
    + eapply pwp_mono; [apply sender_data; [done|lia|done]|].
      intros [n e1] [tr2 s2] (Hs1 & Hv & bs & m & E). apply pwp_ret. apply Hlast; eauto.
Qed.

Lemma ok_resend tr s e :
  ok ps tr (Some e) -> pwp (ep_resend e) (fun e' ls => later tr (Some e') ls) (tr, s).
Proof.
  intros [Hs Hr]. unfold ep_resend. destruct (ep_unacked e) as [u|] eqn:Hu; [|by apply pwp_ret].
  unfold ep_retransmit. destruct (_ >=? _).
  - apply pwp_bind, pwp_lib_send. intros n s1. apply pwp_ret.
    split; [apply extends_app|]. split; [|eapply receiver_view; [exact Hr|by apply outputs_silent|done]].
    intros Hv. cbn [fst] in Hv |- *. rewrite volume_send in Hv.
    destruct Hs as (Hs & Ha & Hc); [lia|]. pose proof (sn_pending _ _ Hs) as Hp.
    rewrite pieces_send by done. split; [|split; [exact Ha|]].
    + apply (sent_send _ _ _ _ (ep_seqno e)); [exact Hs|simpl; lia|]. intros _. exact (Hc u Hu).
    + intros u'. cbn [ep_with_unacked ep_unacked ep_seqno].
      destruct (_ >=? _); [done|]. intros [= <-]. exact (Hc u Hu).
  - apply pwp_ret. split; [done|]. split; [|exact Hr].
    intros Hv. destruct (Hs Hv) as (H1 & H2 & H3). split; [exact H1|]. split; [exact H2|].
    intros u' [= <-]. exact (H3 u Hu).
Qed.

Lemma ok_tick tr s e :
  ok ps tr (Some e) -> pwp (ep_tick e) (fun o ls => later tr o ls) (tr, s).
Proof.
  intros Hok.
  assert (Hrest : forall e', ok ps tr (Some e') ->
    pwp (ep_resend e' ≫= fun e => mret (Some e)) (fun o ls => later tr o ls) (tr, s)).
  { intros e' Hok'. apply pwp_bind. eapply pwp_mono; [by apply ok_resend|].
    intros e2 ls Hl. by apply pwp_ret. }
  unfold ep_tick. destruct (ep_td e); [by apply Hrest| |by apply Hrest].
  destruct (_ >=? _); [|apply Hrest; exact Hok].
  destruct Hok as [Hs Hr]. apply ok_destroy; [exact Hs|by eapply receiver_gone].
Qed.

Hypothesis Hpeer : peer ps top.

Lemma ok_output tr s e :
  ok ps tr (Some e) -> pwp (ep_output e) (fun o ls => later tr o ls) (tr, s).
Proof.
  intros [Hs Hr]. unfold ep_output. destruct (ep_received e) as [|g|] eqn:Hg; [done| |done].
  cbn [receiver_of] in Hr. unfold receiver in Hr. rewrite Hg in Hr.
  pose proof Hr as (qs & _ & _ & _ & Hk).
  destruct (Hk g eq_refl) as (p & Hin & Eq & El & Ed & Hm & _).
  destruct Hpeer as [Ho Hps Htop]. rewrite Forall_forall in Hps.
  destruct (Hps p Hin) as (Hne & H1 & Hend). unfold piece_end in Hend.
  assert (Hpos : 0 < Z.of_nat (length p.2)) by (destruct p as [? []]; [done|simpl; lia]).
  unfold MAX_SEG_DATA_SIZE in Hm.
  assert (El' : u32 (seg_len g - SEGMENT_HDR_SIZE) = Z.of_nat (length p.2))
    by (rewrite El; unfold SEGMENT_HDR_SIZE; rewrite u32_small; lia).
  rewrite El'. apply pwp_bind, pwp_lib_sys. intros space s1.
  case_bool_decide as Hz.
  { apply pwp_ret. split; [done|]. split; [exact Hs|].
    eapply got_weaken; [exact Hr|done|by right]. }
  destruct (_ >=? _).
  2: { apply pwp_ret. split; [done|]. split; [exact Hs|]. cbn. unfold receiver. by rewrite Hg. }
  rewrite bool_decide_false by lia. apply pwp_bind, pwp_lib_output. intros r s2.
  rewrite Nat2Z.id, Ed, firstn_all.
  assert (Hx : seg_seqno g + Z.of_nat (length (seg_data g)) <= seg_seqno g + Z.of_nat (length p.2))
    by (rewrite Ed; lia).
  destruct (got_output ps top _ _ _ _ _ Hpeer Hr Hx) as [_ Hgot]. rewrite Ed in Hgot.
  assert (Eout : outputs (tr ++ [EvOutput (ep_conn e) p.2 r]) = outputs tr ++ [p.2]).
  { rewrite outputs_app. destruct p as [? []]; done. }
  assert (Hs2 : sender (tr ++ [EvOutput (ep_conn e) p.2 r]) e) by by apply sender_other.
  destruct (r <? 0).
  { eapply pwp_mono; [apply ok_destroy; [exact Hs2|]|].
    - cbn [receiver_of]. rewrite Eout. destruct Hgot as (qs' & ? & ? & _). by exists qs'.
    - intros o ls [Hx3 Hok]. split; [|exact Hok]. etransitivity; [apply extends_app|exact Hx3]. }
  apply pwp_bind. eapply pwp_mono; [apply ok_ctl; [|by left]|].
  { eapply sender_fields; [exact Hs2|done|apply u32_range|by left]. }
  intros e' [tr' s3] (Hs3 & Hv & Hx3 & Eo3). apply pwp_ret. simpl in *.
  split; [etransitivity; [apply extends_app|exact Hx3]|]. split.
  - eapply sender_fields; [exact Hs3|done| |by right].
    change (0 <= ep_ackno e' < 2 ^ 32). destruct Hv as (_ & _ & -> & _). apply u32_range.
  - destruct Hv as (_ & Hp & Ha & _).
    change (got ps (outputs tr') (ep_phase e') (ep_ackno e') RecvFreed).
    rewrite Eo3, Eout, Hp, Ha. cbn [ep_with_ackno ep_phase ep_ackno].
    rewrite Eq in *. rewrite u32_small by lia. exact Hgot.
Qed.

(** ** Receiving *)

(** What a segment from the network is, in host order. *)
Definition from_peer (h : ctcp_segment) : Prop :=
  exists seqno ackno flags data,
    h = Segment seqno ackno (SEGMENT_HDR_SIZE + Z.of_nat (length data)) 0 flags
          MAX_SEG_DATA_SIZE 0 data /\
    0 <= seqno < 2 ^ 32 /\ Z.of_nat (length data) <= MAX_SEG_DATA_SIZE /\
    (flags = ACK /\ data <> [] /\ (seqno, data) ∈ ps \/
     flags = ACK /\ data = [] \/ flags = FIN /\ data = []).

Lemma carried_host bs seg :
  carried ps top bs -> segment_of_bytes bs = Some seg ->
  from_peer (_segment_ntoh (set_cksum 0 seg)).
Proof.
  intros (x & a & fl & d & -> & Hx & Ha & Hl & H).
  rewrite segment_of_bytes_bytes by (apply wire_wf; done). intros [= <-].
  assert (Hfl : 0 <= fl < 2 ^ 32) by (destruct H as [[-> _]|[[-> _]|[-> _]]]; by vm_compute).
  exists x, a, fl, d. split; [|split; [exact Hx|split; [exact Hl|]]].
  - rewrite wire_ntoh; [|unfold SEGMENT_HDR_SIZE; lia|done..].
    replace (SEGMENT_HDR_SIZE + Z.of_nat (length d) - SEGMENT_HDR_SIZE)
      with (Z.of_nat (length d)) by lia.
    by rewrite Nat2Z.id, firstn_all.
  - destruct H as [H|[(? & ? & _)|(? & ? & _)]]; auto.
Qed.

Lemma sender_ackno tr e x :
  sender tr e -> 0 <= x < 2 ^ 32 -> sender tr (ep_with_ackno x e).
Proof. intros Hs Hx. eapply sender_fields; [exact Hs|done|exact Hx|by left]. Qed.

Lemma ok_data_transfer tr s e h :
  ok ps tr (Some e) -> from_peer h -> ep_phase e = DATA_TRANSFER ->
  pwp (ep_data_transfer h e) (fun o ls => later tr o ls) (tr, s).
Proof.
  intros [Hs Hr] (x & a & fl & d & -> & Hx & Hl & H) Hp. unfold ep_data_transfer.
  cbn [seg_seqno seg_flags seg_len].
  destruct (Z.ltb_spec x (ep_ackno e)) as [|Hge]; [by apply pwp_ret|].
  destruct H as [(-> & Hd & Hin)|[(-> & ->)|(-> & ->)]].
  - change (has_flag ACK FIN) with false. change (has_flag ACK ACK) with true. cbv iota.
    rewrite bool_decide_false.
    2: { destruct d; [done|]. unfold SEGMENT_HDR_SIZE. simpl. lia. }
    apply ok_output. split; [exact Hs|]. destruct Hr as (qs & H1 & H2 & H3 & _).
    exists qs. split; [exact H1|]. split; [exact H2|]. split; [exact H3|].
    intros g [= <-]. exists (x, d). split_and!; try done.
    eapply Forall_impl; [by apply H3|]. intros q Hq. cbn in *. lia.
  - change (has_flag ACK FIN) with false. change (has_flag ACK ACK) with true. cbv iota.
    rewrite bool_decide_true by done. apply pwp_ret. split; [done|]. split.
    + eapply sender_fields; [exact Hs|done|exact Hx|by right].
    + eapply got_weaken; [exact Hr| |by left]. intros _. split; [done|exact Hge].
  - change (has_flag FIN FIN) with true. cbv iota. apply pwp_bind, pwp_lib_output. intros r s1.
    apply pwp_bind. eapply pwp_mono; [apply ok_ctl; [|by left]|].
    { apply sender_ackno; [by apply sender_other|apply u32_range]. }
    intros e2 [tr2 s2] (Hs2 & Hv2 & Hx2 & Eo2).
    apply pwp_bind. eapply pwp_mono; [apply ok_ctl; [exact Hs2|by right]|].
    intros e3 [tr3 s3] (Hs3 & Hv3 & Hx3 & Eo3). apply pwp_ret. cbn [fst] in *.
    split; [etransitivity; [apply extends_app|by etransitivity]|]. split; [exact Hs3|].
    destruct Hv2 as (_ & Hp2 & _ & Hrc2), Hv3 as (_ & Hp3 & _ & Hrc3).
    change (got ps (outputs tr3) WAIT_LAST_ACK (ep_ackno e3) (ep_received e3)).
    rewrite Eo3, Eo2, outputs_silent, Hrc3, Hrc2 by done.
    eapply got_weaken; [exact Hr|discriminate|by left].
Qed.

(** An acknowledgement outside of data transfer. *)
Lemma ok_late_ack tr s e x (k : endpoint -> M (lib S) (option endpoint)) :
  ok ps tr (Some e) -> ep_phase e <> DATA_TRANSFER ->
  (forall e' tr' s', ok ps tr' (Some e') -> same_view (ep_with_ackno (u32 x) e) e' ->
     extends tr tr' -> pwp (k e') (fun o ls => later tr o ls) (tr', s')) ->
  pwp (ep_send_ ACK (ep_with_ackno (u32 x) e) ≫= k) (fun o ls => later tr o ls) (tr, s).
Proof.
  intros [Hs Hr] Hp Hk. apply pwp_bind. eapply pwp_mono; [apply ok_ctl; [|by left]|].
  { apply sender_ackno; [exact Hs|apply u32_range]. }
  intros e2 [tr2 s2] (Hs2 & Hv2 & Hx2 & Eo2). cbn [fst] in *. apply Hk; [|exact Hv2|exact Hx2].
  split; [exact Hs2|]. destruct Hv2 as (_ & Hp2 & _ & Hrc2).
  cbn [receiver_of]. unfold receiver. rewrite Eo2, Hp2, Hrc2.
  eapply got_weaken; [exact Hr|intros E; by destruct Hp|by left].
Qed.

Lemma ok_receive tr s e seg len :
  ok ps tr (Some e) ->
  (segment_valid seg (u16 len) = true -> exists bs, carried ps top bs /\ segment_of_bytes bs = Some seg) ->
  pwp (ep_receive seg len e) (fun o ls => later tr o ls) (tr, s).
Proof.
  intros Hok Harr. unfold ep_receive. destruct (segment_valid _ _); [|by apply pwp_ret].
  destruct (Harr eq_refl) as (bs & Hc & Hbs). pose proof (carried_host _ _ Hc Hbs) as Hh.
  set (h := _segment_ntoh _) in *. clearbody h. unfold ep_handle.
  destruct (ep_phase e) eqn:Hp.
  - by apply pwp_ret.
  - by apply ok_data_transfer.
  - unfold ep_tear_down. destruct (has_flag _ ACK).
    { apply pwp_ret. split; [done|]. destruct Hok as [Hs Hr]. split; [exact Hs|].
      eapply got_weaken; [exact Hr|by destruct (has_flag _ _)|by left]. }
    destruct (has_flag _ FIN); [|by apply pwp_ret].
    apply ok_late_ack; [exact Hok|by rewrite Hp|]. intros e2 tr2 s2 [Hs2 Hr2] Hv Hx.
    eapply pwp_mono; [apply ok_destroy; [exact Hs2|by eapply receiver_gone]|].
    intros o ls [Hx2 H2]. split; [by etransitivity|exact H2].
  - unfold ep_wait_last_ack. destruct (has_flag _ ACK); [|by apply pwp_ret].
    destruct Hok as [Hs Hr]. apply ok_destroy; [exact Hs|by eapply receiver_gone].
  - unfold ep_wait_last_fin. destruct (has_flag _ FIN); [|by apply pwp_ret].
    apply ok_late_ack; [exact Hok|by rewrite Hp|]. intros e2 tr2 s2 Hok2 Hv Hx.
    apply pwp_ret. split; [exact Hx|exact Hok2].
Qed.
End Operations.
