(* ===== verification/Network.v ===== *)
(** * Two endpoints and the network between them

    The two ends of a connection, each a memory of [ctcp.c] over its own
    library, and a network that loses, repeats, reorders and damages segments:
    a step of the system is a call that one of the libraries makes into
    [ctcp.c], or a change of a library. The bytes that come out at an end are
    those that went in at the other, in order and without repetition. *)

From Stdlib Require Import Sorted.
From S2P Require Import Prelude Heap Words Cksum LinkedList Segment ConnLib Ctcp CtcpSpec CtcpSteps.
From S2P Require Import CtcpInv CtcpRefine Script CtcpSafety CtcpProps Streams Delivery.

(** The calls that the library makes for a connection. *)
Inductive call :=
  | CallRead
  | CallTimer
  | CallOutput
  | CallReceive (segment : ctcp_segment) (len : Z).

Section Network.
Context {S : Type} `{!ConnLib S}.
Implicit Types (w : world S) (tr : list event).

(** [convert_to_ctcp] allocates the segment that is received. *)
Definition serve (l : loc) (c : call) : M (world S) unit :=
  match c with
  | CallRead => ctcp_read l
  | CallTimer => retransmission_handler l
  | CallOutput => ctcp_output l
  | CallReceive segment len => s ← on_segments (calloc segment); ctcp_receive l s len
  end.

(** The state is on [state_list]. *)
Definition listed (l : loc) w : Prop :=
  exists order, chain (mem (w_states w)) PrevHead (w_state_list w) order /\ l ∈ order.

(** What the network may deliver when the peer's record of calls is [tr]: any
    segment that the peer has sent, any number of times, or one that the
    validity test rejects. *)
Definition deliverable tr (c : call) : Prop :=
  match c with
  | CallReceive segment len =>
      arrived segment len /\
      (segment_valid segment (u16 len) = true ->
       exists c bs n, EvSend c bs n ∈ tr /\ 0 <= n /\ segment_of_bytes bs = Some segment)
  | _ => True
  end.

Context `{!ConnLaws S}.

(** The library changes on its own, and closes no connection. *)
Definition lib_changes (s s' : S) : Prop :=
  lib_inv s' /\ forall p, conn_open s p -> conn_open s' p.

(** The system, the states of the connection being at [la] and [lb]. *)
Inductive net_step (la lb : loc) : world S * world S -> world S * world S -> Prop :=
  | step_call_a wa wb c wa' :
      listed la wa -> deliverable (w_trace wb) c -> serve la c wa = Done tt wa' ->
      net_step la lb (wa, wb) (wa', wb)
  | step_call_b wa wb c wb' :
      listed lb wb -> deliverable (w_trace wa) c -> serve lb c wb = Done tt wb' ->
      net_step la lb (wa, wb) (wa, wb')
  | step_lib_a wa wb s :
      lib_changes (w_sys wa) s -> net_step la lb (wa, wb) (w_set_sys s wa, wb)
  | step_lib_b wa wb s :
      lib_changes (w_sys wb) s -> net_step la lb (wa, wb) (wa, w_set_sys s wb).

(** An end at which [ctcp_init] has just been called. *)
Definition fresh (l : loc) w : Prop :=
  exists order E c cfg, safe_state w order E /\ E !! l = Some (ep_init c cfg) /\ w_trace w = [].

(** ** The calls, and what they do to the abstract endpoint *)

Lemma chain_unique ST pv pv' p o1 o2 : chain ST pv p o1 -> chain ST pv' p o2 -> o1 = o2.
Proof.
  revert pv pv' p o2. induction o1 as [|l o1 IH]; intros pv pv' p [|l' o2]; simpl.
  - done.
  - by intros -> [? _].
  - by intros [-> _] ?.
  - intros [-> (st & Hst & _ & H1)] [[= <-] (st' & Hst' & _ & H2)].
    f_equal. simplify_eq. by eapply IH.
Qed.

Lemma listed_endpoint w order E l :
  represents w order E -> listed l w -> exists e, E !! l = Some e.
Proof.
  intros [O Hi] (order' & Hc & Hl). rewrite <- (chain_unique _ _ _ _ _ _ (inv_chain _ _ _ _ Hi) Hc) in Hl.
  by apply (inv_dom _ _ _ _ Hi) in Hl as [e He]; exists e.
Qed.

Definition ep_serve (c : call) (e : endpoint) : M (lib S) (option endpoint) :=
  match c with
  | CallRead => e ← ep_read e; mret (Some e)
  | CallTimer => ep_tick e
  | CallOutput => ep_output e
  | CallReceive segment len => ep_receive segment len e
  end.

(** A run of the code is one of the specification where that is safe. *)
Lemma rwp_run {A B} (m : M (world S) A) (a : M (lib S) B) Q P w x w' :
  rwp m a Q w -> wp a P (fun _ => True) (lib_of w) -> m w = Done x w' ->
  exists b, a (lib_of w) = Done b (lib_of w') /\ Q x b w' /\ P b (lib_of w').
Proof.
  intros Hr Ha Hm. unfold rwp, wp in Hr, Ha. rewrite Hm in Hr.
  destruct (a (lib_of w)) as [b s| | |]; [|done..]. destruct Hr as [<- HQ]. by exists b.
Qed.

Lemma serve_run w order E l c e w' :
  safe_state w order E -> E !! l = Some e ->
  (forall seg len, c = CallReceive seg len -> arrived seg len) ->
  serve l c w = Done tt w' ->
  exists o, ep_serve c e (lib_of w) = Done o (lib_of w') /\ becomes order E l o w' /\
    safe_post (conns E) (ep_conn e) o (lib_of w').
Proof.
  intros Hs He Harr Hrun. pose proof (safe_live _ _ _ Hs) as Hl.
  pose proof (ss_wf _ _ _ Hs _ _ He) as Hwf. pose proof (ss_represents _ _ _ Hs) as Hr.
  assert (Hc : conns E (ep_conn e)) by by exists l, e.
  destruct c as [| | |seg len]; cbn [serve] in Hrun.
  - destruct (rwp_run _ _ _ _ _ _ _ (refine_read _ _ _ _ _ Hr He)
      (ep_read_safe _ _ _ Hl Hc Hwf) Hrun) as (e' & Ha & Hb & Hp).
    exists (Some e'). cbn [ep_serve]. by erewrite bind_Done.
  - exact (rwp_run _ _ _ _ _ _ _ (refine_timer _ _ _ _ _ Hr He)
      (ep_tick_safe _ _ _ Hl Hc Hwf) Hrun).
  - destruct (ep_received e) as [|g|] eqn:Hg.
    + rewrite (output_dangling w order E l e) in Hrun; auto. done.
    + exact (rwp_run _ _ _ _ _ _ _ (refine_output _ _ _ _ _ Hr He)
        (ep_output_safe _ _ _ Hl Hc Hwf ltac:(eauto)) Hrun).
    + rewrite (output_dangling w order E l e) in Hrun; auto. done.
  - destruct (proj1 (wp_returns (on_segments (calloc seg))
      (fun g w1 => lib_of w1 = lib_of w /\ handed w1 order E g seg) w)) as (g & w1 & Hcall & E1 & Hh).
    { eapply wp_calloc_segment; [exact Hr|]. by intros. }
    erewrite bind_Done in Hrun by exact Hcall. cbn [ep_serve]. rewrite <- E1.
    refine (rwp_run _ _ _ _ _ _ _ (refine_receive _ _ _ _ _ _ _ _ Hh He (Harr _ _ eq_refl))
      (ep_receive_safe _ _ _ _ _ _ Hc Hwf (Harr _ _ eq_refl)) Hrun).
    by rewrite E1.
Qed.

(** ** The record of calls only grows, and is only written *)

Definition blind {A} (m : M (lib S) A) : Prop :=
  forall tr s a ls, m (tr, s) = Done a ls ->
    exists evs, fst ls = tr ++ evs /\ forall tr', m (tr', s) = Done a (tr' ++ evs, snd ls).

Lemma blind_ret {A} (a : A) : blind (mret a).
Proof.
  intros tr s b ls [= <- <-]. exists []. rewrite app_nil_r. split; [done|]. intros tr'.
  by rewrite app_nil_r.
Qed.
Lemma blind_bind {A B} (m : M (lib S) A) (k : A -> M (lib S) B) :
  blind m -> (forall a, blind (k a)) -> blind (m ≫= k).
Proof.
  intros Hm Hk tr s b ls Hrun. unfold mbind, M_bind in Hrun.
  destruct (m (tr, s)) as [a ls1| | |] eqn:Hm1; [|discriminate..].
  destruct (Hm _ _ _ _ Hm1) as (e1 & E1 & H1). destruct ls1 as [tr1 s1]. simpl in E1. subst tr1.
  destruct (Hk a _ _ _ _ Hrun) as (e2 & E2 & H2). exists (e1 ++ e2). split; [by rewrite app_assoc|].
  intros tr'. erewrite bind_Done by apply H1. by rewrite H2, app_assoc.
Qed.
Lemma blind_lib_sys {A} (m : M S A) : blind (lib_sys m).
Proof.
  intros tr s a ls. unfold lib_sys, zoom. cbn [fst snd]. destruct (m s) as [b s'| | |]; try done.
  intros [= <- <-]. exists []. rewrite app_nil_r. split; [done|]. intros tr'. by rewrite app_nil_r.
Qed.
Lemma blind_lib_log ev : blind (lib_log ev).
Proof. intros tr s a ls [= <- <-]. by exists [ev]. Qed.
Lemma blind_access b : blind (access b).
Proof. destruct b; [apply blind_ret|by intros ????]. Qed.
Lemma blind_undef {A} : blind (undef (A := A)).
Proof. by intros ????. Qed.

Ltac grow :=
  repeat first
    [ apply blind_ret | apply blind_lib_sys | apply blind_lib_log | apply blind_access
    | apply blind_undef | apply blind_bind; [|intros ?]
    | match goal with |- blind (match ?x with _ => _ end) => destruct x end ].

Lemma ep_send_blind flags len data e : blind (ep_send flags len data e).
Proof. unfold ep_send, lib_send. grow. Qed.
Lemma ep_send__blind flags e : blind (ep_send_ flags e).
Proof. apply blind_bind; [apply ep_send_blind|intros []; grow]. Qed.
Lemma ep_destroy_blind e : blind (ep_destroy e).
Proof. unfold ep_destroy, lib_remove, lib_end_client. grow. Qed.

Lemma ep_serve_blind c e : blind (ep_serve c e).
Proof.
  destruct c; cbn [ep_serve]; unfold ep_read, ep_tick, ep_resend, ep_retransmit, ep_receive, ep_handle,
    ep_data_transfer, ep_tear_down, ep_wait_last_ack, ep_wait_last_fin, ep_output, lib_input,
    lib_output, lib_send;
    repeat first [apply ep_send_blind | apply ep_send__blind | apply ep_destroy_blind | progress grow].
Qed.

(** ** The invariant of the system *)

Definition small w : Prop := volume (w_trace w) < MAX_VOLUME.

(** An end, [ps] being what the other end has sent, as long as [P]; its calls are
    judged by the record [tr], which may differ from its own in what was output
    before some moment. *)
Definition side (P : Prop) (l : loc) w tr (ps : list piece) : Prop :=
  exists order E, safe_state w order E /\ (P -> ok ps tr (E !! l)).

Lemma side_sent (P : Prop) l w tr ps :
  side P l w tr ps -> P -> volume tr < MAX_VOLUME -> exists top, sent tr top /\ top < 2 ^ 32.
Proof.
  intros (order & E & _ & Hok) HP Hv. destruct (Hok HP) as [Hs _]. unfold MAX_VOLUME in *.
  assert (H : exists top, sent tr top).
  { destruct (E !! l) as [e|]; [exists (ep_seqno e)|]; by apply Hs. }
  destruct H as [top H]. exists top. split; [done|]. pose proof (sn_top _ _ H). lia.
Qed.

Lemma side_extends (P P' : Prop) l w g tr tr' :
  extends tr tr' -> (P' -> P) -> side P l w g (pieces tr) -> side P' l w g (pieces tr').
Proof.
  intros [evs ->] HP (order & E & Hs & Hok). destruct (pieces_app tr evs) as [qs ->].
  exists order, E. split; [exact Hs|]. intros HP'.
  destruct (Hok (HP HP')) as [Hse Hre]. split; [exact Hse|]. destruct (E !! l); [by apply got_more|].
  destruct Hre as (rs & Hq & Ho). exists rs. split; [by apply sublist_inserts_r|done].
Qed.

Lemma ok_serve ps top tr s e c :
  peer ps top -> ok ps tr (Some e) ->
  (forall seg len, c = CallReceive seg len -> segment_valid seg (u16 len) = true ->
     exists bs, carried ps top bs /\ segment_of_bytes bs = Some seg) ->
  pwp (ep_serve c e) (fun o ls => later ps tr o ls) (tr, s).
Proof.
  intros Hp Hok Hc. destruct c as [| | |seg len]; cbn [ep_serve].
  - apply pwp_bind. eapply pwp_mono; [by apply ok_read|]. intros e' ls Hl. by apply pwp_ret.
  - by apply ok_tick.
  - by eapply ok_output.
  - eapply ok_receive; [exact Hp|exact Hok|]. intros Hv. by eapply Hc.
Qed.

(** A call at an end, the other end's record being [tr]. *)
Lemma serve_side (P P' : Prop) l w c w' g tr :
  side P l w g (pieces tr) -> listed l w -> deliverable tr c -> serve l c w = Done tt w' ->
  exists evs, w_trace w' = w_trace w ++ evs /\
  ((P' -> P /\ exists top, sent tr top /\ top < 2 ^ 32) -> side P' l w' (g ++ evs) (pieces tr)).
Proof.
  intros (order & E & Hs & Hok) Hl Hd Hrun.
  destruct (listed_endpoint _ _ _ _ (ss_represents _ _ _ Hs) Hl) as [e He].
  assert (Harr : forall seg len, c = CallReceive seg len -> arrived seg len)
    by (intros seg len ->; apply Hd).
  destruct (serve_run w order E l c e w' Hs He Harr Hrun) as (o & Ha & Hb & Hp).
  destruct (safe_next _ _ _ _ _ _ _ Hs He Hb Hp) as (order' & E' & Hs' & _ & _ & Ho).
  destruct (ep_serve_blind c e _ _ _ _ Ha) as (evs & Ht & Hg). exists evs. split; [exact Ht|].
  intros HP. exists order', E'. split; [exact Hs'|]. intros HP'.
  destruct (HP HP') as (HPP & top & Hsent & Htop). rewrite Ho, He in *.
  pose proof (ok_serve (pieces tr) top g (w_sys w) e c) as H.
  unfold pwp in H. rewrite Hg in H.
  apply H; [split; [apply Hsent|apply Hsent|exact Htop]|by apply Hok|].
  intros seg len -> Hv. destruct Hd as [_ Hd]. destruct (Hd Hv) as (c' & bs & n & Hin & Hn & Hbs).
  exists bs. split; [by eapply sn_sent|exact Hbs].
Qed.

Lemma extends_small w w' : extends (w_trace w) (w_trace w') -> small w' -> small w.
Proof.
  intros [evs E]. unfold small. rewrite E, volume_app. pose proof (volume_pos evs). lia.
Qed.

Lemma lib_side P l w s tr ps :
  side P l w tr ps -> lib_changes (w_sys w) s -> side P l (w_set_sys s w) tr ps.
Proof.
  intros (order & E & [Hr Hi Ho Hwf Hd] & Hok) [Hi' Ho']. exists order, E. split; [|exact Hok].
  split; [|exact Hi'| |exact Hwf|exact Hd].
  - destruct Hr as [O Hinv]. exists O. destruct w. by eapply inv_lib.
  - intros k e He. apply Ho'. by eapply Ho.
Qed.

Lemma fresh_side P l w ps : fresh l w -> side P l w (w_trace w) ps.
Proof.
  intros (order & E & c & cfg & Hs & He & Ht). exists order, E. split; [exact Hs|]. intros _.
  rewrite He, Ht. split.
  - intros _. split; [exact sent_nil|by split].
  - exists []. split_and!; [apply sublist_nil_l|done|constructor|discriminate].
Qed.

Definition both (la lb : loc) (s : world S * world S) : Prop :=
  let P := small s.1 /\ small s.2 in
  side P la s.1 (w_trace s.1) (pieces (w_trace s.2)) /\
  side P lb s.2 (w_trace s.2) (pieces (w_trace s.1)).

Lemma both_sym la lb wa wb : both la lb (wa, wb) -> both lb la (wb, wa).
Proof.
  intros [Ha Hb]. split; (eapply side_extends; [reflexivity| |eassumption]); by intros [].
Qed.

Lemma call_both la lb wa wb c wa' :
  both la lb (wa, wb) -> listed la wa -> deliverable (w_trace wb) c -> serve la c wa = Done tt wa' ->
  extends (w_trace wa) (w_trace wa') /\ both la lb (wa', wb).
Proof.
  intros [Ha Hb] Hl Hd Hrun. simpl in *.
  destruct (serve_side _ (small wa' /\ small wb) _ _ _ _ _ _ Ha Hl Hd Hrun) as (evs & Ht & Hside).
  assert (Hx : extends (w_trace wa) (w_trace wa')) by by exists evs.
  pose proof (extends_small _ _ Hx) as Hsm. split; [exact Hx|]. split; simpl.
  - rewrite Ht. apply Hside. intros [H1 H2]. split; [auto|]. by eapply side_sent; [exact Hb|auto|].
  - eapply side_extends; [exact Hx| |exact Hb]. intros []; auto.
Qed.

Lemma net_step_both la lb s s' :
  both la lb s -> net_step la lb s s' ->
  extends (w_trace s.1) (w_trace s'.1) /\ extends (w_trace s.2) (w_trace s'.2) /\ both la lb s'.
Proof.
  intros Hb Hst.
  destruct Hst as [wa wb c wa' Hl Hd Hrun|wa wb c wb' Hl Hd Hrun|wa wb s Hc|wa wb s Hc].
  - destruct (call_both la lb wa wb c wa' Hb Hl Hd Hrun) as [Hx Hb']. by split_and!.
  - destruct (call_both lb la wb wa c wb' (both_sym _ _ _ _ Hb) Hl Hd Hrun) as [Hx Hb'].
    split_and!; [done|done|by apply both_sym].
  - destruct Hb as [H1 H2]. split_and!; [done..|]. split; [by apply lib_side|exact H2].
  - destruct Hb as [H1 H2]. split_and!; [done..|]. split; [exact H1|by apply lib_side].
Qed.

Lemma net_steps_both la lb s s' : both la lb s -> rtc (net_step la lb) s s' -> both la lb s'.
Proof. intros Hb Hst. induction Hst as [|s1 s2 s3 Hst _ IH]; [done|]. apply IH. by eapply net_step_both. Qed.

Lemma fresh_both la lb s : fresh la s.1 -> fresh lb s.2 -> both la lb s.
Proof. intros Ha Hb. split; by apply fresh_side. Qed.

Lemma side_outputs (P : Prop) l w g tr :
  side P l w g (pieces tr) -> P -> outputs g `sublist_of` inputs tr.
Proof.
  intros (order & E & _ & Hok) HP. destruct (Hok HP) as [_ Hr].
  assert (H : exists qs, qs `sublist_of` pieces tr /\ snd <$> qs = outputs g).
  { destruct (E !! l); [|exact Hr]. destruct Hr as (qs & H1 & H2 & _). by exists qs. }
  destruct H as (qs & Hq & <-). unfold inputs. by rewrite Hq.
Qed.

(** ** What has been passed over

    An end that expects a number beyond what its peer has sent outputs none of
    it any more. If it is taken to have output all of it, in the record by which
    it is judged, the invariant still holds; the outputs of that record are in the
    order of what has been read, so that those to come are of what will be read. *)

(** Two views of the same state are equal. *)
Lemma represents_same_endpoint w o1 E1 o2 E2 l e1 e2 :
  represents w o1 E1 -> represents w o2 E2 -> E1 !! l = Some e1 -> E2 !! l = Some e2 -> e1 = e2.
Proof.
  intros [O1 H1] [O2 H2] He1 He2.
  destruct (inv_repr _ _ _ _ H1 _ _ He1) as (st & r1 & u1 & Hst & -> & Hs1 & Hr1 & _).
  destruct (inv_repr _ _ _ _ H2 _ _ He2) as (st' & r2 & u2 & Hst' & -> & Hs2 & Hr2 & _).
  assert (st' = st) as -> by congruence. f_equal.
  - destruct r1, r2; simpl in *; naive_solver.
  - destruct u1 as [[]|], u2 as [[]|]; simpl in *; naive_solver.
Qed.

Definition silent (ev : event) : event :=
  match ev with EvOutput c _ n => EvOutput c [] n | _ => ev end.

(** The record [tr] as if the pieces [bss] had been output in it. *)
Definition pretend (tr : list event) (bss : list (list byte)) : list event :=
  (silent <$> tr) ++ ((fun bs => EvOutput None bs 0) <$> bss).

Lemma scan_pretend tr bss : pending tr = false -> scan (pretend tr bss) = scan tr.
Proof.
  intros Hp. unfold pretend, scan. rewrite foldl_app.
  assert (E : forall st, foldl piece_step st (silent <$> tr) = foldl piece_step st tr).
  { clear Hp. induction tr as [|x l IH]; intros st; [done|]. simpl. rewrite IH. by destruct x. }
  rewrite E. unfold pending, scan in Hp. destruct (foldl piece_step ([], false) tr) as [ps b].
  simpl in Hp. subst b. clear E. induction bss as [|bs bss IH]; [done|exact IH].
Qed.

Lemma outputs_pretend tr bss : Forall (fun bs => bs <> []) bss -> outputs (pretend tr bss) = bss.
Proof.
  intros Hne. unfold pretend. rewrite outputs_app.
  assert (outputs (silent <$> tr) = []) as ->.
  { induction tr as [|[] tr IH]; [done|exact IH..]. }
  induction Hne as [|bs bss Hbs _ IH]; [done|]. destruct bs; [done|]. cbn. by f_equal.
Qed.

Lemma volume_pretend tr bss : volume (pretend tr bss) = volume tr.
Proof.
  unfold pretend. rewrite volume_app.
  assert (volume ((fun bs => EvOutput None bs 0) <$> bss) = 0) as -> by (by induction bss).
  rewrite Z.add_0_r. induction tr as [|[|c bs n| | | ] tr IH]; [done|exact IH| |exact IH..].
  exact (f_equal (Z.add (Z.of_nat (length bs))) IH).
Qed.

Lemma sent_pretend tr bss c bs n : EvSend c bs n ∈ pretend tr bss -> EvSend c bs n ∈ tr.
Proof.
  unfold pretend. intros [H|H]%elem_of_app.
  - apply list_elem_of_fmap in H as ([] & E & H); simplify_eq/=; done.
  - apply list_elem_of_fmap in H as (x & E & _). done.
Qed.

Lemma sender_pretend tr bss e : sender tr e -> sender (pretend tr bss) e.
Proof.
  intros Hs. unfold sender. rewrite volume_pretend. intros Hv. destruct (Hs Hv) as (H & Ha & Hu).
  pose proof (sn_pending _ _ H) as Hp. pose proof (scan_pretend tr bss Hp) as E.
  assert (Ep : pieces (pretend tr bss) = pieces tr) by (unfold pieces; by rewrite E).
  rewrite Ep. split; [|by split]. destruct H as [_ H2 H3 H4 H5]. split; rewrite ?Ep, ?volume_pretend; try done.
  - unfold pending. by rewrite E.
  - intros c bs n Hin%sent_pretend Hn. by eapply H4.
Qed.

(** What an end has sent, from its endpoint. *)
Lemma both_sent la lb wa wb order E e :
  both la lb (wa, wb) -> represents wa order E -> E !! la = Some e -> small wa -> small wb ->
  sent (w_trace wa) (ep_seqno e).
Proof.
  intros [(order1 & E1 & Hs & Hok) _] Hr He Va Vb. cbn [fst snd] in *.
  destruct (listed_endpoint _ _ _ la (ss_represents _ _ _ Hs)) as [e1 He1].
  { exists order. destruct Hr as [O Hi]. split; [apply (inv_chain _ _ _ _ Hi)|]. apply (inv_dom _ _ _ _ Hi). eauto. }
  rewrite He1 in Hok. rewrite (represents_same_endpoint wa _ _ _ _ la e1 e (ss_represents _ _ _ Hs) Hr He1 He) in Hok.
  by apply (proj1 (Hok (conj Va Vb))).
Qed.

(** The end at [lb] since its record was [tb], judged as if that had been [g]. *)
Definition pursued (la lb : loc) ta tb g (s : world S * world S) : Prop :=
  both la lb s /\ extends ta (w_trace s.1) /\
  exists evs, w_trace s.2 = tb ++ evs /\
    side (small s.1 /\ small s.2) lb s.2 (g ++ evs) (pieces (w_trace s.1)).

Lemma net_step_pursued la lb ta tb g s s' :
  pursued la lb ta tb g s -> net_step la lb s s' -> pursued la lb ta tb g s'.
Proof.
  intros (Hb & Hta & evs & Htb & Hside) Hst.
  destruct (net_step_both la lb s s' Hb Hst) as (Hx1 & Hx2 & Hb').
  split; [exact Hb'|]. split; [by etransitivity|].
  destruct Hst as [wa wb c wa' Hl Hd Hrun|wa wb c wb' Hl Hd Hrun|wa wb s Hc|wa wb s Hc]; cbn [fst snd] in *.
  - exists evs. split; [exact Htb|]. eapply side_extends; [exact Hx1| |exact Hside].
    pose proof (extends_small _ _ Hx1). intros []; auto.
  - destruct (serve_side _ (small wa /\ small wb') _ _ _ _ _ _ Hside Hl Hd Hrun) as (evs' & Ht & Hs').
    exists (evs ++ evs'). split; [by rewrite Ht, Htb, app_assoc|]. rewrite app_assoc. apply Hs'.
    pose proof (extends_small _ _ Hx2). intros [H1 H2]. split; [auto|].
    destruct Hb as [Ha _]. eapply side_sent; [exact Ha|cbn; auto|exact H1].
  - by exists evs.
  - exists evs. split; [exact Htb|]. by apply lib_side.
Qed.

Lemma pursued_start la lb wa wb order E eb :
  both la lb (wa, wb) -> represents wb order E -> E !! lb = Some eb ->
  (forall g, ep_received eb <> RecvKept g) ->
  (small wa -> small wb -> all_before (pieces (w_trace wa)) (ep_ackno eb)) ->
  pursued la lb (w_trace wa) (w_trace wb) (pretend (w_trace wb) (inputs (w_trace wa))) (wa, wb).
Proof.
  intros Hb Hr He Hrc Hall. split; [exact Hb|]. split; [done|]. exists []. rewrite !app_nil_r.
  split; [done|]. destruct Hb as [Ha (order1 & E1 & Hs & Hok)]. exists order1, E1. split; [exact Hs|].
  cbn [fst snd] in *. intros HP. pose proof HP as [HPa HPb]. specialize (Hok HP).
  destruct (listed_endpoint _ _ _ lb (ss_represents _ _ _ Hs)) as [e1 He1].
  { exists order. destruct Hr as [O Hi]. split; [apply (inv_chain _ _ _ _ Hi)|]. apply (inv_dom _ _ _ _ Hi). eauto. }
  rewrite He1 in *. rewrite (represents_same_endpoint wb _ _ _ _ lb e1 eb (ss_represents _ _ _ Hs) Hr He1 He) in *.
  destruct (side_sent _ _ _ _ _ Ha HP HPa) as (top & Hsent & _).
  destruct Hok as [Hse _]. split; [by apply sender_pretend|].
  exists (pieces (w_trace wa)). split; [done|]. split; [|split; [auto|]].
  - rewrite outputs_pretend; [done|]. apply Forall_fmap.
    eapply Forall_impl; [apply (sn_pieces _ _ Hsent)|]. by intros p [Hne _].
  - intros g Hg. by destruct (Hrc g).
Qed.

(** Of what has been read at [la] so far, nothing more comes out at [lb]. *)
Definition passed_over (la lb : loc) (s : world S * world S) : Prop :=
  forall s', rtc (net_step la lb) s s' ->
    volume (w_trace s'.1) < MAX_VOLUME -> volume (w_trace s'.2) < MAX_VOLUME ->
    exists more out, inputs (w_trace s'.1) = inputs (w_trace s.1) ++ more /\
      outputs (w_trace s'.2) = outputs (w_trace s.2) ++ out /\ out `sublist_of` more.

Lemma passed la lb wa wb order E eb :
  both la lb (wa, wb) -> represents wb order E -> E !! lb = Some eb ->
  (forall g, ep_received eb <> RecvKept g) ->
  (small wa -> small wb -> all_before (pieces (w_trace wa)) (ep_ackno eb)) ->
  passed_over la lb (wa, wb).
Proof.
  intros Hb Hr He Hrc Hall s' Hst Va Vb. cbn [fst snd].
  set (g := pretend (w_trace wb) (inputs (w_trace wa))).
  assert (Hpu : pursued la lb (w_trace wa) (w_trace wb) g s').
  { pose proof (pursued_start la lb wa wb order E eb Hb Hr He Hrc Hall) as H0. fold g in H0.
    clear -H0 Hst ConnLaws0. induction Hst as [|s1 s2 s3 Hst _ IH]; [done|].
    apply IH. by eapply net_step_pursued. }
  destruct Hpu as (Hb' & [ea Ha] & evs & Htb & Hside).
  pose proof (side_outputs _ _ _ _ _ Hside (conj Va Vb)) as Hsub.
  destruct (pieces_app (w_trace wa) ea) as [qs Hq].
  assert (Hin : inputs (w_trace s'.1) = inputs (w_trace wa) ++ (snd <$> qs))
    by (unfold inputs; by rewrite Ha, Hq, fmap_app).
  exists (snd <$> qs), (outputs evs). split; [exact Hin|]. split; [by rewrite Htb, outputs_app|].
  assert (Hne : Forall (fun bs => bs <> []) (inputs (w_trace wa))).
  { destruct (side_sent _ _ _ _ _ (proj1 Hb') (conj Va Vb) Va) as (top & Hsent & _).
    pose proof (sn_pieces _ _ Hsent) as Hp. rewrite Ha, Hq in Hp. apply Forall_app in Hp as [Hp _].
    apply Forall_fmap. eapply Forall_impl; [exact Hp|]. by intros p [? _]. }
  rewrite Hin, outputs_app in Hsub. unfold g in Hsub. rewrite outputs_pretend in Hsub by done.
  by apply sublist_app_inv_l in Hsub.
Qed.

(** C3: from two ends at which the connection has just been set up, whatever the
    network loses, repeats and delays, and however it damages segments as long as
    the validity test rejects them, whatever the libraries do, and in whatever
    order the calls come, each end outputs pieces that the other has read, as it
    has read them, in their order, each at most once; this as long as each has
    sent segments of less than [MAX_VOLUME] bytes in all, 2^32 - 1, after which the
    numbers start again and copies may come out twice. *)
Theorem delivered_in_order la lb s s' :
  fresh la s.1 -> fresh lb s.2 -> rtc (net_step la lb) s s' ->
  volume (w_trace s'.1) < MAX_VOLUME -> volume (w_trace s'.2) < MAX_VOLUME ->
  outputs (w_trace s'.2) `sublist_of` inputs (w_trace s'.1) /\
  outputs (w_trace s'.1) `sublist_of` inputs (w_trace s'.2).
Proof.
  intros Ha Hb Hsteps Va Vb.
  destruct (net_steps_both la lb s s' (fresh_both la lb s Ha Hb) Hsteps) as [H1 H2].
  split; by eapply side_outputs.
Qed.
End Network.

(** ** Runs *)

(** The state that a call leaves. *)
Definition served {S} `{!ConnLib S} (c : call) (w : world S) : world S :=
  match serve 1%positive c w with Done _ w' => w' | _ => w end.

(** Two ends, at which some bytes are about to be typed. *)
Definition end_reading (bs : list byte) : world script :=
  one_world ex_idle (zero_segment 20) (Script [Some bs] [] 8192 []).

Definition hi : list byte := [Byte.x68; Byte.x69].
Definition yo : list byte := [Byte.x79; Byte.x6f].
Definition here0 : world script := end_reading hi.
Definition there0 : world script := end_reading yo.

Definition hi_segment : ctcp_segment := wire_segment 1 1 ACK 22 hi.
Definition yo_segment : ctcp_segment := wire_segment 1 1 ACK 22 yo.
Definition ack_segment : ctcp_segment := wire_segment 3 3 ACK 20 [].

Lemma end_fresh bs : fresh 1%positive (end_reading bs).
Proof.
  exists [1%positive], {[1%positive := ex_idle]}, (Some 5%positive), ex_cfg.
  split; [|by split]. split.
  - apply one_represents.
  - by vm_compute.
  - intros l e [<- <-]%lookup_singleton_Some. simpl. set_solver.
  - intros l e [<- <-]%lookup_singleton_Some. apply ep_wf_init.
  - by intros l1 l2 e1 e2 [<- <-]%lookup_singleton_Some [<- <-]%lookup_singleton_Some.
Qed.

(** A segment that the other end has sent in the last but [k] calls. *)
Ltac deliver k :=
  split; [by vm_compute|intros _];
  eexists (Some 5%positive), _, _; split_and!;
  [apply (list_elem_of_lookup_2 _ k); vm_compute; reflexivity|by vm_compute|by vm_compute].

Ltac on_list := exists [1%positive]; split; [vm_compute; split; [done|]; eexists; by split_and!|by left].

Definition here1 : world script := served CallRead here0.
Definition there1 : world script := served (CallReceive hi_segment 22) there0.

Lemma hi_delivered : rtc (net_step 1%positive 1%positive) (here0, there0) (here1, there1).
Proof.
  eapply rtc_l; [apply (step_call_a _ _ _ _ CallRead here1)|].
  - on_list.
  - done.
  - by vm_compute.
  - eapply rtc_l; [apply (step_call_b _ _ _ _ (CallReceive hi_segment 22) there1)|done].
    + on_list.
    + deliver 1%nat.
    + by vm_compute.
Qed.

Lemma delivered_in_order_witness :
  outputs (w_trace there1) `sublist_of` inputs (w_trace here1) /\
  outputs (w_trace here1) `sublist_of` inputs (w_trace there1).
Proof.
  apply (delivered_in_order 1%positive 1%positive (here0, there0) (here1, there1));
    [apply end_fresh|apply end_fresh|exact hi_delivered|by vm_compute|by vm_compute].
Defined.
