(* ===== verification/Transfer.v ===== *)
(** * A whole transfer

    On a network that loses nothing and with calls in their turn, everything
    that is read at one end comes out at the other, for as long as there is
    input, beyond 2^32 bytes too; and when the input ends both ends close. The
    turns are an executable schedule of the system of [Network.v]. *)

From S2P Require Import Prelude Heap Words Cksum LinkedList Segment ConnLib Ctcp CtcpSpec CtcpSteps.
From S2P Require Import CtcpInv CtcpRefine Script CtcpSafety CtcpProps Streams Delivery Network.

(** A library that sends what it is given and outputs it at once. [offers s c ins out]
    when the input of the connection [c] will be [ins], [None] being its end, and
    what has been output is [out], as far as the library can tell; [still s c]
    when segments can be sent on it; [stays s] where the end of a client does not
    end the process. *)
Class Lossless (S : Type) `{!ConnLib S} := {
  offers : S -> ptr -> list (option (list byte)) -> list byte -> Prop;
  still : S -> ptr -> Prop;
  stays : S -> Prop;

  offers_still s c ins out : offers s c ins out -> still s c;

  input_offered s c bs ins out :
    offers s c (Some bs :: ins) out -> 0 < Z.of_nat (length bs) <= MAX_BUFF_SIZE ->
    exists rest s', offers s' c ins out /\
      conn_input c (Some zero_buffer) MAX_BUFF_SIZE s = Done (Z.of_nat (length bs), bs ++ rest) s';

  input_ended s c ins out :
    offers s c (None :: ins) out ->
    exists buf s', still s' c /\
      conn_input c (Some zero_buffer) MAX_BUFF_SIZE s = Done (-1, buf) s';

  send_succeeds s c bs len :
    still s c -> Z.of_nat (length bs) = len ->
    SEGMENT_HDR_SIZE <= len <= SEGMENT_HDR_SIZE + MAX_SEG_DATA_SIZE ->
    exists n s', conn_send c (Some bs) len s = Done n s' /\ 0 <= n /\ still s' c /\
      (forall ins out, offers s c ins out -> offers s' c ins out) /\ (stays s -> stays s');

  room_enough s c ins out :
    offers s c ins out -> exists n, MAX_SEG_DATA_SIZE <= n < 2 ^ 32 /\ conn_bufspace c s = Done n s;

  output_succeeds s c ins out bs :
    offers s c ins out -> 0 < Z.of_nat (length bs) <= MAX_SEG_DATA_SIZE ->
    exists r s', offers s' c ins (out ++ bs) /\ (stays s -> stays s') /\ 0 <= r /\
      conn_output c bs (Z.of_nat (length bs)) s = Done r s';

  output_ended s c ins out :
    offers s c ins out ->
    exists r s', still s' c /\ (stays s -> stays s') /\ conn_output c [] 0 s = Done r s';

  remove_succeeds s c :
    still s c -> stays s ->
    exists s1 s2, conn_remove c s = Done tt s1 /\ end_client s1 = Done tt s2;
}.

#[local] Opaque wire_segment segment_bytes seg_cksum_of.

(** ** The abstract endpoints *)

Section Endpoints.
Context {S : Type} `{!ConnLib S} `{!Lossless S}.
Implicit Types (tr : list event) (s : S) (e : endpoint) (bs : list byte).

(** The segment that carries [bs], from [e]. *)
Definition carrier e bs : ctcp_segment :=
  wire_segment (ep_seqno e) (ep_ackno e) ACK (SEGMENT_HDR_SIZE + Z.of_nat (length bs)) bs.

Definition piece_ok bs : Prop := 0 < Z.of_nat (length bs) <= MAX_SEG_DATA_SIZE.

(** The sender while its segment is on the way, and the ends afterwards. *)
Definition busy e bs : endpoint :=
  ep_with_unacked (Some (Unacked (carrier e bs) 0 0))
    (ep_with_seqno (u32 (ep_seqno e + Z.of_nat (length bs))) e).
Definition acked (x : Z) e : endpoint := ep_with_unacked None (ep_with_ackno x e).
Definition taken (x : Z) e : endpoint :=
  ep_with_received RecvFreed (ep_with_unacked None (ep_with_ackno x e)).

Lemma carrier_length e bs : piece_ok bs ->
  Z.of_nat (length (segment_bytes (carrier e bs))) = SEGMENT_HDR_SIZE + Z.of_nat (length bs).
Proof.
  intros [H1 H2]. unfold MAX_SEG_DATA_SIZE in H2. unfold carrier.
  rewrite wire_bytes_length; unfold SEGMENT_HDR_SIZE, MAX_SEG_DATA_SIZE; lia.
Qed.

Lemma read_piece tr s e bs ins out :
  offers s (ep_conn e) (Some bs :: ins) out -> ep_unacked e = None -> piece_ok bs ->
  exists n s', offers s' (ep_conn e) ins out /\ 0 <= n /\
    ep_serve CallRead e (tr, s) = Done (Some (busy e bs))
      (tr ++ [EvInput (ep_conn e) (Z.of_nat (length bs));
              EvSend (ep_conn e) (segment_bytes (carrier e bs)) n], s').
Proof.
  intros Ho Hu Hbs. pose proof Hbs as [H1 H2].
  destruct (input_offered _ _ _ _ _ Ho Hbs) as (rest & s1 & Ho1 & Hin).
  assert (Ew : data_segment e (Z.of_nat (length bs)) (bs ++ rest) = carrier e bs).
  { unfold data_segment, carrier. rewrite wire_take by (rewrite length_app; lia).
    by rewrite Nat2Z.id, take_app_length. }
  destruct (send_succeeds s1 (ep_conn e) (segment_bytes (carrier e bs))
    (SEGMENT_HDR_SIZE + Z.of_nat (length bs))) as (n & s2 & Hsend & Hn & _ & Ho2 & _);
    [by eapply offers_still|by apply carrier_length|lia|].
  exists n, s2. split; [by apply Ho2|]. split; [done|]. cbn [ep_serve].
  erewrite bind_Done.
  2: { eapply ep_read_run_data; [done|exact Hin|unfold MAX_BUFF_SIZE in *; lia|
         rewrite length_app; lia|by rewrite Ew|done]. }
  by rewrite Ew, ep_sent_data by lia.
Qed.

(** A segment that arrives as it was sent. *)
Lemma wire_handled seqno ackno flags data ls e :
  0 <= seqno < 2 ^ 32 -> 0 <= ackno < 2 ^ 32 -> 0 <= flags < 2 ^ 32 ->
  Z.of_nat (length data) <= MAX_SEG_DATA_SIZE ->
  let len := SEGMENT_HDR_SIZE + Z.of_nat (length data) in
  let g := wire_segment seqno ackno flags len data in
  Z.of_nat (length (segment_bytes g)) = len /\ segment_of_bytes (segment_bytes g) = Some g /\
  arrived g len /\
  ep_serve (CallReceive g len) e ls =
  ep_handle (Segment seqno ackno len 0 flags MAX_SEG_DATA_SIZE 0 data) e ls.
Proof.
  intros Hs Ha Hf Hd len g. unfold MAX_SEG_DATA_SIZE in Hd.
  assert (Hlen : SEGMENT_HDR_SIZE <= len <= SEGMENT_HDR_SIZE + MAX_SEG_DATA_SIZE)
    by (unfold len, MAX_SEG_DATA_SIZE; lia).
  assert (Hl : len - SEGMENT_HDR_SIZE <= Z.of_nat (length data)) by (unfold len; lia).
  assert (Hlb : Z.of_nat (length (segment_bytes g)) = len).
  { unfold g. rewrite wire_bytes_length by done. unfold len, SEGMENT_HDR_SIZE. lia. }
  assert (El : ntohs (seg_len g) = len) by by apply wire_ntohs_len.
  assert (E16 : u16 (u16 len) = len).
  { rewrite u16_idemp. apply u16_small. unfold len, SEGMENT_HDR_SIZE. lia. }
  split; [done|]. split; [by apply segment_of_bytes_bytes, wire_wf|].
  split; [intros _; lia|].
  cbn [ep_serve]. unfold ep_receive, g. rewrite wire_valid by (done || lia).
  rewrite wire_ntoh by done. replace (len - SEGMENT_HDR_SIZE) with (Z.of_nat (length data)) by (unfold len; lia).
  by rewrite Nat2Z.id, firstn_all.
Qed.

(** Bare segments, as they are handled. *)
Definition bare (seqno ackno flags : Z) : ctcp_segment :=
  Segment seqno ackno SEGMENT_HDR_SIZE 0 flags MAX_SEG_DATA_SIZE 0 [].

Lemma ctl_length e flags : Z.of_nat (length (segment_bytes (ctl_segment e flags))) = SEGMENT_HDR_SIZE.
Proof. unfold ctl_segment. rewrite wire_bytes_length; by vm_compute. Qed.

Lemma send_bare s c e flags :
  still s c ->
  exists n s', conn_send c (Some (segment_bytes (ctl_segment e flags))) SEGMENT_HDR_SIZE s = Done n s' /\
    0 <= n /\ still s' c /\
    (forall ins out, offers s c ins out -> offers s' c ins out) /\ (stays s -> stays s').
Proof. intros Hs. apply send_succeeds; [done|apply ctl_length|by vm_compute]. Qed.

Lemma take_piece tr s e bs seqno ackno ins out :
  offers s (ep_conn e) ins out -> piece_ok bs -> ep_phase e = DATA_TRANSFER -> 0 <= ep_seqno e < 2 ^ 32 ->
  ep_ackno e <= seqno ->
  let y := u32 (seqno + Z.of_nat (length bs)) in
  exists r n s', offers s' (ep_conn e) ins (out ++ bs) /\ (stays s -> stays s') /\ 0 <= n /\
    ep_handle (Segment seqno ackno (SEGMENT_HDR_SIZE + Z.of_nat (length bs)) 0 ACK
                 MAX_SEG_DATA_SIZE 0 bs) e (tr, s) =
    Done (Some (taken y e))
      (tr ++ [EvOutput (ep_conn e) bs r;
              EvSend (ep_conn e) (segment_bytes (ctl_segment (ep_with_ackno y e) ACK)) n], s').
Proof.
  intros Ho Hbs Hp Hs Hq y. pose proof Hbs as [H1 H2].
  destruct (room_enough _ _ _ _ Ho) as (sp & Hsp & Hroom).
  destruct (output_succeeds _ _ _ _ _ Ho Hbs) as (r & s1 & Ho1 & Hst1 & Hr & Hout).
  destruct (send_bare s1 (ep_conn e) (ep_with_ackno y e) ACK (offers_still _ _ _ _ Ho1))
    as (n & s2 & Hsend & Hn & _ & Ho2 & Hst2).
  exists r, n, s2. split; [by apply Ho2|]. split; [auto|]. split; [done|].
  set (sg := Segment _ _ _ _ _ _ _ bs).
  assert (Ed : seg_len sg - SEGMENT_HDR_SIZE = Z.of_nat (length bs)) by (cbn [seg_len sg]; lia).
  pose proof (ep_data_run e sg sp r n tr s s1 s2) as Hrun. cbv zeta in Hrun.
  rewrite Ed, Nat2Z.id in Hrun. change (seg_data sg) with bs in Hrun.
  change (seg_seqno sg) with seqno in Hrun. change (seg_flags sg) with ACK in Hrun.
  fold y in Hrun. rewrite firstn_all in Hrun.
  rewrite Hrun by (done || lia). rewrite (proj2 (Z.ltb_ge n 0)), u32_small by lia. by destruct e.
Qed.

Lemma take_ack e seqno ackno ls :
  ep_phase e = DATA_TRANSFER -> ep_ackno e <= seqno ->
  ep_handle (bare seqno ackno ACK) e ls = Done (Some (acked seqno e)) ls.
Proof.
  intros Hp Hs. unfold ep_handle. rewrite Hp. unfold ep_data_transfer.
  cbn [bare seg_seqno]. by rewrite (proj2 (Z.ltb_ge _ _) Hs).
Qed.

(** *** The end *)

(** The sender once its FIN is on the way; then waiting for the other's, and
    having it; the receiver waiting for the last acknowledgement. *)
Definition closing e : endpoint :=
  ep_with_phase TEAR_DOWN (ep_with_unacked (Some (Unacked (ctl_segment e FIN) 0 0))
    (ep_with_seqno (u32 (ep_seqno e + 1)) e)).
Definition leaving (x : Z) e : endpoint :=
  ep_with_td WAIT_DESTROY 0 (ep_with_ackno (u32 (x + 1)) (ep_with_phase WAIT_LAST_FIN e)).
Definition last_ack (x : Z) e : endpoint :=
  let e1 := ep_with_ackno (u32 (x + 1)) e in
  ep_with_phase WAIT_LAST_ACK (ep_with_unacked (Some (Unacked (ctl_segment e1 FIN) 0 0))
    (ep_with_seqno (u32 (ep_seqno e + 1)) e1)).

Lemma read_end tr s e ins out :
  offers s (ep_conn e) (None :: ins) out -> ep_unacked e = None ->
  exists n s', still s' (ep_conn e) /\ 0 <= n /\
    ep_serve CallRead e (tr, s) = Done (Some (closing e))
      (tr ++ [EvInput (ep_conn e) (-1);
              EvSend (ep_conn e) (segment_bytes (ctl_segment e FIN)) n], s').
Proof.
  intros Ho Hu. destruct (input_ended _ _ _ _ Ho) as (buf & s1 & Ho1 & Hin).
  destruct (send_bare s1 (ep_conn e) e FIN Ho1) as (n & s2 & Hsend & Hn & Ho2 & _).
  exists n, s2. split; [done|]. split; [done|]. cbn [ep_serve].
  erewrite bind_Done by (by eapply ep_read_run_eof). by rewrite ep_sent_fin.
Qed.

Lemma take_fin tr s e ackno ins out :
  offers s (ep_conn e) ins out -> stays s -> ep_phase e = DATA_TRANSFER -> 0 <= ep_seqno e < 2 ^ 32 ->
  let e1 := ep_with_ackno (u32 (ep_ackno e + 1)) e in
  exists r n1 n2 s', still s' (ep_conn e) /\ stays s' /\ 0 <= n1 /\ 0 <= n2 /\
    ep_handle (bare (ep_ackno e) ackno FIN) e (tr, s) = Done (Some (last_ack (ep_ackno e) e))
      (tr ++ [EvOutput (ep_conn e) [] r;
              EvSend (ep_conn e) (segment_bytes (ctl_segment e1 ACK)) n1;
              EvSend (ep_conn e) (segment_bytes (ctl_segment e1 FIN)) n2], s').
Proof.
  intros Ho Hst Hp Hs e1.
  destruct (output_ended _ _ _ _ Ho) as (r & s1 & Ho1 & Hst1 & Hout).
  destruct (send_bare s1 (ep_conn e) e1 ACK Ho1) as (n1 & s2 & Hs1 & Hn1 & Ho2 & _ & Hst2).
  destruct (send_bare s2 (ep_conn e) e1 FIN Ho2) as (n2 & s3 & Hs2 & Hn2 & Ho3 & _ & Hst3).
  exists r, n1, n2, s3. split; [done|]. split; [auto|]. split; [done|]. split; [done|].
  exact (ep_fin_run e (bare (ep_ackno e) ackno FIN) r n1 n2 tr s s1 s2 s3 Hp (Z.le_refl _) eq_refl
           Hs Hout Hs1 Hn1 Hs2 Hn2).
Qed.

Lemma take_last_ack e seqno ackno ls :
  ep_phase e = TEAR_DOWN ->
  ep_handle (bare seqno ackno ACK) e ls = Done (Some (ep_with_phase WAIT_LAST_FIN e)) ls.
Proof. intros Hp. unfold ep_handle. by rewrite Hp. Qed.

Lemma take_last_fin tr s e seqno ackno :
  still s (ep_conn e) -> ep_phase e = WAIT_LAST_FIN -> 0 <= ep_seqno e < 2 ^ 32 ->
  let e1 := ep_with_ackno (u32 (seqno + 1)) e in
  exists n s', still s' (ep_conn e) /\ 0 <= n /\
    ep_handle (bare seqno ackno FIN) e (tr, s) = Done (Some (ep_with_td WAIT_DESTROY 0 e1))
      (tr ++ [EvSend (ep_conn e) (segment_bytes (ctl_segment e1 ACK)) n], s').
Proof.
  intros Ho Hp Hs e1.
  destruct (send_bare s (ep_conn e) e1 ACK Ho) as (n & s1 & Hsend & Hn & Ho1 & _).
  exists n, s1. split; [done|]. split; [done|]. unfold ep_handle. rewrite Hp.
  unfold ep_wait_last_fin. cbn [bare seg_flags seg_seqno]. rewrite (proj1 has_flag_values).
  fold e1. erewrite bind_Done by (exact (ep_send_run_ e1 ACK _ _ _ _ Hsend)).
  fold (ctl_segment e1 ACK). rewrite ep_sent_ack_ by done. by destruct (n <? 0).
Qed.

Lemma take_end tr s e seqno ackno :
  still s (ep_conn e) -> stays s -> ep_phase e = WAIT_LAST_ACK ->
  exists s', ep_handle (bare seqno ackno ACK) e (tr, s) =
    Done None (tr ++ [EvRemove (ep_conn e); EvEndClient], s').
Proof.
  intros Ho Hst Hp. destruct (remove_succeeds _ _ Ho Hst) as (s1 & s2 & H1 & H2).
  exists s2. unfold ep_handle. rewrite Hp. unfold ep_wait_last_ack. cbn [bare seg_flags].
  rewrite (proj1 (proj2 (proj2 has_flag_values))). by apply (ep_destroy_run e tr s s1 s2).
Qed.
End Endpoints.

(** ** The memories of the two ends *)

Section Worlds.
Context {S : Type} `{!ConnLib S} `{!ConnLaws S} `{!Lossless S}.
Implicit Types (w : world S) (tr : list event) (e : endpoint) (bs : list byte).

(** The state at [l] is that of the endpoint [e]. *)
Definition holds (l : loc) w e : Prop :=
  exists order E, represents w order E /\ E !! l = Some e.

Lemma holds_listed l w e : holds l w e -> listed l w.
Proof.
  intros (order & E & (O & Hi) & He). exists order. split; [apply (inv_chain _ _ _ _ Hi)|].
  by apply (inv_dom _ _ _ _ Hi).
Qed.

Lemma serve_simulated l w e c o ls :
  holds l w e -> (forall seg len, c = CallReceive seg len -> arrived seg len) ->
  ep_serve c e (lib_of w) = Done o ls ->
  exists order E w', E !! l = Some e /\ serve l c w = Done tt w' /\ lib_of w' = ls /\
    becomes order E l o w'.
Proof.
  intros (order & E & Hr & He) Harr Hrun. exists order, E.
  destruct ls as [tr sys]. destruct c as [| | |seg len]; cbn [ep_serve serve] in *.
  - unfold mbind, M_bind in Hrun.
    destruct (ep_read e (lib_of w)) as [e' ls'| | |] eqn:Hread; [|discriminate..].
    injection Hrun as <- ->.
    destruct (simulated _ _ _ _ _ _ _ (refine_read _ _ _ _ _ Hr He) Hread)
      as ([] & w' & Hm & <- & <- & Hb). by exists w'.
  - destruct (simulated _ _ _ _ _ _ _ (refine_timer _ _ _ _ _ Hr He) Hrun)
      as ([] & w' & Hm & <- & <- & Hb). by exists w'.
  - destruct (simulated _ _ _ _ _ _ _ (refine_output _ _ _ _ _ Hr He) Hrun)
      as ([] & w' & Hm & <- & <- & Hb). by exists w'.
  - destruct (proj1 (wp_returns (on_segments (calloc seg))
      (fun g w1 => lib_of w1 = lib_of w /\ handed w1 order E g seg) w)) as (g & w1 & Hcall & E1 & Hh).
    { eapply wp_calloc_segment; [exact Hr|]. by intros. }
    rewrite <- E1 in Hrun.
    destruct (simulated _ _ _ _ _ _ _ (refine_receive _ _ _ _ _ _ _ _ Hh He (Harr _ _ eq_refl)) Hrun)
      as ([] & w' & Hm & <- & <- & Hb). exists w'. by erewrite bind_Done by exact Hcall.
Qed.

Lemma serve_holds l w e c e' ls :
  holds l w e -> (forall seg len, c = CallReceive seg len -> arrived seg len) ->
  ep_serve c e (lib_of w) = Done (Some e') ls ->
  exists w', serve l c w = Done tt w' /\ lib_of w' = ls /\ holds l w' e'.
Proof.
  intros Hh Harr Hrun. destruct (serve_simulated _ _ _ _ _ _ Hh Harr Hrun)
    as (order & E & w' & _ & Hm & Hl & Hb). exists w'. split; [done|]. split; [done|].
  exists order, (<[l := e']> E). split; [exact Hb|]. apply lookup_insert_eq.
Qed.

(** ** The schedule *)

Definition ran {A} (o : outcome (world S) A) : option (world S) :=
  match o with Done _ w => Some w | _ => None end.

(** The segment sent [k] calls before the last. *)
Definition sent_packet (k : nat) w : option (list byte) :=
  ev ← reverse (w_trace w) !! k;
  match ev with EvSend _ bs _ => Some bs | _ => None end.

(** A packet that arrives as it was sent. *)
Definition hand (l : loc) (packet : list byte) w : option (world S) :=
  seg ← segment_of_bytes packet;
  ran (serve l (CallReceive seg (Z.of_nat (length packet))) w).

(** One end reads and sends; the other receives, outputs and acknowledges. *)
Definition exchange (la lb : loc) (s : world S * world S) : option (world S * world S) :=
  wa ← ran (serve la CallRead s.1);
  data ← sent_packet 0 wa;
  wb ← hand lb data s.2;
  ack ← sent_packet 0 wb;
  wa ← hand la ack wa;
  Some (wa, wb).

Fixpoint exchanges (n : nat) (la lb : loc) (s : world S * world S) : option (world S * world S) :=
  match n with
  | O => Some s
  | Datatypes.S n => s ← exchange la lb s; exchanges n la lb s
  end.

(** One end reads the end of its input, and both close. *)
Definition close (la lb : loc) (s : world S * world S) : option (world S * world S) :=
  wa ← ran (serve la CallRead s.1);
  fin ← sent_packet 0 wa;
  wb ← hand lb fin s.2;
  ack ← sent_packet 1 wb;
  wa ← hand la ack wa;
  fin ← sent_packet 0 wb;
  wa ← hand la fin wa;
  ack ← sent_packet 0 wa;
  wb ← hand lb ack wb;
  Some (wa, wb).

Lemma sent_packet_0 w tr c bs n : w_trace w = tr ++ [EvSend c bs n] -> sent_packet 0 w = Some bs.
Proof. intros E. unfold sent_packet. by rewrite E, reverse_snoc. Qed.

Lemma sent_packet_1 w tr c bs n ev :
  w_trace w = (tr ++ [EvSend c bs n]) ++ [ev] -> sent_packet 1 w = Some bs.
Proof. intros E. unfold sent_packet. by rewrite E, !reverse_snoc. Qed.

(** A segment of the other's record of calls that is handed over. *)
Definition sent_by tr bs : Prop := exists c n, EvSend c bs n ∈ tr /\ 0 <= n.

Lemma hand_wire l w e seqno ackno flags data o ls :
  holds l w e -> 0 <= seqno < 2 ^ 32 -> 0 <= ackno < 2 ^ 32 -> 0 <= flags < 2 ^ 32 ->
  Z.of_nat (length data) <= MAX_SEG_DATA_SIZE ->
  let len := SEGMENT_HDR_SIZE + Z.of_nat (length data) in
  let g := wire_segment seqno ackno flags len data in
  ep_handle (Segment seqno ackno len 0 flags MAX_SEG_DATA_SIZE 0 data) e (lib_of w) = Done o ls ->
  exists order E w', E !! l = Some e /\ hand l (segment_bytes g) w = Some w' /\ lib_of w' = ls /\
    becomes order E l o w' /\
    forall tr, sent_by tr (segment_bytes g) ->
      exists c, deliverable tr c /\ serve l c w = Done tt w'.
Proof.
  intros Hh Hs Ha Hf Hd len g Hrun.
  destruct (wire_handled seqno ackno flags data (lib_of w) e Hs Ha Hf Hd) as (Hl & Hb & Harr & Hserve).
  fold len g in Hl, Hb, Harr, Hserve. rewrite <- Hserve in Hrun.
  destruct (serve_simulated l w e (CallReceive g len) o ls Hh) as (order & E & w' & He & Hm & Hlib & Hbec);
    [by intros ? ? [= <- <-]|done|].
  exists order, E, w'. split; [done|]. split.
  { unfold hand. rewrite Hb, Hl. unfold mbind, option_bind. by rewrite Hm. }
  split; [done|]. split; [done|]. intros tr (c & n & Hin & Hn). exists (CallReceive g len).
  split; [|done]. split; [done|]. intros _. by exists c, (segment_bytes g), n.
Qed.

(** ** The ends between two exchanges *)

Record in_sync (ea eb : endpoint) : Prop := {
  sy_phase_a : ep_phase ea = DATA_TRANSFER;
  sy_phase_b : ep_phase eb = DATA_TRANSFER;
  sy_idle : ep_unacked ea = None;
  sy_next : ep_seqno ea = ep_ackno eb;
  sy_back : ep_ackno ea <= ep_seqno eb;
  sy_seqno_a : 0 <= ep_seqno ea < 2 ^ 32;
  sy_ackno_a : 0 <= ep_ackno ea < 2 ^ 32;
  sy_seqno_b : 0 <= ep_seqno eb < 2 ^ 32;
}.

(** Two ends in step, with the connections [ca] and [cb], their inputs being
    [ia] and [ib] and their outputs so far [oa] and [ob]. *)
Definition joined (la lb : loc) (ca cb : ptr) (ia ib : list (option (list byte)))
    (oa ob : list byte) (s : world S * world S) : Prop :=
  exists ea eb, holds la s.1 ea /\ holds lb s.2 eb /\ ep_conn ea = ca /\ ep_conn eb = cb /\
    in_sync ea eb /\ offers (w_sys s.1) ca ia oa /\ offers (w_sys s.2) cb ib ob.

Lemma lib_of_inv w tr sys : lib_of w = (tr, sys) -> w_trace w = tr /\ w_sys w = sys.
Proof. intros E. by injection E. Qed.

Lemma becomes_holds order E l e w : becomes order E l (Some e) w -> holds l w e.
Proof. intros Hr. exists order, (<[l := e]> E). split; [exact Hr|]. apply lookup_insert_eq. Qed.

Lemma app_cons {A} (l : list A) x y : l ++ [x; y] = (l ++ [x]) ++ [y].
Proof. by rewrite <- app_assoc. Qed.

Lemma sent_by_last tr c bs n : 0 <= n -> sent_by (tr ++ [EvSend c bs n]) bs.
Proof. intros Hn. exists c, n. split; [|done]. apply elem_of_app. right. by apply list_elem_of_singleton. Qed.

(** What a packet handed over leaves, and that the network may hand it over
    once the other end has sent it. *)
Definition hands (l : loc) (packet : list byte) w w' : Prop :=
  hand l packet w = Some w' /\
  forall tr, sent_by tr packet -> exists c, deliverable tr c /\ serve l c w = Done tt w'.

Lemma hands_wire l w e seqno ackno flags data e' tr sys :
  holds l w e -> 0 <= seqno < 2 ^ 32 -> 0 <= ackno < 2 ^ 32 -> 0 <= flags < 2 ^ 32 ->
  Z.of_nat (length data) <= MAX_SEG_DATA_SIZE ->
  let len := SEGMENT_HDR_SIZE + Z.of_nat (length data) in
  ep_handle (Segment seqno ackno len 0 flags MAX_SEG_DATA_SIZE 0 data) e (w_trace w, w_sys w) =
    Done (Some e') (tr, sys) ->
  exists w', hands l (segment_bytes (wire_segment seqno ackno flags len data)) w w' /\
    w_trace w' = tr /\ w_sys w' = sys /\ holds l w' e'.
Proof.
  intros Hh Hs Ha Hf Hd len Hrun.
  destruct (hand_wire l w e seqno ackno flags data _ _ Hh Hs Ha Hf Hd Hrun)
    as (order & E & w' & _ & Hm & Hl & Hb & Hdel).
  exists w'. split; [done|]. apply lib_of_inv in Hl as [-> ->].
  split; [done|]. split; [done|]. by eapply becomes_holds.
Qed.

(** A bare segment. *)
Lemma hands_ctl l w e e0 flags e' tr sys :
  holds l w e -> 0 <= ep_seqno e0 < 2 ^ 32 -> 0 <= ep_ackno e0 < 2 ^ 32 -> flags = ACK \/ flags = FIN ->
  ep_handle (bare (ep_seqno e0) (ep_ackno e0) flags) e (w_trace w, w_sys w) = Done (Some e') (tr, sys) ->
  exists w', hands l (segment_bytes (ctl_segment e0 flags)) w w' /\
    w_trace w' = tr /\ w_sys w' = sys /\ holds l w' e'.
Proof.
  intros Hh Hs Ha Hf Hrun.
  apply (hands_wire l w e (ep_seqno e0) (ep_ackno e0) flags [] e' tr sys); try done.
  destruct Hf as [-> | ->]; by vm_compute.
Qed.

Lemma reads_piece l w e bs ins out :
  holds l w e -> offers (w_sys w) (ep_conn e) (Some bs :: ins) out -> ep_unacked e = None -> piece_ok bs ->
  exists n w', serve l CallRead w = Done tt w' /\ 0 <= n /\ offers (w_sys w') (ep_conn e) ins out /\
    w_trace w' = (w_trace w ++ [EvInput (ep_conn e) (Z.of_nat (length bs))]) ++
                 [EvSend (ep_conn e) (segment_bytes (carrier e bs)) n] /\
    holds l w' (busy e bs).
Proof.
  intros Hh Ho Hu Hbs.
  destruct (read_piece (w_trace w) (w_sys w) e bs ins out Ho Hu Hbs) as (n & s1 & Ho1 & Hn & Hr).
  destruct (serve_holds l w e CallRead _ _ Hh ltac:(done) Hr) as (w' & Hm & Hl & Hh').
  apply lib_of_inv in Hl as [Ht <-]. exists n, w'. rewrite <- app_assoc. auto.
Qed.

Lemma hands_piece l w e e0 bs ins out :
  holds l w e -> offers (w_sys w) (ep_conn e) ins out -> piece_ok bs -> ep_phase e = DATA_TRANSFER ->
  0 <= ep_seqno e < 2 ^ 32 -> ep_ackno e <= ep_seqno e0 ->
  0 <= ep_seqno e0 < 2 ^ 32 -> 0 <= ep_ackno e0 < 2 ^ 32 ->
  let y := u32 (ep_seqno e0 + Z.of_nat (length bs)) in
  exists r n w', hands l (segment_bytes (carrier e0 bs)) w w' /\ 0 <= n /\
    offers (w_sys w') (ep_conn e) ins (out ++ bs) /\ (stays (w_sys w) -> stays (w_sys w')) /\
    w_trace w' = (w_trace w ++ [EvOutput (ep_conn e) bs r]) ++
                 [EvSend (ep_conn e) (segment_bytes (ctl_segment (ep_with_ackno y e) ACK)) n] /\
    holds l w' (taken y e).
Proof.
  intros Hh Ho Hbs Hp Hs Hn0 Hs0 Ha0 y.
  destruct (take_piece (w_trace w) (w_sys w) e bs (ep_seqno e0) (ep_ackno e0) ins out Ho Hbs Hp Hs Hn0)
    as (r & n & s2 & Ho2 & Hst2 & Hn2 & Hr). fold y in Hr.
  destruct (hands_wire l w e (ep_seqno e0) (ep_ackno e0) ACK bs _ _ _ Hh Hs0 Ha0
    ltac:(by vm_compute) (proj2 Hbs) Hr) as (w' & Hw & Ht & <- & Hh').
  exists r, n, w'. rewrite <- app_assoc. auto 10.
Qed.

Lemma exchange_steps la lb wa wb wa1 wb1 wa2 data ack :
  serve la CallRead wa = Done tt wa1 -> sent_packet 0 wa1 = Some data ->
  hand lb data wb = Some wb1 -> sent_packet 0 wb1 = Some ack -> hand la ack wa1 = Some wa2 ->
  exchange la lb (wa, wb) = Some (wa2, wb1).
Proof. intros H1 H2 H3 H4 H5. 
  unfold exchange. cbn [fst snd]. rewrite H1. cbn [ran mbind option_bind].
  rewrite H2. cbn [mbind option_bind]. rewrite H3. cbn [mbind option_bind].
  rewrite H4. cbn [mbind option_bind]. by rewrite H5.
Qed.

(** The ends of an exchange, from their endpoints. *)
Lemma exchange_ends la lb wa wb ea eb bs ia ib oa ob :
  holds la wa ea -> holds lb wb eb -> in_sync ea eb ->
  offers (w_sys wa) (ep_conn ea) (Some bs :: ia) oa -> offers (w_sys wb) (ep_conn eb) ib ob -> piece_ok bs ->
  let y := u32 (ep_seqno ea + Z.of_nat (length bs)) in
  exists s', exchange la lb (wa, wb) = Some s' /\ rtc (net_step la lb) (wa, wb) s' /\
    outputs (w_trace s'.2) = outputs (w_trace wb) ++ [bs] /\
    sent_by (w_trace s'.1) (segment_bytes (carrier ea bs)) /\
    holds la s'.1 (acked (ep_seqno eb) (busy ea bs)) /\ holds lb s'.2 (taken y eb) /\
    offers (w_sys s'.1) (ep_conn ea) ia oa /\ offers (w_sys s'.2) (ep_conn eb) ib (ob ++ bs) /\
    (stays (w_sys wb) -> stays (w_sys s'.2)).
Proof.
  intros Ha Hb [Hpa Hpb Hu Hn Hk Hsa Haa Hsb] Hoa Hob Hbs y.
  destruct (reads_piece la wa ea bs ia oa Ha Hoa Hu Hbs) as (n1 & wa1 & Hm1 & Hn1 & Ho1 & Ht1 & Ha1).
  destruct (hands_piece lb wb eb ea bs ib ob Hb Hob Hbs Hpb Hsb ltac:(lia) Hsa Haa)
    as (r & n2 & wb1 & (Hm2 & Hd2) & Hn2 & Ho2 & Hst2 & Ht2 & Hb1). fold y in Ht2, Hb1.
  destruct (hands_ctl la wa1 (busy ea bs) (ep_with_ackno y eb) ACK _ _ _ Ha1 Hsb (u32_range _)
    ltac:(by left) (take_ack (busy ea bs) (ep_seqno eb) y (w_trace wa1, w_sys wa1) Hpa Hk))
    as (wa2 & (Hm3 & Hd3) & Ht3 & E3 & Ha2).
  exists (wa2, wb1). cbn [fst snd].
  split_and!; [| | | |exact Ha2|exact Hb1|by rewrite E3|exact Ho2|exact Hst2].
  - apply (exchange_steps _ _ _ _ wa1 _ _ (segment_bytes (carrier ea bs))
      (segment_bytes (ctl_segment (ep_with_ackno y eb) ACK)) Hm1); [|exact Hm2| |exact Hm3].
    + exact (sent_packet_0 wa1 _ _ _ _ Ht1).
    + exact (sent_packet_0 wb1 _ _ _ _ Ht2).
  - destruct (Hd2 (w_trace wa1)) as (c2 & Hc2 & Hrun2); [rewrite Ht1; by apply sent_by_last|].
    destruct (Hd3 (w_trace wb1)) as (c3 & Hc3 & Hrun3); [rewrite Ht2; by apply sent_by_last|].
    eapply rtc_l; [by apply step_call_a with CallRead; [eapply holds_listed| |]|].
    eapply rtc_l; [by apply step_call_b with c2; [eapply holds_listed| |]|].
    eapply rtc_l; [by apply step_call_a with c3; [eapply holds_listed| |]|done].
  - rewrite Ht2, outputs_silent, outputs_app by done. destruct bs; [by destruct Hbs|done].
  - rewrite Ht3, Ht1. by apply sent_by_last.
Qed.

Lemma exchange_run la lb ca cb bs ia ib oa ob s :
  joined la lb ca cb (Some bs :: ia) ib oa ob s -> piece_ok bs ->
  exists s', exchange la lb s = Some s' /\ rtc (net_step la lb) s s' /\
    outputs (w_trace s'.2) = outputs (w_trace s.2) ++ [bs] /\ joined la lb ca cb ia ib oa (ob ++ bs) s'.
Proof.
  destruct s as [wa wb]. intros (ea & eb & Ha & Hb & <- & <- & Hsy & Hoa & Hob) Hbs. cbn [fst snd] in *.
  destruct (exchange_ends la lb wa wb ea eb bs ia ib oa ob Ha Hb Hsy Hoa Hob Hbs)
    as (s' & Hx & Hst & Ho & _ & Ha' & Hb' & Hoa' & Hob' & _).
  exists s'. split; [done|]. split; [done|]. split; [done|]. destruct Hsy.
  eexists _, _. split; [exact Ha'|]. split; [exact Hb'|]. split; [done|]. split; [done|]. split; [|done].
  split; cbn; try done; apply u32_range.
Qed.

Lemma joined_exchanges la lb ca cb bss ia ib oa ob s :
  joined la lb ca cb (map Some bss ++ ia) ib oa ob s -> Forall piece_ok bss ->
  exists s', exchanges (length bss) la lb s = Some s' /\ rtc (net_step la lb) s s' /\
    outputs (w_trace s'.2) = outputs (w_trace s.2) ++ bss /\ joined la lb ca cb ia ib oa (ob ++ mjoin bss) s'.
Proof.
  revert ob s. induction bss as [|bs bss IH]; intros ob s Hj Hok.
  - exists s. split; [done|]. split; [done|]. cbn [mjoin list_join]. by rewrite !app_nil_r.
  - apply Forall_cons in Hok as [Hbs Hok].
    destruct (exchange_run la lb ca cb bs _ ib oa ob s Hj Hbs) as (s1 & Hx & Hst & Ho & Hj1).
    destruct (IH _ s1 Hj1 Hok) as (s2 & Hxs & Hst2 & Ho2 & Hj2).
    exists s2. split; [cbn [exchanges length]; rewrite Hx; exact Hxs|].
    split; [by etransitivity|]. split; [by rewrite Ho2, Ho, <- app_assoc|].
    change (mjoin (bs :: bss)) with (bs ++ mjoin bss). by rewrite app_assoc.
Qed.

(** ** The end *)

(** The state is freed, and no longer on [state_list]. *)
Definition state_freed (l : loc) w : Prop := mem (w_states w) !! l = None /\ ~ listed l w.

Lemma becomes_gone order E l w : becomes order E l None w -> state_freed l w.
Proof.
  intros (Hf & l1 & l2 & _ & O & Hi). split; [done|]. intros (order' & Hc & Hl).
  rewrite <- (chain_unique _ _ _ _ _ _ (inv_chain _ _ _ _ Hi) Hc) in Hl.
  apply (inv_dom _ _ _ _ Hi) in Hl as [e He]. by rewrite lookup_delete_eq in He.
Qed.

Lemma hands_end l w e e0 tr sys :
  holds l w e -> 0 <= ep_seqno e0 < 2 ^ 32 -> 0 <= ep_ackno e0 < 2 ^ 32 ->
  ep_handle (bare (ep_seqno e0) (ep_ackno e0) ACK) e (w_trace w, w_sys w) = Done None (tr, sys) ->
  exists w', hands l (segment_bytes (ctl_segment e0 ACK)) w w' /\ w_trace w' = tr /\ state_freed l w'.
Proof.
  intros Hh Hs Ha Hrun.
  destruct (hand_wire l w e (ep_seqno e0) (ep_ackno e0) ACK [] _ _ Hh Hs Ha ltac:(by vm_compute)
    ltac:(by vm_compute) Hrun) as (order & E & w' & _ & Hm & Hl & Hb & Hdel).
  exists w'. split; [done|]. apply lib_of_inv in Hl as [-> _]. split; [done|]. by eapply becomes_gone.
Qed.

Lemma close_steps la lb wa wb wa1 wb1 wa2 wa3 wb2 fin ack fin' ack' :
  serve la CallRead wa = Done tt wa1 -> sent_packet 0 wa1 = Some fin ->
  hand lb fin wb = Some wb1 -> sent_packet 1 wb1 = Some ack -> hand la ack wa1 = Some wa2 ->
  sent_packet 0 wb1 = Some fin' -> hand la fin' wa2 = Some wa3 ->
  sent_packet 0 wa3 = Some ack' -> hand lb ack' wb1 = Some wb2 ->
  close la lb (wa, wb) = Some (wa3, wb2).
Proof.
  intros H1 H2 H3 H4 H5 H6 H7 H8 H9.
  unfold close. cbn [fst snd]. rewrite H1. cbn [ran mbind option_bind].
  rewrite H2. cbn [mbind option_bind]. rewrite H3. cbn [mbind option_bind].
  rewrite H4. cbn [mbind option_bind]. rewrite H5. cbn [mbind option_bind].
  rewrite H6. cbn [mbind option_bind]. rewrite H7. cbn [mbind option_bind].
  rewrite H8. cbn [mbind option_bind]. by rewrite H9.
Qed.

Lemma reads_end l w e ins out :
  holds l w e -> offers (w_sys w) (ep_conn e) (None :: ins) out -> ep_unacked e = None ->
  exists n w', serve l CallRead w = Done tt w' /\ 0 <= n /\ still (w_sys w') (ep_conn e) /\
    w_trace w' = (w_trace w ++ [EvInput (ep_conn e) (-1)]) ++
                 [EvSend (ep_conn e) (segment_bytes (ctl_segment e FIN)) n] /\
    holds l w' (closing e).
Proof.
  intros Hh Ho Hu.
  destruct (read_end (w_trace w) (w_sys w) e ins out Ho Hu) as (n & s1 & Ho1 & Hn & Hr).
  destruct (serve_holds l w e CallRead _ _ Hh ltac:(done) Hr) as (w' & Hm & Hl & Hh').
  apply lib_of_inv in Hl as [Ht <-]. exists n, w'. rewrite <- app_assoc. auto.
Qed.

Lemma hands_fin l w e e0 ins out :
  holds l w e -> offers (w_sys w) (ep_conn e) ins out -> stays (w_sys w) -> ep_phase e = DATA_TRANSFER ->
  0 <= ep_seqno e < 2 ^ 32 -> ep_seqno e0 = ep_ackno e ->
  0 <= ep_seqno e0 < 2 ^ 32 -> 0 <= ep_ackno e0 < 2 ^ 32 ->
  let e1 := ep_with_ackno (u32 (ep_ackno e + 1)) e in
  exists r n1 n2 w', hands l (segment_bytes (ctl_segment e0 FIN)) w w' /\ 0 <= n1 /\ 0 <= n2 /\
    still (w_sys w') (ep_conn e) /\ stays (w_sys w') /\
    w_trace w' = ((w_trace w ++ [EvOutput (ep_conn e) [] r]) ++
                  [EvSend (ep_conn e) (segment_bytes (ctl_segment e1 ACK)) n1]) ++
                 [EvSend (ep_conn e) (segment_bytes (ctl_segment e1 FIN)) n2] /\
    holds l w' (last_ack (ep_ackno e) e).
Proof.
  intros Hh Ho Hst Hp Hs Hn0 Hs0 Ha0 e1.
  destruct (take_fin (w_trace w) (w_sys w) e (ep_ackno e0) ins out Ho Hst Hp Hs)
    as (r & n1 & n2 & s3 & Ho3 & Hst3 & Hn1 & Hn2 & Hr). rewrite <- Hn0 in Hr at 1.
  destruct (hands_ctl l w e e0 FIN _ _ _ Hh Hs0 Ha0 ltac:(by right) Hr) as (w' & Hw & Ht & <- & Hh').
  exists r, n1, n2, w'. rewrite <- !app_assoc. auto 12.
Qed.

(** The sender, once its FIN is acknowledged and the other's comes. *)
Lemma sender_leaves l w e e0 :
  holds l w (closing e) -> still (w_sys w) (ep_conn e) ->
  0 <= ep_seqno e0 < 2 ^ 32 -> 0 <= ep_ackno e0 < 2 ^ 32 ->
  let last := ep_with_ackno (u32 (ep_seqno e0 + 1)) (ep_with_phase WAIT_LAST_FIN (closing e)) in
  exists n w2 w3, hands l (segment_bytes (ctl_segment e0 ACK)) w w2 /\
    hands l (segment_bytes (ctl_segment e0 FIN)) w2 w3 /\ listed l w2 /\ 0 <= n /\
    w_trace w3 = w_trace w ++ [EvSend (ep_conn e) (segment_bytes (ctl_segment last ACK)) n] /\
    holds l w3 (leaving (ep_seqno e0) (closing e)).
Proof.
  intros Hh Ho Hs0 Ha0 last.
  destruct (hands_ctl l w (closing e) e0 ACK _ _ _ Hh Hs0 Ha0 ltac:(by left)
    (take_last_ack (closing e) (ep_seqno e0) (ep_ackno e0) (w_trace w, w_sys w) eq_refl))
    as (w2 & Hw2 & Ht2 & E2 & Hh2).
  destruct (take_last_fin (w_trace w2) (w_sys w2) (ep_with_phase WAIT_LAST_FIN (closing e))
    (ep_seqno e0) (ep_ackno e0)) as (n & s3 & _ & Hn & Hr);
    [by rewrite E2|done|apply u32_range|].
  destruct (hands_ctl l w2 (ep_with_phase WAIT_LAST_FIN (closing e)) e0 FIN _ _ _ Hh2 Hs0 Ha0
    ltac:(by right) Hr) as (w3 & Hw3 & Ht3 & _ & Hh3).
  exists n, w2, w3. split; [exact Hw2|]. split; [exact Hw3|]. split; [by eapply holds_listed|].
  split; [exact Hn|]. split; [rewrite Ht3, Ht2; reflexivity|exact Hh3].
Qed.

(** The ends when they send their last segments. *)
Definition told_end eb : endpoint := ep_with_ackno (u32 (ep_ackno eb + 1)) eb.
Definition last_word ea eb : endpoint :=
  ep_with_ackno (u32 (ep_seqno eb + 1)) (ep_with_phase WAIT_LAST_FIN (closing ea)).

(** What the two ends ask of their libraries. *)
Definition first_closes ea eb (n1 n2 : Z) : list event :=
  [EvInput (ep_conn ea) (-1);
   EvSend (ep_conn ea) (segment_bytes (ctl_segment ea FIN)) n1;
   EvSend (ep_conn ea) (segment_bytes (ctl_segment (last_word ea eb) ACK)) n2].
Definition other_closes eb (r n1 n2 : Z) : list event :=
  [EvOutput (ep_conn eb) [] r;
   EvSend (ep_conn eb) (segment_bytes (ctl_segment (told_end eb) ACK)) n1;
   EvSend (ep_conn eb) (segment_bytes (ctl_segment (told_end eb) FIN)) n2;
   EvRemove (ep_conn eb); EvEndClient].

Lemma close_run la lb wa wb ea eb ia ib oa ob :
  holds la wa ea -> holds lb wb eb -> in_sync ea eb ->
  offers (w_sys wa) (ep_conn ea) (None :: ia) oa -> offers (w_sys wb) (ep_conn eb) ib ob ->
  stays (w_sys wb) ->
  exists s' r n1 n2 n3 n4, close la lb (wa, wb) = Some s' /\ rtc (net_step la lb) (wa, wb) s' /\
    w_trace s'.1 = w_trace wa ++ first_closes ea eb n1 n4 /\
    w_trace s'.2 = w_trace wb ++ other_closes eb r n2 n3 /\ Forall (Z.le 0) [n1; n2; n3; n4] /\
    state_freed lb s'.2 /\ holds la s'.1 (leaving (ep_seqno eb) (closing ea)).
Proof.
  intros Ha Hb Hsy Hoa Hob Hst. destruct Hsy as [Hpa Hpb Hu Hn Hk Hsa Haa Hsb].
  destruct (reads_end la wa ea ia oa Ha Hoa Hu) as (n1 & wa1 & Hm1 & Hn1 & Ho1 & Ht1 & Ha1).
  destruct (hands_fin lb wb eb ea ib ob Hb Hob Hst Hpb Hsb Hn Hsa Haa)
    as (r & n2 & n3 & wb1 & (Hm2 & Hd2) & Hn2 & Hn3 & Ho2 & Hst2 & Ht2 & Hb1).
  set (e1 := ep_with_ackno (u32 (ep_ackno eb + 1)) eb) in *.
  destruct (sender_leaves la wa1 ea e1 Ha1 Ho1 Hsb (u32_range _))
    as (n4 & wa2 & wa3 & (Hm3 & Hd3) & (Hm4 & Hd4) & Hla2 & Hn4 & Ht3 & Ha3).
  destruct (take_end (w_trace wb1) (w_sys wb1) (last_ack (ep_ackno eb) eb)
    (u32 (ep_seqno ea + 1)) (u32 (ep_seqno e1 + 1)) Ho2 Hst2 eq_refl) as (s4 & Hr4).
  destruct (hands_end lb wb1 (last_ack (ep_ackno eb) eb)
    (ep_with_ackno (u32 (ep_seqno e1 + 1)) (ep_with_phase WAIT_LAST_FIN (closing ea))) _ _ Hb1
    (u32_range _) (u32_range _) Hr4) as (wb2 & (Hm5 & Hd5) & Ht5 & Hgone).
  exists (wa3, wb2), r, n1, n2, n3, n4.
  cbn [fst snd]. split_and!; [| | | |by repeat constructor|exact Hgone|exact Ha3].
  - eapply (close_steps la lb wa wb wa1 wb1 wa2 wa3 wb2); [exact Hm1| |exact Hm2| |exact Hm3| |exact Hm4| |exact Hm5].
    + exact (sent_packet_0 wa1 _ _ _ _ Ht1).
    + exact (sent_packet_1 wb1 _ _ _ _ _ Ht2).
    + exact (sent_packet_0 wb1 _ _ _ _ Ht2).
    + exact (sent_packet_0 wa3 _ _ _ _ Ht3).
  - destruct (Hd2 (w_trace wa1)) as (c2 & Hc2 & Hrun2); [rewrite Ht1; by apply sent_by_last|].
    destruct (Hd3 (w_trace wb1)) as (c3 & Hc3 & Hrun3).
    { rewrite Ht2. exists (ep_conn eb), n2. split; [|done]. apply elem_of_app. left.
      apply elem_of_app. right. by apply list_elem_of_singleton. }
    destruct (Hd4 (w_trace wb1)) as (c4 & Hc4 & Hrun4); [rewrite Ht2; by apply sent_by_last|].
    destruct (Hd5 (w_trace wa3)) as (c5 & Hc5 & Hrun5); [rewrite Ht3; by apply sent_by_last|].
    eapply rtc_l; [by apply step_call_a with CallRead; [eapply holds_listed| |]|].
    eapply rtc_l; [by apply step_call_b with c2; [eapply holds_listed| |]|].
    eapply rtc_l; [by apply step_call_a with c3; [eapply holds_listed| |]|].
    eapply rtc_l; [by apply step_call_a with c4|].
    eapply rtc_l; [by apply step_call_b with c5; [eapply holds_listed| |]|done].
  - rewrite Ht3, Ht1, <- !app_assoc. reflexivity.
  - rewrite Ht5, Ht2, <- !app_assoc. reflexivity.
Qed.

(** Two ends just set up are in step. *)
Lemma init_joined la lb wa wb ca cb cfga cfgb ia ib oa ob :
  holds la wa (ep_init ca cfga) -> holds lb wb (ep_init cb cfgb) ->
  offers (w_sys wa) ca ia oa -> offers (w_sys wb) cb ib ob -> joined la lb ca cb ia ib oa ob (wa, wb).
Proof.
  intros Ha Hb Hoa Hob. exists (ep_init ca cfga), (ep_init cb cfgb). split_and!; try done.
Qed.

(** Nothing is held up or left out: when segments and acknowledgements arrive,
    and each is handled before the next read, then whatever the pieces that are
    read at one end, in any number, one exchange for each is enough for the other
    end to have output all of them, in their order and nothing else; the calls are
    among those of the system of [delivered_in_order], have no undefined
    behaviour, and leave the ends ready for more, beyond the wrap-around of the
    sequence numbers too. *)
Theorem all_delivered la lb ca cb bss ia ib oa ob s :
  joined la lb ca cb (map Some bss ++ ia) ib oa ob s -> Forall piece_ok bss ->
  exists s', exchanges (length bss) la lb s = Some s' /\ rtc (net_step la lb) s s' /\
    outputs (w_trace s'.2) = outputs (w_trace s.2) ++ bss /\ joined la lb ca cb ia ib oa (ob ++ mjoin bss) s'.
Proof. apply joined_exchanges. Qed.

(** C13: both ends close, when nothing is lost, each packet is handled before the
    next call, and the process of the other end goes on after [end_client]: when
    the input of one end has ended, its FIN makes the other output the end of
    file, send an acknowledgement with the number after that of the FIN, and its
    own FIN; the first sends an acknowledgement with the number after that one,
    on which the other end removes its connection and frees its state; the first
    has begun the countdown after which it is destroyed. *)
Theorem both_close la lb wa wb ea eb ia ib oa ob :
  holds la wa ea -> holds lb wb eb -> in_sync ea eb ->
  offers (w_sys wa) (ep_conn ea) (None :: ia) oa -> offers (w_sys wb) (ep_conn eb) ib ob ->
  stays (w_sys wb) ->
  exists s' r n1 n2 n3 n4, close la lb (wa, wb) = Some s' /\ rtc (net_step la lb) (wa, wb) s' /\
    w_trace s'.1 = w_trace wa ++ first_closes ea eb n1 n4 /\
    w_trace s'.2 = w_trace wb ++ other_closes eb r n2 n3 /\ Forall (Z.le 0) [n1; n2; n3; n4] /\
    state_freed lb s'.2 /\ holds la s'.1 (leaving (ep_seqno eb) (closing ea)).
Proof. apply close_run. Qed.
End Worlds.

(** ** On a script *)

(** Its connections that take what is output, with inputs to come. *)
Definition script_offers (s : script) (c : ptr) (ins : list (option (list byte))) : Prop :=
  (c ∉ sc_removed s) /\ sc_inputs s = ins /\ sc_sends s = [] /\
    MAX_SEG_DATA_SIZE <= sc_space s <= MAX_BUF_SPACE.

Lemma assert_open_run s c : (c ∉ sc_removed s) -> assert_open c s = Done tt s.
Proof. intros Hc. unfold assert_open, mbind, M_bind, gets. by rewrite bool_decide_false by done. Qed.

(** What has been output is not in the script. *)
#[export] Program Instance script_lossless : Lossless script := {|
  offers s c ins _ := script_offers s c ins;
  still s c := (c ∉ sc_removed s) /\ sc_sends s = [];
  stays _ := True;
|}.
Next Obligation. by intros s c ins out (Hc & _ & Hs & _). Qed.
Next Obligation.
  intros [ins sends space rem] c bs ins' out (Hc & Hi & Hs & Hsp) Hl. simpl in *. subst.
  eexists _, (Script ins' [] space rem). split; [done|].
  rewrite (bind_Done _ _ _ _ _ (assert_open_run (Script (Some bs :: ins') [] space rem) c Hc)).
  unfold mbind, M_bind, gets. simpl. by rewrite firstn_all2 by (unfold MAX_BUFF_SIZE in *; lia).
Qed.
Next Obligation.
  intros [ins sends space rem] c ins' out (Hc & Hi & Hs & Hsp). simpl in *. subst.
  eexists _, (Script ins' [] space rem). split; [done|].
  by rewrite (bind_Done _ _ _ _ _ (assert_open_run (Script (None :: ins') [] space rem) c Hc)).
Qed.
Next Obligation.
  intros s c bs len (Hc & Hs) Hl Hlen. exists len, s. cbn [conn_send script_lib].
  rewrite (bind_Done _ _ _ _ _ (assert_open_run s c Hc)). unfold mbind, M_bind, gets. rewrite Hs.
  split; [done|]. split; [unfold SEGMENT_HDR_SIZE in Hlen; lia|done].
Qed.
Next Obligation.
  intros s c ins out (Hc & Hi & Hs & Hsp). exists (sc_space s). unfold MAX_BUF_SPACE in *. split; [lia|done].
Qed.
Next Obligation.
  intros s c ins out bs Ho Hl. exists (Z.of_nat (length bs)), s. split; [done|]. split; [done|]. split; [lia|].
  cbn [conn_output script_lib]. by rewrite (bind_Done _ _ _ _ _ (assert_open_run s c (proj1 Ho))).
Qed.
Next Obligation.
  intros s c ins out (Hc & _ & Hs & _). exists 0, s. split; [done|]. split; [done|].
  cbn [conn_output script_lib]. by rewrite (bind_Done _ _ _ _ _ (assert_open_run s c Hc)).
Qed.
Next Obligation. intros s c Hs Ht. by eexists _, _. Qed.

Definition talker (ins : list (option (list byte))) : world script :=
  one_world ex_idle (zero_segment 20) (Script ins [] 8192 []).

Lemma talker_holds ins : holds 1%positive (talker ins) ex_idle.
Proof. exists [1%positive], {[1%positive := ex_idle]}. split; [apply one_represents|apply lookup_singleton_eq]. Qed.

Lemma talkers_joined ia ib :
  joined 1%positive 1%positive (Some 5%positive) (Some 5%positive) ia ib [] [] (talker ia, talker ib).
Proof.
  eapply init_joined; [apply talker_holds|apply talker_holds| |];
    (split; [apply not_elem_of_nil|]; split; [done|]; split; [done|by vm_compute]).
Qed.

Lemma all_delivered_witness :
  exists s', exchanges 2 1%positive 1%positive (talker [Some hi; Some yo; None], talker []) = Some s' /\
    outputs (w_trace s'.2) = [hi; yo].
Proof.
  destruct (all_delivered 1%positive 1%positive (Some 5%positive) (Some 5%positive) [hi; yo] [None] [] [] []
    (talker [Some hi; Some yo; None], talker [])) as (s' & Hx & _ & Ho & _).
  - apply talkers_joined.
  - repeat constructor; by vm_compute.
  - exists s'. split; [exact Hx|exact Ho].
Defined.
