(* ===== verification/CtcpTimer.v ===== *)
(** * The timer of [src/ctcp.c]

    What [retransmission_handler] does over successive timer periods, and what
    the loop of [ctcp_timer] does with the state list. *)

From S2P Require Import Prelude Heap Words Cksum LinkedList Segment ConnLib Ctcp CtcpSpec.
From S2P Require Import CtcpSteps CtcpInv CtcpRefine Script CtcpSafety CtcpProps.

Section Timer.
Context {S : Type} `{!ConnLib S}.
Implicit Types (w : world S) (E : gmap loc endpoint) (e : endpoint).

(** [n] timer periods, for one state. *)
Fixpoint ticks (n : nat) (l : loc) : M (world S) unit :=
  match n with
  | O => mret tt
  | Datatypes.S n => ticks n l;; retransmission_handler l
  end.

(** From the library states [P], sending this segment again returns, with a
    result of which [N] holds, and leaves the library in one of them. *)
Definition resendable (P : S -> Prop) (N : Z -> Prop) (c : ptr) (seg : ctcp_segment) : Prop :=
  forall s, P s -> exists n s', conn_send c (Some (segment_bytes seg)) (ntohs (seg_len seg)) s = Done n s' /\
    N n /\ P s'.

(** The same of what an endpoint keeps, if it keeps anything. *)
Definition goes_on (P : S -> Prop) e : Prop :=
  ep_td e <> WAIT_DESTROY /\
  forall u, ep_unacked e = Some u -> resendable P (fun _ => True) (ep_conn e) (un_segment u).

(** One period, for an endpoint that has not been waiting for its end. *)
Lemma tick_run w order E l e P N :
  represents w order E -> E !! l = Some e -> ep_td e <> WAIT_DESTROY ->
  (forall u, ep_unacked e = Some u -> resendable P N (ep_conn e) (un_segment u)) -> P (w_sys w) ->
  exists w' e' evs, retransmission_handler l w = Done tt w' /\
    represents w' order (<[l := e']> E) /\ P (w_sys w') /\ w_trace w' = w_trace w ++ evs /\
    ep_td e' = ep_td e /\ ep_conn e' = ep_conn e /\
    match ep_unacked e with
    | None => e' = e /\ evs = []
    | Some u =>
        let time := u16 (un_time u + ep_timer e) in
        let times := u16 (un_times u + 1) in
        if time >=? ep_rt_timeout e then
          (exists n, N n /\ evs = [EvSend (ep_conn e) (segment_bytes (un_segment u)) n]) /\
          e' = ep_with_unacked (if times >=? 5 then None
                                else Some (Unacked (un_segment u) times time)) e
        else evs = [] /\ e' = ep_with_unacked (Some (Unacked (un_segment u) (un_times u) time)) e
    end.
Proof.
  intros Hr He Htd Hsend HP.
  pose proof (refine_timer w order E l e Hr He) as Hsim.
  assert (Et : ep_tick e = (e ← ep_resend e; mret (Some e)))
    by (unfold ep_tick; by destruct (ep_td e)).
  rewrite Et in Hsim. unfold ep_resend in Hsim. destruct (ep_unacked e) as [u|] eqn:Hu.
  - unfold ep_retransmit in Hsim. cbv zeta. destruct (_ >=? ep_rt_timeout e).
    + destruct (Hsend u eq_refl (w_sys w) HP) as (n & s' & Hs & Hn & HP').
      destruct (simulated _ _ _ w _ _ _ Hsim
        ltac:(erewrite bind_Done; [|erewrite bind_Done; [|by apply lib_send_run]; done]; done))
        as ([] & w' & Hrun & Ht & Hsy & Hb).
      eexists w', _, _. split_and!; [done|exact Hb|by rewrite Hsy|exact Ht|done|done|by exists n|done].
    + destruct (simulated _ _ _ w _ _ _ Hsim eq_refl) as ([] & w' & Hrun & Ht & Hsy & Hb).
      eexists w', _, []. split_and!; [done|exact Hb|by rewrite Hsy|by rewrite app_nil_r|done..].
  - destruct (simulated _ _ _ w _ _ _ Hsim eq_refl) as ([] & w' & Hrun & Ht & Hsy & Hb).
    eexists w', _, []. split_and!; [done|exact Hb|by rewrite Hsy|by rewrite app_nil_r|done..].
Qed.

(** ** Retransmission *)

(** The first period at which a segment is sent again, and how often it has been
    sent again after [k] periods. *)
Definition first_resend (timer rt : Z) : Z := Z.max 1 ((rt + timer - 1) / timer).
Definition resends (timer rt k : Z) : Z := Z.min 5 (Z.max 0 (k + 1 - first_resend timer rt)).

Lemma first_resend_spec timer rt k :
  0 < timer -> 0 <= rt -> 1 <= k -> (rt <= k * timer <-> first_resend timer rt <= k).
Proof.
  intros Ht Hr Hk. unfold first_resend.
  assert (Hd : (rt + timer - 1) / timer <= k <-> rt <= k * timer).
  { split; intros H; [|Z.div_mod_to_equations; nia]. Z.div_mod_to_equations. nia. }
  lia.
Qed.

Lemma first_resend_bound timer rt :
  0 < timer -> 0 <= rt -> first_resend timer rt * timer <= rt + timer.
Proof. intros Ht Hr. unfold first_resend. Z.div_mod_to_equations. nia. Qed.

Definition resent_unacked (seg : ctcp_segment) (timer rt k : Z) : option unacked :=
  if resends timer rt k =? 5 then None
  else Some (Unacked seg (resends timer rt k) (k * timer)).

(** One period, on the schedule. *)
Lemma resend_step N seg timer rt (k : nat) e e2 evs :
  0 < timer -> 0 <= rt -> rt + 6 * timer < 2 ^ 16 ->
  match resent_unacked seg timer rt (Z.of_nat k) with
  | None => e2 = ep_with_unacked (resent_unacked seg timer rt (Z.of_nat k)) e /\ evs = []
  | Some u =>
      if u16 (un_time u + timer) >=? rt then
        (exists n, N n /\ evs = [EvSend (ep_conn e) (segment_bytes (un_segment u)) n]) /\
        e2 = ep_with_unacked (if u16 (un_times u + 1) >=? 5 then None
          else Some (Unacked (un_segment u) (u16 (un_times u + 1)) (u16 (un_time u + timer))))
          (ep_with_unacked (resent_unacked seg timer rt (Z.of_nat k)) e)
      else evs = [] /\
        e2 = ep_with_unacked (Some (Unacked (un_segment u) (un_times u) (u16 (un_time u + timer))))
          (ep_with_unacked (resent_unacked seg timer rt (Z.of_nat k)) e)
  end ->
  Z.of_nat (length evs) =
    resends timer rt (Z.of_nat (Datatypes.S k)) - resends timer rt (Z.of_nat k) /\
  Forall (fun ev => exists n, N n /\ ev = EvSend (ep_conn e) (segment_bytes seg) n) evs /\
  e2 = ep_with_unacked (resent_unacked seg timer rt (Z.of_nat (Datatypes.S k))) e.
Proof.
  intros Hpos Hrt Hnw. pose proof (first_resend_bound timer rt Hpos Hrt) as Hfb.
  pose proof (first_resend_spec timer rt (Z.of_nat (Datatypes.S k)) Hpos Hrt ltac:(lia)) as Hfs.
  rewrite Nat2Z.inj_succ in *. set (K := Z.of_nat k) in *. assert (0 <= K) by lia.
  set (f := first_resend timer rt) in *.
  unfold resent_unacked, resends. fold f.
  destruct (Z.eqb_spec (Z.min 5 (Z.max 0 (K + 1 - f))) 5) as [E5|E5].
  - intros [-> ->]. rewrite (proj2 (Z.eqb_eq _ _)) by lia. split_and!; [simpl; lia|done|done].
  - cbn [un_time un_times un_segment].
    assert (Hw : K * timer + timer < 2 ^ 16) by nia.
    rewrite (u16_small (K * timer + timer)) by nia.
    replace (K * timer + timer) with (Z.succ K * timer) by lia.
    destruct (Z.geb_spec (Z.succ K * timer) rt) as [Hge|Hlt].
    + assert (Hfk : f <= Z.succ K) by (apply Hfs; lia).
      rewrite u16_small by lia. intros [(n & Hn & ->) ->].
      destruct (Z.geb_spec (Z.min 5 (Z.max 0 (K + 1 - f)) + 1) 5) as [H5|H5].
      * rewrite (proj2 (Z.eqb_eq _ _)) by lia. split_and!; [simpl; lia|apply Forall_singleton; eauto|done].
      * rewrite (proj2 (Z.eqb_neq _ _)) by lia.
        split_and!; [simpl; lia|apply Forall_singleton; eauto|].
        replace (Z.min 5 (Z.max 0 (Z.succ K + 1 - f))) with
          (Z.min 5 (Z.max 0 (K + 1 - f)) + 1) by lia. done.
    + assert (Hfk : Z.succ K < f) by (apply Z.nle_gt; rewrite <- Hfs; lia).
      intros [-> ->]. rewrite (proj2 (Z.eqb_neq _ _)) by lia.
      split_and!; [simpl; lia|done|].
      replace (Z.min 5 (Z.max 0 (Z.succ K + 1 - f))) with
        (Z.min 5 (Z.max 0 (K + 1 - f))) by lia. done.
Qed.

Lemma resends_run w order E l e seg P N (k : nat) :
  represents w order E -> E !! l = Some e -> ep_td e <> WAIT_DESTROY ->
  ep_unacked e = Some (Unacked seg 0 0) -> resendable P N (ep_conn e) seg -> P (w_sys w) ->
  0 < ep_timer e -> 0 <= ep_rt_timeout e -> ep_rt_timeout e + 6 * ep_timer e < 2 ^ 16 ->
  exists w' evs, ticks k l w = Done tt w' /\ w_trace w' = w_trace w ++ evs /\
    Z.of_nat (length evs) = resends (ep_timer e) (ep_rt_timeout e) (Z.of_nat k) /\
    Forall (fun ev => exists n, N n /\ ev = EvSend (ep_conn e) (segment_bytes seg) n) evs /\
    represents w' order (<[l := ep_with_unacked
      (resent_unacked seg (ep_timer e) (ep_rt_timeout e) (Z.of_nat k)) e]> E) /\ P (w_sys w').
Proof.
  intros Hr He Htd Hu Hsend HP Hpos Hrt Hnw.
  set (timer := ep_timer e) in *. set (rt := ep_rt_timeout e) in *.
  pose proof (first_resend_bound timer rt Hpos Hrt) as Hfb.
  assert (Hf1 : 1 <= first_resend timer rt) by (unfold first_resend; lia).
  induction k as [|k IH].
  - exists w, []. rewrite app_nil_r. unfold resent_unacked, resends. simpl length.
    replace (Z.min 5 _) with 0 by lia. split_and!; [done..|constructor| |done].
    change (0 =? 5) with false. cbv iota. rewrite Z.mul_0_l, <- Hu.
    replace (ep_with_unacked (ep_unacked e) e) with e by by destruct e.
    by rewrite insert_id.
  - destruct IH as (w1 & evs & Hrun & Htr & Hlen & Hall & Hr1 & HP1).
    destruct (tick_run w1 order _ l _ P N Hr1 (lookup_insert_eq _ _ _) Htd) as
      (w2 & e2 & evs2 & Hrun2 & Hr2 & HP2 & Htr2 & Htd2 & Hc2 & Hcase); [|exact HP1|].
    { intros u. cbn. unfold resent_unacked. destruct (_ =? 5); [done|]. by intros [= <-]. }
    exists w2, (evs ++ evs2). rewrite insert_insert_eq in Hr2. simpl in Hcase.
    assert (Hstep : Z.of_nat (length evs2) =
        resends timer rt (Z.of_nat (Datatypes.S k)) - resends timer rt (Z.of_nat k) /\
      Forall (fun ev => exists n, N n /\ ev = EvSend (ep_conn e) (segment_bytes seg) n) evs2 /\
      e2 = ep_with_unacked (resent_unacked seg timer rt (Z.of_nat (Datatypes.S k))) e).
    { apply (resend_step N seg timer rt k e e2 evs2); [done..|]. exact Hcase. }
    destruct Hstep as (Hlen2 & Hall2 & ->). split_and!.
    + simpl. by erewrite bind_Done.
    + by rewrite Htr2, Htr, app_assoc.
    + rewrite length_app. lia.
    + by apply Forall_app.
    + done.
    + done.
Qed.

(** C14: the retransmission schedule, where [rt_timeout] and six periods fit in
    the 16 bits of the clock and sending the segment again returns. A segment just
    sent is sent again, the same bytes, at the first timer period at which
    [rt_timeout] has passed since it was sent, and then at every one of the next
    four periods, not [rt_timeout] after the retransmission; the fifth time it is
    forgotten, and the connection goes on. *)
Theorem retransmission_schedule w order E l e seg P (k : nat) :
  represents w order E -> E !! l = Some e -> ep_td e <> WAIT_DESTROY ->
  ep_unacked e = Some (Unacked seg 0 0) ->
  resendable P (fun _ => True) (ep_conn e) seg -> P (w_sys w) ->
  0 < ep_timer e -> 0 <= ep_rt_timeout e -> ep_rt_timeout e + 6 * ep_timer e < 2 ^ 16 ->
  exists w' evs, ticks k l w = Done tt w' /\ w_trace w' = w_trace w ++ evs /\
    Z.of_nat (length evs) = resends (ep_timer e) (ep_rt_timeout e) (Z.of_nat k) /\
    Forall (fun ev => exists n, ev = EvSend (ep_conn e) (segment_bytes seg) n) evs /\
    represents w' order (<[l := ep_with_unacked
      (resent_unacked seg (ep_timer e) (ep_rt_timeout e) (Z.of_nat k)) e]> E) /\ P (w_sys w').
Proof.
  intros Hr He Htd Hu Hsend HP Hpos Hrt Hnw.
  destruct (resends_run w order E l e seg P (fun _ => True) k) as (w' & evs & Hrun & Ht & Hl & Hev & Hr' & HP');
    [done..|].
  exists w', evs. split_and!; [done..| |done|done].
  eapply Forall_impl; [exact Hev|]. intros ev (n & _ & ->). by exists n.
Qed.

(** ** The end of a connection *)

(** The number of periods a connection waits before it is destroyed. *)
Definition destroy_period (timer rt : Z) : Z := Z.max 1 ((50 * rt + timer - 1) / timer).

Lemma tick_waiting w order E l e :
  represents w order E -> E !! l = Some e -> ep_td e = WAIT_DESTROY -> ep_unacked e = None ->
  u16 (ep_tim e + ep_timer e) < ep_rt_timeout e * 50 ->
  exists w', retransmission_handler l w = Done tt w' /\ lib_of w' = lib_of w /\
    represents w' order (<[l := ep_with_td WAIT_DESTROY (u16 (ep_tim e + ep_timer e)) e]> E).
Proof.
  intros Hr He Htd Hu Hlt. pose proof (refine_timer w order E l e Hr He) as Hsim.
  assert (Hs : ep_tick e (lib_of w) =
    Done (Some (ep_with_td WAIT_DESTROY (u16 (ep_tim e + ep_timer e)) e)) (lib_of w)).
  { unfold ep_tick. rewrite Htd. cbv zeta.
    destruct (Z.geb_spec (u16 (ep_tim e + ep_timer e))
      (ep_rt_timeout (ep_with_td WAIT_DESTROY (u16 (ep_tim e + ep_timer e)) e) * 50)) as [Hge|_];
      [simpl in Hge; lia|].
    unfold ep_resend.
    change (ep_unacked (ep_with_td WAIT_DESTROY (u16 (ep_tim e + ep_timer e)) e)) with (ep_unacked e).
    by rewrite Hu. }
  destruct (rwp_Done _ _ _ _ _ _ Hsim Hs) as ([] & w' & Hrun & Hl & Hb). eauto.
Qed.

Lemma countdown_periods w order E l e (k : nat) :
  represents w order E -> E !! l = Some e -> ep_td e = WAIT_DESTROY -> ep_unacked e = None ->
  ep_tim e = 0 -> 0 <= ep_timer e -> Z.of_nat k * ep_timer e < 2 ^ 16 ->
  (forall j, 1 <= j <= Z.of_nat k -> j * ep_timer e < ep_rt_timeout e * 50) ->
  exists w', ticks k l w = Done tt w' /\ lib_of w' = lib_of w /\
    represents w' order (<[l := ep_with_td WAIT_DESTROY (Z.of_nat k * ep_timer e) e]> E).
Proof.
  intros Hr He Htd Hu Htim Hpos Hw Hlt. induction k as [|k IH].
  - exists w. split_and!; [done|done|].
    replace (ep_with_td WAIT_DESTROY _ e) with e by (destruct e; simpl in *; by subst).
    by rewrite insert_id.
  - destruct IH as (w1 & Hrun & Hl & Hr1); [nia|intros; apply Hlt; lia|].
    assert (Eu : u16 (Z.of_nat k * ep_timer e + ep_timer e) =
                 Z.of_nat (Datatypes.S k) * ep_timer e).
    { rewrite u16_small; nia. }
    destruct (tick_waiting w1 order _ l _ Hr1 (lookup_insert_eq _ _ _)) as (w2 & Hrun2 & Hl2 & Hr2);
      [done|done| |].
    + simpl ep_tim. simpl ep_timer. simpl ep_rt_timeout. rewrite Eu. apply Hlt. lia.
    + exists w2. rewrite insert_insert_eq in Hr2. simpl ep_tim in Hr2. simpl ep_timer in Hr2.
      rewrite Eu in Hr2. split_and!; [|congruence|done].
      simpl. by erewrite bind_Done.
Qed.

(** After the FIN of the other side has been acknowledged ([WAIT_DESTROY],
    with nothing unacknowledged), the connection stays for 50 times [rt_timeout],
    without any call to the library, and is removed and its state destroyed at the
    first timer period after that. *)
Theorem wait_destroy_countdown w order E l e (k : nat) s1 s2 :
  represents w order E -> E !! l = Some e -> ep_td e = WAIT_DESTROY -> ep_unacked e = None ->
  ep_tim e = 0 -> 0 < ep_timer e -> 0 <= ep_rt_timeout e ->
  ep_rt_timeout e * 50 + ep_timer e < 2 ^ 16 ->
  conn_remove (ep_conn e) (w_sys w) = Done tt s1 -> end_client s1 = Done tt s2 ->
  Z.of_nat k <= destroy_period (ep_timer e) (ep_rt_timeout e) ->
  exists w', ticks k l w = Done tt w' /\
    if Z.of_nat k =? destroy_period (ep_timer e) (ep_rt_timeout e) then
      lib_of w' = (w_trace w ++ [EvRemove (ep_conn e); EvEndClient], s2) /\
      exists l1 l2, order = l1 ++ l :: l2 /\ represents w' (l1 ++ l2) (delete l E)
    else lib_of w' = lib_of w /\
      represents w' order (<[l := ep_with_td WAIT_DESTROY (Z.of_nat k * ep_timer e) e]> E).
Proof.
  intros Hr He Htd Hu Htim Hpos Hrt Hw H1 H2 Hk.
  set (timer := ep_timer e) in *. set (rt := ep_rt_timeout e) in *.
  set (D := destroy_period timer rt) in *.
  assert (HD : 1 <= D /\ (D - 1) * timer < Z.max 1 (rt * 50) /\ rt * 50 <= D * timer).
  { subst D. unfold destroy_period. Z.div_mod_to_equations. nia. }
  assert (Hbefore : forall j, 1 <= j < D -> j * timer < rt * 50) by nia.
  assert (Hrun : forall j : nat, Z.of_nat j < D -> exists w', ticks j l w = Done tt w' /\
    lib_of w' = lib_of w /\
    represents w' order (<[l := ep_with_td WAIT_DESTROY (Z.of_nat j * timer) e]> E)).
  { intros j Hj. eapply (countdown_periods w order E l e j); try done.
    - fold timer. lia.
    - fold timer. nia.
    - intros i Hi. fold timer rt. apply Hbefore. lia. }
  destruct (Z.eqb_spec (Z.of_nat k) D) as [Ek|Ek]; [|apply Hrun; lia].
  destruct k as [|k]; [lia|].
  destruct (Hrun k) as (w1 & Hrun1 & Hl1 & Hr1); [lia|].
  pose proof (refine_timer w1 order _ l _ Hr1 (lookup_insert_eq _ _ _)) as Hsim.
  set (e1 := ep_with_td WAIT_DESTROY (Z.of_nat k * timer) e) in *.
  assert (Hs : ep_tick e1 (lib_of w1) =
    Done None (w_trace w ++ [EvRemove (ep_conn e); EvEndClient], s2)).
  { rewrite Hl1. unfold ep_tick. change (ep_td e1) with WAIT_DESTROY. cbv iota zeta.
    change (ep_tim e1) with (Z.of_nat k * timer). change (ep_timer e1) with timer.
    change (ep_rt_timeout (ep_with_td WAIT_DESTROY _ e1)) with rt.
    rewrite u16_small by nia. rewrite (proj2 (Z.geb_le _ _)) by nia.
    by apply (ep_destroy_run (ep_with_td WAIT_DESTROY _ e1) _ _ s1). }
  destruct (rwp_Done _ _ _ _ _ _ Hsim Hs) as ([] & w' & Hrun' & Hl' & (_ & l1 & l2 & Ho & Hb)).
  exists w'. split; [simpl; by erewrite bind_Done|]. split; [done|].
  exists l1, l2. by rewrite delete_insert_eq in Hb.
Qed.

(** C33: but [tim] has 16 bits: with an [rt_timeout] of more than 1310 ms the end is
    never reached: after any number of periods the connection is still there. *)
Theorem wait_destroy_never w order E l e (k : nat) :
  represents w order E -> E !! l = Some e -> ep_td e = WAIT_DESTROY -> ep_unacked e = None ->
  1310 < ep_rt_timeout e ->
  exists w' e', ticks k l w = Done tt w' /\ lib_of w' = lib_of w /\
    represents w' order (<[l := e']> E).
Proof.
  intros Hr He Htd Hu Hrt.
  enough (Hex : exists w' tim, ticks k l w = Done tt w' /\ lib_of w' = lib_of w /\
    represents w' order (<[l := ep_with_td WAIT_DESTROY tim e]> E))
    by (destruct Hex as (w' & tim & ? & ? & ?); eauto).
  induction k as [|k (w1 & tim & Hrun & Hl & Hr1)].
  - exists w, (ep_tim e). split_and!; [done|done|].
    replace (ep_with_td WAIT_DESTROY _ e) with e by (destruct e; simpl in *; by subst).
    by rewrite insert_id.
  - destruct (tick_waiting w1 order _ l _ Hr1 (lookup_insert_eq _ _ _)) as (w2 & Hrun2 & Hl2 & Hr2);
      [done|done| |].
    + pose proof (u16_range (tim + ep_timer e)). simpl ep_tim. simpl ep_timer.
      simpl ep_rt_timeout. lia.
    + rewrite insert_insert_eq in Hr2. eexists w2, _. split_and!; [|congruence|exact Hr2].
      simpl. by erewrite bind_Done.
Qed.

(** ** The loop of [ctcp_timer] *)

(** What [state_list] and [state_list->next] are. *)
Lemma represents_head w l order E :
  represents w (l :: order) E ->
  exists st, w_state_list w = Some l /\ mem (w_states w) !! l = Some st /\ st_next st = head order.
Proof.
  intros (O & Hi). destruct (inv_chain _ _ _ _ Hi) as (-> & st & Hst & _ & Hc).
  exists st. split_and!; [done..|]. by eapply chain_ptr.
Qed.

Lemma timer_loop_step fuel s w w' l order E :
  retransmission_handler s w = Done tt w' -> represents w' (l :: order) E ->
  ctcp_timer_loop (Datatypes.S fuel) (Some s) w = ctcp_timer_loop fuel (head order) w'.
Proof.
  intros Hrun Hr. destruct (represents_head _ _ _ _ Hr) as (st & Hsl & Hst & Hn).
  cbn [ctcp_timer_loop]. erewrite bind_Done by done. unfold gets, deref.
  destruct w' as [sl [ST bst] SG AT TD LL buf tr sys]. simpl in *. subst sl.
  unfold on_states, zoom, load, mbind, M_bind. simpl. rewrite Hst. simpl. by rewrite Hn.
Qed.

Lemma timer_idle w E fuel : represents w [] E -> ctcp_timer fuel w = Done tt w.
Proof.
  intros (O & Hi). pose proof (inv_chain _ _ _ _ Hi) as Hc. simpl in Hc.
  unfold ctcp_timer, gets, mbind, M_bind. rewrite Hc. by destruct fuel.
Qed.

(** With no connection [ctcp_timer] does nothing; with one connection it runs
    [retransmission_handler] on its state once, and returns. *)
Theorem ctcp_timer_single w E l e P (fuel : nat) :
  (represents w [] E -> ctcp_timer fuel w = Done tt w) /\
  (represents w [l] E -> E !! l = Some e -> goes_on P e -> P (w_sys w) ->
   exists w' e', retransmission_handler l w = Done tt w' /\
     ctcp_timer (Datatypes.S fuel) w = Done tt w' /\ represents w' [l] (<[l := e']> E)).
Proof.
  split.
  - apply timer_idle.
  - intros Hr He [Htd Hs] HP.
    destruct (tick_run w [l] E l e P (fun _ => True) Hr He Htd) as (w' & e' & evs & Hrun & Hr' & _);
      [done..|].
    exists w', e'. split_and!; [done| |done].
    destruct (represents_head _ _ _ _ Hr) as (st & Hsl & _).
    unfold ctcp_timer, gets, mbind, M_bind. rewrite Hsl.
    rewrite (timer_loop_step fuel l w w' l [] _ Hrun Hr'). by destruct fuel.
Qed.

(** A period leaves either nothing unacknowledged or the same segment. *)
Lemma tick_keeps e e' evs (N : Z -> Prop) :
  match ep_unacked e with
  | None => e' = e /\ evs = []
  | Some u =>
      let time := u16 (un_time u + ep_timer e) in
      let times := u16 (un_times u + 1) in
      if time >=? ep_rt_timeout e then
        (exists n, N n /\ evs = [EvSend (ep_conn e) (segment_bytes (un_segment u)) n]) /\
        e' = ep_with_unacked (if times >=? 5 then None
                              else Some (Unacked (un_segment u) times time)) e
      else evs = [] /\ e' = ep_with_unacked (Some (Unacked (un_segment u) (un_times u) time)) e
  end ->
  forall u', ep_unacked e' = Some u' -> exists u, ep_unacked e = Some u /\ un_segment u' = un_segment u.
Proof.
  destruct (ep_unacked e) as [u|] eqn:Hu.
  - cbv zeta. intros H u' Hu'. exists u. split; [done|].
    destruct (_ >=? ep_rt_timeout e); destruct H as [_ ->]; simpl in Hu'.
    + destruct (_ >=? 5); simplify_eq. done.
    + by simplify_eq.
  - intros [-> _]. congruence.
Qed.

(** C17: with two connections or more, none of them waiting to be destroyed, where
    sending again what each keeps returns, [ctcp_timer] never returns:
    [state = state_list->next] keeps taking the second state of the list, whatever
    the number of iterations. *)
Theorem ctcp_timer_never_returns w l1 l2 order E P (fuel : nat) :
  represents w (l1 :: l2 :: order) E ->
  (forall l e, E !! l = Some e -> goes_on P e) ->
  P (w_sys w) -> ctcp_timer fuel w = NoFuel.
Proof.
  intros Hr HE HP. destruct (represents_head _ _ _ _ Hr) as (st & Hsl & _).
  unfold ctcp_timer, gets, mbind, M_bind. rewrite Hsl. clear st Hsl.
  assert (Hin : l1 ∈ l1 :: l2 :: order) by set_solver. revert Hin.
  generalize l1 at 1 3. intros s Hin. revert s Hin w E Hr HE HP.
  induction fuel as [|fuel IH]; intros s Hin w E Hr HE HP; [done|].
  pose proof Hr as (O & Hi). apply (inv_dom _ _ _ _ Hi) in Hin as [e He]. clear O Hi.
  destruct (HE s e He) as [Htd Hs].
  destruct (tick_run w _ E s e P (fun _ => True) Hr He Htd)
    as (w' & e' & evs & Hrun & Hr' & HP' & _ & Htd' & Hc' & Hcase); [done..|].
  rewrite (timer_loop_step fuel s w w' l1 (l2 :: order) _ Hrun Hr'). simpl.
  apply (IH l2 ltac:(set_solver) w' (<[s := e']> E)); [done| |done].
  intros k f [[<- <-]|[_ Hf]]%lookup_insert_Some; [|by eapply HE].
  split; [by rewrite Htd'|]. rewrite Hc'. intros u' Hu'.
  destruct (tick_keeps _ _ _ _ Hcase u' Hu') as (u & Hu & ->). by apply Hs.
Qed.

(** And when the only state is destroyed by its handler and the process goes
    on, as on a server, the loop follows [state_list], which is null by then. *)
Theorem ctcp_timer_destroyed_undef w E l e s1 s2 (fuel : nat) :
  represents w [l] E -> E !! l = Some e -> ep_td e = WAIT_DESTROY ->
  ep_rt_timeout e * 50 <= u16 (ep_tim e + ep_timer e) ->
  conn_remove (ep_conn e) (w_sys w) = Done tt s1 -> end_client s1 = Done tt s2 ->
  ctcp_timer (Datatypes.S fuel) w = Undef.
Proof.
  intros Hr He Htd Hge H1 H2. pose proof (refine_timer w [l] E l e Hr He) as Hsim.
  assert (Hs : ep_tick e (lib_of w) =
    Done None (w_trace w ++ [EvRemove (ep_conn e); EvEndClient], s2)).
  { unfold ep_tick. rewrite Htd. cbv zeta.
    change (ep_rt_timeout (ep_with_td WAIT_DESTROY _ e)) with (ep_rt_timeout e).
    rewrite (proj2 (Z.geb_le _ _)) by lia.
    by apply (ep_destroy_run (ep_with_td WAIT_DESTROY _ e) _ _ s1). }
  destruct (rwp_Done _ _ _ _ _ _ Hsim Hs) as ([] & w' & Hrun & _ & (_ & k1 & k2 & Ho & (O & Hi))).
  destruct (represents_head _ _ _ _ Hr) as (st & Hsl & _).
  assert (k1 ++ k2 = []) as Ek.
  { destruct k1 as [|k k1]; [by injection Ho as <-|]. injection Ho as _ Ho. by destruct k1. }
  rewrite Ek in Hi. pose proof (inv_chain _ _ _ _ Hi) as Hc. simpl in Hc.
  unfold ctcp_timer, gets, mbind at 1, M_bind at 1. rewrite Hsl.
  cbn [ctcp_timer_loop]. erewrite bind_Done by done. unfold gets, mbind, M_bind. by rewrite Hc.
Qed.
End Timer.

(** ** Witnesses *)

(** A connection that has answered the last FIN. *)
Definition ex_waiting : endpoint := ep_with_td WAIT_DESTROY 0 (ep_with_phase WAIT_LAST_FIN ex_idle).
Definition ex_slow : endpoint :=
  ep_with_td WAIT_DESTROY 0 (ep_init (Some 5%positive) (CtcpConfig 1440 1440 40 2000)).

Lemma wait_destroy_countdown_witness :
  exists w', ticks 250 1%positive (ex_world ex_waiting ex_wire) = Done tt w' /\
    w_trace w' = [EvRemove (Some 5%positive); EvEndClient].
Proof.
  destruct (wait_destroy_countdown (ex_world ex_waiting ex_wire) [1%positive] (ex_map ex_waiting)
    1%positive ex_waiting 250 ex_removed ex_removed) as (w' & Hrun & Hb);
    [apply ex_represents|apply ex_lookup|by vm_compute..|].
  exists w'. split; [exact Hrun|].
  change (Z.of_nat 250 =? destroy_period (ep_timer ex_waiting) (ep_rt_timeout ex_waiting)) with true
    in Hb. destruct Hb as [Hl _]. by injection Hl.
Defined.

Lemma wait_destroy_never_witness :
  exists w', ticks 4000 1%positive (ex_world ex_slow ex_wire) = Done tt w' /\
    w_trace w' = [].
Proof.
  destruct (wait_destroy_never (ex_world ex_slow ex_wire) [1%positive] (ex_map ex_slow)
    1%positive ex_slow 4000) as (w' & e' & Hrun & Hl & _);
    [apply ex_represents|apply ex_lookup|done|done|by vm_compute|].
  exists w'. split; [exact Hrun|]. by injection Hl.
Defined.

Lemma ctcp_timer_destroyed_undef_witness :
  ctcp_timer 5 (ex_world (ep_with_td WAIT_DESTROY 9960 ex_idle) ex_wire) = Undef.
Proof.
  apply (ctcp_timer_destroyed_undef _ (ex_map (ep_with_td WAIT_DESTROY 9960 ex_idle)) 1%positive
    (ep_with_td WAIT_DESTROY 9960 ex_idle) ex_removed ex_removed 4);
    [apply ex_represents|apply ex_lookup|by vm_compute..].
Defined.
