(* ===== verification/Recovery.v ===== *)
(** * A transfer on a network that loses

    One end sends, and its segments, the acknowledgements or both get lost: a
    segment that arrives in one of its six transmissions is output once, and the
    transfer goes on, whether the acknowledgement arrives or not and though more
    copies of the segment come later. Once the sequence numbers have wrapped
    around, a copy that comes later is output again. *)

From S2P Require Import Prelude Heap Words Cksum LinkedList Segment ConnLib Ctcp CtcpSpec CtcpSteps.
From S2P Require Import CtcpInv CtcpRefine Script CtcpSafety CtcpProps Streams Delivery Network Transfer.
From S2P Require Import CtcpTimer.

#[local] Opaque wire_segment segment_bytes seg_cksum_of.

(** What happens to the transmissions of a piece: the first [lost] are lost and
    the next one arrives; the acknowledgement may be lost; then come [again] more
    copies. *)
Record fate := Fate { lost : nat; ack_lost : bool; again : nat }.
Definition survives (f : fate) : Prop := (lost f <= 5)%nat.

(** The timer periods until a segment has been sent [k] times more. *)
Definition periods (timer rt : Z) (k : nat) : nat :=
  match k with O => O | Datatypes.S k => (Z.to_nat (first_resend timer rt) + k)%nat end.

Lemma periods_resends timer rt k :
  (k <= 5)%nat -> resends timer rt (Z.of_nat (periods timer rt k)) = Z.of_nat k.
Proof. intros Hk. unfold resends. destruct k as [|k]; cbn [periods]; unfold first_resend; lia. Qed.

Lemma periods_mono timer rt j k : (j <= k)%nat -> (periods timer rt j <= periods timer rt k)%nat.
Proof. destruct j, k; simpl; lia. Qed.

(** The clock of the retransmissions does not wrap around. *)
Record paced (timer rt : Z) : Prop := {
  pc_timer : 0 < timer;
  pc_rt : 0 <= rt;
  pc_clock : rt + 6 * timer < 2 ^ 16;
}.

Section Worlds.
Context {S : Type} `{!ConnLib S} `{!ConnLaws S} `{!Lossless S}.
Implicit Types (w : world S) (tr : list event) (e : endpoint) (bs : list byte).

(** ** The schedule *)

Fixpoint hand_again (n : nat) (l : loc) (packet : list byte) w : option (world S) :=
  match n with
  | O => Some w
  | Datatypes.S n => w ← hand l packet w; hand_again n l packet w
  end.

Definition lossy_exchange (timer rt : Z) (la lb : loc) (f : fate) (s : world S * world S) :
    option (world S * world S) :=
  wa ← ran (serve la CallRead s.1);
  wa ← ran (ticks (periods timer rt (lost f)) la wa);
  data ← sent_packet 0 wa;
  wb ← hand lb data s.2;
  wa ← (if ack_lost f
        then ran (ticks (periods timer rt 5 - periods timer rt (lost f)) la wa)
        else ack ← sent_packet 0 wb; hand la ack wa);
  wb ← hand_again (again f) lb data wb;
  Some (wa, wb).

Fixpoint lossy_exchanges (timer rt : Z) (la lb : loc) (fs : list fate) (s : world S * world S) :
    option (world S * world S) :=
  match fs with
  | [] => Some s
  | f :: fs => s ← lossy_exchange timer rt la lb f s; lossy_exchanges timer rt la lb fs s
  end.

(** ** Waiting *)

Lemma ticks_add n m l w w1 :
  ticks n l w = Done tt w1 -> ticks (n + m) l w = ticks m l w1.
Proof.
  intros Hn. induction m as [|m IH].
  - by rewrite Nat.add_0_r.
  - rewrite Nat.add_succ_r. cbn [ticks]. unfold mbind, M_bind in *. by rewrite IH.
Qed.

(** A calm stretch: each period is a step of the system. *)
Lemma ticks_steps la lb n wb : forall wa wa',
  ticks n la wa = Done tt wa' ->
  (forall j w, (j < n)%nat -> ticks j la wa = Done tt w -> listed la w) ->
  rtc (net_step la lb) (wa, wb) (wa', wb).
Proof.
  induction n as [|n IH]; intros wa wa' Hrun Hl.
  - injection Hrun as <-. done.
  - cbn [ticks] in Hrun. unfold mbind, M_bind in Hrun.
    destruct (ticks n la wa) as [[] w1| | |] eqn:E1; [|done..].
    eapply rtc_r; [apply (IH wa w1 E1); intros j w Hj; apply Hl; lia|].
    apply step_call_a with CallTimer; [apply (Hl n); [lia|done]|done|exact Hrun].
Qed.

Lemma last_of_copies tr c p n evs :
  0 <= n -> Forall (fun ev => exists n, 0 <= n /\ ev = EvSend c p n) evs ->
  exists tr' n', 0 <= n' /\ (tr ++ [EvSend c p n]) ++ evs = tr' ++ [EvSend c p n'].
Proof.
  intros Hn Hev. destruct evs as [|ev evs] using rev_ind.
  - exists tr, n. by rewrite app_nil_r.
  - apply Forall_app in Hev as [_ (n' & Hn' & ->)%Forall_singleton].
    exists ((tr ++ [EvSend c p n]) ++ evs), n'. by rewrite app_assoc.
Qed.

(** The sender after [k] periods without an answer. *)
Definition waiting timer rt (k : nat) e bs : endpoint :=
  ep_with_unacked (resent_unacked (carrier e bs) timer rt (Z.of_nat k)) (busy e bs).

Lemma carrier_resendable c e bs ia oa :
  piece_ok bs ->
  resendable (fun s => offers s c ia oa) (fun n => 0 <= n) c (carrier e bs).
Proof.
  intros Hbs s Ho. pose proof Hbs as [H1 H2].
  destruct (send_succeeds s c (segment_bytes (carrier e bs)) (ntohs (seg_len (carrier e bs)))
    (offers_still _ _ _ _ Ho)) as (n & s' & Hrun & Hn & _ & Ho' & _).
  - rewrite carrier_length by done. unfold carrier, piece_ok, MAX_SEG_DATA_SIZE, SEGMENT_HDR_SIZE in *.
    rewrite wire_ntohs_len by (unfold SEGMENT_HDR_SIZE, MAX_SEG_DATA_SIZE; lia). done.
  - unfold carrier, MAX_SEG_DATA_SIZE, SEGMENT_HDR_SIZE in *.
    rewrite wire_ntohs_len by (unfold SEGMENT_HDR_SIZE, MAX_SEG_DATA_SIZE; lia). lia.
  - exists n, s'. split; [done|]. split; [done|]. by apply Ho'.
Qed.

Lemma waits timer rt l w e bs ia oa tr n (k : nat) :
  holds l w (busy e bs) -> offers (w_sys w) (ep_conn e) ia oa -> piece_ok bs ->
  ep_td e <> WAIT_DESTROY -> ep_timer e = timer -> ep_rt_timeout e = rt -> paced timer rt ->
  w_trace w = tr ++ [EvSend (ep_conn e) (segment_bytes (carrier e bs)) n] -> 0 <= n ->
  exists tr' n' w', ticks k l w = Done tt w' /\ 0 <= n' /\
    w_trace w' = tr' ++ [EvSend (ep_conn e) (segment_bytes (carrier e bs)) n'] /\
    holds l w' (waiting timer rt k e bs) /\ offers (w_sys w') (ep_conn e) ia oa.
Proof.
  intros (order & E & Hr & He) Ho Hbs Htd <- <- [Ht Hrt Hc] Htr Hn.
  destruct (resends_run w order E l (busy e bs) (carrier e bs) (fun s => offers s (ep_conn e) ia oa)
    (fun n => 0 <= n) k Hr He Htd eq_refl (carrier_resendable _ _ _ _ _ Hbs) Ho Ht Hrt Hc)
    as (w' & evs & Hrun & Htr' & _ & Hev & Hr' & Ho').
  rewrite Htr in Htr'. destruct (last_of_copies tr _ _ n evs Hn Hev) as (tr' & n' & Hn' & Heq).
  exists tr', n', w'. split; [done|]. split; [done|]. split; [rewrite Htr'; exact Heq|].
  split; [|exact Ho']. eexists _, _. split; [exact Hr'|]. apply lookup_insert_eq.
Qed.

(** ** Copies that come again *)

Lemma hands_old l w e e0 bs :
  holds l w e -> piece_ok bs -> ep_phase e = DATA_TRANSFER -> ep_seqno e0 < ep_ackno e ->
  0 <= ep_seqno e0 < 2 ^ 32 -> 0 <= ep_ackno e0 < 2 ^ 32 ->
  exists w', hands l (segment_bytes (carrier e0 bs)) w w' /\
    w_trace w' = w_trace w /\ w_sys w' = w_sys w /\ holds l w' e.
Proof.
  intros Hh Hbs Hp Hold Hs Ha.
  apply (hands_wire l w e (ep_seqno e0) (ep_ackno e0) ACK bs); try done; [apply Hbs|].
  unfold ep_handle. rewrite Hp. unfold ep_data_transfer. cbn [seg_seqno].
  by rewrite (proj2 (Z.ltb_lt _ _) Hold).
Qed.

Lemma old_copies la lb n wa w e e0 bs :
  holds lb w e -> piece_ok bs -> ep_phase e = DATA_TRANSFER -> ep_seqno e0 < ep_ackno e ->
  0 <= ep_seqno e0 < 2 ^ 32 -> 0 <= ep_ackno e0 < 2 ^ 32 ->
  sent_by (w_trace wa) (segment_bytes (carrier e0 bs)) ->
  exists w', hand_again n lb (segment_bytes (carrier e0 bs)) w = Some w' /\
    rtc (net_step la lb) (wa, w) (wa, w') /\
    w_trace w' = w_trace w /\ w_sys w' = w_sys w /\ holds lb w' e.
Proof.
  intros Hh Hbs Hp Hold Hs Ha Hsent. revert w Hh. induction n as [|n IH]; intros w Hh.
  - by exists w.
  - destruct (hands_old lb w e e0 bs Hh Hbs Hp Hold Hs Ha) as (w1 & (Hm & Hd) & Ht1 & Hs1 & Hh1).
    destruct (IH w1 Hh1) as (w2 & Hm2 & Hst2 & Ht2 & Hs2 & Hh2).
    destruct (Hd _ Hsent) as (c & Hc & Hrun). exists w2. cbn [hand_again]. rewrite Hm.
    split; [exact Hm2|]. split; [|by rewrite Ht2, Hs2].
    eapply rtc_l; [by apply step_call_b with c; [eapply holds_listed| |]|exact Hst2].
Qed.

(** ** One piece *)

(** The ends between two pieces, [x] being the next sequence number. *)
Definition in_step timer rt x (la lb : loc) (ca cb : ptr) (ia ib : list (option (list byte)))
    (oa ob : list byte) (s : world S * world S) : Prop :=
  exists ea eb, holds la s.1 ea /\ holds lb s.2 eb /\ ep_conn ea = ca /\ ep_conn eb = cb /\
    in_sync ea eb /\ offers (w_sys s.1) ca ia oa /\ offers (w_sys s.2) cb ib ob /\
    ep_seqno ea = x /\ ep_td ea <> WAIT_DESTROY /\ ep_timer ea = timer /\ ep_rt_timeout ea = rt.

Lemma lossy_steps timer rt la lb f wa wb wa1 wa2 wa3 wb1 wb2 data :
  serve la CallRead wa = Done tt wa1 ->
  ticks (periods timer rt (lost f)) la wa1 = Done tt wa2 ->
  sent_packet 0 wa2 = Some data -> hand lb data wb = Some wb1 ->
  (if ack_lost f
   then ran (ticks (periods timer rt 5 - periods timer rt (lost f)) la wa2)
   else ack ← sent_packet 0 wb1; hand la ack wa2) = Some wa3 ->
  hand_again (again f) lb data wb1 = Some wb2 ->
  lossy_exchange timer rt la lb f (wa, wb) = Some (wa3, wb2).
Proof.
  intros H1 H2 H3 H4 H5 H6. unfold lossy_exchange. cbn [fst snd]. rewrite H1. cbn [ran mbind option_bind].
  rewrite H2. cbn [ran mbind option_bind]. rewrite H3. cbn [mbind option_bind].
  rewrite H4. cbn [mbind option_bind]. rewrite H5. cbn [mbind option_bind]. by rewrite H6.
Qed.

Lemma resent_idle seg timer rt :
  resent_unacked seg timer rt (Z.of_nat (periods timer rt 5)) = None.
Proof. unfold resent_unacked. by rewrite periods_resends. Qed.

(** What the sender does once its segment has been output: it takes the
    acknowledgement, or waits until it gives up. *)
Lemma sender_settles timer rt la lb (f : fate) wa1 wa2 wb1 ea eb y bs ia oa tr n tr2 c2 n2 :
  survives f -> paced timer rt -> piece_ok bs ->
  holds la wa1 (busy ea bs) -> offers (w_sys wa1) (ep_conn ea) ia oa ->
  ep_td ea <> WAIT_DESTROY -> ep_timer ea = timer -> ep_rt_timeout ea = rt ->
  w_trace wa1 = tr ++ [EvSend (ep_conn ea) (segment_bytes (carrier ea bs)) n] -> 0 <= n ->
  ticks (periods timer rt (lost f)) la wa1 = Done tt wa2 ->
  ep_phase ea = DATA_TRANSFER -> ep_ackno ea <= ep_seqno eb -> 0 <= ep_seqno eb < 2 ^ 32 ->
  0 <= y < 2 ^ 32 -> 0 <= n2 ->
  w_trace wb1 = tr2 ++ [EvSend c2 (segment_bytes (ctl_segment (ep_with_ackno y eb) ACK)) n2] ->
  exists wa3 x, (if ack_lost f
     then ran (ticks (periods timer rt 5 - periods timer rt (lost f)) la wa2)
     else ack ← sent_packet 0 wb1; hand la ack wa2) = Some wa3 /\
    rtc (net_step la lb) (wa2, wb1) (wa3, wb1) /\ offers (w_sys wa3) (ep_conn ea) ia oa /\
    holds la wa3 (acked x (busy ea bs)) /\ (x = ep_ackno ea \/ x = ep_seqno eb) /\
    sent_by (w_trace wa3) (segment_bytes (carrier ea bs)).
Proof.
  intros Hf Hpc Hbs Ha Ho Htd Ht Hrt Htr Hn Htick Hp Hk Hsb Hy Hn2 Htr2.
  assert (Hat : forall k, exists tr' n' w', ticks k la wa1 = Done tt w' /\ 0 <= n' /\
    w_trace w' = tr' ++ [EvSend (ep_conn ea) (segment_bytes (carrier ea bs)) n'] /\
    holds la w' (waiting timer rt k ea bs) /\ offers (w_sys w') (ep_conn ea) ia oa)
    by (intros k; by apply (waits timer rt la wa1 ea bs ia oa tr n k)).
  destruct (ack_lost f).
  - set (k := periods timer rt (lost f)) in *. set (m := (periods timer rt 5 - k)%nat).
    assert (Em : (k + m)%nat = periods timer rt 5)
      by (pose proof (periods_mono timer rt (lost f) 5 Hf); subst m; lia).
    destruct (Hat (k + m)%nat) as (tr' & n' & wa3 & Hrun & Hn' & Htr' & Hh & Ho').
    rewrite Em in Hh. unfold waiting in Hh. rewrite resent_idle in Hh.
    rewrite (ticks_add k m la wa1 wa2 Htick) in Hrun.
    exists wa3, (ep_ackno ea). rewrite Hrun. split; [done|]. split.
    + apply (ticks_steps la lb m wb1 wa2 wa3 Hrun). intros j w Hj Hw.
      rewrite <- (ticks_add k j la wa1 wa2 Htick) in Hw.
      destruct (Hat (k + j)%nat) as (_ & _ & w1 & Hw1 & _ & _ & Hh1 & _).
      rewrite Hw in Hw1. injection Hw1 as <-. by eapply holds_listed.
    + split; [done|]. split; [by destruct ea|]. split; [by left|]. rewrite Htr'. by apply sent_by_last.
  - destruct (Hat (periods timer rt (lost f))) as (tr' & n' & w1 & Hrun & Hn' & Htr' & Hh & Ho').
    rewrite Htick in Hrun. injection Hrun as <-.
    destruct (hands_ctl la wa2 _ (ep_with_ackno y eb) ACK _ _ _ Hh Hsb Hy ltac:(by left)
      (take_ack (waiting timer rt _ ea bs) (ep_seqno eb) y (w_trace wa2, w_sys wa2) Hp Hk))
      as (wa3 & (Hm3 & Hd3) & Ht3 & E3 & Ha3).
    exists wa3, (ep_seqno eb). rewrite (sent_packet_0 wb1 _ _ _ _ Htr2). cbn [mbind option_bind].
    split; [exact Hm3|]. split.
    + destruct (Hd3 (w_trace wb1)) as (c3 & Hc3 & Hrun3); [rewrite Htr2; by apply sent_by_last|].
      eapply rtc_l; [by apply step_call_a with c3; [eapply holds_listed| |]|done].
    + rewrite E3. split; [done|]. split; [exact Ha3|]. split; [by right|].
      rewrite Ht3, Htr'. by apply sent_by_last.
Qed.

Lemma lossy_run timer rt x la lb ca cb f bs ia ib oa ob s :
  in_step timer rt x la lb ca cb (Some bs :: ia) ib oa ob s -> piece_ok bs -> survives f -> paced timer rt ->
  x + Z.of_nat (length bs) < 2 ^ 32 ->
  exists s', lossy_exchange timer rt la lb f s = Some s' /\ rtc (net_step la lb) s s' /\
    outputs (w_trace s'.2) = outputs (w_trace s.2) ++ [bs] /\
    in_step timer rt (x + Z.of_nat (length bs)) la lb ca cb ia ib oa (ob ++ bs) s' /\
    (stays (w_sys s.2) -> stays (w_sys s'.2)).
Proof.
  destruct s as [wa wb].
  intros (ea & eb & Ha & Hb & <- & <- & Hsy & Hoa & Hob & <- & Htd & <- & <-) Hbs Hf Hpc Hx. simpl in *.
  destruct Hsy as [Hpa Hpb Hu Hn Hk Hsa Haa Hsb]. pose proof Hbs as [Hl1 Hl2].
  destruct (reads_piece la wa ea bs ia oa Ha Hoa Hu Hbs) as (n1 & wa1 & Hm1 & Hn1 & Ho1 & Ht1 & Ha1).
  set (timer := ep_timer ea) in *. set (rt := ep_rt_timeout ea) in *.
  destruct (waits timer rt la wa1 ea bs ia oa _ n1 (periods timer rt (lost f)) Ha1 Ho1 Hbs Htd eq_refl eq_refl
    Hpc Ht1 Hn1) as (tr2 & n2 & wa2 & Hm2 & Hn2 & Ht2 & Ha2 & Ho2).
  destruct (hands_piece lb wb eb ea bs ib ob Hb Hob Hbs Hpb Hsb ltac:(lia) Hsa Haa)
    as (r & n3 & wb1 & (Hm3 & Hd3) & Hn3 & Ho3 & Hst3 & Ht3 & Hb1).
  set (y := u32 (ep_seqno ea + Z.of_nat (length bs))) in *.
  assert (Ey : y = ep_seqno ea + Z.of_nat (length bs)) by (apply u32_small; lia).
  destruct (sender_settles timer rt la lb f wa1 wa2 wb1 ea eb y bs ia oa _ n1 _ _ n3 Hf Hpc Hbs Ha1 Ho1 Htd
    eq_refl eq_refl Ht1 Hn1 Hm2 Hpa Hk Hsb ltac:(lia) Hn3 Ht3) as (wa3 & z & Hm4 & Hst4 & Ho4 & Ha4 & Hz & Hsent).
  destruct (old_copies la lb (again f) wa3 wb1 (taken y eb) ea bs Hb1 Hbs Hpb ltac:(cbn; lia) Hsa Haa Hsent)
    as (wb2 & Hm5 & Hst5 & Ht5 & Hs5 & Hb5).
  exists (wa3, wb2). cbn [fst snd]. split; [|split; [|split; [|split; [|by rewrite Hs5]]]].
  - exact (lossy_steps timer rt la lb f wa wb wa1 wa2 wa3 wb1 wb2 _ Hm1 Hm2
      (sent_packet_0 wa2 _ _ _ _ Ht2) Hm3 Hm4 Hm5).
  - destruct (Hd3 (w_trace wa2)) as (c3 & Hc3 & Hrun3); [rewrite Ht2; by apply sent_by_last|].
    eapply rtc_l; [by apply step_call_a with CallRead; [eapply holds_listed| |]|].
    etransitivity; [apply (ticks_steps la lb _ wb wa1 wa2 Hm2); intros j w Hj Hw|].
    { destruct (waits timer rt la wa1 ea bs ia oa _ n1 j Ha1 Ho1 Hbs Htd eq_refl eq_refl
        Hpc Ht1 Hn1) as (_ & _ & w1 & Hw1 & _ & _ & Hh1 & _).
      rewrite Hw in Hw1. injection Hw1 as <-. by eapply holds_listed. }
    eapply rtc_l; [by apply step_call_b with c3; [eapply holds_listed| |]|].
    by etransitivity.
  - rewrite Ht5, Ht3, outputs_silent, outputs_app by done. destruct bs; [by simpl in Hl1|done].
  - exists (acked z (busy ea bs)), (taken y eb). cbn [fst snd].
    rewrite Hs5. split_and!; [exact Ha4|exact Hb5|done|done| |exact Ho4|exact Ho3|exact Ey|done|done|done].
    split; cbn; [exact Hpa|exact Hpb|done|done|destruct Hz; lia|apply u32_range|destruct Hz; lia|exact Hsb].
Qed.

(** C28: once the sequence numbers wrap around, a copy is output a second time: of
    the piece with which they do, which has been output and acknowledged, a
    duplicate that comes later is taken for new data, because its number is above
    the one that is expected. *)
Theorem wrapped_copy la lb wa wb ea eb bs ia ib oa ob :
  holds la wa ea -> holds lb wb eb -> in_sync ea eb ->
  offers (w_sys wa) (ep_conn ea) (Some bs :: ia) oa -> offers (w_sys wb) (ep_conn eb) ib ob -> piece_ok bs ->
  2 ^ 32 <= ep_seqno ea + Z.of_nat (length bs) ->
  exists s data wb', exchange la lb (wa, wb) = Some s /\ hand lb data s.2 = Some wb' /\
    sent_by (w_trace s.1) data /\ rtc (net_step la lb) (wa, wb) (s.1, wb') /\
    outputs (w_trace wb') = outputs (w_trace wb) ++ [bs; bs].
Proof.
  intros Ha Hb Hsy Hoa Hob Hbs Hx.
  destruct (exchange_ends la lb wa wb ea eb bs ia ib oa ob Ha Hb Hsy Hoa Hob Hbs)
    as ([wa1 wb1] & Hex & Hst & Ho & Hsent & _ & Hb1 & _ & Ho1 & _). cbn [fst snd] in *.
  destruct Hsy as [_ Hpb _ _ _ Hsa Haa Hsb]. pose proof Hbs as [Hl1 Hl2].
  assert (Ey : u32 (ep_seqno ea + Z.of_nat (length bs)) <= ep_seqno ea).
  { unfold u32, MAX_SEG_DATA_SIZE in *.
    rewrite <- (Z.mod_unique_pos (ep_seqno ea + Z.of_nat (length bs)) (2 ^ 32) 1
      (ep_seqno ea + Z.of_nat (length bs) - 2 ^ 32)); lia. }
  destruct (hands_piece lb wb1 _ ea bs ib _ Hb1 Ho1 Hbs Hpb Hsb Ey Hsa Haa)
    as (r & n & wb2 & (Hm & Hd) & _ & _ & _ & Ht & _).
  exists (wa1, wb1), (segment_bytes (carrier ea bs)), wb2. cbn [fst snd].
  split; [done|]. split; [exact Hm|]. split; [done|]. split.
  - destruct (Hd _ Hsent) as (c & Hc & Hrun). eapply rtc_r; [exact Hst|].
    by apply step_call_b with c; [eapply holds_listed| |].
  - rewrite Ht, outputs_silent, outputs_app, Ho, <- app_assoc by done. destruct bs; [by simpl in Hl1|done].
Qed.

(** ** The transfer *)

Lemma recovered_run timer rt x la lb ca cb bss fs ia ib oa ob s :
  in_step timer rt x la lb ca cb (map Some bss ++ ia) ib oa ob s -> Forall piece_ok bss ->
  length fs = length bss -> Forall survives fs -> paced timer rt ->
  x + Z.of_nat (length (mjoin bss)) < 2 ^ 32 ->
  exists s', lossy_exchanges timer rt la lb fs s = Some s' /\ rtc (net_step la lb) s s' /\
    outputs (w_trace s'.2) = outputs (w_trace s.2) ++ bss /\
    in_step timer rt (x + Z.of_nat (length (mjoin bss))) la lb ca cb ia ib oa (ob ++ mjoin bss) s' /\
    (stays (w_sys s.2) -> stays (w_sys s'.2)).
Proof.
  intros Hj Hok Hl Hf Hpc. revert x ob fs s Hj Hl Hf.
  induction Hok as [|bs bss Hbs Hok IH]; intros x ob fs s Hj Hl Hf Hx; destruct fs as [|f fs]; try done.
  - exists s. split; [done|]. split; [done|]. rewrite app_nil_r. split; [done|].
    cbn [mjoin list_join length]. by rewrite Z.add_0_r, app_nil_r.
  - apply Forall_cons in Hf as [Hf1 Hf]. change (mjoin (bs :: bss)) with (bs ++ mjoin bss) in *.
    rewrite length_app in *.
    destruct (lossy_run timer rt x la lb ca cb f bs _ ib oa ob s Hj Hbs Hf1 Hpc ltac:(lia))
      as (s1 & Hx1 & Hst & Ho & Hj1 & Hs1).
    destruct (IH (x + Z.of_nat (length bs)) (ob ++ bs) fs s1 Hj1 ltac:(by injection Hl) Hf ltac:(lia))
      as (s2 & Hxs & Hst2 & Ho2 & Hj2 & Hs2).
    exists s2. split; [cbn [lossy_exchanges]; rewrite Hx1; exact Hxs|].
    split; [by etransitivity|]. split; [by rewrite Ho2, Ho, <- app_assoc|].
    rewrite Nat2Z.inj_add, Z.add_assoc, app_assoc. auto.
Qed.
(** C7: a transfer goes through a network that loses: each piece that is read is
    sent up to six times, and when any of the six arrives then it is output,
    once, in its turn, whether or not its acknowledgement arrives, for which the
    sender waits until it has given up, and however many more copies come later;
    the calls are among those of the system of [delivered_in_order], have no
    undefined behaviour, and leave the ends ready for more. This is so as long as
    the numbers of the segments stay below 2^32, and with a clock whose six periods
    and [rt_timeout] fit in its 16 bits. *)
Theorem recovered timer rt x la lb ca cb bss fs ia ib oa ob s :
  in_step timer rt x la lb ca cb (map Some bss ++ ia) ib oa ob s -> Forall piece_ok bss ->
  length fs = length bss -> Forall survives fs -> paced timer rt ->
  x + Z.of_nat (length (mjoin bss)) < 2 ^ 32 ->
  exists s', lossy_exchanges timer rt la lb fs s = Some s' /\ rtc (net_step la lb) s s' /\
    outputs (w_trace s'.2) = outputs (w_trace s.2) ++ bss /\
    in_step timer rt (x + Z.of_nat (length (mjoin bss))) la lb ca cb ia ib oa (ob ++ mjoin bss) s'.
Proof.
  intros Hj Hok Hl Hf Hpc Hx.
  destruct (recovered_run timer rt x la lb ca cb bss fs ia ib oa ob s Hj Hok Hl Hf Hpc Hx)
    as (s' & H1 & H2 & H3 & H4 & _). by exists s'.
Qed.

(** *** Both ends at once *)

(** What the record shows once a piece has been read, and then another output
    and acknowledged. *)
Lemma inputs_crossed tr e bs r bs' n c m ack :
  0 <= ep_seqno e < 2 ^ 32 -> 0 <= ep_ackno e < 2 ^ 32 -> piece_ok bs -> 0 <= n ->
  inputs ((((tr ++ [EvInput c (Z.of_nat (length bs))]) ++ [EvSend c (segment_bytes (carrier e bs)) n]) ++
    [EvOutput c bs' r]) ++ [EvSend c ack m]) = inputs tr ++ [bs].
Proof.
  intros Hs Ha Hbs Hn. destruct (wire_piece (ep_seqno e) (ep_ackno e) bs Hs Ha Hbs) as (_ & Hb & _ & Hd & _).
  unfold inputs, pieces. rewrite !scan_snoc. cbn [piece_step fst snd]. fold (carrier e bs) in Hb, Hd.
  rewrite (proj2 (Z.ltb_lt 0 _)) by (apply Hbs). rewrite (proj2 (Z.leb_le 0 n)) by done.
  cbn [andb fst]. rewrite Hb, fmap_app. cbn [fmap list_fmap snd]. by rewrite Hd.
Qed.

(** Both ends read and send; the segment of the second arrives, and what the
    first sends on it; that of the first does not. *)
Lemma crossing_run la lb wa wb ea eb ba bb ia ib oa ob :
  holds la wa ea -> holds lb wb eb -> in_sync ea eb -> ep_unacked eb = None ->
  offers (w_sys wa) (ep_conn ea) (Some ba :: ia) oa -> offers (w_sys wb) (ep_conn eb) (Some bb :: ib) ob ->
  piece_ok ba -> piece_ok bb -> ep_seqno ea + Z.of_nat (length ba) < 2 ^ 32 ->
  exists wa' wb', rtc (net_step la lb) (wa, wb) (wa', wb') /\
    inputs (w_trace wa') = inputs (w_trace wa) ++ [ba] /\ outputs (w_trace wb') = outputs (w_trace wb) /\
    holds la wa' (taken (u32 (ep_seqno eb + Z.of_nat (length bb))) (busy ea ba)) /\
    holds lb wb' (acked (ep_seqno (busy ea ba)) (busy eb bb)).
Proof.
  intros Ha Hb [Hpa Hpb Hu Hn Hk Hsa Haa Hsb] Hub Hoa Hob Hba Hbb Hx.
  assert (Hab : 0 <= ep_ackno eb < 2 ^ 32) by lia.
  destruct (reads_piece la wa ea ba ia oa Ha Hoa Hu Hba) as (n1 & wa1 & Hm1 & Hn1 & Ho1 & Ht1 & Ha1).
  destruct (reads_piece lb wb eb bb ib ob Hb Hob Hub Hbb) as (n2 & wb1 & Hm2 & Hn2 & Ho2 & Ht2 & Hb1).
  set (y := u32 (ep_seqno eb + Z.of_nat (length bb))).
  destruct (hands_piece la wa1 (busy ea ba) eb bb ia oa Ha1 Ho1 Hbb Hpa (u32_range _) Hk Hsb Hab)
    as (r & n3 & wa2 & (Hm3 & Hd3) & Hn3 & _ & _ & Ht3 & Ha2). fold y in Ht3, Ha2.
  assert (Ex : ep_seqno (busy ea ba) = ep_seqno ea + Z.of_nat (length ba))
    by (apply u32_small; unfold piece_ok in Hba; lia).
  destruct (hands_ctl lb wb1 (busy eb bb) (ep_with_ackno y (busy ea ba)) ACK _ _ _ Hb1 (u32_range _)
    (u32_range _) ltac:(by left)
    (take_ack (busy eb bb) (ep_seqno (busy ea ba)) y (w_trace wb1, w_sys wb1) Hpb
       ltac:(change (ep_ackno eb <= ep_seqno (busy ea ba)); rewrite Ex; unfold piece_ok in Hba; lia)))
    as (wb2 & (Hm4 & Hd4) & Ht4 & _ & Hb2).
  exists wa2, wb2. split_and!; [| | |exact Ha2|exact Hb2].
  - destruct (Hd3 (w_trace wb1)) as (c3 & Hc3 & Hrun3); [rewrite Ht2; by apply sent_by_last|].
    destruct (Hd4 (w_trace wa2)) as (c4 & Hc4 & Hrun4); [rewrite Ht3; by apply sent_by_last|].
    eapply rtc_l; [by apply step_call_a with CallRead; [eapply holds_listed| |]|].
    eapply rtc_l; [by apply step_call_b with CallRead; [eapply holds_listed| |]|].
    eapply rtc_l; [by apply step_call_a with c3; [eapply holds_listed| |]|].
    eapply rtc_l; [by apply step_call_b with c4; [eapply holds_listed| |]|done].
  - rewrite Ht3, Ht1. by apply inputs_crossed.
  - rewrite Ht4, Ht2, !outputs_silent by done. done.
Qed.

(** C27: data is lost when both ends send at once. In every run of the system in
    which the ends are in step and both have something to read, it can go on so
    that the segment of the first does not arrive in time, and that of the other
    does: this one, which acknowledges nothing, makes the first forget its own,
    and the acknowledgement that it sends has a number beyond that. From then on
    nothing is kept to be sent again, and whatever the network, the libraries and
    the ends do, what the first has read is not output any more, not even if its
    segment still arrives: what the other end outputs is of what is read later;
    as long as less than [MAX_VOLUME] bytes are sent. *)
Theorem data_lost la lb s wa wb ea eb ba bb ia ib oa ob :
  fresh la s.1 -> fresh lb s.2 -> rtc (net_step la lb) s (wa, wb) ->
  holds la wa ea -> holds lb wb eb -> in_sync ea eb -> ep_unacked eb = None ->
  (forall g, ep_received eb <> RecvKept g) ->
  offers (w_sys wa) (ep_conn ea) (Some ba :: ia) oa -> offers (w_sys wb) (ep_conn eb) (Some bb :: ib) ob ->
  piece_ok ba -> piece_ok bb -> ep_seqno ea + Z.of_nat (length ba) < 2 ^ 32 ->
  exists wa' wb' ea', rtc (net_step la lb) (wa, wb) (wa', wb') /\
    inputs (w_trace wa') = inputs (w_trace wa) ++ [ba] /\ outputs (w_trace wb') = outputs (w_trace wb) /\
    holds la wa' ea' /\ ep_unacked ea' = None /\ passed_over la lb (wa', wb').
Proof.
  intros Hfa Hfb Hst Ha Hb Hsy Hub Hrc Hoa Hob Hba Hbb Hx.
  destruct (crossing_run la lb wa wb ea eb ba bb ia ib oa ob Ha Hb Hsy Hub Hoa Hob Hba Hbb Hx)
    as (wa' & wb' & Hst' & Hin & Hout & Ha' & Hb').
  exists wa', wb', (taken (u32 (ep_seqno eb + Z.of_nat (length bb))) (busy ea ba)).
  split_and!; [done..|].
  assert (Hboth : both la lb (wa', wb')).
  { eapply net_steps_both; [by apply fresh_both|]. by etransitivity. }
  destruct Hb' as (order & E & Hr & He). eapply passed; [exact Hboth|exact Hr|exact He|exact Hrc|].
  intros Va Vb. destruct Ha' as (order1 & E1 & Hr1 & He1).
  destruct (both_sent la lb wa' wb' order1 E1 _ Hboth Hr1 He1 Va Vb) as [_ _ Hp _ _].
  eapply Forall_impl; [exact Hp|]. intros p (_ & _ & Hend). exact Hend.
Qed.
End Worlds.

(** ** On a script *)

Lemma talker_offers ins : offers (w_sys (talker ins)) (Some 5%positive) ins [].
Proof. split; [apply not_elem_of_nil|]. split; [done|]. split; [done|by vm_compute]. Qed.

Lemma talkers_in_step ia ib :
  in_step 40 200 1 1%positive 1%positive (Some 5%positive) (Some 5%positive) ia ib [] []
    (talker ia, talker ib).
Proof.
  exists ex_idle, ex_idle. cbn [fst snd].
  split; [apply talker_holds|]. split; [apply talker_holds|]. split; [done|]. split; [done|].
  split; [by split; vm_compute|]. split; [apply talker_offers|]. split; [apply talker_offers|].
  by vm_compute.
Qed.

(** The first piece arrives at the third transmission, its acknowledgement is
    lost and two copies come later; the second arrives at the last. *)
Lemma recovered_witness :
  exists s', lossy_exchanges 40 200 1%positive 1%positive [Fate 2 true 2; Fate 5 false 1]
      (talker [Some hi; Some yo], talker []) = Some s' /\
    outputs (w_trace s'.2) = [hi; yo].
Proof.
  destruct (recovered 40 200 1 1%positive 1%positive (Some 5%positive) (Some 5%positive) [hi; yo]
    [Fate 2 true 2; Fate 5 false 1] [] [] [] [] (talker [Some hi; Some yo], talker [])) as (s' & Hx & _ & Ho & _).
  - apply talkers_in_step.
  - repeat constructor; by vm_compute.
  - done.
  - unfold survives. repeat constructor; simpl; lia.
  - by split.
  - by vm_compute.
  - exists s'. split; [exact Hx|exact Ho].
Defined.

(** The ends when 2^32 - 2 bytes have gone. *)
Definition late_a : endpoint := ep_with_seqno (2 ^ 32 - 1) ex_idle.
Definition late_b : endpoint := ep_with_ackno (2 ^ 32 - 1) ex_idle.
Definition late_world (e : endpoint) (ins : list (option (list byte))) : world script :=
  one_world e (zero_segment 20) (Script ins [] 8192 []).

Lemma late_holds e ins : holds 1%positive (late_world e ins) e.
Proof. exists [1%positive], {[1%positive := e]}. split; [apply one_represents|apply lookup_singleton_eq]. Qed.

Lemma wrapped_copy_witness :
  exists s data wb', exchange 1%positive 1%positive (late_world late_a [Some hi], late_world late_b []) = Some s /\
    hand 1%positive data s.2 = Some wb' /\ outputs (w_trace wb') = [hi; hi].
Proof.
  destruct (wrapped_copy 1%positive 1%positive (late_world late_a [Some hi]) (late_world late_b [])
    late_a late_b hi [] [] [] []) as (s & data & wb' & Hx & Hm & _ & _ & Ho).
  - apply late_holds.
  - apply late_holds.
  - by split; vm_compute.
  - apply talker_offers.
  - apply talker_offers.
  - by vm_compute.
  - by vm_compute.
  - exists s, data, wb'. split; [exact Hx|]. split; [exact Hm|exact Ho].
Defined.

(** From the start of a connection, at the two ends of which something is typed. *)
Lemma data_lost_witness :
  exists wa' wb' : world script, inputs (w_trace wa') = [hi] /\ outputs (w_trace wb') = [] /\
    passed_over 1%positive 1%positive (wa', wb').
Proof.
  destruct (data_lost 1%positive 1%positive (talker [Some hi], talker [Some yo]) (talker [Some hi])
    (talker [Some yo]) ex_idle ex_idle hi yo [] [] [] []) as (wa' & wb' & ea' & _ & Hi & Ho & _ & _ & Hp).
  - apply end_fresh.
  - apply end_fresh.
  - done.
  - apply talker_holds.
  - apply talker_holds.
  - by split; vm_compute.
  - done.
  - done.
  - apply talker_offers.
  - apply talker_offers.
  - by vm_compute.
  - by vm_compute.
  - by vm_compute.
  - exists wa', wb'. split; [exact Hi|]. split; [exact Ho|exact Hp].
Defined.
