(* ===== verification/Host.v ===== *)
(** * A cTCP host ([src/ctcp_sys_internal.h], [src/ctcp_sys_internal.c]): data

    The structures of the library below [ctcp.c]: connections and their
    output queues, the configuration and the command-line options, the polling
    table, and the operating system behind an interface. *)

From stdpp Require Import strings pretty.
From coqutil Require Import Word.LittleEndianList.
From S2P Require Import Prelude Heap Words Cksum Segment ConnLib Ctcp.

(** ** Constants *)

Definition DEFAULT_TTL : Z := 64.
Definition IP_ID : Z := 144.
Definition IPPROTO_TCP : Z := 6.
Definition MAX_NUM_CLIENTS : Z := 10.
Definition NUM_POLL : Z := 3.
Definition SALT : Z := 0x14400.
Definition IP_HDR_SIZE : Z := 20.
Definition TCP_HDR_SIZE : Z := 20.
Definition FULL_HDR_SIZE : Z := IP_HDR_SIZE + TCP_HDR_SIZE.
Definition MAX_PACKET_SIZE : Z := 1440 + FULL_HDR_SIZE.

Definition STDIN_FILENO : Z := 0.
Definition STDOUT_FILENO : Z := 1.
Definition STDERR_FILENO : Z := 2.
Definition F_GETFL : Z := 3.
Definition F_SETFL : Z := 4.
Definition O_NONBLOCK : Z := 2048.
Definition EAGAIN : Z := 11.
Definition RAND_MAX : Z := 2147483647.
Definition AF_UNIX : Z := 1.
Definition AF_INET : Z := 2.
Definition POLLIN : Z := 1.
Definition POLLOUT : Z := 4.
Definition POLLERR : Z := 8.
Definition POLLHUP : Z := 16.

(** ** Connections *)

Record sockaddr_in := SockaddrIn { sin_family : Z; sin_port : Z; sin_addr : Z }.
Record sockaddr_un := SockaddrUn { sun_family : Z; sun_path : string }.

(** Where [sendto] sends to. *)
Inductive sockaddr :=
  | AddrIn (a : sockaddr_in)
  | AddrUn (a : sockaddr_un).

(** A chunk of output waiting in the queue of a connection. *)
Record chunk := Chunk {
  ck_next : ptr;
  ck_size : Z;
  ck_used : Z;
  ck_buf : list byte;
}.

Definition set_ck_next (v : ptr) (c : chunk) : chunk :=
  Chunk v (ck_size c) (ck_used c) (ck_buf c).
Definition set_ck_used (v : Z) (c : chunk) : chunk :=
  Chunk (ck_next c) (ck_size c) v (ck_buf c).

(** [out_queue_tail], a pointer to a pointer: null, the connection's own
    [out_queue] field, or the [next] field of a chunk. *)
Inductive tail_ptr :=
  | TailNull
  | TailQueue
  | TailChunk (k : loc).

(** [prev], a pointer to a pointer: null, the [next] field of a connection, or
    the address of the local variable of [conn_add], dead once it returns. *)
Inductive conn_prev :=
  | CPrevNull
  | CPrevLocal
  | CPrevNext (c : loc).

(** [conn_t]. [poll_fd] is an index in the polling table. *)
Record conn := Conn {
  cn_ip_addr : Z;
  cn_port : Z;
  cn_saddr : sockaddr_in;
  cn_sunaddr : sockaddr_un;
  cn_state : ptr;
  cn_init_seqno : Z;
  cn_their_init_seqno : Z;
  cn_seqno : Z;
  cn_next_seqno : Z;
  cn_ackno : Z;
  cn_stdin : Z;
  cn_stdout : Z;
  cn_poll_fd : option nat;
  cn_read_eof : bool;
  cn_wrote_eof : bool;
  cn_wrote_err : bool;
  cn_delete_me : bool;
  cn_out_queue : ptr;
  cn_out_queue_tail : tail_ptr;
  cn_next : ptr;
  cn_prev : conn_prev;
}.

(** [calloc(sizeof(conn_t), 1)]. *)
Definition zero_conn : conn :=
  Conn 0 0 (SockaddrIn 0 0 0) (SockaddrUn 0 EmptyString) None 0 0 0 0 0 0 0 None
    false false false false None TailNull None CPrevNull.

Definition set_cn_ip_addr (v : Z) (c : conn) : conn :=
  Conn v (cn_port c) (cn_saddr c) (cn_sunaddr c) (cn_state c) (cn_init_seqno c)
    (cn_their_init_seqno c) (cn_seqno c) (cn_next_seqno c) (cn_ackno c) (cn_stdin c)
    (cn_stdout c) (cn_poll_fd c) (cn_read_eof c) (cn_wrote_eof c) (cn_wrote_err c)
    (cn_delete_me c) (cn_out_queue c) (cn_out_queue_tail c) (cn_next c) (cn_prev c).
Definition set_cn_port (v : Z) (c : conn) : conn :=
  Conn (cn_ip_addr c) v (cn_saddr c) (cn_sunaddr c) (cn_state c) (cn_init_seqno c)
    (cn_their_init_seqno c) (cn_seqno c) (cn_next_seqno c) (cn_ackno c) (cn_stdin c)
    (cn_stdout c) (cn_poll_fd c) (cn_read_eof c) (cn_wrote_eof c) (cn_wrote_err c)
    (cn_delete_me c) (cn_out_queue c) (cn_out_queue_tail c) (cn_next c) (cn_prev c).
Definition set_cn_saddr (v : sockaddr_in) (c : conn) : conn :=
  Conn (cn_ip_addr c) (cn_port c) v (cn_sunaddr c) (cn_state c) (cn_init_seqno c)
    (cn_their_init_seqno c) (cn_seqno c) (cn_next_seqno c) (cn_ackno c) (cn_stdin c)
    (cn_stdout c) (cn_poll_fd c) (cn_read_eof c) (cn_wrote_eof c) (cn_wrote_err c)
    (cn_delete_me c) (cn_out_queue c) (cn_out_queue_tail c) (cn_next c) (cn_prev c).
Definition set_cn_sunaddr (v : sockaddr_un) (c : conn) : conn :=
  Conn (cn_ip_addr c) (cn_port c) (cn_saddr c) v (cn_state c) (cn_init_seqno c)
    (cn_their_init_seqno c) (cn_seqno c) (cn_next_seqno c) (cn_ackno c) (cn_stdin c)
    (cn_stdout c) (cn_poll_fd c) (cn_read_eof c) (cn_wrote_eof c) (cn_wrote_err c)
    (cn_delete_me c) (cn_out_queue c) (cn_out_queue_tail c) (cn_next c) (cn_prev c).
Definition set_cn_state (v : ptr) (c : conn) : conn :=
  Conn (cn_ip_addr c) (cn_port c) (cn_saddr c) (cn_sunaddr c) v (cn_init_seqno c)
    (cn_their_init_seqno c) (cn_seqno c) (cn_next_seqno c) (cn_ackno c) (cn_stdin c)
    (cn_stdout c) (cn_poll_fd c) (cn_read_eof c) (cn_wrote_eof c) (cn_wrote_err c)
    (cn_delete_me c) (cn_out_queue c) (cn_out_queue_tail c) (cn_next c) (cn_prev c).
Definition set_cn_init_seqno (v : Z) (c : conn) : conn :=
  Conn (cn_ip_addr c) (cn_port c) (cn_saddr c) (cn_sunaddr c) (cn_state c) v
    (cn_their_init_seqno c) (cn_seqno c) (cn_next_seqno c) (cn_ackno c) (cn_stdin c)
    (cn_stdout c) (cn_poll_fd c) (cn_read_eof c) (cn_wrote_eof c) (cn_wrote_err c)
    (cn_delete_me c) (cn_out_queue c) (cn_out_queue_tail c) (cn_next c) (cn_prev c).
Definition set_cn_their_init_seqno (v : Z) (c : conn) : conn :=
  Conn (cn_ip_addr c) (cn_port c) (cn_saddr c) (cn_sunaddr c) (cn_state c) (cn_init_seqno c) v
    (cn_seqno c) (cn_next_seqno c) (cn_ackno c) (cn_stdin c) (cn_stdout c) (cn_poll_fd c)
    (cn_read_eof c) (cn_wrote_eof c) (cn_wrote_err c) (cn_delete_me c) (cn_out_queue c)
    (cn_out_queue_tail c) (cn_next c) (cn_prev c).
Definition set_cn_seqno (v : Z) (c : conn) : conn :=
  Conn (cn_ip_addr c) (cn_port c) (cn_saddr c) (cn_sunaddr c) (cn_state c) (cn_init_seqno c)
    (cn_their_init_seqno c) v (cn_next_seqno c) (cn_ackno c) (cn_stdin c) (cn_stdout c)
    (cn_poll_fd c) (cn_read_eof c) (cn_wrote_eof c) (cn_wrote_err c) (cn_delete_me c)
    (cn_out_queue c) (cn_out_queue_tail c) (cn_next c) (cn_prev c).
Definition set_cn_next_seqno (v : Z) (c : conn) : conn :=
  Conn (cn_ip_addr c) (cn_port c) (cn_saddr c) (cn_sunaddr c) (cn_state c) (cn_init_seqno c)
    (cn_their_init_seqno c) (cn_seqno c) v (cn_ackno c) (cn_stdin c) (cn_stdout c)
    (cn_poll_fd c) (cn_read_eof c) (cn_wrote_eof c) (cn_wrote_err c) (cn_delete_me c)
    (cn_out_queue c) (cn_out_queue_tail c) (cn_next c) (cn_prev c).
Definition set_cn_ackno (v : Z) (c : conn) : conn :=
  Conn (cn_ip_addr c) (cn_port c) (cn_saddr c) (cn_sunaddr c) (cn_state c) (cn_init_seqno c)
    (cn_their_init_seqno c) (cn_seqno c) (cn_next_seqno c) v (cn_stdin c) (cn_stdout c)
    (cn_poll_fd c) (cn_read_eof c) (cn_wrote_eof c) (cn_wrote_err c) (cn_delete_me c)
    (cn_out_queue c) (cn_out_queue_tail c) (cn_next c) (cn_prev c).
Definition set_cn_stdin (v : Z) (c : conn) : conn :=
  Conn (cn_ip_addr c) (cn_port c) (cn_saddr c) (cn_sunaddr c) (cn_state c) (cn_init_seqno c)
    (cn_their_init_seqno c) (cn_seqno c) (cn_next_seqno c) (cn_ackno c) v (cn_stdout c)
    (cn_poll_fd c) (cn_read_eof c) (cn_wrote_eof c) (cn_wrote_err c) (cn_delete_me c)
    (cn_out_queue c) (cn_out_queue_tail c) (cn_next c) (cn_prev c).
Definition set_cn_stdout (v : Z) (c : conn) : conn :=
  Conn (cn_ip_addr c) (cn_port c) (cn_saddr c) (cn_sunaddr c) (cn_state c) (cn_init_seqno c)
    (cn_their_init_seqno c) (cn_seqno c) (cn_next_seqno c) (cn_ackno c) (cn_stdin c) v
    (cn_poll_fd c) (cn_read_eof c) (cn_wrote_eof c) (cn_wrote_err c) (cn_delete_me c)
    (cn_out_queue c) (cn_out_queue_tail c) (cn_next c) (cn_prev c).
Definition set_cn_poll_fd (v : option nat) (c : conn) : conn :=
  Conn (cn_ip_addr c) (cn_port c) (cn_saddr c) (cn_sunaddr c) (cn_state c) (cn_init_seqno c)
    (cn_their_init_seqno c) (cn_seqno c) (cn_next_seqno c) (cn_ackno c) (cn_stdin c)
    (cn_stdout c) v (cn_read_eof c) (cn_wrote_eof c) (cn_wrote_err c) (cn_delete_me c)
    (cn_out_queue c) (cn_out_queue_tail c) (cn_next c) (cn_prev c).
Definition set_cn_read_eof (v : bool) (c : conn) : conn :=
  Conn (cn_ip_addr c) (cn_port c) (cn_saddr c) (cn_sunaddr c) (cn_state c) (cn_init_seqno c)
    (cn_their_init_seqno c) (cn_seqno c) (cn_next_seqno c) (cn_ackno c) (cn_stdin c)
    (cn_stdout c) (cn_poll_fd c) v (cn_wrote_eof c) (cn_wrote_err c) (cn_delete_me c)
    (cn_out_queue c) (cn_out_queue_tail c) (cn_next c) (cn_prev c).
Definition set_cn_wrote_eof (v : bool) (c : conn) : conn :=
  Conn (cn_ip_addr c) (cn_port c) (cn_saddr c) (cn_sunaddr c) (cn_state c) (cn_init_seqno c)
    (cn_their_init_seqno c) (cn_seqno c) (cn_next_seqno c) (cn_ackno c) (cn_stdin c)
    (cn_stdout c) (cn_poll_fd c) (cn_read_eof c) v (cn_wrote_err c) (cn_delete_me c)
    (cn_out_queue c) (cn_out_queue_tail c) (cn_next c) (cn_prev c).
Definition set_cn_wrote_err (v : bool) (c : conn) : conn :=
  Conn (cn_ip_addr c) (cn_port c) (cn_saddr c) (cn_sunaddr c) (cn_state c) (cn_init_seqno c)
    (cn_their_init_seqno c) (cn_seqno c) (cn_next_seqno c) (cn_ackno c) (cn_stdin c)
    (cn_stdout c) (cn_poll_fd c) (cn_read_eof c) (cn_wrote_eof c) v (cn_delete_me c)
    (cn_out_queue c) (cn_out_queue_tail c) (cn_next c) (cn_prev c).
Definition set_cn_delete_me (v : bool) (c : conn) : conn :=
  Conn (cn_ip_addr c) (cn_port c) (cn_saddr c) (cn_sunaddr c) (cn_state c) (cn_init_seqno c)
    (cn_their_init_seqno c) (cn_seqno c) (cn_next_seqno c) (cn_ackno c) (cn_stdin c)
    (cn_stdout c) (cn_poll_fd c) (cn_read_eof c) (cn_wrote_eof c) (cn_wrote_err c) v
    (cn_out_queue c) (cn_out_queue_tail c) (cn_next c) (cn_prev c).
Definition set_cn_out_queue (v : ptr) (c : conn) : conn :=
  Conn (cn_ip_addr c) (cn_port c) (cn_saddr c) (cn_sunaddr c) (cn_state c) (cn_init_seqno c)
    (cn_their_init_seqno c) (cn_seqno c) (cn_next_seqno c) (cn_ackno c) (cn_stdin c)
    (cn_stdout c) (cn_poll_fd c) (cn_read_eof c) (cn_wrote_eof c) (cn_wrote_err c)
    (cn_delete_me c) v (cn_out_queue_tail c) (cn_next c) (cn_prev c).
Definition set_cn_out_queue_tail (v : tail_ptr) (c : conn) : conn :=
  Conn (cn_ip_addr c) (cn_port c) (cn_saddr c) (cn_sunaddr c) (cn_state c) (cn_init_seqno c)
    (cn_their_init_seqno c) (cn_seqno c) (cn_next_seqno c) (cn_ackno c) (cn_stdin c)
    (cn_stdout c) (cn_poll_fd c) (cn_read_eof c) (cn_wrote_eof c) (cn_wrote_err c)
    (cn_delete_me c) (cn_out_queue c) v (cn_next c) (cn_prev c).
Definition set_cn_next (v : ptr) (c : conn) : conn :=
  Conn (cn_ip_addr c) (cn_port c) (cn_saddr c) (cn_sunaddr c) (cn_state c) (cn_init_seqno c)
    (cn_their_init_seqno c) (cn_seqno c) (cn_next_seqno c) (cn_ackno c) (cn_stdin c)
    (cn_stdout c) (cn_poll_fd c) (cn_read_eof c) (cn_wrote_eof c) (cn_wrote_err c)
    (cn_delete_me c) (cn_out_queue c) (cn_out_queue_tail c) v (cn_prev c).
Definition set_cn_prev (v : conn_prev) (c : conn) : conn :=
  Conn (cn_ip_addr c) (cn_port c) (cn_saddr c) (cn_sunaddr c) (cn_state c) (cn_init_seqno c)
    (cn_their_init_seqno c) (cn_seqno c) (cn_next_seqno c) (cn_ackno c) (cn_stdin c)
    (cn_stdout c) (cn_poll_fd c) (cn_read_eof c) (cn_wrote_eof c) (cn_wrote_err c)
    (cn_delete_me c) (cn_out_queue c) (cn_out_queue_tail c) (cn_next c) v.

(** ** Configuration *)

(** [struct config]; the program that a server runs is left out. *)
Record config := Config {
  socket : Z;
  ip_addr : Z;
  port : Z;
  sconn : ptr;
  connections : ptr;
}.

Definition set_sconn (v : ptr) (c : config) : config :=
  Config (socket c) (ip_addr c) (port c) v (connections c).
Definition set_connections (v : ptr) (c : config) : config :=
  Config (socket c) (ip_addr c) (port c) (sconn c) v.

(** The global variables that the command line sets. *)
Record options := Options {
  SERVER : bool;
  unix_socket : bool;
  run_program : bool;
  opt_drop : Z;
  opt_corrupt : Z;
  opt_delay : Z;
  opt_duplicate : Z;
  log_file : Z;
  test_debug_on : bool;
  lab5_mode : bool;
}.

Record pollfd := PollFd { pfd_fd : Z; pfd_events : Z; pfd_revents : Z }.

Definition set_pfd_revents (v : Z) (p : pollfd) : pollfd := PollFd (pfd_fd p) (pfd_events p) v.
Definition set_pfd_events (v : Z) (p : pollfd) : pollfd := PollFd (pfd_fd p) v (pfd_revents p).

Record timespec := Timespec { tv_sec : Z; tv_nsec : Z }.

(** ** The operating system

    A system call that transfers data gives what it transferred or an error
    number. [os_fork] is zero in the child: the model follows one process.
    [os_pipe] gives the ends for reading and writing, if it makes a pipe, and
    [os_execvp] whether the program of the server has taken the place of the
    process. *)
Inductive io_result (A : Type) :=
  | IoOk (a : A)
  | IoErr (errno : Z).
Arguments IoOk {A} a.
Arguments IoErr {A} errno.

Class Os (E : Type) := {
  os_read : Z -> Z -> E -> io_result (list byte) * E;
  os_write : Z -> list byte -> E -> io_result Z * E;
  os_recv : Z -> Z -> E -> io_result (list byte) * E;
  os_sendto : Z -> list byte -> sockaddr -> E -> io_result Z * E;
  os_rand : E -> Z * E;
  os_fork : E -> Z * E;
  os_gettimeofday : E -> (Z * Z) * E;
  os_poll : list pollfd -> Z -> E -> list Z * E;
  os_pipe : E -> option (Z * Z) * E;
  os_dup2 : Z -> Z -> E -> Z * E;
  os_execvp : E -> bool * E;
  os_fcntl : Z -> Z -> Z -> E -> Z * E;
}.

(** What POSIX says of them; the socket is a datagram or raw socket, on which a
    message is sent whole or not at all. *)
Class OsLaws (E : Type) `{Os E} := {
  os_read_law fd n e bs e' :
    0 <= n -> os_read fd n e = (IoOk bs, e') -> Z.of_nat (length bs) <= n;
  os_recv_law fd n e bs e' :
    0 <= n -> os_recv fd n e = (IoOk bs, e') -> Z.of_nat (length bs) <= n;
  os_write_law fd bs e w e' :
    os_write fd bs e = (IoOk w, e') -> 0 <= w <= Z.of_nat (length bs);
  os_sendto_law fd bs a e n e' :
    os_sendto fd bs a e = (IoOk n, e') -> n = Z.of_nat (length bs);
  os_rand_law e : 0 <= fst (os_rand e) <= RAND_MAX;
  os_poll_law evs ms e : length (fst (os_poll evs ms e)) = length evs;
}.

(** What has been read, written and sent, the latest last; not part of the
    program. *)
Inductive io_event :=
  | IoRead (fd : Z) (bs : list byte)
  | IoWrote (fd : Z) (bs : list byte)
  | IoSent (pkt : list byte) (to : sockaddr)
  | IoLogged (c : ptr) (segment : list byte) (len : Z) (is_sent : bool)
  | IoClosed (fd : Z).

(** ** The memory of the library *)

Record sys (E : Type) := Sys {
  sys_options : options;
  sys_config : config;
  sys_ctcp_cfg : ctcp_config;
  sys_did_unreliable : bool;
  sys_new_connection : Z;
  sys_num_connected : Z;
  sys_events : list pollfd;
  sys_last_timeout : timespec;
  sys_conns : heap conn;
  sys_chunks : heap chunk;
  sys_io : list io_event;
  sys_env : E;
}.
Arguments Sys {E} _ _ _ _ _ _ _ _ _ _ _ _.
Arguments sys_options {E} _.
Arguments sys_config {E} _.
Arguments sys_ctcp_cfg {E} _.
Arguments sys_did_unreliable {E} _.
Arguments sys_new_connection {E} _.
Arguments sys_num_connected {E} _.
Arguments sys_events {E} _.
Arguments sys_last_timeout {E} _.
Arguments sys_conns {E} _.
Arguments sys_chunks {E} _.
Arguments sys_io {E} _.
Arguments sys_env {E} _.

Section Sys.
Context {E : Type} `{!Os E}.

Definition set_sys_config (v : config) (s : sys E) : sys E :=
  Sys (sys_options s) v (sys_ctcp_cfg s) (sys_did_unreliable s) (sys_new_connection s)
    (sys_num_connected s) (sys_events s) (sys_last_timeout s) (sys_conns s) (sys_chunks s)
    (sys_io s) (sys_env s).
Definition set_sys_ctcp_cfg (v : ctcp_config) (s : sys E) : sys E :=
  Sys (sys_options s) (sys_config s) v (sys_did_unreliable s) (sys_new_connection s)
    (sys_num_connected s) (sys_events s) (sys_last_timeout s) (sys_conns s) (sys_chunks s)
    (sys_io s) (sys_env s).
Definition set_sys_did_unreliable (v : bool) (s : sys E) : sys E :=
  Sys (sys_options s) (sys_config s) (sys_ctcp_cfg s) v (sys_new_connection s)
    (sys_num_connected s) (sys_events s) (sys_last_timeout s) (sys_conns s) (sys_chunks s)
    (sys_io s) (sys_env s).
Definition set_sys_new_connection (v : Z) (s : sys E) : sys E :=
  Sys (sys_options s) (sys_config s) (sys_ctcp_cfg s) (sys_did_unreliable s) v
    (sys_num_connected s) (sys_events s) (sys_last_timeout s) (sys_conns s) (sys_chunks s)
    (sys_io s) (sys_env s).
Definition set_sys_num_connected (v : Z) (s : sys E) : sys E :=
  Sys (sys_options s) (sys_config s) (sys_ctcp_cfg s) (sys_did_unreliable s)
    (sys_new_connection s) v (sys_events s) (sys_last_timeout s) (sys_conns s) (sys_chunks s)
    (sys_io s) (sys_env s).
Definition set_sys_events (v : list pollfd) (s : sys E) : sys E :=
  Sys (sys_options s) (sys_config s) (sys_ctcp_cfg s) (sys_did_unreliable s)
    (sys_new_connection s) (sys_num_connected s) v (sys_last_timeout s) (sys_conns s)
    (sys_chunks s) (sys_io s) (sys_env s).
Definition set_sys_last_timeout (v : timespec) (s : sys E) : sys E :=
  Sys (sys_options s) (sys_config s) (sys_ctcp_cfg s) (sys_did_unreliable s)
    (sys_new_connection s) (sys_num_connected s) (sys_events s) v (sys_conns s) (sys_chunks s)
    (sys_io s) (sys_env s).
Definition set_sys_conns (v : heap conn) (s : sys E) : sys E :=
  Sys (sys_options s) (sys_config s) (sys_ctcp_cfg s) (sys_did_unreliable s)
    (sys_new_connection s) (sys_num_connected s) (sys_events s) (sys_last_timeout s) v
    (sys_chunks s) (sys_io s) (sys_env s).
Definition set_sys_chunks (v : heap chunk) (s : sys E) : sys E :=
  Sys (sys_options s) (sys_config s) (sys_ctcp_cfg s) (sys_did_unreliable s)
    (sys_new_connection s) (sys_num_connected s) (sys_events s) (sys_last_timeout s)
    (sys_conns s) v (sys_io s) (sys_env s).
Definition set_sys_io (v : list io_event) (s : sys E) : sys E :=
  Sys (sys_options s) (sys_config s) (sys_ctcp_cfg s) (sys_did_unreliable s)
    (sys_new_connection s) (sys_num_connected s) (sys_events s) (sys_last_timeout s)
    (sys_conns s) (sys_chunks s) v (sys_env s).
Definition set_sys_env (v : E) (s : sys E) : sys E :=
  Sys (sys_options s) (sys_config s) (sys_ctcp_cfg s) (sys_did_unreliable s)
    (sys_new_connection s) (sys_num_connected s) (sys_events s) (sys_last_timeout s)
    (sys_conns s) (sys_chunks s) (sys_io s) v.

Definition on_conns {A} : M (heap conn) A -> M (sys E) A := zoom sys_conns set_sys_conns.
Definition on_chunks {A} : M (heap chunk) A -> M (sys E) A := zoom sys_chunks set_sys_chunks.

Definition opt {A} (f : options -> A) : M (sys E) A := gets (fun s => f (sys_options s)).
Definition conf {A} (f : config -> A) : M (sys E) A := gets (fun s => f (sys_config s)).

Definition io_log (e : io_event) : M (sys E) unit :=
  modify (fun s => set_sys_io (sys_io s ++ [e]) s).

(** A system call. *)
Definition syscall {A} (f : E -> A * E) : M (sys E) A := fun s =>
  let '(a, e) := f (sys_env s) in Done a (set_sys_env e s).

Definition call_read (fd len : Z) : M (sys E) (io_result (list byte)) :=
  r ← syscall (os_read fd len);
  (match r with IoOk bs => io_log (IoRead fd bs) | IoErr _ => mret tt end);;
  mret r.

Definition call_write (fd : Z) (bs : list byte) : M (sys E) (io_result Z) :=
  r ← syscall (os_write fd bs);
  (match r with IoOk w => io_log (IoWrote fd (take (Z.to_nat w) bs)) | IoErr _ => mret tt end);;
  mret r.

Definition call_sendto (fd : Z) (pkt : list byte) (to : sockaddr) : M (sys E) Z :=
  r ← syscall (os_sendto fd pkt to);
  match r with
  | IoOk n => io_log (IoSent (take (Z.to_nat n) pkt) to);; mret n
  | IoErr _ => mret (-1)
  end.

Definition rand : M (sys E) Z := syscall os_rand.
Definition fork : M (sys E) Z := syscall os_fork.
Definition close (fd : Z) : M (sys E) unit := io_log (IoClosed fd).
Definition dup2 (fd fd' : Z) : M (sys E) unit := syscall (os_dup2 fd fd');; mret tt.

Definition async (fd : Z) : M (sys E) Z :=
  flags ← syscall (os_fcntl fd F_GETFL 0);
  if flags <? 0 then mret (-1)
  else
    r ← syscall (os_fcntl fd F_SETFL (Z.lor flags O_NONBLOCK));
    mret (if r <? 0 then -1 else 0).

(** The bits [f] of an entry's [revents]. *)
Definition revents (i : Z) (f : Z) : M (sys E) bool :=
  ev ← gets sys_events;
  p ← deref (if bool_decide (0 <= i) then ev !! Z.to_nat i else None);
  mret (has_flag (pfd_revents p) f).

(** An entry of the polling table; outside the table there is none. *)
Definition update_event (i : Z) (f : pollfd -> pollfd) : M (sys E) unit :=
  ev ← gets sys_events;
  p ← deref (if bool_decide (0 <= i) then ev !! Z.to_nat i else None);
  modify (set_sys_events (<[Z.to_nat i := f p]> ev)).

(** ** [get_connections] *)
Definition get_connections : M (sys E) ptr :=
  server ← opt SERVER;
  if server : bool then conf connections else conf sconn.
End Sys.
