(* ===== verification/Packet.v ===== *)
(** * Packets ([src/ctcp_sys_internal.h], [src/ctcp_sys_internal.c])

    IP datagrams with a TCP payload as structures and as bytes in memory, how
    they are made and checksummed, and the conversions between cTCP segments
    and TCP packets. *)

From stdpp Require Import strings pretty.
From coqutil Require Import Word.LittleEndianList.
From S2P Require Import Prelude Heap Words Cksum Segment ConnLib Ctcp Host.

(** ** The headers ([<netinet/ip.h>], [<netinet/tcp.h>])

    As in [Segment.v], fields hold what a load from memory gives. Of two bit
    fields that share a byte the first declared is the low half. *)

Record iphdr := IpHdr {
  ip_ihl : Z;
  ip_version : Z;
  ip_tos : Z;
  ip_tot_len : Z;
  ip_id : Z;
  ip_frag_off : Z;
  ip_ttl : Z;
  ip_protocol : Z;
  ip_check : Z;
  ip_saddr : Z;
  ip_daddr : Z;
}.

Record tcphdr := TcpHdr {
  th_sport : Z;
  th_dport : Z;
  th_seq : Z;
  th_ack : Z;
  th_x2 : Z;
  th_off : Z;
  th_flags : Z;
  th_win : Z;
  th_sum : Z;
  th_urp : Z;
}.

Definition set_ip_check (v : Z) (h : iphdr) : iphdr :=
  IpHdr (ip_ihl h) (ip_version h) (ip_tos h) (ip_tot_len h) (ip_id h) (ip_frag_off h)
    (ip_ttl h) (ip_protocol h) v (ip_saddr h) (ip_daddr h).
Definition set_th_flags (v : Z) (h : tcphdr) : tcphdr :=
  TcpHdr (th_sport h) (th_dport h) (th_seq h) (th_ack h) (th_x2 h) (th_off h) v (th_win h)
    (th_sum h) (th_urp h).
Definition set_th_sum (v : Z) (h : tcphdr) : tcphdr :=
  TcpHdr (th_sport h) (th_dport h) (th_seq h) (th_ack h) (th_x2 h) (th_off h) (th_flags h)
    (th_win h) v (th_urp h).

Definition iphdr_bytes (h : iphdr) : list byte :=
  le_bytes 1 (Z.lor (ip_ihl h) (Z.shiftl (ip_version h) 4)) ++ le_bytes 1 (ip_tos h) ++
  le_bytes 2 (ip_tot_len h) ++ le_bytes 2 (ip_id h) ++ le_bytes 2 (ip_frag_off h) ++
  le_bytes 1 (ip_ttl h) ++ le_bytes 1 (ip_protocol h) ++ le_bytes 2 (ip_check h) ++
  le_bytes 4 (ip_saddr h) ++ le_bytes 4 (ip_daddr h).

Definition tcphdr_bytes (h : tcphdr) : list byte :=
  le_bytes 2 (th_sport h) ++ le_bytes 2 (th_dport h) ++ le_bytes 4 (th_seq h) ++
  le_bytes 4 (th_ack h) ++ le_bytes 1 (Z.lor (th_x2 h) (Z.shiftl (th_off h) 4)) ++
  le_bytes 1 (th_flags h) ++ le_bytes 2 (th_win h) ++ le_bytes 2 (th_sum h) ++
  le_bytes 2 (th_urp h).

Definition iphdr_of_bytes (bs : list byte) : option iphdr :=
  if bool_decide (Z.of_nat (length bs) < IP_HDR_SIZE) then None
  else Some (IpHdr (le_int (slice 0 1 bs) mod 16) (le_int (slice 0 1 bs) / 16)
               (le_int (slice 1 1 bs)) (le_int (slice 2 2 bs)) (le_int (slice 4 2 bs))
               (le_int (slice 6 2 bs)) (le_int (slice 8 1 bs)) (le_int (slice 9 1 bs))
               (le_int (slice 10 2 bs)) (le_int (slice 12 4 bs)) (le_int (slice 16 4 bs))).

Definition tcphdr_of_bytes (bs : list byte) : option tcphdr :=
  if bool_decide (Z.of_nat (length bs) < TCP_HDR_SIZE) then None
  else Some (TcpHdr (le_int (slice 0 2 bs)) (le_int (slice 2 2 bs)) (le_int (slice 4 4 bs))
               (le_int (slice 8 4 bs)) (le_int (slice 12 1 bs) mod 16)
               (le_int (slice 12 1 bs) / 16) (le_int (slice 13 1 bs)) (le_int (slice 14 2 bs))
               (le_int (slice 16 2 bs)) (le_int (slice 18 2 bs))).

(** A buffer seen as an IP header, a TCP header and what follows. *)
Record datagram := Datagram { dg_ip : iphdr; dg_tcp : tcphdr; dg_payload : list byte }.

Definition datagram_bytes (d : datagram) : list byte :=
  iphdr_bytes (dg_ip d) ++ tcphdr_bytes (dg_tcp d) ++ dg_payload d.

Definition datagram_of_bytes (bs : list byte) : option datagram :=
  ip ← iphdr_of_bytes bs;
  tcp ← tcphdr_of_bytes (drop 20 bs);
  Some (Datagram ip tcp (drop 40 bs)).

(** [memcpy(dst, src, n)], inside both buffers. *)
Definition memcpy (dst src : list byte) (n : Z) : option (list byte) :=
  if bool_decide (0 <= n <= Z.of_nat (length dst) /\ n <= Z.of_nat (length src))
  then Some (take (Z.to_nat n) src ++ drop (Z.to_nat n) dst)
  else None.

(** ** Making packets *)

Section Packets.
Context {S : Type}.

(** The pseudoheader is 12 bytes: the addresses, a zero byte, the protocol and
    the length of the TCP segment. *)
Definition pseudoheader (src dst protocol tcp_len : Z) : list byte :=
  le_bytes 4 src ++ le_bytes 4 dst ++ le_bytes 1 0 ++ le_bytes 1 protocol ++
  le_bytes 2 tcp_len.

Definition TCP_PSEUDOHDR_SIZE : Z := 32.

Definition cksum_tcp (packet : datagram) (len : Z) : M S Z :=
  let phdr := pseudoheader (ip_saddr (dg_ip packet)) (ip_daddr (dg_ip packet)) IPPROTO_TCP
                (htons (u16 (TCP_HDR_SIZE + len))) in
  segment ← deref (memcpy (replicate (Z.to_nat (TCP_HDR_SIZE + len)) Byte.x00)
                     (tcphdr_bytes (dg_tcp packet) ++ dg_payload packet) (TCP_HDR_SIZE + len));
  cksum (phdr ++ segment) (len + TCP_PSEUDOHDR_SIZE).

(** The IP header, and the rest of the packet, zeroed. *)
Definition create_datagram (src_ip dst_ip len : Z) : M S (iphdr * list byte) :=
  let total_len := u16 (IP_HDR_SIZE + len) in
  let datagram := replicate (Z.to_nat total_len) Byte.x00 in
  ip_hdr ← deref (iphdr_of_bytes datagram);
  let ip_hdr :=
    IpHdr (Z.lor (ip_ihl ip_hdr) 5) (Z.lor (ip_version ip_hdr) 4) 0 (htons total_len)
      (htons IP_ID) 0 DEFAULT_TTL IPPROTO_TCP 0 src_ip dst_ip in
  let payload := drop 20 datagram in
  check ← cksum (iphdr_bytes ip_hdr ++ payload) IP_HDR_SIZE;
  mret (set_ip_check check ip_hdr, payload).

Definition create_tcp_rst (cfg : config) (ip_dst port_src port_dst seqno : Z) :
    M S datagram :=
  '(ip_hdr, rest) ← create_datagram (ip_addr cfg) ip_dst TCP_HDR_SIZE;
  tcp_hdr ← deref (tcphdr_of_bytes rest);
  let tcp_hdr := TcpHdr port_src port_dst seqno 0 (th_x2 tcp_hdr) (TCP_HDR_SIZE / 4) TH_RST 0
                   (th_sum tcp_hdr) (th_urp tcp_hdr) in
  sum ← cksum_tcp (Datagram ip_hdr tcp_hdr (drop 20 rest)) 0;
  mret (Datagram ip_hdr (set_th_sum sum tcp_hdr) (drop 20 rest)).

(** The packet and the destination, whose sequence numbers advance. *)
Definition create_tcp_seg (cfg : config) (ctcp_cfg : ctcp_config) (dst : conn) (flags : Z)
    (data : option (list byte)) (len : Z) : M S (datagram * conn) :=
  let tcp_seg_len := u16 (TCP_HDR_SIZE + len) in
  '(ip_hdr, rest) ← create_datagram (ip_addr cfg) (cn_ip_addr dst) tcp_seg_len;
  tcp_hdr ← deref (tcphdr_of_bytes rest);
  payload ← match data with
            | Some data => if len >? 0 then deref (memcpy (drop 20 rest) data len)
                           else mret (drop 20 rest)
            | None => mret (drop 20 rest)
            end;
  let window := if has_flag flags TH_RST then 0 else htons (cfg_recv_window ctcp_cfg) in
  let tcp_hdr := TcpHdr (htons (u16 (port cfg))) (htons (u16 (cn_port dst)))
                   (htonl (cn_next_seqno dst)) (htonl (cn_ackno dst)) (th_x2 tcp_hdr)
                   (TCP_HDR_SIZE / 4) flags window 0 (th_urp tcp_hdr) in
  sum ← cksum_tcp (Datagram ip_hdr tcp_hdr payload) len;
  let dst := set_cn_seqno (cn_next_seqno dst) dst in
  let dst := set_cn_next_seqno (u32 (cn_next_seqno dst + len)) dst in
  mret (Datagram ip_hdr (set_th_sum sum tcp_hdr) payload, dst).

(** ** Conversions

    The segment, and the buffer, whose TCP checksum the C code clears. *)
Definition convert_to_ctcp (src : conn) (datagram : list byte) (actual_len : Z) :
    M S (ctcp_segment * list byte) :=
  d ← deref (datagram_of_bytes datagram);
  let ip_hdr := dg_ip d in
  let tcp_hdr := dg_tcp d in
  let data_len := u16 (ntohs (ip_tot_len ip_hdr) - FULL_HDR_SIZE) in
  let len := u16 (data_len + SEGMENT_HDR_SIZE) in
  access (SEGMENT_HDR_SIZE <=? len);;
  let segment := zero_segment len in
  let segment := set_seqno (htonl (u32 (ntohl (th_seq tcp_hdr) - cn_their_init_seqno src))) segment in
  let segment := set_ackno (htonl (u32 (ntohl (th_ack tcp_hdr) - cn_init_seqno src))) segment in
  let segment := set_len (htons len) segment in
  let segment := set_flags (th_flags tcp_hdr) segment in
  let segment := set_window (th_win tcp_hdr) segment in
  let segment := set_cksum 0 segment in
  data ← (if data_len >? 0 then deref (memcpy (seg_data segment) (dg_payload d) data_len)
          else mret (seg_data segment));
  let segment := set_data data segment in
  c ← cksum (segment_bytes segment) len;
  let segment := set_cksum c segment in
  let sum := th_sum tcp_hdr in
  let d := Datagram ip_hdr (set_th_sum 0 tcp_hdr) (dg_payload d) in
  correct_sum ← cksum_tcp d data_len;
  mret (set_cksum (u16 (seg_cksum segment + (correct_sum - sum))) segment, datagram_bytes d).

Definition convert_to_datagram (cfg : config) (opts : options) (dst : conn)
    (segment : ctcp_segment) (len : Z) : M S datagram :=
  let tcp_pkt_len := u16 (len - SEGMENT_HDR_SIZE + TCP_HDR_SIZE) in
  '(ip_hdr, rest) ← create_datagram (ip_addr cfg) (cn_ip_addr dst) tcp_pkt_len;
  tcp_hdr ← deref (tcphdr_of_bytes rest);
  let data_len := u16 (len - SEGMENT_HDR_SIZE) in
  payload ← (if data_len >? 0 then deref (memcpy (drop 20 rest) (seg_data segment) data_len)
             else mret (drop 20 rest));
  let flags := u8 (seg_flags segment) in
  let flags := if negb (run_program opts) && negb (unix_socket opts)
               then Z.lor flags TH_ACK else flags in
  let tcp_hdr := TcpHdr (htons (u16 (port cfg))) (htons (u16 (cn_port dst)))
                   (htonl (u32 (ntohl (seg_seqno segment) + cn_init_seqno dst)))
                   (htonl (u32 (ntohl (seg_ackno segment) + cn_their_init_seqno dst)))
                   (th_x2 tcp_hdr) (TCP_HDR_SIZE / 4) flags (seg_window segment) 0
                   (th_urp tcp_hdr) in
  let sum := seg_cksum segment in
  correct_sum ← cksum (segment_bytes (set_cksum 0 segment)) len;
  c ← cksum_tcp (Datagram ip_hdr tcp_hdr payload) data_len;
  mret (Datagram ip_hdr (set_th_sum (u16 (c + (correct_sum - sum))) tcp_hdr) payload).

(** ** Line endings, connections' numbers and addresses *)

(** [len] bytes of the buffer are used, [len] being positive. *)
Definition add_network_line_ending (webserver : bool) (buf : list byte) (len : Z) :
    M S (bool * list byte) :=
  if negb webserver then mret (false, buf)
  else
    b ← deref (if bool_decide (1 <= len) then buf !! Z.to_nat (len - 1) else None);
    if negb (bool_decide (b2z b = 10)) then mret (false, buf)
    else
      access (len + 1 <? Z.of_nat (length buf));;
      let buf := <[Z.to_nat (len - 1) := z2b 13]> buf in
      let buf := <[Z.to_nat len := z2b 10]> buf in
      mret (true, <[Z.to_nat (len + 1) := z2b 0]> buf).

(** [r] is the result of the call to [rand] that [conn_setup] makes. *)
Definition conn_setup (r : Z) (ip port : Z) (unix_socket : bool) (c : conn) : conn :=
  let c := set_cn_ip_addr ip c in
  let c := set_cn_port port c in
  let c := if unix_socket
           then set_cn_sunaddr (SockaddrUn AF_UNIX (String.append "/" (pretty port))) c
           else set_cn_saddr (SockaddrIn AF_INET (sin_port (cn_saddr c)) ip) c in
  let c := set_cn_init_seqno (u32 r) c in
  let c := set_cn_seqno 0 c in
  let c := set_cn_next_seqno (cn_init_seqno c) c in
  set_cn_ackno 0 c.
End Packets.

(** ** Packets and their bytes *)

(** Every field within its width. *)
Record iphdr_wf (h : iphdr) : Prop := IpHdrWf {
  wf_ihl : 0 <= ip_ihl h < 2 ^ 4;
  wf_version : 0 <= ip_version h < 2 ^ 4;
  wf_tos : 0 <= ip_tos h < 2 ^ 8;
  wf_tot_len : 0 <= ip_tot_len h < 2 ^ 16;
  wf_id : 0 <= ip_id h < 2 ^ 16;
  wf_frag_off : 0 <= ip_frag_off h < 2 ^ 16;
  wf_ttl : 0 <= ip_ttl h < 2 ^ 8;
  wf_protocol : 0 <= ip_protocol h < 2 ^ 8;
  wf_check : 0 <= ip_check h < 2 ^ 16;
  wf_saddr : 0 <= ip_saddr h < 2 ^ 32;
  wf_daddr : 0 <= ip_daddr h < 2 ^ 32;
}.

Record tcphdr_wf (h : tcphdr) : Prop := TcpHdrWf {
  wf_sport : 0 <= th_sport h < 2 ^ 16;
  wf_dport : 0 <= th_dport h < 2 ^ 16;
  wf_seq : 0 <= th_seq h < 2 ^ 32;
  wf_ack : 0 <= th_ack h < 2 ^ 32;
  wf_x2 : 0 <= th_x2 h < 2 ^ 4;
  wf_off : 0 <= th_off h < 2 ^ 4;
  wf_th_flags : 0 <= th_flags h < 2 ^ 8;
  wf_win : 0 <= th_win h < 2 ^ 16;
  wf_sum : 0 <= th_sum h < 2 ^ 16;
  wf_urp : 0 <= th_urp h < 2 ^ 16;
}.

Lemma iphdr_bytes_length h : length (iphdr_bytes h) = 20%nat.
Proof. unfold iphdr_bytes. by rewrite !length_app, !le_bytes_length. Qed.

Lemma tcphdr_bytes_length h : length (tcphdr_bytes h) = 20%nat.
Proof. unfold tcphdr_bytes. by rewrite !length_app, !le_bytes_length. Qed.

Lemma datagram_bytes_length d :
  length (datagram_bytes d) = (40 + length (dg_payload d))%nat.
Proof.
  unfold datagram_bytes. rewrite !length_app, iphdr_bytes_length, tcphdr_bytes_length. lia.
Qed.

#[export] Hint Rewrite iphdr_bytes_length tcphdr_bytes_length datagram_bytes_length : ctcp.

(** Two bit fields in a byte. *)
Lemma nibbles lo hi :
  0 <= lo < 2 ^ 4 -> 0 <= hi < 2 ^ 4 ->
  le_int (le_bytes 1 (Z.lor lo (Z.shiftl hi 4))) mod 16 = lo /\
  le_int (le_bytes 1 (Z.lor lo (Z.shiftl hi 4))) / 16 = hi.
Proof.
  intros Hlo Hhi. rewrite (lor_shiftl_add lo hi 4) by lia.
  rewrite le_int_bytes by lia. Z.div_mod_to_equations. lia.
Qed.

Lemma iphdr_of_bytes_bytes h rest :
  iphdr_wf h -> iphdr_of_bytes (iphdr_bytes h ++ rest) = Some h.
Proof.
  intros [Hi Hv Ht Hl Hd Hf Htt Hp Hc Hs Ha]. unfold iphdr_of_bytes.
  rewrite bool_decide_false
    by (rewrite length_app, iphdr_bytes_length; unfold IP_HDR_SIZE; lia).
  destruct h as [ihl ver tos tl id fo ttl pr ck sa da]. simpl in *. f_equal.
  destruct (nibbles ihl ver Hi Hv) as [E1 E2].
  change (IpHdr (le_int (le_bytes 1 (Z.lor ihl (Z.shiftl ver 4))) mod 16)
            (le_int (le_bytes 1 (Z.lor ihl (Z.shiftl ver 4))) / 16)
            (le_int (le_bytes 1 tos)) (le_int (le_bytes 2 tl)) (le_int (le_bytes 2 id))
            (le_int (le_bytes 2 fo)) (le_int (le_bytes 1 ttl)) (le_int (le_bytes 1 pr))
            (le_int (le_bytes 2 ck)) (le_int (le_bytes 4 sa)) (le_int (le_bytes 4 da)) =
          IpHdr ihl ver tos tl id fo ttl pr ck sa da).
  by rewrite E1, E2, !le_int_bytes.
Qed.

Lemma tcphdr_of_bytes_bytes h rest :
  tcphdr_wf h -> tcphdr_of_bytes (tcphdr_bytes h ++ rest) = Some h.
Proof.
  intros [Hs Hd Hq Ha Hx Ho Hf Hw Hc Hu]. unfold tcphdr_of_bytes.
  rewrite bool_decide_false
    by (rewrite length_app, tcphdr_bytes_length; unfold TCP_HDR_SIZE; lia).
  destruct h as [sp dp sq ak x2 off fl wn ck up]. simpl in *. f_equal.
  destruct (nibbles x2 off Hx Ho) as [E1 E2].
  change (TcpHdr (le_int (le_bytes 2 sp)) (le_int (le_bytes 2 dp)) (le_int (le_bytes 4 sq))
            (le_int (le_bytes 4 ak)) (le_int (le_bytes 1 (Z.lor x2 (Z.shiftl off 4))) mod 16)
            (le_int (le_bytes 1 (Z.lor x2 (Z.shiftl off 4))) / 16)
            (le_int (le_bytes 1 fl)) (le_int (le_bytes 2 wn)) (le_int (le_bytes 2 ck))
            (le_int (le_bytes 2 up)) =
          TcpHdr sp dp sq ak x2 off fl wn ck up).
  by rewrite E1, E2, !le_int_bytes.
Qed.

(** A packet in a buffer that may be longer than it. *)
Lemma datagram_of_bytes_bytes ip tcp payload pad :
  iphdr_wf ip -> tcphdr_wf tcp ->
  datagram_of_bytes (datagram_bytes (Datagram ip tcp payload) ++ pad) =
  Some (Datagram ip tcp (payload ++ pad)).
Proof.
  intros Hi Ht. unfold datagram_of_bytes, datagram_bytes. cbn [dg_ip dg_tcp dg_payload].
  rewrite <- !app_assoc, iphdr_of_bytes_bytes by done. cbn.
  rewrite (drop_app_length' _ _ 20) by (by rewrite iphdr_bytes_length).
  rewrite tcphdr_of_bytes_bytes by done. cbn. do 2 f_equal.
Qed.

Lemma zero_iphdr n :
  (20 <= n)%nat ->
  iphdr_of_bytes (replicate n Byte.x00) = Some (IpHdr 0 0 0 0 0 0 0 0 0 0 0).
Proof.
  intros Hn. replace n with (20 + (n - 20))%nat by lia. rewrite replicate_add.
  unfold iphdr_of_bytes. rewrite bool_decide_false; [reflexivity|].
  rewrite length_app, !length_replicate. unfold IP_HDR_SIZE. lia.
Qed.

Lemma zero_tcphdr n :
  (20 <= n)%nat ->
  tcphdr_of_bytes (replicate n Byte.x00) = Some (TcpHdr 0 0 0 0 0 0 0 0 0 0).
Proof.
  intros Hn. replace n with (20 + (n - 20))%nat by lia. rewrite replicate_add.
  unfold tcphdr_of_bytes. rewrite bool_decide_false; [reflexivity|].
  rewrite length_app, !length_replicate. unfold TCP_HDR_SIZE. lia.
Qed.

Lemma memcpy_run dst src n :
  0 <= n -> n <= Z.of_nat (length dst) -> n <= Z.of_nat (length src) ->
  memcpy dst src n = Some (take (Z.to_nat n) src ++ drop (Z.to_nat n) dst).
Proof. intros. unfold memcpy. by rewrite bool_decide_true. Qed.

(** Copying over a whole buffer. *)
Lemma memcpy_full dst src :
  length dst = length src -> memcpy dst src (Z.of_nat (length src)) = Some src.
Proof.
  intros E. rewrite memcpy_run by lia.
  by rewrite Nat2Z.id, take_ge, drop_ge, app_nil_r by lia.
Qed.

(** ** What the functions compute *)

Section Runs.
Context {S : Type} (s : S).

(** The IP header before its checksum is stored. *)
Definition plain_iphdr (src dst total_len : Z) : iphdr :=
  IpHdr 5 4 0 (htons total_len) (htons IP_ID) 0 DEFAULT_TTL IPPROTO_TCP 0 src dst.

Definition made_iphdr (src dst total_len : Z) : iphdr :=
  set_ip_check (cksum_of (iphdr_bytes (plain_iphdr src dst total_len)))
    (plain_iphdr src dst total_len).

Lemma create_datagram_run src dst len :
  0 <= len -> IP_HDR_SIZE + len < 2 ^ 16 ->
  create_datagram src dst len s =
  Done (made_iphdr src dst (IP_HDR_SIZE + len), replicate (Z.to_nat len) Byte.x00) s.
Proof.
  unfold IP_HDR_SIZE. intros H0 Hlen. unfold create_datagram.
  rewrite u16_small by (unfold IP_HDR_SIZE; lia).
  rewrite zero_iphdr by (unfold IP_HDR_SIZE; lia). cbn [deref].
  erewrite bind_Done by reflexivity. cbn [ip_ihl ip_version].
  change (Z.lor 0 5) with 5. change (Z.lor 0 4) with 4.
  fold (plain_iphdr src dst (IP_HDR_SIZE + len)). unfold IP_HDR_SIZE.
  erewrite bind_Done
    by (apply cksum_run; [lia|rewrite length_app, iphdr_bytes_length; lia]).
  rewrite take_app_le by (by rewrite iphdr_bytes_length).
  rewrite take_ge by (by rewrite iphdr_bytes_length).
  unfold made_iphdr. rewrite drop_replicate. unfold mret, M_ret. do 3 f_equal. lia.
Qed.

Lemma made_iphdr_wf src dst total_len :
  0 <= src < 2 ^ 32 -> 0 <= dst < 2 ^ 32 -> iphdr_wf (made_iphdr src dst total_len).
Proof.
  intros Hs Hd. unfold made_iphdr. generalize (cksum_of_range (iphdr_bytes (plain_iphdr src dst total_len))).
  generalize (cksum_of (iphdr_bytes (plain_iphdr src dst total_len))). intros c Hc.
  unfold plain_iphdr, set_ip_check, DEFAULT_TTL, IPPROTO_TCP.
  split; cbn [ip_ihl ip_version ip_tos ip_tot_len ip_id ip_frag_off ip_ttl ip_protocol
    ip_check ip_saddr ip_daddr]; first [apply htons_range | lia].
Qed.

(** The checksum of a TCP packet with the pseudoheader. *)
Definition tcp_cksum_of (packet : datagram) (len : Z) : Z :=
  cksum_of (pseudoheader (ip_saddr (dg_ip packet)) (ip_daddr (dg_ip packet)) IPPROTO_TCP
              (htons (TCP_HDR_SIZE + len)) ++
            tcphdr_bytes (dg_tcp packet) ++ take (Z.to_nat len) (dg_payload packet)).

Lemma pseudoheader_length a b c d : length (pseudoheader a b c d) = 12%nat.
Proof. unfold pseudoheader. by rewrite !length_app, !le_bytes_length. Qed.

Lemma cksum_tcp_run packet len :
  0 <= len -> TCP_PSEUDOHDR_SIZE + len < 2 ^ 16 -> len <= Z.of_nat (length (dg_payload packet)) ->
  cksum_tcp packet len s = Done (tcp_cksum_of packet len) s.
Proof.
  unfold TCP_PSEUDOHDR_SIZE. intros H0 H1 H2. unfold cksum_tcp, TCP_HDR_SIZE.
  rewrite u16_small by lia.
  rewrite memcpy_run
    by (rewrite ?length_replicate, ?length_app, ?tcphdr_bytes_length; lia).
  cbn [deref]. erewrite bind_Done by reflexivity.
  rewrite drop_ge, app_nil_r by (rewrite length_replicate; lia).
  rewrite take_app_ge by (rewrite tcphdr_bytes_length; lia).
  rewrite tcphdr_bytes_length. replace (Z.to_nat (20 + len) - 20)%nat with (Z.to_nat len) by lia.
  rewrite cksum_run.
  - rewrite take_ge; [done|].
    rewrite !length_app, pseudoheader_length, tcphdr_bytes_length, length_take.
    unfold TCP_PSEUDOHDR_SIZE. lia.
  - unfold TCP_PSEUDOHDR_SIZE. lia.
  - rewrite !length_app, pseudoheader_length, tcphdr_bytes_length, length_take.
    unfold TCP_PSEUDOHDR_SIZE. lia.
Qed.
End Runs.

(** ** The conversions *)

Section Conversions.
Context {S : Type} (s : S).

(** The flags and the TCP header of the packet of a segment. *)
Definition wire_flags (opts : options) (flags : Z) : Z :=
  if negb (run_program opts) && negb (unix_socket opts)
  then Z.lor (u8 flags) TH_ACK else u8 flags.

Definition made_tcphdr (cfg : config) (opts : options) (dst : conn) (segment : ctcp_segment)
    (sum : Z) : tcphdr :=
  TcpHdr (htons (u16 (port cfg))) (htons (u16 (cn_port dst)))
    (htonl (u32 (ntohl (seg_seqno segment) + cn_init_seqno dst)))
    (htonl (u32 (ntohl (seg_ackno segment) + cn_their_init_seqno dst)))
    0 5 (wire_flags opts (seg_flags segment)) (seg_window segment) sum 0.

(** The packet of a segment, and its TCP checksum. *)
Definition packet_of (cfg : config) (opts : options) (dst : conn) (segment : ctcp_segment)
    (sum : Z) : datagram :=
  Datagram (made_iphdr (ip_addr cfg) (cn_ip_addr dst)
              (FULL_HDR_SIZE + Z.of_nat (length (seg_data segment))))
    (made_tcphdr cfg opts dst segment sum) (seg_data segment).

Definition packet_sum (cfg : config) (opts : options) (dst : conn) (segment : ctcp_segment) : Z :=
  u16 (tcp_cksum_of (packet_of cfg opts dst segment 0) (Z.of_nat (length (seg_data segment))) +
       (cksum_of (segment_bytes (set_cksum 0 segment)) - seg_cksum segment)).

Lemma copy_all (zeros data : list byte) :
  length zeros = length data ->
  (if Z.of_nat (length data) >? 0 then deref (memcpy zeros data (Z.of_nat (length data)))
   else mret zeros) s = Done data s.
Proof.
  intros E. destruct (Z.gtb_spec (Z.of_nat (length data)) 0).
  - by rewrite memcpy_full.
  - destruct data; [|simpl in *; lia]. by destruct zeros.
Qed.

Lemma convert_to_datagram_run cfg opts dst segment len :
  len = SEGMENT_HDR_SIZE + Z.of_nat (length (seg_data segment)) ->
  len + 20 < 2 ^ 16 ->
  convert_to_datagram cfg opts dst segment len s =
  Done (packet_of cfg opts dst segment (packet_sum cfg opts dst segment)) s.
Proof.
  unfold SEGMENT_HDR_SIZE. intros Hlen Hmax. unfold convert_to_datagram.
  unfold SEGMENT_HDR_SIZE, TCP_HDR_SIZE. rewrite (u16_small (len - 20 + 20)), (u16_small (len - 20)) by lia.
  replace (len - 20 + 20) with (20 + Z.of_nat (length (seg_data segment))) by lia.
  replace (len - 20) with (Z.of_nat (length (seg_data segment))) by lia.
  erewrite bind_Done by (apply create_datagram_run; unfold IP_HDR_SIZE; lia).
  cbv beta iota. rewrite zero_tcphdr by lia. cbn [deref]. erewrite bind_Done by reflexivity.
  rewrite drop_replicate.
  erewrite bind_Done
    by (apply copy_all; rewrite length_replicate; lia).
  fold (wire_flags opts (seg_flags segment)). cbn [th_x2 th_urp].
  change (20 / 4) with 5. fold (made_tcphdr cfg opts dst segment 0).
  erewrite bind_Done
    by (apply cksum_run; [lia|rewrite segment_bytes_length; cbn [seg_data set_cksum]; lia]).
  rewrite take_ge by (rewrite segment_bytes_length; cbn [seg_data set_cksum]; lia).
  replace (IP_HDR_SIZE + (20 + Z.of_nat (length (seg_data segment))))
    with (FULL_HDR_SIZE + Z.of_nat (length (seg_data segment)))
    by (unfold FULL_HDR_SIZE, IP_HDR_SIZE, TCP_HDR_SIZE; lia).
  fold (packet_of cfg opts dst segment 0).
  erewrite bind_Done
    by (apply cksum_tcp_run; [lia|unfold TCP_PSEUDOHDR_SIZE; lia|cbn [dg_payload packet_of]; lia]).
  done.
Qed.

(** The segment of a packet, its checksum field apart. *)
Definition segment_of (src : conn) (d : datagram) : ctcp_segment :=
  Segment (htonl (u32 (ntohl (th_seq (dg_tcp d)) - cn_their_init_seqno src)))
    (htonl (u32 (ntohl (th_ack (dg_tcp d)) - cn_init_seqno src)))
    (htons (SEGMENT_HDR_SIZE + Z.of_nat (length (dg_payload d)))) 0
    (th_flags (dg_tcp d)) (th_win (dg_tcp d)) 0 (dg_payload d).

Definition segment_sum (src : conn) (d : datagram) : Z :=
  u16 (cksum_of (segment_bytes (segment_of src d)) +
       (tcp_cksum_of (Datagram (dg_ip d) (set_th_sum 0 (dg_tcp d)) (dg_payload d))
          (Z.of_nat (length (dg_payload d))) - th_sum (dg_tcp d))).

Lemma tcp_cksum_of_pad ip tcp payload pad :
  tcp_cksum_of (Datagram ip tcp (payload ++ pad)) (Z.of_nat (length payload)) =
  tcp_cksum_of (Datagram ip tcp payload) (Z.of_nat (length payload)).
Proof.
  unfold tcp_cksum_of. cbn [dg_ip dg_tcp dg_payload].
  by rewrite Nat2Z.id, take_app_length, take_ge by lia.
Qed.

Lemma convert_to_ctcp_run src ip tcp payload pad actual_len :
  iphdr_wf ip -> tcphdr_wf tcp ->
  ip_tot_len ip = htons (FULL_HDR_SIZE + Z.of_nat (length payload)) ->
  FULL_HDR_SIZE + Z.of_nat (length payload) < 2 ^ 16 ->
  convert_to_ctcp src (datagram_bytes (Datagram ip tcp payload) ++ pad) actual_len s =
  let d := Datagram ip tcp payload in
  Done (set_cksum (segment_sum src d) (segment_of src d),
        datagram_bytes (Datagram ip (set_th_sum 0 tcp) (payload ++ pad))) s.
Proof.
  unfold FULL_HDR_SIZE, IP_HDR_SIZE, TCP_HDR_SIZE. intros Hi Ht Hl Hmax.
  unfold convert_to_ctcp. rewrite datagram_of_bytes_bytes by done.
  cbn [deref]. erewrite bind_Done by reflexivity. cbn [dg_ip dg_tcp dg_payload].
  rewrite Hl, ntohs_htons by lia.
  unfold FULL_HDR_SIZE, IP_HDR_SIZE, TCP_HDR_SIZE, SEGMENT_HDR_SIZE.
  replace (20 + 20 + Z.of_nat (length payload) - (20 + 20))
    with (Z.of_nat (length payload)) by lia.
  rewrite (u16_small (Z.of_nat (length payload))) by lia.
  rewrite (u16_small (Z.of_nat (length payload) + 20)) by lia.
  rewrite (proj2 (Z.leb_le 20 _)) by lia. erewrite bind_Done by reflexivity.
  cbn [zero_segment set_seqno set_ackno set_len set_flags set_window set_cksum set_data
    seg_seqno seg_ackno seg_len seg_pad seg_flags seg_window seg_cksum seg_data].
  unfold SEGMENT_HDR_SIZE.
  replace (Z.to_nat (Z.of_nat (length payload) + 20 - 20)) with (length payload) by lia.
  erewrite (bind_Done _ _ _ payload s).
  2: { destruct (Z.gtb_spec (Z.of_nat (length payload)) 0).
       - rewrite memcpy_run by (rewrite ?length_replicate, ?length_app; lia).
         by rewrite Nat2Z.id, take_app_length, drop_replicate, Nat.sub_diag, app_nil_r.
       - destruct payload; [done|simpl in *; lia]. }
  replace (Z.of_nat (length payload) + 20) with (20 + Z.of_nat (length payload)) by lia.
  fold SEGMENT_HDR_SIZE.
  match goal with |- context [cksum (segment_bytes ?x)] =>
    change x with (segment_of src (Datagram ip tcp payload)) end.
  erewrite bind_Done
    by (apply cksum_run; [unfold SEGMENT_HDR_SIZE; lia|
        rewrite segment_bytes_length; unfold SEGMENT_HDR_SIZE; cbn [seg_data segment_of dg_payload]; lia]).
  rewrite take_ge
    by (rewrite segment_bytes_length; unfold SEGMENT_HDR_SIZE; cbn [seg_data segment_of dg_payload]; lia).
  erewrite bind_Done
    by (apply cksum_tcp_run; [lia|unfold TCP_PSEUDOHDR_SIZE; lia|
        cbn [dg_payload]; rewrite length_app; lia]).
  rewrite tcp_cksum_of_pad, set_cksum_twice. unfold mret, M_ret, segment_sum.
  cbv zeta. cbn [dg_ip dg_tcp dg_payload]. reflexivity.
Qed.
End Conversions.
