(* ===== verification/PacketProps.v ===== *)
(** * What the conversions of packets guarantee

    Bytes seen as packets, the round trip of segments through TCP packets,
    the checksums of the packets made, and the memory that the conversion of a
    received packet touches. *)

From coqutil Require Import Word.LittleEndianList.
From S2P Require Import Prelude Heap Words Cksum Segment ConnLib Ctcp Host Packet.

(** ** Bytes seen as a packet *)

Lemma slice_range o n bs : 0 <= le_int (slice o n bs) < 2 ^ (8 * Z.of_nat n).
Proof. apply le_int_slice_range. Qed.

(** A byte as two nibbles. *)
Lemma byte_nibbles b :
  le_bytes 1 (Z.lor (le_int [b] mod 16) (Z.shiftl (le_int [b] / 16) 4)) = [b].
Proof.
  pose proof (le_int_range [b]) as Hb. change (8 * Z.of_nat (length [b])) with 8 in Hb.
  rewrite (lor_shiftl_add _ _ 4) by (Z.div_mod_to_equations; lia).
  replace (le_int [b] mod 16 + le_int [b] / 16 * 2 ^ 4) with (le_int [b])
    by (Z.div_mod_to_equations; lia).
  by apply le_bytes_int'.
Qed.

Lemma nibble_range o bs :
  0 <= le_int (slice o 1 bs) mod 16 < 2 ^ 4 /\ 0 <= le_int (slice o 1 bs) / 16 < 2 ^ 4.
Proof. pose proof (slice_range o 1 bs). Z.div_mod_to_equations. lia. Qed.

Lemma iphdr_bytes_of bs h :
  iphdr_of_bytes bs = Some h -> iphdr_wf h /\ iphdr_bytes h = take 20 bs.
Proof.
  unfold iphdr_of_bytes. case_bool_decide as Hlen; [done|]. intros [= <-]. split.
  - split; simpl; try exact (slice_range _ _ bs); by apply (nibble_range 0 bs).
  - unfold IP_HDR_SIZE in Hlen. do 20 (destruct bs as [|? bs]; [simpl in Hlen; lia|]).
    unfold iphdr_bytes, slice. cbn [ip_ihl ip_version ip_tos ip_tot_len ip_id ip_frag_off
      ip_ttl ip_protocol ip_check ip_saddr ip_daddr drop take].
    by rewrite byte_nibbles, !le_bytes_int' by done.
Qed.

Lemma tcphdr_bytes_of bs h :
  tcphdr_of_bytes bs = Some h -> tcphdr_wf h /\ tcphdr_bytes h = take 20 bs.
Proof.
  unfold tcphdr_of_bytes. case_bool_decide as Hlen; [done|]. intros [= <-]. split.
  - split; simpl; try exact (slice_range _ _ bs); by apply (nibble_range 12 bs).
  - unfold TCP_HDR_SIZE in Hlen. do 20 (destruct bs as [|? bs]; [simpl in Hlen; lia|]).
    unfold tcphdr_bytes, slice. cbn [th_sport th_dport th_seq th_ack th_x2 th_off th_flags
      th_win th_sum th_urp drop take].
    by rewrite byte_nibbles, !le_bytes_int' by done.
Qed.

(** A buffer that holds the two headers is the bytes of one packet. *)
Lemma datagram_of_bytes_Some bs :
  FULL_HDR_SIZE <= Z.of_nat (length bs) ->
  exists d, datagram_of_bytes bs = Some d /\ datagram_bytes d = bs /\
    iphdr_wf (dg_ip d) /\ tcphdr_wf (dg_tcp d).
Proof.
  unfold FULL_HDR_SIZE, IP_HDR_SIZE, TCP_HDR_SIZE. intros Hlen. unfold datagram_of_bytes.
  destruct (iphdr_of_bytes bs) as [ip|] eqn:Ei.
  2: { unfold iphdr_of_bytes, IP_HDR_SIZE in Ei. case_bool_decide; [lia|done]. }
  destruct (tcphdr_of_bytes (drop 20 bs)) as [tcp|] eqn:Et.
  2: { unfold tcphdr_of_bytes, TCP_HDR_SIZE in Et. rewrite length_drop in Et.
       case_bool_decide; [lia|done]. }
  apply iphdr_bytes_of in Ei as [Hi Eib]. apply tcphdr_bytes_of in Et as [Ht Etb].
  eexists. split; [reflexivity|]. split_and!; [|done|done].
  unfold datagram_bytes. cbn [dg_ip dg_tcp dg_payload]. rewrite Eib, Etb.
  change (drop 40 bs) with (drop (20 + 20) bs). rewrite <- drop_drop.
  by rewrite !take_drop.
Qed.

Lemma datagram_of_bytes_None bs :
  Z.of_nat (length bs) < FULL_HDR_SIZE -> datagram_of_bytes bs = None.
Proof.
  unfold FULL_HDR_SIZE, IP_HDR_SIZE, TCP_HDR_SIZE. intros Hlen. unfold datagram_of_bytes.
  unfold iphdr_of_bytes, IP_HDR_SIZE. case_bool_decide; [done|]. cbn.
  unfold tcphdr_of_bytes, TCP_HDR_SIZE. rewrite length_drop.
  by rewrite bool_decide_true by lia.
Qed.

(** ** Theorems *)

Section Theorems.
Context {S : Type} (m : S).

(** The two ends of a connection: each knows the other's initial number. *)
Definition numbers_agree (a b : conn) : Prop :=
  cn_their_init_seqno b = cn_init_seqno a /\ cn_their_init_seqno a = cn_init_seqno b.

Lemma wire_flags_range opts fl : 0 <= wire_flags opts fl < 2 ^ 8.
Proof.
  unfold wire_flags. pose proof (u8_range fl) as H.
  destruct (_ && _); [|done].
  by apply lor_range.
Qed.

Lemma made_tcphdr_wf cfg opts dst s sum :
  segment_wf s -> 0 <= sum < 2 ^ 16 -> tcphdr_wf (made_tcphdr cfg opts dst s sum).
Proof.
  intros Hs Hsum. pose proof (wire_flags_range opts (seg_flags s)).
  split; cbn [made_tcphdr th_sport th_dport th_seq th_ack th_x2 th_off th_flags th_win
    th_sum th_urp]; try (apply htons_range || apply htonl_range); try done; try lia.
  apply Hs.
Qed.

Lemma undo_difference c1 c2 ck :
  0 <= ck < 2 ^ 16 -> u16 (c1 + (c2 - u16 (c2 + (c1 - ck)))) = ck.
Proof.
  intros Hck. unfold u16.
  replace (c1 + (c2 - (c2 + (c1 - ck)) mod 2 ^ 16))
    with ((c1 + c2) - (c2 + (c1 - ck)) mod 2 ^ 16) by lia.
  rewrite Zminus_mod_idemp_r. replace (c1 + c2 - (c2 + (c1 - ck))) with ck by lia.
  by apply Z.mod_small.
Qed.

(** What the receiver's numbers make of the sender's. *)
Lemma relative_number x init :
  0 <= x < 2 ^ 32 ->
  htonl (u32 (ntohl (htonl (u32 (ntohl x + init))) - init)) = x.
Proof.
  intros Hx. rewrite ntohl_htonl by auto with ctcp.
  rewrite u32_add_sub by auto with ctcp. by apply htonl_ntohl.
Qed.

Lemma convert_back cfg opts a b s pad actual_len :
  segment_wf s -> seg_pad s = 0 ->
  seg_len s = htons (SEGMENT_HDR_SIZE + Z.of_nat (length (seg_data s))) ->
  FULL_HDR_SIZE + Z.of_nat (length (seg_data s)) < 2 ^ 16 ->
  wire_flags opts (seg_flags s) = seg_flags s ->
  0 <= ip_addr cfg < 2 ^ 32 -> 0 <= cn_ip_addr a < 2 ^ 32 ->
  numbers_agree a b ->
  exists d buf,
    convert_to_datagram cfg opts a s (SEGMENT_HDR_SIZE + Z.of_nat (length (seg_data s))) m =
      Done d m /\
    convert_to_ctcp b (datagram_bytes d ++ pad) actual_len m = Done (s, buf) m.
Proof.
  intros Hwf Hpad Hlen Hmax Hfl Hip Hdst [Hn1 Hn2].
  unfold FULL_HDR_SIZE, IP_HDR_SIZE, TCP_HDR_SIZE in Hmax. eexists _, _. split.
  - apply convert_to_datagram_run; [done|unfold SEGMENT_HDR_SIZE; lia].
  - unfold packet_of at 1.
    pose proof (u16_range (tcp_cksum_of (packet_of cfg opts a s 0) (Z.of_nat (length (seg_data s))) +
       (cksum_of (segment_bytes (set_cksum 0 s)) - seg_cksum s))) as Hsum.
    fold (packet_sum cfg opts a s) in Hsum.
    rewrite convert_to_ctcp_run; [|by apply made_iphdr_wf|by apply made_tcphdr_wf|done|
      unfold FULL_HDR_SIZE, IP_HDR_SIZE, TCP_HDR_SIZE; lia].
    cbv zeta. f_equal. f_equal. fold (packet_of cfg opts a s (packet_sum cfg opts a s)).
    assert (E : segment_of b (packet_of cfg opts a s (packet_sum cfg opts a s)) = set_cksum 0 s).
    { unfold segment_of, set_cksum, packet_of, made_tcphdr.
      cbn [dg_tcp dg_payload th_seq th_ack th_flags th_win].
      rewrite Hn1, <- Hn2, !relative_number, Hfl, <- Hlen, Hpad by apply Hwf. done. }
    unfold segment_sum. rewrite E, set_cksum_twice. cbn [packet_of dg_ip dg_payload dg_tcp].
    change (set_th_sum 0 (made_tcphdr cfg opts a s (packet_sum cfg opts a s)))
      with (made_tcphdr cfg opts a s 0).
    fold (packet_of cfg opts a s 0). cbn [th_sum made_tcphdr]. unfold packet_sum.
    rewrite undo_difference by apply Hwf. by destruct s.
Qed.

(** C15: A segment that goes through [convert_to_datagram] and, at the other end
    of the connection, [convert_to_ctcp] comes out as it was, its checksum
    field, right or wrong, included: corruption survives the translation to TCP.
    The conditions: no padding bits, 8-bit flags among which ACK when the peer is
    on the web, and a length field that is the length. *)
Theorem convert_roundtrip cfg opts a b s pad actual_len :
  segment_wf s -> seg_pad s = 0 ->
  seg_len s = htons (SEGMENT_HDR_SIZE + Z.of_nat (length (seg_data s))) ->
  FULL_HDR_SIZE + Z.of_nat (length (seg_data s)) < 2 ^ 16 ->
  wire_flags opts (seg_flags s) = seg_flags s ->
  0 <= ip_addr cfg < 2 ^ 32 -> 0 <= cn_ip_addr a < 2 ^ 32 ->
  numbers_agree a b ->
  exists d buf,
    convert_to_datagram cfg opts a s (SEGMENT_HDR_SIZE + Z.of_nat (length (seg_data s))) m =
      Done d m /\
    convert_to_ctcp b (datagram_bytes d ++ pad) actual_len m = Done (s, buf) m.
Proof. apply convert_back. Qed.
End Theorems.

Section MoreTheorems.
Context {S : Type} (m : S).

(** Storing a checksum in its cleared field of a header, at an even offset. *)
Lemma stored_checksum pre post :
  Nat.Even (length pre) ->
  word_sum (pre ++ le_bytes 2 (cksum_of (pre ++ le_bytes 2 0 ++ post)) ++ post) mod 65535 = 0.
Proof.
  intros He. assert (E2 : forall v, Nat.Even (length (le_bytes 2 v))).
  { intros v. rewrite le_bytes_length. by exists 1%nat. }
  unfold cksum_of. set (sum := word_sum (pre ++ le_bytes 2 0 ++ post)).
  assert (Es : sum = word_sum pre + word_sum post).
  { subst sum. rewrite !word_sum_app by done.
    change (word_sum (le_bytes 2 0)) with 0. lia. }
  pose proof (Z.mod_pos_bound sum 65535 ltac:(lia)).
  rewrite !word_sum_app by done.
  rewrite word_sum_le_bytes by lia.
  replace (word_sum pre + (65535 - sum mod 65535 + word_sum post))
    with (sum - sum mod 65535 + 1 * 65535) by lia.
  rewrite Z_mod_plus_full, Zminus_mod_idemp_r, Z.sub_diag. done.
Qed.

Lemma made_iphdr_verifies src dst len :
  word_sum (iphdr_bytes (made_iphdr src dst len)) mod 65535 = 0.
Proof.
  unfold made_iphdr. set (h := plain_iphdr src dst len).
  assert (E : forall v, iphdr_bytes (set_ip_check v h) =
    take 10 (iphdr_bytes h) ++ le_bytes 2 v ++ drop 12 (iphdr_bytes h)) by done.
  assert (E0 : iphdr_bytes h = take 10 (iphdr_bytes h) ++ le_bytes 2 0 ++ drop 12 (iphdr_bytes h))
    by done.
  rewrite E, E0 at 1. rewrite <- E0. clear E. rewrite E0 at 2. apply stored_checksum.
  rewrite length_take, iphdr_bytes_length. by exists 5%nat.
Qed.

(** Whether the TCP checksum of a packet is the one of its contents. *)
Definition tcp_cksum_ok (d : datagram) : Prop :=
  th_sum (dg_tcp d) =
  tcp_cksum_of (Datagram (dg_ip d) (set_th_sum 0 (dg_tcp d)) (dg_payload d))
    (Z.of_nat (length (dg_payload d))).

Lemma shifted_sum c x y :
  0 <= c < 2 ^ 16 -> 0 <= x < 2 ^ 16 -> 0 <= y < 2 ^ 16 ->
  u16 (c + (x - y)) = c <-> y = x.
Proof. intros Hc Hx Hy. unfold u16. split; intros; Z.div_mod_to_equations; lia. Qed.

(** The packet of a segment has the announced length and version, an IP header
    whose checksum verifies, the segment's data, and a TCP checksum that is
    right exactly when the segment's own checksum is. *)
Theorem convert_to_datagram_spec cfg opts dst s len :
  segment_wf s -> len = SEGMENT_HDR_SIZE + Z.of_nat (length (seg_data s)) ->
  len + 20 < 2 ^ 16 ->
  exists d, convert_to_datagram cfg opts dst s len m = Done d m /\
    dg_payload d = seg_data s /\
    ip_version (dg_ip d) = 4 /\ ip_ihl (dg_ip d) = 5 /\
    ntohs (ip_tot_len (dg_ip d)) = Z.of_nat (length (datagram_bytes d)) /\
    word_sum (iphdr_bytes (dg_ip d)) mod 65535 = 0 /\
    (tcp_cksum_ok d <-> seg_cksum s = cksum_of (segment_bytes (set_cksum 0 s))).
Proof.
  intros Hwf Hl Hmax. eexists. split; [by apply convert_to_datagram_run|].
  unfold packet_of at 1 2 3 4 5 6. rewrite datagram_bytes_length. cbn [dg_payload dg_ip].
  split_and!; try done.
  - cbn [made_iphdr plain_iphdr set_ip_check ip_tot_len].
    unfold SEGMENT_HDR_SIZE, FULL_HDR_SIZE, IP_HDR_SIZE, TCP_HDR_SIZE in *.
    rewrite ntohs_htons by lia. lia.
  - apply made_iphdr_verifies.
  - unfold tcp_cksum_ok, packet_of at 1. cbn [dg_tcp th_sum made_tcphdr].
    change (Datagram _ (set_th_sum 0 _) _) with (packet_of cfg opts dst s 0).
    cbn [dg_payload packet_of]. unfold packet_sum. apply shifted_sum.
    + pose proof (cksum_of_range (pseudoheader (ip_saddr (dg_ip (packet_of cfg opts dst s 0)))
        (ip_daddr (dg_ip (packet_of cfg opts dst s 0))) IPPROTO_TCP
        (htons (TCP_HDR_SIZE + Z.of_nat (length (seg_data s)))) ++
        tcphdr_bytes (dg_tcp (packet_of cfg opts dst s 0)) ++
        take (Z.to_nat (Z.of_nat (length (seg_data s)))) (dg_payload (packet_of cfg opts dst s 0))))
        as Hr.
      unfold tcp_cksum_of. lia.
    + pose proof (cksum_of_range (segment_bytes (set_cksum 0 s))). lia.
    + apply Hwf.
Qed.
End MoreTheorems.

Section ReceivedPackets.
Context {S : Type} (m : S).

(** A packet whose announced length is that of the headers or more, and within the
    buffer, is converted, and the segment has the bytes that it announces. *)
Lemma convert_to_ctcp_ok src bs d actual_len :
  datagram_of_bytes bs = Some d -> Z.of_nat (length bs) <= MAX_PACKET_SIZE ->
  FULL_HDR_SIZE <= ntohs (ip_tot_len (dg_ip d)) <= Z.of_nat (length bs) ->
  exists s buf, convert_to_ctcp src bs actual_len m = Done (s, buf) m /\
    ntohs (seg_len s) = Z.of_nat (length (segment_bytes s)) /\
    seg_flags s = th_flags (dg_tcp d).
Proof.
  unfold MAX_PACKET_SIZE, FULL_HDR_SIZE, IP_HDR_SIZE, TCP_HDR_SIZE. intros Hd Hmax [H1 H2].
  destruct (datagram_of_bytes_Some bs) as (d' & Hd' & Hb & Hi & Ht).
  { unfold FULL_HDR_SIZE, IP_HDR_SIZE, TCP_HDR_SIZE. lia. }
  rewrite Hd in Hd'. injection Hd' as <-.
  pose proof (datagram_bytes_length d) as Hl. rewrite Hb in Hl.
  destruct d as [ip tcp payload]. cbn [dg_ip dg_tcp dg_payload] in *. rewrite <- Hb.
  rewrite <- (take_drop (Z.to_nat (ntohs (ip_tot_len ip) - 40)) payload).
  unfold datagram_bytes. cbn [dg_ip dg_tcp dg_payload]. rewrite (app_assoc _ (take _ _)).
  rewrite (app_assoc (iphdr_bytes ip)).
  change (iphdr_bytes ip ++ tcphdr_bytes tcp ++ take (Z.to_nat (ntohs (ip_tot_len ip) - 40)) payload)
    with (datagram_bytes (Datagram ip tcp (take (Z.to_nat (ntohs (ip_tot_len ip) - 40)) payload))).
  assert (Ep : Z.of_nat (length (take (Z.to_nat (ntohs (ip_tot_len ip) - 40)) payload)) =
               ntohs (ip_tot_len ip) - 40) by (rewrite length_take; lia).
  set (data := take _ payload) in *. eexists _, _. split.
  - apply convert_to_ctcp_run; [done|done| |];
      rewrite Ep; unfold FULL_HDR_SIZE, IP_HDR_SIZE, TCP_HDR_SIZE; [|lia].
    replace (20 + 20 + (ntohs (ip_tot_len ip) - 40)) with (ntohs (ip_tot_len ip)) by lia.
    symmetry. apply htons_ntohs, Hi.
  - split; [|done].
    rewrite segment_bytes_length. cbn [seg_len seg_data set_cksum segment_of dg_payload].
    unfold SEGMENT_HDR_SIZE. rewrite ntohs_htons by lia. lia.
Qed.

(** C30: [convert_to_ctcp] trusts the length in the IP header, not the length of
    what was received ([actual_len] is not used). It is defined exactly when
    the announced length covers the headers and lies within the buffer that is
    handed over, which in [do_loop] is one of 1480 zeroed bytes however short the
    packet was; else it reads, or writes, out of bounds. *)
Theorem convert_to_ctcp_defined src bs d actual_len :
  Z.of_nat (length bs) <= MAX_PACKET_SIZE -> datagram_of_bytes bs = Some d ->
  (exists s buf, convert_to_ctcp src bs actual_len m = Done (s, buf) m) <->
  FULL_HDR_SIZE <= ntohs (ip_tot_len (dg_ip d)) <= Z.of_nat (length bs).
Proof.
  unfold MAX_PACKET_SIZE, FULL_HDR_SIZE, IP_HDR_SIZE, TCP_HDR_SIZE. intros Hmax Hd.
  assert (Hlen : FULL_HDR_SIZE <= Z.of_nat (length bs)).
  { destruct (decide (FULL_HDR_SIZE <= Z.of_nat (length bs))) as [|Hn]; [done|].
    rewrite datagram_of_bytes_None in Hd by lia. done. }
  destruct (datagram_of_bytes_Some bs Hlen) as (d' & Hd' & Hb & Hi & Ht).
  rewrite Hd in Hd'. injection Hd' as <-.
  pose proof (datagram_bytes_length d) as Hl. rewrite Hb in Hl.
  pose proof (ntohs_range (ip_tot_len (dg_ip d))) as Hr.
  destruct d as [ip tcp payload]. cbn [dg_ip dg_tcp dg_payload] in *. split.
  - intros (s & buf & E). unfold convert_to_ctcp in E. rewrite Hd in E.
    cbn [deref] in E. erewrite bind_Done in E by reflexivity. cbn [dg_ip dg_tcp dg_payload] in E.
    unfold FULL_HDR_SIZE, IP_HDR_SIZE, TCP_HDR_SIZE, SEGMENT_HDR_SIZE in E.
    set (data_len := u16 (ntohs (ip_tot_len ip) - (20 + 20))) in E.
    destruct (20 <=? u16 (data_len + 20)) eqn:El; [|done].
    erewrite bind_Done in E by reflexivity. apply Z.leb_le in El.
    assert (Hc : data_len <= Z.of_nat (length payload)).
    { destruct (Z.gtb_spec data_len 0); [|lia]. unfold memcpy in E.
      case_bool_decide as Hm; [lia|]. by erewrite bind_Undef in E by reflexivity. }
    subst data_len. unfold u16 in *. Z.div_mod_to_equations. lia.
  - intros H. destruct (convert_to_ctcp_ok src bs (Datagram ip tcp payload) actual_len)
      as (s & buf & Hr' & _); [done|done|exact H|]. by exists s, buf.
Qed.

(** [create_tcp_seg] makes a packet with the sequence numbers of the
    destination, the window unless it is a reset, and checksums that are right,
    and advances the next sequence number by the length of the data. *)
Theorem create_tcp_seg_spec cfg ctcp_cfg dst flags data :
  Z.of_nat (length data) + 40 < 2 ^ 16 ->
  exists d dst', create_tcp_seg cfg ctcp_cfg dst flags (Some data) (Z.of_nat (length data)) m =
      Done (d, dst') m /\
    dg_payload d = data /\ ntohs (ip_tot_len (dg_ip d)) = Z.of_nat (length (datagram_bytes d)) /\
    word_sum (iphdr_bytes (dg_ip d)) mod 65535 = 0 /\ tcp_cksum_ok d /\
    th_flags (dg_tcp d) = flags /\
    th_seq (dg_tcp d) = htonl (cn_next_seqno dst) /\ th_ack (dg_tcp d) = htonl (cn_ackno dst) /\
    th_win (dg_tcp d) =
      (if has_flag flags TH_RST then 0 else htons (cfg_recv_window ctcp_cfg)) /\
    dst' = set_cn_next_seqno (u32 (cn_next_seqno dst + Z.of_nat (length data)))
             (set_cn_seqno (cn_next_seqno dst) dst).
Proof.
  intros Hmax. unfold create_tcp_seg, TCP_HDR_SIZE. rewrite (u16_small (20 + _)) by lia.
  eexists _, _. split.
  { erewrite bind_Done by (apply create_datagram_run; unfold IP_HDR_SIZE; lia).
    cbv beta iota. rewrite zero_tcphdr by lia. cbn [deref].
    erewrite bind_Done by reflexivity. rewrite drop_replicate.
    erewrite bind_Done by (apply copy_all; rewrite length_replicate; lia).
    cbv zeta. erewrite bind_Done
      by (apply cksum_tcp_run; [lia|unfold TCP_PSEUDOHDR_SIZE; lia|cbn [dg_payload]; lia]).
    reflexivity. }
  rewrite datagram_bytes_length.
  cbn [dg_payload dg_ip dg_tcp th_flags th_seq th_ack th_win set_th_sum].
  split_and!; try done.
  - cbn [made_iphdr plain_iphdr set_ip_check ip_tot_len]. unfold IP_HDR_SIZE.
    rewrite ntohs_htons by lia. lia.
  - apply made_iphdr_verifies.
Qed.

Lemma line_ending_run line (rest : list byte) :
  let buf := line ++ [Byte.x0a] ++ rest in
  add_network_line_ending true buf (Z.of_nat (length line) + 1) m =
  match rest with
  | _ :: _ :: rest => Done (true, line ++ [Byte.x0d; Byte.x0a; Byte.x00] ++ rest) m
  | _ => Undef
  end.
Proof.
  cbv zeta. unfold add_network_line_ending. cbn [negb].
  rewrite bool_decide_true by lia.
  replace (Z.to_nat (Z.of_nat (length line) + 1 - 1)) with (length line + 0)%nat by lia.
  rewrite lookup_app_r, Nat.add_sub' by lia.
  cbn [lookup list_lookup app deref]. erewrite bind_Done by reflexivity.
  change (bool_decide (b2z Byte.x0a = 10)) with true. cbn [negb].
  destruct rest as [|b1 [|b2 rest]];
    rewrite length_app; cbn [length].
  - rewrite (proj2 (Z.ltb_ge _ _)) by lia. done.
  - rewrite (proj2 (Z.ltb_ge _ _)) by lia. done.
  - rewrite (proj2 (Z.ltb_lt _ _)) by lia. erewrite bind_Done by reflexivity.
    replace (Z.to_nat (Z.of_nat (length line) + 1)) with (length line + 1)%nat by lia.
    replace (Z.to_nat (Z.of_nat (length line) + 1 + 1)) with (length line + 2)%nat by lia.
    by rewrite !insert_app_r.
Qed.

(** A line read for a web server gets a network line ending: the last
    newline becomes a carriage return and a newline, and a terminator is
    written past them; without room for both the write is out of bounds. *)
Theorem add_network_line_ending_spec line (rest : list byte) :
  let buf := line ++ [Byte.x0a] ++ rest in
  add_network_line_ending true buf (Z.of_nat (length line) + 1) m =
  match rest with
  | _ :: _ :: rest => Done (true, line ++ [Byte.x0d; Byte.x0a; Byte.x00] ++ rest) m
  | _ => Undef
  end.
Proof. apply line_ending_run. Qed.
End ReceivedPackets.

(** ** Witnesses: the two ends of a local connection *)

Definition pkt_cfg : config := Config 3 16777343 9999 None None.
Definition pkt_opts : options := Options false true false 0 0 0 0 (-1) false false.
Definition pkt_conn (init their : Z) : conn :=
  set_cn_their_init_seqno their (conn_setup init 16777343 8888 true zero_conn).

Lemma convert_roundtrip_witness :
  exists d buf,
    convert_to_datagram pkt_cfg pkt_opts (pkt_conn 4294967290 7) segment_example
      (SEGMENT_HDR_SIZE + 2) tt = Done d tt /\
    convert_to_ctcp (pkt_conn 7 4294967290) (datagram_bytes d ++ replicate 10 Byte.x00) 62 tt =
      Done (segment_example, buf) tt.
Proof.
  apply (convert_roundtrip tt pkt_cfg pkt_opts (pkt_conn 4294967290 7) (pkt_conn 7 4294967290)
           segment_example); [exact segment_example_wf|..]; by vm_compute.
Defined.

Lemma convert_to_datagram_spec_witness :
  exists d, convert_to_datagram pkt_cfg pkt_opts (pkt_conn 5 7) segment_example 22 tt = Done d tt /\
    dg_payload d = seg_data segment_example /\
    ip_version (dg_ip d) = 4 /\ ip_ihl (dg_ip d) = 5 /\
    ntohs (ip_tot_len (dg_ip d)) = Z.of_nat (length (datagram_bytes d)) /\
    word_sum (iphdr_bytes (dg_ip d)) mod 65535 = 0 /\
    (tcp_cksum_ok d <-> seg_cksum segment_example =
                        cksum_of (segment_bytes (set_cksum 0 segment_example))).
Proof.
  apply (convert_to_datagram_spec tt); [exact segment_example_wf|by vm_compute..].
Defined.

(** A packet that announces a byte more than the buffer holds. *)
Definition long_packet : list byte :=
  datagram_bytes (Datagram (made_iphdr 1 2 44) (TcpHdr 1 2 3 4 0 5 TH_ACK 6 7 0)
                    [Byte.x61; Byte.x62; Byte.x63]).

Lemma convert_to_ctcp_defined_witness :
  (exists s buf, convert_to_ctcp (pkt_conn 5 7) long_packet 43 tt = Done (s, buf) tt) <->
  40 <= 44 <= 43.
Proof.
  apply (convert_to_ctcp_defined tt (pkt_conn 5 7) long_packet
    (Datagram (made_iphdr 1 2 44) (TcpHdr 1 2 3 4 0 5 TH_ACK 6 7 0)
                    [Byte.x61; Byte.x62; Byte.x63]) 43); by vm_compute.
Defined.

Lemma create_tcp_seg_spec_witness :
  exists d dst',
    create_tcp_seg pkt_cfg (CtcpConfig 1440 1440 40 200) (pkt_conn 5 7) TH_SYN (Some []) 0 tt =
      Done (d, dst') tt /\
    dg_payload d = [] /\ ntohs (ip_tot_len (dg_ip d)) = Z.of_nat (length (datagram_bytes d)) /\
    word_sum (iphdr_bytes (dg_ip d)) mod 65535 = 0 /\ tcp_cksum_ok d /\
    th_flags (dg_tcp d) = TH_SYN /\
    th_seq (dg_tcp d) = htonl 5 /\ th_ack (dg_tcp d) = htonl 0 /\
    th_win (dg_tcp d) = (if has_flag TH_SYN TH_RST then 0 else htons 1440) /\
    dst' = set_cn_next_seqno (u32 (5 + 0)) (set_cn_seqno 5 (pkt_conn 5 7)).
Proof.
  apply (create_tcp_seg_spec tt pkt_cfg (CtcpConfig 1440 1440 40 200) (pkt_conn 5 7) TH_SYN []).
  by vm_compute.
Defined.
