(* ===== verification/Conn.v ===== *)
(** * Connections ([src/ctcp_sys_internal.c])

    The operations on [conn_t] objects: their list, reading input, sending
    segments over an unreliable network, the output queue, and the end of a
    client. Messages on [stderr] are left out; a forked process is followed
    like its parent, the result of [fork] telling which one it is. *)

From stdpp Require Import strings.
From S2P Require Import Prelude Heap Words Cksum Segment ConnLib Ctcp Host Packet.

Section Conn.
Context {E : Type} `{!Os E}.

(** ** The list of connections *)

Definition set_head (conn : ptr) : M (sys E) unit :=
  server ← opt SERVER;
  if server : bool
  then modify (fun s => set_sys_config (set_connections conn (sys_config s)) s)
  else modify (fun s => set_sys_config (set_sconn conn (sys_config s)) s).

Definition conn_add (conn : loc) : M (sys E) unit :=
  conn_list ← get_connections;
  when (negb (bool_decide (Some conn = conn_list)))
    (on_conns (update conn (set_cn_prev CPrevLocal));;
     on_conns (update conn (set_cn_next conn_list));;
     match conn_list with
     | Some l => on_conns (update l (set_cn_prev (CPrevNext conn)))
     | None => mret tt
     end);;
  on_conns (update conn (set_cn_out_queue_tail TailQueue));;
  set_head (Some conn).

(** ** The output queue *)

(** The chain of chunks has fewer chunks than there are. *)
Definition queue_fuel : M (sys E) nat := gets (fun s => S (size (mem (sys_chunks s)))).

Fixpoint bufspace_loop (fuel : nat) (chunk : ptr) (used : Z) : M (heap Host.chunk) Z :=
  match chunk with
  | None => mret used
  | Some k =>
      match fuel with
      | O => no_fuel
      | S fuel =>
          c ← load k;
          bufspace_loop fuel (ck_next c) (u64 (used + u64 (ck_size c - ck_used c)))
      end
  end.

Definition conn_bufspace (conn : ptr) : M (sys E) Z :=
  l ← deref conn;
  c ← on_conns (load l);
  fuel ← queue_fuel;
  used ← on_chunks (bufspace_loop fuel (cn_out_queue c) 0);
  mret (if used >? MAX_BUF_SPACE then 0 else MAX_BUF_SPACE - used).

(** Where the output of a connection goes. *)
Definition output_fd (c : conn) : M (sys E) Z :=
  rp ← opt run_program; mret (if rp : bool then cn_stdin c else STDOUT_FILENO).

(** The loop of [conn_drain]: whether anything has been output. *)
Fixpoint drain_loop (fuel : nat) (conn : loc) (outputted : bool) : M (sys E) bool :=
  match fuel with
  | O => no_fuel
  | S fuel =>
      c ← on_conns (load conn);
      match cn_out_queue c with
      | None => mret outputted
      | Some k =>
          chunk ← on_chunks (load k);
          fd ← output_fd c;
          access ((0 <=? ck_used chunk) && (ck_size chunk <=? Z.of_nat (length (ck_buf chunk))));;
          w ← call_write fd (slice (Z.to_nat (ck_used chunk))
                               (Z.to_nat (ck_size chunk - ck_used chunk)) (ck_buf chunk));
          match w with
          | IoErr errno =>
              when (negb (bool_decide (errno = EAGAIN)))
                (on_conns (update conn (set_cn_wrote_err true)));;
              mret outputted
          | IoOk w =>
              let used := u64 (ck_used chunk + w) in
              on_chunks (update k (set_ck_used used));;
              if used <? ck_size chunk then
                update_event STDOUT_FILENO
                  (fun p => set_pfd_events (Z.lor (pfd_events p) POLLOUT) p);;
                mret true
              else
                on_conns (update conn (set_cn_out_queue (ck_next chunk)));;
                when (bool_decide (ck_next chunk = None))
                  (on_conns (update conn (set_cn_out_queue_tail TailQueue)));;
                on_chunks (free (Some k));;
                drain_loop fuel conn true
          end
      end
  end.

(** [conn_drain] up to the call of [ctcp_output], which [Loop.v] adds: whether
    it is made. *)
Definition conn_drain_io (conn : loc) : M (sys E) bool :=
  update_event STDOUT_FILENO
    (fun p => set_pfd_events (Z.land (pfd_events p) (Z.lnot POLLOUT)) p);;
  c ← on_conns (load conn);
  if cn_wrote_err c then mret false
  else
    fuel ← queue_fuel;
    outputted ← drain_loop fuel conn false;
    c ← on_conns (load conn);
    when (cn_wrote_eof c && negb (cn_wrote_err c) && bool_decide (cn_out_queue c = None))
      (on_conns (update conn (set_cn_wrote_err true)));;
    c ← on_conns (load conn);
    mret (outputted && negb (cn_delete_me c)).

(** [*conn->out_queue_tail = chunk]. *)
Definition store_tail (conn : loc) (c : Host.conn) (chunk : ptr) : M (sys E) unit :=
  match cn_out_queue_tail c with
  | TailNull => undef
  | TailQueue => on_conns (update conn (set_cn_out_queue chunk))
  | TailChunk j => on_chunks (update j (set_ck_next chunk))
  end.

(** The part of [conn_output] that writes at once: what is left to write, or
    [None] after an error. *)
Definition output_now (conn : loc) (c : Host.conn) (buf : list byte) (len : Z) :
    M (sys E) (option (list byte * Z)) :=
  match cn_out_queue c with
  | Some _ => mret (Some (buf, len))
  | None =>
      fd ← output_fd c;
      w ← call_write fd (take (Z.to_nat len) buf);
      match w with
      | IoErr errno =>
          if negb (bool_decide (errno = EAGAIN)) then
            on_conns (update conn (set_cn_wrote_err true));; mret None
          else mret (Some (buf, len))
      | IoOk w => mret (Some (drop (Z.to_nat w) buf, i32 (len - w)))
      end
  end.

Definition conn_output (conn : ptr) (buf : list byte) (len : Z) : M (sys E) Z :=
  l ← deref conn;
  c ← on_conns (load l);
  assert_c (negb (cn_delete_me c));;
  if cn_wrote_eof c then mret 0
  else if bool_decide (len = 0) then
    on_conns (update l (set_cn_wrote_eof true));; mret 0
  else if cn_wrote_err c then mret (-1)
  else
    space ← conn_bufspace conn;
    if bool_decide (space = 0) then mret 0
    else
      access (len <=? Z.of_nat (length buf));;
      r ← output_now l c buf (i32 len);
      match r with
      | None => mret (-1)
      | Some (buf, remaining) =>
          when (remaining >? 0)
            (k ← on_chunks (calloc (Chunk None remaining 0 (take (Z.to_nat remaining) buf)));
             store_tail l c (Some k);;
             on_conns (update l (set_cn_out_queue_tail (TailChunk k))));;
          c ← on_conns (load l);
          when (negb (bool_decide (cn_out_queue c = None)))
            (fd ← output_fd c;
             update_event fd (fun p => set_pfd_events (Z.lor (pfd_events p) POLLOUT) p));;
          mret (i32 len)
      end.

(** ** Input *)

(** [read(fd, buf + off, len)] into a buffer: the result, the error number and
    the buffer. *)
Definition read_into (fd : Z) (buf : list byte) (off len : Z) :
    M (sys E) (Z * Z * list byte) :=
  r ← call_read fd len;
  match r with
  | IoErr errno => mret (-1, errno, buf)
  | IoOk bs =>
      access (off + Z.of_nat (length bs) <=? Z.of_nat (length buf));;
      mret (Z.of_nat (length bs), 0,
            take (Z.to_nat off) buf ++ bs ++ drop (Z.to_nat off + length bs) buf)
  end.

(** The reading part of [conn_input]. *)
Definition input_read (o : options) (c : conn) (buf : list byte) (len : Z) :
    M (sys E) (Z * Z * list byte) :=
  if run_program o then read_into (cn_stdout c) buf 0 len
  else if unix_socket o then read_into STDIN_FILENO buf 0 len
  else
    '(r, errno, buf) ← read_into STDIN_FILENO buf 0 (len - 1);
    if r >? 0 then
      '(added, buf) ← add_network_line_ending (negb (unix_socket o)) buf r;
      if added : bool then mret (r + 1, errno, buf)
      else
        '(r', errno, buf) ← read_into STDIN_FILENO buf r 1;
        mret (r + r', errno, buf)
    else mret (r, errno, buf).

Definition conn_input (conn : ptr) (buf : option (list byte)) (len : Z) :
    M (sys E) (Z * list byte) :=
  l ← deref conn;
  c ← on_conns (load l);
  assert_c (negb (cn_delete_me c));;
  match buf with
  | None => mret (-1, [])
  | Some buf =>
      if cn_read_eof c then mret (-1, buf)
      else
        o ← gets sys_options;
        '(r, errno, buf) ← input_read o c buf len;
        eof ← (if bool_decide (r = 0) then mret true
               else if (r <? 0) && negb (bool_decide (errno = EAGAIN)) then mret true
               else if (test_debug_on o || lab5_mode o) && (r >? 0) then
                 b ← deref (buf !! 0%nat); mret (bool_decide (b2z b = 0x1a))
               else mret false);
        if eof : bool then
          on_conns (update l (set_cn_read_eof true));; mret (-1, buf)
        else if (r <? 0) && bool_decide (errno = EAGAIN) then mret (0, buf)
        else mret (r, buf)
  end.

(** ** Sending *)

(** The sum wraps around as the [int] it is; C's [%] has the sign of the
    dividend. *)
Definition rand_percent (level : Z) : M (sys E) Z :=
  r ← rand; mret (Z.rem (i32 (r + level * SALT)) 100).

(** The condition that [conn_send] tests for each kind of unreliability: in
    the tester's mode once, otherwise at random. *)
Definition happens (o : options) (level percent : Z) : M (sys E) bool :=
  if test_debug_on o then
    did ← gets sys_did_unreliable;
    mret (negb did && negb (bool_decide (percent = 0)))
  else
    r ← rand_percent level; mret (r <? percent).

Definition did_it : M (sys E) unit := modify (set_sys_did_unreliable true).

Definition send_pkt (dst : conn) (buf : list byte) (len : Z) : M (sys E) Z :=
  o ← gets sys_options;
  let addr := if unix_socket o then AddrUn (cn_sunaddr dst) else AddrIn (cn_saddr dst) in
  fd ← conf socket;
  access (len <=? Z.of_nat (length buf));;
  call_sendto fd (take (Z.to_nat len) buf) addr.

Definition log_segment (conn : ptr) (segment : list byte) (len : Z) (is_sent : bool) :
    M (sys E) unit :=
  o ← gets sys_options;
  when (negb (bool_decide (log_file o = -1)) || test_debug_on o)
    (io_log (IoLogged conn segment len is_sent)).

(** The part of [conn_send] after drops, duplicates and delays. *)
Definition send_copy (o : options) (conn : ptr) (c : Host.conn) (segment_copy : list byte)
    (len fork_level : Z) : M (sys E) Z :=
  p ← rand_percent fork_level;
  let do_corrupt := p <? opt_corrupt o in
  let data_length := u16 (len - SEGMENT_HDR_SIZE + 4) in
  r ← rand;
  let rand_bit := u16 (Z.rem r (data_length * 8 - 1) + (SEGMENT_HDR_SIZE - 4) * 8) in
  did ← gets sys_did_unreliable;
  segment_copy ←
    (if (test_debug_on o && negb did && negb (bool_decide (opt_corrupt o = 0)))
        || (negb (test_debug_on o) && do_corrupt)
     then did_it;; deref (flipbit segment_copy rand_bit)
     else mret segment_copy);
  let data_len := u16 (len - SEGMENT_HDR_SIZE) in
  let total_len := u16 (FULL_HDR_SIZE + data_len) in
  log_segment conn segment_copy len true;;
  segment ← deref (segment_of_bytes segment_copy);
  cfg ← gets sys_config;
  pkt ← convert_to_datagram cfg o c segment len;
  n ← send_pkt c (datagram_bytes pkt) total_len;
  mret n.

Definition conn_send (conn : ptr) (segment : option (list byte)) (len : Z) :
    M (sys E) Z :=
  l ← deref conn;
  c ← on_conns (load l);
  assert_c (negb (cn_delete_me c));;
  match segment with
  | None => mret (-1)
  | Some segment =>
      access (len <=? Z.of_nat (length segment));;
      let segment_copy := take (Z.to_nat len) segment in
      o ← gets sys_options;
      dropped ← happens o 0 (opt_drop o);
      if dropped : bool then did_it;; mret len
      else
        duplicate ← happens o 0 (opt_duplicate o);
        fork_level ←
          (if duplicate : bool then did_it;; pid ← fork; mret (if bool_decide (pid = 0) then 1 else 0)
           else mret 0);
        delay ← happens o fork_level (opt_delay o);
        fork_level' ←
          (if delay : bool then
             did_it;;
             pid ← fork;
             if bool_decide (pid = 0) then rand;; mret (Some (fork_level + 1)) else mret None
           else mret (Some fork_level));
        match fork_level' with
        | None => mret len
        | Some fork_level =>
            n ← send_copy o conn c segment_copy len fork_level;
            if bool_decide (0 < fork_level) then exit_with 0
            else if n >=? TCP_HDR_SIZE
            then mret (n - (TCP_HDR_SIZE + IP_HDR_SIZE - SEGMENT_HDR_SIZE))
            else mret n
        end
  end.

(** ** The end of connections *)

Definition conn_remove (conn : ptr) : M (sys E) unit :=
  l ← deref conn;
  on_conns (update l (set_cn_delete_me true)).

Fixpoint free_chunks (fuel : nat) (chunk : ptr) : M (heap Host.chunk) unit :=
  match chunk with
  | None => mret tt
  | Some k =>
      match fuel with
      | O => no_fuel
      | S fuel => c ← load k; free (Some k);; free_chunks fuel (ck_next c)
      end
  end.

(** A write through [CPrevLocal] is a write to a dead local variable. *)
Definition conn_free (conn : loc) : M (sys E) unit :=
  c ← on_conns (load conn);
  fuel ← queue_fuel;
  on_chunks (free_chunks fuel (cn_out_queue c));;
  (match cn_next c with
   | Some n => on_conns (update n (set_cn_prev (cn_prev c)))
   | None => mret tt
   end);;
  c ← on_conns (load conn);
  (match cn_prev c with
   | CPrevNull => mret tt
   | CPrevLocal => undef
   | CPrevNext p => on_conns (update p (set_cn_next (cn_next c)))
   end);;
  conn_list ← get_connections;
  when (bool_decide (Some conn = conn_list)) (set_head None);;
  rp ← opt run_program;
  when rp (close (cn_stdin c);; close (cn_stdout c));;
  on_conns (free (Some conn)).

Fixpoint delete_loop (fuel : nat) (conn : ptr) : M (sys E) unit :=
  match conn with
  | None => mret tt
  | Some l =>
      match fuel with
      | O => no_fuel
      | S fuel =>
          c ← on_conns (load l);
          when (cn_delete_me c) (conn_free l);;
          delete_loop fuel (cn_next c)
      end
  end.

(** The list has no more connections than there are. *)
Definition list_fuel : M (sys E) nat := gets (fun s => S (size (mem (sys_conns s)))).

Definition delete_all_connections : M (sys E) unit :=
  conn ← get_connections;
  fuel ← list_fuel;
  delete_loop fuel conn.

Definition end_client : M (sys E) unit :=
  server ← opt SERVER;
  if server : bool then mret tt
  else
    delete_all_connections;;
    fd ← conf socket;
    close fd;;
    exit_with EXIT_SUCCESS.

(** ** Receiving *)

Fixpoint find_conn (fuel : nat) (o : options) (ip_hdr : iphdr) (tcp_hdr : tcphdr) (conn : ptr) :
    M (sys E) ptr :=
  match conn with
  | None => mret None
  | Some l =>
      match fuel with
      | O => no_fuel
      | S fuel =>
          c ← on_conns (load l);
          if bool_decide (cn_port c = ntohs (th_sport tcp_hdr)) &&
             (unix_socket o || bool_decide (cn_ip_addr c = ip_saddr ip_hdr)) &&
             (ntohl (th_seq tcp_hdr) >=? cn_their_init_seqno c) &&
             (ntohl (th_ack tcp_hdr) >=? cn_init_seqno c)
          then mret (Some l)
          else find_conn fuel o ip_hdr tcp_hdr (cn_next c)
      end
  end.

(** The result, the buffer and the connection. *)
Definition recv_filter (sockfd : Z) (buf : list byte) (len : Z) : M (sys E) (Z * list byte * ptr) :=
  r ← syscall (os_recv sockfd len);
  match r with
  | IoErr _ => mret (-1, buf, None)
  | IoOk bs =>
      access (Z.of_nat (length bs) <=? Z.of_nat (length buf));;
      let buf := bs ++ drop (length bs) buf in
      let r := Z.of_nat (length bs) in
      if r <? FULL_HDR_SIZE then mret (0, buf, None)
      else
        d ← deref (datagram_of_bytes buf);
        my_port ← conf port;
        if negb (bool_decide (th_dport (dg_tcp d) = htons (u16 my_port))) then mret (0, buf, None)
        else if has_flag (th_flags (dg_tcp d)) TH_RST then exit_with EXIT_FAILURE
        else if has_flag (th_flags (dg_tcp d)) TH_SYN then mret (r, buf, None)
        else
          o ← gets sys_options;
          conn ← get_connections;
          fuel ← list_fuel;
          rconn ← find_conn fuel o (dg_ip d) (dg_tcp d) conn;
          match rconn with
          | Some _ => mret (r, buf, rconn)
          | None => mret (0, buf, None)
          end
  end.

(** ** Control segments *)

Definition send_tcp_conn_seg (dst : loc) (flags : Z) : M (sys E) Z :=
  cfg ← gets sys_config;
  ccfg ← gets sys_ctcp_cfg;
  c ← on_conns (load dst);
  '(pkt, c') ← create_tcp_seg cfg ccfg c flags None 0;
  on_conns (store dst c');;
  r ← send_pkt c' (datagram_bytes pkt) FULL_HDR_SIZE;
  mret (if r <? 0 then -1 else 0).

Definition send_ack (dst : loc) : M (sys E) Z := send_tcp_conn_seg dst TH_ACK.
Definition send_rst (dst : loc) : M (sys E) Z := send_tcp_conn_seg dst TH_RST.
Definition send_syn (dst : loc) : M (sys E) Z := send_tcp_conn_seg dst TH_SYN.
Definition send_synack (dst : loc) : M (sys E) Z := send_tcp_conn_seg dst (Z.lor TH_SYN TH_ACK).
End Conn.
