(* ===== verification/Queue.v ===== *)
(** * The output queue of a connection in memory

    The chain of chunks of a connection as a list of entries, what is pending
    in it, the rules for the operations on the heaps of connections and chunks,
    and the loops that walk the chain. *)

From S2P Require Import Prelude Heap Words Cksum Segment ConnLib Ctcp Host Packet Conn.

(** ** The rules of the two heaps *)

Section Rules.
Context {E : Type} (X : sys E -> Prop).
Implicit Types s : sys E.

(** The memory with other connections, or other chunks, at the same next
    address. *)
Definition with_conns (m : gmap loc conn) s : sys E :=
  set_sys_conns (Heap m (brk (sys_conns s))) s.
Definition with_chunks (m : gmap loc chunk) s : sys E :=
  set_sys_chunks (Heap m (brk (sys_chunks s))) s.

Lemma wp_conn_load l c (Q : conn -> sys E -> Prop) s :
  mem (sys_conns s) !! l = Some c -> Q c s -> wp (on_conns (load l)) Q X s.
Proof. intros Hc HQ. apply wp_zoom, (wp_load _ l c); [done|]. by destruct s. Qed.

Lemma wp_conn_update l c f (Q : unit -> sys E -> Prop) s :
  mem (sys_conns s) !! l = Some c ->
  Q tt (with_conns (<[l := f c]> (mem (sys_conns s))) s) ->
  wp (on_conns (update l f)) Q X s.
Proof. intros Hc HQ. by apply wp_zoom, (wp_update _ l c). Qed.

Lemma wp_chunk_load k c (Q : chunk -> sys E -> Prop) s :
  mem (sys_chunks s) !! k = Some c -> Q c s -> wp (on_chunks (load k)) Q X s.
Proof. intros Hc HQ. apply wp_zoom, (wp_load _ k c); [done|]. by destruct s. Qed.

Lemma wp_chunk_update k c f (Q : unit -> sys E -> Prop) s :
  mem (sys_chunks s) !! k = Some c ->
  Q tt (with_chunks (<[k := f c]> (mem (sys_chunks s))) s) ->
  wp (on_chunks (update k f)) Q X s.
Proof. intros Hc HQ. by apply wp_zoom, (wp_update _ k c). Qed.

Lemma wp_chunk_free k (Q : unit -> sys E -> Prop) s :
  is_Some (mem (sys_chunks s) !! k) ->
  Q tt (with_chunks (delete k (mem (sys_chunks s))) s) ->
  wp (on_chunks (free (Some k))) Q X s.
Proof. intros Hc HQ. by apply wp_zoom, wp_free. Qed.

Lemma wp_chunk_calloc c (Q : loc -> sys E -> Prop) s :
  Q (brk (sys_chunks s))
    (set_sys_chunks (Heap (<[brk (sys_chunks s) := c]> (mem (sys_chunks s)))
                       (Pos.succ (brk (sys_chunks s)))) s) ->
  wp (on_chunks (calloc c)) Q X s.
Proof. intros HQ. by apply wp_zoom, wp_calloc. Qed.

Lemma wp_opt {A} (f : options -> A) (Q : A -> sys E -> Prop) s :
  Q (f (sys_options s)) s -> wp (opt f) Q X s.
Proof. done. Qed.

Lemma wp_conf {A} (f : config -> A) (Q : A -> sys E -> Prop) s :
  Q (f (sys_config s)) s -> wp (conf f) Q X s.
Proof. done. Qed.

Lemma wp_output_fd c (Q : Z -> sys E -> Prop) s :
  Q (if run_program (sys_options s) then cn_stdin c else STDOUT_FILENO) s ->
  wp (output_fd c) Q X s.
Proof. done. Qed.

(** The polling table always has its entries. *)
Lemma wp_update_event i f (Q : unit -> sys E -> Prop) s :
  0 <= i < Z.of_nat (length (sys_events s)) ->
  (forall ev, length ev = length (sys_events s) -> Q tt (set_sys_events ev s)) ->
  wp (update_event i f) Q X s.
Proof.
  intros Hi HQ. unfold update_event. apply wp_bind, wp_gets, wp_bind.
  rewrite bool_decide_true by lia.
  destruct (lookup_lt_is_Some_2 (sys_events s) (Z.to_nat i)) as [p Hp]; [lia|].
  eapply wp_deref; [exact Hp|]. apply wp_modify, HQ. apply length_insert.
Qed.

Context `{!Os E, !OsLaws E}.

(** A write of [bs]: a prefix of it has been written, or nothing. *)
Lemma wp_call_write fd bs (Q : io_result Z -> sys E -> Prop) s :
  (forall e w, 0 <= w <= Z.of_nat (length bs) ->
     Q (IoOk w) (set_sys_io (sys_io s ++ [IoWrote fd (take (Z.to_nat w) bs)]) (set_sys_env e s))) ->
  (forall e errno, Q (IoErr errno) (set_sys_env e s)) ->
  wp (call_write fd bs) Q X s.
Proof.
  intros H1 H2. unfold call_write, syscall. apply wp_bind. unfold wp at 1.
  destruct (os_write fd bs (sys_env s)) as [[w|errno] e] eqn:Ew.
  - apply wp_bind, wp_modify, wp_ret, H1. by eapply os_write_law.
  - apply wp_bind, wp_ret, wp_ret, H2.
Qed.

Lemma wp_call_read fd n (Q : io_result (list byte) -> sys E -> Prop) s :
  0 <= n ->
  (forall e bs, Z.of_nat (length bs) <= n ->
     Q (IoOk bs) (set_sys_io (sys_io s ++ [IoRead fd bs]) (set_sys_env e s))) ->
  (forall e errno, Q (IoErr errno) (set_sys_env e s)) ->
  wp (call_read fd n) Q X s.
Proof.
  intros Hn H1 H2. unfold call_read, syscall. apply wp_bind. unfold wp at 1.
  destruct (os_read fd n (sys_env s)) as [[bs|errno] e] eqn:Er.
  - apply wp_bind, wp_modify, wp_ret, H1. by eapply os_read_law.
  - apply wp_bind, wp_ret, wp_ret, H2.
Qed.
End Rules.

(** ** The chain *)

(** A chunk of the queue: where it is, how much of it has been output, its
    bytes. *)
Record entry := Entry { en_loc : loc; en_used : Z; en_bytes : list byte }.

Definition locs (q : list entry) : list loc := en_loc <$> q.

Definition qhead (q : list entry) : ptr := en_loc <$> head q.

Definition entry_chunk (e : entry) (next : ptr) : chunk :=
  Chunk next (Z.of_nat (length (en_bytes e))) (en_used e) (en_bytes e).

(** The bytes not yet output. *)
Definition en_pending (e : entry) : list byte := drop (Z.to_nat (en_used e)) (en_bytes e).
Definition pending (q : list entry) : list byte := concat (en_pending <$> q).

Definition entry_wf (e : entry) : Prop :=
  0 <= en_used e < Z.of_nat (length (en_bytes e)) /\
  Z.of_nat (length (en_bytes e)) <= MAX_BUF_SPACE.

Fixpoint qchain (m : gmap loc chunk) (q : list entry) : Prop :=
  match q with
  | [] => True
  | e :: q' => m !! en_loc e = Some (entry_chunk e (qhead q')) /\ entry_wf e /\ qchain m q'
  end.

(** What [out_queue_tail] holds: null until the first use of a zeroed queue. *)
Definition qtail (q : list entry) : tail_ptr :=
  match last q with None => TailQueue | Some e => TailChunk (en_loc e) end.

(** No more than this is ever pending: output is refused once
    [MAX_BUF_SPACE] bytes are. *)
Definition MAX_PENDING : Z := 2 * MAX_BUF_SPACE.

Record queue_of (m : gmap loc chunk) (c : conn) (q : list entry) : Prop := QueueOf {
  qo_head : cn_out_queue c = qhead q;
  qo_tail : cn_out_queue_tail c = qtail q;
  qo_chain : qchain m q;
  qo_nodup : NoDup (locs q);
  qo_bound : Z.of_nat (length (pending q)) <= MAX_PENDING;
}.

Lemma qchain_insert m q k c :
  k ∉ locs q -> qchain m q -> qchain (<[k := c]> m) q.
Proof.
  induction q as [|e q IH]; [done|]. intros Hk (Hm & Hwf & Hq).
  apply not_elem_of_cons in Hk as [Hk1 Hk2].
  split_and!; [by rewrite lookup_insert_ne|done|by apply IH].
Qed.

Lemma qchain_delete m q k :
  k ∉ locs q -> qchain m q -> qchain (delete k m) q.
Proof.
  induction q as [|e q IH]; [done|]. intros Hk (Hm & Hwf & Hq).
  apply not_elem_of_cons in Hk as [Hk1 Hk2].
  split_and!; [by rewrite lookup_delete_ne|done|by apply IH].
Qed.

Lemma qchain_lookup m q k : qchain m q -> k ∈ locs q -> is_Some (m !! k).
Proof.
  induction q as [|e q IH]; [by intros _ ?%elem_of_nil|]. intros (Hm & _ & Hq) Hk.
  apply elem_of_cons in Hk as [->|Hk]; eauto.
Qed.

Lemma qhead_snoc q e : qhead (q ++ [e]) = match qhead q with Some k => Some k | None => Some (en_loc e) end.
Proof. by destruct q. Qed.

Lemma qhead_None q : qhead q = None <-> q = [].
Proof. by destruct q. Qed.

Lemma qtail_snoc q e : qtail (q ++ [e]) = TailChunk (en_loc e).
Proof. unfold qtail. by rewrite last_snoc. Qed.

Lemma qtail_cons e q : q <> [] -> qtail (e :: q) = qtail q.
Proof. intros Hq. unfold qtail. destruct q; [done|]. done. Qed.

Lemma locs_app q1 q2 : locs (q1 ++ q2) = locs q1 ++ locs q2.
Proof. apply fmap_app. Qed.

Lemma pending_app q1 q2 : pending (q1 ++ q2) = pending q1 ++ pending q2.
Proof. unfold pending. by rewrite fmap_app, concat_app. Qed.

Lemma pending_cons e q : pending (e :: q) = en_pending e ++ pending q.
Proof. done. Qed.

Lemma en_pending_length e : entry_wf e ->
  Z.of_nat (length (en_pending e)) = Z.of_nat (length (en_bytes e)) - en_used e.
Proof. intros Hwf. unfold entry_wf in Hwf. unfold en_pending. rewrite length_drop. lia. Qed.

(** Linking a new chunk after the last one of a chain. *)
Lemma qchain_link m q e e' :
  qchain m (q ++ [e]) -> NoDup (locs (q ++ [e])) -> entry_wf e' ->
  m !! en_loc e' = Some (entry_chunk e' None) -> en_loc e' ∉ locs (q ++ [e]) ->
  qchain (<[en_loc e := entry_chunk e (Some (en_loc e'))]> m) ((q ++ [e]) ++ [e']).
Proof.
  induction q as [|e0 q IH]; intros Hq Hnd Hwf He' Hni.
  - destruct Hq as (Hm & Hwfe & _). simpl in *.
    apply not_elem_of_cons in Hni as [Hne _].
    split_and!; [by rewrite lookup_insert_eq|done| |done|done].
    by rewrite lookup_insert_ne.
  - destruct Hq as (Hm & Hwf0 & Hq). simpl in Hnd, Hni.
    apply NoDup_cons in Hnd as [Hn0 Hnd]. apply not_elem_of_cons in Hni as [Hne Hni].
    split_and!; [|done|by apply IH].
    rewrite lookup_insert_ne.
    + rewrite Hm. do 2 f_equal. change (((e0 :: q) ++ [e]) ++ [e']) with (e0 :: (q ++ [e]) ++ [e']).
      destruct q; done.
    + intros E0. apply Hn0. rewrite <- E0. unfold locs. rewrite fmap_app.
      apply elem_of_app. right. apply list_elem_of_here.
Qed.

(** A chain has fewer chunks than the heap. *)
Lemma nodup_size {A} (m : gmap loc A) (ks : list loc) :
  NoDup ks -> (forall k, k ∈ ks -> is_Some (m !! k)) -> (length ks <= size m)%nat.
Proof.
  intros Hnd Hk. rewrite <- size_dom, <- (size_list_to_set (C := gset loc) ks) by done.
  apply subseteq_size. intros k Hi. apply elem_of_list_to_set in Hi.
  by apply elem_of_dom, Hk.
Qed.

Lemma qchain_size m q : qchain m q -> NoDup (locs q) -> (length q <= size m)%nat.
Proof.
  intros Hq Hnd. rewrite <- (length_fmap en_loc q). apply nodup_size; [done|].
  intros k. by apply qchain_lookup.
Qed.

(** ** The loop of [conn_bufspace] *)

Lemma bufspace_loop_run q : forall fuel used h,
  qchain (mem h) q -> (length q <= fuel)%nat -> 0 <= used ->
  used + Z.of_nat (length (pending q)) < 2 ^ 64 ->
  bufspace_loop fuel (qhead q) used h = Done (used + Z.of_nat (length (pending q))) h.
Proof.
  induction q as [|e q IH]; intros fuel used h Hq Hf Hu Hb.
  - cbn [pending] in *. destruct fuel; simpl; unfold mret, M_ret; f_equal; lia.
  - destruct Hq as (Hm & Hwf & Hq). destruct fuel as [|fuel]; [simpl in Hf; lia|].
    rewrite pending_cons, length_app in *. pose proof (en_pending_length e Hwf) as Hl.
    unfold entry_wf, MAX_BUF_SPACE in Hwf.
    cbn [qhead head fmap option_fmap option_map bufspace_loop].
    erewrite bind_Done by (unfold load; rewrite Hm; reflexivity).
    cbn [entry_chunk ck_size ck_used ck_next].
    unfold u64. rewrite (Z.mod_small (_ - _)) by lia. rewrite Z.mod_small by lia.
    rewrite IH; [f_equal; lia|done|simpl in Hf; lia|lia|lia].
Qed.

Section Bufspace.
Context {E : Type}.

Definition bufspace_of (q : list entry) : Z :=
  Z.max 0 (MAX_BUF_SPACE - Z.of_nat (length (pending q))).

Lemma conn_bufspace_run (s : sys E) l c q :
  mem (sys_conns s) !! l = Some c -> queue_of (mem (sys_chunks s)) c q ->
  conn_bufspace (Some l) s = Done (bufspace_of q) s.
Proof.
  intros Hc [Hh Ht Hq Hnd Hb]. unfold conn_bufspace. cbn [deref].
  erewrite bind_Done by reflexivity.
  erewrite (bind_Done _ _ s c s)
    by (unfold on_conns, zoom, load; rewrite Hc; by destruct s).
  erewrite (bind_Done _ _ s (S (size (mem (sys_chunks s)))) s) by reflexivity.
  erewrite (bind_Done _ _ s (0 + Z.of_nat (length (pending q))) s).
  - unfold bufspace_of, MAX_BUF_SPACE, mret, M_ret. rewrite Z.add_0_l. f_equal.
    destruct (Z.gtb_spec (Z.of_nat (length (pending q))) 8192); lia.
  - unfold on_chunks, zoom. rewrite Hh, bufspace_loop_run; [by destruct s|done| |lia|].
    + pose proof (qchain_size _ _ Hq Hnd). lia.
    + unfold MAX_PENDING, MAX_BUF_SPACE in Hb. lia.
Qed.
End Bufspace.
