(* ===== verification/ConnInv.v ===== *)
(** * The invariant of the connections

    What holds of the memory of the library between calls: every connection
    owns a well-formed output queue, the queues are disjoint, and the other
    facts that the functions rely on. The operations that touch one connection
    keep it. *)

From S2P Require Import Prelude Heap Words Cksum Segment ConnLib Ctcp Host Packet Conn Queue.

Definition NUM_EVENTS : Z := NUM_POLL + MAX_NUM_CLIENTS.

Section Inv.
Context {E : Type}.
Implicit Types s : sys E.

Definition conns s : gmap loc conn := mem (sys_conns s).
Definition chunks s : gmap loc chunk := mem (sys_chunks s).

(** The queues are those of [Q]. A client has one connection at most. *)
Record sys_inv (Q : gmap loc (list entry)) s : Prop := SysInv {
  si_conns_wf : heap_wf (sys_conns s);
  si_chunks_wf : heap_wf (sys_chunks s);
  si_queue l c : conns s !! l = Some c -> exists q, Q !! l = Some q /\ queue_of (chunks s) c q;
  si_sep l1 l2 q1 q2 k :
    Q !! l1 = Some q1 -> Q !! l2 = Some q2 -> k ∈ locs q1 -> k ∈ locs q2 -> l1 = l2;
  si_live l : is_Some (Q !! l) -> is_Some (conns s !! l);
  si_events : Z.of_nat (length (sys_events s)) = NUM_EVENTS;
  si_stdin l c :
    conns s !! l = Some c -> run_program (sys_options s) = true ->
    0 <= cn_stdin c < NUM_EVENTS;
  si_client :
    SERVER (sys_options s) = false ->
    match sconn (sys_config s) with
    | None => True
    | Some l => exists c, conns s !! l = Some c /\ cn_next c = None /\ cn_prev c = CPrevNull
    end;
}.

(** Nothing but connection [l], chunks, the environment and what has been read
    and written is different. *)
Record touched (l : loc) s s' : Prop := Touched {
  tc_options : sys_options s' = sys_options s;
  tc_config : sys_config s' = sys_config s;
  tc_ctcp_cfg : sys_ctcp_cfg s' = sys_ctcp_cfg s;
  tc_unreliable : sys_did_unreliable s' = sys_did_unreliable s;
  tc_connected : sys_num_connected s' = sys_num_connected s;
  tc_events : length (sys_events s') = length (sys_events s);
  tc_conns l' : l' <> l -> conns s' !! l' = conns s !! l';
  tc_brk : brk (sys_conns s') = brk (sys_conns s);
}.

#[export] Instance touched_refl l : Reflexive (touched l).
Proof. intros s. by split. Qed.
#[export] Instance touched_trans l : Transitive (touched l).
Proof.
  intros s1 s2 s3 [] []. split; try congruence.
  intros l' Hl. transitivity (conns s2 !! l'); auto.
Qed.

(** What an update of one connection and of chunks has to show. *)
Lemma sys_inv_update Q s s' l c c' q' :
  sys_inv Q s -> touched l s s' -> conns s !! l = Some c -> conns s' !! l = Some c' ->
  cn_next c' = cn_next c -> cn_prev c' = cn_prev c -> cn_stdin c' = cn_stdin c ->
  heap_wf (sys_chunks s') -> queue_of (chunks s') c' q' ->
  (forall l2 q2, l2 <> l -> Q !! l2 = Some q2 ->
     (forall k, k ∈ locs q2 -> chunks s' !! k = chunks s !! k) /\
     (forall k, k ∈ locs q2 -> k ∈ locs q' -> False)) ->
  sys_inv (<[l := q']> Q) s'.
Proof.
  intros [Hw1 Hw2 Hq Hsep Hlive Hev Hstdin Hcl] [To Tc _ _ _ Te Tl Tb] Hc Hc' En Ep Es Hw Hq' Hfr.
  split; try done.
  - intros k Hk. rewrite Tb. destruct (decide (k = l)) as [->|Hne]; [apply Hw1; eauto|].
    apply Hw1. change (is_Some (conns s !! k)). rewrite <- (Tl k Hne). exact Hk.
  - intros l2 c2 Hc2. destruct (decide (l2 = l)) as [->|Hne].
    + exists q'. rewrite lookup_insert_eq. split; [done|]. congruence.
    + rewrite Tl in Hc2 by done. destruct (Hq _ _ Hc2) as (q2 & HQ2 & [Hh Ht Hch Hnd Hb]).
      exists q2. rewrite lookup_insert_ne by done. split; [done|].
      destruct (Hfr _ _ Hne HQ2) as [Hsame _]. split; try done. clear -Hch Hsame.
      induction q2 as [|e q2 IH]; [done|]. destruct Hch as (Hm & Hwf & Hch).
      split_and!; [|done|].
      * rewrite Hsame by apply list_elem_of_here. done.
      * apply IH; [done|]. intros k Hk. by apply Hsame, list_elem_of_further.
  - intros l1 l2 q1 q2 k. rewrite !lookup_insert.
    destruct (decide (l = l1)) as [<-|H1], (decide (l = l2)) as [<-|H2]; [done| | |].
    + intros [= <-] HQ2 Hk1 Hk2. by destruct (Hfr l2 q2 ltac:(done) HQ2) as [_ []%(fun H => H k Hk2 Hk1)].
    + intros HQ1 [= <-] Hk1 Hk2. by destruct (Hfr l1 q1 ltac:(done) HQ1) as [_ []%(fun H => H k Hk1 Hk2)].
    + eauto.
  - intros l2. rewrite lookup_insert. destruct (decide (l = l2)) as [<-|H2]; [by eauto|].
    rewrite Tl by done. apply Hlive.
  - by rewrite Te.
  - intros l2 c2 Hc2. rewrite To. destruct (decide (l2 = l)) as [->|Hne].
    + intros Hr. replace (cn_stdin c2) with (cn_stdin c) by congruence. eauto.
    + rewrite Tl in Hc2 by done. eauto.
  - rewrite To, Tc. intros Hs. specialize (Hcl Hs). destruct (sconn (sys_config s)) as [lc|]; [|done].
    destruct Hcl as (cc & Hcc & Hn & Hp). destruct (decide (lc = l)) as [->|Hne].
    + exists c'. split_and!; congruence.
    + exists cc. by rewrite Tl.
Qed.

(** The same with the chunks left alone. *)
Lemma sys_inv_conn Q s s' l c c' :
  sys_inv Q s -> touched l s s' -> conns s !! l = Some c -> conns s' !! l = Some c' ->
  cn_next c' = cn_next c -> cn_prev c' = cn_prev c -> cn_stdin c' = cn_stdin c ->
  cn_out_queue c' = cn_out_queue c -> cn_out_queue_tail c' = cn_out_queue_tail c ->
  sys_chunks s' = sys_chunks s -> sys_inv Q s'.
Proof.
  intros Hi Ht Hc Hc' En Ep Es Eq Et Ech.
  destruct (si_queue _ _ Hi _ _ Hc) as (q & HQ & [Hh Htl Hch Hnd Hb]).
  rewrite <- (insert_id Q l q HQ). eapply sys_inv_update; try done.
  - rewrite Ech. apply Hi.
  - unfold chunks. rewrite Ech. split; try done; congruence.
  - intros l2 q2 Hne HQ2. unfold chunks. rewrite Ech. split; [done|].
    intros k Hk1 Hk2. apply Hne. by eapply si_sep.
Qed.

(** A change of the environment, the log and the polling table. *)
Lemma sys_inv_frame Q s s' :
  sys_inv Q s -> sys_options s' = sys_options s -> sys_config s' = sys_config s ->
  sys_conns s' = sys_conns s -> sys_chunks s' = sys_chunks s ->
  length (sys_events s') = length (sys_events s) -> sys_inv Q s'.
Proof.
  intros [] Eo Ec En Ech Ee. split; unfold conns, chunks; rewrite ?Eo, ?Ec, ?En, ?Ech, ?Ee; done.
Qed.

(** ** Steps that touch one connection *)

Lemma touched_conns l c s : touched l s (with_conns (<[l := c]> (conns s)) s).
Proof. split; try done. intros l' Hne. by apply lookup_insert_ne. Qed.
Lemma touched_chunks l h s : touched l s (set_sys_chunks h s).
Proof. by split. Qed.
Lemma touched_io l evs s : touched l s (set_sys_io evs s).
Proof. by split. Qed.
Lemma touched_env l e s : touched l s (set_sys_env e s).
Proof. by split. Qed.
Lemma touched_events l ev s : length ev = length (sys_events s) -> touched l s (set_sys_events ev s).
Proof. by split. Qed.
End Inv.

#[export] Hint Resolve touched_conns touched_chunks touched_io touched_env touched_events : ctcp.

(** Chains of the steps above. *)
Ltac touch :=
  lazymatch goal with
  | |- touched _ ?s ?s => reflexivity
  | |- touched _ _ (with_conns _ _) => etransitivity; [|apply touched_conns]; touch
  | |- touched _ _ (with_chunks _ _) => etransitivity; [|apply touched_chunks]; touch
  | |- touched _ _ (set_sys_chunks _ _) => etransitivity; [|apply touched_chunks]; touch
  | |- touched _ _ (set_sys_io _ _) => etransitivity; [|apply touched_io]; touch
  | |- touched _ _ (set_sys_env _ _) => etransitivity; [|apply touched_env]; touch
  | |- touched _ _ (set_sys_events _ _) =>
      etransitivity; [|apply touched_events; first [eassumption|done]]; touch
  | |- _ => eauto with ctcp
  end.
