(* ===== verification/ConnOut.v ===== *)
(** * Output of a connection

    [conn_output] and [conn_drain] against a first-in-first-out stream: the
    bytes written, followed by those pending in the queue, are the bytes handed
    over, in order. *)

From S2P Require Import Prelude Heap Words Cksum Segment ConnLib Ctcp Host Packet Conn Queue ConnInv.

(** Only the output of a connection is different. *)
Definition only_output (c c' : conn) : Prop :=
  c' = set_cn_out_queue (cn_out_queue c') (set_cn_out_queue_tail (cn_out_queue_tail c')
         (set_cn_wrote_err (cn_wrote_err c') (set_cn_wrote_eof (cn_wrote_eof c') c))).

#[export] Instance only_output_refl : Reflexive only_output.
Proof. intros c. by destruct c. Qed.
#[export] Instance only_output_trans : Transitive only_output.
Proof. unfold only_output. intros c1 c2 c3 E1 E2. rewrite E2, E1. done. Qed.

Lemma only_output_keeps c c' :
  only_output c c' ->
  cn_next c' = cn_next c /\ cn_prev c' = cn_prev c /\ cn_stdin c' = cn_stdin c /\
  cn_delete_me c' = cn_delete_me c.
Proof. by intros ->. Qed.

Section Output.
Context {E : Type} `{!Os E, !OsLaws E}.
Implicit Types s : sys E.

(** The descriptor that the output of a connection goes to. *)
Definition fd_of s (c : conn) : Z :=
  if run_program (sys_options s) then cn_stdin c else STDOUT_FILENO.

Lemma fd_of_keeps s s' c c' :
  sys_options s' = sys_options s -> only_output c c' -> fd_of s' c' = fd_of s c.
Proof. unfold fd_of. by intros -> ->. Qed.

(** [bss] are the writes that a run has made for connection [l], which had
    [q] pending and has [q'] now, of the stream [q] followed by [new]. *)
Record streamed (Q : gmap loc (list entry)) (l : loc) (c c' : conn) (q q' : list entry)
    (new : list byte) (bss : list (list byte)) s s' : Prop := Streamed {
  sd_inv : sys_inv (<[l := q']> Q) s';
  sd_touched : touched l s s';
  sd_conn : conns s' !! l = Some c';
  sd_only : only_output c c';
  sd_io : sys_io s' = sys_io s ++ (IoWrote (fd_of s c) <$> bss);
  sd_fifo : concat bss ++ pending q' = pending q ++ new;
}.

Lemma sys_inv_queue Q s l c q :
  sys_inv Q s -> conns s !! l = Some c -> Q !! l = Some q -> queue_of (chunks s) c q.
Proof. intros Hi Hc HQ. destruct (si_queue _ _ Hi _ _ Hc) as (q' & HQ' & Hq). congruence. Qed.

(** What has been streamed in two runs, one after the other. *)
Lemma streamed_trans Q l c1 c2 c3 q1 q2 q3 new1 new2 bss1 bss2 s1 s2 s3 :
  streamed Q l c1 c2 q1 q2 new1 bss1 s1 s2 ->
  streamed (<[l := q2]> Q) l c2 c3 q2 q3 new2 bss2 s2 s3 ->
  streamed Q l c1 c3 q1 q3 (new1 ++ new2) (bss1 ++ bss2) s1 s3.
Proof.
  intros [Hi1 Ht1 Hc1 Ho1 Hio1 Hf1] [Hi2 Ht2 Hc2 Ho2 Hio2 Hf2]. split.
  - by rewrite insert_insert_eq in Hi2.
  - by transitivity s2.
  - done.
  - by transitivity c2.
  - rewrite Hio2, Hio1, <- app_assoc, fmap_app.
    by rewrite (fd_of_keeps s1 s2 c1 c2) by (done || apply Ht1).
  - by rewrite concat_app, <- app_assoc, Hf2, app_assoc, Hf1, app_assoc.
Qed.

(** The polling table does not matter. *)
Lemma streamed_events Q l c c' q q' new bss s s' ev :
  length ev = length (sys_events s') ->
  streamed Q l c c' q q' new bss s s' -> streamed Q l c c' q q' new bss s (set_sys_events ev s').
Proof.
  intros Hev [Hi Ht Hc Ho Hio Hf]. split; try done.
  - by eapply sys_inv_frame.
  - transitivity s'; [done|by apply touched_events].
Qed.

(** Chunks of another queue are not those of [l]. *)
Lemma sep_notin Q s l l2 q q2 :
  sys_inv Q s -> Q !! l = Some q -> l2 <> l -> Q !! l2 = Some q2 ->
  forall k, k ∈ locs q2 -> k ∈ locs q -> False.
Proof. intros Hi HQ Hne HQ2 k Hk2 Hk. apply Hne. by eapply si_sep. Qed.

(** ** One write of [conn_drain]

    What is left of the first chunk after a partial write. *)
Lemma partial_write Q s s' l c e q w :
  sys_inv Q s -> conns s !! l = Some c -> Q !! l = Some (e :: q) ->
  0 <= w -> en_used e + w < Z.of_nat (length (en_bytes e)) ->
  touched l s s' -> conns s' !! l = Some c ->
  sys_io s' = sys_io s ++ [IoWrote (fd_of s c) (take (Z.to_nat w) (en_pending e))] ->
  sys_chunks s' = Heap (<[en_loc e := entry_chunk (Entry (en_loc e) (en_used e + w) (en_bytes e))
                                        (qhead q)]> (chunks s)) (brk (sys_chunks s)) ->
  streamed Q l c c (e :: q) (Entry (en_loc e) (en_used e + w) (en_bytes e) :: q) []
    [take (Z.to_nat w) (en_pending e)] s s'.
Proof.
  intros Hi Hc HQ Hw Hlt Ht Hc' Hio Hch.
  pose proof (sys_inv_queue _ _ _ _ _ Hi Hc HQ) as [Hh Htl (Hm & Hwf & Hqc) Hnd Hb].
  set (e' := Entry (en_loc e) (en_used e + w) (en_bytes e)) in *.
  assert (Hp : take (Z.to_nat w) (en_pending e) ++ en_pending e' = en_pending e).
  { unfold en_pending. subst e'. cbn [en_used en_bytes]. unfold entry_wf in Hwf.
    replace (Z.to_nat (en_used e + w)) with (Z.to_nat (en_used e) + Z.to_nat w)%nat by lia.
    rewrite <- drop_drop. apply take_drop. }
  pose proof Hnd as Hnd0. cbn in Hnd. apply NoDup_cons in Hnd as [Hn Hnd].
  split; try done.
  2: { cbn [concat app]. rewrite !pending_cons, !app_nil_r, app_assoc. by rewrite Hp. }
  eapply (sys_inv_update Q s s' l c c); try done.
  - rewrite Hch. apply heap_wf_insert; [apply Hi|eauto].
  - unfold chunks. rewrite Hch. split; try done.
    + rewrite Htl. by destruct q.
    + cbn [qchain mem]. split_and!; [apply lookup_insert_eq|unfold entry_wf in *; subst e'; simpl; lia|].
      by apply qchain_insert.
    + rewrite pending_cons, length_app in *.
      assert (length (en_pending e') <= length (en_pending e))%nat; [|lia].
      rewrite <- Hp, length_app. lia.
  - intros l2 q2 Hne HQ2. pose proof (sep_notin _ _ _ _ _ _ Hi HQ Hne HQ2) as Hs.
    unfold chunks. rewrite Hch. split.
    + intros k Hk. apply lookup_insert_ne. intros <-. apply (Hs _ Hk), list_elem_of_here.
    + intros k Hk Hk'. by apply (Hs k Hk).
Qed.

(** After a write of all that is left of the first chunk, it is unlinked and
    freed. *)
Lemma whole_write Q s s' l c e q x :
  sys_inv Q s -> conns s !! l = Some c -> Q !! l = Some (e :: q) ->
  touched l s s' ->
  conns s' !! l = Some (set_cn_out_queue_tail (qtail q) (set_cn_out_queue (qhead q) c)) ->
  sys_io s' = sys_io s ++ [IoWrote (fd_of s c) (en_pending e)] ->
  sys_chunks s' = Heap (delete (en_loc e) (<[en_loc e := x]> (chunks s))) (brk (sys_chunks s)) ->
  streamed Q l c (set_cn_out_queue_tail (qtail q) (set_cn_out_queue (qhead q) c))
    (e :: q) q [] [en_pending e] s s'.
Proof.
  intros Hi Hc HQ Ht Hc' Hio Hch. rewrite delete_insert_eq in Hch.
  pose proof (sys_inv_queue _ _ _ _ _ Hi Hc HQ) as [Hh Htl (Hm & Hwf & Hqc) Hnd Hb].
  cbn in Hnd. apply NoDup_cons in Hnd as [Hn Hnd].
  split; try done.
  2: { cbn [concat app]. by rewrite pending_cons, !app_nil_r. }
  eapply (sys_inv_update Q s s' l c); try done.
  - rewrite Hch. apply heap_wf_delete, Hi.
  - unfold chunks. rewrite Hch. split; try done.
    + by apply qchain_delete.
    + rewrite pending_cons, length_app in Hb. lia.
  - intros l2 q2 Hne HQ2. pose proof (sep_notin _ _ _ _ _ _ Hi HQ Hne HQ2) as Hs.
    unfold chunks. rewrite Hch. split.
    + intros k Hk. apply lookup_delete_ne. intros <-. apply (Hs _ Hk), list_elem_of_here.
    + intros k Hk Hk'. by apply (Hs k Hk), list_elem_of_further.
Qed.
End Output.

Section Drain.
Context {E : Type} `{!Os E, !OsLaws E}.
Implicit Types s : sys E.

Definition no_exit : sys E -> Prop := fun _ => False.

Lemma slice_pending e :
  slice (Z.to_nat (en_used e)) (Z.to_nat (Z.of_nat (length (en_bytes e)) - en_used e)) (en_bytes e)
  = en_pending e.
Proof. unfold slice, en_pending. apply take_ge. rewrite length_drop. lia. Qed.

(** Nothing written: only the environment, and perhaps the flags. *)
Lemma no_write Q s s' l c c' q :
  sys_inv Q s -> conns s !! l = Some c -> Q !! l = Some q ->
  touched l s s' -> conns s' !! l = Some c' -> only_output c c' ->
  cn_out_queue c' = cn_out_queue c -> cn_out_queue_tail c' = cn_out_queue_tail c ->
  sys_io s' = sys_io s -> sys_chunks s' = sys_chunks s ->
  streamed Q l c c' q q [] [] s s'.
Proof.
  intros Hi Hc HQ Ht Hc' Ho Eq Et Eio Ech.
  destruct (only_output_keeps _ _ Ho) as (En & Ep & Es & _).
  split; try done.
  - rewrite insert_id by done. by eapply sys_inv_conn.
  - cbn. by rewrite app_nil_r.
  - cbn. by rewrite app_nil_r.
Qed.

(** What is said of a run of the loop. *)
Definition drained Q l (c : conn) (q : list entry) (out : bool) s (r : bool) s' : Prop :=
  exists c' q' bss, streamed Q l c c' q q' [] bss s s' /\
    cn_wrote_eof c' = cn_wrote_eof c /\ r = out || negb (bool_decide (bss = [])).

Lemma drained_after Q l c c1 q q1 bs out s s1 r s' :
  streamed Q l c c1 q q1 [] [bs] s s1 -> cn_wrote_eof c1 = cn_wrote_eof c ->
  drained (<[l := q1]> Q) l c1 q1 true s1 r s' -> drained Q l c q out s r s'.
Proof.
  intros H1 E1 (c' & q' & bss & H2 & E2 & ->). exists c', q', ([bs] ++ bss).
  split_and!; [by eapply (streamed_trans Q l c c1 c' q q1 q' [] [])|congruence|]. by destruct out.
Qed.

(** The loop may stop after a write. *)
Lemma drained_stop Q l c q s c1 q1 bs out s1 :
  streamed Q l c c1 q q1 [] [bs] s s1 -> cn_wrote_eof c1 = cn_wrote_eof c ->
  drained Q l c q out s true s1.
Proof. intros H1 E1. exists c1, q1, [bs]. split_and!; [done|done|by destruct out]. Qed.

(** The loop goes on after a chunk that has been written whole. *)
Lemma drain_next Q s s' l c e q x out m :
  sys_inv Q s -> conns s !! l = Some c -> Q !! l = Some (e :: q) ->
  touched l s s' ->
  conns s' !! l = Some (set_cn_out_queue_tail (qtail q) (set_cn_out_queue (qhead q) c)) ->
  sys_io s' = sys_io s ++ [IoWrote (fd_of s c) (en_pending e)] ->
  sys_chunks s' = Heap (delete (en_loc e) (<[en_loc e := x]> (chunks s))) (brk (sys_chunks s)) ->
  (forall Q1 c1, sys_inv Q1 s' -> conns s' !! l = Some c1 -> Q1 !! l = Some q ->
     wp m (drained Q1 l c1 q true s') no_exit s') ->
  wp m (drained Q l c (e :: q) out s) no_exit s'.
Proof.
  intros Hi Hc HQ Ht Hc' Hio Hch Hm.
  assert (Hs : streamed Q l c _ (e :: q) q [] [en_pending e] s s')
    by (eapply whole_write; [exact Hi|exact Hc|exact HQ|exact Ht|exact Hc'|exact Hio|exact Hch]).
  eapply wp_mono; [apply Hm; [apply Hs|exact Hc'|apply lookup_insert_eq]|].
  intros r s2 Hd. eapply drained_after; [exact Hs|done|exact Hd].
Qed.

(** The loop may stop without one. *)
Lemma drained_nothing Q l c c' q out s s' :
  streamed Q l c c' q q [] [] s s' -> cn_wrote_eof c' = cn_wrote_eof c -> drained Q l c q out s out s'.
Proof. intros Hs He. exists c', q, []. split_and!; [done|done|by rewrite orb_false_r]. Qed.

(** A chunk that has been written whole leaves the queue. *)
Lemma drain_whole Q s s1 l c e q x out m :
  sys_inv Q s -> conns s !! l = Some c -> Q !! l = Some (e :: q) ->
  touched l s s1 -> conns s1 !! l = Some c ->
  sys_io s1 = sys_io s ++ [IoWrote (fd_of s c) (en_pending e)] ->
  sys_chunks s1 = Heap (<[en_loc e := x]> (chunks s)) (brk (sys_chunks s)) ->
  (forall Q1 s2 c2, sys_inv Q1 s2 -> conns s2 !! l = Some c2 -> Q1 !! l = Some q ->
     wp m (drained Q1 l c2 q true s2) no_exit s2) ->
  wp (on_conns (update l (set_cn_out_queue (qhead q)));;
      when (bool_decide (qhead q = None)) (on_conns (update l (set_cn_out_queue_tail TailQueue)));;
      on_chunks (free (Some (en_loc e)));; m)
    (drained Q l c (e :: q) out s) no_exit s1.
Proof.
  intros Hi Hc HQ Ht Hc1 Hio Hch Hm.
  pose proof (sys_inv_queue _ _ _ _ _ Hi Hc HQ) as [_ Htl _ _ _].
  assert (Hx : chunks s1 !! en_loc e = Some x) by (unfold chunks at 1; rewrite Hch; apply lookup_insert_eq).
  assert (Hlast : forall s2, touched l s s2 -> sys_io s2 = sys_io s1 -> sys_chunks s2 = sys_chunks s1 ->
    conns s2 !! l = Some (set_cn_out_queue_tail (qtail q) (set_cn_out_queue (qhead q) c)) ->
    wp (on_chunks (free (Some (en_loc e)));; m) (drained Q l c (e :: q) out s) no_exit s2).
  { intros s2 Ht2 Eio Ech Hc2. apply wp_bind, wp_chunk_free.
    { exists x. unfold chunks in *. by rewrite Ech. }
    eapply (drain_next Q s _ l c e q x); [exact Hi|exact Hc|exact HQ| |exact Hc2| | |intros; by apply Hm].
    - touch.
    - etransitivity; [exact Eio|exact Hio].
    - unfold chunks. cbn. by rewrite Ech, Hch. }
  apply wp_bind. eapply wp_conn_update; [exact Hc1|]. apply wp_bind, wp_when; intros Hq.
  - eapply wp_conn_update; [apply lookup_insert_eq|]. apply bool_decide_eq_true, qhead_None in Hq as ->.
    apply Hlast; [touch|done|done|apply lookup_insert_eq].
  - apply bool_decide_eq_false in Hq. apply Hlast; [touch|done|done|].
    refine (eq_trans (lookup_insert_eq _ _ _) _). f_equal. rewrite qhead_None in Hq.
    rewrite <- (qtail_cons e q Hq), <- Htl. by destruct c.
Qed.

Lemma drain_loop_spec fuel : forall Q s l c q out,
  sys_inv Q s -> conns s !! l = Some c -> Q !! l = Some q -> (length q < fuel)%nat ->
  wp (drain_loop fuel l out) (drained Q l c q out s) no_exit s.
Proof.
  induction fuel as [|fuel IH]; intros Q s l c q out Hi Hc HQ Hf; [lia|].
  pose proof (sys_inv_queue _ _ _ _ _ Hi Hc HQ) as [Hh Htl Hch Hnd Hb].
  cbn [drain_loop]. apply wp_bind. eapply wp_conn_load; [exact Hc|]. rewrite Hh.
  destruct q as [|e q]; cbn [qhead head fmap option_fmap option_map].
  { apply wp_ret. eapply drained_nothing; [by eapply no_write|done]. }
  destruct Hch as (Hm & Hwf & Hqc).
  apply wp_bind. eapply wp_chunk_load; [exact Hm|]. apply wp_bind, wp_output_fd.
  fold (fd_of s c). cbn [entry_chunk ck_used ck_size ck_buf ck_next]. apply wp_bind, wp_access.
  { unfold entry_wf in Hwf. apply andb_true_iff. split; apply Z.leb_le; lia. }
  rewrite slice_pending. apply wp_bind, (wp_call_write no_exit).
  2: { intros env errno. apply wp_bind, wp_when; intros _.
       - eapply wp_conn_update; [exact Hc|]. apply wp_ret.
         apply (drained_nothing _ _ _ (set_cn_wrote_err true c)); [|done].
         eapply no_write; try done; [touch|apply lookup_insert_eq].
       - apply wp_ret. eapply drained_nothing; [by eapply no_write|done]. }
  intros env w Hw. rewrite en_pending_length in Hw by done.
  unfold entry_wf in Hwf.
  assert (Eu : u64 (en_used e + w) = en_used e + w).
  { apply Z.mod_small. rewrite pending_cons, length_app in Hb.
    unfold MAX_BUF_SPACE in Hwf. lia. }
  apply wp_bind. eapply wp_chunk_update; [exact Hm|]. rewrite Eu.
  destruct (Z.ltb_spec (en_used e + w) (Z.of_nat (length (en_bytes e)))) as [Hlt|Hge].
  - apply wp_bind, wp_update_event.
    { change (sys_events _) with (sys_events s). rewrite (si_events _ _ Hi).
      unfold STDOUT_FILENO, NUM_EVENTS, NUM_POLL, MAX_NUM_CLIENTS. lia. }
    intros ev Hev. apply wp_ret. eapply drained_stop; [|done].
    eapply partial_write; [exact Hi|exact Hc|exact HQ| |exact Hlt|..]; [lia| |done..]. touch.
  - assert (w = Z.of_nat (length (en_pending e))) as -> by (rewrite en_pending_length by done; lia).
    rewrite Nat2Z.id, take_ge by done.
    eapply (drain_whole Q s _ l c e q); [exact Hi|exact Hc|exact HQ|touch|exact Hc|done|done|].
    intros Q1 s2 c2 Hi2 Hc2 HQ2. apply IH; [done..|simpl in *; lia].
Qed.
End Drain.

(** ** [conn_output] *)

Section Append.
Context {E : Type} `{!Os E, !OsLaws E}.
Implicit Types s : sys E.

Lemma queue_live Q s l q : sys_inv Q s -> Q !! l = Some q -> qchain (chunks s) q.
Proof.
  intros Hi HQ. destruct (si_live _ _ Hi l) as [c Hc]; [eauto|].
  destruct (si_queue _ _ Hi _ _ Hc) as (q' & HQ' & Hq). simplify_eq. apply Hq.
Qed.

(** A chunk that has just been allocated is in no queue. *)
Lemma fresh_chunk Q s l q :
  sys_inv Q s -> Q !! l = Some q -> brk (sys_chunks s) ∉ locs q.
Proof.
  intros Hi HQ Hk. destruct (qchain_lookup _ _ _ (queue_live _ _ _ _ Hi HQ) Hk) as [ch Hch].
  unfold chunks in Hch. rewrite heap_wf_fresh in Hch by apply Hi. done.
Qed.

(** A memory in which an entry has been linked at the end of the queue of [l]. *)
Lemma appended Q s s' l c c' q e :
  sys_inv Q s -> conns s !! l = Some c -> Q !! l = Some q ->
  touched l s s' -> conns s' !! l = Some c' -> only_output c c' ->
  sys_io s' = sys_io s -> brk (sys_chunks s') = Pos.succ (brk (sys_chunks s)) ->
  en_loc e = brk (sys_chunks s) -> en_used e = 0 -> entry_wf e ->
  Z.of_nat (length (pending q ++ en_bytes e)) <= MAX_PENDING ->
  cn_out_queue c' = qhead (q ++ [e]) -> cn_out_queue_tail c' = TailChunk (en_loc e) ->
  qchain (chunks s') (q ++ [e]) ->
  (forall k, k ∉ locs q -> k <> en_loc e -> chunks s' !! k = chunks s !! k) ->
  streamed Q l c c' q (q ++ [e]) (en_bytes e) [] s s'.
Proof.
  intros Hi Hc HQ Ht Hc' Ho Hio Hbrk He Hu Hwf Hb Hh Htl Hch Hfr.
  destruct (only_output_keeps _ _ Ho) as (En & Ep & Es & _).
  pose proof (sys_inv_queue _ _ _ _ _ Hi Hc HQ) as [_ _ Hqc Hnd _].
  pose proof (fresh_chunk _ _ _ _ Hi HQ) as Hn. rewrite <- He in Hn.
  assert (Ep2 : pending (q ++ [e]) = pending q ++ en_bytes e).
  { rewrite pending_app, pending_cons. unfold en_pending. rewrite Hu. cbn. by rewrite app_nil_r. }
  split; try done.
  - eapply (sys_inv_update Q s s' l c); try done.
    + intros k Hk. rewrite Hbrk.
      destruct (decide (k = en_loc e)) as [->|Hne]; [rewrite He; lia|].
      assert (k < brk (sys_chunks s))%positive; [|lia].
      destruct (decide (k ∈ locs q)) as [Hkq|Hkq].
      * apply (si_chunks_wf _ _ Hi). by eapply qchain_lookup.
      * apply (si_chunks_wf _ _ Hi). unfold chunks in Hfr. by rewrite <- Hfr.
    + split; try done.
      * by rewrite qtail_snoc.
      * rewrite locs_app. apply NoDup_app. split_and!; [done| |apply NoDup_singleton].
        intros k Hk ->%list_elem_of_singleton. done.
      * by rewrite Ep2.
    + intros l2 q2 Hne HQ2. pose proof (sep_notin _ _ _ _ _ _ Hi HQ Hne HQ2) as Hs.
      pose proof (fresh_chunk _ _ _ _ Hi HQ2) as Hn2. rewrite <- He in Hn2. split.
      * intros k Hk. apply Hfr; [by intros Hk2; apply (Hs k)|congruence].
      * intros k Hk. rewrite locs_app. intros [Hk2| ->%list_elem_of_singleton]%elem_of_app; [|done].
        by apply (Hs k).
  - cbn. by rewrite app_nil_r.
Qed.

Lemma append_spec Q s l c q bs rem :
  sys_inv Q s -> conns s !! l = Some c -> Q !! l = Some q ->
  rem = Z.of_nat (length bs) -> 0 < rem <= MAX_BUF_SPACE ->
  Z.of_nat (length (pending q ++ bs)) <= MAX_PENDING ->
  wp (k ← on_chunks (calloc (Chunk None rem 0 bs));
      store_tail l c (Some k);;
      on_conns (update l (set_cn_out_queue_tail (TailChunk k))))
    (fun _ s' => exists c' q', streamed Q l c c' q q' bs [] s s' /\
       cn_wrote_eof c' = cn_wrote_eof c /\ cn_wrote_err c' = cn_wrote_err c) no_exit s.
Proof.
  intros Hi Hc HQ -> Hrem Hb. set (k := brk (sys_chunks s)).
  set (e := Entry k 0 bs). change bs with (en_bytes e) in Hb |- *.
  assert (Hwf : entry_wf e) by (unfold entry_wf; simpl; lia).
  pose proof (sys_inv_queue _ _ _ _ _ Hi Hc HQ) as [Hh Htl Hqc Hnd _].
  pose proof (fresh_chunk _ _ _ _ Hi HQ) as Hn. fold k in Hn.
  apply wp_bind, wp_chunk_calloc. fold k. apply wp_bind. unfold store_tail. rewrite Htl.
  destruct (last_snoc_inv q) as [->|(q0 & e0 & ->)].
  - cbn [qtail last]. eapply wp_conn_update; [exact Hc|]. eapply wp_conn_update;
      [apply lookup_insert_eq|].
    exists (set_cn_out_queue_tail (TailChunk k) (set_cn_out_queue (Some k) c)), ([] ++ [e]).
    split_and!; [|done|done]. eapply appended; try done.
    + touch.
    + apply lookup_insert_eq.
    + split_and!; [apply lookup_insert_eq|done|done].
    + intros k' _ Hne. by apply lookup_insert_ne.
  - rewrite qtail_snoc.
    assert (Hm0 : chunks s !! en_loc e0 = Some (entry_chunk e0 None)).
    { clear -Hqc. induction q0 as [|e1 q0 IH]; [by destruct Hqc|]. apply IH. by destruct Hqc as (_ & _ & ?). }
    assert (Hne : k <> en_loc e0).
    { intros E0. apply Hn. rewrite E0, locs_app. apply elem_of_app. right. apply list_elem_of_here. }
    eapply wp_chunk_update; [refine (eq_trans _ Hm0); by apply lookup_insert_ne|].
    eapply wp_conn_update; [exact Hc|].
    exists (set_cn_out_queue_tail (TailChunk k) c), ((q0 ++ [e0]) ++ [e]).
    split_and!; [|done|done]. eapply appended; try done.
    + touch.
    + apply lookup_insert_eq.
    + change (cn_out_queue c = qhead ((q0 ++ [e0]) ++ [e])). rewrite Hh, (qhead_snoc (q0 ++ [e0])).
      rewrite qhead_snoc. by destruct (qhead q0).
    + change (qchain (<[en_loc e0 := entry_chunk e0 (Some (en_loc e))]> (<[k := entry_chunk e None]> (chunks s)))
        ((q0 ++ [e0]) ++ [e])).
      apply qchain_link; [by apply qchain_insert|done|done|apply lookup_insert_eq|done].
    + intros k' Hk' Hne'. refine (eq_trans (lookup_insert_ne _ _ _ _ _) (lookup_insert_ne _ _ _ _ _)); [|done].
      intros <-. apply Hk'. rewrite locs_app. apply elem_of_app. right. apply list_elem_of_here.
Qed.
End Append.

Section Streams.
Context {E : Type} `{!Os E, !OsLaws E}.
Implicit Types s : sys E.

(** What is written at once is a prefix of the buffer. *)
Lemma output_now_spec Q s l c q buf len :
  sys_inv Q s -> conns s !! l = Some c -> Q !! l = Some q ->
  0 < len <= MAX_BUF_SPACE -> len <= Z.of_nat (length buf) ->
  wp (output_now l c buf len)
    (fun r s' =>
       match r with
       | None => streamed Q l c (set_cn_wrote_err true c) q q [] [] s s'
       | Some (rest, rem) =>
           exists x bss, streamed Q l c c q q x bss s s' /\
             x ++ take (Z.to_nat rem) rest = take (Z.to_nat len) buf /\
             0 <= rem <= len /\ rem <= Z.of_nat (length rest)
       end) no_exit s.
Proof.
  intros Hi Hc HQ Hlen Hbuf. unfold output_now.
  pose proof (sys_inv_queue _ _ _ _ _ Hi Hc HQ) as [Hh _ _ _ _]. rewrite Hh.
  assert (Hsame : streamed Q l c c q q [] [] s s) by by eapply no_write.
  destruct (qhead q) eqn:Eq.
  { apply wp_ret. exists [], []. split_and!; [done|done|lia|lia|done]. }
  apply qhead_None in Eq as ->. apply wp_bind, wp_output_fd. fold (fd_of s c).
  apply wp_bind, (wp_call_write no_exit).
  - intros env w Hw. rewrite length_take in Hw. apply wp_ret.
    rewrite (i32_small (len - w)) by (unfold MAX_BUF_SPACE in *; lia).
    assert (Ex : take (Z.to_nat w) (take (Z.to_nat len) buf) = take (Z.to_nat w) buf).
    { rewrite take_take. f_equal. lia. }
    exists (take (Z.to_nat w) buf), [take (Z.to_nat w) buf]. split_and!.
    + split; try done.
      * rewrite insert_id by done. by eapply sys_inv_frame.
      * cbn [sys_io set_sys_io set_sys_env fmap list_fmap]. by rewrite Ex.
      * cbn. by rewrite !app_nil_r.
    + rewrite take_drop_commute. replace (Z.to_nat w + Z.to_nat (len - w))%nat with (Z.to_nat len) by lia.
      rewrite <- Ex. apply take_drop.
    + lia.
    + lia.
    + rewrite length_drop. lia.
  - intros env errno. destruct (negb _).
    + apply wp_bind. eapply wp_conn_update; [exact Hc|]. apply wp_ret.
      eapply no_write; try done; [touch|apply lookup_insert_eq].
    + apply wp_ret. exists [], []. split_and!; [|done|lia|lia|done].
      by eapply no_write.
Qed.

(** What [conn_output] leaves: no room, the stream, or a failed write. *)
Definition outputted Q l (c : conn) (q : list entry) (buf : list byte) (len : Z) s (r : Z) s' : Prop :=
  (r = 0 /\ s' = s /\ MAX_BUF_SPACE <= Z.of_nat (length (pending q))) \/
  (r = len /\ exists c' q' bss,
     streamed Q l c c' q q' (take (Z.to_nat len) buf) bss s s' /\
     cn_wrote_eof c' = false /\ cn_wrote_err c' = false) \/
  (r = -1 /\ streamed Q l c (set_cn_wrote_err true c) q q [] [] s s').

(** [POLLOUT] is asked for when something is left. *)
Lemma wp_want_output Q s s2 l c c' q q' bss buf len :
  streamed Q l c c' q q' (take (Z.to_nat len) buf) bss s s2 ->
  cn_wrote_eof c' = false -> cn_wrote_err c' = false ->
  wp (c0 ← on_conns (load l);
      when (negb (bool_decide (cn_out_queue c0 = None)))
        (fd ← output_fd c0;
         update_event fd (fun p => set_pfd_events (Z.lor (pfd_events p) POLLOUT) p));;
      mret len) (outputted Q l c q buf len s) no_exit s2.
Proof.
  intros H2 Ee Er. apply wp_bind. eapply wp_conn_load; [apply H2|].
  apply wp_bind, wp_when; intros _.
  - apply wp_bind, wp_output_fd, wp_update_event.
    + rewrite (si_events _ _ (sd_inv _ _ _ _ _ _ _ _ _ _ H2)).
      destruct (run_program (sys_options s2)) eqn:Erp; [|by vm_compute].
      eapply si_stdin; [apply H2|apply H2|done].
    + intros ev Hev. apply wp_ret. right. left. split; [done|].
      exists c', q', bss. split_and!; [by apply streamed_events|done|done].
  - apply wp_ret. right. left. eauto 10.
Qed.

Lemma wp_conn_output Q s l c q buf len :
  sys_inv Q s -> conns s !! l = Some c -> Q !! l = Some q ->
  cn_delete_me c = false -> cn_wrote_eof c = false -> cn_wrote_err c = false ->
  0 < len <= MAX_BUF_SPACE -> len <= Z.of_nat (length buf) ->
  wp (conn_output (Some l) buf len) (outputted Q l c q buf len s) no_exit s.
Proof.
  intros Hi Hc HQ Hdel Heof Herr Hlen Hbuf. unfold conn_output. cbn [deref].
  apply wp_bind, wp_ret, wp_bind. eapply wp_conn_load; [exact Hc|].
  rewrite Hdel, Heof, Herr. apply wp_bind, wp_ret. rewrite bool_decide_false by lia.
  pose proof (sys_inv_queue _ _ _ _ _ Hi Hc HQ) as Hq.
  apply wp_bind. eapply wp_Done; [by eapply conn_bufspace_run|]. unfold bufspace_of.
  case_bool_decide as Hsp; [apply wp_ret; left; split_and!; [done|done|lia]|].
  apply wp_bind, wp_access; [by apply Z.leb_le|].
  rewrite (i32_small len) by (unfold MAX_BUF_SPACE in *; lia).
  apply wp_bind. eapply wp_mono; [by eapply output_now_spec|].
  intros [[rest rem]|] s1; [|intros Hs1; apply wp_ret; right; auto].
  intros (x & bss & H1 & Hx & Hrem & Hrest). apply wp_bind.
  set (bs := take (Z.to_nat rem) rest) in *.
  assert (Hbs : rem = Z.of_nat (length bs)) by (subst bs; rewrite length_take; lia).
  apply wp_when; intros Hr.
  - assert (0 < rem) by (destruct (Z.gtb_spec rem 0); [lia|done]).
    eapply wp_mono; [eapply append_spec; [apply H1|apply H1|apply lookup_insert_eq|exact Hbs|lia|]|].
    { rewrite length_app. unfold MAX_PENDING, MAX_BUF_SPACE in *. lia. }
    intros [] s2 (c' & q' & H2 & Ee & Er). eapply (wp_want_output _ _ _ _ _ c' _ q' (bss ++ [])); [|congruence|congruence].
    rewrite <- Hx. by eapply streamed_trans.
  - destruct (Z.gtb_spec rem 0); [done|]. eapply (wp_want_output _ _ _ _ _ c _ q bss); [|done|done].
    rewrite <- Hx. replace bs with (@nil byte) by (destruct bs; [done|simpl in *; lia]).
    by rewrite app_nil_r.
Qed.

(** C16: [conn_output] is a first-in-first-out stream. When it takes the [len]
    bytes, what it has written, followed by what is pending now, is what was
    pending followed by those bytes, nothing lost and nothing out of order;
    otherwise nothing is written and nothing queued: there was no space, or the
    write failed and no more will be attempted. *)
Theorem conn_output_fifo Q s l c q buf len :
  sys_inv Q s -> conns s !! l = Some c -> Q !! l = Some q ->
  cn_delete_me c = false -> cn_wrote_eof c = false -> cn_wrote_err c = false ->
  0 < len <= MAX_BUF_SPACE -> len <= Z.of_nat (length buf) ->
  wp (conn_output (Some l) buf len)
    (fun r s' =>
       (r = 0 /\ s' = s /\ MAX_BUF_SPACE <= Z.of_nat (length (pending q))) \/
       (r = len /\ exists c' q' bss,
          streamed Q l c c' q q' (take (Z.to_nat len) buf) bss s s' /\
          cn_wrote_eof c' = false /\ cn_wrote_err c' = false) \/
       (r = -1 /\ streamed Q l c (set_cn_wrote_err true c) q q [] [] s s')) no_exit s.
Proof. apply wp_conn_output. Qed.

(** C21: [conn_drain] writes a prefix of what is pending, in order, keeps the rest,
    and comes to an end; it asks for [ctcp_output] to be called exactly when
    something was output and the connection is not about to be deleted. After an
    error it does nothing. *)
Theorem conn_drain_fifo Q s l c q :
  sys_inv Q s -> conns s !! l = Some c -> Q !! l = Some q ->
  wp (conn_drain_io l)
    (fun r s' => exists c' q' bss, streamed Q l c c' q q' [] bss s s' /\
       cn_wrote_eof c' = cn_wrote_eof c /\
       (cn_wrote_err c = true -> bss = [] /\ c' = c) /\
       (cn_wrote_err c = false -> cn_wrote_eof c = true -> q' = [] -> cn_wrote_err c' = true) /\
       r = negb (bool_decide (bss = [])) && negb (cn_delete_me c)) no_exit s.
Proof.
  intros Hi Hc HQ. unfold conn_drain_io. apply wp_bind, wp_update_event.
  { by rewrite (si_events _ _ Hi). }
  intros ev Hev. set (s0 := set_sys_events ev s).
  assert (H0 : streamed Q l c c q q [] [] s s0).
  { subst s0. apply streamed_events; [done|]. by eapply no_write. }
  apply wp_bind. eapply wp_conn_load; [apply H0|]. destruct (cn_wrote_err c) eqn:Eerr.
  { apply wp_ret. exists c, q, []. done. }
  apply wp_bind. unfold queue_fuel. apply wp_gets, wp_bind.
  pose proof (sys_inv_queue _ _ _ _ _ Hi Hc HQ) as [_ _ Hqc Hnd _].
  assert (Hi0 : sys_inv Q s0) by (rewrite <- (insert_id Q l q HQ); apply H0).
  eapply wp_mono; [eapply (drain_loop_spec _ Q s0 l c q); [done|apply H0|done|]|].
  { pose proof (qchain_size _ _ Hqc Hnd). change (sys_chunks s0) with (sys_chunks s).
    unfold chunks in *. lia. }
  intros r s1 (c1 & q1 & bss & H1 & Ee & ->). apply wp_bind.
  eapply wp_conn_load; [apply H1|]. apply wp_bind.
  assert (H01 : streamed Q l c c1 q q1 [] bss s s1).
  { change [] with (@nil byte ++ []) at 1. change bss with ([] ++ bss).
    eapply streamed_trans; [exact H0|]. by rewrite insert_id. }
  pose proof (si_queue _ _ (sd_inv _ _ _ _ _ _ _ _ _ _ H01) _ _ (sd_conn _ _ _ _ _ _ _ _ _ _ H01))
    as (q1' & Eq1 & Hq1). rewrite lookup_insert_eq in Eq1. injection Eq1 as <-.
  destruct (only_output_keeps _ _ (sd_only _ _ _ _ _ _ _ _ _ _ H01)) as (_ & _ & _ & Ed).
  apply wp_when; intros Hw.
  - eapply wp_conn_update; [apply H1|]. apply wp_bind. eapply wp_conn_load; [apply lookup_insert_eq|].
    apply wp_ret. exists (set_cn_wrote_err true c1), q1, bss. split_and!; [|done|done|done|].
    + change [] with (@nil byte ++ []) at 1. rewrite <- (app_nil_r bss).
      eapply streamed_trans; [exact H01|]. eapply no_write.
      all: try first [apply H01 | apply lookup_insert_eq | done | touch].
    + cbn [cn_delete_me set_cn_wrote_err]. by rewrite Ed.
  - apply wp_bind. eapply wp_conn_load; [apply H1|]. apply wp_ret.
    exists c1, q1, bss. split_and!; [done|done|done| |by rewrite Ed].
    intros _ Eeof ->. rewrite Ee, Eeof in Hw. destruct Hq1 as [Hh _ _ _ _]. rewrite Hh in Hw.
    by destruct (cn_wrote_err c1).
Qed.
End Streams.
