(* ===== verification/ConnSend.v ===== *)
(** * Sending and receiving on a connection

    [conn_send] over the unreliable network that it simulates, [conn_input],
    and how little of the memory they touch. *)

From S2P Require Import Prelude Heap Words Cksum Segment ConnLib Ctcp Host Packet Conn Queue ConnInv.
From S2P Require Import PacketProps.

(** ** What is left alone *)

Section Quiet.
Context {E : Type}.
Implicit Types s : sys E.

(** Only the environment, the log of the system calls and the tester's flag are
    different. *)
Definition quiet s s' : Prop :=
  exists env io did, s' = set_sys_did_unreliable did (set_sys_io io (set_sys_env env s)).

#[export] Instance quiet_refl : Reflexive quiet.
Proof. intros s. exists (sys_env s), (sys_io s), (sys_did_unreliable s). by destruct s. Qed.
#[export] Instance quiet_trans : Transitive quiet.
Proof.
  intros s1 s2 s3 (env1 & io1 & d1 & ->) (env2 & io2 & d2 & ->). by exists env2, io2, d2.
Qed.

Lemma quiet_env env s : quiet s (set_sys_env env s).
Proof. exists env, (sys_io s), (sys_did_unreliable s). by destruct s. Qed.
Lemma quiet_io io s : quiet s (set_sys_io io s).
Proof. exists (sys_env s), io, (sys_did_unreliable s). by destruct s. Qed.
Lemma quiet_did d s : quiet s (set_sys_did_unreliable d s).
Proof. exists (sys_env s), (sys_io s), d. by destruct s. Qed.

Lemma quiet_keeps s s' :
  quiet s s' -> sys_conns s' = sys_conns s /\ sys_chunks s' = sys_chunks s /\
    sys_options s' = sys_options s /\ sys_config s' = sys_config s.
Proof. by intros (? & ? & ? & ->). Qed.

Lemma quiet_inv Q s s' : quiet s s' -> sys_inv Q s -> sys_inv Q s'.
Proof. intros (env & io & d & ->) Hi. by eapply sys_inv_frame. Qed.
End Quiet.

#[export] Hint Resolve quiet_env quiet_io quiet_did : ctcp.

(** ** Sending *)

(** The packets among what has happened. *)
Definition packets (evs : list io_event) : list (list byte) :=
  omap (fun ev => match ev with IoSent pkt _ => Some pkt | _ => None end) evs.

Section Send.
Context {E : Type} `{!Os E, !OsLaws E}.
Implicit Types s : sys E.

(** A step that only asks the operating system, and sends nothing. *)
Definition silent s s' : Prop :=
  quiet s s' /\ exists evs, sys_io s' = sys_io s ++ evs /\ packets evs = [].

#[export] Instance silent_refl : Reflexive silent.
Proof. intros s. split; [done|]. exists []. by rewrite app_nil_r. Qed.
#[export] Instance silent_trans : Transitive silent.
Proof.
  intros s1 s2 s3 [H1 (e1 & E1 & P1)] [H2 (e2 & E2 & P2)]. split; [by transitivity s2|].
  exists (e1 ++ e2). split; [by rewrite E2, E1, app_assoc|].
  unfold packets in *. rewrite omap_app. by rewrite P1, P2.
Qed.

Lemma silent_env env s : silent s (set_sys_env env s).
Proof. split; [auto with ctcp|]. exists []. by rewrite app_nil_r. Qed.
Lemma silent_did d s : silent s (set_sys_did_unreliable d s).
Proof. split; [auto with ctcp|]. exists []. by rewrite app_nil_r. Qed.

Lemma wp_rand X (Q : Z -> sys E -> Prop) s :
  (forall r s', 0 <= r <= RAND_MAX -> silent s s' -> Q r s') -> wp rand Q X s.
Proof.
  intros HQ. unfold rand, syscall, wp. pose proof (os_rand_law (sys_env s)) as Hr.
  destruct (os_rand (sys_env s)) as [r e]. apply HQ; [done|apply silent_env].
Qed.

Lemma wp_fork X (Q : Z -> sys E -> Prop) s :
  (forall r s', silent s s' -> Q r s') -> wp fork Q X s.
Proof.
  intros HQ. unfold fork, syscall, wp. destruct (os_fork (sys_env s)) as [r e].
  apply HQ, silent_env.
Qed.

(** In the parent the percentage is one. *)
Lemma wp_rand_percent X level (Q : Z -> sys E -> Prop) s :
  (forall p s', (level = 0 -> 0 <= p < 100) -> silent s s' -> Q p s') ->
  wp (rand_percent level) Q X s.
Proof.
  intros HQ. unfold rand_percent. apply wp_bind, wp_rand. intros r s' Hr Hs.
  apply wp_ret, HQ; [|done]. intros ->. unfold RAND_MAX in Hr. rewrite i32_small by lia.
  rewrite Z.mul_0_l, Z.add_0_r. rewrite Z.rem_mod_nonneg by lia. apply Z.mod_pos_bound. lia.
Qed.

Lemma wp_did_it X (Q : unit -> sys E -> Prop) s :
  Q tt (set_sys_did_unreliable true s) -> wp did_it Q X s.
Proof. done. Qed.

(** Unreliability that is turned off does not happen. *)
Lemma wp_happens X o level percent (Q : bool -> sys E -> Prop) s :
  (forall b s', silent s s' -> (percent = 0 -> level = 0 -> b = false) -> Q b s') ->
  wp (happens o level percent) Q X s.
Proof.
  intros HQ. unfold happens. destruct (test_debug_on o).
  - apply wp_bind, wp_gets, wp_ret, HQ; [done|]. intros -> _. by rewrite andb_false_r.
  - apply wp_bind, wp_rand_percent. intros p s' Hp Hs. apply wp_ret, HQ; [done|].
    intros -> Hl. specialize (Hp Hl). apply Z.ltb_ge. lia.
Qed.

Lemma wp_log_segment X conn seg len b (Q : unit -> sys E -> Prop) s :
  (forall s', silent s s' -> Q tt s') -> wp (log_segment conn seg len b) Q X s.
Proof.
  intros HQ. unfold log_segment. apply wp_bind, wp_gets, wp_when; intros _; [|by apply HQ].
  apply wp_modify, HQ. split; [auto with ctcp|]. by eexists.
Qed.

(** [bits] is [bs], or [bs] with one bit flipped after the flags. *)
Definition maybe_flipped (bs : list byte) (len : Z) (bits : list byte) : Prop :=
  bits = bs \/ exists bit, 128 <= bit < 8 * len /\ flipbit bs bit = Some bits.

(** What a call of [conn_send] has sent: at most one packet, that of the segment
    or of a corrupted copy. *)
Definition sent_one (c : conn) (bs : list byte) (len : Z) s s' : Prop :=
  quiet s s' /\ exists evs, sys_io s' = sys_io s ++ evs /\
    (packets evs = [] \/ exists bits seg,
       maybe_flipped bs len bits /\ segment_of_bytes bits = Some seg /\
       packets evs = [datagram_bytes (packet_of (sys_config s) (sys_options s) c seg
                        (packet_sum (sys_config s) (sys_options s) c seg))]).

Lemma silent_sent c bs len s s' : silent s s' -> sent_one c bs len s s'.
Proof. intros [Hq (evs & Ei & Ep)]. split; [done|]. exists evs. auto. Qed.

Lemma silent_sent_after c bs len s1 s2 s3 :
  silent s1 s2 -> sent_one c bs len s2 s3 -> sent_one c bs len s1 s3.
Proof.
  intros [Hq1 (e1 & Ei1 & Ep1)] [Hq2 (e2 & Ei2 & Ep2)]. split; [by transitivity s2|].
  destruct (quiet_keeps _ _ Hq1) as (_ & _ & Eo & Ec). rewrite Eo, Ec in Ep2.
  exists (e1 ++ e2). split; [by rewrite Ei2, Ei1, app_assoc|].
  unfold packets in *. rewrite omap_app, Ep1. done.
Qed.

(** What has become of one copy of the segment, [bits]: its packet, or an error. *)
Definition sent_bits (c : conn) (bits : list byte) (len n : Z) s s' : Prop :=
  quiet s s' /\ exists seg evs, segment_of_bytes bits = Some seg /\ sys_io s' = sys_io s ++ evs /\
    (packets evs = [] /\ n = -1 \/
     packets evs = [datagram_bytes (packet_of (sys_config s) (sys_options s) c seg
                      (packet_sum (sys_config s) (sys_options s) c seg))] /\ n = len + 20).

Lemma sent_bits_one c bs bits len n s s' :
  maybe_flipped bs len bits -> sent_bits c bits len n s s' -> sent_one c bs len s s'.
Proof.
  intros Hm [Hq (seg & evs & Hs & Hio & Hn)]. split; [done|]. exists evs. split; [done|].
  destruct Hn as [[-> _]|[-> _]]; [by left|right]. by exists bits, seg.
Qed.

Lemma silent_bits_after c bits len n s1 s2 s3 :
  silent s1 s2 -> sent_bits c bits len n s2 s3 -> sent_bits c bits len n s1 s3.
Proof.
  intros [Hq1 (e1 & Ei1 & Ep1)] [Hq2 (seg & e2 & Hs & Ei2 & Ep2)]. split; [by transitivity s2|].
  destruct (quiet_keeps _ _ Hq1) as (_ & _ & Eo & Ec). rewrite Eo, Ec in Ep2.
  exists seg, (e1 ++ e2). split_and!; [done|by rewrite Ei2, Ei1, app_assoc|].
  unfold packets in *. rewrite omap_app, Ep1. done.
Qed.

Lemma flipped_length bs len bits : maybe_flipped bs len bits -> length bits = length bs.
Proof.
  intros [->|(bit & _ & Hf)]; [done|]. unfold flipbit in Hf.
  destruct (bs !! _); [|done]. injection Hf as <-. apply length_insert.
Qed.

(** The bit to flip lies between the window field and the end of the segment. *)
Lemma rand_bit_range r len :
  0 <= r <= RAND_MAX -> SEGMENT_HDR_SIZE <= len <= SEGMENT_HDR_SIZE + MAX_SEG_DATA_SIZE ->
  128 <= u16 (Z.rem r (u16 (len - SEGMENT_HDR_SIZE + 4) * 8 - 1) + (SEGMENT_HDR_SIZE - 4) * 8)
      < 8 * len.
Proof.
  unfold SEGMENT_HDR_SIZE, MAX_SEG_DATA_SIZE. intros Hr Hlen.
  rewrite (u16_small (len - 20 + 4)) by lia.
  rewrite Z.rem_mod_nonneg by lia.
  pose proof (Z.mod_pos_bound r ((len - 20 + 4) * 8 - 1) ltac:(lia)).
  rewrite u16_small by lia. lia.
Qed.

Lemma segment_of_bytes_some bs :
  SEGMENT_HDR_SIZE <= Z.of_nat (length bs) -> exists seg, segment_of_bytes bs = Some seg.
Proof. intros H. unfold segment_of_bytes. rewrite bool_decide_false by lia. eauto. Qed.

Lemma send_pkt_spec X c pkt len (Q : Z -> sys E -> Prop) s :
  len = Z.of_nat (length pkt) ->
  (forall n s' evs, quiet s s' -> sys_io s' = sys_io s ++ evs ->
     (packets evs = [] /\ n = -1 \/ packets evs = [pkt] /\ n = len) -> Q n s') ->
  wp (send_pkt c pkt len) Q X s.
Proof.
  intros -> HQ. unfold send_pkt. apply wp_bind, wp_gets, wp_bind, wp_conf.
  apply wp_bind, wp_access; [apply Z.leb_le; lia|]. rewrite Nat2Z.id, take_ge by lia.
  unfold call_sendto, syscall. apply wp_bind. unfold wp at 1.
  set (addr := if unix_socket _ then _ else _).
  destruct (os_sendto (socket (sys_config s)) pkt addr (sys_env s)) as [[n|errno] e] eqn:Es.
  - apply os_sendto_law in Es as ->. apply wp_bind, wp_modify, wp_ret.
    rewrite Nat2Z.id, take_ge by done. apply (HQ _ _ [IoSent pkt addr]); [| |by right].
    + transitivity (set_sys_env e s); auto with ctcp.
    + done.
  - apply wp_ret. apply (HQ _ _ []); [auto with ctcp|by rewrite app_nil_r|by left].
Qed.

(** The last part of [conn_send]. *)
Lemma send_copy_spec X o conn c bs len level s :
  o = sys_options s -> Z.of_nat (length bs) = len ->
  SEGMENT_HDR_SIZE <= len <= SEGMENT_HDR_SIZE + MAX_SEG_DATA_SIZE ->
  wp (send_copy o conn c bs len level)
    (fun n s' => exists bits, maybe_flipped bs len bits /\
       (opt_corrupt o = 0 -> level = 0 -> bits = bs) /\ sent_bits c bits len n s s') X s.
Proof.
  intros -> Hl Hlen. unfold send_copy. apply wp_bind, wp_rand_percent. intros p s1 Hp H1.
  apply wp_bind, wp_rand. intros r s2 Hr H2. apply wp_bind, wp_gets.
  pose proof (rand_bit_range r len Hr Hlen) as Hbit. set (bit := u16 _) in *.
  assert (H12 : silent s s2) by by transitivity s1.
  apply wp_bind. eapply wp_mono with
    (Q := fun bits s3 => (maybe_flipped bs len bits /\
            (opt_corrupt (sys_options s) = 0 -> level = 0 -> bits = bs)) /\ silent s s3).
  { destruct (_ || _) eqn:Eb.
    - apply wp_bind, wp_did_it.
      destruct (flipbit_insert bs bit) as (b & b' & _ & _ & Hf); [lia|].
      eapply wp_deref; [exact Hf|]. split; [split|].
      + right; by exists bit.
      + intros Ec ->. exfalso. specialize (Hp eq_refl). rewrite Ec in Eb.
        rewrite (proj2 (Z.ltb_ge p 0)) in Eb by lia. by rewrite !andb_false_r in Eb.
      + transitivity s2; [done|apply silent_did].
    - apply wp_ret. split; [split; [by left|done]|done]. }
  intros bits s3 [[Hm Hx] H3]. cbv beta. pose proof (flipped_length _ _ _ Hm) as Hbl.
  apply wp_bind, wp_log_segment. intros s4 H4.
  destruct (segment_of_bytes_some bits) as [seg Hseg]; [lia|].
  pose proof (segment_of_bytes_length _ _ Hseg) as Hsl.
  apply wp_bind. eapply wp_deref; [exact Hseg|]. apply wp_bind, wp_gets.
  assert (H04 : silent s s4) by by transitivity s3.
  destruct (quiet_keeps _ _ (proj1 H04)) as (_ & _ & Eo & Ec). rewrite Ec.
  unfold SEGMENT_HDR_SIZE, MAX_SEG_DATA_SIZE in *.
  apply wp_bind. eapply wp_Done; [apply convert_to_datagram_run; unfold SEGMENT_HDR_SIZE; lia|].
  set (pkt := packet_of _ _ _ _ _).
  assert (Hpl : len + 20 = Z.of_nat (length (datagram_bytes pkt))).
  { rewrite datagram_bytes_length. subst pkt. cbn [packet_of dg_payload]. lia. }
  replace (u16 (FULL_HDR_SIZE + u16 (len - 20))) with (len + 20).
  2: { unfold FULL_HDR_SIZE, IP_HDR_SIZE, TCP_HDR_SIZE.
       rewrite (u16_small (len - 20)), u16_small by lia. lia. }
  apply wp_bind, send_pkt_spec; [done|].
  intros n s5 evs Hq Hio Hn. apply wp_ret. exists bits. split_and!; [done|done|].
  eapply silent_bits_after; [exact H04|]. split; [done|]. exists seg, evs.
  rewrite Eo, Ec. split_and!; [done|done|exact Hn].
Qed.

(** The rest of [conn_send]: what it does after a copy has been sent. *)
Lemma send_finish bs c len n s s' (level : Z) :
  SEGMENT_HDR_SIZE <= len ->
  (exists bits, maybe_flipped bs len bits /\ sent_bits c bits len n s s') ->
  wp (if bool_decide (0 < level) then exit_with 0
      else if n >=? TCP_HDR_SIZE
      then mret (n - (TCP_HDR_SIZE + IP_HDR_SIZE - SEGMENT_HDR_SIZE)) else mret n)
    (fun n s' => sent_one c bs len s s' /\ (n = -1 \/ n = len)) (sent_one c bs len s) s'.
Proof.
  unfold TCP_HDR_SIZE, IP_HDR_SIZE, SEGMENT_HDR_SIZE. intros Hlen (bits & Hm & Hb).
  pose proof (sent_bits_one _ _ _ _ _ _ _ Hm Hb) as H1.
  destruct Hb as [_ (seg & evs & _ & _ & Hn)].
  case_bool_decide; [exact H1|].
  destruct (Z.geb_spec n 20); apply wp_ret; (split; [exact H1|]); lia.
Qed.

Lemma wp_conn_send s l c bs len :
  conns s !! l = Some c -> cn_delete_me c = false -> Z.of_nat (length bs) = len ->
  SEGMENT_HDR_SIZE <= len <= SEGMENT_HDR_SIZE + MAX_SEG_DATA_SIZE ->
  wp (conn_send (Some l) (Some bs) len)
    (fun n s' => sent_one c bs len s s' /\ (n = -1 \/ n = len)) (sent_one c bs len s) s.
Proof.
  intros Hc Hdel Hl Hlen. unfold conn_send. cbn [deref].
  apply wp_bind, wp_ret, wp_bind. eapply wp_conn_load; [exact Hc|].
  rewrite Hdel. apply wp_bind, wp_ret, wp_bind, wp_access; [apply Z.leb_le; lia|].
  rewrite take_ge by lia. apply wp_bind, wp_gets. set (o := sys_options s).
  apply wp_bind, wp_happens. intros b1 s1 H1 _. destruct b1.
  { apply wp_bind, wp_did_it, wp_ret. split; [|by right].
    apply silent_sent. transitivity s1; [done|apply silent_did]. }
  apply wp_bind, wp_happens. intros b2 s2 H2 _. apply wp_bind.
  eapply wp_mono with (Q := fun level s3 => silent s s3).
  { destruct b2.
    - apply wp_bind, wp_did_it, wp_bind, wp_fork. intros pid s3 H3. apply wp_ret.
      transitivity (set_sys_did_unreliable true s2); [|done].
      transitivity s2; [by transitivity s1|apply silent_did].
    - apply wp_ret. by transitivity s1. }
  intros level s3 H3. cbv beta.
  apply wp_bind, wp_happens. intros b3 s4 H4 _. apply wp_bind.
  assert (H04 : silent s s4) by by transitivity s3.
  eapply wp_mono with (Q := fun level s5 => silent s s5).
  { destruct b3; [|by apply wp_ret].
    apply wp_bind, wp_did_it, wp_bind, wp_fork. intros pid s5 H5.
    assert (H05 : silent s s5).
    { transitivity (set_sys_did_unreliable true s4); [|done].
      transitivity s4; [done|apply silent_did]. }
    case_bool_decide; [|by apply wp_ret].
    apply wp_bind, wp_rand. intros r s6 _ H6. apply wp_ret. by transitivity s5. }
  intros [level'|] s5 H5; cbv beta iota.
  2: { apply wp_ret. split; [by apply silent_sent|by right]. }
  destruct (quiet_keeps _ _ (proj1 H5)) as (_ & _ & Eo & _).
  apply wp_bind. eapply wp_mono; [by apply send_copy_spec|].
  intros n s6 (bits & Hm & _ & Hb). apply send_finish; [lia|].
  exists bits. split; [done|]. by eapply silent_bits_after.
Qed.

(** C20: Whatever the network is told to do to the segments, [conn_send] sends at
    most one packet in each process: that of the segment, or of a copy with one
    bit flipped from the window field on. It changes nothing else of the
    memory, and returns the length, or -1; only a forked copy ends. *)
Theorem conn_send_sends s l c bs len :
  conns s !! l = Some c -> cn_delete_me c = false -> Z.of_nat (length bs) = len ->
  SEGMENT_HDR_SIZE <= len <= SEGMENT_HDR_SIZE + MAX_SEG_DATA_SIZE ->
  wp (conn_send (Some l) (Some bs) len)
    (fun n s' => sent_one c bs len s s' /\ (n = -1 \/ n = len)) (sent_one c bs len s) s.
Proof. apply wp_conn_send. Qed.

(** With every kind of unreliability turned off, [conn_send] sends the packet
    of the segment, as it is, and returns its length, or the system refuses it
    and it returns -1. *)
Theorem conn_send_reliable s l c bs len :
  conns s !! l = Some c -> cn_delete_me c = false -> Z.of_nat (length bs) = len ->
  SEGMENT_HDR_SIZE <= len <= SEGMENT_HDR_SIZE + MAX_SEG_DATA_SIZE ->
  opt_drop (sys_options s) = 0 -> opt_duplicate (sys_options s) = 0 ->
  opt_delay (sys_options s) = 0 -> opt_corrupt (sys_options s) = 0 ->
  wp (conn_send (Some l) (Some bs) len)
    (fun n s' => exists seg evs, segment_of_bytes bs = Some seg /\ sys_io s' = sys_io s ++ evs /\
       (packets evs = [] /\ n = -1 \/
        packets evs = [datagram_bytes (packet_of (sys_config s) (sys_options s) c seg
                         (packet_sum (sys_config s) (sys_options s) c seg))] /\ n = len))
    (fun _ => False) s.
Proof.
  intros Hc Hdel Hl Hlen Hd Hdup Hdel' Hcor. unfold conn_send. cbn [deref].
  apply wp_bind, wp_ret, wp_bind. eapply wp_conn_load; [exact Hc|].
  rewrite Hdel. apply wp_bind, wp_ret, wp_bind, wp_access; [apply Z.leb_le; lia|].
  rewrite take_ge by lia. apply wp_bind, wp_gets. rewrite Hd, Hdup, Hdel'.
  apply wp_bind, wp_happens. intros b1 s1 H1 E1. rewrite E1 by done.
  apply wp_bind, wp_happens. intros b2 s2 H2 E2. rewrite E2 by done.
  apply wp_bind, wp_ret, wp_bind, wp_happens. intros b3 s3 H3 E3. rewrite E3 by done.
  apply wp_bind, wp_ret. assert (H03 : silent s s3) by (transitivity s2; [by transitivity s1|done]).
  destruct (quiet_keeps _ _ (proj1 H03)) as (_ & _ & Eo & _).
  apply wp_bind. eapply wp_mono; [by apply send_copy_spec|].
  intros n s4 (bits & Hm & Hx & Hb). rewrite Hx in Hb by done.
  apply (silent_bits_after _ _ _ _ _ _ _ H03) in Hb as [_ (seg & evs & Hs & Hio & Hn)].
  rewrite bool_decide_false by lia. unfold TCP_HDR_SIZE, IP_HDR_SIZE, SEGMENT_HDR_SIZE in *.
  destruct Hn as [[Hp ->]|[Hp ->]].
  - apply wp_ret. exists seg, evs. auto.
  - rewrite (proj2 (Z.geb_le _ _)) by lia. apply wp_ret. exists seg, evs.
    split_and!; [done|done|]. right. split; [done|lia].
Qed.
End Send.
