(* ===== verification/ConnInput.v ===== *)
(** * Reading input on a connection

    [conn_input]: what it returns and records, the end of file, and the two
    ways in which it goes wrong on the terminal of a client of a web server. *)

From S2P Require Import Prelude Heap Words Cksum Segment ConnLib Ctcp Host Packet Conn Queue ConnInv.
From S2P Require Import PacketProps ConnSend.

Section Input.
Context {E : Type} `{!Os E, !OsLaws E}.
Implicit Types s : sys E.

(** What is known of the host after [bs] have been read; after the end of the
    input has been recorded. *)
Definition after_read (fd : Z) (bs : list byte) (env : E) s : sys E :=
  set_sys_io (sys_io s ++ [IoRead fd bs]) (set_sys_env env s).
Definition note_eof (l : loc) (c : conn) s : sys E :=
  with_conns (<[l := set_cn_read_eof true c]> (conns s)) s.

Lemma read_into_ok s fd buf off len bs env :
  os_read fd len (sys_env s) = (IoOk bs, env) ->
  off + Z.of_nat (length bs) <= Z.of_nat (length buf) ->
  read_into fd buf off len s =
  Done (Z.of_nat (length bs), 0, take (Z.to_nat off) buf ++ bs ++ drop (Z.to_nat off + length bs) buf)
    (after_read fd bs env s).
Proof.
  intros Hr Hlen. unfold read_into.
  erewrite (bind_Done _ _ s (IoOk bs))
    by (unfold call_read, syscall, mbind, M_bind; rewrite Hr; reflexivity).
  cbv beta iota. rewrite (proj2 (Z.leb_le _ _)) by done. done.
Qed.

Lemma read_into_err s fd buf off len errno env :
  os_read fd len (sys_env s) = (IoErr errno, env) ->
  read_into fd buf off len s = Done (-1, errno, buf) (set_sys_env env s).
Proof. intros Hr. unfold read_into, call_read, syscall, mbind, M_bind, mret, M_ret. by rewrite Hr. Qed.

(** Where the input of a connection comes from, line by line reading of a web
    client apart. *)
Definition input_fd (o : options) (c : conn) : Z :=
  if run_program o then cn_stdout c else STDIN_FILENO.

(** The connection after the end of file has been recorded. *)
Definition eof_recorded l s s' : Prop :=
  exists c, conns s !! l = Some c /\
    quiet (note_eof l c s) s'.

(** The results of [conn_input]: nothing to read; [bs] read; the end. *)
Definition input_nothing s (r : Z) (buf buf' : list byte) s' : Prop :=
  r = 0 /\ buf' = buf /\ sys_io s' = sys_io s /\ quiet s s'.
Definition input_some fd s (r : Z) (buf buf' : list byte) s' : Prop :=
  exists bs, bs <> [] /\ r = Z.of_nat (length bs) /\ buf' = bs ++ drop (length bs) buf /\
    sys_io s' = sys_io s ++ [IoRead fd bs] /\ quiet s s'.
Definition input_end l s (r : Z) s' : Prop := r = -1 /\ eof_recorded l s s'.

Lemma eof_quiet l c s s1 :
  conns s !! l = Some c -> quiet s s1 ->
  eof_recorded l s (note_eof l c s1).
Proof.
  intros Hc (env & io & d & ->). exists c. split; [done|]. exists env, io, d. done.
Qed.

(** Up to the reading part. *)
Lemma conn_input_start s l c buf len r errno buf' s1 :
  conns s !! l = Some c -> cn_delete_me c = false -> cn_read_eof c = false ->
  input_read (sys_options s) c buf len s = Done (r, errno, buf') s1 ->
  conn_input (Some l) (Some buf) len s =
  (eof ← (if bool_decide (r = 0) then mret true
          else if (r <? 0) && negb (bool_decide (errno = EAGAIN)) then mret true
          else if (test_debug_on (sys_options s) || lab5_mode (sys_options s)) && (r >? 0) then
            b ← deref (buf' !! 0%nat); mret (bool_decide (b2z b = 0x1a))
          else mret false);
   if eof : bool then
     on_conns (update l (set_cn_read_eof true));; mret (-1, buf')
   else if (r <? 0) && bool_decide (errno = EAGAIN) then mret (0, buf')
   else mret (r, buf')) s1.
Proof.
  intros Hc Hdel Heof Hr. unfold conn_input. cbn [deref].
  erewrite bind_Done by reflexivity.
  erewrite (bind_Done _ _ s c s) by (unfold on_conns, zoom, load; unfold conns in Hc; rewrite Hc; by destruct s).
  rewrite Hdel. erewrite bind_Done by reflexivity. rewrite Heof.
  erewrite bind_Done by reflexivity. by erewrite bind_Done by exact Hr.
Qed.

Lemma note_eof_run s l c (r : Z) (buf : list byte) :
  conns s !! l = Some c ->
  (on_conns (update l (set_cn_read_eof true));; mret (r, buf)) s = Done (r, buf) (note_eof l c s).
Proof.
  intros Hc. unfold on_conns, zoom, update, load, store, mbind, M_bind, mret, M_ret.
  unfold conns in Hc. rewrite Hc. cbn [mem]. rewrite Hc. reflexivity.
Qed.

(** What is read that stands for the end of the input. *)
Definition reads_end (o : options) (bs : list byte) : bool :=
  match bs with
  | [] => true
  | b :: _ => (test_debug_on o || lab5_mode o) && bool_decide (b2z b = 0x1a)
  end.

Lemma conn_input_run s l c buf len :
  conns s !! l = Some c -> cn_delete_me c = false ->
  run_program (sys_options s) || unix_socket (sys_options s) = true ->
  0 <= len <= Z.of_nat (length buf) ->
  let fd := input_fd (sys_options s) c in
  conn_input (Some l) (Some buf) len s =
  if cn_read_eof c then Done (-1, buf) s
  else
    match os_read fd len (sys_env s) with
    | (IoOk bs, env) =>
        let buf' := bs ++ drop (length bs) buf in
        if reads_end (sys_options s) bs then Done (-1, buf') (note_eof l c (after_read fd bs env s))
        else Done (Z.of_nat (length bs), buf') (after_read fd bs env s)
    | (IoErr errno, env) =>
        if bool_decide (errno = EAGAIN) then Done (0, buf) (set_sys_env env s)
        else Done (-1, buf) (note_eof l c (set_sys_env env s))
    end.
Proof.
  intros Hc Hdel Hmode Hlen fd. destruct (cn_read_eof c) eqn:Heof.
  { unfold conn_input. cbn [deref]. erewrite bind_Done by reflexivity.
    erewrite (bind_Done _ _ s c s) by (unfold on_conns, zoom, load; unfold conns in Hc; rewrite Hc; by destruct s).
    rewrite Hdel, Heof. by erewrite bind_Done by reflexivity. }
  assert (Hread : input_read (sys_options s) c buf len = read_into fd buf 0 len).
  { subst fd. unfold input_read, input_fd. destruct (run_program _); [done|]. by destruct (unix_socket _). }
  destruct (os_read fd len (sys_env s)) as [[bs|errno] env] eqn:Hos.
  - pose proof (os_read_law _ _ _ _ _ (proj1 Hlen) Hos) as Hl.
    erewrite (conn_input_start s l c) by first [done|rewrite Hread; apply read_into_ok; [exact Hos|lia]].
    change (Z.to_nat 0) with 0%nat. cbn [take app Nat.add]. destruct bs as [|b bs]; cbn [reads_end].
    + erewrite bind_Done by reflexivity. cbv iota. by rewrite (note_eof_run _ l c).
    + assert (Hpos : 0 < Z.of_nat (length (b :: bs))) by (simpl; lia).
      rewrite (bool_decide_false (_ = 0)) by lia. rewrite (proj2 (Z.ltb_ge _ 0)) by lia.
      rewrite (proj2 (Z.gtb_gt _ 0)) by lia. rewrite andb_true_r. cbn [andb].
      destruct (test_debug_on _ || lab5_mode _); cbn [andb]; [|done].
      change (((b :: bs) ++ drop (length (b :: bs)) buf) !! 0%nat) with (Some b). cbn [deref].
      erewrite bind_Done by (by erewrite bind_Done).
      destruct (bool_decide (b2z b = 0x1a)); [by rewrite (note_eof_run _ l c)|done].
  - erewrite (conn_input_start s l c) by first [done|rewrite Hread; by apply read_into_err].
    change (-1 <? 0) with true. change (-1 >? 0) with false. rewrite andb_false_r. cbn [andb].
    rewrite (bool_decide_false (-1 = 0)) by lia.
    destruct (bool_decide (errno = EAGAIN)); cbn [negb]; (erewrite bind_Done by reflexivity);
      cbv beta iota; [done|by rewrite (note_eof_run _ l c)].
Qed.

Lemma after_read_quiet fd bs env s : quiet s (after_read fd bs env s).
Proof. transitivity (set_sys_env env s); unfold after_read; auto with ctcp. Qed.

Lemma wp_conn_input s l c buf len :
  conns s !! l = Some c -> cn_delete_me c = false ->
  run_program (sys_options s) || unix_socket (sys_options s) = true ->
  0 <= len <= Z.of_nat (length buf) ->
  wp (conn_input (Some l) (Some buf) len)
    (fun '(r, buf') s' =>
       length buf' = length buf /\ -1 <= r <= len /\
       if cn_read_eof c then r = -1 /\ buf' = buf /\ s' = s
       else
         input_nothing s r buf buf' s' \/
         input_some (input_fd (sys_options s) c) s r buf buf' s' \/
         input_end l s r s') (fun _ => False) s.
Proof.
  intros Hc Hdel Hmode Hlen. unfold wp. rewrite (conn_input_run s l c) by done.
  destruct (cn_read_eof c); [auto with lia|].
  destruct (os_read _ _ _) as [[bs|errno] env] eqn:Hos.
  - pose proof (os_read_law _ _ _ _ _ (proj1 Hlen) Hos) as Hl.
    assert (Hb : length (bs ++ drop (length bs) buf) = length buf)
      by (rewrite length_app, length_drop; lia).
    cbv zeta. destruct (reads_end _ bs) eqn:He; (split; [done|]); (split; [lia|]).
    + right. right. split; [done|]. apply eof_quiet; [done|apply after_read_quiet].
    + right. left. exists bs. split; [by intros ->|]. split_and!; try done. apply after_read_quiet.
  - case_bool_decide; (split; [done|]); (split; [lia|]).
    + left. split_and!; try done. auto with ctcp.
    + right. right. split; [done|]. apply eof_quiet; [done|auto with ctcp].
Qed.

(** C22: off the web, [conn_input] makes one read of the program or the terminal,
    unless the end of the input has been recorded: then it returns -1 without
    reading. When the read gives bytes, they are put at the front of the buffer
    and their number is returned, except that no bytes at all, or bytes that
    begin with 0x1a where the tester or lab 5 is on, are the end of the input; an
    error is the end of the input too, except [EAGAIN], for which 0 is returned
    and nothing changes. The end of the input is recorded and -1 returned. *)
Theorem conn_input_spec s l c buf len :
  conns s !! l = Some c -> cn_delete_me c = false ->
  run_program (sys_options s) || unix_socket (sys_options s) = true ->
  0 <= len <= Z.of_nat (length buf) ->
  let fd := input_fd (sys_options s) c in
  conn_input (Some l) (Some buf) len s =
  if cn_read_eof c then Done (-1, buf) s
  else
    match os_read fd len (sys_env s) with
    | (IoOk bs, env) =>
        let buf' := bs ++ drop (length bs) buf in
        if reads_end (sys_options s) bs then Done (-1, buf') (note_eof l c (after_read fd bs env s))
        else Done (Z.of_nat (length bs), buf') (after_read fd bs env s)
    | (IoErr errno, env) =>
        if bool_decide (errno = EAGAIN) then Done (0, buf) (set_sys_env env s)
        else Done (-1, buf) (note_eof l c (set_sys_env env s))
    end.
Proof. apply conn_input_run. Qed.
End Input.

(** ** The terminal of a client of a web server *)

Section Web.
Context {E : Type} `{!Os E}.
Implicit Types s : sys E.

(** A client on the web with input to read. *)
Record web_client s l c : Prop := WebClient {
  wc_conn : conns s !! l = Some c;
  wc_open : cn_delete_me c = false;
  wc_more : cn_read_eof c = false;
  wc_program : run_program (sys_options s) = false;
  wc_web : unix_socket (sys_options s) = false;
}.

(** C35: A line of 1439 bytes, newline included, overflows the buffer of a segment:
    the network line ending needs two bytes more. *)
Theorem conn_input_web_overflow s l c buf line env :
  web_client s l c -> Z.of_nat (length buf) = MAX_SEG_DATA_SIZE ->
  Z.of_nat (length line) = MAX_SEG_DATA_SIZE - 2 ->
  os_read STDIN_FILENO (MAX_SEG_DATA_SIZE - 1) (sys_env s) = (IoOk (line ++ [Byte.x0a]), env) ->
  conn_input (Some l) (Some buf) MAX_SEG_DATA_SIZE s = Undef.
Proof.
  unfold MAX_SEG_DATA_SIZE. intros Hw Hbuf Hline Hr.
  assert (Hu : input_read (sys_options s) c buf 1440 s = Undef).
  { destruct Hw as [_ _ _ Hrp Hun]. unfold input_read. rewrite Hrp, Hun.
    erewrite bind_Done by
      (apply read_into_ok; [exact Hr|rewrite length_app; simpl; lia]).
    cbv beta iota. rewrite (proj2 (Z.gtb_gt _ 0)) by (rewrite length_app; simpl; lia).
    apply bind_Undef. rewrite length_app. cbn [length]. rewrite Nat2Z.inj_add.
    change (Z.to_nat 0) with 0%nat. rewrite take_0, <- app_assoc. cbn [app].
    rewrite (line_ending_run _ line (drop (0 + (length line + 1)) buf)).
    destruct (drop _ buf) as [|b1 [|b2 rest]] eqn:Ed; [done|done|exfalso].
    apply (f_equal length) in Ed. rewrite length_drop in Ed. simpl in Ed. lia. }
  destruct Hw as [Hc Hdel Heof _ _]. unfold conn_input. cbn [deref].
  erewrite bind_Done by reflexivity.
  erewrite (bind_Done _ _ s c s) by (unfold on_conns, zoom, load; unfold conns in Hc; rewrite Hc; by destruct s).
  rewrite Hdel. erewrite bind_Done by reflexivity. rewrite Heof.
  erewrite bind_Done by reflexivity. by apply bind_Undef.
Qed.

(** Input on the web that does not end in a newline loses its last byte when
    nothing more can be read at once, as the -1 of the second read is added to
    the length; a single byte is taken for the end of the input. *)
Theorem conn_input_web_last_byte s l c buf bs b env1 env2 :
  web_client s l c -> Z.of_nat (length buf) = MAX_SEG_DATA_SIZE ->
  Z.of_nat (length bs) < MAX_SEG_DATA_SIZE - 1 -> b2z b <> 10 ->
  test_debug_on (sys_options s) = false -> lab5_mode (sys_options s) = false ->
  os_read STDIN_FILENO (MAX_SEG_DATA_SIZE - 1) (sys_env s) = (IoOk (bs ++ [b]), env1) ->
  os_read STDIN_FILENO 1 env1 = (IoErr EAGAIN, env2) ->
  exists s', conn_input (Some l) (Some buf) MAX_SEG_DATA_SIZE s =
    Done (if decide (bs = []) then -1 else Z.of_nat (length bs),
          (bs ++ [b]) ++ drop (length bs + 1) buf) s' /\
    (bs = [] -> conns s' !! l = Some (set_cn_read_eof true c)).
Proof.
  unfold MAX_SEG_DATA_SIZE. intros Hw Hbuf Hlen Hb Ht H5 Hr1 Hr2.
  set (buf1 := (bs ++ [b]) ++ drop (length bs + 1) buf).
  set (s1 := after_read STDIN_FILENO (bs ++ [b]) env1 s).
  set (s2 := set_sys_env env2 s1).
  assert (Hread : input_read (sys_options s) c buf 1440 s =
                  Done (Z.of_nat (length bs), EAGAIN, buf1) s2).
  { pose proof Hw as [_ _ _ Hrp Hun]. unfold input_read. rewrite Hrp, Hun.
    erewrite bind_Done by (apply read_into_ok; [exact Hr1|rewrite length_app; simpl; lia]).
    cbv beta iota. fold s1. rewrite length_app. cbn [length]. rewrite Nat2Z.inj_add.
    change (Z.of_nat 1) with 1. change (Z.to_nat 0) with 0%nat. rewrite take_0.
    cbn [app Nat.add]. fold buf1.
    rewrite (proj2 (Z.gtb_gt _ 0)) by lia.
    erewrite (bind_Done _ _ s1 (false, buf1) s1).
    2: { unfold add_network_line_ending. cbn [negb]. rewrite bool_decide_true by lia.
         replace (Z.to_nat (Z.of_nat (length bs) + 1 - 1)) with (length bs) by lia.
         unfold buf1. rewrite <- app_assoc.
         change ([b] ++ drop (length bs + 1) buf) with (b :: drop (length bs + 1) buf).
         rewrite list_lookup_middle by done. cbn [deref].
         erewrite bind_Done by reflexivity. by rewrite bool_decide_false. }
    cbv beta iota. erewrite bind_Done by (apply read_into_err; exact Hr2).
    unfold mret, M_ret. do 4 f_equal. lia. }
  pose proof (wc_conn _ _ _ Hw) as Hc.
  rewrite (conn_input_start _ _ _ _ _ _ _ _ _ Hc (wc_open _ _ _ Hw) (wc_more _ _ _ Hw) Hread), Ht, H5.
  cbn [orb andb].
  destruct (decide (bs = [])) as [->|Hne].
  - cbn [length]. rewrite bool_decide_true by done. erewrite bind_Done by reflexivity.
    eexists. split; [by apply (note_eof_run s2 l c)|]. intros _. apply lookup_insert_eq.
  - assert (0 < length bs)%nat by (destruct bs; [done|simpl; lia]). rewrite (bool_decide_false (Z.of_nat (length bs) = 0)) by lia.
    rewrite (proj2 (Z.ltb_ge _ 0)) by lia. cbn [andb].
    erewrite bind_Done by reflexivity. cbv beta iota. eexists. split; [done|done].
Qed.
End Web.
