(* ===== verification/ConnLaws.v ===== *)
(** * The library keeps its contract

    The end of connections, and the instance of the interface of [ConnLib.v]
    that [ctcp.c] runs against: the functions of [Conn.v] satisfy the laws that
    the proofs about [ctcp.c] assume. *)

From S2P Require Import Prelude Heap Words Cksum Segment ConnLib Ctcp Host Packet Conn Queue ConnInv.
From S2P Require Import ConnOut ConnSend ConnInput.

(** ** Freeing a connection *)

Lemma free_chunks_run q : forall fuel h,
  qchain (mem h) q -> NoDup (locs q) -> (length q <= fuel)%nat ->
  exists h', free_chunks fuel (qhead q) h = Done tt h' /\ brk h' = brk h /\
    forall k, mem h' !! k = if decide (k ∈ locs q) then None else mem h !! k.
Proof.
  induction q as [|e q IH]; intros fuel h Hq Hnd Hf.
  - exists h. destruct fuel; (split_and!; [done|done|]); intros k;
      by rewrite decide_False by apply not_elem_of_nil.
  - destruct Hq as (Hm & Hwf & Hq). cbn in Hnd. apply NoDup_cons in Hnd as [Hn Hnd].
    destruct fuel as [|fuel]; [simpl in Hf; lia|].
    set (h1 := Heap (delete (en_loc e) (mem h)) (brk h)).
    destruct (IH fuel h1) as (h' & Hr & Hb & Hk); [by apply qchain_delete|done|simpl in Hf; lia|].
    exists h'. split_and!.
    + cbn [qhead head fmap option_fmap option_map free_chunks].
      erewrite bind_Done by (unfold load; rewrite Hm; reflexivity).
      erewrite bind_Done by (unfold free; rewrite Hm; reflexivity). exact Hr.
    + done.
    + intros k. rewrite Hk. unfold h1. cbn [mem locs fmap list_fmap].
      destruct (decide (k = en_loc e)) as [->|Hne].
      * rewrite decide_False by done. rewrite lookup_delete_eq.
        by rewrite decide_True by apply list_elem_of_here.
      * rewrite lookup_delete_ne by done.
        destruct (decide (k ∈ locs q)) as [Hi|Hi].
        -- by rewrite decide_True by (by apply list_elem_of_further).
        -- rewrite decide_False; [done|]. by intros [?|?]%elem_of_cons.
Qed.

Section Free.
Context {E : Type} `{!Os E, !OsLaws E}.
Implicit Types s : sys E.

(** A connection that is alone in its list. *)
Definition alone s l c : Prop :=
  conns s !! l = Some c /\ cn_next c = None /\ cn_prev c = CPrevNull.

(** What is left once connection [l] has been freed. *)
Record freed (Q : gmap loc (list entry)) l s s' : Prop := Freed {
  fr_inv : sys_inv (delete l Q) s';
  fr_conns : conns s' = delete l (conns s);
  fr_options : sys_options s' = sys_options s;
}.

Lemma sys_inv_freed Q s s' l c q :
  sys_inv Q s -> conns s !! l = Some c -> Q !! l = Some q ->
  sys_conns s' = Heap (delete l (conns s)) (brk (sys_conns s)) ->
  brk (sys_chunks s') = brk (sys_chunks s) ->
  (forall k, chunks s' !! k = if decide (k ∈ locs q) then None else chunks s !! k) ->
  sys_options s' = sys_options s -> sys_events s' = sys_events s ->
  (SERVER (sys_options s) = false -> sconn (sys_config s') = None) ->
  freed Q l s s'.
Proof.
  intros Hi Hc HQ Econn Ebrk Hch Eo Ee Hcl. split; [|by unfold conns; rewrite Econn|done].
  pose proof Hi as [Hw1 Hw2 Hq Hsep Hlive Hev Hstdin _].
  assert (Hin : forall k, is_Some (chunks s' !! k) -> chunks s' !! k = chunks s !! k).
  { intros k. rewrite Hch. destruct (decide _); [by intros [??]|done]. }
  split.
  - rewrite Econn. by apply heap_wf_delete.
  - intros k Hk. rewrite Ebrk. apply Hw2. change (is_Some (chunks s !! k)). rewrite <- Hin; done.
  - intros l2 c2. unfold conns. rewrite Econn. cbn [mem].
    intros [Hne Hc2]%lookup_delete_Some.
    destruct (Hq _ _ Hc2) as (q2 & HQ2 & [Hh Ht Hqc Hnd Hb]).
    exists q2. rewrite lookup_delete_ne by done. split; [done|]. split; try done.
    assert (Hd : forall k, k ∈ locs q2 -> k ∈ locs q -> False).
    { intros k H2 H1. apply Hne. by eapply Hsep. }
    clear -Hqc Hch Hd. induction q2 as [|e q2 IH]; [done|]. destruct Hqc as (Hm & Hwf & Hqc).
    split_and!; [|done|].
    + rewrite Hch, decide_False; [done|]. intros Hk. apply (Hd (en_loc e)); [|done].
      apply list_elem_of_here.
    + apply IH; [done|]. intros k Hk. by apply Hd, list_elem_of_further.
  - intros l1 l2 q1 q2 k [_ H1]%lookup_delete_Some [_ H2]%lookup_delete_Some. eauto.
  - intros l2 [q2 [Hne H2]%lookup_delete_Some]. unfold conns. rewrite Econn. cbn [mem].
    rewrite lookup_delete_ne by done. eauto.
  - by rewrite Ee.
  - intros l2 c2. unfold conns. rewrite Econn, Eo. cbn [mem].
    intros [_ Hc2]%lookup_delete_Some. eauto.
  - rewrite Eo. intros Hs. by rewrite Hcl.
Qed.

Lemma wp_conn_free_client Q s l c :
  sys_inv Q s -> SERVER (sys_options s) = false ->
  sconn (sys_config s) = Some l -> alone s l c ->
  wp (conn_free l)
    (fun _ s' => freed Q l s s' /\ sconn (sys_config s') = None /\
       socket (sys_config s') = socket (sys_config s))
    (fun _ => False) s.
Proof.
  intros Hi Hsrv Hsc (Hc & Hn & Hp). destruct (si_queue _ _ Hi _ _ Hc) as (q & HQ & Hq).
  pose proof Hq as [Hh _ Hqc Hnd _]. unfold conn_free.
  apply wp_bind. eapply wp_conn_load; [exact Hc|]. apply wp_bind. unfold queue_fuel.
  apply wp_gets, wp_bind. rewrite Hh.
  destruct (free_chunks_run q (S (size (mem (sys_chunks s)))) (sys_chunks s))
    as (h' & Hr & Hb & Hk); [done|done|pose proof (qchain_size _ _ Hqc Hnd); unfold chunks in *; lia|].
  apply wp_zoom. eapply wp_Done; [exact Hr|]. rewrite Hn.
  apply wp_bind, wp_ret, wp_bind. eapply wp_conn_load; [exact Hc|]. rewrite Hp.
  apply wp_bind, wp_ret, wp_bind. unfold get_connections. apply wp_bind, wp_opt.
  change (sys_options (set_sys_chunks h' s)) with (sys_options s). rewrite Hsrv.
  apply wp_conf. change (sys_config (set_sys_chunks h' s)) with (sys_config s).
  rewrite Hsc, bool_decide_true by done. apply wp_bind. unfold when, set_head.
  apply wp_bind, wp_opt. change (sys_options (set_sys_chunks h' s)) with (sys_options s).
  rewrite Hsrv. apply wp_modify, wp_bind, wp_opt, wp_bind.
  assert (Hlast : forall io, wp (on_conns (free (Some l)))
     (fun _ s' => freed Q l s s' /\ sconn (sys_config s') = None /\
        socket (sys_config s') = socket (sys_config s)) (fun _ => False)
     (set_sys_io io (set_sys_config (set_sconn None (sys_config s)) (set_sys_chunks h' s)))).
  { intros io. apply wp_zoom, wp_free; [exists c; exact Hc|].
    split_and!; [|done|done]. by eapply (sys_inv_freed Q s _ l c q). }
  apply wp_when; intros _.
  - unfold close. apply wp_bind, wp_modify, wp_modify, Hlast.
  - apply (Hlast (sys_io s)).
Qed.

(** Freeing the connection of a client frees its queue and the connection
    itself, each chunk once, and leaves the client without a connection. *)
Theorem conn_free_client Q s l c :
  sys_inv Q s -> SERVER (sys_options s) = false ->
  sconn (sys_config s) = Some l -> alone s l c ->
  wp (conn_free l)
    (fun _ s' => freed Q l s s' /\ sconn (sys_config s') = None /\
       socket (sys_config s') = socket (sys_config s))
    (fun _ => False) s.
Proof. apply wp_conn_free_client. Qed.

Lemma end_client_spec Q s :
  sys_inv Q s ->
  wp end_client (fun _ s' => SERVER (sys_options s) = true /\ s' = s) (fun _ => True) s.
Proof.
  intros Hi. unfold end_client. apply wp_bind, wp_opt. destruct (SERVER (sys_options s)) eqn:Hs.
  { by apply wp_ret. }
  apply wp_bind. unfold delete_all_connections, get_connections.
  apply wp_bind, wp_bind, wp_opt. rewrite Hs. apply wp_conf, wp_bind. unfold list_fuel.
  apply wp_gets. pose proof (si_client _ _ Hi Hs) as Hcl.
  assert (Hend : forall s', wp (fd ← conf socket; close fd;; exit_with (A := unit) EXIT_SUCCESS)
    (fun _ s' => false = true /\ s' = s) (fun _ => True) s').
  { intros s'. apply wp_bind, wp_conf, wp_bind. by apply wp_modify, wp_exit. }
  destruct (sconn (sys_config s)) as [l|] eqn:Hl; [|by apply wp_ret, Hend].
  destruct Hcl as (c & Hc & Hn & Hp). cbn [delete_loop]. apply wp_bind.
  eapply wp_conn_load; [exact Hc|]. rewrite Hn. apply wp_bind, wp_when; intros _.
  - eapply wp_mono_exit; [by eapply wp_conn_free_client|done|].
    intros [] s' _. destruct (size _); by apply wp_ret, Hend.
  - destruct (size _); by apply wp_ret, Hend.
Qed.
End Free.

(** ** Adding connections *)

Section Add.
Context {E : Type} `{!Os E, !OsLaws E}.
Implicit Types s : sys E.

(** The head of the list, as [get_connections] reads it. *)
Definition head_of s : ptr :=
  if SERVER (sys_options s) then connections (sys_config s) else sconn (sys_config s).

Lemma get_connections_run s : get_connections s = Done (head_of s) s.
Proof.
  unfold get_connections, opt, conf, gets, mbind, M_bind, head_of.
  by destruct (SERVER (sys_options s)).
Qed.

(** [conn_add] puts a connection at the head of the list, before the old head,
    which points back to it, and gives it an empty queue; its own back pointer
    is the address of a variable that is dead on return. *)
Theorem conn_add_spec s l c :
  conns s !! l = Some c -> head_of s <> Some l ->
  (forall h, head_of s = Some h -> is_Some (conns s !! h)) ->
  wp (conn_add l)
    (fun _ s' =>
       head_of s' = Some l /\
       conns s' !! l = Some (set_cn_out_queue_tail TailQueue
                         (set_cn_next (head_of s) (set_cn_prev CPrevLocal c))) /\
       (forall h ch, head_of s = Some h -> conns s !! h = Some ch ->
          conns s' !! h = Some (set_cn_prev (CPrevNext l) ch)) /\
       (forall k, k <> l -> head_of s <> Some k -> conns s' !! k = conns s !! k) /\
       sys_chunks s' = sys_chunks s)
    (fun _ => False) s.
Proof.
  intros Hc Hne Hh. unfold conn_add. apply wp_bind. eapply wp_Done; [apply get_connections_run|].
  rewrite bool_decide_false by done. cbn [negb when].
  set (c1 := set_cn_next (head_of s) (set_cn_prev CPrevLocal c)).
  set (s1 := with_conns (<[l := set_cn_prev CPrevLocal c]> (conns s)) s).
  set (s2 := with_conns (<[l := c1]> (conns s1)) s1).
  assert (Hset : forall s3 c3, conns s3 !! l = Some c3 -> sys_options s3 = sys_options s ->
    wp (on_conns (update l (set_cn_out_queue_tail TailQueue));; set_head (Some l))
      (fun _ s' => head_of s' = Some l /\
         conns s' = <[l := set_cn_out_queue_tail TailQueue c3]> (conns s3) /\
         sys_chunks s' = sys_chunks s3) (fun _ => False) s3).
  { intros s3 c3 Hc3 Eo. apply wp_bind. eapply wp_conn_update; [exact Hc3|].
    unfold set_head. apply wp_bind, wp_opt. unfold head_of.
    set (s4 := with_conns _ _). change (sys_options s4) with (sys_options s3). rewrite Eo.
    destruct (SERVER (sys_options s)) eqn:Es; apply wp_modify;
      change (sys_options (set_sys_config _ s4)) with (sys_options s3); rewrite Eo, Es; done. }
  assert (Hc2 : conns s2 !! l = Some c1) by apply lookup_insert_eq.
  assert (Hother : forall k, k <> l -> conns s2 !! k = conns s !! k).
  { intros k Hk. refine (eq_trans (lookup_insert_ne _ _ _ _ _) (lookup_insert_ne _ _ _ _ _)); done. }
  apply wp_bind, wp_bind. eapply wp_conn_update; [exact Hc|]. fold (conns s) s1.
  apply wp_bind. eapply wp_conn_update; [apply lookup_insert_eq|]. fold c1. fold (conns s1) s2.
  destruct (head_of s) as [h|] eqn:Eh.
  - destruct (Hh h eq_refl) as [ch Hch]. assert (Hlh : h <> l) by congruence.
    rewrite <- Hother in Hch by done. eapply wp_conn_update; [exact Hch|].
    set (s3 := with_conns _ _). assert (Hc3 : conns s3 !! l = Some c1).
    { refine (eq_trans (lookup_insert_ne _ _ _ _ _) Hc2). done. }
    eapply wp_mono; [by eapply Hset|]. intros [] s' (H1 & H2 & H3).
    split_and!; [done|by rewrite H2, lookup_insert_eq| | |done].
    + intros h' ch' [= <-] Hch'. rewrite H2, lookup_insert_ne by done.
      rewrite <- Hother in Hch' by done. rewrite Hch in Hch'. injection Hch' as <-.
      apply lookup_insert_eq.
    + intros k Hk Hk'. rewrite H2, lookup_insert_ne by done.
      rewrite <- Hother by done. apply lookup_insert_ne. congruence.
  - apply wp_ret. eapply wp_mono; [by eapply Hset|]. intros [] s' (H1 & H2 & H3).
    split_and!; [done|by rewrite H2, lookup_insert_eq|done| |done].
    intros k Hk _. rewrite H2, lookup_insert_ne by done. by apply Hother.
Qed.

(** [conn_free] writes through the back pointer: through the address of a
    variable that no longer exists, where that is what it is. *)
Lemma conn_free_local Q s l c :
  sys_inv Q s -> conns s !! l = Some c -> cn_prev c = CPrevLocal ->
  (forall n, cn_next c = Some n -> n <> l /\ is_Some (conns s !! n)) ->
  conn_free l s = Undef.
Proof.
  intros Hi Hc Hp Hn. destruct (si_queue _ _ Hi _ _ Hc) as (q & HQ & Hq).
  pose proof Hq as [Hh _ Hqc Hnd _]. unfold conn_free.
  assert (Hload : forall s', conns s' !! l = Some c -> on_conns (load l) s' = Done c s').
  { intros s' Hc'. unfold on_conns, zoom, load. unfold conns in Hc'. rewrite Hc'. by destruct s'. }
  erewrite bind_Done by (by apply Hload).
  erewrite (bind_Done _ _ s (S (size (mem (sys_chunks s)))) s) by reflexivity.
  rewrite Hh.
  destruct (free_chunks_run q (S (size (mem (sys_chunks s)))) (sys_chunks s))
    as (h' & Hr & Hb & Hk); [done|done|pose proof (qchain_size _ _ Hqc Hnd); unfold chunks in *; lia|].
  set (s1 := set_sys_chunks h' s).
  erewrite (bind_Done _ _ s tt s1) by (unfold on_chunks, zoom; by rewrite Hr).
  assert (Hs2 : exists s2, match cn_next c with
     | Some n => on_conns (update n (set_cn_prev (cn_prev c)))
     | None => mret tt end s1 = Done tt s2 /\ conns s2 !! l = Some c).
  { destruct (cn_next c) as [n|] eqn:En; [|by exists s1].
    destruct (Hn n eq_refl) as [Hne [cn Hcn]].
    exists (with_conns (<[n := set_cn_prev (cn_prev c) cn]> (conns s1)) s1). split.
    - unfold on_conns, zoom, update, load, store, mbind, M_bind. unfold conns in Hcn.
      cbn [s1 set_sys_chunks sys_conns]. rewrite Hcn. by rewrite Hcn.
    - refine (eq_trans (lookup_insert_ne _ _ _ _ _) Hc). done. }
  destruct Hs2 as (s2 & Hr2 & Hc2). erewrite bind_Done by exact Hr2.
  erewrite bind_Done by (by apply Hload). rewrite Hp. by apply bind_Undef.
Qed.
End Add.

(** ** The instance *)

Section Instance.
Context {E : Type} `{!Os E, !OsLaws E}.
Implicit Types s : sys E.

#[export] Instance sys_lib : ConnLib (sys E) := {|
  ConnLib.conn_input := conn_input;
  ConnLib.conn_send := conn_send;
  ConnLib.conn_output := conn_output;
  ConnLib.conn_bufspace := conn_bufspace;
  ConnLib.conn_remove := conn_remove;
  ConnLib.end_client := end_client;
|}.

(** The invariant, off the web. *)
Definition sys_ok s : Prop :=
  (exists Q, sys_inv Q s) /\
  run_program (sys_options s) || unix_socket (sys_options s) = true.

Definition sys_open s (p : ptr) : Prop :=
  exists l c, p = Some l /\ conns s !! l = Some c /\ cn_delete_me c = false.

(** What a call that touches one connection, and does not close it, keeps. *)
Lemma touched_open l s s' c c' p :
  touched l s s' -> conns s !! l = Some c -> conns s' !! l = Some c' ->
  (cn_delete_me c = false -> cn_delete_me c' = false) ->
  sys_open s p -> sys_open s' p.
Proof.
  intros Ht Hc Hc' Hd (l0 & c0 & -> & Hc0 & Hd0).
  destruct (decide (l0 = l)) as [->|Hne].
  - exists l, c'. split_and!; [done|done|]. apply Hd. congruence.
  - exists l0, c0. split_and!; [done| |done]. by rewrite (tc_conns _ _ _ Ht).
Qed.

Lemma streamed_ok Q l c c' q q' new bss s s' :
  sys_ok s -> conns s !! l = Some c -> streamed Q l c c' q q' new bss s s' ->
  sys_ok s' /\ (forall p, sys_open s p -> sys_open s' p).
Proof.
  intros [_ Hm] Hc H. split.
  - split; [eexists; apply H|]. by rewrite (tc_options _ _ _ (sd_touched _ _ _ _ _ _ _ _ _ _ H)).
  - intros p. eapply touched_open; [apply H|exact Hc|apply H|].
    intros Hd. by destruct (only_output_keeps _ _ (sd_only _ _ _ _ _ _ _ _ _ _ H)) as (_ & _ & _ & ->).
Qed.

Lemma quiet_ok s s' : quiet s s' -> sys_ok s -> sys_ok s' /\ (forall p, sys_open s p -> sys_open s' p).
Proof.
  intros Hq [[Q Hi] Hm]. destruct (quiet_keeps _ _ Hq) as (Ec & _ & Eo & _). split.
  - split; [exists Q; by eapply quiet_inv|]. by rewrite Eo.
  - intros p. unfold sys_open, conns. by rewrite Ec.
Qed.

(** An update of a flag of an open connection. *)
Lemma flag_ok s l c f :
  sys_ok s -> conns s !! l = Some c ->
  cn_next (f c) = cn_next c -> cn_prev (f c) = cn_prev c -> cn_stdin (f c) = cn_stdin c ->
  cn_out_queue (f c) = cn_out_queue c -> cn_out_queue_tail (f c) = cn_out_queue_tail c ->
  sys_ok (with_conns (<[l := f c]> (conns s)) s).
Proof.
  intros [[Q Hi] Hm] Hc En Ep Es Eq Et. split; [|done]. exists Q.
  eapply (sys_inv_conn Q s _ l c (f c)); try done; [touch|apply lookup_insert_eq].
Qed.

#[export] Program Instance sys_laws : ConnLaws (sys E) := {|
  lib_inv := sys_ok;
  conn_open := sys_open;
  end_returns s := SERVER (sys_options s) = true;
|}.
Next Obligation.
  intros p buf s Hok (l & c & -> & Hc & Hd) Hb. cbn [ConnLib.conn_input sys_lib].
  eapply wp_mono_exit; [apply (wp_conn_input s l c); [done|done|apply Hok|]|done|].
  { unfold MAX_SEG_DATA_SIZE in *. lia. }
  intros [r buf'] s' (Hl & Hr & H).
  assert (H' : sys_ok s' /\ (forall c', sys_open s c' -> sys_open s' c')).
  { destruct (cn_read_eof c); [destruct H as (_ & _ & ->); auto|].
    destruct H as [(_ & _ & _ & Hq)|[(bs & _ & _ & _ & _ & Hq)|[_ (c1 & Hc1 & Hq)]]];
      [by apply quiet_ok|by apply quiet_ok|].
    destruct (quiet_ok _ _ Hq) as [H1 H2]; [by apply flag_ok|]. split; [done|].
    intros p Hp. apply H2. eapply touched_open; [|exact Hc1|apply lookup_insert_eq|done|done]. touch. }
  destruct H'. split_and!; [done|done|done|]. lia.
Qed.
Next Obligation.
  intros p seg len s Hok (l & c & -> & Hc & Hd) Hl Hlen. cbn [ConnLib.conn_send sys_lib].
  eapply wp_mono_exit; [by apply (wp_conn_send s l c seg len)|done|].
  intros n s' [[Hq _] _]. by apply quiet_ok.
Qed.
Next Obligation.
  intros p buf len s Hok (l & c & -> & Hc & Hd) Hlen Hmax. cbn [ConnLib.conn_output sys_lib].
  pose proof Hok as [[Q Hi] _]. destruct (si_queue _ _ Hi _ _ Hc) as (q & HQ & Hq).
  assert (Hrest : forall r s', (sys_ok s' /\ (forall c', sys_open s c' -> sys_open s' c')) ->
     (len = 0 -> r = 0) -> (r = -1 \/ r = 0 \/ r = len) ->
     sys_ok s' /\ (forall c', sys_open s c' -> sys_open s' c') /\
     (len = 0 -> r = 0) /\ (r = -1 \/ r = 0 \/ r = len)) by (intros ? ? [] ? ?; auto).
  destruct (decide (cn_wrote_eof c = false /\ len <> 0 /\ cn_wrote_err c = false))
    as [(He & Hz & Hr)|Hn].
  - eapply wp_mono_exit; [apply (wp_conn_output Q s l c q); (done || lia)|done|].
    intros r s' [(-> & -> & _)|[(-> & c' & q' & bss & H & _)|(-> & H)]];
      (apply Hrest; [|lia|lia]); [auto|by eapply streamed_ok|by eapply streamed_ok].
  - unfold conn_output. cbn [deref]. apply wp_bind, wp_ret, wp_bind.
    eapply wp_conn_load; [exact Hc|]. rewrite Hd. apply wp_bind, wp_ret.
    destruct (cn_wrote_eof c); [apply wp_ret, Hrest; auto|].
    case_bool_decide as Hz.
    + apply wp_bind. eapply wp_conn_update; [exact Hc|]. apply wp_ret, Hrest; [|auto|auto].
      split; [by apply flag_ok|]. intros p.
      eapply touched_open; [|exact Hc|apply lookup_insert_eq|done]. touch.
    + destruct (cn_wrote_err c); [apply wp_ret, Hrest; auto; lia|]. exfalso. auto.
Qed.
Next Obligation.
  intros p s [[Q Hi] _] (l & c & -> & Hc & Hd). cbn [ConnLib.conn_bufspace sys_lib].
  destruct (si_queue _ _ Hi _ _ Hc) as (q & HQ & Hq).
  exists (bufspace_of q). split; [by eapply conn_bufspace_run|].
  unfold bufspace_of. unfold MAX_BUF_SPACE. lia.
Qed.
Next Obligation.
  intros p s Hok (l & c & -> & Hc & Hd). cbn [ConnLib.conn_remove sys_lib].
  unfold conn_remove. cbn [deref]. apply wp_bind, wp_ret. eapply wp_conn_update; [exact Hc|].
  split; [by apply flag_ok|]. intros p Hne (l0 & c0 & -> & Hc0 & Hd0).
  exists l0, c0. split_and!; [done| |done]. refine (eq_trans (lookup_insert_ne _ _ _ _ _) Hc0).
  congruence.
Qed.
Next Obligation.
  intros s Hok. pose proof Hok as [[Q Hi] _]. cbn [ConnLib.end_client sys_lib].
  eapply wp_mono_exit; [by apply (end_client_spec Q)|done|]. by intros [] s' [? ->].
Qed.
End Instance.
