(* ===== verification/ConnScript.v ===== *)
(** * An operating system that follows a script, and the theorems on it

    An instance of the interface of [Host.v] that keeps its laws: what is read
    and received, how much of a write is taken, what [sendto] answers and the
    random numbers are given in advance. The theorems about connections are
    tried on it. *)

From S2P Require Import Prelude Heap Words Cksum Segment ConnLib Ctcp Host Packet Conn Queue ConnInv.
From S2P Require Import PacketProps ConnOut ConnSend ConnInput ConnLaws.

Record os_script := OsScript {
  scr_reads : list (io_result (list byte));
  scr_writes : list (io_result Z);     (** how much is taken, at most *)
  scr_recvs : list (io_result (list byte));
  scr_refuse : bool;                   (** whether [sendto] fails *)
  scr_rands : list Z;
  scr_forks : list Z;
  scr_time : Z * Z;
}.

Definition EINVAL : Z := 22.

#[export] Instance script_os : Os os_script := {|
  os_read fd n e :=
    match scr_reads e with
    | [] => (IoErr EAGAIN, e)
    | r :: rs =>
        (match r with IoOk bs => IoOk (take (Z.to_nat n) bs) | IoErr x => IoErr x end,
         OsScript rs (scr_writes e) (scr_recvs e) (scr_refuse e) (scr_rands e) (scr_forks e) (scr_time e))
    end;
  os_write fd bs e :=
    match scr_writes e with
    | [] => (IoOk (Z.of_nat (length bs)), e)
    | r :: rs =>
        (match r with
         | IoOk w => IoOk (Z.max 0 (Z.min w (Z.of_nat (length bs)))) | IoErr x => IoErr x end,
         OsScript (scr_reads e) rs (scr_recvs e) (scr_refuse e) (scr_rands e) (scr_forks e) (scr_time e))
    end;
  os_recv fd n e :=
    match scr_recvs e with
    | [] => (IoErr EAGAIN, e)
    | r :: rs =>
        (match r with IoOk bs => IoOk (take (Z.to_nat n) bs) | IoErr x => IoErr x end,
         OsScript (scr_reads e) (scr_writes e) rs (scr_refuse e) (scr_rands e) (scr_forks e) (scr_time e))
    end;
  os_sendto fd bs a e :=
    (if scr_refuse e then IoErr EINVAL else IoOk (Z.of_nat (length bs)), e);
  os_rand e :=
    match scr_rands e with
    | [] => (0, e)
    | r :: rs =>
        (r mod (RAND_MAX + 1),
         OsScript (scr_reads e) (scr_writes e) (scr_recvs e) (scr_refuse e) rs (scr_forks e) (scr_time e))
    end;
  os_fork e :=
    match scr_forks e with
    | [] => (1, e)
    | r :: rs =>
        (r, OsScript (scr_reads e) (scr_writes e) (scr_recvs e) (scr_refuse e) (scr_rands e) rs (scr_time e))
    end;
  os_gettimeofday e := (scr_time e, e);
  os_poll evs ms e := (replicate (length evs) POLLIN, e);
  os_pipe e := (Some (3, 4), e);
  os_dup2 fd fd' e := (fd', e);
  os_execvp e := (true, e);
  os_fcntl fd cmd arg e := (0, e);
|}.

#[export] Program Instance script_os_laws : OsLaws os_script.
Next Obligation.
  intros fd n e bs e' Hn. simpl. destruct (scr_reads e) as [|[bs0|]]; [done| |done].
  intros [= <- _]. rewrite length_take. lia.
Qed.
Next Obligation.
  intros fd n e bs e' Hn. simpl. destruct (scr_recvs e) as [|[bs0|]]; [done| |done].
  intros [= <- _]. rewrite length_take. lia.
Qed.
Next Obligation.
  intros fd bs e w e'. simpl. destruct (scr_writes e) as [|[w0|]]; [|intros [= <- _]; lia|done].
  intros [= <- _]. lia.
Qed.
Next Obligation.
  intros fd bs a e n e'. simpl. destruct (scr_refuse e); [done|]. by intros [= <- _].
Qed.
Next Obligation.
  intros e. simpl. destruct (scr_rands e) as [|r rs]; cbn [fst]; [by vm_compute|].
  pose proof (Z.mod_pos_bound r (RAND_MAX + 1) ltac:(by vm_compute)). lia.
Qed.
Next Obligation. intros evs ms e. apply length_replicate. Qed.

(** ** A host with one connection

    At 1, with two chunks pending, the first of which is half written. *)

Definition quiet_script : os_script := OsScript [] [] [] false [] [] (0, 0).

Definition ex_queue : list entry :=
  [Entry 1%positive 2 [Byte.x61; Byte.x62; Byte.x63]; Entry 2%positive 0 [Byte.x64; Byte.x65]].

Definition ex_conn (prev : conn_prev) : conn :=
  set_cn_prev prev (set_cn_out_queue (Some 1%positive) (set_cn_out_queue_tail (TailChunk 2%positive)
    (set_cn_their_init_seqno 7 (conn_setup 5 16777343 8888 true zero_conn)))).

Definition ex_options (server unix : bool) (corrupt : Z) : options :=
  Options server unix false 0 corrupt 0 0 (-1) false false.

Definition ex_events : list pollfd := replicate 13 (PollFd 0 0 0).

Definition ex_sys (o : options) (prev : conn_prev) (env : os_script) : sys os_script :=
  Sys o (Config 3 16777343 9999 (Some 1%positive) (Some 1%positive))
    (CtcpConfig 1440 1440 40 200) false 0 1 ex_events (Timespec 0 0)
    (Heap {[1%positive := ex_conn prev]} 2%positive)
    (Heap (<[1%positive := Chunk (Some 2%positive) 3 2 [Byte.x61; Byte.x62; Byte.x63]]>
            {[2%positive := Chunk None 2 0 [Byte.x64; Byte.x65]]}) 3%positive)
    [] env.

Definition ex_queues : gmap loc (list entry) := {[1%positive := ex_queue]}.

Lemma ex_sys_inv o prev env :
  run_program o = false -> (SERVER o = false -> prev = CPrevNull) ->
  sys_inv ex_queues (ex_sys o prev env).
Proof.
  intros Hr Hp. split.
  - apply heap_wf_check. by vm_compute.
  - apply heap_wf_check. by vm_compute.
  - intros l c Hl. unfold conns in Hl. cbn [ex_sys sys_conns mem] in Hl. apply lookup_singleton_Some in Hl as [<- <-]. exists ex_queue.
    split; [apply lookup_singleton_eq|]. split; [done|done| | |by vm_compute].
    + by repeat split; vm_compute.
    + apply (bool_decide_unpack _). by vm_compute.
  - unfold ex_queues. intros l1 l2 q1 q2 k [<- _]%lookup_singleton_Some [<- _]%lookup_singleton_Some. done.
  - unfold ex_queues. intros l [q [<- _]%lookup_singleton_Some]. exists (ex_conn prev). apply lookup_singleton_eq.
  - by vm_compute.
  - intros l c _. simpl. by rewrite Hr.
  - simpl. intros Hs. exists (ex_conn prev). split; [apply lookup_singleton_eq|].
    rewrite (Hp Hs). done.
Qed.

Definition ex_client : sys os_script := ex_sys (ex_options false true 0) CPrevNull quiet_script.

Lemma ex_client_inv : sys_inv ex_queues ex_client.
Proof. by apply ex_sys_inv. Qed.

(** ** Witnesses *)

Lemma conn_output_fifo_witness :
  wp (conn_output (Some 1%positive) [Byte.x66; Byte.x67] 2)
    (fun r s' =>
       (r = 0 /\ s' = ex_client /\ MAX_BUF_SPACE <= Z.of_nat (length (pending ex_queue))) \/
       (r = 2 /\ exists c' q' bss,
          streamed ex_queues 1%positive (ex_conn CPrevNull) c' ex_queue q'
            (take (Z.to_nat 2) [Byte.x66; Byte.x67]) bss ex_client s' /\
          cn_wrote_eof c' = false /\ cn_wrote_err c' = false) \/
       (r = -1 /\ streamed ex_queues 1%positive (ex_conn CPrevNull)
          (set_cn_wrote_err true (ex_conn CPrevNull)) ex_queue ex_queue [] [] ex_client s'))
    no_exit ex_client.
Proof.
  apply (conn_output_fifo ex_queues ex_client 1%positive (ex_conn CPrevNull) ex_queue);
    [exact ex_client_inv|by vm_compute..].
Defined.

Lemma conn_drain_fifo_witness :
  wp (conn_drain_io 1%positive)
    (fun r s' => exists c' q' bss,
       streamed ex_queues 1%positive (ex_conn CPrevNull) c' ex_queue q' [] bss ex_client s' /\
       cn_wrote_eof c' = cn_wrote_eof (ex_conn CPrevNull) /\
       (cn_wrote_err (ex_conn CPrevNull) = true -> bss = [] /\ c' = ex_conn CPrevNull) /\
       (cn_wrote_err (ex_conn CPrevNull) = false -> cn_wrote_eof (ex_conn CPrevNull) = true ->
          q' = [] -> cn_wrote_err c' = true) /\
       r = negb (bool_decide (bss = [])) && negb (cn_delete_me (ex_conn CPrevNull)))
    no_exit ex_client.
Proof.
  apply (conn_drain_fifo ex_queues ex_client 1%positive (ex_conn CPrevNull) ex_queue);
    [exact ex_client_inv|by vm_compute..].
Defined.

(** The random numbers corrupt the segment. *)
Definition ex_corrupting : sys os_script :=
  ex_sys (ex_options false true 50) CPrevNull (OsScript [] [] [] false [99; 99; 99; 3; 5] [] (0, 0)).

Lemma conn_send_sends_witness :
  wp (conn_send (Some 1%positive) (Some (segment_bytes segment_example)) 22)
    (fun n s' => sent_one (ex_conn CPrevNull) (segment_bytes segment_example) 22 ex_corrupting s' /\
       (n = -1 \/ n = 22))
    (sent_one (ex_conn CPrevNull) (segment_bytes segment_example) 22 ex_corrupting) ex_corrupting.
Proof.
  apply (conn_send_sends ex_corrupting 1%positive (ex_conn CPrevNull)); by vm_compute.
Defined.

Lemma conn_send_reliable_witness :
  wp (conn_send (Some 1%positive) (Some (segment_bytes segment_example)) 22)
    (fun n s' => exists seg evs, segment_of_bytes (segment_bytes segment_example) = Some seg /\
       sys_io s' = sys_io ex_client ++ evs /\
       (packets evs = [] /\ n = -1 \/
        packets evs = [datagram_bytes (packet_of (sys_config ex_client) (sys_options ex_client)
          (ex_conn CPrevNull) seg
          (packet_sum (sys_config ex_client) (sys_options ex_client) (ex_conn CPrevNull) seg))] /\
        n = 22))
    (fun _ => False) ex_client.
Proof.
  apply (conn_send_reliable ex_client 1%positive (ex_conn CPrevNull)); by vm_compute.
Defined.

Lemma conn_input_spec_witness :
  let s := set_sys_env (OsScript [IoOk [Byte.x68; Byte.x69]; IoErr EAGAIN; IoOk []] [] [] false [] [] (0, 0)) ex_client in
  exists s1 s2 s3 s4 buf2 buf3 buf4,
    conn_input (Some 1%positive) (Some (replicate 4 Byte.x00)) 4 s =
      Done (2, [Byte.x68; Byte.x69; Byte.x00; Byte.x00]) s1 /\
    conn_input (Some 1%positive) (Some (replicate 4 Byte.x00)) 4 s1 = Done (0, buf2) s2 /\
    conn_input (Some 1%positive) (Some (replicate 4 Byte.x00)) 4 s2 = Done (-1, buf3) s3 /\
    conn_input (Some 1%positive) (Some (replicate 4 Byte.x00)) 4 s3 = Done (-1, buf4) s4 /\ s4 = s3.
Proof.
  intros s. do 7 eexists.
  split; [rewrite (conn_input_spec s 1%positive (ex_conn CPrevNull)) by (by vm_compute); reflexivity|].
  split; [erewrite (conn_input_spec _ 1%positive (ex_conn CPrevNull)) by (by vm_compute); reflexivity|].
  split; [erewrite (conn_input_spec _ 1%positive (ex_conn CPrevNull)) by (by vm_compute); reflexivity|].
  split; [erewrite (conn_input_spec _ 1%positive (set_cn_read_eof true (ex_conn CPrevNull)))
            by (by vm_compute); reflexivity|done].
Defined.

(** Clients on the web that read a long line, and a single byte. *)
Definition ex_web (reads : list (io_result (list byte))) : sys os_script :=
  ex_sys (ex_options false false 0) CPrevNull (OsScript reads [] [] false [] [] (0, 0)).

Lemma ex_web_client reads : web_client (ex_web reads) 1%positive (ex_conn CPrevNull).
Proof. by split. Qed.

Definition ex_line : list byte := replicate 1438 Byte.x61.

Lemma conn_input_web_overflow_witness :
  conn_input (Some 1%positive) (Some (replicate 1440 Byte.x00)) MAX_SEG_DATA_SIZE
    (ex_web [IoOk (ex_line ++ [Byte.x0a])]) = Undef.
Proof.
  apply (conn_input_web_overflow _ 1%positive (ex_conn CPrevNull) _ ex_line quiet_script);
    [apply ex_web_client|by vm_compute..].
Defined.

Lemma conn_input_web_last_byte_witness :
  exists s', conn_input (Some 1%positive) (Some (replicate 1440 Byte.x00)) MAX_SEG_DATA_SIZE
      (ex_web [IoOk [Byte.x61]; IoErr EAGAIN]) =
    Done (if decide ([] = @nil byte) then -1 else 0, ([] ++ [Byte.x61]) ++ drop (0 + 1) (replicate 1440 Byte.x00)) s' /\
    ([] = @nil byte -> conns s' !! 1%positive = Some (set_cn_read_eof true (ex_conn CPrevNull))).
Proof.
  apply (conn_input_web_last_byte _ 1%positive (ex_conn CPrevNull) _ [] Byte.x61
    (OsScript [IoErr EAGAIN] [] [] false [] [] (0, 0)) quiet_script);
    [apply ex_web_client|by vm_compute..].
Defined.

Lemma conn_free_client_witness :
  wp (conn_free 1%positive)
    (fun _ s' => freed ex_queues 1%positive ex_client s' /\ sconn (sys_config s') = None /\
       socket (sys_config s') = socket (sys_config ex_client))
    (fun _ => False) ex_client.
Proof.
  apply (conn_free_client ex_queues ex_client 1%positive (ex_conn CPrevNull));
    [exact ex_client_inv|done|done|by split_and!].
Defined.

(** A server whose only connection is as [conn_add] has left it. *)
Definition ex_server : sys os_script := ex_sys (ex_options true true 0) CPrevLocal quiet_script.

(** A server with a connection, about to add another one, at 2. *)
Definition ex_adding : sys os_script :=
  with_conns (<[2%positive := zero_conn]> (conns ex_server)) ex_server.

Lemma conn_add_spec_witness :
  wp (conn_add 2%positive)
    (fun _ s' =>
       head_of s' = Some 2%positive /\
       conns s' !! 2%positive = Some (set_cn_out_queue_tail TailQueue
              (set_cn_next (head_of ex_adding) (set_cn_prev CPrevLocal zero_conn))) /\
       (forall h ch, head_of ex_adding = Some h -> conns ex_adding !! h = Some ch ->
          conns s' !! h = Some (set_cn_prev (CPrevNext 2%positive) ch)) /\
       (forall k, k <> 2%positive -> head_of ex_adding <> Some k -> conns s' !! k = conns ex_adding !! k) /\
       sys_chunks s' = sys_chunks ex_adding)
    (fun _ => False) ex_adding.
Proof.
  apply (conn_add_spec ex_adding 2%positive zero_conn); [done|done|].
  intros h [= <-]. by eexists.
Defined.
