(* ===== verification/LibTransfer.v ===== *)
(** * A transfer on the library itself

    The functions of [Conn.v] are a library of the class [Lossless], where the
    network is not told to lose anything, the terminal takes what it is given
    and the system sends what it is asked to: the theorems of [Transfer.v] and
    [Recovery.v] hold of both sides of the program together, and the bytes that
    are typed at one end are written on the terminal of the other. *)

From S2P Require Import Prelude Heap Words Cksum Segment ConnLib Ctcp CtcpSpec CtcpSteps CtcpInv.
From S2P Require Import CtcpRefine Script.
From S2P Require Import CtcpProps Streams Network Transfer CtcpTimer Recovery.
From S2P Require Import Host Packet PacketProps Conn Queue ConnInv ConnOut ConnSend ConnInput ConnLaws.
From S2P Require Import ConnScript.

(** ** The operating system

    [calm e] when a write takes all of it and a datagram is sent;
    [provides e ins] when moreover the reads of the terminal will give [ins],
    [None] being the end of the file. *)
Class CalmOs (E : Type) `{!Os E} := {
  calm : E -> Prop;
  provides : E -> list (option (list byte)) -> Prop;

  provides_calm e ins : provides e ins -> calm e;
  provides_piece e bs ins n :
    provides e (Some bs :: ins) -> 0 < Z.of_nat (length bs) <= n ->
    exists e', os_read STDIN_FILENO n e = (IoOk bs, e') /\ provides e' ins;
  provides_end e ins n :
    provides e (None :: ins) -> exists e', os_read STDIN_FILENO n e = (IoOk [], e') /\ calm e';
  write_whole fd bs e :
    calm e -> exists e', os_write fd bs e = (IoOk (Z.of_nat (length bs)), e') /\ calm e' /\
      forall ins, provides e ins -> provides e' ins;
  send_whole fd bs a e :
    calm e -> exists e', os_sendto fd bs a e = (IoOk (Z.of_nat (length bs)), e') /\ calm e' /\
      forall ins, provides e ins -> provides e' ins;
  rand_calm e r e' :
    calm e -> os_rand e = (r, e') -> calm e' /\ forall ins, provides e ins -> provides e' ins;
}.

Section Library.
Context {E : Type} `{!Os E, !OsLaws E, !CalmOs E}.
Implicit Types s : sys E.

(** What has been written on the terminal. *)
Definition on_terminal (ev : io_event) : option (list byte) :=
  match ev with IoWrote fd bs => if bool_decide (fd = STDOUT_FILENO) then Some bs else None | _ => None end.
Definition written s : list byte := mjoin (omap on_terminal (sys_io s)).

(** On one machine, with none of the options that drop, corrupt, delay or repeat
    segments, and no debugging. *)
Record plain_options (o : options) : Prop := {
  po_unix : unix_socket o = true;
  po_program : run_program o = false;
  po_debug : test_debug_on o = false;
  po_lab5 : lab5_mode o = false;
  po_drop : opt_drop o = 0;
  po_corrupt : opt_corrupt o = 0;
  po_delay : opt_delay o = 0;
  po_duplicate : opt_duplicate o = 0;
}.

Record usable s (l : loc) (c : conn) : Prop := {
  us_conn : conns s !! l = Some c;
  us_open : cn_delete_me c = false;
  us_options : plain_options (sys_options s);
  us_calm : calm (sys_env s);
}.

Record ready s (l : loc) (c : conn) (ins : list (option (list byte))) (out : list byte) : Prop := {
  rd_usable : usable s l c;
  rd_input : cn_read_eof c = false;
  rd_output : cn_wrote_eof c = false;
  rd_good : cn_wrote_err c = false;
  rd_queue : cn_out_queue c = None;
  rd_provides : provides (sys_env s) ins;
  rd_written : written s = out;
}.

(** A step that keeps all of this, and sends the packets [ps]. *)
Record mild (ps : list (list byte)) s s' : Prop := {
  ml_quiet : quiet s s';
  ml_written : written s' = written s;
  ml_packets : packets (sys_io s') = packets (sys_io s) ++ ps;
  ml_calm : calm (sys_env s');
  ml_provides ins : provides (sys_env s) ins -> provides (sys_env s') ins;
}.

Lemma mild_trans ps qs s1 s2 s3 : mild ps s1 s2 -> mild qs s2 s3 -> mild (ps ++ qs) s1 s3.
Proof.
  intros [Hq1 Hw1 Hp1 Hc1 Hi1] [Hq2 Hw2 Hp2 Hc2 Hi2].
  split; [by transitivity s2|congruence|by rewrite Hp2, Hp1, app_assoc|done|auto].
Qed.
Lemma mild_silent ps s1 s2 s3 : mild [] s1 s2 -> mild ps s2 s3 -> mild ps s1 s3.
Proof. apply (mild_trans []). Qed.

Lemma mild_usable ps s s' l c : mild ps s s' -> usable s l c -> usable s' l c.
Proof.
  intros [Hq _ _ Hc _] [H1 H2 H3 H4]. destruct (quiet_keeps _ _ Hq) as (Ec & _ & Eo & _).
  split; [unfold conns; by rewrite Ec|done|by rewrite Eo|done].
Qed.
Lemma mild_ready ps s s' l c ins out : mild ps s s' -> ready s l c ins out -> ready s' l c ins out.
Proof.
  intros Hm []. split; try done; [by eapply mild_usable|by apply Hm|by rewrite (ml_written _ _ _ Hm)].
Qed.

Lemma written_app s ev : written (set_sys_io (sys_io s ++ [ev]) s) =
  written s ++ match on_terminal ev with Some bs => bs | None => [] end.
Proof.
  unfold written. cbn [sys_io set_sys_io]. rewrite omap_app, join_app. f_equal.
  cbn. destruct (on_terminal ev); cbn; by rewrite ?app_nil_r.
Qed.

Lemma mild_log s ev :
  calm (sys_env s) -> on_terminal ev = None -> mild (packets [ev]) s (set_sys_io (sys_io s ++ [ev]) s).
Proof.
  intros Hc He. split; [auto with ctcp|by rewrite written_app, He, app_nil_r| |done|done].
  cbn [sys_io set_sys_io]. unfold packets. apply omap_app.
Qed.

Lemma mild_env s e :
  calm e -> (forall ins, provides (sys_env s) ins -> provides e ins) -> mild [] s (set_sys_env e s).
Proof. intros Hc Hp. split; [auto with ctcp|done|by rewrite app_nil_r|done|done]. Qed.

Lemma calm_log s p bs len b :
  calm (sys_env s) -> exists s', log_segment p bs len b s = Done tt s' /\ mild [] s s'.
Proof.
  intros Hc. enough (Hwp : wp (log_segment p bs len b) (fun _ s' => mild [] s s') (fun _ => False) s).
  { apply wp_returns in Hwp as ([] & s' & Hrun & Hm). by exists s'. }
  unfold log_segment. apply wp_bind, wp_gets, wp_when; intros _.
  - apply wp_modify. by apply (mild_log s (IoLogged p bs len b)).
  - split; [done|done|by rewrite app_nil_r|done|done].
Qed.

(** ** Sending *)

Lemma calm_rand X s (Q : Z -> sys E -> Prop) :
  calm (sys_env s) -> (forall r s', 0 <= r <= RAND_MAX -> mild [] s s' -> Q r s') -> wp rand Q X s.
Proof.
  intros Hc HQ. unfold rand, syscall, wp. pose proof (os_rand_law (sys_env s)) as Hr.
  destruct (os_rand (sys_env s)) as [r e] eqn:He. destruct (rand_calm _ _ _ Hc He) as [Hc' Hp].
  apply HQ; [done|by apply mild_env].
Qed.

Lemma calm_percent X s (Q : Z -> sys E -> Prop) :
  calm (sys_env s) -> (forall p s', 0 <= p < 100 -> mild [] s s' -> Q p s') ->
  wp (rand_percent 0) Q X s.
Proof.
  intros Hc HQ. unfold rand_percent. apply wp_bind, calm_rand; [done|]. intros r s' Hr Hs.
  apply wp_ret, HQ; [|done]. unfold RAND_MAX in Hr. rewrite i32_small by lia.
  rewrite Z.mul_0_l, Z.add_0_r, Z.rem_mod_nonneg by lia. apply Z.mod_pos_bound. lia.
Qed.

Lemma calm_happens X s o (Q : bool -> sys E -> Prop) :
  calm (sys_env s) -> test_debug_on o = false -> (forall s', mild [] s s' -> Q false s') ->
  wp (happens o 0 0) Q X s.
Proof.
  intros Hc Hd HQ. unfold happens. rewrite Hd. apply wp_bind, calm_percent; [done|].
  intros p s' Hp Hs. apply wp_ret. rewrite (proj2 (Z.ltb_ge p 0)) by lia. by apply HQ.
Qed.

Lemma calm_send_pkt X s c pkt len (Q : Z -> sys E -> Prop) :
  calm (sys_env s) -> len = Z.of_nat (length pkt) -> (forall s', mild [pkt] s s' -> Q len s') ->
  wp (send_pkt c pkt len) Q X s.
Proof.
  intros Hc -> HQ. unfold send_pkt. apply wp_bind, wp_gets, wp_bind, wp_conf.
  apply wp_bind, wp_access; [apply Z.leb_le; lia|]. rewrite Nat2Z.id, take_ge by lia.
  unfold call_sendto, syscall. apply wp_bind. unfold wp at 1.
  set (addr := if unix_socket _ then _ else _).
  destruct (send_whole (socket (sys_config s)) pkt addr _ Hc) as (e & -> & Hc' & Hp).
  apply wp_bind, wp_modify, wp_ret, HQ. rewrite Nat2Z.id, firstn_all.
  apply (mild_silent _ _ (set_sys_env e s)); [by apply mild_env|].
  by apply (mild_log (set_sys_env e s) (IoSent pkt addr)).
Qed.

(** The packet that carries a segment. *)
Definition mailed s (c : conn) (seg : ctcp_segment) : list byte :=
  datagram_bytes (packet_of (sys_config s) (sys_options s) c seg
    (packet_sum (sys_config s) (sys_options s) c seg)).

Lemma mailed_quiet s s' c seg : quiet s s' -> mailed s' c seg = mailed s c seg.
Proof. intros Hq. destruct (quiet_keeps _ _ Hq) as (_ & _ & Eo & Ec). unfold mailed. by rewrite Eo, Ec. Qed.

Lemma calm_send_copy X s conn c bs len :
  usable s conn c -> Z.of_nat (length bs) = len ->
  SEGMENT_HDR_SIZE <= len <= SEGMENT_HDR_SIZE + MAX_SEG_DATA_SIZE ->
  wp (send_copy (sys_options s) (Some conn) c bs len 0)
    (fun n s' => n = len + 20 /\ exists seg, segment_of_bytes bs = Some seg /\ mild [mailed s c seg] s s') X s.
Proof.
  intros Hu Hl Hlen. unfold send_copy. destruct (us_options _ _ _ Hu) as [_ _ Hd _ _ Hcor _ _].
  apply wp_bind, calm_percent; [apply Hu|]. intros p s1 Hp H1.
  apply wp_bind, calm_rand; [apply H1|]. intros r s2 _ H2. apply wp_bind, wp_gets.
  rewrite Hd, Hcor, (proj2 (Z.ltb_ge p 0)) by lia. cbn [negb andb orb]. apply wp_bind, wp_ret.
  assert (H02 : mild [] s s2) by by eapply mild_silent.
  destruct (calm_log s2 (Some conn) bs len true (ml_calm _ _ _ H2)) as (s3 & Hlog & H23).
  apply wp_bind. eapply wp_Done; [exact Hlog|]. pose proof (mild_silent _ _ _ _ H02 H23) as H3.
  destruct (segment_of_bytes_some bs) as [seg Hseg]; [lia|].
  pose proof (segment_of_bytes_length _ _ Hseg) as Hsl.
  apply wp_bind. eapply wp_deref; [exact Hseg|]. apply wp_bind, wp_gets.
  destruct (quiet_keeps _ _ (ml_quiet _ _ _ H3)) as (_ & _ & _ & Ec). rewrite Ec.
  unfold SEGMENT_HDR_SIZE, MAX_SEG_DATA_SIZE in *.
  apply wp_bind. eapply wp_Done; [apply convert_to_datagram_run; unfold SEGMENT_HDR_SIZE; lia|].
  replace (u16 (FULL_HDR_SIZE + u16 (len - 20))) with (len + 20).
  2: { unfold FULL_HDR_SIZE, IP_HDR_SIZE, TCP_HDR_SIZE. rewrite (u16_small (len - 20)), u16_small by lia. lia. }
  apply wp_bind, calm_send_pkt; [apply H3| |].
  { rewrite datagram_bytes_length. cbn [packet_of dg_payload]. lia. }
  intros s4 H4. apply wp_ret. split; [done|]. exists seg. split; [done|].
  exact (mild_silent _ _ _ _ H3 H4).
Qed.

Lemma calm_send s l c bs len :
  usable s l c -> Z.of_nat (length bs) = len ->
  SEGMENT_HDR_SIZE <= len <= SEGMENT_HDR_SIZE + MAX_SEG_DATA_SIZE ->
  exists s' seg, conn_send (Some l) (Some bs) len s = Done len s' /\
    segment_of_bytes bs = Some seg /\ mild [mailed s c seg] s s'.
Proof.
  intros Hu Hl Hlen.
  enough (Hwp : wp (conn_send (Some l) (Some bs) len) (fun n s' => n = len /\ exists seg,
    segment_of_bytes bs = Some seg /\ mild [mailed s c seg] s s') (fun _ => False) s).
  { apply wp_returns in Hwp as (n & s' & Hrun & -> & seg & Hseg & Hm). by exists s', seg. }
  destruct (us_options _ _ _ Hu) as [_ _ Hd _ Hdrop _ Hdelay Hdup].
  unfold conn_send. cbn [deref]. apply wp_bind, wp_ret, wp_bind. eapply wp_conn_load; [apply Hu|].
  rewrite (us_open _ _ _ Hu). apply wp_bind, wp_ret, wp_bind, wp_access; [apply Z.leb_le; lia|].
  rewrite take_ge by lia. apply wp_bind, wp_gets. rewrite Hdrop, Hdup, Hdelay.
  apply wp_bind, calm_happens; [apply Hu|done|]. intros s1 H1.
  apply wp_bind, calm_happens; [apply H1|done|]. intros s2 H2.
  apply wp_bind, wp_ret, wp_bind, calm_happens; [apply H2|done|]. intros s3 H3. apply wp_bind, wp_ret.
  assert (H03 : mild [] s s3) by (eapply mild_silent; [exact H1|by eapply mild_silent]).
  destruct (quiet_keeps _ _ (ml_quiet _ _ _ H03)) as (_ & _ & Eo & _). rewrite <- Eo.
  apply wp_bind. eapply wp_mono; [by apply calm_send_copy; [by eapply mild_usable| |]|].
  intros n s4 (-> & seg & Hseg & H4). rewrite bool_decide_false by lia.
  unfold TCP_HDR_SIZE, IP_HDR_SIZE, SEGMENT_HDR_SIZE in *.
  rewrite (proj2 (Z.geb_le _ _)) by lia. apply wp_ret. split; [lia|]. exists seg. split; [done|].
  rewrite (mailed_quiet _ _ c seg (ml_quiet _ _ _ H03)) in H4. exact (mild_silent _ _ _ _ H03 H4).
Qed.

(** ** Output *)

Lemma calm_bufspace s l c :
  conns s !! l = Some c -> cn_out_queue c = None -> conn_bufspace (Some l) s = Done MAX_BUF_SPACE s.
Proof.
  intros Hc Hq. enough (Hwp : wp (conn_bufspace (Some l)) (fun n s' => n = MAX_BUF_SPACE /\ s' = s) (fun _ => False) s).
  { apply wp_returns in Hwp as (n & s' & Hrun & -> & ->). done. }
  unfold conn_bufspace. cbn [deref]. apply wp_bind, wp_ret, wp_bind. eapply wp_conn_load; [exact Hc|].
  unfold queue_fuel. apply wp_bind, wp_gets. rewrite Hq. apply wp_bind, wp_zoom, wp_ret, wp_ret.
  split; [done|by destruct s].
Qed.

Lemma calm_write X s fd bs (Q : io_result Z -> sys E -> Prop) :
  calm (sys_env s) ->
  (forall s', quiet s s' -> calm (sys_env s') -> (forall ins, provides (sys_env s) ins -> provides (sys_env s') ins) ->
     written s' = written s ++ (if bool_decide (fd = STDOUT_FILENO) then bs else []) ->
     Q (IoOk (Z.of_nat (length bs))) s') ->
  wp (call_write fd bs) Q X s.
Proof.
  intros Hc HQ. unfold call_write, syscall. apply wp_bind. unfold wp at 1.
  destruct (write_whole fd bs _ Hc) as (e & -> & Hc' & Hp). apply wp_bind, wp_modify, wp_ret.
  rewrite Nat2Z.id, firstn_all. apply HQ; [|done|done|].
  - transitivity (set_sys_env e s); [auto with ctcp|apply (quiet_io _ (set_sys_env e s))].
  - rewrite written_app. cbn [on_terminal]. change (written (set_sys_env e s)) with (written s).
    by case_bool_decide.
Qed.

Lemma calm_output s l c ins out bs :
  ready s l c ins out -> 0 < Z.of_nat (length bs) <= MAX_SEG_DATA_SIZE ->
  exists s', conn_output (Some l) bs (Z.of_nat (length bs)) s = Done (Z.of_nat (length bs)) s' /\
    ready s' l c ins (out ++ bs) /\ quiet s s'.
Proof.
  intros [Hu Hr Heof Herr Hqu Hp Hw] Hlen. pose proof (us_conn _ _ _ Hu) as Hc.
  unfold MAX_SEG_DATA_SIZE in Hlen. set (len := Z.of_nat (length bs)) in *.
  enough (Hwp : wp (conn_output (Some l) bs len) (fun n s' => n = len /\ ready s' l c ins (out ++ bs) /\ quiet s s')
    (fun _ => False) s).
  { apply wp_returns in Hwp as (n & s' & Hrun & -> & Hm). by exists s'. }
  unfold conn_output. cbn [deref]. apply wp_bind, wp_ret, wp_bind. eapply wp_conn_load; [exact Hc|].
  rewrite (us_open _ _ _ Hu), Heof, Herr. apply wp_bind, wp_ret.
  rewrite (bool_decide_false (len = 0)) by lia. apply wp_bind.
  eapply wp_Done; [by eapply calm_bufspace|]. rewrite bool_decide_false by done.
  apply wp_bind, wp_access; [apply Z.leb_le; lia|]. rewrite i32_small by lia.
  apply wp_bind. unfold output_now. rewrite Hqu. apply wp_bind, wp_output_fd.
  rewrite (po_program _ (us_options _ _ _ Hu)). apply wp_bind.
  subst len. rewrite Nat2Z.id, firstn_all. apply calm_write; [apply Hu|].
  intros s' Hq Hcalm Hp' Hw'. rewrite (bool_decide_true (STDOUT_FILENO = STDOUT_FILENO) eq_refl) in Hw'.
  apply wp_ret. rewrite Z.sub_diag. change (i32 0 >? 0) with false. cbn [when]. apply wp_bind, wp_ret.
  destruct (quiet_keeps _ _ Hq) as (Ec & _ & Eo & _).
  assert (Hc' : conns s' !! l = Some c) by (unfold conns; by rewrite Ec).
  apply wp_bind. eapply wp_conn_load; [exact Hc'|]. rewrite Hqu, bool_decide_true by done.
  apply wp_bind, wp_ret, wp_ret. split; [done|]. split; [|done].
  split; try done; [|auto|by rewrite Hw', Hw].
  split; [done|apply Hu|rewrite Eo; apply Hu|done].
Qed.

Lemma usable_update s l c c' :
  usable s l c -> cn_delete_me c' = false -> usable (with_conns (<[l := c']> (conns s)) s) l c'.
Proof. intros [H1 H2 H3 H4] Hd. split; [apply lookup_insert_eq|done|done|done]. Qed.

Lemma calm_output_eof s l c ins out :
  ready s l c ins out ->
  exists s' c', conn_output (Some l) [] 0 s = Done 0 s' /\ usable s' l c' /\ sys_options s' = sys_options s.
Proof.
  intros [Hu Hr Heof Herr Hqu Hp Hw]. pose proof (us_conn _ _ _ Hu) as Hc.
  enough (Hwp : wp (conn_output (Some l) [] 0) (fun n s' => n = 0 /\ usable s' l (set_cn_wrote_eof true c) /\
    sys_options s' = sys_options s) (fun _ => False) s).
  { apply wp_returns in Hwp as (n & s' & Hrun & -> & Hm). by exists s', (set_cn_wrote_eof true c). }
  unfold conn_output. cbn [deref]. apply wp_bind, wp_ret, wp_bind. eapply wp_conn_load; [exact Hc|].
  rewrite (us_open _ _ _ Hu), Heof. apply wp_bind, wp_ret. rewrite bool_decide_true by done.
  apply wp_bind. eapply wp_conn_update; [exact Hc|]. apply wp_ret. split; [done|]. split; [|done].
  apply (usable_update s l c); [done|apply Hu].
Qed.

(** ** Input *)

(** The tail of [conn_input] on what was read from the terminal. *)
Lemma calm_input s l c buf n (Q : Z * list byte -> sys E -> Prop) bs e :
  usable s l c -> cn_read_eof c = false -> 0 <= n <= Z.of_nat (length buf) ->
  Z.of_nat (length bs) <= n -> os_read STDIN_FILENO n (sys_env s) = (IoOk bs, e) ->
  (let s1 := set_sys_io (sys_io s ++ [IoRead STDIN_FILENO bs]) (set_sys_env e s) in
   let buf' := bs ++ drop (length bs) buf in
   if bool_decide (bs = [])
   then Q (-1, buf') (with_conns (<[l := set_cn_read_eof true c]> (conns s1)) s1)
   else Q (Z.of_nat (length bs), buf') s1) ->
  wp (conn_input (Some l) (Some buf) n) Q (fun _ => False) s.
Proof.
  intros Hu Heof Hn Hbs Hrd HQ. pose proof (us_conn _ _ _ Hu) as Hc.
  destruct (us_options _ _ _ Hu) as [Hun Hrp Hdb Hl5 _ _ _ _].
  unfold conn_input. cbn [deref]. apply wp_bind, wp_ret, wp_bind. eapply wp_conn_load; [exact Hc|].
  rewrite (us_open _ _ _ Hu), Heof. apply wp_bind, wp_ret, wp_bind, wp_gets.
  unfold input_read. rewrite Hrp, Hun, Hdb, Hl5. apply wp_bind. unfold read_into, call_read, syscall.
  apply wp_bind, wp_bind. unfold wp at 1. rewrite Hrd. apply wp_bind, wp_modify, wp_ret.
  apply wp_bind, wp_access; [apply Z.leb_le; lia|]. apply wp_ret. cbn [take app].
  change (Z.to_nat 0) with 0%nat. cbn [take app Nat.add]. cbv zeta in HQ.
  case_bool_decide as Hb.
  - subst bs. apply wp_bind. cbn [length]. rewrite bool_decide_true by done. apply wp_ret.
    apply wp_bind. eapply wp_conn_update; [exact Hc|]. apply wp_ret. exact HQ.
  - apply wp_bind. rewrite bool_decide_false by (destruct bs; simpl; [done|lia]).
    rewrite (proj2 (Z.ltb_ge _ _)) by lia. cbn [andb orb]. apply wp_ret, wp_ret. exact HQ.
Qed.

Lemma calm_reads s l c bs ins out :
  ready s l c (Some bs :: ins) out -> 0 < Z.of_nat (length bs) <= MAX_BUFF_SIZE ->
  exists s', conn_input (Some l) (Some zero_buffer) MAX_BUFF_SIZE s =
      Done (Z.of_nat (length bs), bs ++ drop (length bs) zero_buffer) s' /\
    ready s' l c ins out /\ quiet s s'.
Proof.
  intros Hr Hl. pose proof (rd_usable _ _ _ _ _ Hr) as Hu.
  destruct (provides_piece _ _ _ MAX_BUFF_SIZE (rd_provides _ _ _ _ _ Hr) Hl) as (e & Hrd & Hp).
  set (s1 := set_sys_io (sys_io s ++ [IoRead STDIN_FILENO bs]) (set_sys_env e s)).
  exists s1. split; [|split].
  - enough (Hwp : wp (conn_input (Some l) (Some zero_buffer) MAX_BUFF_SIZE)
      (fun r s' => r = (Z.of_nat (length bs), bs ++ drop (length bs) zero_buffer) /\ s' = s1) (fun _ => False) s)
      by (apply wp_returns in Hwp as (? & ? & Hrun & -> & ->); exact Hrun).
    eapply (calm_input s l c); [done|apply Hr|split; by vm_compute|by apply Hl|exact Hrd|].
    cbv zeta. rewrite bool_decide_false by (clear -Hl; destruct bs; simpl in Hl; [lia|done]). done.
  - pose proof (provides_calm _ _ Hp) as Hc.
    destruct Hr as [[H1 H2 H3 _] H5 H6 H7 H8 _ H10]. split; try done.
    subst s1. change (sys_io s) with (sys_io (set_sys_env e s)). rewrite written_app. cbn [on_terminal].
    by rewrite app_nil_r.
  - transitivity (set_sys_env e s); [auto with ctcp|apply (quiet_io _ (set_sys_env e s))].
Qed.

(** ** The instance *)

#[export] Program Instance library_lossless : Lossless (sys E) := {|
  offers s p ins out := exists l c, p = Some l /\ ready s l c ins out;
  still s p := exists l c, p = Some l /\ usable s l c;
  stays s := SERVER (sys_options s) = true;
|}.
Next Obligation. intros s p ins out (l & c & -> & Hr). exists l, c. split; [done|apply Hr]. Qed.
Next Obligation.
  intros s p bs ins out (l & c & -> & Hr) Hl.
  destruct (calm_reads s l c bs ins out Hr Hl) as (s' & Hrun & Hr' & _).
  exists (drop (length bs) zero_buffer), s'. split; [by exists l, c|exact Hrun].
Qed.
Next Obligation.
  intros s p ins out (l & c & -> & Hr). pose proof (rd_usable _ _ _ _ _ Hr) as Hu.
  destruct (provides_end _ _ MAX_BUFF_SIZE (rd_provides _ _ _ _ _ Hr)) as (e & Hrd & Hc).
  set (s1 := set_sys_io (sys_io s ++ [IoRead STDIN_FILENO []]) (set_sys_env e s)).
  set (s2 := with_conns (<[l := set_cn_read_eof true c]> (conns s1)) s1).
  exists zero_buffer, s2. split.
  - exists l, (set_cn_read_eof true c). split; [done|].
    apply (usable_update s1 l c); [|apply Hu]. destruct Hu. by split.
  - enough (Hwp : wp (conn_input (Some l) (Some zero_buffer) MAX_BUFF_SIZE)
      (fun r s' => r = (-1, zero_buffer) /\ s' = s2) (fun _ => False) s)
      by (apply wp_returns in Hwp as (? & ? & Hrun & -> & ->); exact Hrun).
    eapply (calm_input s l c _ _ _ []); [done|apply Hr|split; by vm_compute|by vm_compute|exact Hrd|]. done.
Qed.
Next Obligation.
  intros s p bs len (l & c & -> & Hu) Hl Hlen.
  destruct (calm_send s l c bs len Hu Hl Hlen) as (s' & seg & Hrun & _ & Hm). exists len, s'.
  split; [done|]. split; [unfold SEGMENT_HDR_SIZE in *; lia|]. split; [|split].
  - exists l, c. split; [done|by eapply mild_usable].
  - intros ins out (l' & c' & [= <-] & Hr). exists l, c'. split; [done|by eapply mild_ready].
  - destruct (quiet_keeps _ _ (ml_quiet _ _ _ Hm)) as (_ & _ & Eo & _). by rewrite Eo.
Qed.
Next Obligation.
  intros s p ins out (l & c & -> & Hr). exists MAX_BUF_SPACE. split; [by vm_compute|].
  apply (calm_bufspace s l c); apply Hr.
Qed.
Next Obligation.
  intros s p ins out bs (l & c & -> & Hr) Hl.
  destruct (calm_output s l c ins out bs Hr Hl) as (s' & Hrun & Hr' & Hq).
  destruct (quiet_keeps _ _ Hq) as (_ & _ & Eo & _).
  exists (Z.of_nat (length bs)), s'. split; [by exists l, c|]. split; [by rewrite Eo|]. split; [lia|done].
Qed.
Next Obligation.
  intros s p ins out (l & c & -> & Hr).
  destruct (calm_output_eof s l c ins out Hr) as (s' & c' & Hrun & Hu & Eo).
  exists 0, s'. split; [by exists l, c'|]. split; [by rewrite Eo|done].
Qed.
Next Obligation.
  intros s p (l & c & -> & Hu) Hst. pose proof (us_conn _ _ _ Hu) as Hc.
  set (s1 := with_conns (<[l := set_cn_delete_me true c]> (conns s)) s). exists s1, s1. split.
  - enough (Hwp : wp (conn_remove (Some l)) (fun _ s' => s' = s1) (fun _ => False) s)
      by (apply wp_returns in Hwp as ([] & ? & Hrun & ->); exact Hrun).
    unfold conn_remove. cbn [deref]. apply wp_bind, wp_ret. by eapply wp_conn_update.
  - cbn [ConnLib.end_client sys_lib]. unfold end_client, opt, gets, mbind, M_bind.
    change (sys_options s1) with (sys_options s). by rewrite Hst.
Qed.

(** ** Both sides *)

(** C4: the two sides of the program together, for the whole of a connection: what
    is typed at a client, read by [conn_input] in pieces, comes out on the
    terminal of the server, byte for byte and once, when one of the six
    transmissions of each segment arrives, whatever becomes of the
    acknowledgements and of further copies; and when the input ends, and nothing
    of the closing is lost, the server outputs the end of file, its connection is
    removed and its state freed, and the client begins its countdown. This is with
    the plain options, less than 2^32 - 1 bytes in all, and a clock whose six
    periods and [rt_timeout] fit in its 16 bits. *)
Theorem typed_comes_out la lb wa wb pa pb ca cb cfga cfgb bss fs ins ib oa :
  let timer := u16 (cfg_timer cfga) in
  let rt := u16 (cfg_rt_timeout cfga) in
  holds la wa (ep_init (Some pa) cfga) -> holds lb wb (ep_init (Some pb) cfgb) ->
  ready (w_sys wa) pa ca (map Some bss ++ None :: ins) oa -> ready (w_sys wb) pb cb ib [] ->
  SERVER (sys_options (w_sys wb)) = true ->
  Forall piece_ok bss -> length fs = length bss -> Forall survives fs -> paced timer rt ->
  Z.of_nat (length (mjoin bss)) < 2 ^ 32 - 1 ->
  exists x y, lossy_exchanges timer rt la lb fs (wa, wb) = Some x /\ Transfer.close la lb x = Some y /\
    rtc (net_step la lb) (wa, wb) y /\ written (w_sys x.2) = mjoin bss /\
    (exists r evs, w_trace y.2 = w_trace x.2 ++ EvOutput (Some pb) [] r :: evs) /\
    state_freed lb y.2 /\ exists ea, holds la y.1 ea /\ ep_td ea = WAIT_DESTROY.
Proof.
  intros timer rt Ha Hb Hra Hrb Hsrv Hok Hl Hf Hpc Hx.
  destruct (recovered_run timer rt 1 la lb (Some pa) (Some pb) bss fs (None :: ins) ib oa [] (wa, wb))
    as (x & Hex & Hst & _ & Hj & Hs); try done; [|lia|].
  { exists (ep_init (Some pa) cfga), (ep_init (Some pb) cfgb). cbn [fst snd].
    split; [done|]. split; [done|]. split; [done|]. split; [done|]. split; [by split|].
    split; [by exists pa, ca|]. split; [by exists pb, cb|]. by split. }
  specialize (Hs Hsrv).
  destruct Hj as (ea & eb & Ha1 & Hb1 & Ea & Eb & Hsy & Hoa & Hob & _).
  pose proof Hob as (l & c & [= <-] & Hrd).
  rewrite <- Ea in Hoa. rewrite <- Eb in Hob.
  destruct x as [wxa wxb].
  destruct (close_run la lb wxa wxb ea eb ins ib oa (mjoin bss) Ha1 Hb1 Hsy Hoa Hob Hs)
    as (y & r & n1 & n2 & n3 & n4 & Hcl & Hst2 & _ & Ht & _ & Hgone & He).
  exists (wxa, wxb), y. split; [done|]. split; [done|]. split; [by etransitivity|].
  split; [apply Hrd|]. split; [|split; [done|by eexists]].
  unfold other_closes in Ht. rewrite Eb in Ht. eauto.
Qed.
End Library.

(** ** On a script *)

#[export] Program Instance script_calm : CalmOs os_script := {|
  calm e := scr_writes e = [] /\ scr_refuse e = false;
  provides e ins := (scr_writes e = [] /\ scr_refuse e = false) /\
    scr_reads e = map (fun o => IoOk (default [] o)) ins;
|}.
Next Obligation. by intros e ins [H _]. Qed.
Next Obligation.
  intros [rs ws rcs rf rds fks t] bs ins n [Hc Hr] Hl. simpl in *. subst.
  eexists. split; [by rewrite firstn_all2 by lia|done].
Qed.
Next Obligation.
  intros [rs ws rcs rf rds fks t] ins n [Hc Hr]. simpl in *. subst.
  eexists. split; [by rewrite take_nil|done].
Qed.
Next Obligation. intros fd bs [rs ws rcs rf rds fks t] [Hc Hr]. simpl in *. subst. by eexists. Qed.
Next Obligation. intros fd bs a [rs ws rcs rf rds fks t] [Hc Hr]. simpl in *. subst. by eexists. Qed.
Next Obligation.
  intros [rs ws rcs rf rds fks t] r e' [Hc Hf]. simpl in *. subst.
  destruct rds; intros [= <- <-]; by split.
Qed.

(** A host with one connection, at 1, and nothing pending. *)
Definition idle_conn : conn :=
  set_cn_out_queue_tail TailQueue (set_cn_their_init_seqno 7 (conn_setup 5 16777343 8888 true zero_conn)).
Definition host_sys (server : bool) (ins : list (option (list byte))) : sys os_script :=
  Sys (ex_options server true 0) (Config 3 16777343 9999 (Some 1%positive) (Some 1%positive))
    (CtcpConfig 1440 1440 40 200) false 0 1 ex_events (Timespec 0 0)
    (Heap {[1%positive := idle_conn]} 2%positive) heap_empty []
    (OsScript (map (fun o => IoOk (default [] o)) ins) [] [] false [] [] (0, 0)).
Definition host_cfg : ctcp_config := CtcpConfig 1440 1440 40 200.
Definition host_world (server : bool) (ins : list (option (list byte))) : world (sys os_script) :=
  one_world (ep_init (Some 1%positive) host_cfg) (zero_segment 20) (host_sys server ins).

Lemma host_holds server ins :
  holds 1%positive (host_world server ins) (ep_init (Some 1%positive) host_cfg).
Proof.
  exists [1%positive], {[1%positive := ep_init (Some 1%positive) host_cfg]}.
  split; [apply one_represents|apply lookup_singleton_eq].
Qed.

Lemma host_ready server ins : ready (w_sys (host_world server ins)) 1%positive idle_conn ins [].
Proof. by repeat split. Qed.

(** Two pieces are typed; the first arrives at its third transmission, and its
    acknowledgement is lost. *)
Lemma typed_comes_out_witness :
  exists x y, lossy_exchanges 40 200 1%positive 1%positive [Fate 2 true 1; Fate 0 false 0]
      (host_world false [Some hi; Some yo; None], host_world true []) = Some x /\
    Transfer.close 1%positive 1%positive x = Some y /\ written (w_sys x.2) = hi ++ yo.
Proof.
  destruct (typed_comes_out 1%positive 1%positive (host_world false [Some hi; Some yo; None])
    (host_world true []) 1%positive 1%positive idle_conn idle_conn host_cfg host_cfg [hi; yo]
    [Fate 2 true 1; Fate 0 false 0] [] [] []) as (x & y & Hx & Hy & _ & Hw & _).
  - apply host_holds.
  - apply host_holds.
  - apply host_ready.
  - apply host_ready.
  - done.
  - repeat constructor; by vm_compute.
  - done.
  - unfold survives. repeat constructor; simpl; lia.
  - by split.
  - by vm_compute.
  - exists x, y. split; [exact Hx|]. split; [exact Hy|exact Hw].
Defined.

(** Nothing is typed at either end but the end of the input at the client. *)
Lemma both_close_witness :
  exists s', Transfer.close 1%positive 1%positive (host_world false [None], host_world true []) = Some s' /\
    state_freed 1%positive s'.2 /\ length (w_trace s'.1) = 3%nat.
Proof.
  destruct (both_close 1%positive 1%positive (host_world false [None]) (host_world true [])
    (ep_init (Some 1%positive) host_cfg) (ep_init (Some 1%positive) host_cfg) [] [] [] [])
    as (s' & r & n1 & n2 & n3 & n4 & Hx & _ & Ht & _ & _ & Hf & _).
  - apply host_holds.
  - apply host_holds.
  - by split.
  - by eexists _, _.
  - by eexists _, _.
  - done.
  - exists s'. split; [exact Hx|]. split; [exact Hf|]. by rewrite Ht.
Defined.

(** ** [ctcp.c] alone on the library *)

(** A host that has sent a segment that is not acknowledged yet. *)
Definition sent_hi : ctcp_segment := wire_segment 1 1 ACK 22 hi.
Definition host_busy : endpoint :=
  ep_with_unacked (Some (Unacked sent_hi 0 0)) (ep_with_seqno 3 (ep_init (Some 1%positive) host_cfg)).
Definition busy_world : world (sys os_script) := one_world host_busy sent_hi (host_sys true []).

Lemma busy_resendable : resendable (fun s => usable s 1%positive idle_conn) (fun _ => True)
  (Some 1%positive) sent_hi.
Proof.
  intros s Hu.
  destruct (calm_send s 1%positive idle_conn (segment_bytes sent_hi) 22 Hu) as (s' & seg & Hrun & _ & Hm);
    [by vm_compute|by vm_compute|].
  exists 22, s'. split; [exact Hrun|]. split; [done|by eapply mild_usable].
Qed.

Lemma busy_usable : usable (w_sys busy_world) 1%positive idle_conn.
Proof. by repeat split. Qed.

Lemma busy_lookup :
  ({[1%positive := host_busy]} : gmap loc endpoint) !! 1%positive = Some host_busy.
Proof. apply lookup_singleton_eq. Qed.

(** The acknowledgement timeout is five periods: two periods later, three more
    copies are on their way. *)
Lemma retransmission_schedule_witness :
  exists w' evs, ticks 7 1%positive busy_world = Done tt w' /\ length evs = 3%nat /\ w_trace w' = evs.
Proof.
  destruct (retransmission_schedule busy_world [1%positive] {[1%positive := host_busy]} 1%positive
    host_busy sent_hi (fun s => usable s 1%positive idle_conn) 7) as (w' & evs & Hrun & Ht & Hl & _);
    [apply one_represents|apply busy_lookup|by vm_compute|by vm_compute|apply busy_resendable
    |apply busy_usable|by vm_compute..|].
  exists w', evs. split_and!; [exact Hrun| |exact Ht]. change (Z.of_nat (length evs) = 3) in Hl. lia.
Defined.

Lemma busy_goes_on l e :
  ({[1%positive := host_busy]} : gmap loc endpoint) !! l = Some e ->
  goes_on (fun s => usable s 1%positive idle_conn) e.
Proof.
  intros [<- <-]%lookup_singleton_Some. split; [by vm_compute|]. intros u [= <-]. apply busy_resendable.
Qed.

Lemma ctcp_timer_single_witness : exists w', ctcp_timer 1 busy_world = Done tt w'.
Proof.
  destruct (proj2 (ctcp_timer_single busy_world {[1%positive := host_busy]} 1%positive
    host_busy (fun s => usable s 1%positive idle_conn) 0)) as (w' & e' & _ & Hrun & _);
    [apply one_represents|apply busy_lookup|apply (busy_goes_on 1%positive), busy_lookup|apply busy_usable|].
  exists w'. exact Hrun.
Defined.

(** A second connection is set up, and the timer goes off. *)
Lemma ctcp_timer_never_returns_witness :
  exists l w', ctcp_init (Some 6%positive) host_cfg busy_world = Done (Some l) w' /\
    ctcp_timer 1000 w' = NoFuel.
Proof.
  destruct (proj1 (wp_returns _ _ _) (refine_init _ _ _ 6%positive host_cfg
    (one_represents host_busy sent_hi (host_sys true [])))) as (p & w' & Hrun & l & -> & Hl & Hlib & Hr).
  exists l, w'. split; [exact Hrun|].
  apply (ctcp_timer_never_returns w' l 1%positive [] _ (fun s => usable s 1%positive idle_conn) 1000 Hr).
  - intros k f [[<- <-]|[_ Hf]]%lookup_insert_Some; [by split|by apply (busy_goes_on k)].
  - injection Hlib as _ Hsys. rewrite Hsys. apply busy_usable.
Defined.

(** The segment of two bytes, on the library, at a receiver that sees 18 bytes
    of padding. *)
Lemma segment_send_received_witness :
  exists r w', _segment_send 1%positive ACK 22 hi (host_world false []) = Done r w' /\
    packets (sys_io (w_sys w')) <> [].
Proof.
  set (e := ep_init (Some 1%positive) host_cfg).
  set (bs := segment_bytes (wire_segment (ep_seqno e) (ep_ackno e) ACK 22 hi)).
  assert (Hthm : forall s', ConnLib.conn_send (ep_conn e) (Some bs) 22 (w_sys (host_world false [])) = Done 22 s' ->
    exists r w', _segment_send 1%positive ACK 22 hi (host_world false []) = Done r w' /\ w_sys w' = s').
  { intros s' Hsend.
    destruct (fun H1 H2 H3 H4 H5 H6 => segment_send_received (host_world false []) [1%positive]
      {[1%positive := e]} 1%positive e ACK 22 hi 22 s' (replicate 18 Byte.x00) 40
      (one_represents _ _ _) (lookup_singleton_eq _ _) H1 H2 H3 H4 H5 Hsend H6)
      as (r & w' & s & Hrun & _ & Hsy & _); [clear Hsend; by vm_compute..|].
    exists r, w'. split; [exact Hrun|exact Hsy]. }
  destruct (calm_send (w_sys (host_world false [])) 1%positive idle_conn bs 22) as (s' & seg & Hsend & _ & Hm);
    [by repeat split|by vm_compute|by vm_compute|].
  destruct (Hthm s' Hsend) as (r & w' & Hrun & Hsy). exists r, w'. split; [exact Hrun|].
  rewrite Hsy, (ml_packets _ _ _ Hm). by intros [_ [=]]%app_nil.
Defined.
