(* ===== verification/Loop.v ===== *)
(** * Handshakes and the main loop ([src/ctcp_sys_internal.c])

    What runs above the connections: the TCP handshake, accepting clients, the
    timer, and one iteration of [do_loop], in the memory of [ctcp.c] over that
    of the library, each calling the other as in the program. *)

From S2P Require Import Prelude Heap Words Cksum LinkedList Segment ConnLib Ctcp Host Packet Conn.
From S2P Require Import ConnLaws.

Section Loop.
Context {E : Type} `{!Os E}.

(** ** Time *)

Definition get_time : M (sys E) timespec :=
  '(sec, usec) ← syscall os_gettimeofday; mret (Timespec sec (usec * 1000)).

(** The number of milliseconds until the timeout; C's division truncates. *)
Definition timer_left (ts last : timespec) (interval : Z) : Z :=
  let elapsed := tv_sec ts - tv_sec last in
  if elapsed >? Z.quot interval 1000 then 0
  else
    let elapsed := elapsed * 1000 + Z.quot (tv_nsec ts - tv_nsec last) 1000000 in
    if elapsed >=? interval then 0 else interval - elapsed.

Definition need_timer_in (last : timespec) (interval : Z) : M (sys E) Z :=
  ts ← get_time; mret (timer_left ts last interval).

(** ** The handshake *)

Definition set_send_window (v : Z) (c : ctcp_config) : ctcp_config :=
  CtcpConfig (cfg_recv_window c) v (cfg_timer c) (cfg_rt_timeout c).

(** [buf] is the uninitialised array that the packet is received in. *)
Definition tcp_handshake (buf : list byte) : M (sys E) ptr :=
  server ← opt SERVER;
  assert_c (negb server);;
  sc ← conf sconn;
  l ← deref sc;
  sent ← send_syn l;
  if negb (bool_decide (sent = 0)) then exit_with EXIT_FAILURE
  else
    fd ← conf socket;
    '(r, buf, _) ← recv_filter fd buf MAX_PACKET_SIZE;
    if r <=? 0 then mret None
    else
      d ← deref (datagram_of_bytes buf);
      let synack := dg_tcp d in
      modify (fun s => set_sys_ctcp_cfg (set_send_window (ntohs (th_win synack)) (sys_ctcp_cfg s)) s);;
      (if negb (has_flag (th_flags synack) TH_SYN) then
         on_conns (update l (set_cn_init_seqno (u32 (ntohl (th_ack synack) - 1))));;
         on_conns (update l (set_cn_their_init_seqno (u32 (ntohl (th_seq synack) - 1))));;
         on_conns (update l (fun c => set_cn_next_seqno (u32 (cn_init_seqno c + 1)) c));;
         on_conns (update l (set_cn_ackno (ntohl (th_seq synack))))
       else
         on_conns (update l (fun c => set_cn_next_seqno (u32 (cn_next_seqno c + 1)) c));;
         on_conns (update l (set_cn_their_init_seqno (ntohl (th_seq synack))));;
         on_conns (update l (set_cn_ackno (u32 (ntohl (th_seq synack) + 1))));;
         send_ack l;;
         mret tt);;
      conf sconn.

(** Entering and leaving the memory of [ctcp.c]. *)
Definition W : Type := world (sys E).

Definition tcp_new_connection (pkt : list byte) : M W ptr :=
  server ← on_sys (opt SERVER);
  assert_c server;;
  n ← on_sys (gets sys_num_connected);
  if n >=? MAX_NUM_CLIENTS then mret None
  else
    on_sys (modify (set_sys_num_connected (n + 1)));;
    d ← deref (datagram_of_bytes pkt);
    conn ← on_sys (on_conns (calloc zero_conn));
    r ← on_sys rand;
    un ← on_sys (opt unix_socket);
    on_sys (on_conns (update conn
      (conn_setup r (ntohl (ip_saddr (dg_ip d))) (ntohs (th_sport (dg_tcp d))) un)));;
    on_sys (on_conns (update conn (set_cn_their_init_seqno (ntohl (th_seq (dg_tcp d))))));;
    on_sys (on_conns (update conn (fun c => set_cn_ackno (u32 (cn_their_init_seqno c + 1)) c)));;
    on_sys (conn_add conn);;
    on_sys (send_synack conn);;
    on_sys (modify (fun s =>
      set_sys_ctcp_cfg (set_send_window (ntohs (th_win (dg_tcp d))) (sys_ctcp_cfg s)) s));;
    config_copy ← on_sys (gets sys_ctcp_cfg);
    state ← ctcp_init (Some conn) config_copy;
    on_sys (on_conns (update conn (set_cn_state state)));;
    mret (Some conn).

(** ** Programs

    A pipe that could not be made has no descriptors to be used. The child ends
    where [execvp] puts the program in its place; otherwise it goes on, as a second
    server. *)
Definition execute_program (conn : loc) : M (sys E) unit :=
  server ← opt SERVER;
  assert_c server;;
  read_pipe ← syscall os_pipe;
  write_pipe ← syscall os_pipe;
  pid ← fork;
  '(parent_read, child_write) ← deref read_pipe;
  '(child_read, parent_write) ← deref write_pipe;
  if bool_decide (pid = 0) then
    dup2 child_read STDIN_FILENO;;
    dup2 child_write STDOUT_FILENO;;
    dup2 child_write STDERR_FILENO;;
    close child_read;;
    close child_write;;
    close parent_read;;
    close parent_write;;
    replaced ← syscall os_execvp;
    when replaced (exit_with EXIT_SUCCESS)
  else
    close child_read;;
    close child_write;;
    on_conns (update conn (set_cn_stdin parent_write));;
    on_conns (update conn (set_cn_stdout parent_read));;
    n ← gets sys_num_connected;
    let id := NUM_POLL + n - 1 in
    update_event id (fun p => PollFd parent_read (pfd_events p) (pfd_revents p));;
    async parent_read;;
    update_event id (fun p => PollFd (pfd_fd p) (Z.lor POLLIN POLLHUP) (pfd_revents p));;
    on_conns (update conn (set_cn_poll_fd (Some (Z.to_nat id)))).

(** ** The parts of an iteration of [do_loop] *)

(** [conn->state], which must not be null. *)
Definition state_of (conn : loc) : M W loc :=
  c ← on_sys (on_conns (load conn)); deref (cn_state c).

Definition conn_drain (conn : loc) : M W unit :=
  outputted ← on_sys (conn_drain_io conn);
  when outputted (state ← state_of conn; ctcp_output state).

(** Waiting for something to happen. *)
Definition poll_events : M (sys E) unit :=
  cfg ← gets sys_ctcp_cfg;
  last ← gets sys_last_timeout;
  timeout ← need_timer_in last (cfg_timer cfg);
  ev ← gets sys_events;
  n ← gets sys_num_connected;
  let polled := take (Z.to_nat (NUM_POLL + n)) ev in
  revs ← syscall (os_poll polled timeout);
  modify (set_sys_events (zip_with (fun p r => set_pfd_revents r p) polled revs ++
                          drop (Z.to_nat (NUM_POLL + n)) ev)).

Definition handle_stdin : M W unit :=
  rp ← on_sys (opt run_program);
  ready ← on_sys (revents STDIN_FILENO POLLIN);
  when (negb rp && ready)
    (conn ← on_sys get_connections;
     match conn with
     | None => mret tt
     | Some l => state ← state_of l; ctcp_read state
     end).

Fixpoint drain_all (fuel : nat) (conn : ptr) : M W unit :=
  match conn with
  | None => mret tt
  | Some l =>
      match fuel with
      | O => no_fuel
      | S fuel =>
          conn_drain l;;
          c ← on_sys (on_conns (load l));
          drain_all fuel (cn_next c)
      end
  end.

Definition handle_stdout : M W unit :=
  ready ← on_sys (revents STDOUT_FILENO (Z.lor POLLOUT (Z.lor POLLHUP POLLERR)));
  when ready
    (conn ← on_sys get_connections;
     fuel ← on_sys list_fuel;
     drain_all fuel conn).

Fixpoint read_programs (fuel : nat) (conn : ptr) : M W unit :=
  match conn with
  | None => mret tt
  | Some l =>
      match fuel with
      | O => no_fuel
      | S fuel =>
          c ← on_sys (on_conns (load l));
          i ← deref (cn_poll_fd c);
          ready ← on_sys (revents (Z.of_nat i) POLLIN);
          when ready (state ← state_of l; ctcp_read state);;
          c ← on_sys (on_conns (load l));
          read_programs fuel (cn_next c)
      end
  end.

Definition handle_programs : M W unit :=
  rp ← on_sys (opt run_program);
  when rp
    (conn ← on_sys get_connections;
     fuel ← on_sys list_fuel;
     read_programs fuel conn).

(** A packet of an established connection: [len] bytes of [buf]. *)
Definition handle_segment (conn : loc) (buf : list byte) (len : Z) : M W unit :=
  d ← deref (datagram_of_bytes buf);
  c ← on_sys (on_conns (load conn));
  '(seg, _) ← convert_to_ctcp c buf len;
  segment ← on_segments (calloc seg);
  let len := len - FULL_HDR_SIZE + SEGMENT_HDR_SIZE in
  new ← on_sys (gets sys_new_connection);
  if bool_decide (th_sport (dg_tcp d) = new) && has_flag (seg_flags seg) TH_ACK &&
     bool_decide (ntohl (seg_seqno seg) = 1) && bool_decide (ntohl (seg_ackno seg) = 1)
  then
    on_sys (modify (set_sys_new_connection 0));;
    on_segments (free (Some segment))
  else
    on_sys (log_segment (Some conn) (segment_bytes seg) len false);;
    state ← state_of conn;
    ctcp_receive state segment len.

(** What [recv_filter] has returned; its length is compared as an unsigned one, so
    that -1 passes too. *)
Definition handle_packet (conn : ptr) (buf : list byte) (len : Z) : M W unit :=
  when (u64 len >=? FULL_HDR_SIZE)
    match conn with
    | Some conn => handle_segment conn buf len
    | None =>
        d ← deref (datagram_of_bytes buf);
        when (has_flag (th_flags (dg_tcp d)) TH_SYN)
          (conn ← tcp_new_connection buf;
           rp ← on_sys (opt run_program);
           match conn with
           | Some conn => when rp (on_sys (execute_program conn))
           | None => mret tt
           end;;
           on_sys (modify (set_sys_new_connection (th_sport (dg_tcp d)))))
    end.

(** The next packet of the socket. *)
Definition receive_packet : M W unit :=
  fd ← on_sys (conf socket);
  '(len, buf, conn) ← on_sys (recv_filter fd
    (replicate (Z.to_nat MAX_PACKET_SIZE) Byte.x00) MAX_PACKET_SIZE);
  handle_packet conn buf len.

Definition handle_socket : M W unit :=
  ready ← on_sys (revents 2 POLLIN);
  when ready receive_packet.

(** [fuel] bounds the loop of [ctcp_timer]. *)
Definition handle_timer (fuel : nat) : M W unit :=
  cfg ← on_sys (gets sys_ctcp_cfg);
  last ← on_sys (gets sys_last_timeout);
  left_ms ← on_sys (need_timer_in last (cfg_timer cfg));
  when (bool_decide (left_ms = 0))
    (ctcp_timer fuel;;
     ts ← on_sys get_time;
     on_sys (modify (set_sys_last_timeout ts))).

(** One iteration. *)
Definition do_loop_body (fuel : nat) : M W unit :=
  on_sys poll_events;;
  handle_stdin;;
  handle_stdout;;
  handle_programs;;
  handle_socket;;
  handle_timer fuel;;
  on_sys delete_all_connections.

(** [n] iterations of [do_loop], which never ends. *)
Fixpoint do_loop (fuel n : nat) : M W unit :=
  match n with
  | O => no_fuel
  | S n => do_loop_body fuel;; do_loop fuel n
  end.
End Loop.
