(* ===== verification/LoopProps.v ===== *)
(** * What the main loop guarantees

    The timer, and packets from established connections: whatever arrives, the
    memory stays safe, and a segment that one endpoint has sent is delivered to
    the other. *)

From S2P Require Import Prelude Heap Words Cksum LinkedList Segment ConnLib Ctcp CtcpSpec CtcpSteps.
From S2P Require Import CtcpInv CtcpRefine Script CtcpSafety CtcpProps.
From S2P Require Import Host Packet PacketProps Conn Queue ConnInv ConnOut ConnSend ConnInput ConnLaws.
From S2P Require Import ConnScript Loop.

(** ** The timer *)

(** Microseconds of a time stamp that [get_time] has made. *)
Definition micros (ts : timespec) : Z := tv_sec ts * 1000000 + tv_nsec ts / 1000.

Definition stamp (sec usec : Z) : timespec := Timespec sec (usec * 1000).

(** Within a second of the clock, the time left is the interval less the
    milliseconds elapsed, and none once they reach it. *)
Theorem timer_left_same_second sec u0 u interval :
  0 <= u0 <= u -> u < 1000000 -> 0 <= interval ->
  timer_left (stamp sec u) (stamp sec u0) interval =
  Z.max 0 (interval - (micros (stamp sec u) - micros (stamp sec u0)) / 1000).
Proof.
  intros Hu0 Hu Hi. unfold timer_left, micros, stamp. cbn [tv_sec tv_nsec].
  rewrite !Z.div_mul by lia. rewrite Z.sub_diag.
  assert (Hq : 0 <= Z.quot interval 1000) by (apply Z.quot_pos; lia).
  destruct (Z.gtb_spec 0 (Z.quot interval 1000)); [lia|].
  rewrite Z.quot_div_nonneg by lia.
  replace ((u * 1000 - u0 * 1000) / 1000000) with ((u - u0) / 1000).
  2: { rewrite <- Z.mul_sub_distr_r. replace 1000000 with (1000 * 1000) by lia.
       by rewrite Z.div_mul_cancel_r by lia. }
  replace (sec * 1000000 + u - (sec * 1000000 + u0)) with (u - u0) by lia.
  destruct (Z.geb_spec (0 * 1000 + (u - u0) / 1000) interval); lia.
Qed.

(** Across a second of the clock, with an interval below a second, the timer
    is due at once, however little time has passed. *)
Theorem timer_left_next_second sec0 u0 sec u interval :
  sec0 < sec -> 0 <= interval < 1000 ->
  timer_left (stamp sec u) (stamp sec0 u0) interval = 0.
Proof.
  intros Hs Hi. unfold timer_left, stamp. cbn [tv_sec tv_nsec].
  rewrite Z.quot_small by lia. destruct (Z.gtb_spec (sec - sec0) 0); [done|lia].
Qed.

(** ** Packets from established connections

    What follows holds for any invariant of the library that the system calls and
    the handlers of the loop keep. *)

Class LoopLaws (Env : Type) `{!Os Env} (L : ConnLaws (sys Env)) := {
  loop_quiet s s' :
    quiet s s' -> lib_inv s -> lib_inv s' /\ (forall p, conn_open s p -> conn_open s' p);
  loop_new v s :
    lib_inv s -> lib_inv (set_sys_new_connection v s) /\
      (forall p, conn_open s p -> conn_open (set_sys_new_connection v s) p);
  loop_events s : lib_inv s -> Z.of_nat (length (sys_events s)) = NUM_EVENTS;
}.

Section Lifting.
Context {Env : Type} `{!Os Env}.
Implicit Types (s : sys Env) (w : W (E := Env)).

Lemma wp_on_sys {A} (m : M (sys Env) A) (Q : A -> W -> Prop) X w :
  wp m (fun x s => Q x (w_set_sys s w)) (fun s => X (w_set_sys s w)) (w_sys w) ->
  wp (on_sys m) Q X w.
Proof. apply wp_zoom. Qed.

Lemma represents_sys w order E s : represents w order E -> represents (w_set_sys s w) order E.
Proof. intros [O Hi]. exists O. destruct w. by eapply inv_lib. Qed.

Lemma handed_sys w order E g seg s :
  handed w order E g seg -> handed (w_set_sys s w) order E g seg.
Proof. intros (O & Hi & Ho & Hg). exists O. destruct w. split_and!; [by eapply inv_lib|done|done]. Qed.

Lemma wp_state_of w cl c l (Q : loc -> W -> Prop) X :
  ConnInv.conns (w_sys w) !! cl = Some c -> cn_state c = Some l -> Q l w ->
  wp (state_of cl) Q X w.
Proof.
  intros Hc Hl HQ. apply wp_bind, wp_on_sys. eapply wp_conn_load; [exact Hc|].
  eapply wp_deref; [exact Hl|]. by destruct w.
Qed.
End Lifting.

Section Handlers.
Context {Env : Type} `{!Os Env, !OsLaws Env} {L : ConnLaws (sys Env)} `{!LoopLaws Env L}.
Implicit Types (s : sys Env) (w : W (E := Env)).

Abbreviation anywhere := (fun _ => True).

(** A step of the library that keeps the connections open. *)
Lemma safe_state_sys w order E s :
  safe_state w order E -> lib_inv s -> (forall p, conn_open (w_sys w) p -> conn_open s p) ->
  safe_state (w_set_sys s w) order E.
Proof.
  intros [Hr Hl Ho Hwf Hd] Hok Hop. split; [by apply represents_sys|done| |done|done].
  intros l e He. apply Hop. by eapply Ho.
Qed.

Lemma stays_safe_refl w order E l : safe_state w order E -> stays_safe order E l w.
Proof. intros Hs. exists order, E. split_and!; [done|by left|done]. Qed.

(** Changes to the rest of the state of the library. *)
Definition set_new v w : W := w_set_sys (set_sys_new_connection v (w_sys w)) w.

Lemma safe_state_new w order E v : safe_state w order E -> safe_state (set_new v w) order E.
Proof. intros Hs. destruct (loop_new v _ (ss_lib _ _ _ Hs)). by apply safe_state_sys. Qed.

(** A packet of the connection at [cl] is dropped, or becomes a segment with its
    flags that [ctcp_receive] is called with. *)
Lemma wp_handle_segment w order E l cl c buf len d (Q : W -> Prop) :
  safe_state w order E ->
  ConnInv.conns (w_sys w) !! cl = Some c -> cn_state c = Some l ->
  Z.of_nat (length buf) <= MAX_PACKET_SIZE -> datagram_of_bytes buf = Some d ->
  FULL_HDR_SIZE <= ntohs (ip_tot_len (dg_ip d)) <= Z.of_nat (length buf) ->
  (forall w', safe_state w' order E -> Q w') ->
  (forall w' g seg n, safe_state w' order E -> handed w' order E g seg -> arrived seg n ->
     seg_flags seg = th_flags (dg_tcp d) -> wp (ctcp_receive l g n) (fun _ => Q) anywhere w') ->
  wp (handle_segment cl buf len) (fun _ => Q) anywhere w.
Proof.
  intros Hs Hc Hcl Hmax Hd Htot Hdrop HQ. unfold handle_segment.
  apply wp_bind. eapply wp_deref; [exact Hd|]. apply wp_bind, wp_on_sys.
  eapply wp_conn_load; [exact Hc|]. replace (w_set_sys (w_sys w) w) with w by by destruct w.
  destruct (convert_to_ctcp_ok w c buf d len Hd Hmax Htot) as (seg & buf' & Hrun & Hlen & Hfl).
  apply wp_bind. eapply wp_Done; [exact Hrun|]. cbv beta iota.
  apply wp_bind. eapply wp_calloc_segment; [apply Hs|]. intros g w1 E1 Hh1 Hr1. cbv zeta.
  pose proof (safe_state_lib _ _ _ _ Hs Hr1 E1) as Hs1.
  apply (f_equal snd) in E1. cbn [lib_of snd] in E1.
  apply wp_bind, wp_on_sys, wp_gets. replace (w_set_sys (w_sys w1) w1) with w1 by by destruct w1.
  destruct (_ && _).
  - apply wp_bind, wp_on_sys, wp_modify. fold (set_new 0 w1).
    pose proof (safe_state_new _ _ _ 0 Hs1) as Hs2.
    destruct (handed_sys w1 order E g seg (set_sys_new_connection 0 (w_sys w1)) Hh1)
      as (O & Hi & Ho & Hg).
    eapply wp_free_handed; [exact Hi|exact Ho|exact Hg|]. intros w3 E3 Hi3.
    apply Hdrop. eapply safe_state_lib; [exact Hs2|by exists O|exact E3].
  - apply wp_bind, wp_on_sys, wp_log_segment. intros s2 [Hq _].
    destruct (loop_quiet _ _ Hq (ss_lib _ _ _ Hs1)) as [Hok Hop].
    destruct (quiet_keeps _ _ Hq) as (Ec & _).
    pose proof (safe_state_sys _ _ _ _ Hs1 Hok Hop) as Hs2.
    apply wp_bind. eapply wp_state_of; [|exact Hcl|].
    { unfold ConnInv.conns. cbn [w_set_sys w_sys]. rewrite Ec, E1. exact Hc. }
    eapply HQ; [exact Hs2|by apply handed_sys| |exact Hfl]. intros _. by rewrite Hlen.
Qed.

Lemma segment_safe w order E l cl c buf len d :
  safe_state w order E -> l ∈ order ->
  ConnInv.conns (w_sys w) !! cl = Some c -> cn_state c = Some l ->
  Z.of_nat (length buf) <= MAX_PACKET_SIZE -> datagram_of_bytes buf = Some d ->
  FULL_HDR_SIZE <= ntohs (ip_tot_len (dg_ip d)) <= Z.of_nat (length buf) ->
  wp (handle_segment cl buf len) (fun _ w' => stays_safe order E l w') anywhere w.
Proof.
  intros Hs Hl Hc Hcl Hmax Hd Htot.
  eapply wp_handle_segment; [exact Hs|exact Hc|exact Hcl|exact Hmax|exact Hd|exact Htot| |].
  - intros w'. apply stays_safe_refl.
  - intros w' g seg n Hs' Hg Ha _. by eapply receive_safe.
Qed.

(** A look at the polling table, which has an entry for each descriptor. *)
Lemma wp_revents i f (Q : bool -> sys Env -> Prop) X s :
  lib_inv s -> 0 <= i < NUM_EVENTS -> (forall b, Q b s) -> wp (revents i f) Q X s.
Proof.
  intros Hi Hr HQ. unfold revents. apply wp_bind, wp_gets.
  rewrite bool_decide_true by lia. pose proof (loop_events _ Hi) as He.
  destruct (lookup_lt_is_Some_2 (sys_events s) (Z.to_nat i)) as [p Hp]; [lia|].
  apply wp_bind. by eapply wp_deref, wp_ret.
Qed.

(** The input is read for the first connection of the list, if there is one. *)
Lemma wp_handle_stdin (Q : W -> Prop) w :
  lib_inv (w_sys w) -> Q w ->
  (forall cl, head_of (w_sys w) = Some cl ->
     exists c l, ConnInv.conns (w_sys w) !! cl = Some c /\ cn_state c = Some l /\
       wp (ctcp_read l) (fun _ => Q) anywhere w) ->
  wp handle_stdin (fun _ => Q) anywhere w.
Proof.
  intros Hs HQ Hh. unfold handle_stdin.
  assert (Hw : w_set_sys (w_sys w) w = w) by by destruct w.
  apply wp_bind, wp_on_sys, wp_opt. rewrite Hw.
  apply wp_bind, wp_on_sys, wp_revents; [done|done|]. intros ready. rewrite Hw.
  apply wp_when; intros _; [|done].
  apply wp_bind, wp_on_sys. eapply wp_Done; [apply get_connections_run|]. rewrite Hw.
  destruct (head_of (w_sys w)) as [cl|]; [|done].
  destruct (Hh cl eq_refl) as (c & l & Hc & Hcl & Hread).
  apply wp_bind. by eapply wp_state_of.
Qed.

(** Reading the input when there is some has no undefined behaviour, when the
    first connection of the list, if there is one, has an endpoint. *)
Lemma stdin_safe w order E l :
  safe_state w order E -> l ∈ order ->
  (forall cl, head_of (w_sys w) = Some cl ->
     exists c, ConnInv.conns (w_sys w) !! cl = Some c /\ cn_state c = Some l) ->
  wp handle_stdin (fun _ w' => stays_safe order E l w') anywhere w.
Proof.
  intros Hs Hl Hh. apply wp_handle_stdin; [apply Hs|by apply stays_safe_refl|].
  intros cl Hcl. destruct (Hh cl Hcl) as (c & Hc & Hst). exists c, l.
  split; [done|]. split; [done|]. by apply read_safe.
Qed.

End Handlers.

Section Loop.
Context {Env : Type} `{!Os Env, !OsLaws Env}.
Implicit Types (s : sys Env) (w : W (E := Env)).

Abbreviation anywhere := (fun _ => True).

#[export] Instance sys_loop_laws : LoopLaws Env sys_laws.
Proof.
  split.
  - intros s s' Hq Hok. by apply quiet_ok.
  - intros v s [[Q Hi] Hm]. split; [|done]. split; [|done]. exists Q. by eapply sys_inv_frame.
  - intros s [[Q Hi] _]. apply (si_events _ _ Hi).
Qed.

(** C10: whatever packet comes in from the peer of an established connection, if
    its announced length is no more than the bytes received and no less than that
    of the headers, handling it has no undefined behaviour, and it keeps the
    invariant of the endpoints and of the library. *)
Theorem handle_segment_safe w order E l cl c buf len d :
  safe_state w order E -> l ∈ order ->
  ConnInv.conns (w_sys w) !! cl = Some c -> cn_state c = Some l ->
  Z.of_nat (length buf) <= MAX_PACKET_SIZE -> datagram_of_bytes buf = Some d ->
  FULL_HDR_SIZE <= ntohs (ip_tot_len (dg_ip d)) <= Z.of_nat (length buf) ->
  wp (handle_segment cl buf len) (fun _ w' => stays_safe order E l w') anywhere w.
Proof. apply segment_safe. Qed.

(** ** From one endpoint to the other *)

(** What [_segment_send] sends of the bytes [data]. *)
Definition data_wire (seqno ackno : Z) (data : list byte) : ctcp_segment :=
  wire_segment seqno ackno ACK (SEGMENT_HDR_SIZE + Z.of_nat (length data)) data.

(** The packet that carries a segment, as [conn_send] makes it. *)
Definition carrier (cfg : config) (opts : options) (a : conn) (s : ctcp_segment) : datagram :=
  packet_of cfg opts a s (packet_sum cfg opts a s).

Lemma wire_flags_ack opts seqno ackno data :
  wire_flags opts (seg_flags (data_wire seqno ackno data)) = seg_flags (data_wire seqno ackno data).
Proof.
  change (seg_flags (data_wire seqno ackno data)) with (htonl (u32 ACK)).
  unfold wire_flags. by destruct (_ && _).
Qed.

Lemma data_wire_data seqno ackno data : seg_data (data_wire seqno ackno data) = data.
Proof.
  refine (eq_trans (wire_data _ _ _ _ _) _).
  replace (SEGMENT_HDR_SIZE + Z.of_nat (length data) - SEGMENT_HDR_SIZE)
    with (Z.of_nat (length data)) by lia.
  by rewrite Nat2Z.id, firstn_all.
Qed.

Lemma data_wire_wf seqno ackno data :
  0 <= seqno < 2 ^ 32 -> 0 <= ackno < 2 ^ 32 -> segment_wf (data_wire seqno ackno data).
Proof. apply wire_wf. Qed.

(** Across the network, the segment arrives as it was sent. *)
Lemma carrier_received cfg opts a c seqno ackno data pad len w :
  0 <= seqno < 2 ^ 32 -> 0 <= ackno < 2 ^ 32 -> Z.of_nat (length data) <= MAX_SEG_DATA_SIZE ->
  0 <= ip_addr cfg < 2 ^ 32 -> 0 <= cn_ip_addr a < 2 ^ 32 -> numbers_agree a c ->
  exists buf, convert_to_ctcp c
    (datagram_bytes (carrier cfg opts a (data_wire seqno ackno data)) ++ pad) len w =
    Done (data_wire seqno ackno data, buf) w.
Proof.
  intros Hs Ha Hlen Hip Hdst Hn. unfold MAX_SEG_DATA_SIZE in Hlen.
  set (g := data_wire seqno ackno data).
  assert (Hd : seg_data g = data) by apply data_wire_data.
  destruct (convert_back w cfg opts a c g pad len) as (d & buf & Hto & Hof).
  - exact (data_wire_wf _ _ _ Hs Ha).
  - reflexivity.
  - rewrite Hd. unfold g, data_wire. cbn [wire_segment seg_len set_cksum _segment_hton].
    unfold SEGMENT_HDR_SIZE. by rewrite u16_small by lia.
  - rewrite Hd. unfold FULL_HDR_SIZE, IP_HDR_SIZE, TCP_HDR_SIZE. lia.
  - exact (wire_flags_ack opts seqno ackno data).
  - exact Hip.
  - exact Hdst.
  - exact Hn.
  - rewrite (convert_to_datagram_run w cfg opts a g) in Hto
      by (rewrite ?Hd; unfold SEGMENT_HDR_SIZE; lia).
    injection Hto as <-. by exists buf.
Qed.

Lemma data_host seqno ackno data :
  0 <= seqno < 2 ^ 32 -> 0 <= ackno < 2 ^ 32 -> Z.of_nat (length data) <= MAX_SEG_DATA_SIZE ->
  host_segment (data_wire seqno ackno data) =
  Segment seqno ackno (SEGMENT_HDR_SIZE + Z.of_nat (length data)) 0 ACK MAX_SEG_DATA_SIZE 0 data.
Proof.
  intros Hs Ha Hlen. unfold MAX_SEG_DATA_SIZE in Hlen. unfold host_segment, data_wire.
  rewrite wire_ntoh; [|unfold SEGMENT_HDR_SIZE, MAX_SEG_DATA_SIZE; lia|done|done|by vm_compute].
  f_equal. replace (SEGMENT_HDR_SIZE + Z.of_nat (length data) - SEGMENT_HDR_SIZE)
    with (Z.of_nat (length data)) by lia.
  by rewrite Nat2Z.id, firstn_all.
Qed.


(** The test for the packet that ends the handshake of the last client. *)
Definition ends_handshake w (d : datagram) (seg : ctcp_segment) : bool :=
  bool_decide (th_sport (dg_tcp d) = sys_new_connection (w_sys w)) &&
  has_flag (seg_flags seg) TH_ACK &&
  bool_decide (ntohl (seg_seqno seg) = 1) && bool_decide (ntohl (seg_ackno seg) = 1).

Section Handled.
Context (w : W (E := Env)) (order : list loc) (E : gmap loc endpoint).
Context (l cl : loc) (c : conn) (buf buf' : list byte) (len : Z) (d : datagram) (seg : ctcp_segment).
Hypothesis (Hr : represents w order E).
Hypothesis (Hc : ConnInv.conns (w_sys w) !! cl = Some c) (Hcl : cn_state c = Some l).
Hypothesis (Hd : datagram_of_bytes buf = Some d).
Hypothesis (Hrun : convert_to_ctcp c buf len w = Done (seg, buf') w).

(** A segment that is passed on. *)
Lemma handle_segment_passes s0 :
  ends_handshake w d seg = false ->
  log_segment (Some cl) (segment_bytes seg) (len - FULL_HDR_SIZE + SEGMENT_HDR_SIZE) false
    (w_sys w) = Done tt s0 ->
  exists g w', handed w' order E g seg /\ lib_of w' = (w_trace w, s0) /\
    handle_segment cl buf len w = ctcp_receive l g (len - FULL_HDR_SIZE + SEGMENT_HDR_SIZE) w'.
Proof.
  intros Hend Hlog. unfold handle_segment. rewrite Hd.
  erewrite (bind_Done _ _ w d w) by done.
  assert (Hload : on_sys (on_conns (load cl)) w = Done c w).
  { unfold on_sys, on_conns, zoom, load. unfold ConnInv.conns in Hc. rewrite Hc.
    by destruct w as [? ? ? ? ? ? ? ? []]. }
  erewrite bind_Done by exact Hload. erewrite bind_Done by exact Hrun. cbv beta iota.
  destruct (wp_returns (on_segments (calloc seg))
    (fun g w' => lib_of w' = lib_of w /\ handed w' order E g seg) w) as [Hw _].
  destruct Hw as (g & w1 & Hcall & E1 & Hh); [by eapply wp_calloc_segment|].
  erewrite bind_Done by exact Hcall. cbv zeta.
  assert (Es : w_sys w1 = w_sys w) by exact (f_equal snd E1).
  assert (Et : w_trace w1 = w_trace w) by exact (f_equal fst E1).
  erewrite (bind_Done _ _ w1 (sys_new_connection (w_sys w)) w1)
    by (unfold on_sys, zoom, gets; rewrite Es; destruct w1; simpl in *; by subst).
  unfold ends_handshake in Hend. rewrite Hend.
  erewrite bind_Done by (unfold on_sys, zoom; by rewrite Es, Hlog).
  exists g, (w_set_sys s0 w1). split; [by apply handed_sys|].
  split; [unfold lib_of; cbn [w_set_sys w_trace w_sys]; by rewrite Et|].
  assert (Hq : ConnInv.conns s0 !! cl = Some c).
  { pose proof (wp_log_segment (fun _ => False) (Some cl) (segment_bytes seg)
      (len - FULL_HDR_SIZE + SEGMENT_HDR_SIZE) false (fun _ s' => silent (w_sys w) s') (w_sys w)
      (fun _ H => H)) as Hsil.
    unfold wp in Hsil. rewrite Hlog in Hsil. destruct (quiet_keeps _ _ (proj1 Hsil)) as (Ec & _).
    unfold ConnInv.conns. by rewrite Ec. }
  destruct (wp_returns (state_of cl) (fun p w' => p = l /\ w' = w_set_sys s0 w1)
    (w_set_sys s0 w1)) as [(p & w2 & Hst & -> & ->) _].
  { by eapply wp_state_of. }
  by erewrite bind_Done by exact Hst.
Qed.

(** A segment with the numbers 1 and an ACK, from the port of the last client, is
    taken for the end of the handshake and dropped, with the data that it has. *)
Theorem handshake_ack_swallowed :
  ends_handshake w d seg = true ->
  exists w', handle_segment cl buf len w = Done tt w' /\ w_trace w' = w_trace w /\
    w_sys w' = set_sys_new_connection 0 (w_sys w) /\ represents w' order E.
Proof.
  intros Hend.
  cut (wp (handle_segment cl buf len) (fun _ w' => w_trace w' = w_trace w /\
         w_sys w' = set_sys_new_connection 0 (w_sys w) /\ represents w' order E)
         (fun _ => False) w).
  { intros ([] & w' & Hw)%wp_returns. by exists w'. }
  unfold handle_segment.
  apply wp_bind. eapply wp_deref; [exact Hd|]. apply wp_bind, wp_on_sys.
  eapply wp_conn_load; [exact Hc|]. replace (w_set_sys (w_sys w) w) with w by by destruct w.
  apply wp_bind. eapply wp_Done; [exact Hrun|]. cbv beta iota zeta.
  apply wp_bind. eapply wp_calloc_segment; [exact Hr|]. intros g w1 E1 Hh1 _.
  assert (Es : w_sys w1 = w_sys w) by exact (f_equal snd E1).
  apply wp_bind, wp_on_sys, wp_gets. replace (w_set_sys (w_sys w1) w1) with w1 by by destruct w1.
  rewrite Es. unfold ends_handshake in Hend. rewrite Hend.
  apply wp_bind, wp_on_sys, wp_modify. rewrite Es.
  destruct (handed_sys w1 order E g seg (set_sys_new_connection 0 (w_sys w)) Hh1)
    as (O & Hi & Ho & Hg).
  eapply wp_free_handed; [exact Hi|exact Ho|exact Hg|]. intros w3 E3 Hi3.
  pose proof (f_equal fst E3) as Et3. pose proof (f_equal snd E3) as Es3.
  split_and!; [|exact Es3|by exists O]. refine (eq_trans Et3 _). exact (f_equal fst E1).
Qed.
End Handled.

(** C9: a packet with data that the other host sent, once [recv_filter] has found its
    connection, is handled by [handle_segment] as follows: [convert_to_ctcp] makes
    the segment of it that [convert_to_datagram] was given, and [ctcp_receive]
    outputs its bytes, exactly and once, and acknowledges them with the next
    number. This is in [DATA_TRANSFER], for a number that was not acknowledged yet,
    when the two ends know each other's initial numbers, the packet is not taken
    for the last one of a handshake ([new_connection]), there is room for the data,
    and the output and the sending return. *)
Theorem packet_delivered w order E l e cl c cfg opts a seqno ackno data pad s0 space r n s1 s2 :
  let g := data_wire seqno ackno data in
  let d := carrier cfg opts a g in
  let len := SEGMENT_HDR_SIZE + Z.of_nat (length data) in
  let e' := ep_with_ackno (u32 (seqno + Z.of_nat (length data))) e in
  represents w order E -> E !! l = Some e ->
  ConnInv.conns (w_sys w) !! cl = Some c -> cn_state c = Some l -> numbers_agree a c ->
  0 <= seqno < 2 ^ 32 -> 0 <= ackno < 2 ^ 32 ->
  0 < Z.of_nat (length data) <= MAX_SEG_DATA_SIZE ->
  0 <= ip_addr cfg < 2 ^ 32 -> 0 <= cn_ip_addr a < 2 ^ 32 ->
  ep_phase e = DATA_TRANSFER -> ep_ackno e <= seqno ->
  th_sport (dg_tcp d) <> sys_new_connection (w_sys w) ->
  log_segment (Some cl) (segment_bytes g) len false (w_sys w) = Done tt s0 ->
  conn_bufspace (ep_conn e) s0 = Done space s0 -> Z.of_nat (length data) <= space < 2 ^ 32 ->
  conn_output (ep_conn e) data (Z.of_nat (length data)) s0 = Done r s1 -> 0 <= r ->
  conn_send (ep_conn e) (Some (segment_bytes (ctl_segment e' ACK))) SEGMENT_HDR_SIZE s1 =
    Done n s2 ->
  exists w', handle_segment cl (datagram_bytes d ++ pad) (Z.of_nat (length (datagram_bytes d))) w =
      Done tt w' /\ w_sys w' = s2 /\
    w_trace w' = w_trace w ++ [EvOutput (ep_conn e) data r;
                               EvSend (ep_conn e) (segment_bytes (ctl_segment e' ACK)) n] /\
    represents w' order (<[l := ep_with_received RecvFreed (ep_with_unacked None
      (if n <? 0 then e' else ep_with_seqno (u32 (ep_seqno e)) e'))]> E).
Proof.
  intros g d len e' Hr He Hc Hcl Hn Hs Ha Hlen Hip Hdst Hp Hack Hnew Hlog Hsp Hspr Hout Hr0 Hsend.
  pose proof (data_host seqno ackno data Hs Ha (proj2 Hlen)) as Hh. fold g in Hh.
  pose proof (data_wire_data seqno ackno data) as Hgd. fold g in Hgd.
  assert (Hl : Z.of_nat (length (datagram_bytes d)) - FULL_HDR_SIZE + SEGMENT_HDR_SIZE = len).
  { rewrite datagram_bytes_length. unfold d, carrier, packet_of. cbn [dg_payload]. rewrite Hgd.
    unfold len, FULL_HDR_SIZE, IP_HDR_SIZE, TCP_HDR_SIZE, SEGMENT_HDR_SIZE. lia. }
  assert (Hd : datagram_of_bytes (datagram_bytes d ++ pad) =
    Some (Datagram (dg_ip d) (dg_tcp d) (dg_payload d ++ pad))).
  { unfold d, carrier, packet_of. rewrite datagram_of_bytes_bytes; [done|by apply made_iphdr_wf|].
    apply made_tcphdr_wf; [exact (data_wire_wf _ _ _ Hs Ha)|]. apply u16_range. }
  destruct (carrier_received cfg opts a c seqno ackno data pad
    (Z.of_nat (length (datagram_bytes d))) w) as (buf & Hrun); try done; [lia|].
  fold g d in Hrun. set (n0 := Z.of_nat (length (datagram_bytes d))) in *.
  destruct (handle_segment_passes w order E l cl c _ _ _ _ _ Hr Hc Hcl Hd Hrun s0)
    as (gl & w1 & Hhand & E1 & ->).
  { unfold ends_handshake. cbn [dg_tcp]. by rewrite bool_decide_false. }
  { by rewrite Hl. }
  assert (Es : w_sys w1 = s0) by exact (f_equal snd E1).
  assert (Et : w_trace w1 = w_trace w) by exact (f_equal fst E1).
  rewrite Hl.
  assert (Edl : seg_len (host_segment g) - SEGMENT_HDR_SIZE = Z.of_nat (length data))
    by (rewrite Hh; cbn [seg_len]; lia).
  assert (Esq : seg_seqno (host_segment g) = seqno) by by rewrite Hh.
  assert (Eda : seg_data (host_segment g) = data) by by rewrite Hh.
  assert (Efl : seg_flags (host_segment g) = ACK) by by rewrite Hh.
  pose proof (receive_data_run w1 order E l e gl g len space r n s1 s2 Hhand He) as H.
  cbv zeta in H. rewrite Edl, Esq, Eda, Efl, Es, Et, Nat2Z.id, firstn_all in H.
  assert (H20 : u16 len = len)
    by (unfold len, MAX_SEG_DATA_SIZE, SEGMENT_HDR_SIZE in *; apply u16_small; lia).
  assert (Hrange : SEGMENT_HDR_SIZE <= len <= SEGMENT_HDR_SIZE + MAX_SEG_DATA_SIZE)
    by (unfold len; lia).
  apply H; try done; try lia.
  - intros _. change (ntohs (seg_len g)) with (seg_len (host_segment g)).
    rewrite Hh, segment_bytes_length, Hgd. cbn [seg_len]. unfold SEGMENT_HDR_SIZE. lia.
  - refine (wire_valid seqno ackno ACK len data Hrange len _). rewrite H20. apply Z.le_refl.
Qed.
End Loop.

(** ** Witnesses

    The host of [ConnScript.v] whose connection, at 1, has the endpoint at 1. *)

Definition loop_conn : conn := set_cn_state (Some 1%positive) (ex_conn CPrevNull).
Definition loop_sys : sys os_script := with_conns (<[1%positive := loop_conn]> (ConnInv.conns ex_client)) ex_client.
Definition loop_idle : endpoint := ep_init (Some 1%positive) ex_cfg.
Definition loop_busy : endpoint := ep_sent ACK 22 ex_wire loop_idle.
Definition loop_world (e : endpoint) : W := one_world e ex_wire loop_sys.
Definition loop_map (e : endpoint) : gmap loc endpoint := {[1%positive := e]}.

Lemma loop_sys_ok : sys_ok loop_sys.
Proof.
  split; [|done]. exists ex_queues.
  apply (sys_inv_conn ex_queues ex_client loop_sys 1%positive (ex_conn CPrevNull) loop_conn);
    [exact ex_client_inv|unfold loop_sys; touch|done..].
Qed.

Lemma loop_safe_state e :
  ep_wf e -> ep_conn e = Some 1%positive -> safe_state (loop_world e) [1%positive] (loop_map e).
Proof.
  unfold loop_map. intros Hwf Hc. split.
  - apply one_represents.
  - exact loop_sys_ok.
  - intros l e' [<- <-]%lookup_singleton_Some. rewrite Hc. by exists 1%positive, loop_conn.
  - by intros l e' [<- <-]%lookup_singleton_Some.
  - by intros l1 l2 e1 e2 [<- <-]%lookup_singleton_Some [<- <-]%lookup_singleton_Some.
Qed.

Lemma loop_idle_safe : safe_state (loop_world loop_idle) [1%positive] (loop_map loop_idle).
Proof. apply loop_safe_state; [apply ep_wf_init|reflexivity]. Qed.

Lemma loop_busy_safe : safe_state (loop_world loop_busy) [1%positive] (loop_map loop_busy).
Proof. apply loop_safe_state; [|reflexivity]. by apply ep_wf_sent; [vm_compute| |apply ep_wf_init]. Qed.

(** The peer, and what it sends. *)
Definition peer_conn : conn := set_cn_their_init_seqno 5 (conn_setup 7 16777343 9999 true zero_conn).
Definition peer_cfg : config := Config 3 16777343 8888 None None.
Definition hello : list byte := [Byte.x68; Byte.x65; Byte.x6c; Byte.x6c; Byte.x6f].
Definition hello_packet : datagram :=
  carrier peer_cfg (ex_options false true 0) peer_conn (data_wire 1 1 hello).

(** The packet with a TCP header of which some fields are changed. *)
Definition odd_packet : list byte := take 44 (datagram_bytes hello_packet) ++ replicate 100 Byte.xff.

Lemma timer_left_same_second_witness :
  timer_left (stamp 7 900) (stamp 7 100) 40 =
  Z.max 0 (40 - (micros (stamp 7 900) - micros (stamp 7 100)) / 1000).
Proof. apply timer_left_same_second; lia. Defined.

Lemma timer_left_next_second_witness :
  timer_left (stamp 8 0) (stamp 7 999999) 40 = 0.
Proof. apply timer_left_next_second; lia. Defined.

Lemma handle_segment_safe_witness :
  wp (handle_segment 1%positive odd_packet 144)
    (fun _ w' => stays_safe [1%positive] (loop_map loop_busy) 1%positive w') (fun _ => True)
    (loop_world loop_busy).
Proof.
  destruct (datagram_of_bytes odd_packet) as [d|] eqn:Hd; [|exfalso; vm_compute in Hd; discriminate Hd].
  apply (handle_segment_safe _ [1%positive] (loop_map loop_busy) 1%positive 1%positive
    loop_conn odd_packet 144 d); [exact loop_busy_safe|by left|done|done|by vm_compute|exact Hd|].
  vm_compute in Hd. injection Hd as <-. by vm_compute.
Defined.

(** The state that a run leaves. *)
Definition after {S A : Type} (m : M S A) (s : S) : S :=
  match m s with Done _ s' => s' | Exit _ s' => s' | _ => s end.

Definition hello_output : sys os_script := after (conn_output (Some 1%positive) hello 5) loop_sys.
Definition hello_acked : sys os_script :=
  after (conn_send (Some 1%positive)
    (Some (segment_bytes (ctl_segment (ep_with_ackno 6 loop_idle) ACK))) 20) hello_output.

Lemma packet_delivered_witness :
  exists w' n, handle_segment 1%positive (datagram_bytes hello_packet ++ replicate 7 Byte.x00) 45
      (loop_world loop_idle) = Done tt w' /\
    w_trace w' = [EvOutput (Some 1%positive) hello 5;
      EvSend (Some 1%positive) (segment_bytes (ctl_segment (ep_with_ackno 6 loop_idle) ACK)) n].
Proof.
  destruct (packet_delivered (loop_world loop_idle) [1%positive] (loop_map loop_idle) 1%positive
    loop_idle 1%positive loop_conn peer_cfg (ex_options false true 0) peer_conn 1 1 hello
    (replicate 7 Byte.x00) loop_sys 8189 5 20 hello_output hello_acked) as (w' & Hrun & _ & Ht & _);
    [apply one_represents|by vm_compute..|].
  exists w', 20. split; [exact Hrun|exact Ht].
Defined.

(** A server that waits for the end of the handshake with the same peer. *)
Definition loop_waiting : W :=
  one_world loop_idle ex_wire (set_sys_new_connection (htons 8888) loop_sys).

Lemma handshake_ack_swallowed_witness :
  exists w', handle_segment 1%positive (datagram_bytes hello_packet ++ []) 45 loop_waiting =
      Done tt w' /\ w_trace w' = [].
Proof.
  destruct (datagram_of_bytes (datagram_bytes hello_packet ++ [])) as [d|] eqn:Hd;
    [|exfalso; vm_compute in Hd; discriminate Hd].
  destruct (carrier_received peer_cfg (ex_options false true 0) peer_conn loop_conn 1 1 hello [] 45
    loop_waiting) as (buf & Hrun); [by vm_compute..|].
  destruct (handshake_ack_swallowed loop_waiting [1%positive] (loop_map loop_idle) 1%positive
    loop_conn (datagram_bytes hello_packet ++ []) buf 45 d (data_wire 1 1 hello))
    as (w' & Hw & Ht & _); [apply one_represents|done|exact Hd|exact Hrun| |].
  - vm_compute in Hd. injection Hd as <-. by vm_compute.
  - exists w'. split; [exact Hw|exact Ht].
Defined.
