(* ===== verification/Wire.v ===== *)
(** * A transfer in packets

    The two sides of the program with the packets between them: what [conn_send]
    gives to the system at one end is put in the socket of the other, whose loop
    receives it, finds its connection and has [convert_to_ctcp] make a segment of
    it. The bytes that are typed at one end come out at the other, through every
    layer of the program, until the numbers in the packets wrap around. *)

From S2P Require Import Prelude Heap Words Cksum Segment ConnLib Ctcp CtcpSpec CtcpSteps CtcpInv Script.
From S2P Require Import CtcpRefine CtcpSafety CtcpProps Streams Network Transfer.
From S2P Require Import Host Packet PacketProps Conn Queue ConnInv ConnOut ConnSend ConnInput ConnLaws.
From S2P Require Import ConnScript LibTransfer Loop LoopProps.

#[local] Opaque wire_segment segment_bytes seg_cksum_of.

(** A network that brings packets: [hears e x] when the next packet that the
    socket gives is [x], which is so once the network has put it there. *)
Class CalmNet (E : Type) `{!Os E, !CalmOs E} := {
  hears : E -> list byte -> Prop;
  incoming : list byte -> E -> E;

  incoming_hears x e : hears (incoming x e) x;
  incoming_calm x e : calm e -> calm (incoming x e);
  incoming_provides x e ins : provides e ins -> provides (incoming x e) ins;
  hears_recv fd n e x :
    hears e x -> Z.of_nat (length x) <= n ->
    exists e', os_recv fd n e = (IoOk x, e') /\ (calm e -> calm e') /\
      forall ins, provides e ins -> provides e' ins;
  hears_send fd bs a e r e' x : os_sendto fd bs a e = (r, e') -> hears e x -> hears e' x;
}.

Section Wire.
Context {E : Type} `{!Os E, !OsLaws E, !CalmOs E, !CalmNet E}.
Implicit Types (w : world (sys E)) (e : endpoint) (bs : list byte).

(** ** The schedule *)

Definition last_packet (s : sys E) : option (list byte) := last (packets (sys_io s)).

(** A packet is put in the socket of a host, and its loop takes it. *)
Definition arrive (packet : list byte) w : world (sys E) :=
  w_set_sys (set_sys_env (incoming packet (sys_env (w_sys w))) (w_sys w)) w.
Definition deliver (packet : list byte) w : option (world (sys E)) :=
  ran (receive_packet (arrive packet w)).

(** One end reads and sends a packet; the other handles it and answers with one. *)
Definition wire_exchange (la : loc) (s : world (sys E) * world (sys E)) :
    option (world (sys E) * world (sys E)) :=
  wa ← ran (ctcp_read la s.1);
  data ← last_packet (w_sys wa);
  wb ← deliver data s.2;
  ack ← last_packet (w_sys wb);
  wa ← deliver ack wa;
  Some (wa, wb).

(** In a conversation the ends take turns; in a turn one of them reads [bs]. *)
Record turn := Turn { first_end : bool; piece : list byte }.

Definition wire_turn (la lb : loc) (t : turn) (s : world (sys E) * world (sys E)) :
    option (world (sys E) * world (sys E)) :=
  if first_end t then wire_exchange la s
  else '(wb, wa) ← wire_exchange lb (s.2, s.1); Some (wa, wb).

Definition wire_turns (la lb : loc) (ts : list turn) (s : world (sys E) * world (sys E)) :
    option (world (sys E) * world (sys E)) :=
  foldl (fun s t => s ≫= wire_turn la lb t) (Some s) ts.

(** What one of the ends reads in its turns. *)
Definition said (first : bool) (ts : list turn) : list (list byte) :=
  omap (fun t => if eqb (first_end t) first then Some (piece t) else None) ts.

(** ** A packet that comes in *)

(** [recv_filter] on a packet with the host's port and without RST. *)
Lemma recv_filter_calm fd buf pkt d (Q : Z * list byte * ptr -> sys E -> Prop) X s :
  hears (sys_env s) pkt -> calm (sys_env s) -> length buf = Z.to_nat MAX_PACKET_SIZE ->
  FULL_HDR_SIZE <= Z.of_nat (length pkt) <= MAX_PACKET_SIZE ->
  let buf' := pkt ++ drop (length pkt) buf in
  datagram_of_bytes buf' = Some d -> th_dport (dg_tcp d) = htons (u16 (port (sys_config s))) ->
  has_flag (th_flags (dg_tcp d)) TH_RST = false ->
  (forall s', mild [] s s' ->
     if has_flag (th_flags (dg_tcp d)) TH_SYN then Q (Z.of_nat (length pkt), buf', None) s'
     else wp (find_conn (S (size (ConnInv.conns s))) (sys_options s) (dg_ip d) (dg_tcp d) (head_of s))
       (fun p s' => Q (match p with Some _ => (Z.of_nat (length pkt), buf', p) | None => (0, buf', None) end) s')
       X s') ->
  wp (recv_filter fd buf MAX_PACKET_SIZE) Q X s.
Proof.
  intros Hh Hc Hb Hl buf' Hd Hport Hrst HQ. unfold recv_filter, syscall. apply wp_bind. unfold wp at 1.
  destruct (hears_recv fd MAX_PACKET_SIZE _ _ Hh) as (e & -> & Hc' & Hp); [lia|].
  set (s1 := set_sys_env e s). assert (H1 : mild [] s s1) by (apply mild_env; auto).
  apply wp_bind, wp_access; [rewrite Hb; apply Z.leb_le; lia|]. cbv zeta.
  destruct (Z.ltb_spec (Z.of_nat (length pkt)) FULL_HDR_SIZE) as [|_]; [lia|].
  apply wp_bind. eapply wp_deref; [exact Hd|]. apply wp_bind, wp_conf.
  change (sys_config s1) with (sys_config s). rewrite Hport, bool_decide_true by done. cbn [negb].
  rewrite Hrst. specialize (HQ s1 H1). destruct (has_flag _ TH_SYN); [by apply wp_ret|].
  apply wp_bind, wp_gets, wp_bind. eapply wp_Done; [apply get_connections_run|].
  apply wp_bind, wp_gets, wp_bind. eapply wp_mono_exit; [exact HQ|auto|].
  intros [l|] s2 H2; by apply wp_ret.
Qed.

(** The array in which the packets are received. *)
Definition zero_packet : list byte := replicate (Z.to_nat MAX_PACKET_SIZE) Byte.x00.

(** A packet of the first connection of the host. *)
Lemma calm_found s cl c pkt d fd :
  hears (sys_env s) pkt -> calm (sys_env s) -> FULL_HDR_SIZE <= Z.of_nat (length pkt) <= MAX_PACKET_SIZE ->
  let buf := pkt ++ drop (length pkt) zero_packet in
  datagram_of_bytes buf = Some d -> th_dport (dg_tcp d) = htons (u16 (port (sys_config s))) ->
  has_flag (th_flags (dg_tcp d)) TH_RST = false -> has_flag (th_flags (dg_tcp d)) TH_SYN = false ->
  unix_socket (sys_options s) = true -> head_of s = Some cl -> ConnInv.conns s !! cl = Some c ->
  cn_port c = ntohs (th_sport (dg_tcp d)) -> cn_their_init_seqno c <= ntohl (th_seq (dg_tcp d)) ->
  cn_init_seqno c <= ntohl (th_ack (dg_tcp d)) ->
  exists s', recv_filter fd zero_packet MAX_PACKET_SIZE s = Done (Z.of_nat (length pkt), buf, Some cl) s' /\
    mild [] s s'.
Proof.
  intros Hh Hcalm Hl buf Hd Hport Hrst Hsyn Hun Hhead Hc Hsp Hsq Hak.
  enough (Hwp : wp (recv_filter fd zero_packet MAX_PACKET_SIZE)
    (fun r s' => r = (Z.of_nat (length pkt), buf, Some cl) /\ mild [] s s') (fun _ => False) s).
  { apply wp_returns in Hwp as (r & s' & Hrun & -> & Hm). by exists s'. }
  apply (recv_filter_calm fd zero_packet pkt d); try done.
  intros s' Hm. rewrite Hsyn, Hhead. cbn [find_conn]. apply wp_bind. eapply wp_conn_load.
  { destruct (quiet_keeps _ _ (ml_quiet _ _ _ Hm)) as (Ec & _). unfold ConnInv.conns. rewrite Ec. exact Hc. }
  rewrite Hsp, Hun, bool_decide_true by done.
  rewrite (proj2 (Z.geb_le _ _) Hsq), (proj2 (Z.geb_le _ _) Hak). cbn [andb orb]. by apply wp_ret.
Qed.

(** And when it is the only one, and its numbers are above that of the packet, none
    is found. *)
Lemma calm_missed s cl c pkt d fd :
  hears (sys_env s) pkt -> calm (sys_env s) -> FULL_HDR_SIZE <= Z.of_nat (length pkt) <= MAX_PACKET_SIZE ->
  let buf := pkt ++ drop (length pkt) zero_packet in
  datagram_of_bytes buf = Some d -> th_dport (dg_tcp d) = htons (u16 (port (sys_config s))) ->
  has_flag (th_flags (dg_tcp d)) TH_RST = false -> has_flag (th_flags (dg_tcp d)) TH_SYN = false ->
  head_of s = Some cl -> ConnInv.conns s !! cl = Some c -> cn_next c = None ->
  ntohl (th_seq (dg_tcp d)) < cn_their_init_seqno c ->
  exists s', recv_filter fd zero_packet MAX_PACKET_SIZE s = Done (0, buf, None) s' /\ mild [] s s'.
Proof.
  intros Hh Hcalm Hl buf Hd Hport Hrst Hsyn Hhead Hc Hnext Hsq.
  enough (Hwp : wp (recv_filter fd zero_packet MAX_PACKET_SIZE)
    (fun r s' => r = (0, buf, None) /\ mild [] s s') (fun _ => False) s).
  { apply wp_returns in Hwp as (r & s' & Hrun & -> & Hm). by exists s'. }
  apply (recv_filter_calm fd zero_packet pkt d); try done.
  intros s' Hm. rewrite Hsyn, Hhead. cbn [find_conn]. apply wp_bind. eapply wp_conn_load.
  { destruct (quiet_keeps _ _ (ml_quiet _ _ _ Hm)) as (Ec & _). unfold ConnInv.conns. rewrite Ec. exact Hc. }
  replace (ntohl (th_seq (dg_tcp d)) >=? cn_their_init_seqno c) with false
    by (symmetry; rewrite Z.geb_leb; apply Z.leb_gt, Hsq).
  rewrite andb_false_r, Hnext. cbn [andb find_conn]. destruct (size _); by apply wp_ret.
Qed.

(** Taking a packet once it is received. *)
Lemma receive_packet_run w len buf p s' :
  recv_filter (socket (sys_config (w_sys w))) zero_packet MAX_PACKET_SIZE (w_sys w) = Done (len, buf, p) s' ->
  receive_packet w = handle_packet p buf len (w_set_sys s' w).
Proof.
  intros Hr. unfold receive_packet.
  erewrite (bind_Done _ _ w (socket (sys_config (w_sys w))) w) by (destruct w; done).
  erewrite bind_Done; [|by unfold on_sys, zoom; fold zero_packet; rewrite Hr]. done.
Qed.

(** What the packets of an end need of its configuration and its connection. *)
Record addressed (s : sys E) (c : conn) : Prop := {
  ad_host : 0 <= ip_addr (sys_config s) < 2 ^ 32;
  ad_peer : 0 <= cn_ip_addr c < 2 ^ 32;
  ad_port : htons (u16 (port (sys_config s))) <> 0;
}.

Lemma addressed_quiet s s' c : quiet s s' -> addressed s c -> addressed s' c.
Proof. intros Hq []. destruct (quiet_keeps _ _ Hq) as (_ & _ & _ & Ec). split; by rewrite ?Ec. Qed.

Lemma quiet_head (s s' : sys E) : quiet s s' -> head_of s' = head_of s.
Proof. by intros (env & io & did & ->). Qed.

Lemma quiet_new (s s' : sys E) : quiet s s' -> sys_new_connection s' = sys_new_connection s.
Proof. by intros (env & io & did & ->). Qed.

Lemma packet_length cfg opts a seqno ackno data :
  Z.of_nat (length (datagram_bytes (LoopProps.carrier cfg opts a (data_wire seqno ackno data)))) =
  FULL_HDR_SIZE + Z.of_nat (length data).
Proof.
  rewrite datagram_bytes_length. unfold LoopProps.carrier, packet_of. cbn [dg_payload].
  rewrite data_wire_data. unfold FULL_HDR_SIZE, IP_HDR_SIZE, TCP_HDR_SIZE. lia.
Qed.

Lemma packet_parsed cfg opts a seqno ackno data pad :
  0 <= seqno < 2 ^ 32 -> 0 <= ackno < 2 ^ 32 ->
  0 <= ip_addr cfg < 2 ^ 32 -> 0 <= cn_ip_addr a < 2 ^ 32 ->
  let k := LoopProps.carrier cfg opts a (data_wire seqno ackno data) in
  datagram_of_bytes (datagram_bytes k ++ pad) = Some (Datagram (dg_ip k) (dg_tcp k) (dg_payload k ++ pad)).
Proof.
  intros Hs Ha Hip Hdst. unfold LoopProps.carrier, packet_of. cbv zeta.
  rewrite datagram_of_bytes_bytes.
  - done.
  - by apply made_iphdr_wf.
  - apply made_tcphdr_wf; [exact (data_wire_wf _ _ _ Hs Ha)|]. apply u16_range.
Qed.

(** Handling the packet of a segment is handing over the segment, but for the log. *)
Lemma handle_carrier w l cl c a cfg opts seqno ackno data pad :
  ConnInv.conns (w_sys w) !! cl = Some c -> cn_state c = Some l -> numbers_agree a c ->
  0 <= seqno < 2 ^ 32 -> 0 <= ackno < 2 ^ 32 -> Z.of_nat (length data) <= MAX_SEG_DATA_SIZE ->
  0 <= ip_addr cfg < 2 ^ 32 -> 0 <= cn_ip_addr a < 2 ^ 32 -> htons (u16 (port cfg)) <> 0 ->
  sys_new_connection (w_sys w) = 0 -> calm (sys_env (w_sys w)) ->
  let g := data_wire seqno ackno data in
  exists s0, mild [] (w_sys w) s0 /\
    handle_packet (Some cl) (datagram_bytes (LoopProps.carrier cfg opts a g) ++ pad)
      (Z.of_nat (length (datagram_bytes (LoopProps.carrier cfg opts a g)))) w =
    serve l (CallReceive g (SEGMENT_HDR_SIZE + Z.of_nat (length data))) (w_set_sys s0 w).
Proof.
  intros Hc Hcl Hn Hs Ha Hlen Hip Hdst Hport Hnew Hcalm g.
  pose proof (packet_length cfg opts a seqno ackno data) as Hl. fold g in Hl.
  destruct (carrier_received cfg opts a c seqno ackno data pad
    (Z.of_nat (length (datagram_bytes (LoopProps.carrier cfg opts a g)))) w) as (buf & Hrun); try done.
  fold g in Hrun.
  pose proof (packet_parsed cfg opts a seqno ackno data pad Hs Ha Hip Hdst) as Hd. cbv zeta in Hd. fold g in Hd.
  destruct (calm_log (w_sys w) (Some cl) (segment_bytes g)
    (SEGMENT_HDR_SIZE + Z.of_nat (length data)) false Hcalm) as (s0 & Hlog & Hm).
  exists s0. split; [exact Hm|].
  set (n := Z.of_nat (length (datagram_bytes _))) in *.
  assert (Hn40 : FULL_HDR_SIZE <= n < 2 ^ 64)
    by (unfold MAX_SEG_DATA_SIZE, FULL_HDR_SIZE, IP_HDR_SIZE, TCP_HDR_SIZE in *; lia).
  unfold handle_packet. rewrite (proj2 (Z.geb_le _ _)) by (unfold u64; rewrite Z.mod_small; lia).
  cbn [when]. unfold handle_segment. rewrite Hd. erewrite (bind_Done _ _ w _ w) by done.
  assert (Hload : forall w', w_sys w' = w_sys w \/ w_sys w' = s0 -> on_sys (on_conns (load cl)) w' = Done c w').
  { intros w' Hw'. assert (Hc' : ConnInv.conns (w_sys w') !! cl = Some c).
    { destruct Hw' as [-> | ->]; [done|]. destruct (quiet_keeps _ _ (ml_quiet _ _ _ Hm)) as (Ec & _).
      unfold ConnInv.conns. by rewrite Ec. }
    unfold on_sys, on_conns, zoom, load. unfold ConnInv.conns in Hc'. rewrite Hc'.
    by destruct w' as [? ? ? ? ? ? ? ? []]. }
  erewrite bind_Done by (apply Hload; by left). erewrite bind_Done by exact Hrun. cbv beta iota zeta.
  destruct w as [sl ST [SG bsg] AT TD LL buf0 tr sy]. cbn [w_sys w_set_sys] in *.
  assert (Hcall : forall s' : Host.sys E, on_segments (calloc g) (World sl ST (Heap SG bsg) AT TD LL buf0 tr s') =
    Done bsg (World sl ST (Heap (<[bsg := g]> SG) (Pos.succ bsg)) AT TD LL buf0 tr s')) by done.
  erewrite bind_Done by apply Hcall.
  erewrite (bind_Done _ _ _ 0) by (unfold on_sys, zoom, gets; cbn; by rewrite Hnew).
  assert (Hport' : th_sport (dg_tcp (LoopProps.carrier cfg opts a g)) <> 0) by exact Hport.
  rewrite bool_decide_false by exact Hport'. cbn [andb].
  unfold w_set_sys. cbn [w_state_list w_states w_segments w_attrs w_tdns w_ll w_buffer_out w_trace].
  replace (n - FULL_HDR_SIZE + SEGMENT_HDR_SIZE) with (SEGMENT_HDR_SIZE + Z.of_nat (length data)) by lia.
  erewrite bind_Done by (unfold on_sys, zoom; cbn [w_sys]; by rewrite Hlog).
  unfold state_of. erewrite bind_Done.
  2: { erewrite bind_Done by (apply Hload; by right). by rewrite Hcl. }
  unfold w_set_sys. cbn [w_state_list w_states w_segments w_attrs w_tdns w_ll w_buffer_out w_trace serve].
  by erewrite bind_Done by apply Hcall.
Qed.

(** The packets of an end with configuration [cfg] and connection [a] have the
    ports of the connection [c] at the end [s]. *)
Definition ports_agree (cfg : config) (a : conn) (s : sys E) (c : conn) : Prop :=
  cn_port c = u16 (port cfg) /\ cn_port a = u16 (port (sys_config s)).

(** With these numbers of the segment, those of its packet do not wrap around. *)
Definition unwrapped (a c : conn) (seqno ackno : Z) : Prop :=
  0 <= cn_init_seqno a /\ cn_init_seqno a + seqno < 2 ^ 32 /\
  0 <= cn_init_seqno c /\ cn_init_seqno c + ackno < 2 ^ 32.

(** The packet of a segment is found to be of the connection, when its numbers
    are not below the initial ones. *)
Lemma deliver_segment w l cl c a cfg opts seqno ackno data :
  ConnInv.conns (w_sys w) !! cl = Some c -> cn_state c = Some l -> numbers_agree a c ->
  0 <= seqno < 2 ^ 32 -> 0 <= ackno < 2 ^ 32 -> Z.of_nat (length data) <= MAX_SEG_DATA_SIZE ->
  0 <= ip_addr cfg < 2 ^ 32 -> 0 <= cn_ip_addr a < 2 ^ 32 -> htons (u16 (port cfg)) <> 0 ->
  sys_new_connection (w_sys w) = 0 -> calm (sys_env (w_sys w)) ->
  unix_socket (sys_options (w_sys w)) = true -> head_of (w_sys w) = Some cl -> ports_agree cfg a (w_sys w) c ->
  unwrapped a c seqno ackno ->
  let g := data_wire seqno ackno data in
  exists s0, mild [] (w_sys w) s0 /\
    receive_packet (arrive (datagram_bytes (LoopProps.carrier cfg opts a g)) w) =
    serve l (CallReceive g (SEGMENT_HDR_SIZE + Z.of_nat (length data))) (w_set_sys s0 w).
Proof.
  intros Hc Hcl Hn Hs Ha Hlen Hip Hdst Hport Hnew Hcalm Hun Hhead [Hp1 Hp2] (Hi1 & Hi2 & Hi3 & Hi4) g.
  set (k := LoopProps.carrier cfg opts a g). set (pkt := datagram_bytes k).
  set (s1 := set_sys_env (incoming pkt (sys_env (w_sys w))) (w_sys w)).
  assert (H1 : mild [] (w_sys w) s1).
  { apply mild_env; [by apply incoming_calm|]. intros ins. apply incoming_provides. }
  pose proof (packet_length cfg opts a seqno ackno data) as Hl. fold g k pkt in Hl.
  pose proof (packet_parsed cfg opts a seqno ackno data (drop (length pkt) zero_packet) Hs Ha Hip Hdst) as Hd.
  cbv zeta in Hd. fold g k pkt in Hd. destruct Hn as [Hn1 Hn2].
  assert (Hflags : th_flags (dg_tcp k) = seg_flags g) by apply wire_flags_ack.
  pose proof (data_host seqno ackno data Hs Ha Hlen) as Hhost. fold g in Hhost.
  assert (Eseq : ntohl (seg_seqno g) = seqno) by exact (f_equal seg_seqno Hhost).
  assert (Eack : ntohl (seg_ackno g) = ackno) by exact (f_equal seg_ackno Hhost). clear Hhost.
  destruct (calm_found s1 cl c pkt _ (socket (sys_config s1)) (incoming_hears _ _) (ml_calm _ _ _ H1)
    ltac:(unfold MAX_SEG_DATA_SIZE, MAX_PACKET_SIZE in *; lia) Hd) as (s2 & Hrecv & H2); cbn [dg_tcp]; try done.
  - unfold k, LoopProps.carrier, packet_of. cbn [dg_tcp made_tcphdr th_dport]. rewrite Hp2.
    change (sys_config s1) with (sys_config (w_sys w)). by rewrite u16_idemp.
  - by rewrite Hflags.
  - by rewrite Hflags.
  - unfold k, LoopProps.carrier, packet_of. cbn [dg_tcp made_tcphdr th_sport].
    by rewrite ntohs_htons by apply u16_range.
  - unfold k, LoopProps.carrier, packet_of. cbn [dg_tcp made_tcphdr th_seq].
    rewrite ntohl_htonl, Eseq, u32_small by (lia || apply u32_range). lia.
  - unfold k, LoopProps.carrier, packet_of. cbn [dg_tcp made_tcphdr th_ack].
    rewrite ntohl_htonl, Eack, u32_small by (lia || apply u32_range). lia.
  - pose proof (mild_silent _ _ _ _ H1 H2) as H02.
    destruct (quiet_keeps _ _ (ml_quiet _ _ _ H02)) as (Ec & _ & _ & _).
    destruct (handle_carrier (w_set_sys s2 w) l cl c a cfg opts seqno ackno data
      (drop (length pkt) zero_packet)) as (s0 & H3 & Hrun); try done.
    + unfold ConnInv.conns. cbn [w_sys w_set_sys]. rewrite Ec. exact Hc.
    + cbn [w_sys w_set_sys]. by rewrite (quiet_new _ _ (ml_quiet _ _ _ H02)).
    + apply H2.
    + exists s0. split; [by eapply mild_silent|].
      rewrite (receive_packet_run (arrive pkt w) _ _ _ s2 Hrecv). exact Hrun.
Qed.

(** C29: once the numbers of a peer have wrapped around, what it sends is lost: a
    packet with the segment of number [seqno], when this added to the peer's
    initial number reaches 2^32, is of no connection for [recv_filter], which
    compares the number in the packet with the initial one, and the loop of a
    host with this one connection goes on as if nothing had come. *)
Theorem wrapped_packet_dropped w cl c a cfg opts seqno ackno data :
  ConnInv.conns (w_sys w) !! cl = Some c -> head_of (w_sys w) = Some cl -> cn_next c = None ->
  numbers_agree a c -> cn_init_seqno a < 2 ^ 32 -> 0 <= seqno < 2 ^ 32 -> 0 <= ackno < 2 ^ 32 ->
  2 ^ 32 <= cn_init_seqno a + seqno -> Z.of_nat (length data) <= MAX_SEG_DATA_SIZE ->
  0 <= ip_addr cfg < 2 ^ 32 -> 0 <= cn_ip_addr a < 2 ^ 32 ->
  calm (sys_env (w_sys w)) -> cn_port a = u16 (port (sys_config (w_sys w))) ->
  exists s', mild [] (w_sys w) s' /\
    receive_packet (arrive (datagram_bytes (LoopProps.carrier cfg opts a (data_wire seqno ackno data))) w) =
    Done tt (w_set_sys s' w).
Proof.
  intros Hc Hhead Hnext [Hn1 Hn2] Hi Hs Ha Hwrap Hlen Hip Hdst Hcalm Hport.
  set (g := data_wire seqno ackno data). set (k := LoopProps.carrier cfg opts a g).
  set (pkt := datagram_bytes k).
  set (s1 := set_sys_env (incoming pkt (sys_env (w_sys w))) (w_sys w)).
  assert (H1 : mild [] (w_sys w) s1).
  { apply mild_env; [by apply incoming_calm|]. intros ins. apply incoming_provides. }
  pose proof (packet_length cfg opts a seqno ackno data) as Hl. fold g k pkt in Hl.
  pose proof (packet_parsed cfg opts a seqno ackno data (drop (length pkt) zero_packet) Hs Ha Hip Hdst) as Hd.
  cbv zeta in Hd. fold g k pkt in Hd.
  assert (Hflags : th_flags (dg_tcp k) = seg_flags g) by apply wire_flags_ack.
  pose proof (data_host seqno ackno data Hs Ha Hlen) as Hhost. fold g in Hhost.
  assert (Eseq : ntohl (seg_seqno g) = seqno) by exact (f_equal seg_seqno Hhost). clear Hhost.
  destruct (calm_missed s1 cl c pkt _ (socket (sys_config s1)) (incoming_hears _ _) (ml_calm _ _ _ H1)
    ltac:(unfold MAX_SEG_DATA_SIZE, MAX_PACKET_SIZE in *; lia) Hd) as (s2 & Hrecv & H2); cbn [dg_tcp]; try done.
  - unfold k, LoopProps.carrier, packet_of. cbn [dg_tcp made_tcphdr th_dport]. rewrite Hport.
    change (sys_config s1) with (sys_config (w_sys w)). by rewrite u16_idemp.
  - by rewrite Hflags.
  - by rewrite Hflags.
  - unfold k, LoopProps.carrier, packet_of. cbn [dg_tcp made_tcphdr th_seq].
    rewrite ntohl_htonl, Eseq, Hn1 by apply u32_range. unfold u32.
    match goal with |- ?x mod _ < _ => replace x with ((x - 2 ^ 32) + 1 * 2 ^ 32) by lia end.
    rewrite Z_mod_plus_full, Z.mod_small by lia. lia.
  - exists s2. split; [exact (mild_silent _ _ _ _ H1 H2)|].
    rewrite (receive_packet_run (arrive pkt w) _ _ _ s2 Hrecv). by destruct w.
Qed.

Lemma holds_sys l w s e : holds l w e -> holds l (w_set_sys s w) e.
Proof.
  intros (order & EE & (O & Hi) & He). exists order, EE. split; [|done]. exists O.
  destruct w. by eapply inv_lib.
Qed.

(** ** The endpoints on the library *)

Lemma mailed_carrier (s : sys E) c seqno ackno data :
  mailed s c (data_wire seqno ackno data) =
  datagram_bytes (LoopProps.carrier (sys_config s) (sys_options s) c (data_wire seqno ackno data)).
Proof. done. Qed.

Lemma mild_last pkt (s s' : sys E) : mild [pkt] s s' -> last_packet s' = Some pkt.
Proof. intros H. unfold last_packet. by rewrite (ml_packets _ _ _ H), last_snoc. Qed.

(** A segment goes out in its packet. *)
Lemma sends_data (s : sys E) l c seqno ackno data :
  usable s l c -> 0 <= seqno < 2 ^ 32 -> 0 <= ackno < 2 ^ 32 -> Z.of_nat (length data) <= MAX_SEG_DATA_SIZE ->
  let len := SEGMENT_HDR_SIZE + Z.of_nat (length data) in
  let g := data_wire seqno ackno data in
  exists s', ConnLib.conn_send (Some l) (Some (segment_bytes g)) len s = Done len s' /\
    mild [mailed s c g] s s'.
Proof.
  intros Hu Hs Ha Hlen len g. pose proof Hlen as Hlen'. unfold MAX_SEG_DATA_SIZE in Hlen'.
  assert (Hb : Z.of_nat (length (segment_bytes g)) = len).
  { unfold g, data_wire. rewrite wire_bytes_length; unfold len, SEGMENT_HDR_SIZE, MAX_SEG_DATA_SIZE; lia. }
  destruct (calm_send s l c (segment_bytes g) len Hu Hb) as (s' & seg & Hrun & Hseg & Hm).
  { unfold len. lia. }
  rewrite segment_of_bytes_bytes in Hseg by (by apply data_wire_wf). injection Hseg as <-.
  by exists s'.
Qed.

(** One end of the connection at [cl], whose endpoint is [e]. *)
Record at_end (l cl : loc) (c peer : conn) (ins : list (option (list byte))) (out : list byte)
    (e : endpoint) w : Prop := {
  ae_holds : holds l w e;
  ae_conn : ep_conn e = Some cl;
  ae_state : cn_state c = Some l;
  ae_ready : ready (w_sys w) cl c ins out;
  ae_addressed : addressed (w_sys w) c;
  ae_new : sys_new_connection (w_sys w) = 0;
  ae_first : head_of (w_sys w) = Some cl;
  ae_numbers : numbers_agree peer c;
}.

(** The end after a step of the library that leaves the connection alone. *)
Lemma at_end_after l cl c peer ins ins' out out' e e' w w' :
  at_end l cl c peer ins out e w -> quiet (w_sys w) (w_sys w') -> ready (w_sys w') cl c ins' out' ->
  holds l w' e' -> ep_conn e' = ep_conn e -> at_end l cl c peer ins' out' e' w'.
Proof.
  intros [] Hq Hr Hh Ec. split; try done; [congruence|by eapply addressed_quiet| |].
  - by rewrite (quiet_new _ _ Hq).
  - by rewrite (quiet_head _ _ Hq).
Qed.

Lemma wire_reads l cl c peer ins out e w bs :
  at_end l cl c peer (Some bs :: ins) out e w -> ep_unacked e = None -> piece_ok bs ->
  0 <= ep_seqno e < 2 ^ 32 -> 0 <= ep_ackno e < 2 ^ 32 ->
  exists w', ctcp_read l w = Done tt w' /\ at_end l cl c peer ins out (busy e bs) w' /\
    sys_config (w_sys w') = sys_config (w_sys w) /\
    last_packet (w_sys w') = Some (mailed (w_sys w) c (Transfer.carrier e bs)).
Proof.
  intros H Hu Hbs Hs Ha. pose proof H as [Hh Ec _ Hr _ _ _ _]. pose proof Hbs as [H1 H2].
  destruct (calm_reads _ _ _ _ _ _ Hr Hbs) as (s1 & Hin & Hr1 & Hq1).
  destruct (sends_data s1 cl c (ep_seqno e) (ep_ackno e) bs (rd_usable _ _ _ _ _ Hr1) Hs Ha H2)
    as (s2 & Hsend & Hm).
  assert (Ew : data_segment e (Z.of_nat (length bs)) (bs ++ drop (length bs) zero_buffer) = Transfer.carrier e bs).
  { unfold data_segment, Transfer.carrier. rewrite wire_take by (rewrite length_app; lia).
    by rewrite Nat2Z.id, take_app_length. }
  assert (Hrun : ep_serve CallRead e (lib_of w) = Done (Some (busy e bs))
    (w_trace w ++ [EvInput (ep_conn e) (Z.of_nat (length bs));
       EvSend (ep_conn e) (segment_bytes (Transfer.carrier e bs)) (SEGMENT_HDR_SIZE + Z.of_nat (length bs))], s2)).
  { cbn [ep_serve]. erewrite bind_Done.
    2: { eapply ep_read_run_data; [done|rewrite Ec; exact Hin|unfold MAX_BUFF_SIZE in *; lia|
           rewrite length_app; lia|rewrite Ew, Ec; exact Hsend|unfold SEGMENT_HDR_SIZE; lia]. }
    by rewrite Ew, ep_sent_data by lia. }
  destruct (serve_holds l w e CallRead _ _ Hh ltac:(done) Hrun) as (w' & Hserve & Hl & Hh').
  apply lib_of_inv in Hl as [_ Hsys]. exists w'. split; [exact Hserve|].
  assert (Hq : quiet (w_sys w) s2) by (transitivity s1; [done|apply Hm]). split; [|split].
  - apply (at_end_after _ _ _ _ (Some bs :: ins) _ out _ e _ w); [done| | |done|done]; rewrite Hsys.
    + exact Hq.
    + by eapply mild_ready.
  - rewrite Hsys. by destruct (quiet_keeps _ _ Hq) as (_ & _ & _ & ->).
  - rewrite Hsys, (mild_last _ _ _ Hm). f_equal. by apply mailed_quiet.
Qed.

(** A packet that comes in, as the abstract endpoint sees its segment. *)
Lemma wire_handles l cl c peer ins out e w cfg opts seqno ackno data e' :
  at_end l cl c peer ins out e w ->
  0 <= seqno < 2 ^ 32 -> 0 <= ackno < 2 ^ 32 -> Z.of_nat (length data) <= MAX_SEG_DATA_SIZE ->
  0 <= ip_addr cfg < 2 ^ 32 -> 0 <= cn_ip_addr peer < 2 ^ 32 -> htons (u16 (port cfg)) <> 0 ->
  ports_agree cfg peer (w_sys w) c -> unwrapped peer c seqno ackno ->
  let len := SEGMENT_HDR_SIZE + Z.of_nat (length data) in
  (forall s0, mild [] (w_sys w) s0 -> exists tr s1,
     ep_handle (Segment seqno ackno len 0 ACK MAX_SEG_DATA_SIZE 0 data) e (w_trace w, s0) =
       Done (Some e') (tr, s1)) ->
  exists s0 tr s1 w', mild [] (w_sys w) s0 /\
    ep_handle (Segment seqno ackno len 0 ACK MAX_SEG_DATA_SIZE 0 data) e (w_trace w, s0) =
      Done (Some e') (tr, s1) /\
    deliver (datagram_bytes (LoopProps.carrier cfg opts peer (data_wire seqno ackno data))) w = Some w' /\
    lib_of w' = (tr, s1) /\ holds l w' e'.
Proof.
  intros [Hh Ec Hst Hr _ Hnew Hfst Hn] Hs Ha Hlen Hip Hdst Hport Hpa Hun len Hrun.
  destruct (deliver_segment w l cl c peer cfg opts seqno ackno data) as (s0 & Hm & Heq); try done; [apply Hr..|].
  destruct (Hrun s0 Hm) as (tr & s1 & Hep). exists s0, tr, s1.
  destruct (wire_handled seqno ackno ACK data (lib_of (w_set_sys s0 w)) e Hs Ha ltac:(by vm_compute) Hlen)
    as (_ & _ & Harr & Hserve).
  fold len in Harr, Hserve, Heq.
  change (wire_segment seqno ackno ACK len data) with (data_wire seqno ackno data) in Harr, Hserve.
  change (lib_of (w_set_sys s0 w)) with (w_trace w, s0) in Hserve. rewrite Hep in Hserve.
  destruct (serve_holds l (w_set_sys s0 w) e (CallReceive (data_wire seqno ackno data) len) e' (tr, s1)
    (holds_sys l w s0 e Hh)) as (w' & Hw & Hl & Hh'); [by intros ? ? [= <- <-]|exact Hserve|].
  exists w'. split; [done|]. split; [done|]. split; [|by split].
  unfold deliver. rewrite Heq. unfold ran. by rewrite Hw.
Qed.

Lemma wire_takes_piece l cl c peer ins out e w cfg opts e0 bs :
  at_end l cl c peer ins out e w -> piece_ok bs -> ep_phase e = DATA_TRANSFER ->
  0 <= ep_seqno e < 2 ^ 32 -> ep_ackno e <= ep_seqno e0 ->
  0 <= ep_seqno e0 < 2 ^ 32 -> 0 <= ep_ackno e0 < 2 ^ 32 ->
  0 <= ip_addr cfg < 2 ^ 32 -> 0 <= cn_ip_addr peer < 2 ^ 32 -> htons (u16 (port cfg)) <> 0 ->
  ports_agree cfg peer (w_sys w) c -> unwrapped peer c (ep_seqno e0) (ep_ackno e0) ->
  let y := u32 (ep_seqno e0 + Z.of_nat (length bs)) in
  exists w', deliver (datagram_bytes (LoopProps.carrier cfg opts peer (Transfer.carrier e0 bs))) w = Some w' /\
    at_end l cl c peer ins (out ++ bs) (taken y e) w' /\
    sys_config (w_sys w') = sys_config (w_sys w) /\
    last_packet (w_sys w') = Some (mailed (w_sys w) c (ctl_segment (ep_with_ackno y e) ACK)).
Proof.
  intros H Hbs Hp Hs Hq Hs0 Ha0 Hip Hdst Hport Hpa Hun y. pose proof H as [Hh Ec _ Hr _ _ _ _].
  pose proof Hbs as [H1 H2].
  set (sg := Segment (ep_seqno e0) (ep_ackno e0) (SEGMENT_HDR_SIZE + Z.of_nat (length bs)) 0 ACK
    MAX_SEG_DATA_SIZE 0 bs).
  assert (Hrun : forall s0, mild [] (w_sys w) s0 -> exists s1 s2 tr,
    ep_handle sg e (w_trace w, s0) = Done (Some (taken y e)) (tr, s2) /\
    quiet s0 s1 /\ ready s1 cl c ins (out ++ bs) /\
    mild [mailed s1 c (ctl_segment (ep_with_ackno y e) ACK)] s1 s2).
  { intros s0 Hm. pose proof (mild_ready _ _ _ _ _ _ _ Hm Hr) as Hr0.
    destruct (calm_output _ _ _ _ _ bs Hr0 Hbs) as (s1 & Hout & Hr1 & Hq1).
    destruct (sends_data s1 cl c (ep_seqno e) y [] (rd_usable _ _ _ _ _ Hr1) Hs (u32_range _))
      as (s2 & Hsend & Hm2); [by vm_compute|].
    assert (Ed : seg_len sg - SEGMENT_HDR_SIZE = Z.of_nat (length bs)) by (unfold sg; cbn [seg_len]; lia).
    pose proof (ep_data_run e sg MAX_BUF_SPACE (Z.of_nat (length bs)) SEGMENT_HDR_SIZE (w_trace w) s0 s1 s2) as Hd.
    cbv zeta in Hd. rewrite Ed, Nat2Z.id, Ec in Hd. change (seg_data sg) with bs in Hd.
    change (seg_seqno sg) with (ep_seqno e0) in Hd. fold y in Hd. rewrite firstn_all in Hd.
    eexists s1, s2, _. split; [|split; [exact Hq1|split; [exact Hr1|exact Hm2]]].
    assert (Hroom : Z.of_nat (length bs) <= MAX_BUF_SPACE < 2 ^ 32)
      by (unfold MAX_BUF_SPACE, MAX_SEG_DATA_SIZE in *; lia).
    rewrite (Hd Hp Hq eq_refl eq_refl ltac:(lia) (calm_bufspace s0 cl c
      (us_conn _ _ _ (rd_usable _ _ _ _ _ Hr0)) (rd_queue _ _ _ _ _ Hr0)) Hroom
      Hout ltac:(lia) Hsend).
    change (SEGMENT_HDR_SIZE <? 0) with false. rewrite u32_small by lia. by destruct e. }
  destruct (wire_handles l cl c peer ins out e w cfg opts (ep_seqno e0) (ep_ackno e0) bs (taken y e)
    H Hs0 Ha0 H2 Hip Hdst Hport Hpa Hun) as (s0 & tr & s2 & w' & Hm & Hep & Hdel & Hl & Hh').
  { intros s0 Hm. destruct (Hrun s0 Hm) as (s1 & s2 & tr & Hep & _). by exists tr, s2. }
  destruct (Hrun s0 Hm) as (s1 & s2' & tr' & Hep' & Hq1 & Hr1 & Hm2).
  fold sg in Hep. rewrite Hep in Hep'. injection Hep' as <- <-.
  apply lib_of_inv in Hl as [_ Hsys]. exists w'. split; [exact Hdel|].
  assert (Hq01 : quiet (w_sys w) s1) by (transitivity s0; [apply Hm|done]).
  assert (Hqq : quiet (w_sys w) s2) by (transitivity s1; [done|apply Hm2]). split; [|split].
  - apply (at_end_after _ _ _ _ ins _ out _ e _ w); [done| | |done|done]; rewrite Hsys.
    + exact Hqq.
    + by eapply mild_ready.
  - rewrite Hsys. by destruct (quiet_keeps _ _ Hqq) as (_ & _ & _ & ->).
  - rewrite Hsys, (mild_last _ _ _ Hm2). f_equal. by apply mailed_quiet.
Qed.

Lemma wire_takes_ack l cl c peer ins out e w cfg opts e0 :
  at_end l cl c peer ins out e w -> ep_phase e = DATA_TRANSFER -> ep_ackno e <= ep_seqno e0 ->
  0 <= ep_seqno e0 < 2 ^ 32 -> 0 <= ep_ackno e0 < 2 ^ 32 ->
  0 <= ip_addr cfg < 2 ^ 32 -> 0 <= cn_ip_addr peer < 2 ^ 32 -> htons (u16 (port cfg)) <> 0 ->
  ports_agree cfg peer (w_sys w) c -> unwrapped peer c (ep_seqno e0) (ep_ackno e0) ->
  exists w', deliver (datagram_bytes (LoopProps.carrier cfg opts peer (ctl_segment e0 ACK))) w = Some w' /\
    at_end l cl c peer ins out (acked (ep_seqno e0) e) w' /\
    sys_config (w_sys w') = sys_config (w_sys w).
Proof.
  intros H Hp Hk Hs Ha Hip Hdst Hport Hpa Hun. pose proof H as [Hh Ec _ Hr _ _ _ _].
  destruct (wire_handles l cl c peer ins out e w cfg opts (ep_seqno e0) (ep_ackno e0) [] (acked (ep_seqno e0) e)
    H Hs Ha ltac:(by vm_compute) Hip Hdst Hport Hpa Hun) as (s0 & tr & s1 & w' & Hm & Hep & Hdel & Hl & Hh').
  { intros s0 _. eexists _, _. exact (take_ack e (ep_seqno e0) (ep_ackno e0) _ Hp Hk). }
  pose proof (take_ack e (ep_seqno e0) (ep_ackno e0) (w_trace w, s0) Hp Hk) as Hep'.
  change (bare (ep_seqno e0) (ep_ackno e0) ACK) with
    (Segment (ep_seqno e0) (ep_ackno e0) (SEGMENT_HDR_SIZE + Z.of_nat (length (@nil byte))) 0 ACK
       MAX_SEG_DATA_SIZE 0 []) in Hep'.
  rewrite Hep in Hep'. injection Hep' as _ ->.
  apply lib_of_inv in Hl as [_ Hsys]. exists w'. split; [exact Hdel|].
  split; [|rewrite Hsys; by destruct (quiet_keeps _ _ (ml_quiet _ _ _ Hm)) as (_ & _ & _ & ->)].
  apply (at_end_after _ _ _ _ ins _ out _ e _ w); [done| | |done|done]; rewrite Hsys; [apply Hm|by eapply mild_ready].
Qed.

(** ** The two ends *)

(** Each end has acknowledged all that the other has sent. *)
Record in_step (ea eb : endpoint) : Prop := {
  st_phase : ep_phase ea = DATA_TRANSFER /\ ep_phase eb = DATA_TRANSFER;
  st_idle : ep_unacked ea = None /\ ep_unacked eb = None;
  st_next : ep_ackno eb = ep_seqno ea /\ ep_ackno ea = ep_seqno eb;
  st_range : 0 <= ep_seqno ea < 2 ^ 32 /\ 0 <= ep_seqno eb < 2 ^ 32;
}.

Lemma in_step_sym ea eb : in_step ea eb -> in_step eb ea.
Proof. by intros [[] [] [] []]. Qed.

(** The end can send [n] bytes more before the numbers in its packets wrap around,
    after which [recv_filter] drops them. *)
Definition room (c : conn) e (n : Z) : Prop :=
  0 <= cn_init_seqno c /\ 0 <= n /\ cn_init_seqno c + ep_seqno e + n < 2 ^ 32.

(** The ends of a connection between two turns, when [na] and [nb] more bytes are
    to be sent. *)
Record wired (la lb cla clb : loc) (ca cb : conn) (na nb : Z) (ia ib : list (option (list byte)))
    (oa ob : list byte) (s : world (sys E) * world (sys E)) : Prop := {
  wd_ends : exists ea eb, at_end la cla ca cb ia oa ea s.1 /\ at_end lb clb cb ca ib ob eb s.2 /\
    in_step ea eb /\ room ca ea na /\ room cb eb nb;
  wd_port_a : cn_port ca = u16 (port (sys_config (w_sys s.2)));
  wd_port_b : cn_port cb = u16 (port (sys_config (w_sys s.1)));
}.

Lemma wired_sym la lb cla clb ca cb na nb ia ib oa ob wa wb :
  wired la lb cla clb ca cb na nb ia ib oa ob (wa, wb) -> wired lb la clb cla cb ca nb na ib ia ob oa (wb, wa).
Proof.
  intros [(ea & eb & Ha & Hb & Hs & H1 & H2) Hp1 Hp2]. split; [|done|done].
  exists eb, ea. auto using in_step_sym.
Qed.

Lemma wired_written la lb cla clb ca cb na nb ia ib oa ob s :
  wired la lb cla clb ca cb na nb ia ib oa ob s ->
  written (w_sys s.1) = oa /\ written (w_sys s.2) = ob.
Proof.
  intros [(ea & eb & Ha & Hb & _) _ _].
  split; eapply rd_written; [exact (ae_ready _ _ _ _ _ _ _ _ Ha)|exact (ae_ready _ _ _ _ _ _ _ _ Hb)].
Qed.

Lemma wire_steps la wa wb wa1 wb1 wa2 data ack :
  ctcp_read la wa = Done tt wa1 -> last_packet (w_sys wa1) = Some data ->
  deliver data wb = Some wb1 -> last_packet (w_sys wb1) = Some ack -> deliver ack wa1 = Some wa2 ->
  wire_exchange la (wa, wb) = Some (wa2, wb1).
Proof.
  intros H1 H2 H3 H4 H5. unfold wire_exchange. cbn [fst snd]. rewrite H1. cbn [ran mbind option_bind].
  rewrite H2. cbn [mbind option_bind]. rewrite H3. cbn [mbind option_bind].
  rewrite H4. cbn [mbind option_bind]. by rewrite H5.
Qed.

Lemma wire_exchange_run la lb cla clb ca cb na nb bs ia ib oa ob s :
  wired la lb cla clb ca cb (Z.of_nat (length bs) + na) nb (Some bs :: ia) ib oa ob s ->
  piece_ok bs -> 0 <= na ->
  exists s', wire_exchange la s = Some s' /\ wired la lb cla clb ca cb na nb ia ib oa (ob ++ bs) s'.
Proof.
  destruct s as [wa wb]. intros [(ea & eb & Ha & Hb & [[Hpa Hpb] [Hu _] [Hn Hk] [Hsa Hsb]] & Ra & Rb) P1 P2] Hbs Hna.
  cbn [fst snd] in *. destruct Ra as (Ra1 & _ & Ra2), Rb as (Rb1 & Rb0 & Rb2).
  assert (Haa : 0 <= ep_ackno ea < 2 ^ 32) by by rewrite Hk.
  destruct (ae_addressed _ _ _ _ _ _ _ _ Ha) as [Aa1 Aa2 Aa3].
  destruct (ae_addressed _ _ _ _ _ _ _ _ Hb) as [Ab1 Ab2 Ab3].
  destruct (wire_reads la cla ca cb ia oa ea wa bs Ha Hu Hbs Hsa Haa) as (wa1 & Hm1 & Ha1 & Hc1 & Hp1).
  destruct (wire_takes_piece lb clb cb ca ib ob eb wb (sys_config (w_sys wa)) (sys_options (w_sys wa)) ea bs
    Hb Hbs Hpb Hsb ltac:(lia) Hsa Haa Aa1 Aa2 Aa3) as (wb1 & Hm2 & Hb1 & Hc2 & Hp2).
  { by split. }
  { split_and!; lia. }
  set (y := u32 (ep_seqno ea + Z.of_nat (length bs))) in *.
  assert (Ey : y = ep_seqno ea + Z.of_nat (length bs)) by (apply u32_small; lia).
  destruct (wire_takes_ack la cla ca cb ia oa (busy ea bs) wa1 (sys_config (w_sys wb)) (sys_options (w_sys wb))
    (ep_with_ackno y eb) Ha1 Hpa (Z.eq_le_incl _ _ Hk) Hsb (u32_range _) Ab1 Ab2 Ab3) as (wa2 & Hm3 & Ha2 & Hc3).
  { split; [done|]. by rewrite Hc1. }
  { split_and!; cbn; lia. }
  exists (wa2, wb1). split; [exact (wire_steps _ _ _ _ _ _ _ _ Hm1 Hp1 Hm2 Hp2 Hm3)|].
  split; cbn [fst snd]; [|by rewrite Hc2|by rewrite Hc3, Hc1].
  exists (acked (ep_seqno eb) (busy ea bs)), (taken y eb). split; [exact Ha2|]. split; [exact Hb1|].
  split; [split; cbn; (split; (done || apply u32_range || lia))|].
  split; (split; [done|]); (split; [done|]); cbn; fold y; lia.
Qed.

(** The bytes that one of the ends says in its turns. *)
Definition total (first : bool) (ts : list turn) : Z := Z.of_nat (length (mjoin (said first ts))).

Lemma wire_turn_run la lb cla clb ca cb na nb t ia ib oa ob s :
  let mine := fun first : bool => if eqb (first_end t) first then [Some (piece t)] else [] in
  let theirs := fun first : bool => if eqb (first_end t) first then [] else piece t in
  wired la lb cla clb ca cb (total true [t] + na) (total false [t] + nb) (mine true ++ ia) (mine false ++ ib) oa ob s ->
  piece_ok (piece t) -> 0 <= na -> 0 <= nb ->
  exists s', wire_turn la lb t s = Some s' /\
    wired la lb cla clb ca cb na nb ia ib (oa ++ theirs true) (ob ++ theirs false) s'.
Proof.
  destruct s as [wa wb], t as [[] bs]; unfold total; cbn [said omap list_omap first_end piece eqb app mjoin list_join];
    rewrite !app_nil_r; intros Hw Hbs Hna Hnb; unfold wire_turn; cbn [first_end fst snd length] in *.
  - destruct (wire_exchange_run _ _ _ _ _ _ _ _ _ _ _ _ _ _ Hw Hbs Hna) as (s' & Hx & Hw'). by exists s'.
  - apply wired_sym in Hw.
    destruct (wire_exchange_run _ _ _ _ _ _ _ _ _ _ _ _ _ _ Hw Hbs Hnb) as ([wb' wa'] & Hx & Hw').
    exists (wa', wb'). rewrite Hx. split; [done|]. by apply wired_sym.
Qed.

Lemma total_cons first t ts : total first (t :: ts) = total first [t] + total first ts.
Proof.
  assert (Hs : said first (t :: ts) = said first [t] ++ said first ts)
    by exact (omap_app _ [t] ts).
  unfold total. rewrite Hs, join_app, length_app. lia.
Qed.

Lemma conversation_run la lb cla clb ca cb na nb ts ia ib oa ob s :
  wired la lb cla clb ca cb (total true ts + na) (total false ts + nb)
    (map Some (said true ts) ++ ia) (map Some (said false ts) ++ ib) oa ob s ->
  Forall piece_ok (map piece ts) -> 0 <= na -> 0 <= nb ->
  exists s', wire_turns la lb ts s = Some s' /\
    wired la lb cla clb ca cb na nb ia ib (oa ++ mjoin (said false ts)) (ob ++ mjoin (said true ts)) s' /\
    written (w_sys s'.1) = written (w_sys s.1) ++ mjoin (said false ts) /\
    written (w_sys s'.2) = written (w_sys s.2) ++ mjoin (said true ts).
Proof.
  intros Hw Hok Hna Hnb. destruct (wired_written _ _ _ _ _ _ _ _ _ _ _ _ _ Hw) as [-> ->].
  enough (Hx : exists s', wire_turns la lb ts s = Some s' /\
    wired la lb cla clb ca cb na nb ia ib (oa ++ mjoin (said false ts)) (ob ++ mjoin (said true ts)) s').
  { destruct Hx as (s' & Hx & Hw'). exists s'. split; [done|]. split; [done|]. by eapply wired_written. }
  revert oa ob s Hw. induction ts as [|t ts IH]; intros oa ob s Hw.
  - exists s. split; [done|]. cbn [said omap list_omap mjoin list_join]. by rewrite !app_nil_r.
  - apply Forall_cons in Hok as [Ht Hok]. rewrite !(total_cons _ t ts), <- !Z.add_assoc in Hw.
    destruct (wire_turn_run la lb cla clb ca cb (total true ts + na) (total false ts + nb) t
      (map Some (said true ts) ++ ia) (map Some (said false ts) ++ ib) oa ob s) as (s1 & Hx1 & Hw1);
      [by destruct t as [[] bs]|done|unfold total; lia|unfold total; lia|].
    destruct (IH Hok _ _ s1 Hw1) as (s2 & Hx2 & Hw2). exists s2. split.
    + unfold wire_turns in *. cbn [foldl]. cbn [mbind option_bind]. by rewrite Hx1.
    + by destruct t as [[] bs]; cbn in *; rewrite <- ?app_assoc, ?app_nil_r in *.
Qed.

(** C5: a conversation, through every layer, of two ends that are on one machine,
    each with this one connection and plain options, on a network that loses
    nothing and while the ends take turns: what is typed at either end is read by
    [conn_input], made into segments by [ctcp_read] and put into packets by
    [conn_send]; each packet that comes into the socket of the other end is
    received and found to be of the connection by [recv_filter], made a segment
    again by [convert_to_ctcp], checked and output by [ctcp_receive] and written on
    the terminal by [conn_output]; its acknowledgement goes back in a packet and
    lets the next piece be sent. On each terminal appears what is typed at the
    other, byte for byte, without undefined behaviour, as long as the numbers in
    the packets, counted from the initial ones, stay below 2^32. *)
Theorem conversation la lb cla clb ca cb na nb ts ia ib oa ob s :
  wired la lb cla clb ca cb (total true ts + na) (total false ts + nb)
    (map Some (said true ts) ++ ia) (map Some (said false ts) ++ ib) oa ob s ->
  Forall piece_ok (map piece ts) -> 0 <= na -> 0 <= nb ->
  exists s', wire_turns la lb ts s = Some s' /\
    wired la lb cla clb ca cb na nb ia ib (oa ++ mjoin (said false ts)) (ob ++ mjoin (said true ts)) s' /\
    written (w_sys s'.1) = written (w_sys s.1) ++ mjoin (said false ts) /\
    written (w_sys s'.2) = written (w_sys s.2) ++ mjoin (said true ts).
Proof. apply conversation_run. Qed.
End Wire.

(** ** Four pieces and their acknowledgements, in eight packets *)

#[export] Program Instance script_net : CalmNet os_script := {|
  hears e x := head (scr_recvs e) = Some (IoOk x);
  incoming x '(OsScript rs ws rcs rf rds fks t) := OsScript rs ws (IoOk x :: rcs) rf rds fks t;
|}.
Next Obligation. by intros x []. Qed.
Next Obligation. by intros x [] [? ?]. Qed.
Next Obligation. by intros x [] ins [[? ?] ?]. Qed.
Next Obligation.
  intros fd n [rs ws [|r rcs] rf rds fks t] x Hx Hl; [done|]. injection Hx as ->. simpl.
  eexists. split; [by rewrite firstn_all2 by lia|done].
Qed.
Next Obligation. by intros fd bs a e r e' x [= _ <-]. Qed.

(** The ends of LibTransfer's example, each with its connection to the other; the
    client's port is 9999, the server's 8888. *)
Definition wire_conn (mine theirs to : Z) : conn :=
  set_cn_state (Some 1%positive) (set_cn_out_queue_tail TailQueue (set_cn_their_init_seqno theirs
    (conn_setup mine 16777343 to true zero_conn))).

Definition wire_sys (server : bool) (mine theirs from to : Z) (ins : list (option (list byte))) :
    sys os_script :=
  let s := host_sys server ins in
  Sys (sys_options s) (Config 3 16777343 from (Some 1%positive) (Some 1%positive)) host_cfg false 0 1
    ex_events (Timespec 0 0) (Heap {[1%positive := wire_conn mine theirs to]} 2%positive) heap_empty []
    (sys_env s).

Definition wire_world (server : bool) (mine theirs from to : Z) (ins : list (option (list byte))) :
    world (sys os_script) :=
  one_world (ep_init (Some 1%positive) host_cfg) (zero_segment 20) (wire_sys server mine theirs from to ins).

Lemma wire_end server mine theirs from to ins :
  u32 mine = mine -> u32 theirs = theirs -> htons (u16 from) <> 0 ->
  at_end 1%positive 1%positive (wire_conn mine theirs to) (wire_conn theirs mine from) ins []
    (ep_init (Some 1%positive) host_cfg) (wire_world server mine theirs from to ins).
Proof.
  intros Hm Ht Hf. split; [| done | done | by repeat split | by split | done | by destruct server |].
  2: { split; cbn; congruence. }
  exists [1%positive], {[1%positive := ep_init (Some 1%positive) host_cfg]}.
  split; [apply one_represents|apply lookup_singleton_eq].
Qed.

Definition wire_client ins := wire_world false 5 7 9999 8888 ins.
Definition wire_server ins := wire_world true 7 5 8888 9999 ins.
Definition wire_talk : list turn := [Turn true hi; Turn false yo; Turn false hi; Turn true yo].

(** A client whose numbers began at 2^32 - 5, and its fifth byte. *)
Lemma wrapped_packet_dropped_witness :
  let w := wire_world true 7 (2 ^ 32 - 5) 8888 9999 [] in
  exists s', mild [] (w_sys w) s' /\
    receive_packet (arrive (datagram_bytes (LoopProps.carrier (Config 3 16777343 9999 None None)
      (sys_options (w_sys w)) (wire_conn (2 ^ 32 - 5) 7 8888) (data_wire 5 1 hi))) w) =
    Done tt (w_set_sys s' w).
Proof.
  intros w. apply (wrapped_packet_dropped w 1%positive (wire_conn 7 (2 ^ 32 - 5) 9999)); try done.
Defined.

Lemma conversation_witness :
  exists s', wire_turns 1%positive 1%positive wire_talk
      (wire_client [Some hi; Some yo; None], wire_server [Some yo; Some hi]) = Some s' /\
    written (w_sys s'.1) = yo ++ hi /\ written (w_sys s'.2) = hi ++ yo.
Proof.
  destruct (conversation 1%positive 1%positive 1%positive 1%positive (wire_conn 5 7 8888) (wire_conn 7 5 9999)
    0 0 wire_talk [None] [] [] [] (wire_client [Some hi; Some yo; None], wire_server [Some yo; Some hi]))
    as (s' & Hx & _ & Ha & Hb).
  - split; [|done|done].
    exists (ep_init (Some 1%positive) host_cfg), (ep_init (Some 1%positive) host_cfg).
    split; [by apply wire_end|]. split; [by apply wire_end|]. split; [by split|]. by split; split_and!.
  - repeat constructor; by vm_compute.
  - done.
  - done.
  - exists s'. split; [exact Hx|]. split; [exact Ha|exact Hb].
Defined.
