(* ===== verification/Accept.v ===== *)
(** * Connections are set up

    [tcp_new_connection] on a server and [tcp_handshake] on a client: what they
    send, the initial numbers that they note, and that the new endpoint joins
    the others in a safe state. *)

From S2P Require Import Prelude Heap Words Cksum LinkedList Segment ConnLib Ctcp CtcpSpec CtcpSteps.
From S2P Require Import CtcpInv CtcpRefine Script CtcpSafety.
From S2P Require Import Host Packet PacketProps Conn Queue ConnInv ConnOut ConnSend ConnInput ConnLaws.
From S2P Require Import ConnScript Loop LoopProps.

Section Accept.
Context {Env : Type} `{!Os Env, !OsLaws Env}.
Implicit Types (s : sys Env) (w : W (E := Env)).

(** ** Adding a connection to the memory of the library *)

(** What may change while the connection at [cl] is set up: that connection, the
    back pointers of the others, and what is not in the invariant. *)
Record setting_up (cl : loc) s s' : Prop := {
  su_options : sys_options s' = sys_options s;
  su_chunks : sys_chunks s' = sys_chunks s;
  su_events : sys_events s' = sys_events s;
  su_brk : brk (sys_conns s') = brk (sys_conns s);
  su_conns k : k <> cl -> conns s' !! k = conns s !! k \/
    exists c p, conns s !! k = Some c /\ conns s' !! k = Some (set_cn_prev p c);
}.

#[export] Instance setting_up_refl cl : Reflexive (setting_up cl).
Proof. intros s. split; auto. Qed.
#[export] Instance setting_up_trans cl : Transitive (setting_up cl).
Proof.
  intros s1 s2 s3 [A1 A2 A3 A4 A5] [B1 B2 B3 B4 B5]. split; try congruence.
  intros k Hk. destruct (A5 k Hk) as [E1|(c & p & E1 & E1')], (B5 k Hk) as [E2|(c2 & p2 & E2 & E2')].
  - left. congruence.
  - right. exists c2, p2. split; [congruence|done].
  - right. exists c, p. split; [done|congruence].
  - right. exists c, p2. split; [done|]. rewrite E1' in E2. injection E2 as <-. exact E2'.
Qed.

Lemma setting_up_conn cl c s : setting_up cl s (with_conns (<[cl := c]> (conns s)) s).
Proof. split; try done. intros k Hk. left. by apply lookup_insert_ne. Qed.

Lemma setting_up_quiet cl s s' : quiet s s' -> setting_up cl s s'.
Proof. intros (env & io & did & ->). split; auto. Qed.

(** An empty connection is allocated, and set up. *)
Definition allocated (c : conn) s : sys Env :=
  set_sys_conns (Heap (<[brk (sys_conns s) := c]> (conns s)) (Pos.succ (brk (sys_conns s)))) s.

(** The other connections keep all but their [prev]. *)
Lemma setting_up_live l c s s' k c0 :
  l = brk (sys_conns s) -> setting_up l (allocated c s) s' -> k <> l -> conns s !! k = Some c0 ->
  exists c', conns s' !! k = Some c' /\ (c' = c0 \/ exists p, c' = set_cn_prev p c0).
Proof.
  intros -> Hsu Hk Hc0.
  assert (Hc : conns (allocated c s) !! k = Some c0)
    by (refine (eq_trans (lookup_insert_ne _ _ _ _ _) Hc0); auto).
  destruct (su_conns _ _ _ Hsu k Hk) as [E|(c1 & p & E & E')]; [exists c0; rewrite E; auto|].
  rewrite Hc in E. injection E as <-. eauto.
Qed.

Lemma setting_up_kept l c s s' k c' :
  l = brk (sys_conns s) -> setting_up l (allocated c s) s' -> k <> l -> conns s' !! k = Some c' ->
  exists c0, conns s !! k = Some c0 /\ cn_out_queue c' = cn_out_queue c0 /\
    cn_out_queue_tail c' = cn_out_queue_tail c0 /\ cn_stdin c' = cn_stdin c0.
Proof.
  intros -> Hsu Hk Hc'.
  assert (Hc : conns (allocated c s) !! k = conns s !! k) by (apply lookup_insert_ne; auto).
  destruct (su_conns _ _ _ Hsu k Hk) as [E|(c0 & p & E & E')].
  - exists c'. by rewrite <- Hc, <- E.
  - exists c0. rewrite <- Hc. rewrite E' in Hc'. by injection Hc' as <-.
Qed.

Lemma joined Q s s' c :
  let cl := brk (sys_conns s) in
  sys_inv Q s -> SERVER (sys_options s) = true ->
  setting_up cl (allocated zero_conn s) s' -> conns s' !! cl = Some c ->
  cn_out_queue c = None -> cn_out_queue_tail c = TailQueue -> cn_stdin c = 0 ->
  sys_inv (<[cl := []]> Q) s'.
Proof.
  intros cl Hi Hsrv Hsu Hc Hq Ht Hin.
  pose proof Hi as [Hw1 Hw2 Hqs Hsep Hlive Hev Hstdin _].
  assert (Hnew : conns s !! cl = None) by (apply heap_wf_fresh; exact Hw1).
  assert (HQ : Q !! cl = None).
  { destruct (Q !! cl) as [q|] eqn:EQ; [|done]. destruct (Hlive cl) as [c' Hc']; [by eauto|].
    unfold conns in *. congruence. }
  pose proof (fun k c' => setting_up_kept cl _ s s' k c' eq_refl Hsu) as Hold.
  pose proof Hsu as [So Sc Se Sb _].
  split.
  - intros k Hsome. rewrite Sb. cbn [allocated set_sys_conns sys_conns brk].
    destruct (decide (k = cl)) as [->|Hne]; [unfold cl; lia|].
    destruct Hsome as [c' Hc']. destruct (Hold k c' Hne Hc') as (c0 & Hc0 & _).
    pose proof (Hw1 k (mk_is_Some _ _ Hc0)). lia.
  - rewrite Sc. exact Hw2.
  - intros k c' Hc'. unfold chunks. rewrite Sc. destruct (decide (k = cl)) as [->|Hne].
    + exists []. rewrite lookup_insert_eq. split; [done|]. rewrite Hc in Hc'. injection Hc' as <-.
      split; try done; apply NoDup_nil_2.
    + destruct (Hold k c' Hne Hc') as (c0 & Hc0 & E1 & E2 & _).
      destruct (Hqs k c0 Hc0) as (q & HQk & [Q1 Q2 Q3 Q4 Q5]).
      exists q. rewrite lookup_insert_ne by done. split; [done|]. split; try done; congruence.
  - intros l1 l2 q1 q2 k. rewrite !lookup_insert.
    destruct (decide (cl = l1)) as [<-|H1], (decide (cl = l2)) as [<-|H2]; [done| | |].
    + intros [= <-] _ Hin1. by apply not_elem_of_nil in Hin1.
    + intros _ [= <-] _ Hin2. by apply not_elem_of_nil in Hin2.
    + eauto.
  - intros k Hsome. destruct (decide (k = cl)) as [->|Hne]; [by eauto|].
    rewrite lookup_insert_ne in Hsome by done. destruct (Hlive k Hsome) as [c0 Hc0].
    destruct (setting_up_live cl _ _ _ _ _ eq_refl Hsu Hne Hc0) as (c1 & -> & _). eauto.
  - rewrite Se. exact Hev.
  - intros k c' Hc'. rewrite So. cbn [allocated set_sys_conns sys_options]. intros Hr.
    destruct (decide (k = cl)) as [->|Hne].
    + rewrite Hc in Hc'. injection Hc' as <-. rewrite Hin. by vm_compute.
    + destruct (Hold k c' Hne Hc') as (c0 & Hc0 & _ & _ & ->). eauto.
  - rewrite So. cbn [allocated set_sys_conns sys_options]. by rewrite Hsrv.
Qed.

Lemma joined_ok s s' c :
  let cl := brk (sys_conns s) in
  sys_ok s -> SERVER (sys_options s) = true ->
  setting_up cl (allocated zero_conn s) s' -> conns s' !! cl = Some c ->
  cn_out_queue c = None -> cn_out_queue_tail c = TailQueue -> cn_stdin c = 0 ->
  cn_delete_me c = false ->
  sys_ok s' /\ (forall p, sys_open s p -> sys_open s' p) /\ sys_open s' (Some cl).
Proof.
  intros cl [[Q Hi] Hm] Hsrv Hsu Hc Hq Ht Hin Hd. split; [|split].
  - split; [exists (<[cl := []]> Q); by eapply joined|].
    rewrite (su_options _ _ _ Hsu). exact Hm.
  - intros p (k & c0 & -> & Hc0 & Hd0).
    assert (Hne : k <> cl).
    { intros ->. pose proof (heap_wf_fresh _ (si_conns_wf _ _ Hi)) as Hn.
      unfold conns, cl in *. congruence. }
    destruct (setting_up_live cl _ _ _ _ _ eq_refl Hsu Hne Hc0) as (c1 & Hc1 & Hk).
    exists k, c1. split; [done|]. split; [done|]. by destruct Hk as [->|[p ->]].
  - by exists cl, c.
Qed.

(** ** The steps *)

Lemma wp_conn_calloc c (Q : loc -> sys Env -> Prop) X s :
  Q (brk (sys_conns s)) (allocated c s) -> wp (on_conns (calloc c)) Q X s.
Proof. intros HQ. by apply wp_zoom, wp_calloc. Qed.

(** [conn_add] on a server. *)
Lemma wp_conn_add s l c (Q : unit -> sys Env -> Prop) X :
  SERVER (sys_options s) = true -> conns s !! l = Some c -> head_of s <> Some l ->
  (forall h, head_of s = Some h -> is_Some (conns s !! h)) ->
  (forall s', setting_up l s s' -> head_of s' = Some l ->
     sys_num_connected s' = sys_num_connected s -> sys_io s' = sys_io s ->
     conns s' !! l = Some (set_cn_out_queue_tail TailQueue
                        (set_cn_next (head_of s) (set_cn_prev CPrevLocal c))) -> Q tt s') ->
  wp (conn_add l) Q X s.
Proof.
  intros Hsrv Hc Hne Hh HQ. unfold conn_add. apply wp_bind. eapply wp_Done; [apply get_connections_run|].
  rewrite bool_decide_false by done. cbn [negb when].
  set (c1 := set_cn_next (head_of s) (set_cn_prev CPrevLocal c)).
  set (s1 := with_conns (<[l := set_cn_prev CPrevLocal c]> (conns s)) s).
  set (s2 := with_conns (<[l := c1]> (conns s1)) s1).
  assert (Hc2 : conns s2 !! l = Some c1) by apply lookup_insert_eq.
  assert (H2 : setting_up l s s2).
  { transitivity s1; apply setting_up_conn. }
  assert (Hset : forall s3, setting_up l s s3 -> conns s3 !! l = Some c1 ->
    sys_num_connected s3 = sys_num_connected s -> sys_io s3 = sys_io s ->
    wp (on_conns (update l (set_cn_out_queue_tail TailQueue));; set_head (Some l)) Q X s3).
  { intros s3 Hsu Hc3 En Eio. apply wp_bind. eapply wp_conn_update; [exact Hc3|].
    unfold set_head. apply wp_bind, wp_opt.
    change (sys_options (with_conns _ _)) with (sys_options s3).
    rewrite (su_options _ _ _ Hsu), Hsrv. apply wp_modify, HQ; [| |done|done|apply lookup_insert_eq].
    - etransitivity; [exact Hsu|]. etransitivity; [apply setting_up_conn|]. split; auto.
    - unfold head_of. change (sys_options (set_sys_config _ _)) with (sys_options s3).
      by rewrite (su_options _ _ _ Hsu), Hsrv. }
  apply wp_bind, wp_bind. eapply wp_conn_update; [exact Hc|]. fold (conns s) s1.
  apply wp_bind. eapply wp_conn_update; [apply lookup_insert_eq|]. fold c1. fold (conns s1) s2.
  destruct (head_of s) as [h|] eqn:Eh; [|by apply wp_ret, Hset].
  destruct (Hh h eq_refl) as [ch Hch]. assert (Hlh : h <> l) by congruence.
  assert (Hch2 : conns s2 !! h = Some ch).
  { refine (eq_trans (lookup_insert_ne _ _ _ _ _) (eq_trans (lookup_insert_ne _ _ _ _ _) Hch)); done. }
  eapply wp_conn_update; [exact Hch2|]. apply Hset; [|refine (eq_trans (lookup_insert_ne _ _ _ _ _) Hc2); done|done|done].
  transitivity s2; [exact H2|]. split; try done. intros k Hk.
  destruct (decide (k = h)) as [->|Hkh].
  - right. exists ch, (CPrevNext l). split; [exact Hch2|apply lookup_insert_eq].
  - left. apply lookup_insert_ne. congruence.
Qed.

(** The packet without data that [create_tcp_seg] makes of a connection. *)
Definition control_packet (cfg : config) (ccfg : ctcp_config) (c : conn) (flags : Z)
    (d : datagram) : Prop :=
  dg_payload d = [] /\ th_flags (dg_tcp d) = flags /\
  th_seq (dg_tcp d) = htonl (cn_next_seqno c) /\ th_ack (dg_tcp d) = htonl (cn_ackno c) /\
  tcp_cksum_ok d.

Lemma wp_send_control s l c flags (Q : Z -> sys Env -> Prop) X :
  conns s !! l = Some c -> 0 <= cn_next_seqno c < 2 ^ 32 ->
  (forall n s' evs d, setting_up l s s' -> head_of s' = head_of s ->
     sys_num_connected s' = sys_num_connected s ->
     conns s' !! l = Some (set_cn_seqno (cn_next_seqno c) c) ->
     control_packet (sys_config s) (sys_ctcp_cfg s) c flags d ->
     sys_io s' = sys_io s ++ evs ->
     (packets evs = [] /\ n = -1 \/ packets evs = [datagram_bytes d] /\ n = 0) -> Q n s') ->
  wp (send_tcp_conn_seg l flags) Q X s.
Proof.
  intros Hc Hn HQ. unfold send_tcp_conn_seg. apply wp_bind, wp_gets, wp_bind, wp_gets, wp_bind.
  eapply wp_conn_load; [exact Hc|].
  destruct (create_tcp_seg_spec s (sys_config s) (sys_ctcp_cfg s) c flags [])
    as (d & c' & Hrun & Hp & Htot & _ & Hck & Hfl & Hsq & Hak & _ & Ec'); [by vm_compute|].
  assert (Hrun' : create_tcp_seg (sys_config s) (sys_ctcp_cfg s) c flags None 0 s = Done (d, c') s).
  { rewrite <- Hrun. change (Z.of_nat (length [])) with 0. unfold create_tcp_seg. reflexivity. }
  apply wp_bind. eapply wp_Done; [exact Hrun'|]. cbv beta iota.
  assert (Ec : c' = set_cn_seqno (cn_next_seqno c) c).
  { rewrite Ec'. simpl. rewrite Z.add_0_r, u32_small by done. by destruct c. }
  apply wp_bind, wp_zoom, wp_store; [by eexists|]. rewrite Ec in *.
  set (s1 := set_sys_conns _ _).
  assert (H1 : setting_up l s s1) by apply setting_up_conn.
  apply wp_bind, send_pkt_spec.
  { rewrite datagram_bytes_length, Hp. by vm_compute. }
  intros n s2 evs Hq Hio Hres. apply wp_ret.
  assert (Hq' := Hq). destruct Hq' as (env & io & did & E2).
  apply (HQ _ _ evs d).
  - transitivity s1; [exact H1|by apply setting_up_quiet].
  - by rewrite E2.
  - by rewrite E2.
  - rewrite E2. apply lookup_insert_eq.
  - split_and!; done.
  - exact Hio.
  - destruct Hres as [[E ->]|[E ->]]; [by left|right]. by split.
Qed.

(** ** A new client *)

(** The answer to a SYN. *)
Definition answers (c : conn) (d : datagram) : Prop :=
  dg_payload d = [] /\ th_flags (dg_tcp d) = Z.lor TH_SYN TH_ACK /\
  th_seq (dg_tcp d) = htonl (cn_init_seqno c) /\ th_ack (dg_tcp d) = htonl (cn_ackno c) /\
  tcp_cksum_ok d.

Lemma wp_on_sys' {A} (m : M (sys Env) A) (Q : A -> W -> Prop) X w s0 :
  wp m (fun x s => Q x (w_set_sys s w)) (fun s => X (w_set_sys s w)) s0 ->
  wp (on_sys m) Q X (w_set_sys s0 w).
Proof. intros H. apply wp_on_sys. by destruct w. Qed.

(** The connection at [cl] that the client whose packet is [d] gets. *)
Record made (d : datagram) (cl : loc) s s' (c : conn) : Prop := {
  md_setting_up : setting_up cl (allocated zero_conn s) s';
  md_head : head_of s' = Some cl;
  md_connected : sys_num_connected s' = sys_num_connected s + 1;
  md_conn : ConnInv.conns s' !! cl = Some c;
  md_address : cn_ip_addr c = ntohl (ip_saddr (dg_ip d));
  md_next : cn_next c = head_of s;
  md_port : cn_port c = ntohs (th_sport (dg_tcp d));
  md_their_init_seqno : cn_their_init_seqno c = ntohl (th_seq (dg_tcp d));
  md_ackno : cn_ackno c = u32 (ntohl (th_seq (dg_tcp d)) + 1);
  md_next_seqno : cn_next_seqno c = cn_init_seqno c;
  md_queue : cn_out_queue c = None /\ cn_out_queue_tail c = TailQueue;
  md_open : cn_delete_me c = false /\ cn_stdin c = 0;
  md_sent : exists evs, sys_io s' = sys_io s ++ evs /\
    (packets evs = [] \/ exists k, packets evs = [datagram_bytes k] /\ answers c k);
  md_fresh : cn_read_eof c = false /\ cn_wrote_eof c = false /\ cn_wrote_err c = false;
  md_prev : cn_prev c = CPrevLocal;
}.

Lemma made_state d cl s s' c p :
  made d cl s s' c ->
  made d cl s (with_conns (<[cl := set_cn_state p c]> (ConnInv.conns s')) s') (set_cn_state p c).
Proof.
  intros []. split; try done.
  - etransitivity; [eassumption|]. apply setting_up_conn.
  - apply lookup_insert_eq.
Qed.

(** The state of the endpoint is made, and is safe with the others'. *)
Lemma wp_new_endpoint w order E d s c cfg :
  let cl := brk (sys_conns (w_sys w)) in
  safe_state w order E -> SERVER (sys_options (w_sys w)) = true ->
  made d cl (w_sys w) s c ->
  wp (state ← ctcp_init (Some cl) cfg; on_sys (on_conns (update cl (set_cn_state state)));; mret (Some cl))
    (fun p w' => exists l c', p = Some cl /\ (l ∉ order) /\ cn_state c' = Some l /\
       made d cl (w_sys w) (w_sys w') c' /\
       safe_state w' (l :: order) (<[l := ep_init (Some cl) cfg]> E))
    (fun _ => False) (w_set_sys s w).
Proof.
  intros cl Hs Hsrv Hmd. pose proof Hs as [Hr Hl Ho Hwf Hdist].
  apply wp_bind. eapply wp_mono; [by apply refine_init, represents_sys|].
  intros p w1 (l & -> & Hl1 & Hlib & Hr1).
  assert (Hsys : w_sys w1 = s) by (injection Hlib as _ ->; by destruct w).
  assert (Ew : w1 = w_set_sys s w1) by (rewrite <- Hsys; by destruct w1). rewrite Ew.
  apply wp_bind, wp_on_sys'. eapply wp_conn_update; [by apply Hmd|]. apply wp_ret.
  assert (HE : E !! l = None).
  { destruct (E !! l) eqn:EE; [|done]. destruct Hl1. destruct Hr as (O & Hi).
    apply (inv_dom _ _ _ _ Hi). by eexists. }
  assert (Hmd' := made_state _ _ _ _ _ (Some l) Hmd). set (s' := with_conns _ s) in *.
  assert (Hok : sys_ok s' /\ (forall q, sys_open (w_sys w) q -> sys_open s' q) /\ sys_open s' (Some cl)).
  { destruct Hmd' as [H1 _ _ H4 _ _ _ _ _ _ [H9 H9'] [H10 H10'] _].
    by eapply (joined_ok (w_sys w) s' (set_cn_state (Some l) c)). }
  destruct Hok as (Hok & Hop & Hopc).
  exists l, (set_cn_state (Some l) c). split; [done|]. split; [done|]. split; [done|].
  split; [exact Hmd'|].
  - split.
    + by apply represents_sys.
    + by destruct w1.
    + intros k e. destruct (decide (k = l)) as [->|Hne].
      * rewrite lookup_insert_eq. intros [= <-]. by destruct w1.
      * rewrite lookup_insert_ne by done. intros He.
        change (conn_open (w_sys (w_set_sys s' w1)) (ep_conn e)).
        assert (Hq : sys_open s' (ep_conn e)) by (apply Hop; by eapply Ho). by destruct w1.
    + intros k e. destruct (decide (k = l)) as [->|Hne].
      * rewrite lookup_insert_eq. intros [= <-]. apply ep_wf_init.
      * rewrite lookup_insert_ne by done. by apply Hwf.
    + assert (Hnew : forall k e, E !! k = Some e -> ep_conn e <> Some cl).
      { intros k e He Hce. destruct (Ho k e He) as (cl' & c0 & Hcl & Hc0 & _).
        rewrite Hce in Hcl. injection Hcl as <-.
        destruct Hl as [[Q Hi] _]. pose proof (heap_wf_fresh _ (si_conns_wf _ _ Hi)) as Hn.
        unfold cl, ConnInv.conns in *. congruence. }
      intros k1 k2 e1 e2. rewrite !lookup_insert.
      destruct (decide (l = k1)) as [<-|H1], (decide (l = k2)) as [<-|H2]; [done| | |by apply Hdist].
      * intros [= <-] He2 Hce. by destruct (Hnew _ _ He2).
      * intros He1 [= <-] Hce. by destruct (Hnew _ _ He1).
Qed.

(** The connection before it joins the list, as the client's packet [d] fills it. *)
Record greeted (d : datagram) (c : conn) : Prop := {
  gr_address : cn_ip_addr c = ntohl (ip_saddr (dg_ip d));
  gr_port : cn_port c = ntohs (th_sport (dg_tcp d));
  gr_their_init_seqno : cn_their_init_seqno c = ntohl (th_seq (dg_tcp d));
  gr_ackno : cn_ackno c = u32 (ntohl (th_seq (dg_tcp d)) + 1);
  gr_next_seqno : cn_next_seqno c = cn_init_seqno c;
  gr_range : 0 <= cn_next_seqno c < 2 ^ 32;
  gr_queue : cn_out_queue c = None;
  gr_open : cn_delete_me c = false /\ cn_stdin c = 0;
  gr_fresh : cn_read_eof c = false /\ cn_wrote_eof c = false /\ cn_wrote_err c = false;
}.

(** Filling it in: what has been sent meanwhile is nothing. *)
Lemma wp_greet {A} w s d (k : M W A) (Q : A -> W -> Prop) X :
  let cl := brk (sys_conns s) in
  (forall s' c, setting_up cl (allocated zero_conn s) s' -> head_of s' = head_of s ->
     sys_num_connected s' = sys_num_connected s -> ConnInv.conns s' !! cl = Some c -> greeted d c ->
     (exists evs, sys_io s' = sys_io s ++ evs /\ packets evs = []) ->
     wp k Q X (w_set_sys s' w)) ->
  wp (r ← on_sys rand;
      un ← on_sys (opt unix_socket);
      on_sys (on_conns (update cl
        (conn_setup r (ntohl (ip_saddr (dg_ip d))) (ntohs (th_sport (dg_tcp d))) un)));;
      on_sys (on_conns (update cl (set_cn_their_init_seqno (ntohl (th_seq (dg_tcp d))))));;
      on_sys (on_conns (update cl (fun c => set_cn_ackno (u32 (cn_their_init_seqno c + 1)) c)));; k)
    Q X (w_set_sys (allocated zero_conn s) w).
Proof.
  intros cl HQ. apply wp_bind, wp_on_sys', wp_rand. intros r s2 Hr [Hq2 (evs & Eio & Ep)].
  assert (H2 : setting_up cl (allocated zero_conn s) s2) by by apply setting_up_quiet.
  assert (Hc2 : ConnInv.conns s2 !! cl = Some zero_conn /\ head_of s2 = head_of s /\
    sys_num_connected s2 = sys_num_connected s).
  { destruct Hq2 as (env & io & did & ->). split; [apply lookup_insert_eq|done]. }
  destruct Hc2 as (Hc2 & Eh & En).
  apply wp_bind, wp_on_sys', wp_opt. generalize (unix_socket (sys_options s2)). intros un.
  apply wp_bind, wp_on_sys'. eapply wp_conn_update; [exact Hc2|].
  set (c1 := conn_setup _ _ _ _ _). fold (ConnInv.conns s2). set (s3 := with_conns _ s2).
  apply wp_bind, wp_on_sys'. eapply wp_conn_update; [apply lookup_insert_eq|].
  set (c2 := set_cn_their_init_seqno _ c1). fold (ConnInv.conns s3). set (s4 := with_conns _ s3).
  apply wp_bind, wp_on_sys'. eapply wp_conn_update; [apply lookup_insert_eq|]. cbv beta.
  set (c3 := set_cn_ackno _ c2). fold (ConnInv.conns s4). apply (HQ _ c3); try done.
  - etransitivity; [exact H2|]. transitivity s3; [apply setting_up_conn|].
    transitivity s4; apply setting_up_conn.
  - apply lookup_insert_eq.
  - subst c3 c2 c1. destruct un; split; try done; apply u32_range.
  - by exists evs.
Qed.

(** The connection joins the list and the SYN is answered. *)
Lemma wp_announce {A} w s s5 c d (k : M W A) (Q : A -> W -> Prop) X :
  let cl := brk (sys_conns s) in
  setting_up cl (allocated zero_conn s) s5 -> ConnInv.conns s5 !! cl = Some c -> greeted d c ->
  SERVER (sys_options s5) = true -> head_of s5 = head_of s -> head_of s <> Some cl ->
  (forall h, head_of s = Some h -> is_Some (ConnInv.conns s !! h)) ->
  sys_num_connected s5 = sys_num_connected s + 1 ->
  (exists evs, sys_io s5 = sys_io s ++ evs /\ packets evs = []) ->
  (forall s' c', made d cl s s' c' -> wp k Q X (w_set_sys s' w)) ->
  wp (on_sys (conn_add cl);; on_sys (send_synack cl);; k) Q X (w_set_sys s5 w).
Proof.
  intros cl H5 Hc [] Hsrv Eh Hne Hh En (evs & Eio & Ep) HQ.
  apply wp_bind, wp_on_sys'. apply (wp_conn_add s5 cl c); [done|done|by rewrite Eh| |].
  { rewrite Eh. intros h Eh'. destruct (Hh h Eh') as [c0 Hc0]. assert (Hhn : h <> cl) by congruence.
    destruct (setting_up_live cl _ _ _ _ _ eq_refl H5 Hhn Hc0) as (c1 & -> & _). eauto. }
  intros s6 H56 Eh6 En6 Eio6 Hc6. rewrite Eh in Hc6.
  apply wp_bind, wp_on_sys'. unfold send_synack. eapply wp_send_control; [exact Hc6|done|].
  intros n s7 evs7 g H67 Eh7 En7 Hc7 (P1 & P2 & P3 & P4 & P5) Eio7 Hres.
  eapply HQ. split; [|congruence|congruence|exact Hc7|done..| |done|done].
  { etransitivity; [exact H5|]. by etransitivity. }
  exists (evs ++ evs7). split; [rewrite app_assoc; congruence|].
  unfold packets in *. rewrite omap_app, Ep. cbn [app].
  destruct Hres as [[E' _]|[E' _]]; [by left|right]. exists g. split; [exact E'|].
  split; [exact P1|]. split; [exact P2|]. split; [etransitivity; [exact P3|by cbn; f_equal]|by split].
Qed.

Lemma new_connection_made w order E pkt d :
  safe_state w order E -> SERVER (sys_options (w_sys w)) = true ->
  datagram_of_bytes pkt = Some d ->
  (forall h, head_of (w_sys w) = Some h -> is_Some (ConnInv.conns (w_sys w) !! h)) ->
  wp (tcp_new_connection pkt)
    (fun p w' =>
       if sys_num_connected (w_sys w) >=? MAX_NUM_CLIENTS then p = None /\ w' = w
       else exists l c cfg, let cl := brk (sys_conns (w_sys w)) in
         p = Some cl /\ (l ∉ order) /\ cn_state c = Some l /\
         made d cl (w_sys w) (w_sys w') c /\
         safe_state w' (l :: order) (<[l := ep_init (Some cl) cfg]> E))
    (fun _ => False) w.
Proof.
  intros Hs Hsrv Hd Hh. unfold tcp_new_connection.
  assert (Hw : w_set_sys (w_sys w) w = w) by by destruct w.
  apply wp_bind, wp_on_sys, wp_opt. rewrite Hsrv, Hw. apply wp_bind, wp_ret.
  apply wp_bind, wp_on_sys, wp_gets. rewrite Hw.
  destruct (sys_num_connected (w_sys w) >=? MAX_NUM_CLIENTS); [by apply wp_ret|].
  set (s := w_sys w) in *. set (cl := brk (sys_conns s)).
  apply wp_bind, wp_on_sys, wp_modify. set (s1 := set_sys_num_connected _ _).
  apply wp_bind. eapply wp_deref; [exact Hd|].
  apply wp_bind, wp_on_sys', wp_conn_calloc. change (brk (sys_conns s1)) with cl.
  assert (Hnew : ConnInv.conns s !! cl = None).
  { destruct (ss_lib _ _ _ Hs) as [[Q Hi] _]. apply heap_wf_fresh. apply Hi. }
  apply (wp_greet w s1 d). intros s5 c H5 Eh5 En5 Hc5 Hg Hevs.
  assert (H05 : setting_up cl (allocated zero_conn s) s5).
  { transitivity (allocated zero_conn s1); [split; auto|exact H5]. }
  apply (wp_announce w s s5 c d); try done.
  - by rewrite (su_options _ _ _ H05).
  - intros E'. destruct (Hh cl E') as [c0 Hc0]. congruence.
  - intros s7 c' Hmd. apply wp_bind, wp_on_sys', wp_modify. set (s8 := set_sys_ctcp_cfg _ s7).
    apply wp_bind, wp_on_sys', wp_gets.
    assert (Hmd8 : made d cl s s8 c').
    { destruct Hmd. split; try done. etransitivity; [eassumption|by split; auto]. }
    eapply wp_mono; [by apply (wp_new_endpoint w order E d s8 c')|].
    cbv beta. intros p w' (l & c5 & Hp & Hl & Hst & Hmd' & Hs').
    exists l, c5, (sys_ctcp_cfg s8). split_and!; done.
Qed.

(** C26: on a server that has room for one more client, a SYN makes a new connection,
    at the head of the list, with the client's initial number and port and an
    endpoint in its first state, which joins the others in a safe state; at most
    one packet is sent, a SYN-ACK that tells the connection's own initial number.
    Without room nothing happens. *)
Theorem tcp_new_connection_safe w order E pkt d :
  safe_state w order E -> SERVER (sys_options (w_sys w)) = true ->
  datagram_of_bytes pkt = Some d ->
  (forall h, head_of (w_sys w) = Some h -> is_Some (ConnInv.conns (w_sys w) !! h)) ->
  wp (tcp_new_connection pkt)
    (fun p w' =>
       if sys_num_connected (w_sys w) >=? MAX_NUM_CLIENTS then p = None /\ w' = w
       else exists l c cfg, let cl := brk (sys_conns (w_sys w)) in
         p = Some cl /\ (l ∉ order) /\ cn_state c = Some l /\
         made d cl (w_sys w) (w_sys w') c /\
         safe_state w' (l :: order) (<[l := ep_init (Some cl) cfg]> E))
    (fun _ => False) w.
Proof. apply new_connection_made. Qed.

(** ** Its end *)

Lemma head_freed_undef s0 s d cl c :
  cl = brk (sys_conns s0) -> sys_ok s0 -> sys_ok s -> made d cl s0 s c ->
  (forall h, head_of s0 = Some h -> is_Some (ConnInv.conns s0 !! h)) ->
  conn_free cl s = Undef /\ (conn_remove (Some cl);; delete_all_connections) s = Undef.
Proof.
  intros Ecl [[Q0 Hi0] _] Hok Hmd Hh.
  pose proof (md_conn _ _ _ _ _ Hmd) as Hc. pose proof (md_prev _ _ _ _ _ Hmd) as Hp.
  assert (Hnext : forall n, cn_next c = Some n -> n <> cl /\ is_Some (ConnInv.conns s !! n)).
  { rewrite (md_next _ _ _ _ _ Hmd). intros n Hn. destruct (Hh n Hn) as [cn Hcn].
    assert (Hne : n <> cl).
    { intros ->. pose proof (heap_wf_fresh _ (si_conns_wf _ _ Hi0)) as Hf. unfold ConnInv.conns in *. congruence. }
    split; [done|].
    destruct (setting_up_live cl zero_conn _ _ _ _ Ecl (md_setting_up _ _ _ _ _ Hmd) Hne Hcn) as (c1 & -> & _).
    eauto. }
  split; [destruct Hok as [[Q Hi] _]; by eapply (conn_free_local Q)|].
  set (c' := set_cn_delete_me true c). set (s' := with_conns (<[cl := c']> (ConnInv.conns s)) s).
  assert (Hrm : conn_remove (Some cl) s = Done tt s').
  { unfold conn_remove, on_conns, zoom, update, load, store, mbind, M_bind, deref, mret, M_ret.
    unfold ConnInv.conns in Hc. rewrite Hc. by rewrite Hc. }
  assert (Hc' : ConnInv.conns s' !! cl = Some c') by apply lookup_insert_eq.
  assert (Hfree : conn_free cl s' = Undef).
  { destruct (flag_ok s cl c (set_cn_delete_me true) Hok Hc) as [[Q Hi] _]; [done..|].
    apply (conn_free_local Q s' cl c' Hi Hc' Hp). intros n Hn. destruct (Hnext n Hn) as [Hne Hl].
    split; [done|]. destruct Hl as [x Hx]. exists x. refine (eq_trans (lookup_insert_ne _ _ _ _ _) Hx). congruence. }
  erewrite bind_Done by exact Hrm. unfold delete_all_connections.
  erewrite bind_Done by apply get_connections_run.
  change (head_of s') with (head_of s). rewrite (md_head _ _ _ _ _ Hmd).
  erewrite bind_Done by reflexivity. cbn [delete_loop].
  erewrite (bind_Done _ _ s' c' s')
    by (unfold on_conns, zoom, load; unfold ConnInv.conns in Hc'; rewrite Hc'; by destruct s').
  apply bind_Undef. exact Hfree.
Qed.

(** C37: the connection that a server with room has just made of a SYN cannot be
    freed: [conn_add] has left the address of its own local variable in it as
    the pointer to what precedes it, and [conn_free], called for it or, when it has
    been removed, by [delete_all_connections], writes there. *)
Theorem conn_free_dangling w order E pkt d :
  safe_state w order E -> SERVER (sys_options (w_sys w)) = true ->
  datagram_of_bytes pkt = Some d -> sys_num_connected (w_sys w) < MAX_NUM_CLIENTS ->
  (forall h, head_of (w_sys w) = Some h -> is_Some (ConnInv.conns (w_sys w) !! h)) ->
  exists cl w', tcp_new_connection pkt w = Done (Some cl) w' /\ head_of (w_sys w') = Some cl /\
    on_sys (conn_free cl) w' = Undef /\
    on_sys (conn_remove (Some cl);; delete_all_connections) w' = Undef.
Proof.
  intros Hs Hsrv Hd Hroom Hh. pose proof (new_connection_made w order E pkt d Hs Hsrv Hd Hh) as Hwp.
  assert (Hf : (sys_num_connected (w_sys w) >=? MAX_NUM_CLIENTS) = false)
    by (rewrite Z.geb_leb; by apply Z.leb_gt).
  rewrite Hf in Hwp.
  apply wp_returns in Hwp as (p & w' & Hrun & l & c & cfg & -> & _ & _ & Hmd & Hs').
  destruct (head_freed_undef (w_sys w) (w_sys w') d _ c eq_refl (ss_lib _ _ _ Hs) (ss_lib _ _ _ Hs') Hmd Hh)
    as [H1 H2].
  eexists _, w'. split; [exact Hrun|]. split; [by apply Hmd|].
  unfold on_sys, zoom. by rewrite H1, H2.
Qed.
End Accept.

(** ** Witness: a server that has one connection, and a SYN *)

Definition accept_world : W := one_world loop_idle ex_wire ex_server.

Definition accept_syn : datagram :=
  Datagram (dg_ip hello_packet) (dg_tcp hello_packet) [].

Lemma accept_safe : safe_state accept_world [1%positive] (loop_map loop_idle).
Proof.
  unfold loop_map. split.
  - apply one_represents.
  - split; [|by vm_compute]. exists ex_queues. by apply ex_sys_inv.
  - intros l e' [<- <-]%lookup_singleton_Some. by exists 1%positive, (ex_conn CPrevLocal).
  - intros l e' [<- <-]%lookup_singleton_Some. apply ep_wf_init.
  - by intros l1 l2 e1 e2 [<- <-]%lookup_singleton_Some [<- <-]%lookup_singleton_Some.
Qed.

Lemma tcp_new_connection_safe_witness :
  wp (tcp_new_connection (datagram_bytes accept_syn))
    (fun p w' => exists l c cfg, p = Some 2%positive /\ cn_state c = Some l /\
       made accept_syn 2%positive ex_server (w_sys w') c /\
       safe_state w' [l; 1%positive] (<[l := ep_init (Some 2%positive) cfg]> (loop_map loop_idle)))
    (fun _ => False) accept_world.
Proof.
  eapply wp_mono.
  - apply (tcp_new_connection_safe accept_world [1%positive] (loop_map loop_idle) _ accept_syn).
    + exact accept_safe.
    + reflexivity.
    + by vm_compute.
    + intros h [= <-]. by exists (ex_conn CPrevLocal).
  - cbv beta zeta. intros p w'. change (sys_num_connected (w_sys accept_world) >=? MAX_NUM_CLIENTS) with false.
    intros (l & c & cfg & Hp & _ & Hst & Hmd & Hs). by exists l, c, cfg.
Defined.

Lemma conn_free_dangling_witness :
  exists cl w', tcp_new_connection (datagram_bytes accept_syn) accept_world = Done (Some cl) w' /\
    on_sys (conn_remove (Some cl);; delete_all_connections) w' = Undef.
Proof.
  destruct (conn_free_dangling accept_world [1%positive] (loop_map loop_idle) (datagram_bytes accept_syn)
    accept_syn) as (cl & w' & Hrun & _ & _ & Hu).
  - exact accept_safe.
  - reflexivity.
  - by vm_compute.
  - by vm_compute.
  - intros h [= <-]. by exists (ex_conn CPrevLocal).
  - exists cl, w'. split; [exact Hrun|exact Hu].
Defined.
