(* ===== verification/Start.v ===== *)
(** * Starting a host ([src/ctcp_sys_internal.c], [src/ctcp_sys_internal.h])

    From the command line to the main loop: addresses and sockets, the reset of
    older connections, the polling table, [start_client], [start_server] and
    [main]. C strings are [string]s without the null character. *)

From Stdlib Require Import Ascii String.
From stdpp Require Import strings pretty.
From S2P Require Import Prelude Heap Words Cksum LinkedList Segment ConnLib Ctcp Host Packet Conn Loop.

(** ** Constants *)

Definition DEFAULT_PORT : Z := 80.
Definition LOCALHOST : Z := 16777343.
Definition RT_INTERVAL : Z := 200.
Definition TIMER_INTERVAL : Z := 40.
Definition CONN_TIMEOUT : Z := 10.
Definition ETH_INTERFACE : string := "eth".
Definition LOG_HEADERS : string :=
  "Timestamp	Source IP	Source Port	Destination IP	Destination Port	Sequence Number	Acknowledgement Number	Length	Flags	Window	Checksum	Data
".

(** Of the system's headers. *)
Definition SOCK_DGRAM : Z := 2.
Definition SOCK_RAW : Z := 3.
Definition IPPROTO_IP : Z := 0.
Definition IP_HDRINCL : Z := 3.
Definition SOL_SOCKET : Z := 1.
Definition SO_RCVTIMEO : Z := 20.
Definition SUN_PATH_SIZE : Z := 108.

(** ** The system calls of the set-up *)

(** An entry of [getifaddrs]: its name, and the family and address if it has one. *)
Record ifaddr := IfAddr { ifa_name : string; ifa_addr : option (Z * Z) }.

Class Setup (E : Type) := {
  os_socket : Z -> Z -> Z -> E -> Z * E;
  os_setsockopt : Z -> Z -> Z -> Z -> E -> Z * E;
  os_bind : Z -> sockaddr -> E -> Z * E;
  os_unlink : string -> E -> Z * E;
  os_open : string -> E -> Z * E;
  os_getifaddrs : E -> list ifaddr * E;
  os_gethostbyname : string -> E -> option (list Z) * E;
  os_srand : Z -> E -> unit * E;
}.

(** ** Strings *)

(** [strsep(&s, sep)]: the token, and what [s] is left as. *)
Fixpoint strsep (sep : ascii) (s : string) : string * option string :=
  match s with
  | EmptyString => (EmptyString, None)
  | String c s =>
      if bool_decide (c = sep) then (EmptyString, Some s)
      else let '(token, rest) := strsep sep s in (String c token, rest)
  end.

Definition char_code (c : ascii) : Z := Z.of_nat (nat_of_ascii c).
Definition is_space (c : ascii) : bool :=
  bool_decide (char_code c = 32) || bool_decide (9 <= char_code c <= 13).
Definition is_digit (c : ascii) : bool := bool_decide (48 <= char_code c <= 57).

Fixpoint skip_spaces (s : string) : string :=
  match s with
  | String c s' => if is_space c then skip_spaces s' else s
  | EmptyString => s
  end.

Fixpoint digits (s : string) (acc : Z) : Z :=
  match s with
  | String c s' => if is_digit c then digits s' (10 * acc + (char_code c - 48)) else acc
  | EmptyString => acc
  end.

(** The behaviour is undefined if the number is not an [int]. *)
Definition atoi (s : string) : option Z :=
  let n := match skip_spaces s with
           | String "-" s' => - digits s' 0
           | String "+" s' => digits s' 0
           | s' => digits s' 0
           end in
  if bool_decide (- 2 ^ 31 <= n < 2 ^ 31) then Some n else None.

(** The string at the start of a buffer. *)
Fixpoint c_string (buf : list ascii) : list ascii :=
  match buf with
  | [] => []
  | c :: buf => if bool_decide (c = zero) then [] else c :: c_string buf
  end.

Section Start.
Context {E : Type} `{!Os E, !Setup E}.

(** ** Addresses *)

(** The loop of [ip_from_self], with [check_iface], which keeps what earlier
    entries left in it, and the address found so far. *)
Fixpoint ip_from_ifaces (ifaces : list ifaddr) (check_iface : list ascii) (ip_addr : Z) :
    M (sys E) Z :=
  match ifaces with
  | [] => mret ip_addr
  | iface :: ifaces =>
      match ifa_addr iface with
      | Some (family, addr) =>
          if bool_decide (family = AF_INET) then
            let name := list_ascii_of_string (ifa_name iface) in
            access ((0 <? length name)%nat && (length name - 1 <=? length check_iface)%nat);;
            let check_iface := take (length name - 1) name ++ drop (length name - 1) check_iface in
            if negb (bool_decide (c_string check_iface = list_ascii_of_string ETH_INTERFACE))
            then ip_from_ifaces ifaces check_iface ip_addr
            else ip_from_ifaces ifaces check_iface addr
          else ip_from_ifaces ifaces check_iface ip_addr
      | None => ip_from_ifaces ifaces check_iface ip_addr
      end
  end.

Definition ip_from_self : M (sys E) Z :=
  addrs ← syscall os_getifaddrs;
  ip_from_ifaces addrs (replicate 100 zero) 0.

(** The loop of [ip_from_hostname]: [inet_ntoa] and [inet_addr] are inverse to
    each other; before the first iteration [ip] is not initialised. *)
Fixpoint last_address (addr_list : list Z) (ip : option Z) : option Z :=
  match addr_list with
  | [] => ip
  | a :: addr_list => last_address addr_list (Some a)
  end.

Definition ip_from_hostname (hostname : string) : M (sys E) Z :=
  entry ← syscall (os_gethostbyname hostname);
  match entry with
  | None => mret 0
  | Some addr_list => deref (last_address addr_list None)
  end.

(** ** The reset of older connections

    The thread that [do_config] starts, which is cancelled after [n] packets if
    it has not ended by itself. *)
Fixpoint send_resets (n : nat) : M (sys E) unit :=
  match n with
  | O => mret tt
  | S n =>
      cfg ← gets sys_config;
      r ← syscall (os_recv (socket cfg) MAX_PACKET_SIZE);
      match r with
      | IoErr _ | IoOk [] => mret tt
      | IoOk bs =>
          let size := Z.to_nat MAX_PACKET_SIZE in
          access (length bs <=? size)%nat;;
          d ← deref (datagram_of_bytes (bs ++ replicate (size - length bs) Byte.x00));
          rst ← create_tcp_rst cfg (ip_saddr (dg_ip d)) (th_dport (dg_tcp d))
                  (th_sport (dg_tcp d)) (th_ack (dg_tcp d));
          x ← rand;
          let conn := conn_setup x (ip_saddr (dg_ip d)) (ntohs (th_sport (dg_tcp d))) false
                        zero_conn in
          s ← call_sendto (socket cfg) (take (Z.to_nat FULL_HDR_SIZE) (datagram_bytes rst))
                (AddrIn (cn_saddr conn));
          if s <? 0 then mret tt else send_resets n
      end
  end.

(** ** Configuration *)

Definition set_socket (v : Z) (c : config) : config :=
  Config v (ip_addr c) (port c) (sconn c) (connections c).
Definition set_ip_addr (v : Z) (c : config) : config :=
  Config (socket c) v (port c) (sconn c) (connections c).
Definition set_port (v : Z) (c : config) : config :=
  Config (socket c) (ip_addr c) v (sconn c) (connections c).

Definition on_config (f : config -> config) : M (sys E) unit :=
  modify (fun s => set_sys_config (f (sys_config s)) s).

Definition set_sys_options (v : options) (s : sys E) : sys E :=
  Sys v (sys_config s) (sys_ctcp_cfg s) (sys_did_unreliable s) (sys_new_connection s)
    (sys_num_connected s) (sys_events s) (sys_last_timeout s) (sys_conns s) (sys_chunks s)
    (sys_io s) (sys_env s).

Definition on_options (f : options -> options) : M (sys E) unit :=
  modify (fun s => set_sys_options (f (sys_options s)) s).

(** The options of a raw socket, and the host's own address. *)
Definition config_raw (s : Z) : M (sys E) bool :=
  r ← syscall (os_setsockopt s IPPROTO_IP IP_HDRINCL 1);
  if r <? 0 then mret false
  else
    ip ← ip_from_self;
    on_config (set_ip_addr ip);;
    mret (negb (bool_decide (ip = 0))).

(** The address that the socket is bound to. *)
Definition own_address (un : bool) (port_str : string) : M (sys E) sockaddr :=
  if un then
    access (String.length port_str + 2 <=? Z.to_nat SUN_PATH_SIZE)%nat;;
    let path := String.append "/" port_str in
    syscall (os_unlink path);;
    mret (AddrUn (SockaddrUn AF_UNIX path))
  else
    cfg ← gets sys_config;
    mret (AddrIn (SockaddrIn AF_INET (htons (u16 (port cfg))) (ip_addr cfg))).

(** [n] bounds the packets that [send_resets] answers. *)
Definition do_config (n : nat) (port_str : string) : M (sys E) Z :=
  un ← opt unix_socket;
  s ← syscall (if un : bool then os_socket AF_UNIX SOCK_DGRAM 0
               else os_socket AF_INET SOCK_RAW IPPROTO_TCP);
  if s <? 0 then mret (-1)
  else
    ok ← (if un : bool then mret true else config_raw s);
    if negb ok then mret (-1)
    else
      p ← deref (atoi port_str);
      on_config (set_port p);;
      on_config (set_socket s);;
      on_config (set_connections None);;
      syscall (os_setsockopt s SOL_SOCKET SO_RCVTIMEO CONN_TIMEOUT);;
      addr ← own_address un port_str;
      r ← syscall (os_bind s addr);
      if r <? 0 then mret (-1)
      else send_resets n;; mret 0.

Definition set_unix_socket (v : bool) (o : options) : options :=
  Options (SERVER o) v (run_program o) (opt_drop o) (opt_corrupt o) (opt_delay o)
    (opt_duplicate o) (log_file o) (test_debug_on o) (lab5_mode o).
Definition set_run_program (v : bool) (o : options) : options :=
  Options (SERVER o) (unix_socket o) v (opt_drop o) (opt_corrupt o) (opt_delay o)
    (opt_duplicate o) (log_file o) (test_debug_on o) (lab5_mode o).

Definition do_config_server (server : string) : M (sys E) Z :=
  is_server ← opt SERVER;
  assert_c (negb is_server);;
  let '(host, server) := strsep ":" server in
  match server with
  | None => mret (-1)
  | Some server =>
      server_port ← deref (atoi (fst (strsep ":" server)));
      l ← on_conns (calloc zero_conn);
      on_config (set_sconn (Some l));;
      conn_add l;;
      dst_ip ← ip_from_hostname host;
      if bool_decide (dst_ip = 0) then mret (-1)
      else
        when (negb (bool_decide (dst_ip = LOCALHOST))) (on_options (set_unix_socket false));;
        let port := if bool_decide (server_port = 0) then DEFAULT_PORT else server_port in
        r ← rand;
        un ← opt unix_socket;
        on_conns (update l (conn_setup r dst_ip port un));;
        mret 0
  end.

(** ** Polling *)

Definition poll_for (i fd evs : Z) : M (sys E) unit :=
  update_event i (fun p => PollFd fd evs (pfd_revents p));;
  async fd;;
  mret tt.

Definition setup_poll : M (sys E) unit :=
  poll_for STDIN_FILENO STDIN_FILENO (Z.lor POLLIN (Z.lor POLLHUP POLLERR));;
  poll_for STDOUT_FILENO STDOUT_FILENO (Z.lor POLLOUT POLLERR);;
  fd ← conf socket;
  poll_for 2 fd (Z.lor POLLIN (Z.lor POLLHUP POLLERR)).

(** ** Clients and servers *)

(** [start_client] from the handshake to [do_loop]; [buf] is the uninitialised
    buffer of [tcp_handshake]. *)
Definition client_connects (buf : list byte) : M W Z :=
  conn ← on_sys (tcp_handshake buf);
  config_copy ← on_sys (gets sys_ctcp_cfg);
  state ← ctcp_init conn config_copy;
  match state with
  | None => mret (-1)
  | Some _ =>
      sc ← on_sys (conf sconn);
      l ← deref sc;
      on_sys (on_conns (update l (set_cn_state state)));;
      on_sys setup_poll;;
      mret 0
  end.

(** [start_client] up to [do_loop]. *)
Definition client_ready (n : nat) (buf : list byte) (server port : string) : M W Z :=
  r ← on_sys (do_config_server server);
  if r <? 0 then mret (-1)
  else
    r ← on_sys (do_config n port);
    if r <? 0 then mret (-1) else client_connects buf.

(** [fuel] and [k] are those of [do_loop]. *)
Definition start_client (fuel k n : nat) (buf : list byte) (server port : string) : M W Z :=
  r ← client_ready n buf server port;
  if r <? 0 then mret (-1) else do_loop fuel k;; mret 0.

(** [start_server] up to [do_loop]; [rest] are the arguments after the options,
    a program and its own. *)
Definition server_ready (n : nat) (port : string) (rest : list string) : M (sys E) Z :=
  r ← do_config n port;
  if r <? 0 then mret (-1)
  else
    when (0 <? length rest)%nat (on_options (set_run_program true));;
    setup_poll;;
    mret 0.

Definition start_server (fuel k n : nat) (port : string) (rest : list string) : M W Z :=
  r ← on_sys (server_ready n port rest);
  if r <? 0 then mret (-1) else do_loop fuel k;; mret 0.

(** ** The command line *)

(** What the options leave in the local variables of [main]. *)
Record arguments := Arguments_ {
  is_server : bool;
  is_client : bool;
  arg_server : option string;
  port_str : option string;
  arg_port : Z;
  window : Z;
  seed : Z;
}.

Definition set_log_file (v : Z) (o : options) : options :=
  Options (SERVER o) (unix_socket o) (run_program o) (opt_drop o) (opt_corrupt o) (opt_delay o)
    (opt_duplicate o) v (test_debug_on o) (lab5_mode o).
Definition set_SERVER (v : bool) (o : options) : options :=
  Options v (unix_socket o) (run_program o) (opt_drop o) (opt_corrupt o) (opt_delay o)
    (opt_duplicate o) (log_file o) (test_debug_on o) (lab5_mode o).

(** The switch on what [getopt_long] has returned; [None] is [usage]. [DEBUG]
    is read by [conn_send] only, to print, and left out. *)
Definition parse_option (c : ascii) (optarg : string) (a : arguments) (o : options) :
    M (sys E) (option (arguments * options)) :=
  let '(Arguments_ srv cli server pstr p w sd) := a in
  let '(Options s u rp dr co de du lf td l5) := o in
  match c with
  | "d" => mret (Some (a, o))
  | "s" => mret (Some (Arguments_ true cli server pstr p w sd, o))
  | "c" => mret (Some (Arguments_ srv true (Some optarg) pstr p w sd, o))
  | "p" => v ← deref (atoi optarg); mret (Some (Arguments_ srv cli server (Some optarg) v w sd, o))
  | "w" => v ← deref (atoi optarg); mret (Some (Arguments_ srv cli server pstr p v sd, o))
  | "e" => v ← deref (atoi optarg); mret (Some (Arguments_ srv cli server pstr p w v, o))
  | "r" => v ← deref (atoi optarg); mret (Some (a, Options s u rp v co de du lf td l5))
  | "t" => v ← deref (atoi optarg); mret (Some (a, Options s u rp dr v de du lf td l5))
  | "y" => v ← deref (atoi optarg); mret (Some (a, Options s u rp dr co v du lf td l5))
  | "q" => v ← deref (atoi optarg); mret (Some (a, Options s u rp dr co de v lf td l5))
  | "l" => mret (Some (a, Options s u rp dr co de du 0 td l5))
  | "z" => mret (Some (a, Options s u rp dr co de du lf true l5))
  | "f" => mret (Some (a, Options s u rp dr co de du lf td true))
  | _ => mret None
  end%char.

(** The loop over the options that [getopt_long] finds, each with its argument. *)
Fixpoint parse_options (opts : list (ascii * string)) (a : arguments) : M (sys E) arguments :=
  match opts with
  | [] => mret a
  | (c, optarg) :: opts =>
      o ← gets sys_options;
      r ← parse_option c optarg a o;
      match r with
      | None => exit_with 1
      | Some (a, o) => modify (set_sys_options o);; parse_options opts a
      end
  end.

(** The name of the log file; [snprintf] cuts it to fit. *)
Definition log_filename (sec port : Z) : string :=
  String.substring 0 39 (String.append (pretty sec) (String.append "-" (String.append (pretty port) ".csv"))).

Definition open_log (port : Z) : M (sys E) unit :=
  lf ← opt log_file;
  when (bool_decide (lf = 0))
    ('(sec, _) ← syscall os_gettimeofday;
     fd ← syscall (os_open (log_filename (i32 sec) port));
     on_options (set_log_file fd);;
     call_write fd (list_byte_of_string LOG_HEADERS);;
     mret tt).

(** The cTCP configuration, its windows being 16-bit fields. *)
Definition initial_cfg (window : Z) : ctcp_config :=
  CtcpConfig (u16 (window * MAX_SEG_DATA_SIZE)) (u16 (window * MAX_SEG_DATA_SIZE))
    TIMER_INTERVAL RT_INTERVAL.

(** [main] up to the start of a client or server; [now] is [time(NULL)]. *)
Definition configure (now : Z) (opts : list (ascii * string)) : M (sys E) arguments :=
  a ← parse_options opts (Arguments_ false false None None (-1) 1 now);
  syscall (os_srand (seed a));;
  if (is_client a && is_server a) || (negb (is_client a) && negb (is_server a)) || (arg_port a <=? 0)
  then exit_with 1
  else
    open_log (arg_port a);;
    modify (set_sys_ctcp_cfg (initial_cfg (window a)));;
    modify (set_sys_events (replicate (Z.to_nat (NUM_POLL + MAX_NUM_CLIENTS)) (PollFd 0 0 0)));;
    mret a.

Definition main (fuel k n : nat) (buf : list byte) (now : Z) (opts : list (ascii * string))
    (rest : list string) : M W Z :=
  a ← on_sys (configure now opts);
  port ← deref (port_str a);
  if is_client a then
    server ← deref (arg_server a);
    r ← start_client fuel k n buf server port;
    mret (if r <? 0 then 1 else 0)
  else
    on_sys (on_options (set_SERVER true));;
    r ← start_server fuel k n port rest;
    mret (if r <? 0 then 1 else 0).

(** The memory before [main]; [cc], its variable, is not initialised. *)
Definition boot (cc : config) (env : E) : sys E :=
  Sys (Options false true false 0 0 0 0 (-1) false false) cc (CtcpConfig 0 0 0 0) false 0 0 []
    (Timespec 0 0) heap_empty heap_empty [] env.

Definition boot_world (cc : config) (env : E) : W :=
  World None heap_empty heap_empty heap_empty heap_empty ll_mem_empty
    (replicate (Z.to_nat MAX_BUFF_SIZE) Byte.x00) [] (boot cc env).
End Start.
