(* ===== verification/StartProps.v ===== *)
(** * Starting: addresses, sockets, the first connection

    Which interface gives the address, the windows of the configuration, and
    that a client that has been started is in a safe state, with numbers that
    are those of the packets of the handshake. *)

From Stdlib Require Import Ascii String.
From stdpp Require Import strings pretty.
From S2P Require Import Prelude Heap Words Cksum LinkedList Segment ConnLib Ctcp CtcpSpec CtcpSteps.
From S2P Require Import CtcpInv CtcpRefine Script CtcpSafety.
From S2P Require Import Host Packet PacketProps Conn Queue ConnInv ConnOut ConnSend ConnInput ConnLaws.
From S2P Require Import ConnScript Loop LoopProps Accept Start.

(** What the manual pages state: interfaces have names of 1 to 15 characters, and
    a host that is found has an address. *)
Class SetupLaws (E : Type) `{Setup E} := {
  os_getifaddrs_law e :
    Forall (fun i => (0 < String.length (ifa_name i) < 16)%nat /\
                     zero ∉ list_ascii_of_string (ifa_name i)) (fst (os_getifaddrs e));
  os_gethostbyname_law name e l e' : os_gethostbyname name e = (Some l, e') -> l <> [];
}.

(** ** The host's own address *)

Section Address.
Context {E : Type} `{!Os E, !Setup E}.
Implicit Types (s : sys E) (i : ifaddr) (check : list ascii).

Lemma ascii_length name : length (list_ascii_of_string name) = String.length name.
Proof. induction name as [|c name IH]; simpl; [done|by rewrite IH]. Qed.

(** The names that [getifaddrs] gives. *)
Definition good_name i : Prop :=
  (0 < String.length (ifa_name i) < 16)%nat /\ zero ∉ list_ascii_of_string (ifa_name i).

(** The part of the name that is copied. *)
Definition prefix_of i : list ascii :=
  take (String.length (ifa_name i) - 1) (list_ascii_of_string (ifa_name i)).

Lemma prefix_length i : length (prefix_of i) = (String.length (ifa_name i) - 1)%nat.
Proof. unfold prefix_of. rewrite length_take, ascii_length. lia. Qed.

Lemma iface_step i family addr ifaces check ip s :
  ifa_addr i = Some (family, addr) -> good_name i -> length check = 100%nat ->
  ip_from_ifaces (i :: ifaces) check ip s =
  if bool_decide (family = AF_INET) then
    let check' := prefix_of i ++ drop (length (prefix_of i)) check in
    ip_from_ifaces ifaces check'
      (if bool_decide (c_string check' = list_ascii_of_string ETH_INTERFACE) then addr else ip) s
  else ip_from_ifaces ifaces check ip s.
Proof.
  intros Ha [Hn _] Hlen. cbn [ip_from_ifaces]. rewrite Ha.
  destruct (bool_decide (family = AF_INET)); [|done]. cbv zeta.
  rewrite ascii_length. unfold access.
  replace ((0 <? String.length (ifa_name i))%nat && _) with true
    by (symmetry; rewrite andb_true_iff, Nat.ltb_lt, Nat.leb_le; lia).
  unfold mbind at 1, M_bind at 1. cbn [mret M_ret]. unfold mret, M_ret.
  rewrite prefix_length. fold (prefix_of i).
  by destruct (bool_decide (c_string _ = _)).
Qed.

Lemma checked_length i check :
  good_name i -> length check = 100%nat ->
  length (prefix_of i ++ drop (length (prefix_of i)) check) = 100%nat.
Proof. intros [Hn _] Hl. rewrite length_app, length_drop, prefix_length. lia. Qed.

(** The first [n] characters are not null. *)
Definition full (n : nat) check : Prop :=
  forall k, (k < n)%nat -> exists c, check !! k = Some c /\ c <> zero.

Lemma full_string n check : full n check -> (n <= length (c_string check))%nat.
Proof.
  revert n. induction check as [|c check IH]; intros [|n] Hf; simpl; try lia.
  - by destruct (Hf 0%nat ltac:(lia)) as (c & ? & _).
  - destruct (Hf 0%nat ltac:(lia)) as (c' & [= <-] & Hc). rewrite bool_decide_false by done.
    simpl. enough (n <= length (c_string check))%nat by lia.
    apply IH. intros k Hk. apply (Hf (S k)). lia.
Qed.

Lemma prefix_full i : good_name i -> full (length (prefix_of i)) (prefix_of i).
Proof.
  intros [_ Hz] k Hk. destruct (lookup_lt_is_Some_2 _ _ Hk) as [c Hc]. exists c. split; [done|].
  intros ->. apply Hz. apply list_elem_of_lookup_2 with k.
  unfold prefix_of in Hc. by apply lookup_take_Some in Hc as [Hc _].
Qed.

Lemma full_kept i n check :
  good_name i -> full n check -> full n (prefix_of i ++ drop (length (prefix_of i)) check).
Proof.
  intros Hg Hf k Hk. destruct (decide (k < length (prefix_of i))%nat) as [Hlt|Hge].
  - rewrite lookup_app_l by done. by apply prefix_full.
  - rewrite lookup_app_r, lookup_drop by lia.
    replace (length (prefix_of i) + (k - length (prefix_of i)))%nat with k by lia. by apply Hf.
Qed.

Lemma full_not_eth check : full 4 check -> c_string check <> list_ascii_of_string ETH_INTERFACE.
Proof. intros Hf%full_string E'. rewrite E' in Hf. simpl in Hf. lia. Qed.

Lemma nothing_found ifaces : forall check ip s,
  Forall good_name ifaces -> length check = 100%nat -> full 4 check ->
  ip_from_ifaces ifaces check ip s = Done ip s.
Proof.
  induction ifaces as [|i ifaces IH]; intros check ip s Hn Hl Hf; [done|].
  apply Forall_cons in Hn as [Hi Hn]. destruct (ifa_addr i) as [[family addr]|] eqn:Ha.
  - erewrite iface_step by done. destruct (bool_decide (family = AF_INET)); [|by apply IH].
    cbv zeta. pose proof (full_kept i 4 check Hi Hf) as Hf'.
    rewrite bool_decide_false by by apply full_not_eth.
    apply IH; [done|by apply checked_length|done].
  - cbn [ip_from_ifaces]. rewrite Ha. by apply IH.
Qed.

(** C36: on a host whose first interface with an IPv4 address has a name of five
    characters or more, [ip_from_self] finds no address, whatever the other
    interfaces: the longer name stays in the buffer behind the shorter ones, and
    nothing compares equal to [eth]. *)
Theorem ip_from_self_long_name s i addr ifaces env :
  os_getifaddrs (sys_env s) = (i :: ifaces, env) -> Forall good_name (i :: ifaces) ->
  ifa_addr i = Some (AF_INET, addr) -> (4 < String.length (ifa_name i))%nat ->
  ip_from_self s = Done 0 (set_sys_env env s).
Proof.
  intros Ho Hn Ha Hlen. unfold ip_from_self, syscall, mbind, M_bind. rewrite Ho.
  apply Forall_cons in Hn as [Hi Hn].
  erewrite iface_step by (done || by rewrite length_replicate).
  rewrite bool_decide_true by done. cbv zeta.
  assert (Hf : full 4 (prefix_of i ++ drop (length (prefix_of i)) (replicate 100 zero))).
  { intros k Hk. rewrite lookup_app_l by (rewrite prefix_length; lia).
    apply prefix_full; [done|]. rewrite prefix_length. lia. }
  rewrite bool_decide_false by by apply full_not_eth.
  apply nothing_found; [done| |done]. apply checked_length; [done|by rewrite length_replicate].
Qed.

(** An Ethernet interface, or one whose name is short and begins otherwise. *)
Definition is_eth i : bool :=
  bool_decide (prefix_of i = list_ascii_of_string ETH_INTERFACE).

Definition plain_name i : Prop :=
  is_eth i = true \/
  (String.length (ifa_name i) <= 4)%nat /\ exists c rest, prefix_of i = c :: rest /\ c <> "e"%char.

Fixpoint eth_address (ifaces : list ifaddr) (ip : Z) : Z :=
  match ifaces with
  | [] => ip
  | i :: ifaces =>
      match ifa_addr i with
      | Some (family, addr) =>
          if bool_decide (family = AF_INET) && is_eth i then eth_address ifaces addr
          else eth_address ifaces ip
      | None => eth_address ifaces ip
      end
  end.

(** At most the first three characters are not null. *)
Definition short check : Prop := drop 3 check = replicate 97 zero.

Lemma short_kept i check :
  good_name i -> plain_name i -> short check -> length check = 100%nat ->
  short (prefix_of i ++ drop (length (prefix_of i)) check) /\
  bool_decide (c_string (prefix_of i ++ drop (length (prefix_of i)) check) =
    list_ascii_of_string ETH_INTERFACE) = is_eth i.
Proof.
  unfold short. intros Hg Hp Hs Hl.
  assert (Hle : (length (prefix_of i) <= 3)%nat).
  { destruct Hp as [H|[H _]]; [|rewrite prefix_length; lia]. unfold is_eth in H. apply bool_decide_eq_true in H. by rewrite H. }
  split.
  - rewrite drop_app_ge by done. rewrite drop_drop.
    by replace (length (prefix_of i) + (3 - length (prefix_of i)))%nat with 3%nat by lia.
  - destruct Hp as [H|[_ (c & rest & H & Hc)]].
    + rewrite H. unfold is_eth in H. apply bool_decide_eq_true in H. rewrite H.
      cbn [length list_ascii_of_string ETH_INTERFACE].
      rewrite Hs. done.
    + unfold is_eth. rewrite H. rewrite !bool_decide_false; [done|by intros [= -> _]|].
      assert (Hz : c <> zero).
      { destruct (prefix_full i Hg 0%nat) as (c' & Hc' & Hz); [rewrite H; simpl; lia|].
        rewrite H in Hc'. by injection Hc' as ->. }
      cbn [app c_string]. rewrite bool_decide_false by done. by intros [= -> _].
Qed.

(** And when all names are those of Ethernet interfaces, [eth] and a digit, or
    are at most four characters that begin with another letter, [ip_from_self]
    finds the address of the last Ethernet interface, and zero if there is none. *)
Theorem ip_from_self_finds s ifaces env :
  os_getifaddrs (sys_env s) = (ifaces, env) -> Forall good_name ifaces -> Forall plain_name ifaces ->
  ip_from_self s = Done (eth_address ifaces 0) (set_sys_env env s).
Proof.
  intros Ho Hn Hp. unfold ip_from_self, syscall, mbind, M_bind. rewrite Ho. clear Ho.
  generalize (set_sys_env env s). intros s'.
  assert (Hs : short (replicate 100 zero)) by done.
  assert (Hl : length (replicate 100 zero) = 100%nat) by by rewrite length_replicate.
  revert Hs Hl. generalize (replicate 100 zero) 0. induction ifaces as [|i ifaces IH];
    intros check ip Hs Hl; [done|].
  apply Forall_cons in Hn as [Hi Hn], Hp as [Hpi Hp].
  destruct (ifa_addr i) as [[family addr]|] eqn:Ha.
  - erewrite iface_step by done. cbn [eth_address]. rewrite Ha.
    destruct (bool_decide (family = AF_INET)); [|by apply IH].
    cbv zeta. destruct (short_kept i check Hi Hpi Hs Hl) as [Hs' ->].
    rewrite IH by (done || by apply checked_length). by destruct (is_eth i).
  - cbn [ip_from_ifaces eth_address]. rewrite Ha. by apply IH.
Qed.
End Address.

(** The windows that the command line asks for are those of the configuration
    exactly up to 45 segments: the fields have 16 bits. *)
Theorem initial_window_bound n :
  0 <= n < 2 ^ 31 ->
  cfg_recv_window (initial_cfg n) = n * MAX_SEG_DATA_SIZE /\
  cfg_send_window (initial_cfg n) = n * MAX_SEG_DATA_SIZE <-> n <= 45.
Proof.
  intros Hn. unfold initial_cfg. cbn [cfg_recv_window cfg_send_window]. unfold MAX_SEG_DATA_SIZE. split.
  - intros [H _]. pose proof (u16_range (n * 1440)). lia.
  - intros H. rewrite u16_small by lia. done.
Qed.

(** ** A client is started *)

Section Client.
Context {Env : Type} `{!Os Env, !OsLaws Env, !Setup Env, !SetupLaws Env}.
Implicit Types (s : sys Env) (w : W (E := Env)).

Abbreviation anywhere := (fun _ => True).

Lemma wp_syscall {A} (f : Env -> A * Env) (Q : A -> sys Env -> Prop) X s :
  Q (fst (f (sys_env s))) (set_sys_env (snd (f (sys_env s))) s) -> wp (syscall f) Q X s.
Proof. unfold wp, syscall. by destruct (f (sys_env s)). Qed.

(** The host is a client with one connection, [c] at [cl], and nothing to output. *)
Record one_client (cl : loc) (c : conn) s : Prop := {
  oc_client : SERVER (sys_options s) = false;
  oc_plain : run_program (sys_options s) = false;
  oc_conns : ConnInv.conns s = {[cl := c]};
  oc_brk : (cl < brk (sys_conns s))%positive;
  oc_sconn : sconn (sys_config s) = Some cl;
  oc_chunks : sys_chunks s = heap_empty;
  oc_events : Z.of_nat (length (sys_events s)) = NUM_EVENTS;
  oc_queue : cn_out_queue c = None /\ cn_out_queue_tail c = TailQueue;
  oc_alone : cn_next c = None /\ cn_prev c = CPrevNull;
  oc_open : cn_delete_me c = false;
  oc_numbers : 0 <= cn_next_seqno c < 2 ^ 32;
}.

Lemma one_client_lookup cl c s : one_client cl c s -> ConnInv.conns s !! cl = Some c.
Proof. intros H. rewrite (oc_conns _ _ _ H). apply lookup_singleton_eq. Qed.

(** A client with nothing to output, on its own machine. *)
Lemma single_ok cl c s :
  SERVER (sys_options s) = false -> run_program (sys_options s) = false ->
  unix_socket (sys_options s) = true -> ConnInv.conns s = {[cl := c]} ->
  (cl < brk (sys_conns s))%positive -> sconn (sys_config s) = Some cl ->
  sys_chunks s = heap_empty -> Z.of_nat (length (sys_events s)) = NUM_EVENTS ->
  cn_out_queue c = None -> cn_out_queue_tail c = TailQueue ->
  cn_next c = None -> cn_prev c = CPrevNull -> sys_ok s.
Proof.
  intros H1 H2 Hu H3 H4 H5 H6 H7 H8 H8' H9 H9'.
  assert (Hone : forall k c', ConnInv.conns s !! k = Some c' -> k = cl /\ c' = c).
  { intros k c'. rewrite H3. by intros [<- <-]%lookup_singleton_Some. }
  split; [|by rewrite Hu, orb_true_r].
  exists {[cl := []]}. split.
  - intros k [c' Hk]. by apply Hone in Hk as [-> _].
  - rewrite H6. apply heap_wf_empty.
  - intros k c' Hk. apply Hone in Hk as [-> ->]. exists []. split; [apply lookup_singleton_eq|].
    split; try done; apply NoDup_nil_2.
  - by intros l1 l2 q1 q2 k [<- _]%lookup_singleton_Some [<- _]%lookup_singleton_Some.
  - intros k [q [<- _]%lookup_singleton_Some]. exists c. rewrite H3. apply lookup_singleton_eq.
  - done.
  - intros k c' _. by rewrite H2.
  - intros _. rewrite H5. exists c. rewrite H3. by rewrite lookup_singleton_eq.
Qed.

Lemma one_client_ok cl c s :
  one_client cl c s -> unix_socket (sys_options s) = true -> sys_ok s /\ sys_open s (Some cl).
Proof.
  intros H Hu. pose proof (one_client_lookup _ _ _ H) as Hc.
  destruct H as [H1 H2 H3 H4 H5 H6 H7 [H8 H8'] [H9 H9'] H10 _].
  split; [by eapply single_ok|by exists cl, c].
Qed.

(** Steps of the set-up that leave the connections alone. *)
Record same s s' : Prop := {
  sm_options : sys_options s' = sys_options s;
  sm_conns : sys_conns s' = sys_conns s;
  sm_sconn : sconn (sys_config s') = sconn (sys_config s);
  sm_chunks : sys_chunks s' = sys_chunks s;
  sm_events : length (sys_events s') = length (sys_events s);
}.

#[export] Instance same_refl : Reflexive same.
Proof. by split. Qed.
#[export] Instance same_trans : Transitive same.
Proof. intros s1 s2 s3 [] []. split; congruence. Qed.

Lemma same_quiet s s' : quiet s s' -> same s s'.
Proof. by intros (env & io & did & ->). Qed.
Lemma same_env e s : same s (set_sys_env e s).
Proof. done. Qed.
Lemma same_config f s :
  (forall cfg, sconn (f cfg) = sconn cfg) -> same s (set_sys_config (f (sys_config s)) s).
Proof. intros Hf. split; [done|done|apply Hf|done|done]. Qed.

Lemma one_client_same cl c s s' : one_client cl c s -> same s s' -> one_client cl c s'.
Proof. intros [] []. split; try done; unfold ConnInv.conns in *; congruence. Qed.

Lemma one_client_quiet cl c s s' : quiet s s' -> one_client cl c s -> one_client cl c s'.
Proof. intros Hq H. by eapply one_client_same, same_quiet. Qed.

Lemma one_client_update cl c f s :
  one_client cl c s -> cn_out_queue (f c) = cn_out_queue c ->
  cn_out_queue_tail (f c) = cn_out_queue_tail c -> cn_next (f c) = cn_next c ->
  cn_prev (f c) = cn_prev c -> cn_delete_me (f c) = cn_delete_me c ->
  0 <= cn_next_seqno (f c) < 2 ^ 32 ->
  one_client cl (f c) (with_conns (<[cl := f c]> (ConnInv.conns s)) s).
Proof.
  intros [] E1 E2 E3 E4 E5 E6. split; try done.
  - unfold ConnInv.conns at 1. cbn [with_conns set_sys_conns sys_conns mem].
    rewrite oc_conns0. apply insert_singleton_eq.
  - by rewrite E1, E2.
  - by rewrite E3, E4.
  - by rewrite E5.
Qed.

Lemma wp_update_client cl c f (Q : unit -> sys Env -> Prop) X s :
  one_client cl c s -> cn_out_queue (f c) = cn_out_queue c ->
  cn_out_queue_tail (f c) = cn_out_queue_tail c -> cn_next (f c) = cn_next c ->
  cn_prev (f c) = cn_prev c -> cn_delete_me (f c) = cn_delete_me c ->
  0 <= cn_next_seqno (f c) < 2 ^ 32 ->
  (forall s', one_client cl (f c) s' -> sys_config s' = sys_config s -> sys_io s' = sys_io s ->
     sys_env s' = sys_env s -> sys_options s' = sys_options s -> Q tt s') ->
  wp (on_conns (update cl f)) Q X s.
Proof.
  intros H E1 E2 E3 E4 E5 E6 HQ. eapply wp_conn_update; [by apply one_client_lookup|].
  by apply HQ; [apply one_client_update|..].
Qed.

(** *** Names and sockets *)

Lemma wp_ip_from_ifaces ifaces : forall check ip (Q : Z -> sys Env -> Prop) X s,
  Forall good_name ifaces -> length check = 100%nat ->
  (forall ip', Q ip' s) -> wp (ip_from_ifaces ifaces check ip) Q X s.
Proof.
  induction ifaces as [|i ifaces IH]; intros check ip Q X s Hn Hl HQ; [by apply wp_ret|].
  apply Forall_cons in Hn as [Hi Hn]. unfold wp.
  destruct (ifa_addr i) as [[family addr]|] eqn:Ha.
  - erewrite iface_step by done. destruct (bool_decide (family = AF_INET)); [|by apply IH].
    apply IH; [done|by apply checked_length|done].
  - cbn [ip_from_ifaces]. rewrite Ha. by apply IH.
Qed.

Lemma wp_ip_from_self (Q : Z -> sys Env -> Prop) X s :
  (forall ip s', quiet s s' -> Q ip s') -> wp ip_from_self Q X s.
Proof.
  intros HQ. apply wp_bind, wp_syscall, wp_ip_from_ifaces.
  - apply os_getifaddrs_law.
  - apply length_replicate.
  - intros ip. apply HQ. auto with ctcp.
Qed.

Lemma last_address_some l ip : l <> [] -> exists a, last_address l ip = Some a.
Proof.
  revert ip. induction l as [|a [|b l] IH]; intros ip Hl; [done|by exists a|].
  cbn [last_address] in *. by apply (IH (Some a)).
Qed.

(** All addresses that the host is found at are that of this machine. *)
Definition on_this_host (host : string) : Prop :=
  forall e l, fst (os_gethostbyname host e) = Some l -> Forall (fun a => a = LOCALHOST) l.

Lemma last_address_in l ip a : last_address l ip = Some a -> ip = Some a \/ a ∈ l.
Proof.
  revert ip. induction l as [|b l IH]; intros ip; cbn [last_address]; [by left|].
  intros [[= ->]|H]%IH; right; [by left|by right].
Qed.

Lemma wp_ip_from_hostname host (Q : Z -> sys Env -> Prop) X s :
  (forall ip s', quiet s s' -> (on_this_host host -> ip = 0 \/ ip = LOCALHOST) -> Q ip s') ->
  wp (ip_from_hostname host) Q X s.
Proof.
  intros HQ. apply wp_bind. unfold syscall, wp.
  destruct (os_gethostbyname host (sys_env s)) as [[l|] e] eqn:Ho.
  - destruct (last_address_some l None) as [a Ha]; [by eapply os_gethostbyname_law|].
    rewrite Ha. apply HQ; [auto with ctcp|]. intros Hh. right.
    destruct (last_address_in _ _ _ Ha) as [?|Hin]; [done|].
    specialize (Hh (sys_env s) l). rewrite Ho in Hh. specialize (Hh eq_refl).
    rewrite Forall_forall in Hh. by apply Hh.
  - apply HQ; [auto with ctcp|]. by left.
Qed.

(** The packet that [create_tcp_rst] makes. *)
Lemma create_tcp_rst_run cfg ip_dst port_src port_dst seqno s :
  exists rst, create_tcp_rst cfg ip_dst port_src port_dst seqno s = Done rst s /\
    length (datagram_bytes rst) = 40%nat.
Proof.
  unfold create_tcp_rst. eexists. split.
  { erewrite bind_Done by (apply create_datagram_run; unfold TCP_HDR_SIZE, IP_HDR_SIZE; lia).
    cbv beta iota. change (Z.to_nat TCP_HDR_SIZE) with 20%nat. rewrite zero_tcphdr by lia.
    cbn [deref]. erewrite bind_Done by reflexivity. cbv zeta.
    erewrite bind_Done by (apply cksum_tcp_run; [lia|unfold TCP_PSEUDOHDR_SIZE; lia|lia]).
    reflexivity. }
  rewrite <- (Nat2Z.id (length _)), datagram_bytes_length. by vm_compute.
Qed.

Lemma wp_send_resets n : forall (Q : unit -> sys Env -> Prop) X s,
  (forall s', quiet s s' -> Q tt s') -> wp (send_resets n) Q X s.
Proof.
  induction n as [|n IH]; intros Q X s HQ; [by apply wp_ret, HQ|].
  cbn [send_resets]. apply wp_bind, wp_gets, wp_bind. unfold wp at 1, syscall.
  destruct (os_recv (socket (sys_config s)) MAX_PACKET_SIZE (sys_env s)) as [r e] eqn:Hr.
  assert (He : quiet s (set_sys_env e s)) by auto with ctcp.
  destruct r as [bs|errno]; [|by apply wp_ret, HQ].
  destruct bs as [|b bs0]; [by apply wp_ret, HQ|]. set (bs := b :: bs0) in *. clearbody bs.
  apply os_recv_law in Hr; [|by vm_compute].
  assert (Hlen : (length bs <= Z.to_nat MAX_PACKET_SIZE)%nat) by lia.
  apply wp_bind, wp_access; [by apply Nat.leb_le|].
  destruct (datagram_of_bytes_Some (bs ++ replicate (Z.to_nat MAX_PACKET_SIZE - length bs) Byte.x00))
    as (d & Hd & _).
  { rewrite length_app, length_replicate.
    change FULL_HDR_SIZE with 40. change (Z.to_nat MAX_PACKET_SIZE) with 1480%nat in *. lia. }
  apply wp_bind. eapply wp_deref; [exact Hd|].
  destruct (create_tcp_rst_run (sys_config s) (ip_saddr (dg_ip d)) (th_dport (dg_tcp d))
    (th_sport (dg_tcp d)) (th_ack (dg_tcp d)) (set_sys_env e s)) as (rst & Hrst & _).
  apply wp_bind. eapply wp_Done; [exact Hrst|].
  apply wp_bind, wp_rand. intros x s1 _ [Hq1 _].
  assert (H1 : quiet s s1) by (by transitivity (set_sys_env e s)).
  apply wp_bind. unfold call_sendto. apply wp_bind. unfold wp at 1, syscall.
  destruct (os_sendto _ _ _ _) as [[k|errno] e2].
  - apply wp_bind, wp_modify, wp_ret.
    set (s2 := set_sys_io _ _). assert (H2 : quiet s s2).
    { transitivity s1; [done|]. transitivity (set_sys_env e2 s1); [apply quiet_env|apply quiet_io]. }
    destruct (k <? 0); [by apply wp_ret, HQ|]. apply IH. intros s' Hs'. apply HQ. by transitivity s2.
  - apply wp_ret. apply wp_ret, HQ. transitivity s1; [done|auto with ctcp].
Qed.

(** [do_config] leaves the connections alone, whether it succeeds or not. *)
Lemma wp_do_config n port_str (Q : Z -> sys Env -> Prop) X s :
  is_Some (atoi port_str) -> (String.length port_str <= 106)%nat ->
  (forall r s', same s s' -> (0 <= r -> connections (sys_config s') = None) -> Q r s') ->
  wp (do_config n port_str) Q X s.
Proof.
  intros [p Hp] Hlen HQ. unfold do_config. apply wp_bind, wp_opt.
  generalize (unix_socket (sys_options s)) as un. intros un.
  apply wp_bind, wp_syscall. generalize (fst ((if un then os_socket AF_UNIX SOCK_DGRAM 0 else
    os_socket AF_INET SOCK_RAW IPPROTO_TCP) (sys_env s))). intros fd.
  set (s1 := set_sys_env _ s). assert (H1 : same s s1) by apply same_env. clearbody s1.
  assert (Hfail : forall s', same s s' -> wp (mret (-1)) Q X s').
  { intros s' Hs'. by apply wp_ret, HQ. }
  destruct (fd <? 0); [by apply Hfail|].
  assert (Hraw : wp (if un then mret true else config_raw fd) (fun _ s' => same s1 s') X s1).
  { destruct un; [by apply wp_ret|]. unfold config_raw. apply wp_bind, wp_syscall.
    destruct (_ <? 0); [apply wp_ret, same_env|]. apply wp_bind, wp_ip_from_self.
    intros ip s3 Hq. apply wp_bind, wp_modify, wp_ret.
    etransitivity; [apply same_env|]. etransitivity; [by apply same_quiet|].
    by apply (same_config (set_ip_addr ip)). }
  apply wp_bind. eapply wp_mono; [exact Hraw|]. intros ok s2 H12.
  assert (H2 : same s s2) by (by transitivity s1).
  destruct ok; cbn [negb]; [|by apply Hfail].
  apply wp_bind. eapply wp_deref; [exact Hp|].
  apply wp_bind, wp_modify, wp_bind, wp_modify, wp_bind, wp_modify.
  set (s3 := set_sys_config _ _).
  assert (H3 : same s s3 /\ connections (sys_config s3) = None).
  { split; [|done]. transitivity s2; [exact H2|by split]. }
  clearbody s3. apply wp_bind, wp_syscall. set (s4 := set_sys_env _ s3).
  assert (Haddr : wp (own_address un port_str)
    (fun _ s' => same s s' /\ connections (sys_config s') = None) X s4).
  { unfold own_address. destruct un.
    - apply wp_bind, wp_access; [apply Nat.leb_le; change (Z.to_nat SUN_PATH_SIZE) with 108%nat; lia|].
      apply wp_bind, wp_syscall, wp_ret. split; [|apply H3]. transitivity s3; [apply H3|by split].
    - apply wp_bind, wp_gets, wp_ret. split; [|apply H3]. transitivity s3; [apply H3|by split]. }
  apply wp_bind. eapply wp_mono; [exact Haddr|]. intros addr s5 [H5 E5].
  apply wp_bind, wp_syscall. set (s6 := set_sys_env _ s5).
  assert (H6 : same s s6) by (transitivity s5; [exact H5|apply same_env]).
  destruct (_ <? 0); [by apply Hfail|].
  apply wp_bind, wp_send_resets. intros s7 Hq.
  apply wp_ret, HQ; [transitivity s6; [exact H6|by apply same_quiet]|].
  destruct (quiet_keeps _ _ Hq) as (_ & _ & _ & ->). by intros _.
Qed.

(** Before [do_config_server] the host has no connection. *)
Record no_client s : Prop := {
  nc_client : SERVER (sys_options s) = false;
  nc_plain : run_program (sys_options s) = false;
  nc_conns : ConnInv.conns s = ∅;
  nc_chunks : sys_chunks s = heap_empty;
  nc_events : Z.of_nat (length (sys_events s)) = NUM_EVENTS;
}.

(** A server string whose port, if there is one, is a number that fits an [int]. *)
Definition good_server (server : string) : Prop :=
  forall rest, snd (strsep ":" server) = Some rest -> is_Some (atoi (fst (strsep ":" rest))).

Lemma wp_do_config_server server (Q : Z -> sys Env -> Prop) X s :
  no_client s -> good_server server ->
  (forall r s', r < 0 -> Q r s') ->
  (forall cl c s', one_client cl c s' -> cn_next_seqno c = cn_init_seqno c ->
     (on_this_host (fst (strsep ":" server)) -> unix_socket (sys_options s) = true ->
      unix_socket (sys_options s') = true) -> Q 0 s') ->
  wp (do_config_server server) Q X s.
Proof.
  intros [N1 N2 N3 N4 N5] Hg Hbad HQ. unfold do_config_server.
  apply wp_bind, wp_opt. rewrite N1. apply wp_bind, wp_ret.
  unfold good_server in Hg. destruct (strsep ":" server) as [host [rest|]]; [|by apply wp_ret, Hbad].
  destruct (Hg rest eq_refl) as [p Hp].
  apply wp_bind. eapply wp_deref; [exact Hp|].
  apply wp_bind, wp_conn_calloc. set (cl := brk (sys_conns s)).
  apply wp_bind, wp_modify. set (s1 := set_sys_config _ _).
  set (c1 := set_cn_out_queue_tail TailQueue zero_conn).
  assert (Hc1 : ConnInv.conns s1 !! cl = Some zero_conn) by apply lookup_insert_eq.
  apply wp_bind. unfold conn_add. apply wp_bind. eapply wp_Done; [apply get_connections_run|].
  assert (Eh : head_of s1 = Some cl).
  { unfold head_of. change (sys_options s1) with (sys_options s). by rewrite N1. }
  rewrite Eh, bool_decide_true by done. cbn [negb when]. apply wp_bind, wp_ret.
  apply wp_bind. eapply wp_conn_update; [exact Hc1|]. fold c1.
  set (s2 := with_conns _ s1).
  unfold set_head. apply wp_bind, wp_opt. change (sys_options s2) with (sys_options s). rewrite N1.
  apply wp_modify. set (s3 := set_sys_config _ s2).
  assert (H3 : one_client cl c1 s3).
  { split; try done.
    - unfold ConnInv.conns, s3, s2. cbn [with_conns set_sys_conns set_sys_config sys_conns mem].
      unfold s1, allocated. cbn [with_conns set_sys_conns set_sys_config sys_conns mem].
      rewrite N3, insert_empty. apply insert_singleton_eq.
    - unfold s3, s2, s1. cbn. lia. }
  assert (E3 : sys_options s3 = sys_options s) by done. clearbody s3.
  apply wp_bind, wp_ip_from_hostname. intros ip s4 Hq4 Hip.
  destruct (quiet_keeps _ _ Hq4) as (_ & _ & E4 & _).
  pose proof (one_client_quiet _ _ _ _ Hq4 H3) as H4.
  destruct (bool_decide_reflect (ip = 0)) as [|Hip0]; [by apply wp_ret, Hbad|].
  assert (Hun : wp (when (negb (bool_decide (ip = LOCALHOST))) (on_options (set_unix_socket false)))
    (fun _ s' => one_client cl c1 s' /\
       (ip = LOCALHOST -> sys_options s' = sys_options s)) X s4).
  { apply wp_when; intros Hne; [|split; [done|congruence]].
    apply wp_modify. split; [destruct H4; by split|]. intros ->. by rewrite bool_decide_true in Hne. }
  apply wp_bind. eapply wp_mono; [exact Hun|]. intros [] s5 [H5 E5].
  apply wp_bind, wp_rand. intros x s6 Hx [Hq6 _]. destruct (quiet_keeps _ _ Hq6) as (_ & _ & E6 & _). pose proof (one_client_quiet _ _ _ _ Hq6 H5) as H6.
  apply wp_bind, wp_opt. generalize (unix_socket (sys_options s6)) as un. intros un.
  apply wp_bind. eapply (wp_update_client cl c1); [exact H6|by destruct un..| |].
  { destruct un; apply u32_range. }
  intros s7 H7 _ _ _ E7. apply wp_ret. apply (HQ _ _ _ H7); [by destruct un|].
  intros Hh Hu. destruct (Hip Hh) as [?|Hl]; [done|]. rewrite E7, E6, (E5 Hl). exact Hu.
Qed.

(** *** The handshake *)

Lemma one_client_sent cl c c' s s' :
  one_client cl c s -> setting_up cl s s' -> head_of s' = head_of s ->
  ConnInv.conns s' !! cl = Some c' -> c' = set_cn_seqno (cn_next_seqno c) c -> one_client cl c' s'.
Proof.
  intros H [S1 S2 S3 S4 S5] Hh Hc' ->. pose proof (oc_conns _ _ _ H) as Hcs.
  assert (Hs : ConnInv.conns s' = {[cl := set_cn_seqno (cn_next_seqno c) c]}).
  { apply map_eq. intros k. destruct (decide (k = cl)) as [->|Hk].
    - by rewrite lookup_singleton_eq.
    - rewrite lookup_singleton_ne by done. destruct (S5 k Hk) as [->|(c0 & p & E0 & _)].
      + rewrite Hcs. by apply lookup_singleton_ne.
      + rewrite Hcs, lookup_singleton_ne in E0 by done. done. }
  unfold head_of in Hh. rewrite S1, (oc_client _ _ _ H) in Hh.
  destruct H. split; try done; congruence.
Qed.

Lemma wp_send_client cl c flags (Q : Z -> sys Env -> Prop) X s :
  one_client cl c s ->
  (forall n s' evs d, one_client cl (set_cn_seqno (cn_next_seqno c) c) s' ->
     control_packet (sys_config s) (sys_ctcp_cfg s) c flags d -> sys_io s' = sys_io s ++ evs ->
     (packets evs = [] /\ n = -1 \/ packets evs = [datagram_bytes d] /\ n = 0) ->
     sys_options s' = sys_options s -> Q n s') ->
  wp (send_tcp_conn_seg cl flags) Q X s.
Proof.
  intros H HQ. eapply wp_send_control; [by apply one_client_lookup|apply H|].
  intros n s' evs d Hsu Hh _ Hc' Hd Hio Hn. eapply HQ; [by eapply one_client_sent|done..|apply Hsu].
Qed.

(** What [recv_filter] gives, when [find_conn] goes through the list and finds
    connections with [P]. *)
Lemma wp_recv_filter (P : loc -> Prop) buf (Q : Z * list byte * ptr -> sys Env -> Prop) fd s :
  length buf = Z.to_nat MAX_PACKET_SIZE ->
  (forall o ip tcp s', sys_conns s' = sys_conns s ->
     wp (find_conn (S (size (ConnInv.conns s))) o ip tcp (head_of s))
       (fun p s'' => s'' = s' /\ forall cl, p = Some cl -> P cl) anywhere s') ->
  (forall r buf' s', r = 0 \/ r = -1 -> length buf' = length buf -> quiet s s' ->
     Q (r, buf', None) s') ->
  (forall bs d p s', FULL_HDR_SIZE <= Z.of_nat (length bs) <= MAX_PACKET_SIZE -> quiet s s' ->
     sys_io s' = sys_io s -> fst (os_recv fd MAX_PACKET_SIZE (sys_env s)) = IoOk bs ->
     datagram_of_bytes (bs ++ drop (length bs) buf) = Some d -> (forall cl, p = Some cl -> P cl) ->
     Q (Z.of_nat (length bs), bs ++ drop (length bs) buf, p) s') ->
  wp (recv_filter fd buf MAX_PACKET_SIZE) Q anywhere s.
Proof.
  intros Hb Hfind Hnone HQ. unfold recv_filter. apply wp_bind. unfold wp at 1, syscall.
  destruct (os_recv fd MAX_PACKET_SIZE (sys_env s)) as [[bs|errno] e] eqn:Hr;
    [|apply wp_ret, Hnone; [by right|done|auto with ctcp]].
  assert (Hq : quiet s (set_sys_env e s)) by auto with ctcp.
  pose proof Hr as Hlen. apply os_recv_law in Hlen; [|by vm_compute].
  assert (Hlen' : (length bs <= length buf)%nat) by lia.
  assert (Hno : Q (0, bs ++ drop (length bs) buf, None) (set_sys_env e s)).
  { apply Hnone; [by left| |done]. rewrite length_app, length_drop. lia. }
  apply wp_bind, wp_access; [apply Z.leb_le; lia|]. cbv zeta.
  destruct (Z.ltb_spec (Z.of_nat (length bs)) FULL_HDR_SIZE) as [|Hge]; [by apply wp_ret|].
  destruct (datagram_of_bytes_Some (bs ++ drop (length bs) buf)) as (d & Hd & _).
  { rewrite length_app. lia. }
  apply wp_bind. eapply wp_deref; [exact Hd|]. apply wp_bind, wp_conf.
  destruct (negb _); [by apply wp_ret|].
  destruct (has_flag _ TH_RST); [by apply wp_exit|].
  assert (HQ' : forall p, (forall cl, p = Some cl -> P cl) ->
    Q (Z.of_nat (length bs), bs ++ drop (length bs) buf, p) (set_sys_env e s)).
  { intros p Hp. eapply HQ; done. }
  destruct (has_flag _ TH_SYN); [by apply wp_ret, HQ'|].
  apply wp_bind, wp_gets, wp_bind. eapply wp_Done; [apply get_connections_run|].
  apply wp_bind, wp_gets, wp_bind. eapply wp_mono; [by apply (Hfind _ _ _ (set_sys_env e s))|].
  intros [cl|] s' [-> Hp]; apply wp_ret; [by apply HQ'|done].
Qed.

Lemma wp_recv_client cl c buf (Q : Z * list byte * ptr -> sys Env -> Prop) fd s :
  SERVER (sys_options s) = false -> sconn (sys_config s) = Some cl ->
  ConnInv.conns s = {[cl := c]} -> cn_next c = None -> length buf = Z.to_nat MAX_PACKET_SIZE ->
  (forall r buf' s', r = 0 \/ r = -1 -> length buf' = length buf -> quiet s s' ->
     Q (r, buf', None) s') ->
  (forall bs d p s', FULL_HDR_SIZE <= Z.of_nat (length bs) <= MAX_PACKET_SIZE -> quiet s s' ->
     sys_io s' = sys_io s -> fst (os_recv fd MAX_PACKET_SIZE (sys_env s)) = IoOk bs ->
     datagram_of_bytes (bs ++ drop (length bs) buf) = Some d -> p = None \/ p = Some cl ->
     Q (Z.of_nat (length bs), bs ++ drop (length bs) buf, p) s') ->
  wp (recv_filter fd buf MAX_PACKET_SIZE) Q anywhere s.
Proof.
  intros Hsrv Hsc Hcs Hnext Hb Hnone HQ. apply (wp_recv_filter (eq cl)); [done| |done|].
  - intros o ip tcp s' Es. rewrite Hcs, map_size_singleton. unfold head_of. rewrite Hsrv, Hsc.
    cbn [find_conn]. apply wp_bind.
    assert (Hc : ConnInv.conns s' !! cl = Some c).
    { unfold ConnInv.conns in *. rewrite Es, Hcs. apply lookup_singleton_eq. }
    eapply wp_conn_load; [exact Hc|].
    destruct (_ && _); [apply wp_ret|rewrite Hnext; by apply wp_ret]. split; [done|]. by intros ? [= ->].
  - intros bs d p s' H1 H2 H3 H4 H5 Hp. eapply HQ; [done..|].
    destruct p as [k|]; [right; f_equal; symmetry; by apply Hp|by left].
Qed.

(** What the client's connection is once the packet [d] has answered its SYN. *)
Definition shaken (c c' : conn) (d : datagram) : Prop :=
  has_flag (th_flags (dg_tcp d)) TH_SYN = true ->
  cn_init_seqno c' = cn_init_seqno c /\ cn_next_seqno c' = u32 (cn_next_seqno c + 1) /\
  cn_their_init_seqno c' = ntohl (th_seq (dg_tcp d)) /\
  cn_ackno c' = u32 (ntohl (th_seq (dg_tcp d)) + 1).

(** The numbers that the client takes from the answer to its SYN. *)
Lemma wp_take_answer {A} cl c d (k : M (sys Env) A) (Q : A -> sys Env -> Prop) s :
  one_client cl c s ->
  (forall c' s' evs, one_client cl c' s' -> sys_options s' = sys_options s ->
     sys_io s' = sys_io s ++ evs -> shaken c c' d -> wp k Q anywhere s') ->
  wp ((if negb (has_flag (th_flags (dg_tcp d)) TH_SYN) then
         on_conns (update cl (set_cn_init_seqno (u32 (ntohl (th_ack (dg_tcp d)) - 1))));;
         on_conns (update cl (set_cn_their_init_seqno (u32 (ntohl (th_seq (dg_tcp d)) - 1))));;
         on_conns (update cl (fun c => set_cn_next_seqno (u32 (cn_init_seqno c + 1)) c));;
         on_conns (update cl (set_cn_ackno (ntohl (th_seq (dg_tcp d)))))
       else
         on_conns (update cl (fun c => set_cn_next_seqno (u32 (cn_next_seqno c + 1)) c));;
         on_conns (update cl (set_cn_their_init_seqno (ntohl (th_seq (dg_tcp d)))));;
         on_conns (update cl (set_cn_ackno (u32 (ntohl (th_seq (dg_tcp d)) + 1))));;
         send_ack cl;;
         mret tt);; k) Q anywhere s.
Proof.
  intros H HQ. destruct (has_flag (th_flags (dg_tcp d)) TH_SYN) eqn:Hsyn; cbn [negb].
  - apply wp_bind, wp_bind. eapply (wp_update_client cl c); [exact H|done..| |].
    { apply u32_range. }
    intros s4 H4 _ Eio4 _ Eo4.
    apply wp_bind. eapply wp_update_client; [exact H4|done..|apply H4|].
    intros s5 H5 _ Eio5 _ Eo5.
    apply wp_bind. eapply wp_update_client; [exact H5|done..|apply H5|].
    intros s6 H6 _ Eio6 _ Eo6.
    apply wp_bind. eapply wp_send_client; [exact H6|]. intros n s7 evs7 ack H7 _ Hio7 _ Eo7.
    apply wp_ret. eapply (HQ _ s7 evs7); [exact H7|congruence|congruence|]. intros _. done.
  - apply wp_bind, wp_bind. eapply (wp_update_client cl c); [exact H|done..|apply H|].
    intros s4 H4 _ Eio4 _ Eo4.
    apply wp_bind. eapply wp_update_client; [exact H4|done..|apply H4|].
    intros s5 H5 _ Eio5 _ Eo5.
    apply wp_bind. eapply wp_update_client; [exact H5|done..|apply u32_range|].
    intros s6 H6 _ Eio6 _ Eo6.
    eapply wp_update_client; [exact H6|done..|apply u32_range|].
    intros s7 H7 _ Eio7 _ Eo7.
    eapply (HQ _ s7 []); [exact H7|congruence|rewrite app_nil_r; congruence|].
    intros Hf. congruence.
Qed.

Lemma wp_tcp_handshake cl c buf (Q : ptr -> sys Env -> Prop) s :
  one_client cl c s -> length buf = Z.to_nat MAX_PACKET_SIZE ->
  (forall s', Q None s') ->
  (forall c' s' syn evs bs d, one_client cl c' s' -> sys_options s' = sys_options s ->
     control_packet (sys_config s) (sys_ctcp_cfg s) c TH_SYN syn ->
     sys_io s' = sys_io s ++ evs -> head (packets evs) = Some (datagram_bytes syn) ->
     (exists fd env, fst (os_recv fd MAX_PACKET_SIZE env) = IoOk bs) ->
     FULL_HDR_SIZE <= Z.of_nat (length bs) ->
     datagram_of_bytes (bs ++ drop (length bs) buf) = Some d -> shaken c c' d -> Q (Some cl) s') ->
  wp (tcp_handshake buf) Q anywhere s.
Proof.
  intros H Hb Hnone HQ. unfold tcp_handshake.
  apply wp_bind, wp_opt. rewrite (oc_client _ _ _ H). apply wp_bind, wp_ret.
  apply wp_bind, wp_conf. rewrite (oc_sconn _ _ _ H). apply wp_bind, wp_ret.
  apply wp_bind. eapply wp_send_client; [exact H|]. intros n s1 evs1 syn H1 Hsyn Hio1 Hn E1.
  destruct Hn as [[_ ->]|[Hp1 ->]]; [by apply wp_exit|]. rewrite bool_decide_true by done. cbn [negb].
  set (c1 := set_cn_seqno _ c) in *.
  apply wp_bind, wp_conf, wp_bind.
  eapply (wp_recv_client cl); [apply H1|apply H1|apply H1|apply (oc_alone _ _ _ H1)|exact Hb| |].
  { intros r buf' s2 Hr _ _. destruct (Z.leb_spec r 0); [|lia]. by apply wp_ret. }
  intros bs d p s2 [Hlen _] Hq2 Hio2 Hbs Hd _. destruct (Z.leb_spec (Z.of_nat (length bs)) 0) as [|_].
  { unfold FULL_HDR_SIZE, IP_HDR_SIZE, TCP_HDR_SIZE in Hlen. lia. }
  pose proof (one_client_quiet _ _ _ _ Hq2 H1) as H2.
  assert (E2 : sys_options s2 = sys_options s).
  { destruct (quiet_keeps _ _ Hq2) as (_ & _ & E & _). exact (eq_trans E E1). }
  apply wp_bind. eapply wp_deref; [exact Hd|]. apply wp_bind, wp_modify.
  set (s3 := set_sys_ctcp_cfg _ s2). assert (H3 : one_client cl c1 s3) by (eapply one_client_same; [exact H2|by split]).
  assert (Hio3 : sys_io s3 = sys_io s ++ evs1) by exact (eq_trans Hio2 Hio1).
  assert (E3 : sys_options s3 = sys_options s) by exact E2. clearbody s3.
  apply (wp_take_answer cl c1 d); [exact H3|]. intros c' s' evs2 H' E' Hio' Hsh.
  apply wp_conf. rewrite (oc_sconn _ _ _ H').
  eapply (HQ c' s' syn (evs1 ++ evs2) bs d); try done.
  - exact (eq_trans E' E3).
  - rewrite Hio', Hio3. symmetry. apply app_assoc.
  - unfold packets in *. rewrite omap_app, Hp1. done.
  - eauto.
Qed.

(** C25: the handshake agrees on the numbers. A client sends a SYN, and if it goes
    on to a connection it has received a packet; when a server has made a
    connection for that SYN, and the packet is the answer of that connection,
    each end has the other's initial number; the next number of the client is the
    one that the server acknowledges next, and the client acknowledges the number
    after the [next_seqno] of the server, which does not count its own SYN. *)
Theorem handshake_agrees cl c buf s :
  one_client cl c s -> cn_next_seqno c = cn_init_seqno c ->
  length buf = Z.to_nat MAX_PACKET_SIZE ->
  wp (tcp_handshake buf)
    (fun p s' => p = None \/
       exists c' syn evs bs, p = Some cl /\ ConnInv.conns s' !! cl = Some c' /\
         sys_io s' = sys_io s ++ evs /\ head (packets evs) = Some (datagram_bytes syn) /\
         th_flags (dg_tcp syn) = TH_SYN /\
         (exists fd env, fst (os_recv fd MAX_PACKET_SIZE env) = IoOk bs) /\
         forall d cls (ss ss' : sys Env) cb k,
           made d cls ss ss' cb -> dg_tcp d = dg_tcp syn -> answers cb k ->
           iphdr_wf (dg_ip k) -> tcphdr_wf (dg_tcp k) -> 0 <= cn_init_seqno cb < 2 ^ 32 ->
           bs = datagram_bytes k ->
           numbers_agree c' cb /\ cn_next_seqno c' = cn_ackno cb /\
           cn_ackno c' = u32 (cn_next_seqno cb + 1))
    anywhere s.
Proof.
  intros H Hnext Hb. pose proof (oc_numbers _ _ _ H) as Hnum.
  eapply wp_tcp_handshake; [exact H|exact Hb|by left|].
  intros c' s' syn evs bs d H' _ (_ & Hf & Hseq & _) Hio Hhead Hbs _ Hd Hsh. right.
  exists c', syn, evs, bs. split_and!; try done; [by apply one_client_lookup|].
  intros d0 cls ss ss' cb k Hmd Ed (Hk1 & Hk2 & Hk3 & _) Hw1 Hw2 Hcb ->.
  assert (Ek : dg_tcp d = dg_tcp k).
  { destruct k as [ip tcp payload]. cbn [dg_ip dg_tcp] in *.
    rewrite datagram_of_bytes_bytes in Hd by done. by injection Hd as <-. }
  destruct Hsh as (S1 & S2 & S3 & S4); [rewrite Ek, Hk2; by vm_compute|].
  rewrite Ek, Hk3, ntohl_htonl in S3, S4 by done.
  pose proof (md_their_init_seqno _ _ _ _ _ Hmd) as M1. pose proof (md_ackno _ _ _ _ _ Hmd) as M2.
  rewrite Ed, Hseq, ntohl_htonl, Hnext in M1, M2 by done.
  rewrite (md_next_seqno _ _ _ _ _ Hmd). unfold numbers_agree. rewrite S1, S2, S3, S4, M1, M2, Hnext.
  done.
Qed.

(** *** The polling table *)

Lemma wp_set_event i f p (Q : unit -> sys Env -> Prop) X s :
  sys_events s !! Z.to_nat i = Some p -> 0 <= i ->
  Q tt (set_sys_events (<[Z.to_nat i := f p]> (sys_events s)) s) -> wp (update_event i f) Q X s.
Proof.
  intros Hp Hi HQ. unfold update_event. apply wp_bind, wp_gets, wp_bind.
  rewrite bool_decide_true by done. eapply wp_deref; [exact Hp|]. by apply wp_modify.
Qed.

Lemma wp_async fd (Q : unit -> sys Env -> Prop) X s :
  (forall s', quiet s s' -> Q tt s') -> wp (async fd;; mret tt) Q X s.
Proof.
  intros HQ. unfold async. apply wp_bind, wp_bind, wp_syscall. destruct (_ <? 0).
  - apply wp_ret, wp_ret, HQ. apply quiet_env.
  - apply wp_bind, wp_syscall, wp_ret, wp_ret, HQ. etransitivity; apply quiet_env.
Qed.

(** What [poll_for] leaves: the entry is set, and the others are as they were. *)
Lemma wp_poll_for i fd evs (Q : unit -> sys Env -> Prop) X s :
  0 <= i < Z.of_nat (length (sys_events s)) ->
  (forall s' rev, quiet (set_sys_events (<[Z.to_nat i := PollFd fd evs rev]> (sys_events s)) s) s' ->
     Q tt s') ->
  wp (poll_for i fd evs) Q X s.
Proof.
  intros Hi HQ. destruct (lookup_lt_is_Some_2 (sys_events s) (Z.to_nat i)) as [p Hp]; [lia|].
  unfold poll_for. apply wp_bind. eapply wp_set_event; [exact Hp|lia|].
  apply wp_async. intros s' Hq. by eapply HQ.
Qed.

(** The table as the main loop expects it. *)
Definition polling s : Prop :=
  exists r0 r1 r2 rest, sys_events s =
    PollFd STDIN_FILENO (Z.lor POLLIN (Z.lor POLLHUP POLLERR)) r0 ::
    PollFd STDOUT_FILENO (Z.lor POLLOUT POLLERR) r1 ::
    PollFd (socket (sys_config s)) (Z.lor POLLIN (Z.lor POLLHUP POLLERR)) r2 :: rest.

Lemma wp_setup_poll (Q : unit -> sys Env -> Prop) X s :
  Z.of_nat (length (sys_events s)) = NUM_EVENTS ->
  (forall s', same s s' -> sys_config s' = sys_config s -> polling s' -> Q tt s') ->
  wp setup_poll Q X s.
Proof.
  intros Hev HQ. change NUM_EVENTS with 13 in Hev.
  destruct (sys_events s) as [|p0 [|p1 [|p2 rest]]] eqn:Es; [simpl in Hev; lia..|].
  assert (Hlen : 0 <= STDIN_FILENO < 13 /\ 0 <= STDOUT_FILENO < 13) by by vm_compute.
  unfold setup_poll. apply wp_bind, wp_poll_for; [rewrite Es, Hev; apply Hlen|].
  intros s1 r0 (env1 & io1 & did1 & ->). rewrite Es. cbn [length] in Hev.
  apply wp_bind, wp_poll_for; [simpl; unfold STDOUT_FILENO; lia|].
  intros s2 r1 (env2 & io2 & did2 & ->).
  apply wp_bind, wp_conf, wp_poll_for; [simpl; lia|].
  intros s3 r2 (env3 & io3 & did3 & ->). apply HQ; [|done|].
  - split; try done. by rewrite Es.
  - by exists r0, r1, r2, rest.
Qed.

(** *** A client that is ready for the main loop *)

Definition no_owners : owners := Owners ∅ ∅ ∅ ∅.

Lemma boot_represents cc (env : Env) : represents (boot_world cc env) [] ∅.
Proof.
  exists no_owners. split.
  - split; try apply heap_wf_empty; intros k [x Hx];
      cbn [no_owners o_seg o_attr o_nums o_list] in Hx; by rewrite lookup_empty in Hx.
  - apply NoDup_nil_2.
  - intros l. split; [intros [e He]; by rewrite lookup_empty in He|by intros ?%not_elem_of_nil].
  - done.
  - intros l e He. by rewrite lookup_empty in He.
Qed.

Definition client_started w : Prop :=
  exists l cl c cfg, cn_state c = Some l /\ one_client cl c (w_sys w) /\ polling (w_sys w) /\
    represents w [l] {[l := ep_init (Some cl) cfg]} /\
    (unix_socket (sys_options (w_sys w)) = true ->
     safe_state w [l] {[l := ep_init (Some cl) cfg]}).

Lemma wp_client_ready w n buf server port :
  represents w [] ∅ -> no_client (w_sys w) -> good_server server ->
  is_Some (atoi port) -> (String.length port <= 106)%nat -> length buf = Z.to_nat MAX_PACKET_SIZE ->
  wp (client_ready n buf server port)
    (fun r w' => r < 0 \/ r = 0 /\ client_started w' /\
       (on_this_host (fst (strsep ":" server)) -> unix_socket (sys_options (w_sys w)) = true ->
        unix_socket (sys_options (w_sys w')) = true)) anywhere w.
Proof.
  intros Hr Hnc Hg Hp Hl Hb. unfold client_ready, client_connects.
  assert (Hw : w_set_sys (w_sys w) w = w) by by destruct w.
  apply wp_bind, wp_on_sys. apply wp_do_config_server; [exact Hnc|exact Hg| |].
  { intros r s' Hneg. destruct (Z.ltb_spec r 0); [|lia]. apply wp_ret. left. lia. }
  intros cl c s1 H1 Hnext Hun. cbn [Z.ltb Z.compare].
  apply wp_bind, wp_on_sys'. apply wp_do_config; [exact Hp|exact Hl|].
  intros r s2 Hs2 _. pose proof (one_client_same _ _ _ _ H1 Hs2) as H2. destruct (r <? 0); [apply wp_ret; by left|].
  apply wp_bind, wp_on_sys'. apply (wp_tcp_handshake cl c); [exact H2|exact Hb| |].
  { intros s3. apply wp_bind, wp_on_sys', wp_gets, wp_bind.
    eapply wp_Done; [apply init_null|]. apply wp_ret. by left. }
  intros c3 s3 syn evs bs d H3 E3 _ _ _ _ _ _ _.
  apply wp_bind, wp_on_sys', wp_gets, wp_bind.
  eapply wp_mono_exit; [by apply refine_init, represents_sys|done|].
  intros p w4 (l & -> & _ & Hlib & Hr4).
  assert (Hs4 : w_sys w4 = s3) by (injection Hlib as _ ->; by destruct w).
  assert (Ew : w4 = w_set_sys s3 w4) by (rewrite <- Hs4; by destruct w4). rewrite Ew.
  apply wp_bind, wp_on_sys', wp_conf. rewrite (oc_sconn _ _ _ H3). apply wp_bind, wp_ret.
  apply wp_bind, wp_on_sys'. eapply (wp_update_client cl c3); [exact H3|done..|apply H3|].
  intros s5 H5 _ _ _ E5. apply wp_bind, wp_on_sys'. apply wp_setup_poll; [apply H5|].
  intros s6 Hs6 _ Hpoll. pose proof (one_client_same _ _ _ _ H5 Hs6) as H6. apply wp_ret. right. split; [done|].
  assert (Es : w_sys (w_set_sys s6 w4) = s6) by by destruct w4.
  split; [|rewrite Es, (sm_options _ _ Hs6), E5, E3, (sm_options _ _ Hs2); exact Hun].
  set (cfg := sys_ctcp_cfg s3) in *.
  exists l, cl, (set_cn_state (Some l) c3), cfg.
  assert (Hr6 : represents (w_set_sys s6 w4) [l] {[l := ep_init (Some cl) cfg]}).
  { apply represents_sys. by rewrite insert_empty in Hr4. }
  rewrite Es. split_and!; [done|exact H6|exact Hpoll|exact Hr6|].
  intros Hu. destruct (one_client_ok _ _ _ H6 Hu) as [Hok Hop]. split.
  - exact Hr6.
  - rewrite Es. exact Hok.
  - intros k e [<- <-]%lookup_singleton_Some. rewrite Es. exact Hop.
  - intros k e [<- <-]%lookup_singleton_Some. apply ep_wf_init.
  - by intros l1 l2 e1 e2 [<- <-]%lookup_singleton_Some [<- <-]%lookup_singleton_Some.
Qed.

(** ** From the command line *)

(** Numbers that fit an [int], and a port that fits the path of a socket. *)
Definition good_option (opt : ascii * string) : Prop :=
  let '(c, arg) := opt in
  (c ∈ ["p"; "w"; "e"; "r"; "t"; "y"; "q"]%char -> is_Some (atoi arg)) /\
  (c = "p"%char -> (String.length arg <= 106)%nat) /\ (c = "c"%char -> good_server arg).

(** What the options read so far have left. *)
Record read_options (a : arguments) : Prop := {
  ro_port : arg_port a = -1 \/ exists p, port_str a = Some p /\ atoi p = Some (arg_port a) /\
              (String.length p <= 106)%nat;
  ro_server : is_client a = true -> exists sv, arg_server a = Some sv /\ good_server sv;
}.

(** The options that the command line does not set. *)
Definition kept_options (o o' : options) : Prop :=
  SERVER o' = SERVER o /\ unix_socket o' = unix_socket o /\ run_program o' = run_program o.

Lemma wp_parse_option c arg a o (Q : option (arguments * options) -> sys Env -> Prop) X s :
  good_option (c, arg) -> read_options a ->
  Q None s -> (forall a' o', read_options a' -> kept_options o o' -> Q (Some (a', o')) s) ->
  wp (parse_option c arg a o) Q X s.
Proof.
  intros (Hn & Hp & Hc) [Rp Rs] HQ0 HQ.
  destruct a as [srv cli sv ps p w sd], o as [o1 o2 o3 o4 o5 o6 o7 o8 o9 o10].
  unfold parse_option. cbn [arg_port port_str is_client arg_server] in *.
  assert (Hnum : c ∈ ["p"; "w"; "e"; "r"; "t"; "y"; "q"]%char -> forall (k : Z -> M (sys Env) _),
    (forall v, atoi arg = Some v -> wp (k v) Q X s) -> wp (v ← deref (atoi arg); k v) Q X s).
  { intros Hin k Hk. destruct (Hn Hin) as [v Hv]. apply wp_bind. eapply wp_deref; [exact Hv|].
    by apply Hk. }
  destruct c as [[] [] [] [] [] [] [] []]; try exact HQ0;
    try (apply Hnum; [apply (bool_decide_unpack _); vm_compute; exact I|intros v Hv]); apply wp_ret, HQ; try done; split;
    cbn [arg_port port_str is_client arg_server]; try done.
  - intros _. exists arg. split; [done|by apply Hc].
  - right. exists arg. split_and!; [done|done|by apply Hp].
Qed.

Lemma wp_parse_options opts : forall a (Q : arguments -> sys Env -> Prop) s,
  Forall good_option opts -> read_options a ->
  (forall a' o', read_options a' -> kept_options (sys_options s) o' ->
     Q a' (set_sys_options o' s)) ->
  wp (parse_options opts a) Q anywhere s.
Proof.
  induction opts as [|[c arg] opts IH]; intros a Q s Hg Ha HQ.
  - apply wp_ret. replace s with (set_sys_options (sys_options s) s) by by destruct s. by apply HQ.
  - apply Forall_cons in Hg as [Hc Hg]. cbn [parse_options]. apply wp_bind, wp_gets, wp_bind.
    apply wp_parse_option; [exact Hc|exact Ha|by apply wp_exit|].
    intros a' o' Ha' Ho. apply wp_bind, wp_modify. apply IH; [exact Hg|exact Ha'|].
    intros a2 o2 Ha2 Ho2. cbn [sys_options set_sys_options] in Ho2.
    change (Q a2 (set_sys_options o2 s)). apply HQ; [done|].
    destruct Ho as (E1 & E2 & E3), Ho2 as (F1 & F2 & F3). split_and!; congruence.
Qed.

Lemma wp_open_log p (Q : unit -> sys Env -> Prop) X s :
  (forall s', kept_options (sys_options s) (sys_options s') -> sys_conns s' = sys_conns s ->
     sys_chunks s' = sys_chunks s -> Q tt s') ->
  wp (open_log p) Q X s.
Proof.
  intros HQ. unfold open_log. apply wp_bind, wp_opt, wp_when; intros _; [|by apply HQ].
  apply wp_bind. unfold wp at 1, syscall. destruct (os_gettimeofday (sys_env s)) as [[sec usec] e].
  apply wp_bind, wp_syscall, wp_bind, wp_modify. unfold call_write.
  apply wp_bind, wp_bind, wp_syscall. destruct (fst _) as [w|errno].
  - apply wp_bind, wp_modify, wp_ret, wp_ret. by apply HQ.
  - apply wp_bind, wp_ret, wp_ret, wp_ret. by apply HQ.
Qed.

(** The memory at the start of a client or server. *)
Definition no_connection s : Prop :=
  SERVER (sys_options s) = false /\ run_program (sys_options s) = false /\
  unix_socket (sys_options s) = true /\ sys_conns s = heap_empty /\ sys_chunks s = heap_empty /\
  Z.of_nat (length (sys_events s)) = NUM_EVENTS.

Lemma wp_configure now opts cc env (Q : arguments -> sys Env -> Prop) :
  Forall good_option opts ->
  (forall a p s', port_str a = Some p -> atoi p = Some (arg_port a) ->
     (String.length p <= 106)%nat -> is_client a = negb (is_server a) ->
     (is_client a = true -> exists sv, arg_server a = Some sv /\ good_server sv) ->
     no_connection s' -> Q a s') ->
  wp (configure now opts) Q anywhere (boot cc env).
Proof.
  intros Hg HQ. unfold configure. apply wp_bind, wp_parse_options; [exact Hg| |].
  { split; [by left|done]. }
  intros a o Ha Ho. apply wp_bind, wp_syscall. set (s1 := set_sys_env _ _).
  destruct ((is_client a && is_server a) || _ || _) eqn:Hv; [by apply wp_exit|].
  rewrite !orb_false_iff, Z.leb_gt in Hv. destruct Hv as [[Hv1 Hv2] Hv3].
  apply wp_bind, wp_open_log. intros s2 Ho2 E1 E2. apply wp_bind, wp_modify, wp_bind, wp_modify, wp_ret.
  destruct (ro_port _ Ha) as [Hp|(p & Hp & Hp' & Hlen)]; [lia|].
  apply (HQ _ p); try done; [by destruct (is_client a), (is_server a)|apply Ha|].
  destruct Ho as (F1 & F2 & F3), Ho2 as (G1 & G2 & G3).
  split_and!; cbn [set_sys_events set_sys_ctcp_cfg sys_options sys_conns sys_chunks sys_events].
  - rewrite G1. exact F1.
  - rewrite G3. exact F3.
  - rewrite G2. exact F2.
  - exact E1.
  - exact E2.
  - by vm_compute.
Qed.

(** A server that waits for its first client. *)
Definition server_started w : Prop :=
  SERVER (sys_options (w_sys w)) = true /\ head_of (w_sys w) = None /\ polling (w_sys w) /\
  safe_state w [] ∅.

(** The memory of a server before it is configured. *)
Record server_booted s : Prop := {
  sb_server : SERVER (sys_options s) = true;
  sb_plain : run_program (sys_options s) = false;
  sb_unix : unix_socket (sys_options s) = true;
  sb_conns : sys_conns s = heap_empty;
  sb_chunks : sys_chunks s = heap_empty;
  sb_events : Z.of_nat (length (sys_events s)) = NUM_EVENTS;
}.

Lemma empty_safe w :
  represents w [] ∅ -> sys_conns (w_sys w) = heap_empty -> sys_chunks (w_sys w) = heap_empty ->
  Z.of_nat (length (sys_events (w_sys w))) = NUM_EVENTS -> SERVER (sys_options (w_sys w)) = true ->
  unix_socket (sys_options (w_sys w)) = true -> safe_state w [] ∅.
Proof.
  intros Hr Ec Ech Ee Es Eu. split; [done| |by intros ??; rewrite lookup_empty..].
  split; [|by rewrite Eu, orb_true_r]. exists ∅.
  split; unfold ConnInv.conns; rewrite ?Ec, ?Ech, ?Es; try done; try apply heap_wf_empty;
    try (intros ??; cbn [heap_empty mem]; by rewrite lookup_empty).
  intros l [q Hq]. by rewrite lookup_empty in Hq.
Qed.

Lemma wp_server_started w n port rest :
  represents w [] ∅ -> server_booted (w_sys w) -> is_Some (atoi port) ->
  (String.length port <= 106)%nat ->
  wp (on_sys (server_ready n port rest))
    (fun r w' => r < 0 \/ r = 0 /\ server_started w' /\ sys_conns (w_sys w') = heap_empty /\
       sys_chunks (w_sys w') = heap_empty /\
       (rest = [] -> sys_options (w_sys w') = sys_options (w_sys w))) anywhere w.
Proof.
  intros Hr [N1 N2 N3 N4 N5 N6] Hp Hl.
  apply wp_on_sys. set (s1 := w_sys w) in *. unfold server_ready.
  apply wp_bind, wp_do_config; [exact Hp|exact Hl|]. intros r s2 H2 Hcon.
  destruct (Z.ltb_spec r 0) as [|Hr0]; [apply wp_ret; left; lia|]. specialize (Hcon Hr0).
  assert (Hrun : wp (when (0 <? length rest)%nat (on_options (set_run_program true)))
    (fun _ s' => SERVER (sys_options s') = true /\ unix_socket (sys_options s') = true /\
       sys_conns s' = heap_empty /\ sys_chunks s' = heap_empty /\
       connections (sys_config s') = None /\ Z.of_nat (length (sys_events s')) = NUM_EVENTS /\
       (rest = [] -> sys_options s' = sys_options s1))
    (fun _ => True) s2).
  { destruct H2 as [E1 E2 E3 E4 E5].
    apply wp_when; intros Hrest; [apply wp_modify|];
      cbn [set_sys_options set_run_program sys_options sys_conns sys_chunks sys_config sys_events
           SERVER unix_socket];
      rewrite ?E1, E2, E4, E5; (split_and!; try done); by intros ->. }
  apply wp_bind. eapply wp_mono_exit; [exact Hrun|done|].
  intros [] s3 (M1 & M2 & M3 & M4 & M5 & M6 & M7).
  apply wp_bind, wp_setup_poll; [exact M6|]. intros s4 [E1 E2 E3 E4 E5] Ec Hpoll. apply wp_ret.
  right. split; [done|]. assert (Es : w_sys (w_set_sys s4 w) = s4) by by destruct w.
  unfold server_started. rewrite Es.
  split_and!; [by rewrite E1| |done| |by rewrite E2|by rewrite E4|intros Hrest; by rewrite E1, M7].
  - unfold head_of. by rewrite E1, M1, Ec.
  - apply empty_safe; rewrite ?Es, ?E1, ?E5; [by apply represents_sys|congruence..].
Qed.

Lemma wp_server_ready w n port rest :
  represents w [] ∅ -> no_connection (w_sys w) -> is_Some (atoi port) ->
  (String.length port <= 106)%nat ->
  wp (on_sys (on_options (set_SERVER true));; on_sys (server_ready n port rest))
    (fun r w' => r < 0 \/ r = 0 /\ server_started w') anywhere w.
Proof.
  intros Hr (N1 & N2 & N3 & N4 & N5 & N6) Hp Hl. apply wp_bind, wp_on_sys, wp_modify.
  eapply wp_mono; [apply wp_server_started; [by apply represents_sys| |exact Hp|exact Hl]|].
  - by destruct w.
  - intros r w' [H|(H1 & H2 & _)]; [by left|by right].
Qed.

(** [main] up to [do_loop]. *)
Definition main_ready (n : nat) (buf : list byte) (now : Z) (opts : list (ascii * string))
    (rest : list string) : M (W (E := Env)) Z :=
  a ← on_sys (configure now opts);
  port ← deref (port_str a);
  if is_client a then server ← deref (arg_server a); client_ready n buf server port
  else on_sys (on_options (set_SERVER true));; on_sys (server_ready n port rest).

Lemma bind_assoc {T A B C} (m : M T A) (f : A -> M T B) (g : B -> M T C) t :
  ((m ≫= f) ≫= g) t = (m ≫= fun a => f a ≫= g) t.
Proof. unfold mbind, M_bind. by destruct (m t). Qed.

Lemma bind_ext {T A B} (m : M T A) (f g : A -> M T B) t :
  (forall a t', f a t' = g a t') -> (m ≫= f) t = (m ≫= g) t.
Proof. intros H. unfold mbind, M_bind. destruct (m t); auto. Qed.

Lemma main_splits fuel k n buf now opts rest w :
  main fuel k n buf now opts rest w =
  (r ← main_ready n buf now opts rest;
   if r <? 0 then mret 1 else do_loop fuel k;; mret 0) w.
Proof.
  unfold main, main_ready. rewrite bind_assoc. apply bind_ext. intros a w1.
  rewrite bind_assoc. apply bind_ext. intros port w2. destruct (is_client a).
  - rewrite bind_assoc. apply bind_ext. intros server w3. unfold start_client.
    rewrite bind_assoc. apply bind_ext. intros r w4. destruct (r <? 0) eqn:Hr; [done|].
    rewrite bind_assoc. apply bind_ext. done.
  - rewrite bind_assoc. apply bind_ext. intros [] w3. unfold start_server.
    rewrite bind_assoc. apply bind_ext. intros r w4. destruct (r <? 0) eqn:Hr; [done|].
    rewrite bind_assoc. apply bind_ext. done.
Qed.

(** C24: from the start of the program, with numbers on the command line that are
    [int]s and a port of at most 106 characters, which fits the path of a socket,
    and whatever the system and the network answer: [main] has no undefined
    behaviour before the main loop, and enters it as a client with one connection
    and its endpoint, in a safe state when it is off the web, or as a server with
    none, in a safe state, and the polling table set; or it returns 1, or the
    process exits. *)
Theorem main_enters_loop fuel k n buf now opts rest cc env :
  Forall good_option opts -> length buf = Z.to_nat MAX_PACKET_SIZE ->
  main fuel k n buf now opts rest (boot_world cc env) =
    (r ← main_ready n buf now opts rest;
     if r <? 0 then mret 1 else do_loop fuel k;; mret 0) (boot_world cc env) /\
  wp (main_ready n buf now opts rest)
    (fun r w' => r < 0 \/ r = 0 /\ (client_started w' \/ server_started w'))
    anywhere (boot_world cc env).
Proof.
  intros Hg Hb. split; [apply main_splits|]. unfold main_ready.
  apply wp_bind, wp_on_sys. apply wp_configure; [exact Hg|].
  intros a p s Hp Hp' Hlen Hcs Hsv Hn. set (w := w_set_sys s (boot_world cc env)).
  assert (Hr : represents w [] ∅) by apply represents_sys, boot_represents.
  apply wp_bind. eapply wp_deref; [exact Hp|]. destruct (is_client a).
  - destruct (Hsv eq_refl) as (sv & Esv & Hsv'). apply wp_bind. eapply wp_deref; [exact Esv|].
    eapply wp_mono.
    + apply wp_client_ready; [exact Hr| |exact Hsv'|by eexists|exact Hlen|exact Hb].
      destruct Hn as (N1 & N2 & N3 & N4 & N5 & N6). split; try done.
      change (w_sys w) with s. unfold ConnInv.conns. by rewrite N4.
    + intros r w' [H|(H1 & H2 & _)]; [by left|right]. split; [done|by left].
  - eapply wp_mono.
    + apply wp_server_ready; [exact Hr|exact Hn|by eexists|exact Hlen].
    + intros r w' [H|[H1 H2]]; [by left|right]. split; [done|by right].
Qed.
End Client.

(** ** Witnesses: the host of [ConnScript.v], with some interfaces *)

Definition script_setup {E : Type} (ifaces : list ifaddr) : Setup E := {|
  os_socket dom ty proto e := (3, e);
  os_setsockopt fd level name v e := (0, e);
  os_bind fd addr e := (0, e);
  os_unlink path e := (0, e);
  os_open path e := (4, e);
  os_getifaddrs e := (ifaces, e);
  os_gethostbyname name e := (Some [LOCALHOST], e);
  os_srand x e := (tt, e);
|}.

Definition lo : ifaddr := IfAddr "lo" (Some (AF_INET, LOCALHOST)).
Definition eth0 : ifaddr := IfAddr "eth0" (Some (AF_INET, 33597632)).
Definition docker0 : ifaddr := IfAddr "docker0" (Some (AF_INET, 17829376)).

Lemma good_lo : good_name lo.
Proof. split; [simpl; lia|]. apply (bool_decide_unpack _). by vm_compute. Qed.
Lemma good_eth0 : good_name eth0.
Proof. split; [simpl; lia|]. apply (bool_decide_unpack _). by vm_compute. Qed.
Lemma good_docker0 : good_name docker0.
Proof. split; [simpl; lia|]. apply (bool_decide_unpack _). by vm_compute. Qed.

#[local] Hint Resolve good_lo good_eth0 good_docker0 : ctcp.

#[export] Instance ex_setup : Setup os_script := script_setup [lo; eth0].
#[export] Instance ex_setup_laws : SetupLaws os_script.
Proof.
  split.
  - intros e. change (Forall good_name [lo; eth0]). auto with ctcp.
  - by intros name e l e' [= <- _].
Qed.

Lemma ip_from_self_long_name_witness :
  ip_from_self (Setup0 := script_setup [docker0; eth0]) ex_client = Done 0 ex_client.
Proof.
  apply (ip_from_self_long_name (Setup0 := script_setup [docker0; eth0]) ex_client docker0 17829376 [eth0] quiet_script).
  - reflexivity.
  - auto with ctcp.
  - reflexivity.
  - simpl. lia.
Defined.

Lemma ip_from_self_finds_witness :
  ip_from_self ex_client = Done 33597632 ex_client.
Proof.
  apply (ip_from_self_finds ex_client [lo; eth0] quiet_script).
  - reflexivity.
  - auto with ctcp.
  - constructor; [|constructor; [|constructor]].
    + right. split; [simpl; lia|]. by exists "l"%char, [].
    + by left.
Defined.

Lemma initial_window_bound_witness :
  cfg_recv_window (initial_cfg 45) = 64800 /\ cfg_recv_window (initial_cfg 46) <> 66240.
Proof.
  split.
  - apply (initial_window_bound 45); lia.
  - intros H. assert (Hc : 46 <= 45); [|lia]. apply (initial_window_bound 46); [lia|].
    by split.
Defined.

(** A client that is about to connect, to a server that answers with number 9. *)
Definition hs_conn : conn := set_cn_out_queue_tail TailQueue (conn_setup 5 LOCALHOST 8888 true zero_conn).
Definition hs_answer : datagram :=
  Datagram (dg_ip hello_packet)
    (TcpHdr (htons 8888) (htons 9999) (htonl 9) (htonl 6) 0 5 (Z.lor TH_SYN TH_ACK) (htons 1440) 0 0) [].
Definition hs_sys : sys os_script :=
  Sys (ex_options false true 0) (Config 3 LOCALHOST 9999 (Some 1%positive) None)
    (CtcpConfig 1440 1440 40 200) false 0 0 ex_events (Timespec 0 0)
    (Heap {[1%positive := hs_conn]} 2%positive) heap_empty []
    (OsScript [] [] [IoOk (datagram_bytes hs_answer)] false [] [] (0, 0)).

Lemma handshake_agrees_witness :
  wp (tcp_handshake (replicate 1480 Byte.x00))
    (fun p s' => p = None \/
       exists c' syn evs bs, p = Some 1%positive /\ ConnInv.conns s' !! 1%positive = Some c' /\
         sys_io s' = sys_io hs_sys ++ evs /\ head (packets evs) = Some (datagram_bytes syn) /\
         th_flags (dg_tcp syn) = TH_SYN /\
         (exists fd env, fst (os_recv fd MAX_PACKET_SIZE env) = IoOk bs) /\
         forall d cls (ss ss' : sys os_script) cb k,
           made d cls ss ss' cb -> dg_tcp d = dg_tcp syn -> answers cb k ->
           iphdr_wf (dg_ip k) -> tcphdr_wf (dg_tcp k) -> 0 <= cn_init_seqno cb < 2 ^ 32 ->
           bs = datagram_bytes k ->
           numbers_agree c' cb /\ cn_next_seqno c' = cn_ackno cb /\
           cn_ackno c' = u32 (cn_next_seqno cb + 1))
    (fun _ => True) hs_sys.
Proof.
  apply (handshake_agrees 1%positive hs_conn).
  - by split.
  - reflexivity.
  - by vm_compute.
Defined.

Lemma main_enters_loop_witness :
  main 5 1 3 (replicate 1480 Byte.x00) 7 [("c"%char, "localhost:8888"%string); ("p"%char, "9999"%string)] []
      (boot_world (Config 0 0 0 None None) quiet_script) =
    (r ← main_ready 3 (replicate 1480 Byte.x00) 7
           [("c"%char, "localhost:8888"%string); ("p"%char, "9999"%string)] [];
     if r <? 0 then mret 1 else do_loop 5 1;; mret 0) (boot_world (Config 0 0 0 None None) quiet_script) /\
  wp (main_ready 3 (replicate 1480 Byte.x00) 7
        [("c"%char, "localhost:8888"%string); ("p"%char, "9999"%string)] [])
    (fun r w' => r < 0 \/ r = 0 /\ (client_started w' \/ server_started w'))
    (fun _ => True) (boot_world (Config 0 0 0 None None) quiet_script).
Proof.
  apply main_enters_loop; [|by vm_compute].
  constructor; [|constructor; [|constructor]]; (split; [|split]).
  - intros H. exfalso. revert H. apply (bool_decide_unpack _). by vm_compute.
  - done.
  - intros _ rest [= <-]. by eexists.
  - intros _. by eexists.
  - intros _. simpl. lia.
  - done.
Defined.
