(* ===== verification/Connect.v ===== *)
(** * From the handshake to the conversation

    On a system that sends what it is given and a network that brings the
    answer, a client and a server that waits connect: the SYN, its answer and
    the last packet of the handshake, handled by the two loops, leave the two
    ends of [Wire.v], which then talk. *)

From S2P Require Import Prelude Heap Words Cksum Segment ConnLib Ctcp CtcpSpec CtcpSteps CtcpInv Script.
From S2P Require Import CtcpRefine CtcpSafety CtcpProps Streams Network Transfer.
From S2P Require Import Host Packet PacketProps Conn Queue ConnInv ConnOut ConnSend ConnInput ConnLaws.
From S2P Require Import ConnScript LibTransfer Loop LoopProps Wire Accept Start StartProps.

(** A system whose [fcntl] disturbs nothing. *)
Class CalmSetup (E : Type) `{!Os E, !CalmOs E, !Setup E} := {
  fcntl_calm fd cmd arg e r e' :
    os_fcntl fd cmd arg e = (r, e') -> calm e -> calm e' /\
      forall ins, provides e ins -> provides e' ins;
}.

(** ** The packets of the handshake *)

Section Control.
Context {S : Type} (s : S).

(** What [create_tcp_seg] makes when there is no data. *)
Definition control_tcp (cfg : config) (ccfg : ctcp_config) (c : conn) (flags : Z) : tcphdr :=
  TcpHdr (htons (u16 (port cfg))) (htons (u16 (cn_port c))) (htonl (cn_next_seqno c))
    (htonl (cn_ackno c)) 0 5 flags
    (if has_flag flags TH_RST then 0 else htons (cfg_recv_window ccfg)) 0 0.
Definition control (cfg : config) (ccfg : ctcp_config) (c : conn) (flags : Z) : datagram :=
  let ip := made_iphdr (ip_addr cfg) (cn_ip_addr c) FULL_HDR_SIZE in
  let tcp := control_tcp cfg ccfg c flags in
  Datagram ip (set_th_sum (tcp_cksum_of (Datagram ip tcp []) 0) tcp) [].

Lemma create_control cfg ccfg c flags :
  0 <= cn_next_seqno c < 2 ^ 32 ->
  create_tcp_seg cfg ccfg c flags None 0 s =
  Done (control cfg ccfg c flags, set_cn_seqno (cn_next_seqno c) c) s.
Proof.
  intros Hn. unfold create_tcp_seg. change (u16 (TCP_HDR_SIZE + 0)) with TCP_HDR_SIZE.
  erewrite bind_Done by (apply create_datagram_run; by vm_compute).
  cbv beta iota. rewrite zero_tcphdr by (change (20 <= 20)%nat; lia). cbn [deref].
  erewrite bind_Done by reflexivity. rewrite drop_replicate.
  erewrite bind_Done by reflexivity. cbv zeta.
  erewrite bind_Done by (apply cksum_tcp_run; by vm_compute).
  unfold mret, M_ret. f_equal. f_equal. cbn [cn_next_seqno set_cn_seqno]. rewrite Z.add_0_r, u32_small by done.
  by destruct c.
Qed.

Lemma control_length cfg ccfg c flags : Z.of_nat (length (datagram_bytes (control cfg ccfg c flags))) = FULL_HDR_SIZE.
Proof. by rewrite datagram_bytes_length. Qed.

Lemma control_wf cfg ccfg c flags :
  0 <= ip_addr cfg < 2 ^ 32 -> 0 <= cn_ip_addr c < 2 ^ 32 -> 0 <= flags < 2 ^ 8 ->
  iphdr_wf (dg_ip (control cfg ccfg c flags)) /\ tcphdr_wf (dg_tcp (control cfg ccfg c flags)).
Proof.
  intros Hi Hc Hf. split; [by apply made_iphdr_wf|].
  unfold control, tcp_cksum_of. cbn [dg_tcp].
  match goal with |- context [cksum_of ?x] => generalize (cksum_of_range x); generalize (cksum_of x) end.
  intros sum Hsum.
  split; cbn [set_th_sum control_tcp th_sport th_dport th_seq th_ack th_x2 th_off th_flags th_win
    th_sum th_urp]; try (apply htons_range || apply htonl_range || lia).
  destruct (has_flag flags TH_RST); [lia|apply htons_range].
Qed.

Lemma control_parsed cfg ccfg c flags pad :
  0 <= ip_addr cfg < 2 ^ 32 -> 0 <= cn_ip_addr c < 2 ^ 32 -> 0 <= flags < 2 ^ 8 ->
  let d := control cfg ccfg c flags in
  datagram_of_bytes (datagram_bytes d ++ pad) = Some (Datagram (dg_ip d) (dg_tcp d) pad).
Proof.
  intros Hi Hc Hf d. destruct (control_wf cfg ccfg c flags Hi Hc Hf) as [H1 H2].
  exact (datagram_of_bytes_bytes (dg_ip d) (dg_tcp d) [] pad H1 H2).
Qed.

Lemma control_fields cfg ccfg c flags :
  let d := control cfg ccfg c flags in
  th_sport (dg_tcp d) = htons (u16 (port cfg)) /\ th_dport (dg_tcp d) = htons (u16 (cn_port c)) /\
  th_seq (dg_tcp d) = htonl (cn_next_seqno c) /\ th_ack (dg_tcp d) = htonl (cn_ackno c) /\
  th_flags (dg_tcp d) = flags /\ ip_saddr (dg_ip d) = ip_addr cfg /\ dg_payload d = [] /\
  ip_tot_len (dg_ip d) = htons FULL_HDR_SIZE.
Proof. done. Qed.

Lemma control_ext cfg cfg' ccfg ccfg' c c' flags :
  ip_addr cfg = ip_addr cfg' -> port cfg = port cfg' -> cfg_recv_window ccfg = cfg_recv_window ccfg' ->
  cn_ip_addr c = cn_ip_addr c' -> cn_port c = cn_port c' -> cn_next_seqno c = cn_next_seqno c' ->
  cn_ackno c = cn_ackno c' -> control cfg ccfg c flags = control cfg' ccfg' c' flags.
Proof. unfold control, control_tcp. by intros -> -> -> -> -> -> ->. Qed.
End Control.

#[local] Opaque control.

Section Connect.
Context {E : Type} `{!Os E, !OsLaws E, !CalmOs E, !CalmNet E}.
Implicit Types (s : sys E) (w : W (E := E)).

(** ** Steps that a calm system takes

    [easy ps s s']: only the connections and what the handshake counts are
    different, and the packets [ps] have been sent. *)
Record easy (ps : list (list byte)) s s' : Prop := {
  es_options : sys_options s' = sys_options s;
  es_config : ip_addr (sys_config s') = ip_addr (sys_config s) /\ port (sys_config s') = port (sys_config s);
  es_new : sys_new_connection s' = sys_new_connection s;
  es_written : written s' = written s;
  es_packets : packets (sys_io s') = packets (sys_io s) ++ ps;
  es_calm : calm (sys_env s');
  es_provides ins : provides (sys_env s) ins -> provides (sys_env s') ins;
}.

Lemma easy_trans ps qs s1 s2 s3 : easy ps s1 s2 -> easy qs s2 s3 -> easy (ps ++ qs) s1 s3.
Proof.
  intros [A1 [A2 A3] A4 A5 A6 A7 A8] [B1 [B2 B3] B4 B5 B6 B7 B8].
  split; [congruence|split; congruence|congruence..| |done|auto].
  by rewrite B6, A6, app_assoc.
Qed.

Lemma easy_then ps s1 s2 s3 : easy [] s1 s2 -> easy ps s2 s3 -> easy ps s1 s3.
Proof. apply (easy_trans []). Qed.

Lemma easy_mild ps s s' : mild ps s s' -> easy ps s s'.
Proof.
  intros [Hq Hw Hp Hc Hi]. destruct (quiet_keeps _ _ Hq) as (_ & _ & Eo & Ec).
  split; try done; [by rewrite Ec|by apply quiet_new].
Qed.

Lemma easy_same s s' :
  calm (sys_env s) -> sys_options s' = sys_options s -> ip_addr (sys_config s') = ip_addr (sys_config s) ->
  port (sys_config s') = port (sys_config s) -> sys_new_connection s' = sys_new_connection s ->
  sys_io s' = sys_io s -> sys_env s' = sys_env s -> easy [] s s'.
Proof.
  intros Hc Eo Ei Ep En Eio Ee. split; try done.
  - unfold written. by rewrite Eio.
  - by rewrite Eio, app_nil_r.
  - by rewrite Ee.
  - by rewrite Ee.
Qed.

(** A control packet is sent, and the number it carries noted. *)
Lemma calm_send_control s l c flags (Q : Z -> sys E -> Prop) X :
  conns s !! l = Some c -> 0 <= cn_next_seqno c < 2 ^ 32 -> calm (sys_env s) ->
  (let s1 := with_conns (<[l := set_cn_seqno (cn_next_seqno c) c]> (conns s)) s in
   forall s', quiet s1 s' -> easy [datagram_bytes (control (sys_config s) (sys_ctcp_cfg s) c flags)] s s' ->
     (forall x, hears (sys_env s) x -> hears (sys_env s') x) -> Q 0 s') ->
  wp (send_tcp_conn_seg l flags) Q X s.
Proof.
  intros Hc Hn Hcalm HQ. unfold send_tcp_conn_seg. apply wp_bind, wp_gets, wp_bind, wp_gets, wp_bind.
  eapply wp_conn_load; [exact Hc|]. apply wp_bind. eapply wp_Done; [by apply create_control|]. cbv beta iota.
  apply wp_bind, wp_zoom, wp_store; [by eexists|]. cbv zeta in HQ.
  set (d := control _ _ c flags) in *. set (s1 := set_sys_conns _ _). fold (conns s) in s1.
  change (set_sys_conns _ _) with s1 in HQ. change (with_conns _ s) with s1 in HQ.
  assert (H1 : easy [] s s1) by by apply easy_same.
  assert (Hl : FULL_HDR_SIZE = Z.of_nat (length (datagram_bytes d))) by (symmetry; apply control_length).
  unfold send_pkt. apply wp_bind, wp_bind, wp_gets, wp_bind, wp_conf, wp_bind, wp_access.
  { by rewrite <- Hl. }
  rewrite take_ge by (apply Nat2Z.inj_le; rewrite <- Hl; by vm_compute).
  unfold call_sendto, syscall. apply wp_bind. unfold wp at 1.
  set (addr := if unix_socket _ then _ else _).
  destruct (send_whole (socket (sys_config s1)) (datagram_bytes d) addr _ Hcalm) as (e & He & Hc' & Hp).
  change (sys_env s1) with (sys_env s). rewrite He.
  apply wp_bind, wp_modify, wp_ret. cbn [mret].
  destruct (Z.ltb_spec (Z.of_nat (length (datagram_bytes d))) 0) as [|_]; [lia|]. apply wp_ret.
  rewrite Nat2Z.id, firstn_all.
  set (s2 := set_sys_io _ _).
  assert (H2 : mild [datagram_bytes d] s1 s2).
  { apply (mild_silent _ _ (set_sys_env e s1)); [by apply mild_env|].
    by apply (mild_log (set_sys_env e s1) (IoSent (datagram_bytes d) addr)). }
  apply HQ; [apply H2|exact (easy_then _ _ _ _ H1 (easy_mild _ _ _ H2))|].
  intros x. by eapply hears_send.
Qed.

(** ** The server *)

(** A connection that nothing has happened to. *)
Definition fresh (c : conn) : Prop :=
  cn_read_eof c = false /\ cn_wrote_eof c = false /\ cn_wrote_err c = false /\
  cn_delete_me c = false /\ cn_out_queue c = None.

Lemma calm_add_first s l c (Q : unit -> sys E -> Prop) X :
  SERVER (sys_options s) = true -> conns s !! l = Some c -> head_of s = None ->
  (let c' := set_cn_out_queue_tail TailQueue (set_cn_next None (set_cn_prev CPrevLocal c)) in
   forall m, m !! l = Some c' ->
     Q tt (set_sys_config (set_connections (Some l) (sys_config s)) (with_conns m s))) ->
  wp (conn_add l) Q X s.
Proof.
  intros Hsrv Hc Hh HQ. unfold conn_add. apply wp_bind. eapply wp_Done; [apply get_connections_run|].
  rewrite Hh, bool_decide_false by done. cbn [negb when].
  apply wp_bind, wp_bind. eapply wp_conn_update; [exact Hc|].
  apply wp_bind. eapply wp_conn_update; [apply lookup_insert_eq|]. apply wp_ret, wp_bind.
  eapply wp_conn_update; [apply lookup_insert_eq|]. unfold set_head. apply wp_bind, wp_opt.
  cbn [with_conns set_sys_conns sys_options]. rewrite Hsrv. apply wp_modify.
  refine (HQ _ _). apply lookup_insert_eq.
Qed.

Lemma calm_announce {A} w s cl c (k : M W A) (Q : A -> W -> Prop) X :
  SERVER (sys_options s) = true -> conns s !! cl = Some c -> head_of s = None ->
  0 <= cn_next_seqno c < 2 ^ 32 -> calm (sys_env s) ->
  (let c' := set_cn_seqno (cn_next_seqno c)
     (set_cn_out_queue_tail TailQueue (set_cn_next None (set_cn_prev CPrevLocal c))) in
   forall s', conns s' !! cl = Some c' ->
     easy [datagram_bytes (control (sys_config s) (sys_ctcp_cfg s) c (Z.lor TH_SYN TH_ACK))] s s' ->
     wp k Q X (w_set_sys s' w)) ->
  wp (on_sys (conn_add cl);; on_sys (send_synack cl);; k) Q X (w_set_sys s w).
Proof.
  intros Hsrv Hc Hh Hn Hcalm HQ. cbv zeta in HQ.
  apply wp_bind, wp_on_sys'. apply (calm_add_first s cl c); [done..|].
  cbv zeta. set (c4 := set_cn_out_queue_tail _ _) in *. intros m Hm. set (s4 := set_sys_config _ _).
  assert (H4 : easy [] s s4) by by apply easy_same.
  apply wp_bind, wp_on_sys'. unfold send_synack. eapply calm_send_control; [exact Hm|exact Hn|apply H4|].
  cbv zeta. intros s5 Hq5 H5 _. destruct (quiet_keeps _ _ Hq5) as (Ec5 & _). apply HQ.
  - unfold conns. rewrite Ec5. apply lookup_insert_eq.
  - apply (easy_then _ _ _ _ H4).
    by rewrite (control_ext (sys_config s) (sys_config s4) _ (sys_ctcp_cfg s4) c c4).
Qed.

Lemma calm_new_connection w order EE pkt d :
  let s := w_sys w in
  let cl := brk (sys_conns s) in
  represents w order EE -> SERVER (sys_options s) = true -> head_of s = None ->
  sys_num_connected s < MAX_NUM_CLIENTS -> datagram_of_bytes pkt = Some d -> calm (sys_env s) ->
  wp (tcp_new_connection pkt)
    (fun p w' => exists c, p = Some cl /\ conns (w_sys w') !! cl = Some c /\ fresh c /\ greeted d c /\
       0 <= cn_init_seqno c <= RAND_MAX /\
       easy [datagram_bytes (control (sys_config s) (sys_ctcp_cfg s) c (Z.lor TH_SYN TH_ACK))] s (w_sys w'))
    (fun _ => False) w.
Proof.
  intros s cl Hr Hsrv Hh Hn Hd Hcalm. unfold tcp_new_connection.
  assert (Hw : w_set_sys s w = w) by (unfold s; by destruct w).
  apply wp_bind, wp_on_sys, wp_opt. fold s. rewrite Hsrv, Hw. apply wp_bind, wp_ret.
  apply wp_bind, wp_on_sys, wp_gets. fold s. rewrite Hw.
  destruct (Z.geb_spec (sys_num_connected s) MAX_NUM_CLIENTS) as [|_]; [lia|].
  apply wp_bind, wp_on_sys, wp_modify, wp_bind. eapply wp_deref; [exact Hd|].
  apply wp_bind, wp_on_sys', wp_conn_calloc. set (s1 := allocated _ _).
  change (brk (sys_conns (set_sys_num_connected _ _))) with cl.
  assert (H1 : easy [] s s1) by by apply easy_same.
  apply wp_bind, wp_on_sys', calm_rand; [apply H1|]. intros r s2 Hrand H2.
  destruct (quiet_keeps _ _ (ml_quiet _ _ _ H2)) as (Ec2 & _ & Eo2 & Eg2).
  assert (Hc2 : conns s2 !! cl = Some zero_conn) by (unfold conns; rewrite Ec2; apply lookup_insert_eq).
  apply wp_bind, wp_on_sys', wp_opt. generalize (unix_socket (sys_options s2)). intros un.
  apply wp_bind, wp_on_sys'. eapply wp_conn_update; [exact Hc2|].
  apply wp_bind, wp_on_sys'. eapply wp_conn_update; [apply lookup_insert_eq|].
  apply wp_bind, wp_on_sys'. eapply wp_conn_update; [apply lookup_insert_eq|]. cbv beta.
  set (c3 := set_cn_ackno _ _). set (s3 := with_conns _ _).
  assert (H3 : easy [] s s3).
  { apply (easy_then _ _ _ _ H1), (easy_then _ _ _ _ (easy_mild _ _ _ H2)). apply easy_same; try done. apply H2. }
  apply (calm_announce w s3 cl c3).
  { change (sys_options s3) with (sys_options s2). by rewrite Eo2. }
  { apply lookup_insert_eq. }
  { unfold head_of. change (sys_options s3) with (sys_options s2). change (sys_config s3) with (sys_config s2).
    rewrite Eo2, Eg2. exact Hh. }
  { subst c3. destruct un; apply u32_range. }
  { apply H3. }
  cbv zeta. set (c5 := set_cn_seqno _ _) in *. intros s5 Hc5 H5.
  apply wp_bind, wp_on_sys', wp_modify. set (s6 := set_sys_ctcp_cfg _ s5).
  apply wp_bind, wp_on_sys', wp_gets, wp_bind.
  eapply wp_mono; [by apply refine_init, represents_sys|].
  intros p w1 (l & -> & _ & Hlib & _).
  assert (Hsys : w_sys w1 = s6) by (injection Hlib as _ ->; by destruct w).
  assert (Ew : w1 = w_set_sys s6 w1) by (rewrite <- Hsys; by destruct w1). rewrite Ew.
  apply wp_bind, wp_on_sys'. eapply wp_conn_update; [exact Hc5|]. apply wp_ret.
  exists (set_cn_state (Some l) c5). split; [done|]. split; [apply lookup_insert_eq|].
  split; [subst c5 c3; by destruct un|].
  split; [subst c5 c3; destruct un; split; try done; apply u32_range|].
  split.
  { assert (Er : cn_init_seqno c3 = u32 r) by (subst c3; by destruct un). cbn [cn_init_seqno set_cn_state].
    change (cn_init_seqno c5) with (cn_init_seqno c3). unfold RAND_MAX in *. rewrite Er, u32_small; lia. }
  set (s7 := with_conns _ s6). change (w_sys (w_set_sys s7 w1)) with s7.
  rewrite (control_ext (sys_config s) (sys_config s3) _ (sys_ctcp_cfg s3) _ c3);
    [|by destruct (es_config _ _ _ H3)..| |done|done|done|done].
  - apply (easy_then _ _ _ _ H3). rewrite <- (app_nil_r [_]).
    eapply easy_trans; [exact H5|]. apply easy_same; try done. apply H5.
  - change (sys_ctcp_cfg s3) with (sys_ctcp_cfg s2).
    destruct (ml_quiet _ _ _ H2) as (env & io & did & ->). reflexivity.
Qed.
(** A server that waits for its first client. *)
Record listening (ins : list (option (list byte))) (out : list byte) w : Prop := {
  ls_safe : safe_state w [] ∅;
  ls_server : SERVER (sys_options (w_sys w)) = true;
  ls_first : head_of (w_sys w) = None;
  ls_room : sys_num_connected (w_sys w) < MAX_NUM_CLIENTS;
  ls_options : plain_options (sys_options (w_sys w));
  ls_provides : provides (sys_env (w_sys w)) ins;
  ls_written : written (w_sys w) = out;
  ls_host : 0 <= ip_addr (sys_config (w_sys w)) < 2 ^ 32;
  ls_port : htons (u16 (port (sys_config (w_sys w)))) <> 0;
}.

Lemma listening_mild ins out w s' :
  mild [] (w_sys w) s' -> listening ins out w -> listening ins out (w_set_sys s' w).
Proof.
  intros Hm []. pose proof (ml_quiet _ _ _ Hm) as Hq. destruct (quiet_keeps _ _ Hq) as (_ & _ & Eo & Ec).
  split; cbn [w_sys w_set_sys]; rewrite ?Eo, ?Ec; try done.
  - destruct ls_safe0 as [Hr Hi _ _ _]. split; [by apply represents_sys|cbn|by intros ??; rewrite lookup_empty..].
    by eapply quiet_ok.
  - by rewrite (quiet_head _ _ Hq).
  - by destruct Hq as (env & io & did & ->).
  - by apply Hm.
  - by rewrite (ml_written _ _ _ Hm).
Qed.

(** What a server that has taken a SYN has become: [p] is the port that it came
    from, as in the packet. *)
Record serving (l cl : loc) (c : conn) (p : Z) ins out w : Prop := {
  sv_options : plain_options (sys_options (w_sys w));
  sv_new : sys_new_connection (w_sys w) = p;
  sv_first : head_of (w_sys w) = Some cl;
  sv_conn : conns (w_sys w) !! cl = Some c;
  sv_state : cn_state c = Some l;
  sv_calm : calm (sys_env (w_sys w));
  sv_end : exists order EE cfg, represents w order EE /\ EE !! l = Some (ep_init (Some cl) cfg) /\
    forall w' s' peer, mild [] (w_sys w) s' -> represents w' order EE ->
      w_sys w' = set_sys_new_connection 0 s' ->
      numbers_agree peer c -> at_end l cl c peer ins out (ep_init (Some cl) cfg) w';
}.

(** The packet of the SYN, with what is behind it in the array. *)
Lemma handles_syn ins out w cfga ccfga ca pad :
  listening ins out w -> 0 <= ip_addr cfga < 2 ^ 32 -> 0 <= cn_ip_addr ca < 2 ^ 32 ->
  let syn := control cfga ccfga ca TH_SYN in
  exists w' l cl c ccfg, handle_packet None (datagram_bytes syn ++ pad) FULL_HDR_SIZE w = Done tt w' /\
    greeted syn c /\ 0 <= cn_init_seqno c <= RAND_MAX /\
    serving l cl c (th_sport (dg_tcp syn)) ins out w' /\
    easy [datagram_bytes (control (sys_config (w_sys w)) ccfg c (Z.lor TH_SYN TH_ACK))]
      (w_sys w) (set_sys_new_connection (sys_new_connection (w_sys w)) (w_sys w')).
Proof.
  intros [Hs Hsrv Hh Hroom Ho Hp Hw Hhost Hport] Hia Hca syn.
  pose proof (control_parsed cfga ccfga ca TH_SYN pad Hia Hca ltac:(by vm_compute)) as Hd.
  cbv zeta in Hd. fold syn in Hd.
  destruct (control_fields cfga ccfga ca TH_SYN) as (_ & _ & _ & _ & Ff & _ & Fp & _).
  fold syn in Ff, Fp. set (d := Datagram (dg_ip syn) (dg_tcp syn) pad) in *.
  set (buf := datagram_bytes syn ++ pad) in *.
  pose proof (new_connection_made w [] ∅ buf d Hs Hsrv Hd) as Hmade.
  specialize (Hmade ltac:(by rewrite Hh)).
  pose proof (calm_new_connection w [] ∅ buf d (ss_represents _ _ _ Hs) Hsrv Hh Hroom Hd
    (provides_calm _ _ Hp)) as Hcalm.
  destruct (Z.geb_spec (sys_num_connected (w_sys w)) MAX_NUM_CLIENTS) as [|_]; [lia|].
  apply wp_returns in Hmade as (p & w1 & Hrun & l & c & cfg & -> & Hl & Hst & Hmd & Hs1).
  apply wp_returns in Hcalm as (p & w1' & Hrun' & c' & -> & Hc' & Hf & Hg & Hi & He).
  rewrite Hrun in Hrun'. injection Hrun' as <-. set (cl := brk (sys_conns (w_sys w))) in *.
  pose proof (md_conn _ _ _ _ _ Hmd) as Hc. unfold ConnInv.conns in *. rewrite Hc in Hc'. injection Hc' as <-.
  set (w2 := w_set_sys (set_sys_new_connection (th_sport (dg_tcp d)) (w_sys w1)) w1).
  exists w2, l, cl, c, (sys_ctcp_cfg (w_sys w)).
  assert (Eo : sys_options (w_sys w1) = sys_options (w_sys w)) by apply He.
  split; [|split; [destruct Hg; by split|split; [exact Hi|split]]].
  - unfold handle_packet. change (u64 FULL_HDR_SIZE >=? FULL_HDR_SIZE) with true. cbn [when]. cbv iota.
    rewrite Hd. erewrite (bind_Done _ _ w d w) by done. cbn [d dg_tcp]. rewrite Ff.
    change (has_flag TH_SYN TH_SYN) with true. cbn [when]. cbv iota. erewrite bind_Done by exact Hrun.
    erewrite (bind_Done _ _ w1 false w1).
    2: { unfold on_sys, zoom, opt, gets. cbn. rewrite Eo, (po_program _ Ho). by destruct w1. }
    cbn [when]. erewrite (bind_Done _ _ w1 tt w1) by done. done.
  - destruct Hf as (F1 & F2 & F3 & F4 & F5), He as [E1 [E2 E3] E4 E5 E6 E7 E8].
    split; [cbn; by rewrite Eo|done|exact (md_head _ _ _ _ _ Hmd)|exact Hc|exact Hst|exact E7|].
    exists [l], (<[l := ep_init (Some cl) cfg]> ∅), cfg.
    split; [by apply represents_sys, Hs1|]. split; [apply lookup_insert_eq|].
    intros w' s' peer Hm Hr Es Hpeer. pose proof (ml_quiet _ _ _ Hm) as Hq.
    destruct (quiet_keeps _ _ Hq) as (Q1 & _ & Q2 & Q3). cbn [w_sys w_set_sys] in *.
    change (sys_options (set_sys_new_connection _ (w_sys w1))) with (sys_options (w_sys w1)) in Q2.
    change (sys_config (set_sys_new_connection _ (w_sys w1))) with (sys_config (w_sys w1)) in Q3.
    split; rewrite ?Es; try done.
    + exists [l], (<[l := ep_init (Some cl) cfg]> ∅). split; [done|apply lookup_insert_eq].
    + split; try done; [|by apply Hm, E8|exact (eq_trans (ml_written _ _ _ Hm) (eq_trans E5 Hw))].
      split; [unfold ConnInv.conns; cbn; by rewrite Q1|done
        |by rewrite (eq_trans Q2 E1 : sys_options (set_sys_new_connection 0 s') = sys_options (w_sys w))|apply Hm].
    + destruct Hg as [G1 _ _ _ _ _ _ _].
      assert (Q3' : sys_config (set_sys_new_connection 0 s') = sys_config (w_sys w1)) by exact Q3.
      split; rewrite ?Q3'; [by rewrite E2|rewrite G1; apply ntohl_range|by rewrite E3].
    + exact (eq_trans (quiet_head _ _ Hq) (md_head _ _ _ _ _ Hmd)).
  - destruct He as [E1 [E2 E3] E4 E5 E6 E7 E8]. by split.
Qed.

(** The SYN comes in. *)
Lemma takes_syn ins out w cfga ccfga ca :
  listening ins out w -> 0 <= ip_addr cfga < 2 ^ 32 -> 0 <= cn_ip_addr ca < 2 ^ 32 ->
  cn_port ca = u16 (port (sys_config (w_sys w))) ->
  let syn := control cfga ccfga ca TH_SYN in
  exists w' l cl c ccfg, deliver (datagram_bytes syn) w = Some w' /\
    greeted syn c /\ 0 <= cn_init_seqno c <= RAND_MAX /\
    serving l cl c (th_sport (dg_tcp syn)) ins out w' /\
    easy [datagram_bytes (control (sys_config (w_sys w)) ccfg c (Z.lor TH_SYN TH_ACK))]
      (w_sys w) (set_sys_new_connection (sys_new_connection (w_sys w)) (w_sys w')).
Proof.
  intros H Hia Hca Hport syn. set (pkt := datagram_bytes syn).
  pose proof (control_length cfga ccfga ca TH_SYN) as Hl. fold syn pkt in Hl.
  destruct (control_fields cfga ccfga ca TH_SYN) as (_ & Fd & _ & _ & Ff & _ & _ & _). fold syn in Fd, Ff.
  set (pad := drop (length pkt) zero_packet).
  pose proof (control_parsed cfga ccfga ca TH_SYN pad Hia Hca ltac:(by vm_compute)) as Hd.
  cbv zeta in Hd. fold syn pkt in Hd.
  set (s1 := set_sys_env (incoming pkt (sys_env (w_sys w))) (w_sys w)).
  assert (H1 : mild [] (w_sys w) s1).
  { apply mild_env; [apply incoming_calm; eapply provides_calm, H|]. intros i. apply incoming_provides. }
  assert (Hrecv : wp (recv_filter (socket (sys_config s1)) zero_packet MAX_PACKET_SIZE)
    (fun r s' => r = (FULL_HDR_SIZE, pkt ++ pad, None) /\ mild [] s1 s') (fun _ => False) s1).
  { eapply (recv_filter_calm _ zero_packet pkt); [apply incoming_hears|apply H1|apply length_replicate
      |rewrite Hl; by vm_compute|exact Hd|..]; cbn [dg_tcp].
    - rewrite Fd, Hport. by rewrite u16_idemp.
    - by rewrite Ff.
    - intros s2 H2. rewrite Ff, Hl. by split. }
  apply wp_returns in Hrecv as (r & s2 & Hrecv & -> & H2). pose proof (mild_silent _ _ _ _ H1 H2) as H02.
  destruct (handles_syn ins out (w_set_sys s2 w) cfga ccfga ca pad (listening_mild _ _ _ _ H02 H) Hia Hca)
    as (w' & l & cl & c & ccfg & Hrun & Hg & Hi & Hsv & He).
  exists w', l, cl, c, ccfg. split.
  { unfold deliver. rewrite (receive_packet_run (arrive pkt w) _ _ _ s2 Hrecv).
    change (w_set_sys s2 (arrive pkt w)) with (w_set_sys s2 w). fold syn pkt in Hrun. by rewrite Hrun. }
  split; [exact Hg|]. split; [exact Hi|]. split; [exact Hsv|]. cbn [w_sys w_set_sys] in He.
  rewrite (quiet_new _ _ (ml_quiet _ _ _ H02)) in He.
  destruct (quiet_keeps _ _ (ml_quiet _ _ _ H02)) as (_ & _ & _ & Ec). rewrite Ec in He.
  exact (easy_then _ _ _ _ (easy_mild _ _ _ H02) He).
Qed.

(** The last packet of the handshake is dropped, and the server serves. *)
Lemma takes_ack l cl c ins out w cfga ccfga ca :
  serving l cl c (htons (u16 (port cfga))) ins out w ->
  0 <= ip_addr cfga < 2 ^ 32 -> 0 <= cn_ip_addr ca < 2 ^ 32 -> ports_agree cfga ca (w_sys w) c ->
  0 <= cn_init_seqno c -> cn_init_seqno c + 1 < 2 ^ 32 ->
  0 <= cn_their_init_seqno c -> cn_their_init_seqno c + 1 < 2 ^ 32 ->
  cn_next_seqno ca = u32 (cn_their_init_seqno c + 1) -> cn_ackno ca = u32 (cn_init_seqno c + 1) ->
  exists w' s', deliver (datagram_bytes (control cfga ccfga ca TH_ACK)) w = Some w' /\
    mild [] (w_sys w) s' /\ w_sys w' = set_sys_new_connection 0 s' /\
    forall peer, numbers_agree peer c -> exists cfg, at_end l cl c peer ins out (ep_init (Some cl) cfg) w'.
Proof.
  intros [Ho Hnew Hh Hc Hst Hcalm (order & EE & cfg & Hr & He & Hend)] Hia Hca [Hp1 Hp2] Hi Hi' Ht Ht' En Ea.
  set (k := control cfga ccfga ca TH_ACK). set (pkt := datagram_bytes k). set (pad := drop (length pkt) zero_packet).
  destruct (control_fields cfga ccfga ca TH_ACK) as (Fsp & Fdp & Fs & Fa & Ff & _ & Fp & Fl).
  destruct (control_wf cfga ccfga ca TH_ACK Hia Hca ltac:(by vm_compute)) as [Hw1 Hw2].
  fold k in Fsp, Fdp, Fs, Fa, Ff, Fp, Fl, Hw1, Hw2. rewrite u32_small in En, Ea by lia.
  pose proof (control_parsed cfga ccfga ca TH_ACK pad Hia Hca ltac:(by vm_compute)) as Hd.
  cbv zeta in Hd. fold k pkt in Hd.
  pose proof (control_length cfga ccfga ca TH_ACK) as Hl. fold k pkt in Hl.
  set (s1 := set_sys_env (incoming pkt (sys_env (w_sys w))) (w_sys w)).
  assert (H1 : mild [] (w_sys w) s1).
  { apply mild_env; [by apply incoming_calm|]. intros i. apply incoming_provides. }
  assert (Hrst : has_flag (th_flags (dg_tcp k)) TH_RST = false) by by rewrite Ff.
  assert (Hsyn : has_flag (th_flags (dg_tcp k)) TH_SYN = false) by by rewrite Ff.
  destruct (calm_found s1 cl c pkt _ (socket (sys_config s1)) (incoming_hears _ _) (ml_calm _ _ _ H1)
    ltac:(rewrite Hl; by vm_compute) Hd) as (s2 & Hrecv & H2); cbn [dg_tcp]; try done.
  { rewrite Fdp, Hp2. by rewrite u16_idemp. }
  { apply Ho. }
  { by rewrite Fsp, ntohs_htons by apply u16_range. }
  { rewrite Fs, En, ntohl_htonl; lia. }
  { rewrite Fa, Ea, ntohl_htonl; lia. }
  pose proof (mild_silent _ _ _ _ H1 H2) as H02. set (w2 := w_set_sys s2 w).
  pose proof (convert_to_ctcp_run w2 c (dg_ip k) (dg_tcp k) [] pad FULL_HDR_SIZE Hw1 Hw2 Fl ltac:(by vm_compute)) as Hrun.
  assert (Ek : k = Datagram (dg_ip k) (dg_tcp k) []) by (rewrite <- Fp; by destruct k).
  rewrite <- Ek in Hrun. cbv zeta in Hrun. fold pkt in Hrun.
  assert (Hc2 : conns (w_sys w2) !! cl = Some c).
  { destruct (quiet_keeps _ _ (ml_quiet _ _ _ H02)) as (Ec & _). unfold conns. cbn. by rewrite Ec. }
  assert (Hr2 : represents w2 order EE) by by apply represents_sys.
  destruct (handshake_ack_swallowed w2 order EE cl c _ _ FULL_HDR_SIZE _ _ Hr2 Hc2 Hd Hrun) as (w' & Hw' & _ & Hs' & Hr').
  { unfold ends_handshake. cbn [dg_tcp segment_of set_cksum seg_flags seg_seqno seg_ackno].
    change (sys_new_connection (w_sys w2)) with (sys_new_connection s2).
    rewrite (quiet_new _ _ (ml_quiet _ _ _ H02)).
    rewrite Fsp, Fs, Fa, Ff, Hnew, En, Ea, !(ntohl_htonl (_ + 1)) by lia.
    assert (H11 : forall x, u32 (x + 1 - x) = 1) by (intros x; by replace (x + 1 - x) with 1 by lia).
    rewrite !H11. by rewrite !bool_decide_true. }
  exists w', s2. split; [|split; [exact H02|split; [exact Hs'|]]].
  - unfold deliver. rewrite (receive_packet_run (arrive pkt w) _ _ _ s2 Hrecv).
    change (w_set_sys s2 (arrive pkt w)) with w2. rewrite Hl. unfold handle_packet.
    change (u64 FULL_HDR_SIZE >=? FULL_HDR_SIZE) with true. cbn [when]. cbv iota. fold pad. by rewrite Hw'.
  - intros peer Hp. exists cfg. by eapply Hend.
Qed.

(** ** The client *)

(** A client that is about to connect, with [ins] to read. *)
Record calling (cl : loc) (c : conn) (ins : list (option (list byte))) (out : list byte) s : Prop := {
  cg_client : one_client cl c s;
  cg_options : plain_options (sys_options s);
  cg_provides : provides (sys_env s) ins;
  cg_written : written s = out;
  cg_addressed : addressed s c;
  cg_new : sys_new_connection s = 0;
  cg_fresh : fresh c;
  cg_numbers : cn_next_seqno c = cn_init_seqno c;
}.

(** The client's connection after the answer [k] of the server's connection [cb]. *)
Record connected (c c' cb : conn) : Prop := {
  ct_fresh : fresh c';
  ct_address : cn_ip_addr c' = cn_ip_addr c;
  ct_port : cn_port c' = cn_port c;
  ct_init : cn_init_seqno c' = cn_init_seqno c;
  ct_next : cn_next_seqno c' = u32 (cn_next_seqno c + 1);
  ct_theirs : cn_their_init_seqno c' = cn_next_seqno cb;
  ct_ackno : cn_ackno c' = u32 (cn_next_seqno cb + 1);
}.

Lemma calm_update cl c f (Q : unit -> sys E -> Prop) X s :
  one_client cl c s -> calm (sys_env s) -> cn_out_queue (f c) = cn_out_queue c ->
  cn_out_queue_tail (f c) = cn_out_queue_tail c -> cn_next (f c) = cn_next c ->
  cn_prev (f c) = cn_prev c -> cn_delete_me (f c) = cn_delete_me c ->
  0 <= cn_next_seqno (f c) < 2 ^ 32 ->
  (forall s', one_client cl (f c) s' -> easy [] s s' -> sys_config s' = sys_config s -> Q tt s') ->
  wp (on_conns (update cl f)) Q X s.
Proof.
  intros H Hc E1 E2 E3 E4 E5 E6 HQ. eapply wp_conn_update; [by apply one_client_lookup|].
  apply HQ; [by apply one_client_update|by apply easy_same|done].
Qed.

(** The answer, whose number is [n], is noted and acknowledged. *)
Lemma calm_take_answer cl c n s :
  one_client cl c s -> calm (sys_env s) ->
  let c1 := set_cn_ackno (u32 (n + 1)) (set_cn_their_init_seqno n
    (set_cn_next_seqno (u32 (cn_next_seqno c + 1)) c)) in
  let c2 := set_cn_seqno (cn_next_seqno c1) c1 in
  wp ((on_conns (update cl (fun c => set_cn_next_seqno (u32 (cn_next_seqno c + 1)) c));;
       on_conns (update cl (set_cn_their_init_seqno n));;
       on_conns (update cl (set_cn_ackno (u32 (n + 1))));;
       send_ack cl;;
       mret tt);; conf sconn)
    (fun p s' => p = Some cl /\ one_client cl c2 s' /\
       exists ccfg, easy [datagram_bytes (control (sys_config s) ccfg c2 TH_ACK)] s s')
    (fun _ => False) s.
Proof.
  intros H3 Hc c1 c2.
  apply wp_bind, wp_bind. eapply calm_update; [exact H3|exact Hc|done..|apply u32_range|].
  intros s4 Hoc4 H4 Eg4.
  apply wp_bind. eapply calm_update; [exact Hoc4|apply H4|done..|apply u32_range|]. intros s5 Hoc5 H5 Eg5.
  apply wp_bind. eapply calm_update; [exact Hoc5|apply H5|done..|apply u32_range|]. intros s6 Hoc6 H6 Eg6.
  fold c1 in Hoc6. apply wp_bind. unfold send_ack.
  eapply calm_send_control; [by apply one_client_lookup|apply Hoc6|apply H6|].
  cbv zeta. intros s7 Hq7 H7 _. apply wp_ret, wp_conf.
  assert (Hoc7 : one_client cl c2 s7).
  { eapply one_client_quiet; [exact Hq7|]. apply (one_client_update cl c1); done || apply Hoc6. }
  rewrite (oc_sconn _ _ _ Hoc7). split; [done|]. split; [exact Hoc7|]. exists (sys_ctcp_cfg s6).
  apply (easy_then _ _ _ _ H4), (easy_then _ _ _ _ H5), (easy_then _ _ _ _ H6).
  rewrite (control_ext (sys_config s) (sys_config s6) _ (sys_ctcp_cfg s6) c2 c1); congruence || done.
Qed.

Lemma calm_handshake cl c ins out buf s cfgb ccfgb cb :
  calling cl c ins out s -> length buf = Z.to_nat MAX_PACKET_SIZE ->
  0 <= ip_addr cfgb < 2 ^ 32 -> 0 <= cn_ip_addr cb < 2 ^ 32 -> 0 <= cn_next_seqno cb < 2 ^ 32 ->
  htons (u16 (cn_port cb)) = htons (u16 (port (sys_config s))) ->
  hears (sys_env s) (datagram_bytes (control cfgb ccfgb cb (Z.lor TH_SYN TH_ACK))) ->
  wp (tcp_handshake buf)
    (fun p s' => exists c' ccfg, p = Some cl /\ one_client cl c' s' /\ connected c c' cb /\
       easy [datagram_bytes (control (sys_config s) (sys_ctcp_cfg s) c TH_SYN);
             datagram_bytes (control (sys_config s) ccfg c' TH_ACK)] s s')
    (fun _ => False) s.
Proof.
  intros H Hb Hi Hip Hn Hport Hhears. pose proof (cg_client _ _ _ _ _ H) as Hoc.
  set (k := control cfgb ccfgb cb _) in *.
  unfold tcp_handshake. apply wp_bind, wp_opt. rewrite (oc_client _ _ _ Hoc). apply wp_bind, wp_ret.
  apply wp_bind, wp_conf. rewrite (oc_sconn _ _ _ Hoc). apply wp_bind, wp_ret. apply wp_bind. unfold send_syn.
  eapply calm_send_control; [by apply one_client_lookup|apply Hoc|eapply provides_calm, H|].
  cbv zeta. intros s1 Hq1 H1 Hh1. rewrite bool_decide_true by done. cbn [negb].
  set (c1 := set_cn_seqno _ c) in *.
  assert (Hoc1 : one_client cl c1 s1).
  { eapply one_client_quiet; [exact Hq1|]. apply (one_client_update cl c (set_cn_seqno (cn_next_seqno c)) s); done || apply Hoc. }
  apply wp_bind, wp_conf, wp_bind.
  pose proof (control_length cfgb ccfgb cb (Z.lor TH_SYN TH_ACK)) as Hl. fold k in Hl.
  destruct (control_fields cfgb ccfgb cb (Z.lor TH_SYN TH_ACK)) as (_ & Fd & Fs & Fa & Ff & _ & _ & _).
  fold k in Fd, Fs, Fa, Ff.
  pose proof (control_parsed cfgb ccfgb cb (Z.lor TH_SYN TH_ACK) (drop (length (datagram_bytes k)) buf) Hi Hip) as Hd.
  fold k in Hd. specialize (Hd ltac:(by vm_compute)).
  destruct (quiet_keeps _ _ Hq1) as (_ & _ & Eo1 & Eg1).
  eapply (recv_filter_calm _ buf (datagram_bytes k)); [exact (Hh1 _ Hhears)|apply H1|exact Hb
    |rewrite Hl; by vm_compute|exact Hd| | |]; cbn [dg_tcp].
  { rewrite Fd, Hport, Eg1. reflexivity. }
  { by rewrite Ff. }
  intros s2 H2. rewrite Ff, Hl. change (has_flag (Z.lor TH_SYN TH_ACK) TH_SYN) with true. cbv iota beta.
  change (FULL_HDR_SIZE <=? 0) with false. cbv iota.
  apply wp_bind. eapply wp_deref; [exact Hd|]. cbn [dg_tcp]. apply wp_bind, wp_modify.
  set (s3 := set_sys_ctcp_cfg _ s2).
  assert (Hoc3 : one_client cl c1 s3).
  { eapply one_client_same; [by eapply one_client_quiet; [exact (ml_quiet _ _ _ H2)|]|by split]. }
  assert (H3 : easy [datagram_bytes (control (sys_config s) (sys_ctcp_cfg s) c TH_SYN)] s s3).
  { rewrite <- (app_nil_r [_]). eapply easy_trans; [exact H1|].
    apply (easy_then _ _ _ _ (easy_mild _ _ _ H2)), easy_same; try done. apply H2. }
  rewrite Ff. change (has_flag (Z.lor TH_SYN TH_ACK) TH_SYN) with true. cbn [negb]. cbv iota.
  rewrite Fs, ntohl_htonl by done.
  eapply wp_mono; [apply calm_take_answer; [exact Hoc3|apply H3]|].
  intros p s4 (-> & H4 & ccfg & He4). cbv zeta in H4, He4. set (c' := set_cn_seqno _ (set_cn_ackno _ _)) in *.
  exists c', ccfg. split; [done|]. split; [exact H4|]. split; [by split; try apply H|].
  apply (easy_trans [_] [_] _ _ _ H3). destruct (es_config _ _ _ H3) as [E31 E32].
  by rewrite (control_ext (sys_config s) (sys_config s3) _ ccfg _ c').
Qed.

(** *** Up to the main loop *)

Section Polling.
Context `{!Setup E, !CalmSetup E}.

Lemma calm_fcntl {A} fd cmd arg (k : Z -> M (sys E) A) (Q : A -> sys E -> Prop) X s :
  calm (sys_env s) -> (forall r s', easy [] s s' -> sys_events s' = sys_events s -> wp (k r) Q X s') ->
  wp (r ← syscall (os_fcntl fd cmd arg); k r) Q X s.
Proof.
  intros Hc HQ. apply wp_bind. unfold wp at 1, syscall.
  destruct (os_fcntl fd cmd arg (sys_env s)) as [r e] eqn:He. destruct (fcntl_calm _ _ _ _ _ _ He Hc) as [Hc' Hp].
  apply HQ; [by apply easy_mild, mild_env|done].
Qed.

Lemma calm_poll_for i fd evs s :
  0 <= i < Z.of_nat (length (sys_events s)) -> calm (sys_env s) ->
  wp (poll_for i fd evs)
    (fun _ s' => easy [] s s' /\ length (sys_events s') = length (sys_events s)) (fun _ => True) s.
Proof.
  intros Hi Hc. destruct (lookup_lt_is_Some_2 (sys_events s) (Z.to_nat i)) as [p Hp]; [lia|].
  unfold poll_for. apply wp_bind. eapply wp_set_event; [exact Hp|lia|]. set (s1 := set_sys_events _ _).
  assert (H1 : easy [] s s1) by by apply easy_same.
  assert (Hl : length (sys_events s1) = length (sys_events s)) by apply length_insert.
  unfold async. apply wp_bind, calm_fcntl; [done|]. intros r s2 H2 E2.
  pose proof (easy_then _ _ _ _ H1 H2) as H02. destruct (r <? 0).
  - apply wp_ret, wp_ret. split; [done|congruence].
  - apply calm_fcntl; [apply H2|]. intros r' s3 H3 E3. apply wp_ret, wp_ret.
    split; [exact (easy_then _ _ _ _ H02 H3)|congruence].
Qed.

Lemma calm_setup_poll s :
  Z.of_nat (length (sys_events s)) = NUM_EVENTS -> calm (sys_env s) ->
  wp setup_poll (fun _ s' => easy [] s s') (fun _ => True) s.
Proof.
  intros Hev Hc. unfold setup_poll. change NUM_EVENTS with 13 in Hev.
  apply wp_bind. eapply wp_mono; [apply calm_poll_for; [rewrite Hev; by vm_compute|done]|]. intros [] s1 [H1 E1].
  apply wp_bind. eapply wp_mono; [apply calm_poll_for; [rewrite E1, Hev; by vm_compute|apply H1]|].
  intros [] s2 [H2 E2]. apply wp_bind, wp_conf.
  eapply wp_mono; [apply calm_poll_for; [rewrite E2, E1, Hev; lia|apply H2]|]. intros [] s3 [H3 _].
  exact (easy_then _ _ _ _ H1 (easy_then _ _ _ _ H2 H3)).
Qed.

(** The client connects, and is the end of a connection. *)
Lemma calm_connects cl c ins out buf w cfgb ccfgb cb :
  represents w [] ∅ -> calling cl c ins out (w_sys w) -> length buf = Z.to_nat MAX_PACKET_SIZE ->
  0 <= ip_addr cfgb < 2 ^ 32 -> 0 <= cn_ip_addr cb < 2 ^ 32 -> 0 <= cn_next_seqno cb < 2 ^ 32 ->
  htons (u16 (cn_port cb)) = htons (u16 (port (sys_config (w_sys w)))) ->
  hears (sys_env (w_sys w)) (datagram_bytes (control cfgb ccfgb cb (Z.lor TH_SYN TH_ACK))) ->
  exists w' l c' ccfg cfg, client_connects buf w = Done 0 w' /\ connected c c' cb /\ cn_state c' = Some l /\
    easy [datagram_bytes (control (sys_config (w_sys w)) (sys_ctcp_cfg (w_sys w)) c TH_SYN);
          datagram_bytes (control (sys_config (w_sys w)) ccfg c' TH_ACK)] (w_sys w) (w_sys w') /\
    forall peer, numbers_agree peer c' -> at_end l cl c' peer ins out (ep_init (Some cl) cfg) w'.
Proof.
  intros Hr H Hb Hi Hip Hn Hport Hh.
  enough (Hwp : wp (client_connects buf) (fun r w' => r = 0 /\ exists l c' ccfg cfg, connected c c' cb /\
    cn_state c' = Some l /\
    easy [datagram_bytes (control (sys_config (w_sys w)) (sys_ctcp_cfg (w_sys w)) c TH_SYN);
          datagram_bytes (control (sys_config (w_sys w)) ccfg c' TH_ACK)] (w_sys w) (w_sys w') /\
    forall peer, numbers_agree peer c' -> at_end l cl c' peer ins out (ep_init (Some cl) cfg) w')
    (fun _ => False) w).
  { apply wp_returns in Hwp as (r & w' & Hrun & -> & l & c' & ccfg & cfg & Hx).
    by exists w', l, c', ccfg, cfg. }
  unfold client_connects. apply wp_bind, wp_on_sys.
  eapply wp_mono; [by eapply (calm_handshake cl c ins out buf _ cfgb ccfgb cb)|].
  intros p s3 (c3 & ccfg & -> & H3 & Hct & He3).
  apply wp_bind, wp_on_sys', wp_gets, wp_bind.
  eapply wp_mono; [by apply refine_init, represents_sys|].
  intros p w4 (l & -> & _ & Hlib & Hr4).
  assert (Hs4 : w_sys w4 = s3) by (injection Hlib as _ ->; by destruct w).
  assert (Ew : w4 = w_set_sys s3 w4) by (rewrite <- Hs4; by destruct w4). rewrite Ew.
  apply wp_bind, wp_on_sys', wp_conf. rewrite (oc_sconn _ _ _ H3). apply wp_bind, wp_ret.
  apply wp_bind, wp_on_sys'. eapply (calm_update cl c3); [exact H3|apply He3|done..|apply H3|].
  intros s5 H5 He5 _. apply wp_bind, wp_on_sys'.
  eapply wp_mono; [apply (wp_with _ _ (fun _ s' => same s5 s') (fun _ s' => easy [] s5 s') s5)|].
  { by apply wp_setup_poll; [apply H5|]. }
  { apply calm_setup_poll; [apply H5|apply He5]. }
  intros [] s6 [Hs6 He6]. apply wp_ret. split; [done|].
  set (c' := set_cn_state (Some l) c3) in *. pose proof (one_client_same _ _ _ _ H5 Hs6) as H6.
  exists l, c', ccfg, (sys_ctcp_cfg s3). change (w_sys (w_set_sys s6 w4)) with s6.
  assert (Hct' : connected c c' cb) by (destruct Hct; by split).
  assert (He : easy [datagram_bytes (control (sys_config (w_sys w)) (sys_ctcp_cfg (w_sys w)) c TH_SYN);
    datagram_bytes (control (sys_config (w_sys w)) ccfg c' TH_ACK)] (w_sys w) s6).
  { rewrite (control_ext _ (sys_config (w_sys w)) _ ccfg c' c3) by done.
    apply (easy_trans _ [] _ _ _ He3), (easy_then _ _ _ _ He5 He6). }
  split; [exact Hct'|]. split; [done|]. split; [exact He|].
  intros peer Hpeer. destruct H as [_ C2 C3 C4 [C5 C6 C7] C8 _ _], Hct' as [(F1 & F2 & F3 & F4 & F5) D2 _ _ _ _ _].
  destruct He as [E1 [E2 E3] E4 E5 _ E7 E8].
  split; [|done|done| | | | |done]; change (w_sys (w_set_sys s6 w4)) with s6.
  - exists [l], (<[l := ep_init (Some cl) (sys_ctcp_cfg s3)]> ∅).
    split; [by apply represents_sys|apply lookup_insert_eq].
  - split; try done; [|by apply E8|congruence]. split; [by apply one_client_lookup|done|by rewrite E1|done].
  - split; [by rewrite E2|by rewrite D2|by rewrite E3].
  - congruence.
  - unfold head_of. by rewrite (oc_client _ _ _ H6), (oc_sconn _ _ _ H6).
Qed.

Lemma calling_mild cl c ins out s s' : mild [] s s' -> calling cl c ins out s -> calling cl c ins out s'.
Proof.
  intros Hm []. pose proof (ml_quiet _ _ _ Hm) as Hq. destruct (quiet_keeps _ _ Hq) as (_ & _ & Eo & _).
  split; try done; [by eapply one_client_quiet|by rewrite Eo|by apply Hm|by rewrite (ml_written _ _ _ Hm)
    |by eapply addressed_quiet|by rewrite (quiet_new _ _ Hq)].
Qed.

(** C6: from the handshake to a conversation, on a network that loses nothing, with
    plain options on one machine, and while the ends take turns: a client that
    connects sends a SYN; a server that waits for its first client takes it,
    makes the connection and answers; the client, in whose socket the answer is
    put, is connected and sends the last packet of the handshake, which the server
    drops. From then on the two are the ends of one connection, and on each
    terminal appears, through every layer of the program, what is typed at the
    other, as long as the client's numbers stay below 2^32 and the server sends
    less than 2^31 bytes. *)
Theorem hosts_talk cla ca ia ib oa ob buf ts wa wb :
  represents wa [] ∅ -> calling cla ca (map Some (said true ts) ++ ia) oa (w_sys wa) ->
  listening (map Some (said false ts) ++ ib) ob wb -> length buf = Z.to_nat MAX_PACKET_SIZE ->
  Forall piece_ok (map piece ts) -> cn_port ca = u16 (port (sys_config (w_sys wb))) ->
  cn_init_seqno ca + 1 + total true ts < 2 ^ 32 -> total false ts < 2 ^ 31 ->
  let syn := datagram_bytes (control (sys_config (w_sys wa)) (sys_ctcp_cfg (w_sys wa)) ca TH_SYN) in
  exists wb1 answer wa1 ack wb2 la lb (x : world (sys E) * world (sys E)),
    deliver syn wb = Some wb1 /\ last_packet (w_sys wb1) = Some answer /\
    client_connects buf (arrive answer wa) = Done 0 wa1 /\
    packets (sys_io (w_sys wa1)) = packets (sys_io (w_sys wa)) ++ [syn; ack] /\
    deliver ack wb1 = Some wb2 /\ wire_turns la lb ts (wa1, wb2) = Some x /\
    written (w_sys x.1) = oa ++ mjoin (said false ts) /\
    written (w_sys x.2) = ob ++ mjoin (said true ts).
Proof.
  intros Hr Ha Hb Hbuf Hok Hport Hta Htb syn. destruct (cg_addressed _ _ _ _ _ Ha) as [A1 A2 A3].
  set (cfga := sys_config (w_sys wa)) in *. set (ccfga := sys_ctcp_cfg (w_sys wa)) in *.
  destruct (takes_syn _ _ _ cfga ccfga ca Hb A1 A2 Hport) as (wb1 & lb & clb & cb & ccfgb & Hsyn & Hg & Hi & Hsv & Heb).
  destruct (control_fields cfga ccfga ca TH_SYN) as (Fp & _ & Fs & _ & _ & Fi & _ & _).
  destruct Hg as [G1 G2 G3 G4 G5 G6 _ _]. rewrite Fp in G2, Hsv. rewrite Fs in G3.
  pose proof (oc_numbers _ _ _ (cg_client _ _ _ _ _ Ha)) as Hn. rewrite ntohl_htonl in G3 by done.
  rewrite ntohs_htons in G2 by apply u16_range.
  pose proof (cg_numbers _ _ _ _ _ Ha) as Hna. unfold RAND_MAX in Hi.
  set (answer := control (sys_config (w_sys wb)) ccfgb cb (Z.lor TH_SYN TH_ACK)) in *.
  destruct (es_config _ _ _ Heb) as [_ Epb]. cbn [sys_config set_sys_new_connection] in Epb.
  assert (Hcb : 0 <= cn_ip_addr cb < 2 ^ 32) by (rewrite G1; apply ntohl_range).
  set (pkt := datagram_bytes answer).
  assert (H1 : mild [] (w_sys wa) (w_sys (arrive pkt wa))).
  { apply mild_env; [apply incoming_calm; eapply provides_calm, Ha|]. intros i. apply incoming_provides. }
  assert (Hra : represents (arrive pkt wa) [] ∅) by by apply represents_sys.
  destruct (calm_connects cla ca _ oa buf (arrive pkt wa) (sys_config (w_sys wb)) ccfgb cb Hra
    (calling_mild _ _ _ _ _ _ H1 Ha) Hbuf (ls_host _ _ _ Hb) Hcb G6)
    as (wa1 & la & ca' & ccfg & cfg & Hrun & [_ D1 D6 D2 D3 D4 D5] & _ & Hea & Hend);
    [by rewrite G2, u16_idemp|apply incoming_hears|].
  change (sys_config (w_sys (arrive pkt wa))) with cfga in Hea.
  change (sys_ctcp_cfg (w_sys (arrive pkt wa))) with ccfga in Hea.
  assert (Hnum : numbers_agree cb ca') by (split; [by rewrite D4, G5|by rewrite D2, G3, Hna]).
  destruct (takes_ack lb clb cb _ _ wb1 cfga ccfg ca' Hsv A1) as (wb2 & s2 & Hdel & Hm2 & Es2 & Hend2);
    [by rewrite D1|split; [done|by rewrite D6, Hport, <- Epb]|lia|lia|rewrite G3; lia
    |rewrite G3, Hna; unfold total in Hta; lia|by rewrite D3, G3|by rewrite D5, G5|].
  destruct (Hend2 ca') as (cfgb & Hbend); [by destruct Hnum|].
  destruct (quiet_keeps _ _ (ml_quiet _ _ _ Hm2)) as (_ & _ & _ & Ec2).
  destruct (conversation_run la lb cla clb ca' cb 0 0 ts ia ib oa ob (wa1, wb2)) as (s & Hturns & _ & Hwa & Hwb);
    [|exact Hok|done|done|].
  { split; cbn [fst snd].
    - exists (ep_init (Some cla) cfg), (ep_init (Some clb) cfgb). split; [by apply Hend|]. split; [exact Hbend|].
      split; [by split|]. unfold total in *. split; (split; [|split]); cbn; rewrite ?D2; lia.
    - rewrite Es2. cbn [sys_config set_sys_new_connection]. by rewrite Ec2, Epb, D6.
    - destruct (es_config _ _ _ Hea) as [_ ->]. exact G2. }
  exists wb1, pkt, wa1, (datagram_bytes (control cfga ccfg ca' TH_ACK)), wb2, la, lb, s.
  split; [exact Hsyn|]. split.
  { unfold last_packet. pose proof (es_packets _ _ _ Heb) as Ep.
    change (packets (sys_io (set_sys_new_connection _ (w_sys wb1)))) with (packets (sys_io (w_sys wb1))) in Ep.
    fold answer pkt in Ep. rewrite Ep. apply last_snoc. }
  split; [exact Hrun|]. split; [apply Hea|]. split; [exact Hdel|]. split; [exact Hturns|].
  cbn [fst snd] in Hwa, Hwb. rewrite Hwa, Hwb.
  rewrite (rd_written _ _ _ _ _ (ae_ready _ _ _ _ _ _ _ _ (Hend cb Hnum))).
  by rewrite (rd_written _ _ _ _ _ (ae_ready _ _ _ _ _ _ _ _ Hbend)).
Qed.
End Polling.
End Connect.

(** ** Two ends that connect and then talk *)

#[export] Instance script_calm_setup : CalmSetup os_script.
Proof. split. by intros fd cmd arg e r e' [= _ <-]. Qed.

(** The client's system, on which [ins] are typed; the server's port is 8888. *)
Definition caller_conn : conn := set_cn_port 8888 hs_conn.
Definition caller_sys (ins : list (option (list byte))) : sys os_script :=
  Sys (ex_options false true 0) (Config 3 LOCALHOST 9999 (Some 1%positive) None)
    (CtcpConfig 1440 1440 40 200) false 0 0 ex_events (Timespec 0 0)
    (Heap {[1%positive := caller_conn]} 2%positive) heap_empty []
    (OsScript (map (fun o => IoOk (default [] o)) ins) [] [] false [] [] (0, 0)).
Definition caller ins : W (E := os_script) :=
  w_set_sys (caller_sys ins) (boot_world (Config 0 0 0 None None) quiet_script).

(** A server's, before any client. *)
Definition waiting (ins : list (option (list byte))) : W (E := os_script) :=
  w_set_sys (Sys (ex_options true true 0) (Config 3 LOCALHOST 8888 None None)
    (CtcpConfig 1440 1440 40 200) false 0 0 ex_events (Timespec 0 0) heap_empty heap_empty []
    (OsScript (map (fun o => IoOk (default [] o)) ins) [] [] false [9] [] (0, 0)))
  (boot_world (Config 0 0 0 None None) quiet_script).

Definition call_syn : list byte :=
  datagram_bytes (control (sys_config (caller_sys [])) (CtcpConfig 1440 1440 40 200) caller_conn TH_SYN).

Lemma waiting_listens ins : listening ins [] (waiting ins).
Proof.
  split; [|done..| |by split|done|done|by vm_compute].
  - apply empty_safe; try done. apply represents_sys, boot_represents.
  - by vm_compute.
Qed.

Lemma hosts_talk_witness :
  let wb := waiting [Some yo; Some hi] in
  let wa := caller [Some hi; Some yo; None] in
  exists wb1 answer wa1 ack wb2 la lb x,
    deliver call_syn wb = Some wb1 /\ last_packet (w_sys wb1) = Some answer /\
    client_connects (replicate 1480 Byte.x00) (arrive answer wa) = Done 0 wa1 /\
    deliver ack wb1 = Some wb2 /\ wire_turns la lb wire_talk (wa1, wb2) = Some x /\
    written (w_sys x.1) = yo ++ hi /\ written (w_sys x.2) = hi ++ yo.
Proof.
  intros wb wa.
  destruct (hosts_talk 1%positive caller_conn [None] [] [] [] (replicate 1480 Byte.x00) wire_talk wa wb)
    as (wb1 & answer & wa1 & ack & wb2 & la & lb & x & Hsyn & Hlast & Hrun & _ & Hdel & Hx & Ha & Hb).
  - apply represents_sys, boot_represents.
  - by repeat split; vm_compute.
  - apply waiting_listens.
  - reflexivity.
  - repeat constructor; by vm_compute.
  - by vm_compute.
  - by vm_compute.
  - by vm_compute.
  - exists wb1, answer, wa1, ack, wb2, la, lb, x.
    split; [exact Hsyn|]. split; [exact Hlast|]. split; [exact Hrun|]. split; [exact Hdel|].
    split; [exact Hx|]. by split.
Defined.
