(* ===== verification/Logging.v ===== *)
(** * The log files ([src/ctcp_sys_internal.h], [src/ctcp_utils.c])

    The line that [log_segment] writes for a segment sent or received, on its
    buffer of fixed size, and [write_log_header]; the lines are read back. What
    [Conn.v] records as a logged segment is such a line. *)

From stdpp Require Import strings.
From S2P Require Import Prelude Heap Words Text Cksum Segment Ctcp CtcpSpec Host Packet Conn.
From S2P Require Import ConnScript Start.

Definition LOG_SIZE : Z := 4 * MAX_SEG_DATA_SIZE.
Definition LOG_ENTRY_SIZE : Z := 20.
Definition LOCALHOST_STR : text := lit "localhost".

(** Of the system's headers. *)
Definition INET_ADDRSTRLEN : Z := 16.

Definition NEWLINE : text := [Byte.x0a].

(** A computation on a local buffer. *)
Definition local {S T A} (t : T) (m : M T A) : M S A := fun s =>
  match m t with
  | Done a _ => Done a s
  | Exit c _ => Exit c s
  | Undef => Undef
  | NoFuel => NoFuel
  end.

(** Where the line goes. *)
Inductive logged :=
  | ToFile (line : text)
  | ToTester (line : text).

Section Logging.
(** [inet_ntop(AF_INET, ...)], of the system's library. *)
Context (inet_ntop : Z -> text).

(** [ADDR_FORMAT_STR]. *)
Definition addr_format (a : text) (p : Z) (b : text) (q : Z) : text :=
  a ++ [TAB] ++ dec p ++ [TAB] ++ b ++ [TAB] ++ dec q ++ [TAB].

Definition format_addresses (ip_addr port : Z) (conn : Host.conn)
    (is_sent_segment is_unix_socket : bool) (buf : Z) : M text unit :=
  if negb is_unix_socket then
    let this_ip_addr := inet_ntop ip_addr in
    let other_ip_addr := inet_ntop (cn_ip_addr conn) in
    access (Z.of_nat (length this_ip_addr) <? INET_ADDRSTRLEN);;
    access (Z.of_nat (length other_ip_addr) <? INET_ADDRSTRLEN);;
    if is_sent_segment
    then snprintf buf (5 * LOG_ENTRY_SIZE) (addr_format this_ip_addr port other_ip_addr (cn_port conn))
    else snprintf buf (5 * LOG_ENTRY_SIZE) (addr_format other_ip_addr (cn_port conn) this_ip_addr port)
  else
    if is_sent_segment
    then snprintf buf (5 * LOG_ENTRY_SIZE) (addr_format LOCALHOST_STR port LOCALHOST_STR (cn_port conn))
    else snprintf buf (5 * LOG_ENTRY_SIZE) (addr_format LOCALHOST_STR (cn_port conn) LOCALHOST_STR port).

(** The loop of [hex_dump], which gives [i] after it; [todo] iterations are left. *)
Fixpoint hex_dump_loop (from : list byte) (to i : Z) (todo : nat) : M text Z :=
  match todo with
  | O => mret i
  | S todo =>
      b ← deref (from !! Z.to_nat i);
      snprintf (to + i * 3) 4 (hex2 b ++ lit " ");;
      hex_dump_loop from to (i + 1) todo
  end.

Definition hex_dump (from : list byte) (to len : Z) : M text unit :=
  snprintf to 2 [TAB];;
  let to := to + 1 in
  i ← hex_dump_loop from to 0 (Z.to_nat len);
  snprintf (to + i * 3) 2 NEWLINE.

(** [log_segment] on its buffer, up to the data, [time] being [current_time()]. *)
Definition log_fields (time ip_addr port : Z) (conn : Host.conn) (segment : ctcp_segment)
    (is_sent_segment is_unix_socket : bool) : M text unit :=
  snprintf 0 LOG_ENTRY_SIZE (dec (u64 time) ++ [TAB]);;
  off ← strlen;
  format_addresses ip_addr port conn is_sent_segment is_unix_socket off;;
  snprintf_end (5 * LOG_ENTRY_SIZE)
    (dec (i32 (ntohl (seg_seqno segment))) ++ [TAB] ++ dec (i32 (ntohl (seg_ackno segment))) ++ [TAB] ++
     dec (ntohs (seg_len segment)) ++ [TAB]);;
  when (has_flag (seg_flags segment) TH_SYN) (snprintf_end 5 (lit "SYN "));;
  when (has_flag (seg_flags segment) TH_ACK) (snprintf_end 5 (lit "ACK "));;
  when (has_flag (seg_flags segment) TH_FIN) (snprintf_end 5 (lit "FIN "));;
  snprintf_end LOG_ENTRY_SIZE
    ([TAB] ++ dec (ntohs (seg_window segment)) ++ [TAB] ++ lit "0x" ++ hex (seg_cksum segment)).

(** All of it. *)
Definition log_buffer (test_debug_on : bool) (time ip_addr port : Z) (conn : Host.conn)
    (segment : ctcp_segment) (is_sent_segment is_unix_socket : bool) : M text logged :=
  log_fields time ip_addr port conn segment is_sent_segment is_unix_socket;;
  if negb test_debug_on then
    off ← strlen;
    hex_dump (seg_data segment) off (i32 (u64 (ntohs (seg_len segment) - SEGMENT_HDR_SIZE)));;
    n ← strlen;
    buf ← gets id;
    mret (ToFile (take (Z.to_nat n) buf))
  else
    n ← strlen;
    buf ← gets id;
    mret (ToTester (lit "!!!" ++ take (Z.to_nat n) buf ++ lit "!!!" ++ NEWLINE)).

Definition zero_text (n : Z) : text := replicate (Z.to_nat n) NUL.

Section System.
Context {E : Type} `{!Os E}.

Definition current_time : M (sys E) Z :=
  '(sec, usec) ← syscall os_gettimeofday; mret (sec * 1000 + Z.quot usec 1000).

(** [log_segment]: what goes to [stderr] is left out. *)
Definition log_line (file ip_addr port : Z) (conn : Host.conn) (segment : ctcp_segment)
    (is_sent_segment is_unix_socket : bool) : M (sys E) unit :=
  o ← gets sys_options;
  time ← current_time;
  l ← local (zero_text LOG_SIZE)
        (log_buffer (test_debug_on o) time ip_addr port conn segment is_sent_segment is_unix_socket);
  match l with
  | ToFile line => call_write file line;; mret tt
  | ToTester _ => mret tt
  end.

Definition write_log_header (file : Z) : M (sys E) unit :=
  call_write file (lit LOG_HEADERS);; mret tt.
End System.

(** ** The line *)

(** Addresses are in dotted-quad notation: at most 15 characters. *)
Hypothesis inet_ntop_text : forall a,
  Forall visible (inet_ntop a) /\ (length (inet_ntop a) < 16)%nat.

Definition flag_names (flags : Z) : text :=
  (if has_flag flags TH_SYN then lit "SYN " else []) ++
  (if has_flag flags TH_ACK then lit "ACK " else []) ++
  (if has_flag flags TH_FIN then lit "FIN " else []).

(** The address and the port of an end. *)
Definition end_text (unix : bool) (ip : Z) : text := if unix then LOCALHOST_STR else inet_ntop ip.

(** The columns up to the data, by the headers of the file. *)
Definition log_columns (time ip_addr port : Z) (conn : Host.conn) (segment : ctcp_segment)
    (is_sent is_unix : bool) : list text :=
  let this := [end_text is_unix ip_addr; dec port] in
  let other := [end_text is_unix (cn_ip_addr conn); dec (cn_port conn)] in
  [dec time] ++ (if is_sent then this ++ other else other ++ this) ++
  [dec (i32 (ntohl (seg_seqno segment))); dec (i32 (ntohl (seg_ackno segment)));
   dec (ntohs (seg_len segment)); flag_names (seg_flags segment);
   dec (ntohs (seg_window segment)); lit "0x" ++ hex (seg_cksum segment)].

Definition data_column (data : list byte) : text :=
  mjoin ((fun b => hex2 b ++ lit " ") <$> data).

(** Lines of columns, each ended by a tab, but for the last. *)
Fixpoint tabbed (cs : list text) (last : text) : text :=
  match cs with [] => last | c :: cs => c ++ TAB :: tabbed cs last end.

Lemma columns_tabbed cs last :
  Forall (Forall visible) cs -> Forall no_tab last -> columns (tabbed cs last) = cs ++ [last].
Proof.
  intros Hcs Hl. induction Hcs as [|c cs Hc _ IH]; simpl; [by apply columns_last|].
  rewrite columns_app, IH; [done|]. eapply Forall_impl; [exact Hc|apply visible_no_tab].
Qed.

Lemma tabbed_plain cs last :
  Forall (Forall visible) cs -> Forall plain last -> Forall plain (tabbed cs last).
Proof.
  intros Hcs Hl. induction Hcs as [|c cs Hc _ IH]; simpl; [done|].
  apply Forall_app. split; [by eapply Forall_impl; [exact Hc|apply visible_plain]|].
  by constructor.
Qed.

(** *** The data *)

Lemma data_column_snoc data b : data_column (data ++ [b]) = data_column data ++ hex2 b ++ lit " ".
Proof.
  unfold data_column. rewrite fmap_app, join_app. cbn [fmap list_fmap mjoin list_join].
  by rewrite app_nil_r.
Qed.

Lemma data_column_length data : length (data_column data) = (3 * length data)%nat.
Proof.
  induction data as [|b data IH] using rev_ind; [done|].
  rewrite data_column_snoc, !length_app, IH. simpl. lia.
Qed.

Lemma data_column_visible data : Forall visible (data_column data).
Proof.
  induction data as [|b data IH] using rev_ind; [constructor|]. rewrite data_column_snoc.
  apply Forall_app. split; [done|]. apply Forall_app. split; [apply hex2_visible|].
  by repeat constructor.
Qed.

Lemma hex_dump_loop_run from t n : forall i k,
  (i + n <= length from)%nat -> (3 * n < k)%nat ->
  hex_dump_loop from (Z.of_nat (length t)) (Z.of_nat i) n
    (buffer (t ++ data_column (take i from)) k) =
  Done (Z.of_nat (i + n)) (buffer (t ++ data_column (take (i + n) from)) (k - 3 * n)).
Proof.
  induction n as [|n IH]; intros i k Hi Hk.
  - rewrite Nat.add_0_r, Nat.mul_0_r, Nat.sub_0_r. done.
  - cbn [hex_dump_loop]. rewrite Nat2Z.id.
    destruct (lookup_lt_is_Some_2 from i) as [b Hb]; [lia|]. rewrite Hb.
    erewrite bind_Done by done.
    replace (Z.of_nat (length t) + Z.of_nat i * 3)
      with (Z.of_nat (length (t ++ data_column (take i from)))).
    2: { rewrite length_app, data_column_length, length_take. lia. }
    erewrite bind_Done by (apply snprintf_append; simpl; lia).
    rewrite <- app_assoc, <- data_column_snoc, <- (take_S_r _ _ _ Hb).
    replace (Z.of_nat i + 1) with (Z.of_nat (Datatypes.S i)) by lia.
    rewrite IH by (simpl; lia). cbn [length hex2 lit app]. f_equal.
    + lia.
    + replace (i + Datatypes.S n)%nat with (Datatypes.S i + n)%nat by lia. f_equal. simpl. lia.
Qed.

Lemma hex_dump_run from t (n k : nat) :
  (n <= length from)%nat -> (3 * n + 3 <= k)%nat ->
  hex_dump from (Z.of_nat (length t)) (Z.of_nat n) (buffer t k) =
  Done tt (buffer (t ++ TAB :: data_column (take n from) ++ NEWLINE) (k - (3 * n + 2))).
Proof.
  intros Hn Hk. unfold hex_dump.
  erewrite bind_Done by (apply snprintf_append; simpl; lia).
  replace (Z.of_nat (length t) + 1) with (Z.of_nat (length (t ++ [TAB])))
    by (rewrite length_app; simpl; lia).
  rewrite Nat2Z.id.
  pose proof (hex_dump_loop_run from (t ++ [TAB]) n 0 (k - 1)) as Hl.
  cbn [take data_column fmap list_fmap mjoin list_join] in Hl. rewrite app_nil_r in Hl.
  erewrite bind_Done by (apply Hl; lia).
  replace (Z.of_nat (length (t ++ [TAB])) + Z.of_nat (0 + n) * 3)
    with (Z.of_nat (length ((t ++ [TAB]) ++ data_column (take (0 + n) from)))).
  2: { rewrite (length_app (t ++ [TAB])), data_column_length, length_take. lia. }
  rewrite snprintf_append by (simpl; lia). f_equal. rewrite <- !app_assoc. unfold buffer.
  do 2 f_equal. simpl. lia.
Qed.

(** *** The whole line *)

(** What is logged of segments of the program. *)
Record loggable (time port : Z) (conn : Host.conn) (segment : ctcp_segment) : Prop := {
  lg_time : 0 <= time < 10 ^ 18;
  lg_port : - 2 ^ 31 <= port < 2 ^ 31;
  lg_conn_port : - 2 ^ 31 <= cn_port conn < 2 ^ 31;
  lg_len : SEGMENT_HDR_SIZE <= ntohs (seg_len segment) <= SEGMENT_HDR_SIZE + MAX_SEG_DATA_SIZE;
  lg_data : ntohs (seg_len segment) - SEGMENT_HDR_SIZE <= Z.of_nat (length (seg_data segment));
}.

Definition addresses (ip_addr port : Z) (conn : Host.conn) (is_sent is_unix : bool) : text :=
  if is_sent
  then addr_format (end_text is_unix ip_addr) port (end_text is_unix (cn_ip_addr conn)) (cn_port conn)
  else addr_format (end_text is_unix (cn_ip_addr conn)) (cn_port conn) (end_text is_unix ip_addr) port.

Lemma end_text_ok is_unix ip :
  Forall visible (end_text is_unix ip) /\ (length (end_text is_unix ip) < 16)%nat.
Proof.
  destruct is_unix; [|apply inet_ntop_text]. split; [by apply visible_check|simpl; lia].
Qed.

Lemma addr_format_length a p b q :
  (length a < 16)%nat -> (length b < 16)%nat -> - 2 ^ 31 <= p < 2 ^ 31 -> - 2 ^ 31 <= q < 2 ^ 31 ->
  (length (addr_format a p b q) <= 56)%nat.
Proof.
  intros Ha Hb Hp Hq. unfold addr_format. rewrite !length_app. cbn [length].
  pose proof (dec_length_int p Hp). pose proof (dec_length_int q Hq). lia.
Qed.

Lemma addresses_length ip_addr port conn is_sent is_unix :
  - 2 ^ 31 <= port < 2 ^ 31 -> - 2 ^ 31 <= cn_port conn < 2 ^ 31 ->
  (length (addresses ip_addr port conn is_sent is_unix) <= 56)%nat.
Proof.
  intros Hp Hq. unfold addresses.
  destruct is_sent; apply addr_format_length; try done; apply end_text_ok.
Qed.

Lemma format_addresses_run ip_addr port conn is_sent is_unix t k :
  - 2 ^ 31 <= port < 2 ^ 31 -> - 2 ^ 31 <= cn_port conn < 2 ^ 31 -> (56 < k)%nat ->
  format_addresses ip_addr port conn is_sent is_unix (Z.of_nat (length t)) (buffer t k) =
  Done tt (buffer (t ++ addresses ip_addr port conn is_sent is_unix)
             (k - length (addresses ip_addr port conn is_sent is_unix))).
Proof.
  intros Hp Hq Hk. pose proof (addresses_length ip_addr port conn is_sent is_unix Hp Hq) as Hl.
  unfold format_addresses, LOG_ENTRY_SIZE, addresses, end_text in *.
  destruct is_unix; cbn [negb].
  - destruct is_sent; apply snprintf_append; lia.
  - assert (Hacc : forall a, access (Z.of_nat (length (inet_ntop a)) <? INET_ADDRSTRLEN) (buffer t k) =
      Done tt (buffer t k)).
    { intros a. destruct (inet_ntop_text a) as [_ H].
      by rewrite (proj2 (Z.ltb_lt _ _)) by (unfold INET_ADDRSTRLEN; lia). }
    erewrite bind_Done by apply Hacc. erewrite bind_Done by apply Hacc.
    destruct is_sent; apply snprintf_append; lia.
Qed.

(** The pieces of the line, as they are printed. *)
Definition numbers (segment : ctcp_segment) : text :=
  dec (i32 (ntohl (seg_seqno segment))) ++ [TAB] ++ dec (i32 (ntohl (seg_ackno segment))) ++ [TAB] ++
  dec (ntohs (seg_len segment)) ++ [TAB].
Definition window_cksum (segment : ctcp_segment) : text :=
  [TAB] ++ dec (ntohs (seg_window segment)) ++ [TAB] ++ lit "0x" ++ hex (seg_cksum segment).

Lemma i32_range x : - 2 ^ 31 <= i32 x < 2 ^ 31.
Proof. unfold i32. pose proof (Z.mod_pos_bound (x + 2 ^ 31) (2 ^ 32)). lia. Qed.

Lemma numbers_length segment : (length (numbers segment) <= 30)%nat.
Proof.
  unfold numbers. rewrite !length_app. cbn [length].
  pose proof (dec_length_int _ (i32_range (ntohl (seg_seqno segment)))).
  pose proof (dec_length_int _ (i32_range (ntohl (seg_ackno segment)))).
  pose proof (ntohs_range (seg_len segment)).
  pose proof (dec_length_pos 5 (ntohs (seg_len segment))). lia.
Qed.

Lemma window_cksum_length segment : (length (window_cksum segment) <= 17)%nat.
Proof.
  unfold window_cksum. rewrite !length_app. change (length (lit "0x")) with 2%nat. cbn [length].
  pose proof (ntohs_range (seg_window segment)).
  pose proof (dec_length_pos 5 (ntohs (seg_window segment))).
  destruct (hex_spec (seg_cksum segment)) as [_ Hh]. lia.
Qed.

Lemma flag_names_length flags : (length (flag_names flags) <= 12)%nat.
Proof. unfold flag_names. by repeat destruct (has_flag _ _); simpl; lia. Qed.

Lemma print_flag_run (b : bool) t k s :
  Forall plain t -> length (lit s) = 4%nat -> (4 < k)%nat ->
  when b (snprintf_end 5 (lit s)) (buffer t k) =
  Done tt (buffer (t ++ if b then lit s else []) (k - length (if b then lit s else []))).
Proof.
  intros Ht Hs Hk. destruct b; cbn [when].
  - apply snprintf_end_run; [done|lia|lia].
  - rewrite app_nil_r, Nat.sub_0_r. done.
Qed.

(** No zero in it. *)
Lemma visible_text_plain t : Forall visible t -> Forall plain t.
Proof. intros H. eapply Forall_impl; [exact H|apply visible_plain]. Qed.

Lemma addresses_plain ip_addr port conn is_sent is_unix :
  Forall plain (addresses ip_addr port conn is_sent is_unix).
Proof.
  assert (Hf : forall a p b q, Forall visible a -> Forall visible b -> Forall plain (addr_format a p b q)).
  { intros a p b q Ha Hb. unfold addr_format. rewrite !Forall_app, !Forall_singleton.
    split_and!; auto using visible_text_plain, dec_visible; done. }
  unfold addresses. destruct is_sent; apply Hf; apply end_text_ok.
Qed.

Lemma numbers_plain segment : Forall plain (numbers segment).
Proof.
  unfold numbers. rewrite !Forall_app, !Forall_singleton.
  split_and!; auto using visible_text_plain, dec_visible; done.
Qed.

Lemma flag_names_visible flags : Forall visible (flag_names flags).
Proof. unfold flag_names. by repeat destruct (has_flag _ _); apply visible_check. Qed.

Lemma window_cksum_plain segment : Forall plain (window_cksum segment).
Proof.
  unfold window_cksum. rewrite !Forall_app, !Forall_singleton.
  split_and!; auto using visible_text_plain, dec_visible, hex_visible; [done..|].
  by apply visible_text_plain, visible_check.
Qed.

(** The line up to the data, and all of it. *)
Definition line_head (time ip_addr port : Z) (conn : Host.conn) (segment : ctcp_segment)
    (is_sent is_unix : bool) : text :=
  (((dec time ++ [TAB]) ++ addresses ip_addr port conn is_sent is_unix) ++ numbers segment) ++
  flag_names (seg_flags segment) ++ window_cksum segment.

Lemma line_columns time ip_addr port conn segment is_sent is_unix last :
  line_head time ip_addr port conn segment is_sent is_unix ++ TAB :: last =
  tabbed (log_columns time ip_addr port conn segment is_sent is_unix) last.
Proof.
  unfold line_head, log_columns, addresses, addr_format, numbers, window_cksum.
  destruct is_sent; cbn [tabbed]; by repeat first [progress cbn [app]|rewrite <- app_assoc].
Qed.

Lemma line_head_plain time ip_addr port conn segment is_sent is_unix :
  Forall plain (line_head time ip_addr port conn segment is_sent is_unix).
Proof.
  unfold line_head. rewrite !Forall_app, Forall_singleton.
  split_and!; auto using addresses_plain, numbers_plain, window_cksum_plain, visible_text_plain,
    flag_names_visible, dec_visible. done.
Qed.

Lemma line_head_length time ip_addr port conn segment is_sent is_unix :
  loggable time port conn segment ->
  (length (line_head time ip_addr port conn segment is_sent is_unix) <= 134)%nat.
Proof.
  intros [Ht Hp Hq _ _]. unfold line_head. rewrite !length_app. cbn [length].
  pose proof (dec_length_pos 18 time). pose proof (addresses_length ip_addr port conn is_sent is_unix Hp Hq).
  pose proof (numbers_length segment). pose proof (flag_names_length (seg_flags segment)).
  pose proof (window_cksum_length segment). lia.
Qed.

Lemma log_fields_run time ip_addr port conn segment is_sent is_unix k :
  loggable time port conn segment -> (134 < k)%nat ->
  let head := line_head time ip_addr port conn segment is_sent is_unix in
  log_fields time ip_addr port conn segment is_sent is_unix (buffer [] k) =
  Done tt (buffer head (k - length head)).
Proof.
  intros [Ht Hp Hq _ _] Hk head. unfold head, line_head. clear head.
  pose proof (dec_length_pos 18 time ltac:(lia) Ht) as Hdt.
  pose proof (addresses_length ip_addr port conn is_sent is_unix Hp Hq) as Hla.
  pose proof (numbers_length segment) as Hln. pose proof (flag_names_length (seg_flags segment)) as Hlf.
  pose proof (window_cksum_length segment) as Hlw.
  assert (Hu : u64 time = time) by (apply Z.mod_small; lia).
  unfold log_fields, LOG_ENTRY_SIZE. rewrite Hu.
  assert (Hlt : (length (dec time ++ [TAB]) <= 19)%nat) by (rewrite length_app; simpl; lia).
  erewrite bind_Done by (apply (snprintf_append []); lia). rewrite app_nil_l.
  set (t1 := dec time ++ [TAB]) in *.
  assert (H1 : Forall plain t1).
  { apply Forall_app. split; [apply visible_text_plain, dec_visible|by apply Forall_singleton]. }
  clearbody t1. erewrite bind_Done by (apply strlen_run; [done|lia]).
  erewrite bind_Done by (apply format_addresses_run; [done|done|lia]).
  pose proof (addresses_plain ip_addr port conn is_sent is_unix) as Hap.
  set (t2 := addresses ip_addr port conn is_sent is_unix) in *. clearbody t2.
  fold (numbers segment). fold (window_cksum segment). pose proof (numbers_plain segment) as Hnp.
  erewrite bind_Done by (apply snprintf_end_run; [by apply Forall_app|lia|lia]).
  set (t3 := numbers segment) in *. clearbody t3.
  set (t := (t1 ++ t2) ++ t3) in *.
  assert (Hp3 : Forall plain t) by (unfold t; by rewrite !Forall_app).
  assert (Hl3 : length t = (length t1 + length t2 + length t3)%nat)
    by (unfold t; by rewrite !length_app).
  pose proof (visible_text_plain _ (flag_names_visible (seg_flags segment))) as Hfp.
  unfold flag_names in *.
  set (s1 := if has_flag (seg_flags segment) TH_SYN then lit "SYN " else []) in *.
  set (s2 := if has_flag (seg_flags segment) TH_ACK then lit "ACK " else []) in *.
  set (s3 := if has_flag (seg_flags segment) TH_FIN then lit "FIN " else []) in *.
  rewrite !Forall_app in Hfp. destruct Hfp as (Hs1 & Hs2 & Hs3). rewrite !length_app in Hlf.
  erewrite bind_Done by (apply print_flag_run; [done|done|lia]). fold s1.
  erewrite bind_Done by (apply print_flag_run; [by apply Forall_app|done|lia]). fold s2.
  erewrite bind_Done by (apply print_flag_run; [by rewrite !Forall_app|done|lia]). fold s3.
  rewrite snprintf_end_run; [|by rewrite !Forall_app|lia|lia].
  rewrite <- !app_assoc, !length_app. do 2 f_equal. lia.
Qed.

Lemma log_buffer_run dbg time ip_addr port conn segment is_sent is_unix :
  loggable time port conn segment ->
  let head := line_head time ip_addr port conn segment is_sent is_unix in
  let data := take (Z.to_nat (ntohs (seg_len segment) - SEGMENT_HDR_SIZE)) (seg_data segment) in
  exists buf, log_buffer dbg time ip_addr port conn segment is_sent is_unix (zero_text LOG_SIZE) =
    Done (if dbg then ToTester (lit "!!!" ++ head ++ lit "!!!" ++ NEWLINE)
          else ToFile (head ++ TAB :: data_column data ++ NEWLINE)) buf.
Proof.
  intros Hlog head data. pose proof Hlog as [_ _ _ Hl Hd].
  unfold MAX_SEG_DATA_SIZE in Hl.
  change (zero_text LOG_SIZE) with (buffer [] (Z.to_nat LOG_SIZE)).
  assert (Hk : Z.of_nat (Z.to_nat LOG_SIZE) = 5760) by by vm_compute.
  set (k := Z.to_nat LOG_SIZE) in *. clearbody k.
  unfold log_buffer. erewrite bind_Done by (apply log_fields_run; [done|lia]).
  fold head. pose proof (line_head_length time ip_addr port conn segment is_sent is_unix Hlog) as Hlh.
  pose proof (line_head_plain time ip_addr port conn segment is_sent is_unix) as Hlp.
  fold head in Hlh, Hlp. clearbody head.
  destruct dbg; cbn [negb].
  - erewrite bind_Done by (apply strlen_run; [done|lia]).
    rewrite Nat2Z.id. eexists. unfold mbind, M_bind, gets, id, buffer. by rewrite take_app_length.
  - erewrite bind_Done by (apply strlen_run; [done|lia]).
    assert (En : i32 (u64 (ntohs (seg_len segment) - SEGMENT_HDR_SIZE)) =
      Z.of_nat (Z.to_nat (ntohs (seg_len segment) - SEGMENT_HDR_SIZE))).
    { unfold SEGMENT_HDR_SIZE in *. rewrite Z2Nat.id by lia.
      unfold u64. rewrite Z.mod_small by lia. apply i32_small. lia. }
    rewrite En. unfold SEGMENT_HDR_SIZE in *.
    erewrite bind_Done by (apply hex_dump_run; lia). fold data.
    assert (Hp : Forall plain (head ++ TAB :: data_column data ++ NEWLINE)).
    { rewrite Forall_app, Forall_cons, Forall_app. split_and!; [done|done| |by repeat constructor].
      apply visible_text_plain, data_column_visible. }
    erewrite bind_Done by (apply strlen_run; [done|lia]).
    rewrite Nat2Z.id. eexists. unfold mbind, M_bind, gets, id, buffer. by rewrite take_app_length.
Qed.

(** *** Reading the data back *)

Fixpoint undump (t : text) : list byte :=
  match t with
  | h :: l :: _ :: t => z2b (unhex h * 16 + unhex l) :: undump t
  | _ => []
  end.

Lemma undump_data data : undump (data_column data ++ NEWLINE) = data.
Proof.
  induction data as [|b data IH]; [done|].
  change (data_column (b :: data)) with ((hex2 b ++ lit " ") ++ data_column data).
  rewrite <- !app_assoc. cbn [hex2 lit app String.list_byte_of_string undump]. f_equal; [|exact IH].
  pose proof (b2z_range b).
  rewrite !unhex_digit.
  - rewrite Z.mul_comm, <- Z.div_mod by done. apply z2b_b2z.
  - by apply Z.mod_pos_bound.
  - split; [apply Z.div_pos; lia|apply Z.div_lt_upper_bound; lia].
Qed.

Lemma log_columns_visible time ip_addr port conn segment is_sent is_unix :
  Forall (Forall visible) (log_columns time ip_addr port conn segment is_sent is_unix).
Proof.
  assert (Hx : Forall visible (lit "0x" ++ hex (seg_cksum segment)))
    by (apply Forall_app; split; [by apply visible_check|apply hex_visible]).
  unfold log_columns. destruct is_sent; cbn [app]; rewrite !Forall_cons; split_and!;
    try apply dec_visible; try apply end_text_ok; try apply flag_names_visible;
    first [exact Hx|apply Forall_nil_2].
Qed.

Section Written.
Context {E : Type} `{!Os E}.

(** C23: the line that [log_segment] writes for a segment of the program, sent or
    received, with the tester's mode off: it fits in the buffer and is not cut; it
    has as many columns as the headers of the file, in their order the time, the
    addresses and ports of sender and receiver, the sequence and acknowledgement
    numbers as signed 32-bit integers (negative from 2^31 on), the length, the
    flags, the window and the checksum; and the data can be read back from the last
    one. [loggable] bounds the time in milliseconds by 10^18, the ports by an [int],
    and the length, which announces no more data than there is or than a segment
    carries. *)
Theorem log_segment_line file ip_addr port conn segment is_sent is_unix (s : sys E) sec usec e' :
  let time := sec * 1000 + Z.quot usec 1000 in
  let data := take (Z.to_nat (ntohs (seg_len segment) - SEGMENT_HDR_SIZE)) (seg_data segment) in
  os_gettimeofday (sys_env s) = ((sec, usec), e') -> test_debug_on (sys_options s) = false ->
  loggable time port conn segment ->
  exists line last,
    log_line file ip_addr port conn segment is_sent is_unix s =
      (call_write file line;; mret tt) (set_sys_env e' s) /\
    columns line = log_columns time ip_addr port conn segment is_sent is_unix ++ [last] /\
    length (columns line) = length (columns (lit LOG_HEADERS)) /\ undump last = data.
Proof.
  intros time data Ht Hdbg Hlog.
  destruct (log_buffer_run false time ip_addr port conn segment is_sent is_unix Hlog) as (buf & Hrun).
  fold data in Hrun. rewrite line_columns in Hrun.
  set (line := tabbed _ _) in Hrun. exists line, (data_column data ++ NEWLINE).
  assert (Hcols : columns line = log_columns time ip_addr port conn segment is_sent is_unix ++
    [data_column data ++ NEWLINE]).
  { apply columns_tabbed; [apply log_columns_visible|]. apply Forall_app. split.
    - eapply Forall_impl; [apply data_column_visible|apply visible_no_tab].
    - by apply Forall_singleton. }
  split; [|split; [exact Hcols|split; [|apply undump_data]]].
  - assert (Hnow : current_time s = Done time (set_sys_env e' s))
      by (unfold current_time, mbind, M_bind, syscall; by rewrite Ht).
    unfold log_line. rewrite (bind_Done (gets _) _ s (sys_options s) s eq_refl), Hdbg.
    erewrite bind_Done by exact Hnow.
    erewrite bind_Done by (unfold local; by rewrite Hrun). done.
  - rewrite Hcols, length_app. unfold log_columns. by destruct is_sent.
Qed.
End Written.
End Logging.

(** ** An example *)

(** Dotted-quad notation of an address in network order. *)
Definition dotted (a : Z) : text :=
  match le_bytes 4 a with
  | [b0; b1; b2; b3] =>
      dec (b2z b0) ++ lit "." ++ dec (b2z b1) ++ lit "." ++ dec (b2z b2) ++ lit "." ++ dec (b2z b3)
  | _ => []
  end.

Lemma dotted_text a : Forall visible (dotted a) /\ (length (dotted a) < 16)%nat.
Proof.
  unfold dotted. destruct (le_bytes 4 a) as [|b0 [|b1 [|b2 [|b3 [|]]]]];
    try (split; [apply Forall_nil_2|simpl; lia]).
  assert (Hb : forall b, Forall visible (dec (b2z b)) /\ (length (dec (b2z b)) <= 3)%nat).
  { intros b. pose proof (b2z_range b). split; [apply dec_visible|apply dec_length_pos; lia]. }
  assert (Hdot : Forall visible (lit ".")) by by apply visible_check.
  destruct (Hb b0), (Hb b1), (Hb b2), (Hb b3). rewrite !Forall_app, !length_app.
  change (length (lit ".")) with 1%nat. split; [by split_and!|lia].
Qed.

Definition logged_segment : ctcp_segment := wire_segment (2 ^ 32 - 1) 1 ACK 22 [Byte.x68; Byte.x69].
Definition logged_sys : sys os_script := ex_sys (ex_options false true 0) CPrevNull quiet_script.

(** [0 localhost 9999 localhost 8888 -1 1 22 ACK 1440 ... 68 69]. *)
Lemma log_segment_line_witness :
  exists line last,
    log_line dotted 4 16777343 9999 (ex_conn CPrevNull) logged_segment true true logged_sys =
      (call_write 4 line;; mret tt) (set_sys_env quiet_script logged_sys) /\
    columns line = log_columns dotted 0 16777343 9999 (ex_conn CPrevNull) logged_segment true true ++ [last] /\
    length (columns line) = length (columns (lit LOG_HEADERS)) /\ undump last = [Byte.x68; Byte.x69].
Proof.
  apply (log_segment_line dotted dotted_text 4 16777343 9999 (ex_conn CPrevNull) logged_segment true true
    logged_sys 0 0 quiet_script); [done|done|].
  split; by vm_compute.
Defined.

(** Numbers from 2^31 on are printed as negative. *)
Example log_negative :
  log_columns dotted 0 16777343 9999 (ex_conn CPrevNull) logged_segment true true !! 5%nat = Some (lit "-1").
Proof. by vm_compute. Qed.
