(* ===== verification/Printing.v ===== *)
(** * Printing headers ([src/ctcp_utils.c], [src/ctcp.c], [src/ctcp_sys_internal.h])

    What the program and its functions for debugging write on [stderr], as text: [usage], [print_hdr_ctcp],
    [_print_segment_info] of [src/ctcp.c], and the printing of addresses and of IP
    and TCP headers, on packets as bytes in memory. [None] is an access beyond the
    packet. *)

From stdpp Require Import strings.
From coqutil Require Import Word.LittleEndianList.
From S2P Require Import Prelude Heap Words Text Cksum Segment Host Packet Logging.

(** Of the system's headers. *)
Definition IP_RF : Z := 0x8000.
Definition IP_DF : Z := 0x4000.
Definition IP_MF : Z := 0x2000.
Definition IP_OFFMASK : Z := 0x1fff.

(** A line with a number, in decimal or hexadecimal. *)
Definition line_dec (label : string) (n : Z) : text := lit label ++ dec n ++ NEWLINE.
Definition line_hex (label : string) (n : Z) : text := lit label ++ hex n ++ NEWLINE.
Definition ruler : text := lit "+-----------------------------+" ++ NEWLINE.

Definition flag_text (flags f : Z) (name : string) : text :=
  if has_flag flags f then lit name else [].

Definition print_hdr_ctcp (segment : ctcp_segment) : text :=
  lit "[cTCP] seqno: " ++ dec (i32 (ntohl (seg_seqno segment))) ++
  lit ", ackno: " ++ dec (i32 (ntohl (seg_ackno segment))) ++
  lit ", len: " ++ dec (ntohs (seg_len segment)) ++ lit ", flags:" ++
  flag_text (seg_flags segment) TH_SYN " SYN" ++ flag_text (seg_flags segment) TH_ACK " ACK" ++
  flag_text (seg_flags segment) TH_FIN " FIN" ++
  lit ", window: " ++ dec (ntohs (seg_window segment)) ++
  lit ", cksum: " ++ hex (seg_cksum segment) ++ NEWLINE.

Definition _print_segment_info (segment : ctcp_segment) : text :=
  line_hex "   SeqNo: " (seg_seqno segment) ++ line_hex "   AckNo: " (seg_ackno segment) ++
  line_hex "   len: " (seg_len segment) ++ line_dec "   flags: " (i32 (seg_flags segment)) ++
  line_dec "   cksum: " (seg_cksum segment).

(** [inet_ntop] writes at most [INET_ADDRSTRLEN] bytes in [buf]. *)
Definition print_addr_ip (inet_ntop : Z -> text) (address : Z) : option text :=
  if Z.of_nat (length (inet_ntop address)) <? INET_ADDRSTRLEN
  then Some (inet_ntop address ++ NEWLINE) else None.

Definition print_addr_ip_int (ip : Z) : text :=
  let octet k := Z.shiftr (u32 (Z.shiftl ip k)) 24 in
  dec (i32 (Z.shiftr ip 24)) ++ lit "." ++ dec (i32 (octet 8)) ++ lit "." ++
  dec (i32 (octet 16)) ++ lit "." ++ dec (i32 (octet 24)) ++ NEWLINE.

Definition print_hdr_ip (buf : list byte) : option text :=
  ip_hdr ← iphdr_of_bytes buf;
  let frag := ntohs (ip_frag_off ip_hdr) in
  Some (ruler ++ lit "IP HEADER" ++ NEWLINE ++
    line_dec "  version: " (ip_version ip_hdr) ++
    line_dec "  header length: " (ip_ihl ip_hdr) ++
    line_dec "  type of service: " (ip_tos ip_hdr) ++
    line_dec "  length: " (ntohs (ip_tot_len ip_hdr)) ++
    line_dec "  id: " (ntohs (ip_id ip_hdr)) ++
    (if has_flag frag IP_DF then lit "  fragment flag: DF" ++ NEWLINE
     else if has_flag frag IP_MF then lit "  fragment flag: MF" ++ NEWLINE
     else if has_flag frag IP_RF then lit "  fragment flag: R" ++ NEWLINE else []) ++
    line_dec "  fragment offset: " (Z.land frag IP_OFFMASK) ++
    line_dec "  TTL: " (ip_ttl ip_hdr) ++
    line_dec "  protocol: " (ip_protocol ip_hdr) ++
    line_hex "  checksum: " (ip_check ip_hdr) ++
    lit "  source: " ++ print_addr_ip_int (ntohl (ip_saddr ip_hdr)) ++
    lit "  destination: " ++ print_addr_ip_int (ntohl (ip_daddr ip_hdr))).

Definition print_hdr_tcp (buf : list byte) : option text :=
  tcp_hdr ← tcphdr_of_bytes buf;
  let flags := th_flags tcp_hdr in
  Some (ruler ++ lit "TCP HEADER" ++ NEWLINE ++
    line_dec "  source port: " (ntohs (th_sport tcp_hdr)) ++
    line_dec "  destination port: " (ntohs (th_dport tcp_hdr)) ++
    line_dec "  seq number: " (i32 (ntohl (th_seq tcp_hdr))) ++
    line_dec "  ack number: " (i32 (ntohl (th_ack tcp_hdr))) ++
    lit "  flags: " ++ flag_text flags TH_SYN "SYN " ++ flag_text flags TH_ACK "ACK " ++
    flag_text flags TH_FIN "FIN " ++ flag_text flags TH_RST "RST " ++ NEWLINE ++
    line_dec "  window size: " (ntohs (th_win tcp_hdr)) ++
    line_hex "  checksum: " (th_sum tcp_hdr)).

(** [usage] prints this, and ends the process. *)
Definition usage (progname : text) : text :=
  NEWLINE ++ lit "Usage: " ++ progname ++ NEWLINE ++
  lit "   -c server_host:server_port  [client only]" ++ NEWLINE ++
  lit "   -s                          [server only]" ++ NEWLINE ++
  lit "   -p port" ++ NEWLINE ++
  lit "   [-d]" ++ NEWLINE ++
  lit "   [-w window_size]" ++ NEWLINE ++
  lit "   [--seed seed]" ++ NEWLINE ++
  lit "   [--drop drop_percent]" ++ NEWLINE ++
  lit "   [--corrupt corrupt_percent]" ++ NEWLINE ++
  lit "   [--delay delay_percent]" ++ NEWLINE ++
  lit "   [--duplicate duplicate_percent]" ++ NEWLINE ++
  lit "   [-- program arg1 arg2 ...]" ++ NEWLINE ++ NEWLINE.

Definition print_hdrs (buf : list byte) (length : Z) : option text :=
  let min_length := IP_HDR_SIZE in
  if length <? min_length then
    Some (lit "[ERROR] Failed to print IP header, insufficient length" ++ NEWLINE)
  else
    ip ← print_hdr_ip buf;
    ip_hdr ← iphdr_of_bytes buf;
    if bool_decide (ip_protocol ip_hdr = IPPROTO_TCP) then
      let min_length := min_length + IP_HDR_SIZE in
      if length <? min_length then
        Some (ip ++ lit "[ERROR] Failed to print TCP header, insufficient length" ++ NEWLINE)
      else
        tcp ← print_hdr_tcp (drop 20 buf);
        Some (ip ++ tcp)
    else Some ip.

(** ** Properties *)

(** [print_hdrs] reads nothing beyond a packet of the length it is given. *)
Lemma print_hdrs_defined buf : is_Some (print_hdrs buf (Z.of_nat (length buf))).
Proof.
  unfold print_hdrs, print_hdr_ip, print_hdr_tcp, iphdr_of_bytes, tcphdr_of_bytes, IP_HDR_SIZE, TCP_HDR_SIZE.
  destruct (Z.ltb_spec (Z.of_nat (length buf)) 20); [done|].
  rewrite (bool_decide_false (Z.of_nat (length buf) < 20)) by lia. cbn [mbind option_bind].
  destruct (bool_decide (_ = _)); [|done]. destruct (Z.ltb_spec (Z.of_nat (length buf)) (20 + 20)); [done|].
  rewrite bool_decide_false by (rewrite length_drop; lia). cbn [mbind option_bind]. done.
Qed.

Lemma le_int_4 b0 b1 b2 b3 :
  le_int [b0; b1; b2; b3] = b2z b0 + 2 ^ 8 * b2z b1 + 2 ^ 16 * b2z b2 + 2 ^ 24 * b2z b3.
Proof.
  pose proof (b2z_range b0). pose proof (b2z_range b1). pose proof (b2z_range b2).
  change (Z.lor (b2z b0) (Z.shiftl (Z.lor (b2z b1) (Z.shiftl (Z.lor (b2z b2)
    (Z.shiftl (le_combine [b3]) 8)) 8)) 8) = b2z b0 + 2 ^ 8 * b2z b1 + 2 ^ 16 * b2z b2 + 2 ^ 24 * b2z b3).
  rewrite !lor_shiftl_add, le_combine_1 by lia. lia.
Qed.

(** [print_addr_ip_int] of an address in host order prints it in dotted-quad
    notation, most significant byte first. *)
Lemma print_addr_ip_int_dotted b0 b1 b2 b3 :
  print_addr_ip_int (ntohl (le_int [b0; b1; b2; b3])) =
  dec (b2z b0) ++ lit "." ++ dec (b2z b1) ++ lit "." ++ dec (b2z b2) ++ lit "." ++ dec (b2z b3) ++ NEWLINE.
Proof.
  pose proof (b2z_range b0) as H0. pose proof (b2z_range b1) as H1.
  pose proof (b2z_range b2) as H2. pose proof (b2z_range b3) as H3.
  unfold ntohl. rewrite (le_bytes_int' 4) by done. cbn [rev app]. rewrite le_int_4.
  unfold print_addr_ip_int. rewrite !Z.shiftr_div_pow2, !Z.shiftl_mul_pow2 by done. unfold u32.
  remember (b2z b3 + 2 ^ 8 * b2z b2 + 2 ^ 16 * b2z b1 + 2 ^ 24 * b2z b0) as x eqn:Hx.
  assert (E0 : x / 2 ^ 24 = b2z b0)
    by (symmetry; apply (Z.div_unique_pos _ _ _ (b2z b3 + 2 ^ 8 * b2z b2 + 2 ^ 16 * b2z b1)); lia).
  assert (E1 : x * 2 ^ 8 mod 2 ^ 32 / 2 ^ 24 = b2z b1).
  { rewrite <- (Z.mod_unique_pos (x * 2 ^ 8) (2 ^ 32) (b2z b0)
      (2 ^ 24 * b2z b1 + 2 ^ 16 * b2z b2 + 2 ^ 8 * b2z b3)) by lia.
    symmetry. apply (Z.div_unique_pos _ _ _ (2 ^ 16 * b2z b2 + 2 ^ 8 * b2z b3)); lia. }
  assert (E2 : x * 2 ^ 16 mod 2 ^ 32 / 2 ^ 24 = b2z b2).
  { rewrite <- (Z.mod_unique_pos (x * 2 ^ 16) (2 ^ 32) (b2z b1 + 2 ^ 8 * b2z b0)
      (2 ^ 24 * b2z b2 + 2 ^ 16 * b2z b3)) by lia.
    symmetry. apply (Z.div_unique_pos _ _ _ (2 ^ 16 * b2z b3)); lia. }
  assert (E3 : x * 2 ^ 24 mod 2 ^ 32 / 2 ^ 24 = b2z b3).
  { rewrite <- (Z.mod_unique_pos (x * 2 ^ 24) (2 ^ 32) (b2z b2 + 2 ^ 8 * b2z b1 + 2 ^ 16 * b2z b0)
      (2 ^ 24 * b2z b3)) by lia. symmetry. apply (Z.div_unique_pos _ _ _ 0); lia. }
  rewrite E0, E1, E2, E3. by rewrite !i32_small by lia.
Qed.
