(* ===== verification/Echo.v ===== *)
(** * The echo program ([src/test.c])

    The program that a server may run for each client ([./ctcp -s -p port -- ./test]):
    it prints every message that it reads. Printing goes as far as the zero that
    [memset] has left behind the message; a message that fills the buffer has
    none. *)

From stdpp Require Import strings.
From S2P Require Import Prelude Words Text Host Logging.

(** The bytes of [buf], up to its zero; [None] when there is no zero in it, and
    [%s] goes on beyond the buffer. *)
Fixpoint c_string (buf : text) : option text :=
  match buf with
  | [] => None
  | b :: buf => if decide (b = NUL) then Some [] else cons b <$> c_string buf
  end.

Definition ECHO_SIZE : nat := 1000.

(** The body of the loop, [r] being what [read] gives: what is printed. *)
Definition echo_step (r : io_result (list byte)) : option text :=
  let buf := replicate ECHO_SIZE NUL in
  match r with
  | IoOk bs =>
      let buf := bs ++ drop (length bs) buf in
      if bool_decide (0 < Z.of_nat (length bs)) then
        message ← c_string buf; Some (lit "Got: " ++ message ++ NEWLINE)
      else Some []
  | IoErr _ => Some []
  end.

(** The loop never ends; this is it for as long as the reads are [rs]. *)
Fixpoint echo (rs : list (io_result (list byte))) : option text :=
  match rs with
  | [] => Some []
  | r :: rs => out ← echo_step r; rest ← echo rs; Some (out ++ rest)
  end.

(** ** Properties *)

Lemma c_string_ended t u : Forall plain t -> c_string (t ++ NUL :: u) = Some t.
Proof.
  intros Ht. induction Ht as [|b t Hb _ IH]; cbn [app c_string].
  - by rewrite decide_True by done.
  - by rewrite decide_False, IH by done.
Qed.

Lemma c_string_unended t : Forall plain t -> c_string t = None.
Proof.
  intros Ht. induction Ht as [|b t Hb _ IH]; cbn [c_string]; [done|]. by rewrite decide_False, IH by done.
Qed.

(** A message of text. *)
Definition message (bs : list byte) : Prop := Forall plain bs /\ (0 < length bs)%nat.

Lemma echo_step_message bs :
  message bs -> (length bs < ECHO_SIZE)%nat -> echo_step (IoOk bs) = Some (lit "Got: " ++ bs ++ NEWLINE).
Proof.
  intros [Hp H0] Hl. unfold echo_step. rewrite bool_decide_true by lia.
  rewrite drop_replicate. destruct (ECHO_SIZE - length bs)%nat as [|k] eqn:Ek; [lia|].
  cbn [replicate]. by rewrite c_string_ended.
Qed.

(** Messages shorter than the buffer are printed whole, in their order. *)
Lemma echo_messages bss :
  Forall (fun bs => message bs /\ (length bs < ECHO_SIZE)%nat) bss ->
  echo (IoOk <$> bss) = Some (mjoin ((fun bs => lit "Got: " ++ bs ++ NEWLINE) <$> bss)).
Proof.
  intros Hb. induction Hb as [|bs bss [Hm Hl] _ IH]; [done|]. cbn [fmap list_fmap echo].
  rewrite echo_step_message by done. cbn [mbind option_bind]. by rewrite IH.
Qed.

(** One that fills the buffer, as 1000 bytes out of a segment of 1440 do, is not
    cut off, as the comment hopes: the printing goes beyond the buffer. *)
Lemma echo_overrun bs :
  message bs -> length bs = ECHO_SIZE -> echo_step (IoOk bs) = None.
Proof.
  intros [Hp H0] Hl. unfold echo_step. rewrite bool_decide_true by lia.
  rewrite drop_ge by (rewrite length_replicate; lia). rewrite app_nil_r. by rewrite c_string_unended.
Qed.
