(* ===== verification/Client.v ===== *)
(** * A client in its main loop

    A client on the machine of its server, whose terminal takes at once what it
    is given: the invariant of its connection, under which the library keeps its
    contract with [ctcp.c], and every iteration of [do_loop]. *)

From Stdlib Require Import Ascii String.
From S2P Require Import Prelude Heap Words Cksum LinkedList Segment ConnLib Ctcp CtcpSpec CtcpSteps.
From S2P Require Import CtcpInv CtcpRefine Script CtcpSafety CtcpTimer.
From S2P Require Import Host Packet PacketProps Conn Queue ConnInv ConnOut ConnSend ConnInput ConnLaws.
From S2P Require Import ConnScript Loop LoopProps Accept Start StartProps.

(** A terminal that takes all or fails, and a network whose packets are as long as
    they say. *)
Class ClientLaws (E : Type) `{Os E} := {
  os_write_whole fd bs e r e' :
    os_write fd bs e = (r, e') ->
    r = IoOk (Z.of_nat (length bs)) \/ exists errno, r = IoErr errno /\ errno <> EAGAIN;
  os_recv_announced fd n e bs e' d :
    os_recv fd n e = (IoOk bs, e') -> datagram_of_bytes bs = Some d ->
    FULL_HDR_SIZE <= ntohs (ip_tot_len (dg_ip d)) <= Z.of_nat (length bs);
}.

(** ** Output that is taken at once *)

Section AtOnce.
Context {Env : Type} `{!Os Env, !OsLaws Env}.
Implicit Types (s : sys Env).

(** What becomes of [conn_output] on the connection [c] at [cl], whose queue is
    empty, when a write takes all or fails. *)
Inductive output_at_once (cl : loc) (c : conn) s (len : Z) : Z -> sys Env -> Prop :=
  | OutAfterEnd : cn_wrote_eof c = true -> output_at_once cl c s len 0 s
  | OutEnd : len = 0 ->
      output_at_once cl c s len 0 (with_conns (<[cl := set_cn_wrote_eof true c]> (ConnInv.conns s)) s)
  | OutBroken : len <> 0 -> cn_wrote_eof c = false -> cn_wrote_err c = true ->
      output_at_once cl c s len (-1) s
  | OutFull : len <> 0 -> output_at_once cl c s len 0 s
  | OutTaken s' : len <> 0 -> quiet s s' -> output_at_once cl c s len len s'
  | OutFails errno fd bs e s1 : len <> 0 -> quiet s s1 -> fst (os_write fd bs e) = IoErr errno ->
      output_at_once cl c s len (-1)
        (with_conns (<[cl := set_cn_wrote_err true c]> (ConnInv.conns s1)) s1).

Lemma wp_output_at_once `{!ClientLaws Env} Q cl c s buf len X :
  sys_inv Q s -> ConnInv.conns s !! cl = Some c ->
  cn_out_queue c = None /\ cn_out_queue_tail c = TailQueue -> cn_delete_me c = false ->
  0 <= len <= Z.of_nat (length buf) -> len <= MAX_BUF_SPACE ->
  wp (conn_output (Some cl) buf len) (output_at_once cl c s len) X s.
Proof.
  intros Hi Hc [Hnone _] Hd Hlen Hmax. unfold conn_output. cbn [deref]. apply wp_bind, wp_ret, wp_bind.
  eapply wp_conn_load; [exact Hc|]. rewrite Hd. apply wp_bind, wp_ret.
  destruct (cn_wrote_eof c) eqn:Heof; [by apply wp_ret, OutAfterEnd|].
  case_bool_decide as Hz.
  { apply wp_bind. eapply wp_conn_update; [exact Hc|]. by apply wp_ret, OutEnd. }
  destruct (cn_wrote_err c) eqn:Herr; [by apply wp_ret, OutBroken|].
  destruct (si_queue _ _ Hi _ _ Hc) as (q & HQ & Hq).
  apply wp_bind. eapply wp_Done; [by eapply conn_bufspace_run|].
  case_bool_decide; [by apply wp_ret, OutFull|].
  apply wp_bind, wp_access; [apply Z.leb_le; lia|]. apply wp_bind.
  rewrite (i32_small len) by (unfold MAX_BUF_SPACE in *; lia).
  unfold output_now. rewrite Hnone.
  apply wp_bind. unfold output_fd. apply wp_bind, wp_opt, wp_ret.
  apply wp_bind. unfold call_write. apply wp_bind. unfold wp at 1, syscall.
  match goal with |- context [os_write ?fd ?bs ?e] =>
    destruct (os_write fd bs e) as [r e'] eqn:Hw end.
  pose proof Hw as [->|(errno & -> & Hne)]%os_write_whole.
  - rewrite length_take, Nat2Z.inj_min, Z2Nat.id, Z.min_l by lia.
    apply wp_bind, wp_modify, wp_ret, wp_ret. rewrite Z.sub_diag. change (i32 0) with 0.
    cbn [Z.gtb Z.compare when]. apply wp_bind, wp_ret, wp_bind.
    eapply wp_conn_load; [exact Hc|]. rewrite Hnone, bool_decide_true by done.
    apply wp_bind, wp_ret, wp_ret, OutTaken; [done|].
    transitivity (set_sys_env e' s); [auto with ctcp|apply quiet_io].
  - apply wp_bind, wp_ret, wp_ret. rewrite bool_decide_false by done. cbn [negb].
    apply wp_bind. eapply wp_conn_update; [exact Hc|]. apply wp_ret, wp_ret.
    eapply (OutFails cl c s len errno _ _ _ (set_sys_env e' s)); [done|auto with ctcp|by rewrite Hw].
Qed.
(** With nothing to output [conn_drain] does not call [ctcp_output]. *)
Lemma wp_drain_nothing cl c s X :
  ConnInv.conns s !! cl = Some c -> cn_out_queue c = None /\ cn_out_queue_tail c = TailQueue ->
  Z.of_nat (length (sys_events s)) = NUM_EVENTS ->
  wp (conn_drain_io cl) (fun b s' => b = false /\ exists ev, length ev = length (sys_events s) /\
    let s1 := set_sys_events ev s in
    (s' = s1 \/ cn_wrote_eof c = true /\
       s' = with_conns (<[cl := set_cn_wrote_err true c]> (ConnInv.conns s1)) s1)) X s.
Proof.
  intros Hc [Hq _] He. unfold conn_drain_io. apply wp_bind, wp_update_event; [by rewrite He; vm_compute|].
  intros ev Hev. set (s1 := set_sys_events ev s).
  assert (Hstay : forall b, b = false -> b = false /\ exists ev, length ev = length (sys_events s) /\
    let s1' := set_sys_events ev s in
    (s1 = s1' \/ cn_wrote_eof c = true /\
       s1 = with_conns (<[cl := set_cn_wrote_err true c]> (ConnInv.conns s1')) s1')).
  { intros b ->. split; [done|]. exists ev. auto. }
  change (ConnInv.conns s !! cl) with (ConnInv.conns s1 !! cl) in Hc.
  apply wp_bind. eapply wp_conn_load; [exact Hc|].
  destruct (cn_wrote_err c) eqn:Herr; [by apply wp_ret, Hstay|].
  apply wp_bind, wp_gets, wp_bind. cbn [drain_loop]. apply wp_bind.
  eapply wp_conn_load; [exact Hc|]. rewrite Hq. apply wp_ret.
  apply wp_bind. eapply wp_conn_load; [exact Hc|]. rewrite Hq, Herr. cbn [negb]. rewrite andb_true_r.
  apply wp_bind, wp_when; intros Heof.
  - rewrite andb_true_r in Heof. eapply wp_conn_update; [exact Hc|].
    apply wp_bind. eapply wp_conn_load; [apply lookup_insert_eq|].
    apply wp_ret. split; [done|]. exists ev. split; [done|]. by right.
  - apply wp_bind. eapply wp_conn_load; [exact Hc|]. by apply wp_ret, Hstay.
Qed.

(** Polling changes the table only. *)
Lemma wp_poll_events (Q : unit -> sys Env -> Prop) X s :
  Z.of_nat (length (sys_events s)) = NUM_EVENTS ->
  (forall e ev, length ev = length (sys_events s) -> Q tt (set_sys_events ev (set_sys_env e s))) ->
  wp poll_events Q X s.
Proof.
  intros Hev HQ. unfold poll_events. apply wp_bind, wp_gets, wp_bind, wp_gets, wp_bind.
  unfold need_timer_in. apply wp_bind. unfold get_time. apply wp_bind. unfold wp at 1, syscall.
  destruct (os_gettimeofday (sys_env s)) as [[sec usec] e]. apply wp_ret, wp_ret.
  apply wp_bind, wp_gets, wp_bind, wp_gets, wp_bind. unfold wp at 1, syscall.
  match goal with |- context [os_poll ?evs ?ms ?x] =>
    pose proof (os_poll_law evs ms x) as Hp; destruct (os_poll evs ms x) as [revs e'] end.
  cbn [fst] in Hp. apply wp_modify. apply (HQ e').
  rewrite length_app, length_zip_with, Hp, length_drop, length_take.
  change (sys_events (set_sys_env e s)) with (sys_events s). lia.
Qed.

(** The headers of a packet do not depend on what follows it in the buffer. *)
Lemma received_headers bs rest d :
  FULL_HDR_SIZE <= Z.of_nat (length bs) -> datagram_of_bytes (bs ++ rest) = Some d ->
  exists payload, datagram_of_bytes bs = Some (Datagram (dg_ip d) (dg_tcp d) payload) /\
    tcphdr_wf (dg_tcp d).
Proof.
  intros Hlen Hd. destruct (datagram_of_bytes_Some bs Hlen) as ([ip tcp payload] & Hbs & Hbytes & Hw1 & Hw2).
  cbn [dg_ip dg_tcp] in *. rewrite <- Hbytes, datagram_of_bytes_bytes in Hd by done.
  injection Hd as <-. by exists payload.
Qed.
End AtOnce.

Section Client.
Context {Env : Type} `{!Os Env, !OsLaws Env, !ClientLaws Env}.
Implicit Types (s : sys Env) (w : W (E := Env)).

Abbreviation anywhere := (fun _ => True).

(** ** The invariant *)

(** The connection at [cl], whose endpoint is at [l], is the only one, and has
    nothing to output. *)
Record lone (cl l : loc) (c : conn) s : Prop := {
  ln_client : SERVER (sys_options s) = false;
  ln_plain : run_program (sys_options s) = false;
  ln_unix : unix_socket (sys_options s) = true;
  ln_conns : ConnInv.conns s = {[cl := c]};
  ln_brk : (cl < brk (sys_conns s))%positive;
  ln_sconn : sconn (sys_config s) = Some cl;
  ln_chunks : sys_chunks s = heap_empty;
  ln_events : Z.of_nat (length (sys_events s)) = NUM_EVENTS;
  ln_queue : cn_out_queue c = None /\ cn_out_queue_tail c = TailQueue;
  ln_alone : cn_next c = None /\ cn_prev c = CPrevNull;
  ln_state : cn_state c = Some l;
}.

Definition client_ok (cl l : loc) s : Prop := exists c, lone cl l c s.
Definition client_open (cl : loc) s (p : ptr) : Prop :=
  p = Some cl /\ exists c, ConnInv.conns s !! cl = Some c /\ cn_delete_me c = false.

Lemma lone_lookup cl l c s : lone cl l c s -> ConnInv.conns s !! cl = Some c.
Proof. intros H. rewrite (ln_conns _ _ _ _ H). apply lookup_singleton_eq. Qed.

Lemma lone_open cl l c s p :
  lone cl l c s -> client_open cl s p -> p = Some cl /\ cn_delete_me c = false.
Proof. intros H [-> (c' & Hc & Hd)]. rewrite (lone_lookup _ _ _ _ H) in Hc. by simplify_eq. Qed.

Lemma lone_ok cl l c s : lone cl l c s -> sys_ok s.
Proof. intros [H1 H2 H3 H4 H5 H6 H7 H8 [H9 H9'] [H10 H10'] _]. by eapply single_ok. Qed.

Lemma lone_same cl l c s s' : lone cl l c s -> same s s' -> lone cl l c s'.
Proof. intros [] []. split; try done; unfold ConnInv.conns in *; congruence. Qed.

Lemma open_same cl s s' p : same s s' -> client_open cl s p -> client_open cl s' p.
Proof.
  intros Hs [-> (c & Hc & Hd)]. split; [done|]. exists c. split; [|done].
  unfold ConnInv.conns in *. by rewrite (sm_conns _ _ Hs).
Qed.

Lemma ok_same cl l s s' :
  same s s' -> client_ok cl l s ->
  client_ok cl l s' /\ (forall p, client_open cl s p -> client_open cl s' p).
Proof.
  intros Hs [c H]. split; [|by intros p; apply open_same]. exists c. by eapply lone_same.
Qed.

(** An update of the flags of the connection. *)
Lemma lone_update cl l c f s :
  lone cl l c s -> cn_out_queue (f c) = cn_out_queue c ->
  cn_out_queue_tail (f c) = cn_out_queue_tail c -> cn_next (f c) = cn_next c ->
  cn_prev (f c) = cn_prev c -> cn_state (f c) = cn_state c ->
  lone cl l (f c) (with_conns (<[cl := f c]> (ConnInv.conns s)) s).
Proof.
  intros [] E1 E2 E3 E4 E5. split; try done.
  - unfold ConnInv.conns at 1. cbn [with_conns set_sys_conns sys_conns mem].
    rewrite ln_conns0. apply insert_singleton_eq.
  - by rewrite E1, E2.
  - by rewrite E3, E4.
  - by rewrite E5.
Qed.

Lemma ok_update cl l c f s :
  lone cl l c s -> cn_out_queue (f c) = cn_out_queue c ->
  cn_out_queue_tail (f c) = cn_out_queue_tail c -> cn_next (f c) = cn_next c ->
  cn_prev (f c) = cn_prev c -> cn_state (f c) = cn_state c ->
  cn_delete_me (f c) = cn_delete_me c ->
  client_ok cl l (with_conns (<[cl := f c]> (ConnInv.conns s)) s) /\
  (forall p, client_open cl s p -> client_open cl (with_conns (<[cl := f c]> (ConnInv.conns s)) s) p).
Proof.
  intros H E1 E2 E3 E4 E5 E6. pose proof (lone_update cl l c f s H E1 E2 E3 E4 E5) as H'.
  split; [by exists (f c)|]. intros p Hp. destruct (lone_open _ _ _ _ _ H Hp) as [-> Hd].
  split; [done|]. exists (f c). split; [by eapply lone_lookup|congruence].
Qed.

(** ** The contract of the library *)

Lemma client_output cl l c s buf len :
  lone cl l c s -> cn_delete_me c = false -> 0 <= len <= Z.of_nat (length buf) ->
  len <= MAX_BUF_SPACE ->
  wp (conn_output (Some cl) buf len)
    (fun r s' => client_ok cl l s' /\ (forall p, client_open cl s p -> client_open cl s' p) /\
                 (len = 0 -> r = 0) /\ (r = -1 \/ r = 0 \/ r = len)) anywhere s.
Proof.
  intros H Hd Hlen Hmax. destruct (lone_ok _ _ _ _ H) as [[Q Hi] _].
  eapply wp_mono; [eapply wp_output_at_once; [exact Hi|by eapply lone_lookup|apply H|done..]|].
  intros r s' Hout.
  assert (Hs' : client_ok cl l s' /\ (forall p, client_open cl s p -> client_open cl s' p)).
  { destruct Hout as [| | | | |errno fd bs e s1 _ Hq].
    1, 3, 4: split; [by exists c|done].
    - by apply ok_update.
    - apply ok_same; [by apply same_quiet|by exists c].
    - destruct (ok_same cl l _ _ (same_quiet _ _ Hq)) as [[c1 H1] Hop]; [by exists c|].
      assert (c1 = c) as ->.
      { pose proof (lone_lookup _ _ _ _ (lone_same _ _ _ _ _ H (same_quiet _ _ Hq))).
        pose proof (lone_lookup _ _ _ _ H1). congruence. }
      destruct (ok_update cl l c (set_cn_wrote_err true) s1 H1) as [H2 H3]; try done. auto. }
  destruct Hs'. split_and!; [done|done|..]; destruct Hout; auto; lia.
Qed.

Program Definition client_laws (cl l : loc) : ConnLaws (sys Env) := {|
  lib_inv := client_ok cl l;
  conn_open := client_open cl;
  end_returns s := False;
|}.
Next Obligation.
  intros cl l p buf s [c H] Hp Hb. destruct (lone_open _ _ _ _ _ H Hp) as [-> Hd].
  cbn [ConnLib.conn_input sys_lib].
  eapply wp_mono_exit; [apply (wp_conn_input s cl c); [by eapply lone_lookup|done|apply (lone_ok _ _ _ _ H)|]|done|].
  { unfold MAX_SEG_DATA_SIZE in *. lia. }
  intros [r buf'] s' (Hl & Hr & Hin).
  assert (H' : client_ok cl l s' /\ (forall p, client_open cl s p -> client_open cl s' p)).
  { destruct (cn_read_eof c); [destruct Hin as (_ & _ & ->); split; [by exists c|done]|].
    destruct Hin as [(_ & _ & _ & Hq)|[(bs & _ & _ & _ & _ & Hq)|[_ (c1 & Hc1 & Hq)]]];
      [apply ok_same; [by apply same_quiet|by exists c]..|].
    rewrite (lone_lookup _ _ _ _ H) in Hc1. injection Hc1 as <-.
    destruct (ok_update cl l c (set_cn_read_eof true) s H) as [H1 H2]; try done.
    destruct (ok_same cl l _ _ (same_quiet _ _ Hq) H1) as [H3 H4]. split; auto. }
  destruct H'. split_and!; [done|done|done|lia].
Qed.
Next Obligation.
  intros cl l p seg len s [c H] Hp Hl Hlen. destruct (lone_open _ _ _ _ _ H Hp) as [-> Hd].
  cbn [ConnLib.conn_send sys_lib].
  eapply wp_mono_exit; [apply (wp_conn_send s cl c seg len); [by eapply lone_lookup|done..]|done|].
  intros n s' [[Hq _] _]. apply ok_same; [by apply same_quiet|by exists c].
Qed.
Next Obligation.
  intros cl l p buf len s [c H] Hp Hlen Hmax. destruct (lone_open _ _ _ _ _ H Hp) as [-> Hd].
  cbn [ConnLib.conn_output sys_lib]. by eapply client_output.
Qed.
Next Obligation.
  intros cl l p s [c H] Hp. destruct (lone_open _ _ _ _ _ H Hp) as [-> Hd].
  cbn [ConnLib.conn_bufspace sys_lib]. destruct (lone_ok _ _ _ _ H) as [[Q Hi] _].
  destruct (si_queue _ _ Hi _ _ (lone_lookup _ _ _ _ H)) as (q & HQ & Hq).
  exists (bufspace_of q). split; [by eapply conn_bufspace_run; [exact (lone_lookup _ _ _ _ H)|..]|].
  unfold bufspace_of. unfold MAX_BUF_SPACE. lia.
Qed.
Next Obligation.
  intros cl l p s [c H] Hp. destruct (lone_open _ _ _ _ _ H Hp) as [-> Hd].
  cbn [ConnLib.conn_remove sys_lib].
  unfold conn_remove. cbn [deref]. apply wp_bind, wp_ret.
  eapply wp_conn_update; [by eapply lone_lookup|].
  split; [eexists; by apply (lone_update cl l c (set_cn_delete_me true) s)|].
  intros p Hne [-> _]. done.
Qed.
Next Obligation.
  intros cl l s [c H]. destruct (lone_ok _ _ _ _ H) as [[Q Hi] _]. cbn [ConnLib.end_client sys_lib].
  eapply wp_mono_exit; [by apply (end_client_spec Q)|done|].
  intros [] s' [Hsrv _]. rewrite (ln_client _ _ _ _ H) in Hsrv. done.
Qed.

#[export] Instance client_loop_laws cl l : LoopLaws Env (client_laws cl l).
Proof.
  split.
  - intros s s' Hq Hok. apply ok_same; [by apply same_quiet|done].
  - intros v s Hok. by apply ok_same.
  - intros s [c H]. apply H.
Qed.
End Client.

(** ** Iterations *)

Section Iterations.
Context {Env : Type} `{!Os Env, !OsLaws Env, !ClientLaws Env}.
Context (cl l : loc).
Implicit Types (s : sys Env) (w : W (E := Env)).

Abbreviation anywhere := (fun _ => True).

#[local] Instance here : ConnLaws (sys Env) := client_laws cl l.

(** The endpoint of the connection is the only one, and safe. *)
Definition running w : Prop := exists e, safe_state w [l] {[l := e]}.

(** What a step of the loop has to show. *)
Definition keeps_running {A} (m : M W A) : Prop :=
  forall w, running w -> wp m (fun _ w' => running w') anywhere w.

Lemma running_conn w :
  running w -> exists c, lone cl l c (w_sys w) /\ cn_delete_me c = false.
Proof.
  intros (e & Hs). destruct (ss_lib _ _ _ Hs) as [c H]. exists c. split; [done|].
  eapply lone_open; [exact H|]. apply (ss_open _ _ _ Hs l e). apply lookup_singleton_eq.
Qed.

Lemma stays_running w' e : stays_safe [l] {[l := e]} l w' -> running w'.
Proof.
  intros (order & E & Hs & Ho & HE). destruct Ho as [->|[_ Hend]]; [|destruct Hend]. destruct (ss_represents _ _ _ Hs) as (O & Hi).
  destruct (proj2 (inv_dom _ _ _ _ Hi l)) as [e' He']; [by left|]. exists e'.
  replace {[l := e']} with E; [done|]. apply map_eq. intros k. destruct (decide (k = l)) as [->|Hk].
  - by rewrite lookup_singleton_eq.
  - rewrite HE by done. by rewrite !lookup_singleton_ne.
Qed.

Lemma wp_running {A} (m : M W A) w e :
  wp m (fun _ w' => stays_safe [l] {[l := e]} l w') anywhere w ->
  wp m (fun _ w' => running w') anywhere w.
Proof. intros H. eapply wp_mono; [exact H|]. intros x w'. apply stays_running. Qed.

Lemma running_sys w s : running w -> same (w_sys w) s -> running (w_set_sys s w).
Proof.
  intros (e & Hs) Hsame. exists e.
  destruct (ok_same cl l _ _ Hsame (ss_lib _ _ _ Hs)) as [H1 H2]. by apply safe_state_sys.
Qed.

Lemma running_id w : running w -> running (w_set_sys (w_sys w) w).
Proof. intros H. by apply running_sys. Qed.

Lemma read_running : keeps_running (ctcp_read l).
Proof. intros w (e & Hs). apply (wp_running _ _ e), read_safe; [done|by left]. Qed.

Lemma handler_running : keeps_running (retransmission_handler l).
Proof. intros w (e & Hs). apply (wp_running _ _ e), handler_safe; [done|by left]. Qed.

Lemma head_running w : running w -> head_of (w_sys w) = Some cl.
Proof.
  intros (c & H & _)%running_conn. unfold head_of.
  by rewrite (ln_client _ _ _ _ H), (ln_sconn _ _ _ _ H).
Qed.

Lemma stdin_running : keeps_running handle_stdin.
Proof.
  intros w Hw. pose proof (head_running _ Hw) as Hh.
  destruct (running_conn _ Hw) as (c & H & _). destruct Hw as (e & Hs).
  apply (wp_running _ _ e), stdin_safe; [done|by left|].
  intros cl' Hcl. rewrite Hh in Hcl. injection Hcl as <-.
  exists c. split; [by eapply lone_lookup|apply H].
Qed.

(** A step of the library: the connection stays, and stays open. *)
Definition fine s s' : Prop :=
  client_ok cl l s' /\ forall p, client_open cl s p -> client_open cl s' p.

Lemma fine_same c s s' : lone cl l c s -> same s s' -> fine s s'.
Proof. intros H Hs. apply ok_same; [done|by exists c]. Qed.

Lemma running_fine w s : running w -> fine (w_sys w) s -> running (w_set_sys s w).
Proof. intros (e & Hs) [H1 H2]. exists e. by apply safe_state_sys. Qed.

Lemma wp_sys_running {A} (m : M (sys Env) A) (Q : A -> W -> Prop) w :
  running w ->
  (forall c, lone cl l c (w_sys w) -> cn_delete_me c = false ->
     wp m (fun x s => fine (w_sys w) s /\ (running (w_set_sys s w) -> Q x (w_set_sys s w)))
       anywhere (w_sys w)) ->
  wp (on_sys m) Q anywhere w.
Proof.
  intros Hw Hm. destruct (running_conn _ Hw) as (c & H & Hd). apply wp_on_sys.
  eapply wp_mono; [by eapply Hm|]. intros x s [Hf HQ]. by apply HQ, running_fine.
Qed.

(** The parts of the polling table that exist. *)
Lemma revents_running i f (Q : bool -> W -> Prop) w :
  running w -> 0 <= i < NUM_EVENTS -> (forall b, Q b w) -> wp (on_sys (revents i f)) Q anywhere w.
Proof.
  intros (e & Hs) Hi HQ. apply wp_on_sys, wp_revents; [apply Hs|done|].
  intros b. specialize (HQ b). by destruct w.
Qed.

Lemma poll_running : keeps_running (on_sys poll_events).
Proof.
  intros w Hw. apply wp_sys_running; [done|]. intros c H Hd. set (s := w_sys w) in *. clearbody s.
  apply wp_poll_events; [apply H|]. intros e ev Hl. split; [|done]. by eapply fine_same.
Qed.

Lemma drain_nothing c s :
  lone cl l c s -> cn_delete_me c = false ->
  wp (conn_drain_io cl) (fun b s' => b = false /\ fine s s') anywhere s.
Proof.
  intros H Hd. eapply wp_mono; [apply (wp_drain_nothing cl c); [by eapply lone_lookup|apply H|apply H]|].
  intros b s' (-> & ev & Hev & Hs'). split; [done|]. cbv zeta in Hs'. set (s1 := set_sys_events ev s) in *.
  assert (Hs1 : same s s1) by by split. pose proof (lone_same _ _ _ _ _ H Hs1) as H1.
  assert (Hf1 : fine s s1) by by eapply fine_same.
  destruct Hs' as [->|[_ ->]]; [exact Hf1|].
  destruct (ok_update cl l c (set_cn_wrote_err true) s1 H1) as [H2 H3]; [done..|].
  split; [exact H2|]. intros p Hp. by apply H3, Hf1.
Qed.

Lemma conn_drain_running : keeps_running (conn_drain cl).
Proof.
  intros w Hw. unfold conn_drain. apply wp_bind, wp_sys_running; [done|]. intros c H Hd.
  eapply wp_mono; [by eapply drain_nothing|]. intros b s [-> Hf]. split; [exact Hf|].
  intros Hr. by apply wp_ret.
Qed.

Lemma fuel_running (Q : nat -> W -> Prop) w :
  running w -> Q 2%nat w -> wp (on_sys list_fuel) Q anywhere w.
Proof.
  intros (c & H & _)%running_conn HQ. apply wp_on_sys, wp_gets.
  change (mem (sys_conns (w_sys w))) with (ConnInv.conns (w_sys w)).
  rewrite (ln_conns _ _ _ _ H), map_size_singleton. by destruct w.
Qed.

Lemma get_connections_running (Q : ptr -> W -> Prop) w :
  running w -> Q (Some cl) w -> wp (on_sys get_connections) Q anywhere w.
Proof.
  intros Hw HQ. apply wp_on_sys. eapply wp_Done; [apply get_connections_run|].
  rewrite (head_running _ Hw). by destruct w.
Qed.

Lemma load_running (Q : conn -> W -> Prop) w :
  running w -> (forall c, lone cl l c (w_sys w) -> cn_delete_me c = false -> Q c w) ->
  wp (on_sys (on_conns (load cl))) Q anywhere w.
Proof.
  intros (c & H & Hd)%running_conn HQ. apply wp_on_sys.
  eapply wp_conn_load; [exact (lone_lookup _ _ _ _ H)|]. specialize (HQ c H Hd). by destruct w.
Qed.

Lemma stdout_running : keeps_running handle_stdout.
Proof.
  intros w Hw. unfold handle_stdout. apply wp_bind, revents_running; [done|by vm_compute|].
  intros b. apply wp_when; intros _; [|done].
  apply wp_bind, get_connections_running; [done|]. apply wp_bind, fuel_running; [done|].
  cbn [drain_all]. apply wp_bind. eapply wp_mono; [by apply conn_drain_running|]. intros [] w1 Hw1.
  apply wp_bind, load_running; [done|]. intros c H _. destruct (ln_alone _ _ _ _ H) as [-> _].
  by apply wp_ret.
Qed.

Lemma programs_running : keeps_running handle_programs.
Proof.
  intros w Hw. destruct (running_conn _ Hw) as (c & H & _). unfold handle_programs.
  apply wp_bind, wp_on_sys, wp_opt. rewrite (ln_plain _ _ _ _ H). apply wp_ret. by destruct w.
Qed.

Lemma delete_running : keeps_running (on_sys delete_all_connections).
Proof.
  intros w Hw. apply wp_sys_running; [done|]. intros c H Hd.
  unfold delete_all_connections. apply wp_bind. eapply wp_Done; [apply get_connections_run|].
  rewrite (head_running _ Hw). apply wp_bind, wp_gets.
  change (mem (sys_conns (w_sys w))) with (ConnInv.conns (w_sys w)).
  rewrite (ln_conns _ _ _ _ H), map_size_singleton. cbn [delete_loop].
  apply wp_bind. eapply wp_conn_load; [exact (lone_lookup _ _ _ _ H)|]. rewrite Hd.
  apply wp_bind, wp_ret. destruct (ln_alone _ _ _ _ H) as [-> _]. apply wp_ret.
  split; [|done]. by eapply fine_same.
Qed.

(** A packet, whatever is in it. *)
Lemma announced_fits bs rest d fd env :
  fst (os_recv fd MAX_PACKET_SIZE env) = IoOk bs -> FULL_HDR_SIZE <= Z.of_nat (length bs) ->
  datagram_of_bytes (bs ++ rest) = Some d ->
  FULL_HDR_SIZE <= ntohs (ip_tot_len (dg_ip d)) <= Z.of_nat (length (bs ++ rest)).
Proof.
  intros Hr Hlen Hd. destruct (os_recv fd MAX_PACKET_SIZE env) as [r e] eqn:Hrecv.
  cbn [fst] in Hr. subst r. destruct (received_headers _ _ _ Hlen Hd) as (payload & Hbs & _).
  pose proof (os_recv_announced _ _ _ _ _ _ Hrecv Hbs) as Ha. cbn [dg_ip] in Ha.
  rewrite length_app. lia.
Qed.

Lemma packet_running buf len p w :
  running w -> length buf = Z.to_nat MAX_PACKET_SIZE -> p = None \/ p = Some cl ->
  (forall d, p = Some cl -> datagram_of_bytes buf = Some d ->
     FULL_HDR_SIZE <= ntohs (ip_tot_len (dg_ip d)) <= Z.of_nat (length buf)) ->
  wp (handle_packet p buf len) (fun _ w' => running w') anywhere w.
Proof.
  intros Hw Hb Hp Hfit. destruct (running_conn _ Hw) as (c & H & _).
  assert (Hlen : Z.of_nat (length buf) = MAX_PACKET_SIZE) by (rewrite Hb; by vm_compute).
  destruct (datagram_of_bytes_Some buf) as (d & Hd & _).
  { rewrite Hlen. by vm_compute. }
  unfold handle_packet. apply wp_when; intros _; [|done].
  destruct Hp as [->| ->].
  - apply wp_bind. eapply wp_deref; [exact Hd|]. apply wp_when; intros _; [|done].
    apply wp_bind. unfold tcp_new_connection. apply wp_bind, wp_on_sys, wp_opt.
    rewrite (ln_client _ _ _ _ H). apply wp_bind. by apply wp_exit.
  - destruct Hw as (e & Hs). apply (wp_running _ _ e).
    apply (segment_safe w [l] {[l := e]} l cl c buf len d); try done.
    + by left.
    + by eapply lone_lookup.
    + apply H.
    + rewrite Hlen. done.
    + by apply Hfit.
Qed.

Lemma socket_running : keeps_running handle_socket.
Proof.
  intros w Hw. unfold handle_socket, receive_packet. apply wp_bind, revents_running; [done|by vm_compute|].
  intros b. apply wp_when; intros _; [|done].
  apply wp_bind, wp_on_sys, wp_conf.
  assert (Hid : w_set_sys (w_sys w) w = w) by by destruct w. rewrite Hid.
  set (fd := socket _). set (buf := replicate (Z.to_nat MAX_PACKET_SIZE) Byte.x00).
  assert (Hbuf : length buf = Z.to_nat MAX_PACKET_SIZE) by apply length_replicate. clearbody buf.
  apply wp_bind, wp_sys_running; [done|]. intros c H Hd.
  eapply (wp_recv_client cl c); [apply H|apply H|apply H|apply (ln_alone _ _ _ _ H)|exact Hbuf| |].
  - intros r buf' s' _ Hb' Hq. split; [eapply fine_same; [done|by apply same_quiet]|].
    intros Hw'. apply packet_running; [exact Hw'|congruence|by left|done].
  - intros bs d p s' Hlen Hq _ Hrecv Hd' Hp. split; [eapply fine_same; [done|by apply same_quiet]|].
    intros Hw'. apply packet_running; [exact Hw'| |exact Hp|].
    + rewrite length_app, length_drop. lia.
    + intros d' _ Hd2. eapply announced_fits; [exact Hrecv|lia|exact Hd2].
Qed.

Lemma ctcp_timer_running fuel : keeps_running (ctcp_timer (S fuel)).
Proof.
  intros w Hw. pose proof (handler_running w Hw) as Hh. destruct Hw as (e & Hs).
  destruct (represents_head _ _ _ _ (ss_represents _ _ _ Hs)) as (st & Hsl & _).
  unfold ctcp_timer. apply wp_bind, wp_gets. rewrite Hsl. unfold wp in Hh.
  destruct (retransmission_handler l w) as [[] w'|code w'| |] eqn:Hrun; try done.
  - destruct Hh as (e' & Hs'). unfold wp.
    rewrite (timer_loop_step fuel l w w' l [] {[l := e']} Hrun); [|apply Hs'].
    destruct fuel; by exists e'.
  - unfold wp. cbn [ctcp_timer_loop]. unfold mbind, M_bind. by rewrite Hrun.
Qed.

Lemma timer_running fuel : keeps_running (handle_timer (S fuel)).
Proof.
  intros w Hw. assert (Hid : forall w, w_set_sys (w_sys w) w = w) by by intros [].
  unfold handle_timer. apply wp_bind, wp_on_sys, wp_gets. rewrite Hid.
  apply wp_bind, wp_on_sys, wp_gets. rewrite Hid.
  assert (Hclock : forall (Q : timespec -> W -> Prop) w1, running w1 ->
    (forall ts w2, running w2 -> Q ts w2) -> wp (on_sys get_time) Q anywhere w1).
  { intros Q w1 Hw1 HQ. apply wp_sys_running; [done|]. intros c H _. unfold get_time.
    apply wp_bind. unfold wp at 1, syscall.
    destruct (os_gettimeofday (sys_env (w_sys w1))) as [[sec usec] e]. apply wp_ret.
    split; [by eapply fine_same|]. intros Hr. by apply HQ. }
  apply wp_bind. unfold need_timer_in.
  apply wp_sys_running; [done|]. intros c H _. unfold get_time. apply wp_bind, wp_bind.
  unfold wp at 1, syscall. destruct (os_gettimeofday (sys_env (w_sys w))) as [[sec usec] e].
  apply wp_ret, wp_ret. split; [by eapply fine_same|]. intros Hw1.
  apply wp_when; intros _; [|done].
  apply wp_bind. eapply wp_mono; [by apply ctcp_timer_running|]. intros [] w2 Hw2.
  apply wp_bind, Hclock; [done|]. intros ts w3 Hw3.
  apply wp_sys_running; [done|]. intros c3 H3 _. apply wp_modify. split; [by eapply fine_same|done].
Qed.

(** ** The main loop *)

Lemma running_bind {A} (m : M W unit) (k : M W A) :
  keeps_running m -> keeps_running k -> keeps_running (m;; k).
Proof. intros Hm Hk w Hw. apply wp_bind. eapply wp_mono; [by apply Hm|]. intros [] w1. apply Hk. Qed.

Lemma do_loop_body_running fuel : keeps_running (do_loop_body (S fuel)).
Proof.
  unfold do_loop_body.
  repeat (apply running_bind; [auto using poll_running, stdin_running, stdout_running,
    programs_running, socket_running, timer_running|]).
  apply delete_running.
Qed.

(** After any number of iterations of the loop a running client runs on, or the
    process has ended. *)
Lemma do_loop_running fuel n w :
  running w ->
  (exists code w', forall m, do_loop (S fuel) (n + m) w = Exit code w') \/
  (exists w', running w' /\ forall m, do_loop (S fuel) (n + m) w = do_loop (S fuel) m w').
Proof.
  revert w. induction n as [|n IH]; intros w Hw; [right; by exists w|].
  pose proof (do_loop_body_running fuel w Hw) as Hb. unfold wp in Hb.
  destruct (do_loop_body (S fuel) w) as [[] w1|code w1| |] eqn:Hrun; try done.
  - destruct (IH w1 Hb) as [(code & w' & H)|(w' & Hw' & H)]; [left|right].
    + exists code, w'. intros m. rewrite <- (H m). cbn [Nat.add do_loop]. by erewrite bind_Done.
    + exists w'. split; [done|]. intros m. rewrite <- (H m). cbn [Nat.add do_loop].
      by erewrite bind_Done.
  - left. exists code, w1. intros m. cbn [Nat.add do_loop]. unfold mbind, M_bind. by rewrite Hrun.
Qed.
End Iterations.

(** ** From the start *)

Section Program.
Context {Env : Type} `{!Os Env, !OsLaws Env, !ClientLaws Env, !Setup Env, !SetupLaws Env}.
Implicit Types (w : W (E := Env)).

Lemma started_running w :
  client_started w -> unix_socket (sys_options (w_sys w)) = true -> exists cl l, running cl l w.
Proof.
  intros (l & cl & c & cfg & Hst & H & _ & Hr & _) Hu. exists cl, l, (ep_init (Some cl) cfg).
  assert (Hl : lone cl l c (w_sys w)) by (destruct H; by split).
  split; [done|by exists c| | |].
  - intros k e [<- <-]%lookup_singleton_Some. split; [done|]. exists c.
    split; [by eapply lone_lookup|apply H].
  - intros k e [<- <-]%lookup_singleton_Some. apply ep_wf_init.
  - by intros l1 l2 e1 e2 [<- <-]%lookup_singleton_Some [<- <-]%lookup_singleton_Some.
Qed.

(** C1: a client of a server on its own machine, with a terminal that takes what it
    is given, has no undefined behaviour at any time, whatever it is sent and
    whatever is typed: it fails to start, the process ends, or it is in the main
    loop, in a safe state, after any number of iterations. *)
Theorem client_never_undefined w fuel n buf server port k :
  represents w [] ∅ -> no_client (w_sys w) -> unix_socket (sys_options (w_sys w)) = true ->
  good_server server -> on_this_host (fst (strsep ":" server)) ->
  is_Some (atoi port) -> (String.length port <= 106)%nat -> length buf = Z.to_nat MAX_PACKET_SIZE ->
  (exists r w', r < 0 /\ start_client (S fuel) k n buf server port w = Done r w') \/
  (exists code w', start_client (S fuel) k n buf server port w = Exit code w') \/
  (exists cl l w', running cl l w' /\ forall m,
     start_client (S fuel) (k + m) n buf server port w = (do_loop (S fuel) m;; mret 0) w').
Proof.
  intros Hr Hnc Hu Hg Hh Hp Hl Hb.
  pose proof (wp_client_ready w n buf server port Hr Hnc Hg Hp Hl Hb) as Hw. unfold wp in Hw.
  destruct (client_ready n buf server port w) as [r w1|code w1| |] eqn:Hrun; try done.
  2: { right. left. exists code, w1. unfold start_client, mbind, M_bind. by rewrite Hrun. }
  destruct Hw as [Hneg|(-> & Hst & Hun)].
  - left. exists (-1), w1. split; [lia|]. unfold start_client. erewrite bind_Done by exact Hrun.
    destruct (Z.ltb_spec r 0); [done|lia].
  - right. destruct (started_running w1 Hst (Hun Hh Hu)) as (cl & l & Hrunning).
    assert (Hgo : forall j, start_client (S fuel) j n buf server port w = (do_loop (S fuel) j;; mret 0) w1).
    { intros j. unfold start_client. by erewrite bind_Done by exact Hrun. }
    destruct (do_loop_running cl l fuel k w1 Hrunning) as [(code & w' & H)|(w' & Hw' & H)].
    + left. exists code, w'. rewrite Hgo. specialize (H 0%nat). rewrite Nat.add_0_r in H.
      unfold mbind, M_bind. by rewrite H.
    + right. exists cl, l, w'. split; [done|]. intros m. rewrite Hgo. unfold mbind, M_bind. by rewrite H.
Qed.
End Program.

(** ** Witness: a calm system

    The system of [ConnScript.v], but writes are taken whole, and a packet that is
    not as long as it says is not received. *)

Inductive calm := Calm (e : os_script).

Definition announced (bs : list byte) : bool :=
  match datagram_of_bytes bs with
  | Some d => (FULL_HDR_SIZE <=? ntohs (ip_tot_len (dg_ip d))) &&
              (ntohs (ip_tot_len (dg_ip d)) <=? Z.of_nat (length bs))
  | None => true
  end.

Definition calmly {A} (f : os_script -> A * os_script) (c : calm) : A * calm :=
  let '(Calm e) := c in let '(a, e) := f e in (a, Calm e).

#[export] Instance calm_os : Os calm := {|
  os_read fd n := calmly (os_read fd n);
  os_write fd bs := calmly (fun e => (IoOk (Z.of_nat (length bs)), e));
  os_recv fd n := calmly (fun e =>
    let '(r, e) := os_recv fd n e in
    (match r with IoOk bs => if announced bs then IoOk bs else IoErr EAGAIN | _ => r end, e));
  os_sendto fd bs a := calmly (os_sendto fd bs a);
  os_rand := calmly os_rand;
  os_fork := calmly os_fork;
  os_gettimeofday := calmly os_gettimeofday;
  os_poll evs ms := calmly (os_poll evs ms);
  os_pipe := calmly os_pipe;
  os_dup2 fd fd' := calmly (os_dup2 fd fd');
  os_execvp := calmly os_execvp;
  os_fcntl fd cmd arg := calmly (os_fcntl fd cmd arg);
|}.

Lemma calm_recv fd n c bs c' :
  os_recv fd n c = (IoOk bs, c') ->
  announced bs = true /\ exists e e', os_recv (E := os_script) fd n e = (IoOk bs, e').
Proof.
  destruct c as [e]. cbn [os_recv calm_os calmly]. destruct (os_recv fd n e) as [r e'] eqn:Hr.
  destruct r as [bs'|]; [|done]. destruct (announced bs') eqn:Ha; [|done].
  intros [= <- <-]. split; [done|eauto].
Qed.

Lemma calmly_inv {A} (f : os_script -> A * os_script) c a c' :
  calmly f c = (a, c') -> exists e e', f e = (a, e').
Proof. destruct c as [e]. cbn [calmly]. destruct (f e) as [x e'] eqn:Hf. intros [= <- <-]. eauto. Qed.

#[export] Instance calm_laws : OsLaws calm.
Proof.
  split.
  - intros fd n c bs c' Hn (e & e' & H)%calmly_inv. by eapply os_read_law.
  - intros fd n c bs c' Hn (_ & e & e' & H)%calm_recv. by eapply os_recv_law.
  - intros fd bs [e] x c' [= <- _]. lia.
  - intros fd bs a c n c' (e & e' & H)%calmly_inv. by eapply os_sendto_law.
  - intros [e]. cbn [os_rand calm_os calmly]. pose proof (os_rand_law e).
    by destruct (os_rand e).
  - intros evs ms [e]. cbn [os_poll calm_os calmly]. pose proof (os_poll_law evs ms e).
    by destruct (os_poll evs ms e).
Qed.

#[export] Instance calm_client : ClientLaws calm.
Proof.
  split.
  - intros fd bs [e] r c' [= <- _]. by left.
  - intros fd n c bs c' d [Ha _]%calm_recv Hd. unfold announced in Ha. rewrite Hd in Ha.
    by rewrite andb_true_iff, !Z.leb_le in Ha.
Qed.

#[export] Instance calm_setup : Setup calm := script_setup [lo; eth0].
#[export] Instance calm_setup_laws : SetupLaws calm.
Proof.
  split.
  - intros e. change (Forall good_name [lo; eth0]). auto using good_lo, good_eth0.
  - by intros name e l e' [= <- _].
Qed.

Definition calm_answer : datagram :=
  Datagram (made_iphdr LOCALHOST LOCALHOST 40) (dg_tcp hs_answer) [].

(** A client that has read its options; the answer to its SYN, and some data, will
    come in. *)
Definition calm_world : W (E := calm) :=
  w_set_sys (Sys (ex_options false true 0) (Config 0 0 0 None None) (CtcpConfig 1440 1440 40 200)
    false 0 0 ex_events (Timespec 0 0) heap_empty heap_empty []
    (Calm (OsScript [] [] [IoErr EAGAIN; IoOk (datagram_bytes calm_answer); IoOk (datagram_bytes hello_packet)]
       false [] [] (0, 0))))
  (boot_world (Config 0 0 0 None None) (Calm quiet_script)).

Lemma client_never_undefined_witness :
  (exists r w', r < 0 /\ start_client 1 3 2 (replicate 1480 Byte.x00) "localhost:8888" "9999" calm_world =
     Done r w') \/
  (exists code w', start_client 1 3 2 (replicate 1480 Byte.x00) "localhost:8888" "9999" calm_world =
     Exit code w') \/
  (exists cl l w', running cl l w' /\ forall m,
     start_client 1 (3 + m) 2 (replicate 1480 Byte.x00) "localhost:8888" "9999" calm_world =
     (do_loop 1 m;; mret 0) w').
Proof.
  apply client_never_undefined.
  - apply represents_sys, boot_represents.
  - by split.
  - reflexivity.
  - intros rest [= <-]. by eexists.
  - intros e l [= <-]. by repeat constructor.
  - by eexists.
  - simpl. lia.
  - by vm_compute.
Defined.
