(* ===== verification/Steady.v ===== *)
(** * Connections that do not end

    On a library whose input never ends and whose output never fails, and as long
    as no FIN comes in, the entry points of [ctcp.c] keep every endpoint where data
    is transferred: none begins to close, and none is destroyed. *)

From S2P Require Import Prelude Heap Words Segment ConnLib Ctcp CtcpSpec CtcpSteps CtcpInv.
From S2P Require Import CtcpRefine CtcpSafety CtcpTimer.

(** What the calls on an open connection return then. *)
Class SteadyLaws (S : Type) `{ConnLib S} (L : ConnLaws S) := {
  input_goes_on c buf s :
    lib_inv s -> conn_open s c -> Z.of_nat (length buf) = MAX_SEG_DATA_SIZE ->
    wp (conn_input c (Some buf) MAX_SEG_DATA_SIZE) (fun '(r, _) _ => r <> -1) (fun _ => True) s;
  output_goes_on c buf len s :
    lib_inv s -> conn_open s c -> 0 < len <= Z.of_nat (length buf) -> len <= MAX_BUF_SPACE ->
    wp (conn_output c buf len) (fun r _ => 0 <= r) (fun _ => True) s;
}.

Section Steady.
Context {S : Type} `{!ConnLib S} {L : ConnLaws S} `{!SteadyLaws S L}.
Implicit Types (e : endpoint) (ls : lib S) (w : world S) (C : ptr -> Prop).

Abbreviation anywhere := (fun _ => True).

(** The connection transfers data, and has not begun to close. *)
Definition at_work e : Prop := ep_phase e = DATA_TRANSFER /\ ep_td e = NOT_TEARDOWN.

Lemma at_work_init c cfg : at_work (ep_init c cfg).
Proof. done. Qed.

(** ** The specification *)

Lemma lib_sys_run {A} (m : M S A) ls x ls' :
  lib_sys m ls = Done x ls' -> exists s', m (snd ls) = Done x s' /\ ls' = (fst ls, s').
Proof. unfold lib_sys, zoom. destruct (m (snd ls)); try done. intros [= -> <-]. eauto. Qed.

Lemma ep_send_works flags len data e ls n e' ls' :
  ep_send flags len data e ls = Done (n, e') ls' -> at_work e -> at_work e'.
Proof.
  intros (m & ls1 & _ & H)%bind_run He. unfold ep_sent in H.
  destruct (m <? 0); [by injection H as _ <- _|]. by destruct (_ || _); injection H as _ <- _.
Qed.

Lemma ep_send_works_ flags e ls e' ls' :
  ep_send_ flags e ls = Done e' ls' -> at_work e -> at_work e'.
Proof. intros ([n e1] & ls1 & H & [= <- _])%bind_run. by eapply ep_send_works. Qed.

Lemma ep_resend_works e ls e' ls' : ep_resend e ls = Done e' ls' -> at_work e -> at_work e'.
Proof.
  unfold ep_resend. destruct (ep_unacked e) as [u|]; [|by intros [= <- _]].
  unfold ep_retransmit. destruct (_ >=? _); [|by intros [= <- _]].
  by intros (n & ls1 & _ & [= <- _])%bind_run.
Qed.

Lemma ep_tick_works e ls r ls' :
  at_work e -> ep_tick e ls = Done r ls' -> exists e', r = Some e' /\ at_work e'.
Proof.
  intros He. unfold ep_tick. pose proof He as [_ ->]. intros (e' & ls1 & H & [= <- _])%bind_run.
  exists e'. split; [done|]. by eapply ep_resend_works.
Qed.

Lemma ep_read_works C ls e e' ls' :
  live C ls -> C (ep_conn e) -> at_work e -> ep_read e ls = Done e' ls' -> at_work e'.
Proof.
  intros [Hi Ho] Hc He. unfold ep_read. destruct (ep_unacked e); [by intros [= <- _]|].
  intros ([r buf] & ls1 & Hin & H)%bind_run.
  apply bind_run in Hin as ([r' buf'] & ls2 & Hin & Hlog).
  apply bind_run in Hlog as ([] & ls3 & _ & [= -> -> _]).
  apply lib_sys_run in Hin as (s' & Hin & _).
  eapply wp_run in Hin; [|apply input_goes_on; [exact Hi|by apply Ho|by rewrite length_replicate]].
  rewrite bool_decide_false in H by done. apply bind_run in H as ([] & ls4 & _ & H).
  apply bind_run in H as ([n e1] & ls5 & H & [= <- _]). by eapply ep_send_works.
Qed.

Lemma ep_output_works C ls e seg r ls' :
  live C ls -> C (ep_conn e) -> ep_wf e -> at_work e -> ep_received e = RecvKept seg ->
  ep_output e ls = Done r ls' -> exists e', r = Some e' /\ at_work e'.
Proof.
  intros [Hi Ho] Hc Hwf He Hr. unfold ep_output. rewrite Hr.
  destruct (wf_received e Hwf seg Hr) as [Hlen Hlt].
  destruct (conn_bufspace_law (ep_conn e) (snd ls) Hi (Ho _ Hc)) as (n & Hn & Hrange).
  intros (n' & ls1 & Hn' & H)%bind_run. apply lib_sys_run in Hn' as (s' & Hn' & ->).
  rewrite Hn in Hn'. injection Hn' as <- <-. unfold MAX_BUF_SPACE in Hrange.
  rewrite (u32_small n) in H by lia.
  destruct (bool_decide_reflect (n = 0)) as [|Hnz]; [injection H as <- _; by eexists|].
  set (datalen := u32 _) in *. destruct (Z.geb_spec n datalen) as [Hge|]; [|injection H as <- _; by eexists].
  destruct (bool_decide_reflect (datalen = 0)) as [|Hne]; [injection H as <- _; by eexists|].
  apply bind_run in H as (r' & ls2 & Hout & H).
  apply bind_run in Hout as (r2 & ls3 & Hout & Hlog).
  apply bind_run in Hlog as ([] & ls4 & _ & [= <- _]).
  apply lib_sys_run in Hout as (s2 & Hout & _).
  assert (Hdl : 0 < datalen <= Z.of_nat (length (seg_data seg))).
  { pose proof (datalen_fits seg Hlen Hlt). pose proof (u32_range (seg_len seg - SEGMENT_HDR_SIZE)).
    unfold MAX_BUF_SPACE, datalen in *. lia. }
  eapply wp_run in Hout; [|apply output_goes_on; [exact Hi|by apply Ho|exact Hdl|unfold MAX_BUF_SPACE; lia]].
  cbv beta in Hout. destruct (Z.ltb_spec r2 0) as [|_]; [lia|].
  apply bind_run in H as (e1 & ls5 & Hs & [= <- _]). eexists. split; [done|].
  by apply ep_send_works_ in Hs.
Qed.

Lemma ep_receive_works C ls e seg len r ls' :
  live C ls -> C (ep_conn e) -> ep_wf e -> at_work e -> arrived seg len ->
  has_flag (ntohl (seg_flags seg)) FIN = false ->
  ep_receive seg len e ls = Done r ls' -> exists e', r = Some e' /\ at_work e'.
Proof.
  intros Hl Hc Hwf He Harr Hfin. unfold ep_receive.
  assert (Hstay : forall e' ls1 ls2, at_work e' -> Done (Some e') ls1 = Done r ls2 ->
    exists e', r = Some e' /\ at_work e') by (intros e' ? ? He' [= <- _]; eauto).
  destruct (segment_valid seg (u16 len)) eqn:Hv; [|by apply Hstay].
  apply andb_true_iff in Hv as [Hv%Z.leb_le _]. rewrite u16_idemp in Hv. specialize (Harr Hv).
  set (sg := _segment_ntoh (set_cksum 0 seg)) in *.
  assert (Hsg : 0 <= seg_len sg <= Z.of_nat (length (segment_bytes sg)) /\ seg_len sg < 2 ^ 16).
  { pose proof (ntohs_range (seg_len seg)). rewrite segment_bytes_length in *.
    change (seg_len sg) with (ntohs (seg_len seg)). change (seg_data sg) with (seg_data seg). lia. }
  unfold ep_handle. pose proof He as [-> _]. unfold ep_data_transfer.
  destruct (_ <? _); [by apply Hstay|].
  change (seg_flags sg) with (ntohl (seg_flags seg)). rewrite Hfin.
  destruct (has_flag _ ACK); [|by apply Hstay]. destruct (bool_decide _); [by apply Hstay|].
  apply (ep_output_works C ls _ sg); [done|done| |done|done].
  destruct Hwf as [H1 H2]. split; [exact H1|]. by intros s [= <-].
Qed.

(** ** The code *)

(** The endpoint [e] at [l] has gone on to another one that is at work. *)
Definition goes_on order (E : gmap loc endpoint) l e w' : Prop :=
  exists e', safe_state w' order (<[l := e']> E) /\ at_work e' /\ ep_conn e' = ep_conn e.

Lemma goes_on_refl w order E l e :
  safe_state w order E -> E !! l = Some e -> at_work e -> goes_on order E l e w.
Proof. intros Hs He Hw. exists e. by rewrite insert_id. Qed.

Lemma steady_run {B} (m : M (world S) unit) (a : M (lib S) B) (f : B -> option endpoint) w order E l e :
  safe_state w order E -> E !! l = Some e ->
  rwp m a (fun _ b w' => becomes order E l (f b) w') w ->
  wp a (fun b ls => safe_post (conns E) (ep_conn e) (f b) ls) anywhere (lib_of w) ->
  (forall b ls, a (lib_of w) = Done b ls -> exists e', f b = Some e' /\ at_work e') ->
  wp m (fun _ w' => goes_on order E l e w') anywhere w.
Proof.
  intros Hs He Hr Ha Hw. eapply wp_mono.
  { eapply rwp_wp; [exact Hr|]. apply wp_and_run; [exact Ha|]. intros b ls Hb. exact (Hw b ls Hb). }
  intros [] w' (b & (Hp & e' & Hf & Hwork) & Hb). rewrite Hf in Hp, Hb.
  destruct Hp as (Hl & Hwf & Hc). exists e'. split; [|by split]. by eapply safe_goes_on.
Qed.

Lemma read_goes_on w order E l e :
  safe_state w order E -> E !! l = Some e -> at_work e ->
  wp (ctcp_read l) (fun _ w' => goes_on order E l e w') anywhere w.
Proof.
  intros Hs He Hw. pose proof (safe_live _ _ _ Hs) as Hl.
  assert (Hc : conns E (ep_conn e)) by by exists l, e.
  eapply (steady_run _ _ Some); [done|done|by eapply refine_read; [apply Hs|]| |].
  - eapply wp_mono; [apply (ep_read_safe (conns E)); [done|done|by eapply ss_wf]|by intros e' ls].
  - intros e' ls Hrun. exists e'. split; [done|]. by eapply ep_read_works.
Qed.

Lemma receive_goes_on w order E l e s seg len :
  safe_state w order E -> E !! l = Some e -> at_work e -> handed w order E s seg ->
  arrived seg len -> has_flag (ntohl (seg_flags seg)) FIN = false ->
  wp (ctcp_receive l s len) (fun _ w' => goes_on order E l e w') anywhere w.
Proof.
  intros Hs He Hw Hh Ha Hfin. pose proof (safe_live _ _ _ Hs) as Hl.
  assert (Hc : conns E (ep_conn e)) by by exists l, e.
  eapply (steady_run _ _ id); [done|done|by eapply refine_receive| |].
  - apply (ep_receive_safe (conns E)); [done|done|by eapply ss_wf|done].
  - intros r ls Hrun. by eapply ep_receive_works; [|exact Hc|eapply ss_wf| | |..].
Qed.

Lemma handler_goes_on w order E l e :
  safe_state w order E -> E !! l = Some e -> at_work e ->
  wp (retransmission_handler l) (fun _ w' => goes_on order E l e w') anywhere w.
Proof.
  intros Hs He Hw. eapply (steady_run _ _ id); [done|done|by eapply refine_timer; [apply Hs|]| |].
  - apply (ep_tick_safe (conns E)); [by eapply safe_live|by exists l, e|by eapply ss_wf].
  - intros r ls Hrun. by eapply ep_tick_works.
Qed.

(** ** The endpoints together *)

Definition working w order E : Prop :=
  safe_state w order E /\ forall l e, E !! l = Some e -> at_work e.

Lemma goes_on_working w order E l e w' :
  working w order E -> goes_on order E l e w' ->
  exists e', working w' order (<[l := e']> E) /\ ep_conn e' = ep_conn e.
Proof.
  intros [_ Hall] (e' & Hs & Hw & Hc). exists e'. split; [|done]. split; [done|].
  intros k f [[<- <-]|[_ Hf]]%lookup_insert_Some; [done|by eapply Hall].
Qed.

Lemma working_handler w order E l e :
  working w order E -> E !! l = Some e ->
  wp (retransmission_handler l)
    (fun _ w' => exists e', working w' order (<[l := e']> E) /\ ep_conn e' = ep_conn e) anywhere w.
Proof.
  intros Hw He. pose proof Hw as [Hs Hall].
  eapply wp_mono; [by apply handler_goes_on; [| |by eapply Hall]|].
  intros [] w' Hg. by eapply goes_on_working.
Qed.

(** A run that does not come back, however much fuel it has: the process ends, or
    the loop goes round and round. *)
Definition endless {T A} (o : outcome T A) : Prop :=
  match o with NoFuel | Exit _ _ => True | Done _ _ | Undef => False end.

Lemma timer_endless w order E l1 l2 fuel :
  working w (l1 :: l2 :: order) E -> endless (ctcp_timer fuel w).
Proof.
  intros Hw. pose proof Hw as [[Hr _ _ _ _] _]. destruct (represents_head _ _ _ _ Hr) as (st & Hsl & _).
  unfold ctcp_timer, gets, mbind, M_bind. rewrite Hsl. clear st Hsl Hr.
  assert (Hin : l1 ∈ l1 :: l2 :: order) by set_solver. revert Hin.
  generalize l1 at 1 3. intros k Hin. revert k Hin w E Hw.
  induction fuel as [|fuel IH]; intros k Hin w E Hw; [done|].
  destruct (safe_endpoint _ _ _ _ (proj1 Hw) Hin) as [e He].
  destruct (wp_inv _ _ _ _ (working_handler _ _ _ _ _ Hw He))
    as [([] & w' & Hrun & e' & Hw' & _)|(code & w' & Hrun & _)].
  - rewrite (timer_loop_step fuel k w w' l1 (l2 :: order) _ Hrun (ss_represents _ _ _ (proj1 Hw'))).
    apply (IH l2 ltac:(set_solver) w' _ Hw').
  - cbn [ctcp_timer_loop]. by erewrite bind_Exit.
Qed.

Lemma timer_alone w E l e fuel :
  working w [l] E -> E !! l = Some e ->
  wp (ctcp_timer (Datatypes.S fuel))
    (fun _ w' => exists e', working w' [l] (<[l := e']> E) /\ ep_conn e' = ep_conn e) anywhere w.
Proof.
  intros Hw He. pose proof Hw as [[Hr _ _ _ _] _]. destruct (represents_head _ _ _ _ Hr) as (st & Hsl & _).
  unfold ctcp_timer. apply wp_bind, wp_gets. rewrite Hsl.
  destruct (wp_inv _ _ _ _ (working_handler _ _ _ _ _ Hw He))
    as [([] & w' & Hrun & Hw')|(code & w' & Hrun & _)].
  - pose proof Hw' as (e' & Hw2 & _). unfold wp.
    rewrite (timer_loop_step fuel l w w' l [] _ Hrun (ss_represents _ _ _ (proj1 Hw2))).
    by destruct fuel.
  - unfold wp. cbn [ctcp_timer_loop]. by erewrite bind_Exit.
Qed.
End Steady.
