(* ===== verification/Server.v ===== *)
(** * A server in its main loop

    A server on the machine of its clients, whose terminal takes at once what it is
    given, whose input goes on, and whose clients do not hang up: the invariant of
    its connections, whatever their number, and every iteration of [do_loop]. *)

From Stdlib Require Import Ascii String.
From S2P Require Import Prelude Heap Words Cksum LinkedList Segment ConnLib Ctcp CtcpSpec CtcpSteps.
From S2P Require Import CtcpInv CtcpRefine Script CtcpSafety CtcpTimer Steady.
From S2P Require Import Host Packet PacketProps Conn Queue ConnInv ConnOut ConnSend ConnInput ConnLaws.
From S2P Require Import ConnScript Loop LoopProps Accept Start StartProps Client.

(** A terminal that takes what it is given and an input without end, and a network
    whose packets are as long as they say and carry no FIN. *)
Class ServerLaws (E : Type) `{Os E} := {
  server_write fd bs e r e' : os_write fd bs e = (r, e') -> r = IoOk (Z.of_nat (length bs));
  server_read fd n e r e' :
    0 < n -> os_read fd n e = (r, e') -> r = IoErr EAGAIN \/ exists bs, r = IoOk bs /\ bs <> [];
  server_recv fd n e bs e' d :
    os_recv fd n e = (IoOk bs, e') -> datagram_of_bytes bs = Some d ->
    FULL_HDR_SIZE <= ntohs (ip_tot_len (dg_ip d)) <= Z.of_nat (length bs) /\
    has_flag (th_flags (dg_tcp d)) TH_FIN = false;
}.

#[export] Instance server_client_laws {E} `{Os E, !ServerLaws E} : ClientLaws E.
Proof.
  split; [|by intros ?????? H1 H2; eapply server_recv].
  intros fd bs e r e' Hw. left. by eapply server_write.
Qed.

Section Server.
Context {Env : Type} `{!Os Env, !OsLaws Env, !ServerLaws Env}.
Implicit Types (s : sys Env) (w : W (E := Env)) (N : gmap loc loc).

Abbreviation anywhere := (fun _ => True).

(** ** The invariant *)

(** The connections from [p] on, in the order of the list. *)
Fixpoint linked (m : gmap loc conn) (p : ptr) (cs : list loc) : Prop :=
  match cs with
  | [] => p = None
  | c :: cs => p = Some c /\ exists k, m !! c = Some k /\ linked m (cn_next k) cs
  end.

(** A connection that goes on, with its endpoint at [l]. *)
Record going_on (l : option loc) (k : conn) : Prop := {
  go_state : cn_state k = l;
  go_input : cn_read_eof k = false;
  go_output : cn_wrote_err k = true -> cn_wrote_eof k = true;
  go_queue : cn_out_queue k = None /\ cn_out_queue_tail k = TailQueue;
}.

(** [N] says where the endpoint of each connection is. *)
Record served N s : Prop := {
  sv_ok : sys_ok s;
  sv_server : SERVER (sys_options s) = true;
  sv_plain : run_program (sys_options s) = false;
  sv_quiet : test_debug_on (sys_options s) = false /\ lab5_mode (sys_options s) = false;
  sv_list : exists cs, NoDup cs /\ linked (ConnInv.conns s) (head_of s) cs;
  sv_dom c : is_Some (ConnInv.conns s !! c) <-> is_Some (N !! c);
  sv_conn c k : ConnInv.conns s !! c = Some k -> going_on (N !! c) k;
}.

Lemma linked_next m m' p cs :
  (forall c, c ∈ cs -> cn_next <$> m' !! c = cn_next <$> m !! c) -> linked m p cs -> linked m' p cs.
Proof.
  revert p. induction cs as [|c cs IH]; intros p Hm; [done|].
  intros (-> & k & Hk & Hl). split; [done|]. pose proof (Hm c (list_elem_of_here _ _)) as Hc.
  rewrite Hk in Hc. apply fmap_Some in Hc as (k' & Hk' & En). exists k'. split; [done|].
  rewrite <- En. apply IH; [|done]. intros c' Hc'. by apply Hm, list_elem_of_further.
Qed.

Lemma linked_in m p cs c : linked m p cs -> c ∈ cs -> is_Some (m !! c).
Proof.
  revert p. induction cs as [|k cs IH]; intros p Hl Hc; [by apply not_elem_of_nil in Hc|].
  destruct Hl as (_ & k' & Hk' & Hl). apply elem_of_cons in Hc as [->|Hc]; [by eexists|by eapply IH].
Qed.

Lemma linked_bound m p cs : NoDup cs -> linked m p cs -> (length cs <= size m)%nat.
Proof.
  intros Hn Hl. rewrite <- (size_list_to_set (C := gset loc) cs Hn), <- size_dom. apply subseteq_size.
  intros c Hc%elem_of_list_to_set. by eapply elem_of_dom, linked_in.
Qed.

(** Steps that leave the connections alone. *)
Record alike s s' : Prop := {
  al_options : sys_options s' = sys_options s;
  al_config : sys_config s' = sys_config s;
  al_conns : sys_conns s' = sys_conns s;
  al_chunks : sys_chunks s' = sys_chunks s;
  al_events : length (sys_events s') = length (sys_events s);
}.

Lemma alike_quiet s s' : quiet s s' -> alike s s'.
Proof. by intros (env & io & did & ->). Qed.

Lemma open_alike s s' p : alike s s' -> sys_open s p -> sys_open s' p.
Proof. intros [_ _ E _ _]. unfold sys_open, ConnInv.conns. by rewrite E. Qed.

Lemma served_alike N s s' : alike s s' -> served N s -> served N s'.
Proof.
  intros [E1 E2 E3 E4 E5] [[[Q Hi] Hm] H2 H3 H4 H5 H6 H7].
  assert (Ec : ConnInv.conns s' = ConnInv.conns s) by (unfold ConnInv.conns; by rewrite E3).
  assert (Eh : head_of s' = head_of s) by (unfold head_of; by rewrite E1, E2).
  split; rewrite ?E1, ?Ec, ?Eh; try done.
  split; [exists Q; by eapply sys_inv_frame|by rewrite E1].
Qed.

Lemma served_lookup N s p :
  served N s -> sys_open s p ->
  exists c k, p = Some c /\ ConnInv.conns s !! c = Some k /\ cn_delete_me k = false /\ going_on (N !! c) k.
Proof. intros H (c & k & -> & Hk & Hd). exists c, k. split_and!; [done..|]. by eapply sv_conn. Qed.

(** An update of the flags of a connection. *)
Lemma served_update N c k f s :
  served N s -> ConnInv.conns s !! c = Some k -> cn_out_queue (f k) = cn_out_queue k ->
  cn_out_queue_tail (f k) = cn_out_queue_tail k -> cn_next (f k) = cn_next k ->
  cn_prev (f k) = cn_prev k -> cn_stdin (f k) = cn_stdin k -> going_on (N !! c) (f k) ->
  served N (with_conns (<[c := f k]> (ConnInv.conns s)) s).
Proof.
  intros [H1 H2 H3 H4 (cs & Hn & Hl) H6 H7] Hk E1 E2 E3 E4 E5 Hg. split; try done.
  - by eapply flag_ok.
  - exists cs. split; [done|]. eapply linked_next; [|exact Hl]. intros c' _.
    unfold ConnInv.conns at 1. cbn [with_conns set_sys_conns sys_conns mem].
    destruct (decide (c = c')) as [<-|Hne]; [|by rewrite lookup_insert_ne].
    rewrite lookup_insert_eq, Hk. cbn. by rewrite E3.
  - intros c'. unfold ConnInv.conns at 1. cbn [with_conns set_sys_conns sys_conns mem].
    destruct (decide (c = c')) as [<-|Hne]; [|by rewrite lookup_insert_ne].
    rewrite lookup_insert_eq, <- H6, Hk. by split.
  - intros c' k'. unfold ConnInv.conns at 1. cbn [with_conns set_sys_conns sys_conns mem].
    intros [[<- <-]|[Hne Hk']]%lookup_insert_Some; [done|by apply H7].
Qed.

Lemma open_update c k f s p :
  ConnInv.conns s !! c = Some k -> cn_delete_me (f k) = cn_delete_me k ->
  sys_open s p -> sys_open (with_conns (<[c := f k]> (ConnInv.conns s)) s) p.
Proof.
  intros Hk Hd (c' & k' & -> & Hk' & Hd'). unfold sys_open, ConnInv.conns at 1.
  cbn [with_conns set_sys_conns sys_conns mem]. destruct (decide (c = c')) as [<-|Hne].
  - exists c, (f k). rewrite lookup_insert_eq. split_and!; [done..|]. congruence.
  - exists c', k'. by rewrite lookup_insert_ne.
Qed.

(** ** The contract of the library *)

Lemma served_unix N s : served N s -> unix_socket (sys_options s) = true.
Proof. intros H. destruct (sv_ok _ _ H) as [_ Hm]. by rewrite (sv_plain _ _ H) in Hm. Qed.

Lemma served_events N s : served N s -> Z.of_nat (length (sys_events s)) = NUM_EVENTS.
Proof. intros H. destruct (sv_ok _ _ H) as [[Q Hi] _]. apply (si_events _ _ Hi). Qed.

Lemma served_input N s c k buf len X :
  served N s -> ConnInv.conns s !! c = Some k -> cn_delete_me k = false ->
  0 < len <= Z.of_nat (length buf) ->
  wp (conn_input (Some c) (Some buf) len) (fun '(r, _) _ => r <> -1) X s.
Proof.
  intros H Hk Hd Hlen. pose proof (go_input _ _ (sv_conn _ _ H _ _ Hk)) as Hin.
  unfold conn_input. cbn [deref]. apply wp_bind, wp_ret, wp_bind.
  eapply wp_conn_load; [exact Hk|]. rewrite Hd, Hin. apply wp_bind, wp_ret, wp_bind, wp_gets, wp_bind.
  unfold input_read. rewrite (sv_plain _ _ H), (served_unix _ _ H).
  unfold read_into, call_read. apply wp_bind, wp_bind. unfold wp at 1, syscall.
  destruct (os_read STDIN_FILENO len (sys_env s)) as [r e] eqn:Hr.
  destruct (sv_quiet _ _ H) as [-> ->].
  pose proof Hr as Hr'. apply server_read in Hr' as [->|(bs & -> & Hne)]; [| |lia].
  - apply wp_bind, wp_ret, wp_ret, wp_ret. by apply wp_bind, wp_ret, wp_ret.
  - apply os_read_law in Hr; [|lia]. destruct bs as [|b bs]; [done|].
    apply wp_bind, wp_modify, wp_ret, wp_bind, wp_access; [apply Z.leb_le; lia|].
    apply wp_ret, wp_bind. rewrite bool_decide_false by done.
    destruct (Z.ltb_spec (Z.of_nat (length (b :: bs))) 0) as [|_]; [lia|].
    cbn [andb orb]. apply wp_ret, wp_ret. simpl. lia.
Qed.

(** What an operation of the library that closes nothing leaves. *)
Definition kept N s s' : Prop := served N s' /\ forall p, sys_open s p -> sys_open s' p.

Lemma kept_alike N s s' : served N s -> alike s s' -> kept N s s'.
Proof. intros H Ha. split; [by eapply served_alike|intros p; by apply open_alike]. Qed.

Lemma kept_quiet N s s' : served N s -> quiet s s' -> kept N s s'.
Proof. intros H Hq. by apply kept_alike, alike_quiet. Qed.

Lemma kept_update N s c k f :
  served N s -> ConnInv.conns s !! c = Some k -> cn_out_queue (f k) = cn_out_queue k ->
  cn_out_queue_tail (f k) = cn_out_queue_tail k -> cn_next (f k) = cn_next k ->
  cn_prev (f k) = cn_prev k -> cn_stdin (f k) = cn_stdin k -> cn_delete_me (f k) = cn_delete_me k ->
  going_on (N !! c) (f k) -> kept N s (with_conns (<[c := f k]> (ConnInv.conns s)) s).
Proof. intros. split; [by apply served_update|intros p; by apply open_update]. Qed.

Lemma served_output N s p buf len X :
  served N s -> sys_open s p -> 0 <= len <= Z.of_nat (length buf) -> len <= MAX_BUF_SPACE ->
  wp (conn_output p buf len)
    (fun r s' => kept N s s' /\ (len = 0 -> r = 0) /\ (r = 0 \/ r = len)) X s.
Proof.
  intros H Hp Hlen Hmax. destruct (served_lookup _ _ _ H Hp) as (c & k & -> & Hk & Hd & Hg).
  destruct (sv_ok _ _ H) as [[Q Hi] _].
  eapply wp_mono; [by eapply wp_output_at_once; [exact Hi|exact Hk|apply Hg|..]|].
  intros r s' Hout. assert (Hid : kept N s s) by by apply kept_quiet.
  destruct Hout as [|Hz|_ Heof Herr| |s' Hz Hq|errno fd bs e s1 _ _ Hw]; try (split_and!; auto; fail).
  - split_and!; [|done|by left]. apply (kept_update N s c k (set_cn_wrote_eof true)); try done. by destruct Hg.
  - exfalso. pose proof (go_output _ _ Hg Herr). congruence.
  - split_and!; [by apply kept_quiet|lia|by right].
  - exfalso. destruct (os_write fd bs e) as [r e'] eqn:Hwr. apply server_write in Hwr. cbn in Hw. congruence.
Qed.

Program Definition server_laws N : ConnLaws (sys Env) := {|
  lib_inv := served N;
  conn_open := sys_open;
  end_returns s := True;
|}.
Next Obligation.
  intros N p buf s H Hp Hb. destruct (served_lookup _ _ _ H Hp) as (c & k & -> & Hk & Hd & Hg).
  cbn [ConnLib.conn_input sys_lib].
  assert (Hmax : 0 < MAX_SEG_DATA_SIZE <= Z.of_nat (length buf)) by (rewrite Hb; by vm_compute).
  eapply wp_mono_exit; [eapply wp_with|done|].
  - apply (wp_conn_input s c k); [done|done|apply H|lia].
  - by apply (served_input N s c k).
  - intros [r buf'] s' [(Hl & Hr & Hin) Hne]. rewrite (go_input _ _ Hg) in Hin.
    assert (Hq : quiet s s').
    { destruct Hin as [(_ & _ & _ & Hq)|[(bs & _ & _ & _ & _ & Hq)|[-> _]]]; done. }
    destruct (kept_quiet N _ _ H Hq). split_and!; [done|done|done|lia].
Qed.
Next Obligation.
  intros N p seg len s H Hp Hl Hlen. destruct (served_lookup _ _ _ H Hp) as (c & k & -> & Hk & Hd & Hg).
  cbn [ConnLib.conn_send sys_lib].
  eapply wp_mono_exit; [by apply (wp_conn_send s c k seg len)|done|].
  intros n s' [[Hq _] _]. by apply kept_quiet.
Qed.
Next Obligation.
  intros N p buf len s H Hp Hlen Hmax. cbn [ConnLib.conn_output sys_lib].
  eapply wp_mono; [by apply (served_output N)|]. intros r s' ([H1 H2] & Hz & Hr). split_and!; auto.
Qed.
Next Obligation.
  intros N p s H Hp. destruct (served_lookup _ _ _ H Hp) as (c & k & -> & Hk & Hd & Hg).
  cbn [ConnLib.conn_bufspace sys_lib]. destruct (sv_ok _ _ H) as [[Q Hi] _].
  destruct (si_queue _ _ Hi _ _ Hk) as (q & HQ & Hq).
  exists (bufspace_of q). split; [by eapply conn_bufspace_run|].
  unfold bufspace_of. unfold MAX_BUF_SPACE. lia.
Qed.
Next Obligation.
  intros N p s H Hp. destruct (served_lookup _ _ _ H Hp) as (c & k & -> & Hk & Hd & Hg).
  cbn [ConnLib.conn_remove sys_lib]. unfold conn_remove. cbn [deref]. apply wp_bind, wp_ret.
  eapply wp_conn_update; [exact Hk|]. split.
  - apply (served_update N c k (set_cn_delete_me true)); try done. by destruct Hg.
  - intros p Hne (c' & k' & -> & Hk' & Hd'). exists c', k'. split_and!; [done| |done].
    refine (eq_trans (lookup_insert_ne _ _ _ _ _) Hk'). congruence.
Qed.
Next Obligation.
  intros N s H. destruct (sv_ok _ _ H) as [[Q Hi] _]. cbn [ConnLib.end_client sys_lib].
  eapply wp_mono_exit; [by apply (end_client_spec Q)|done|].
  intros [] s' [_ ->]. by split_and!.
Qed.

#[export] Instance server_steady_laws N : SteadyLaws (sys Env) (server_laws N).
Proof.
  split.
  - intros p buf s H Hp Hb. destruct (served_lookup _ _ _ H Hp) as (c & k & -> & Hk & Hd & Hg).
    apply (served_input N s c k); try done. rewrite Hb. by vm_compute.
  - intros p buf len s H Hp Hlen Hmax. cbn [ConnLib.conn_output sys_lib].
    eapply wp_mono; [apply (served_output N); [done|done|lia|done]|]. intros r s' (_ & _ & Hr). lia.
Qed.

#[export] Instance server_loop_laws N : LoopLaws Env (server_laws N).
Proof.
  split.
  - intros s s' Hq H. by apply kept_quiet.
  - intros v s H. by apply kept_alike.
  - intros s. apply served_events.
Qed.
End Server.

(** A flag of a packet is one of the segment. *)
Lemma fin_flag f : 0 <= f < 2 ^ 8 -> has_flag (ntohl f) FIN = has_flag f TH_FIN.
Proof.
  intros Hf. assert (Hall : forallb (fun n => bool_decide (has_flag (ntohl (Z.of_nat n)) FIN =
    has_flag (Z.of_nat n) TH_FIN)) (seq 0 256) = true) by by vm_compute.
  rewrite forallb_forall in Hall. specialize (Hall (Z.to_nat f)). rewrite Z2Nat.id in Hall by lia.
  apply (bool_decide_unpack _), Is_true_true, Hall, in_seq. lia.
Qed.

(** ** The steps of an iteration *)

Section Serving.
Context {Env : Type} `{!Os Env, !OsLaws Env, !ServerLaws Env}.
Context (N : gmap loc loc).
Implicit Types (s : sys Env) (w : W (E := Env)).

Abbreviation anywhere := (fun _ => True).

#[local] Instance here : ConnLaws (sys Env) := server_laws N.

(** The endpoints are at work, one for each connection. *)
Definition assigned (E : gmap loc endpoint) : Prop :=
  forall c l, N !! c = Some l -> exists e, E !! l = Some e /\ ep_conn e = Some c.
Definition serving w : Prop := exists order E, working w order E /\ assigned E.

Definition keeps_serving {A} (m : M W A) : Prop :=
  forall w, serving w -> wp m (fun _ w' => serving w') anywhere w.

Lemma serving_served w : serving w -> served N (w_sys w).
Proof. intros (order & E & [Hs _] & _). apply (ss_lib _ _ _ Hs). Qed.

Lemma serving_sys w s : serving w -> kept N (w_sys w) s -> serving (w_set_sys s w).
Proof.
  intros (order & E & [Hs Hw] & Ha) [H1 H2]. exists order, E. split; [|done]. split; [|done].
  by apply safe_state_sys.
Qed.

(** The endpoint of a connection. *)
Lemma serving_at w c k :
  serving w -> ConnInv.conns (w_sys w) !! c = Some k ->
  cn_delete_me k = false /\ exists l order E e,
    cn_state k = Some l /\ working w order E /\ assigned E /\ E !! l = Some e.
Proof.
  intros (order & E & Hw & Ha) Hk. pose proof Hw as [Hs _]. pose proof (ss_lib _ _ _ Hs) as H.
  destruct (proj1 (sv_dom _ _ H c)) as [l Hl]; [by eexists|].
  destruct (Ha c l Hl) as (e & He & Hc).
  destruct (ss_open _ _ _ Hs l e He) as (c' & k' & Hp & Hk' & Hd). rewrite Hc in Hp. injection Hp as <-.
  rewrite Hk in Hk'. injection Hk' as <-. split; [done|]. exists l, order, E, e.
  split; [|done]. rewrite <- Hl. by apply (go_state _ _ (sv_conn _ _ H _ _ Hk)).
Qed.

Lemma assigned_insert E l e e' :
  assigned E -> E !! l = Some e -> ep_conn e' = ep_conn e -> assigned (<[l := e']> E).
Proof.
  intros Ha He Hc c l' Hl'. destruct (Ha c l' Hl') as (e2 & He2 & Hc2).
  destruct (decide (l = l')) as [<-|Hne].
  - exists e'. rewrite lookup_insert_eq. split; [done|]. congruence.
  - exists e2. by rewrite lookup_insert_ne.
Qed.

Lemma serving_goes_on w order E l e w' :
  working w order E -> assigned E -> E !! l = Some e -> goes_on order E l e w' -> serving w'.
Proof.
  intros Hw Ha He Hg. destruct (goes_on_working _ _ _ _ _ _ Hw Hg) as (e' & Hw' & Hc).
  exists order, (<[l := e']> E). split; [done|]. by eapply assigned_insert.
Qed.

Lemma wp_sys_serving {A} (m : M (sys Env) A) (Q : A -> W -> Prop) w :
  serving w ->
  (served N (w_sys w) ->
     wp m (fun x s => kept N (w_sys w) s /\ (serving (w_set_sys s w) -> Q x (w_set_sys s w)))
       anywhere (w_sys w)) ->
  wp (on_sys m) Q anywhere w.
Proof.
  intros Hw Hm. apply wp_on_sys. eapply wp_mono; [by apply Hm, serving_served|].
  intros x s [Hk HQ]. by apply HQ, serving_sys.
Qed.

Lemma revents_serving i f (Q : bool -> W -> Prop) w :
  serving w -> 0 <= i < NUM_EVENTS -> (forall b, Q b w) -> wp (on_sys (revents i f)) Q anywhere w.
Proof.
  intros (order & E & [Hs _] & _) Hi HQ. apply wp_on_sys, wp_revents; [apply Hs|done|].
  intros b. specialize (HQ b). by destruct w.
Qed.

Lemma poll_serving : keeps_serving (on_sys poll_events).
Proof.
  intros w Hw. apply wp_sys_serving; [done|]. intros H.
  apply wp_poll_events; [by eapply served_events|]. intros e ev Hl. split; [|done].
  by apply kept_alike.
Qed.

Lemma stdin_serving : keeps_serving handle_stdin.
Proof.
  intros w Hw. pose proof (serving_served _ Hw) as H. apply wp_handle_stdin; [exact H|done|].
  intros c Hh. destruct (sv_list _ _ H) as ([|c' cs] & _ & Hl); [simpl in Hl; congruence|].
  destruct Hl as (Hc & k & Hk & _). rewrite Hh in Hc. injection Hc as <-.
  destruct (serving_at _ _ _ Hw Hk) as (_ & l & order & E & e & Hst & Hwork & Ha & He).
  exists k, l. split; [done|]. split; [done|]. pose proof Hwork as [Hs Hall].
  eapply wp_mono; [apply (read_goes_on w order E l e); [done|done|by eapply Hall]|].
  intros [] w' Hg. by eapply serving_goes_on.
Qed.

(** [conn_drain] does nothing to the list. *)
Definition same_list w w' : Prop :=
  forall c, cn_next <$> ConnInv.conns (w_sys w') !! c = cn_next <$> ConnInv.conns (w_sys w) !! c.

Lemma drain_serving w c k :
  serving w -> ConnInv.conns (w_sys w) !! c = Some k ->
  wp (conn_drain c) (fun _ w' => serving w' /\ same_list w w') anywhere w.
Proof.
  intros Hw Hk. unfold conn_drain. apply wp_bind, wp_sys_serving; [done|]. intros H.
  pose proof (sv_conn _ _ H _ _ Hk) as Hg.
  eapply wp_mono; [apply (wp_drain_nothing c k); [done|apply Hg|by eapply served_events]|].
  intros b s (-> & ev & Hev & Hs). cbv zeta in Hs. set (s1 := set_sys_events ev (w_sys w)) in *.
  destruct (kept_alike N _ s1 H) as [H1 Ho1]; [done|].
  destruct Hs as [->|[Heof ->]].
  - split; [by split|]. intros Hw'. apply wp_ret. split; [done|]. by intros c'.
  - destruct (kept_update N s1 c k (set_cn_wrote_err true) H1 Hk) as [H2 Ho2]; [done..|by destruct Hg|].
    split; [split; auto|]. intros Hw'. apply wp_ret. split; [done|]. intros c'.
    change (ConnInv.conns (w_sys w) !! c') with (ConnInv.conns s1 !! c').
    unfold ConnInv.conns at 1. cbn [w_set_sys w_sys with_conns set_sys_conns sys_conns mem].
    destruct (decide (c = c')) as [<-|Hne]; [|by rewrite lookup_insert_ne].
    rewrite lookup_insert_eq. change (ConnInv.conns (w_sys w)) with (ConnInv.conns s1) in Hk. by rewrite Hk.
Qed.

Lemma drain_all_serving cs : forall fuel p w,
  serving w -> linked (ConnInv.conns (w_sys w)) p cs -> (length cs <= fuel)%nat ->
  wp (drain_all fuel p) (fun _ w' => serving w') anywhere w.
Proof.
  induction cs as [|c cs IH]; intros fuel p w Hw Hl Hf; [rewrite Hl; destruct fuel; exact Hw|].
  destruct Hl as (-> & k & Hk & Hl). destruct fuel as [|fuel]; [simpl in Hf; lia|]. cbn [drain_all].
  apply wp_bind. eapply wp_mono; [by eapply drain_serving|]. intros [] w1 [Hw1 Hn].
  pose proof (Hn c) as Hc. rewrite Hk in Hc. apply fmap_Some in Hc as (k1 & Hk1 & En).
  apply wp_bind, wp_on_sys. eapply wp_conn_load; [exact Hk1|].
  replace (w_set_sys (w_sys w1) w1) with w1 by by destruct w1.
  apply IH; [done| |simpl in Hf; lia]. rewrite <- En. eapply linked_next; [|exact Hl]. intros c2 _. apply Hn.
Qed.

(** What [get_connections] and [list_fuel] give. *)
Lemma wp_list {A} (k : ptr -> nat -> M W A) (P : A -> W -> Prop) w :
  (forall w', w' = w -> wp (k (head_of (w_sys w)) (S (size (ConnInv.conns (w_sys w))))) P anywhere w') ->
  wp (conn ← on_sys get_connections; fuel ← on_sys list_fuel; k conn fuel) P anywhere w.
Proof.
  intros Hk. apply wp_bind, wp_on_sys. eapply wp_Done; [apply get_connections_run|].
  apply wp_bind, wp_on_sys, wp_gets. apply Hk. by destruct w.
Qed.

Lemma stdout_serving : keeps_serving handle_stdout.
Proof.
  intros w Hw. unfold handle_stdout. apply wp_bind, revents_serving; [done|by vm_compute|].
  intros b. apply wp_when; intros _; [|done].
  apply (wp_list (fun conn fuel => drain_all fuel conn)). intros w' ->.
  destruct (sv_list _ _ (serving_served _ Hw)) as (cs & Hn & Hl).
  apply (drain_all_serving cs); [done|done|]. pose proof (linked_bound _ _ _ Hn Hl). lia.
Qed.

Lemma programs_serving : keeps_serving handle_programs.
Proof.
  intros w Hw. unfold handle_programs. apply wp_bind, wp_on_sys, wp_opt.
  rewrite (sv_plain _ _ (serving_served _ Hw)). apply wp_ret. by destruct w.
Qed.

Lemma delete_serving : keeps_serving (on_sys delete_all_connections).
Proof.
  intros w Hw. pose proof (serving_served _ Hw) as H. apply wp_on_sys.
  unfold delete_all_connections. apply wp_bind. eapply wp_Done; [apply get_connections_run|].
  apply wp_bind, wp_gets. destruct (sv_list _ _ H) as (cs & Hn & Hl).
  pose proof (linked_bound _ _ _ Hn Hl) as Hb. change (mem (sys_conns (w_sys w))) with (ConnInv.conns (w_sys w)).
  assert (Hf : (length cs <= S (size (ConnInv.conns (w_sys w))))%nat) by lia. clear Hn Hb. revert Hf Hl.
  generalize (S (size (ConnInv.conns (w_sys w)))) (head_of (w_sys w)).
  induction cs as [|c cs IH]; intros fuel p Hf Hl.
  { rewrite Hl. replace (delete_loop fuel None) with (mret (M := M (sys Env)) tt) by by destruct fuel.
    apply wp_ret. by destruct w. }
  destruct Hl as (-> & k & Hk & Hl). destruct fuel as [|fuel]; [simpl in Hf; lia|]. cbn [delete_loop].
  destruct (serving_at _ _ _ Hw Hk) as [Hd _].
  apply wp_bind. eapply wp_conn_load; [exact Hk|]. rewrite Hd. apply wp_bind, wp_ret.
  apply IH; [simpl in Hf; lia|done].
Qed.

(** *** Packets *)

Lemma find_serving cs o ip tcp s : forall fuel p,
  linked (ConnInv.conns s) p cs -> (length cs <= fuel)%nat ->
  wp (find_conn fuel o ip tcp p)
    (fun p' s' => s' = s /\ forall c, p' = Some c -> is_Some (ConnInv.conns s !! c)) anywhere s.
Proof.
  induction cs as [|c cs IH]; intros fuel p Hl Hf; [rewrite Hl; destruct fuel; by apply wp_ret|].
  destruct Hl as (-> & k & Hk & Hl). destruct fuel as [|fuel]; [simpl in Hf; lia|]. cbn [find_conn].
  apply wp_bind. eapply wp_conn_load; [exact Hk|]. destruct (_ && _).
  - apply wp_ret. split; [done|]. intros c' [= <-]. by eexists.
  - apply IH; [done|simpl in Hf; lia].
Qed.

Lemma segment_serving c buf len d w :
  serving w -> is_Some (ConnInv.conns (w_sys w) !! c) -> Z.of_nat (length buf) <= MAX_PACKET_SIZE ->
  datagram_of_bytes buf = Some d -> tcphdr_wf (dg_tcp d) ->
  FULL_HDR_SIZE <= ntohs (ip_tot_len (dg_ip d)) <= Z.of_nat (length buf) ->
  has_flag (th_flags (dg_tcp d)) TH_FIN = false ->
  wp (handle_segment c buf len) (fun _ w' => serving w') anywhere w.
Proof.
  intros Hw [k Hk] Hmax Hd Hwf Htot Hfin.
  destruct (serving_at _ _ _ Hw Hk) as (_ & l & order & E & e & Hst & [Hs Hall] & Ha & He).
  eapply wp_handle_segment; [exact Hs|exact Hk|exact Hst|exact Hmax|exact Hd|exact Htot| |].
  - intros w' Hs'. exists order, E. split; [by split|done].
  - intros w' g seg n Hs' Hg Harr Hfl.
    eapply wp_mono; [apply (receive_goes_on w' order E l e g seg n); [done|done|by eapply Hall|exact Hg|exact Harr|]|].
    + rewrite Hfl, fin_flag; [done|apply Hwf].
    + intros [] w2 Hgo. by apply (serving_goes_on w' order E l e).
Qed.
End Serving.

(** *** New clients *)

Section Clients.
Context {Env : Type} `{!Os Env, !OsLaws Env, !ServerLaws Env}.
Implicit Types (s : sys Env) (w : W (E := Env)) (N : gmap loc loc).

Abbreviation anywhere := (fun _ => True).

(** A server with any number of clients. *)
Definition in_service w : Prop := exists N, serving N w.

(** The list once the connection at [cl], with its endpoint at [l], has joined it. *)
Lemma served_joined N s s' d c l :
  let cl := brk (sys_conns s) in
  served N s -> sys_ok s' -> made d cl s s' c -> cn_state c = Some l -> served (<[cl := l]> N) s'.
Proof.
  intros cl [H1 H2 H3 H4 (cs & Hn & Hl) H6 H7] Hok Hmd Hst.
  assert (Hnew : ConnInv.conns s !! cl = None).
  { destruct H1 as [[Q Hi] _]. apply heap_wf_fresh. apply Hi. }
  pose proof (md_setting_up _ _ _ _ _ Hmd) as Hsu.
  assert (Eo : sys_options s' = sys_options s) by apply (su_options _ _ _ Hsu).
  assert (Hlive := fun k c0 => setting_up_live cl zero_conn s s' k c0 eq_refl Hsu).
  assert (Hback : forall k c', k <> cl -> ConnInv.conns s' !! k = Some c' ->
    exists c0, ConnInv.conns s !! k = Some c0 /\ (c' = c0 \/ exists p, c' = set_cn_prev p c0)).
  { intros k c' Hk Hc'. destruct (setting_up_kept cl _ s s' k c' eq_refl Hsu Hk Hc') as (c0 & Hc0 & _).
    exists c0. split; [done|]. destruct (Hlive k c0 Hk Hc0) as (c1 & Hc1 & Hor). rewrite Hc' in Hc1. by injection Hc1 as <-. }
  split; rewrite ?Eo; try done.
  - exists (cl :: cs). split.
    + apply NoDup_cons. split; [|done]. intros Hin. destruct (linked_in _ _ _ _ Hl Hin). congruence.
    + split; [by apply Hmd|]. exists c. split; [by apply Hmd|]. rewrite (md_next _ _ _ _ _ Hmd).
      eapply linked_next; [|exact Hl]. intros k Hk. destruct (linked_in _ _ _ _ Hl Hk) as [c0 Hc0].
      destruct (Hlive k c0) as (c1 & -> & Hor); [congruence|done|]. rewrite Hc0.
      by destruct Hor as [->|[p ->]].
  - intros k. destruct (decide (k = cl)) as [->|Hk].
    + rewrite lookup_insert_eq, (md_conn _ _ _ _ _ Hmd). by split.
    + rewrite lookup_insert_ne, <- H6 by done. split; intros [c' Hc'].
      * destruct (Hback k c' Hk Hc') as (c0 & Hc0 & _). by eexists.
      * destruct (Hlive k c' Hk Hc') as (c1 & Hc1 & _). by eexists.
  - intros k c' Hc'. destruct (decide (k = cl)) as [->|Hk].
    + rewrite lookup_insert_eq. rewrite (md_conn _ _ _ _ _ Hmd) in Hc'. injection Hc' as <-.
      destruct (md_fresh _ _ _ _ _ Hmd) as (F1 & F2 & F3).
      split; [done|done|by rewrite F3|apply Hmd].
    + rewrite lookup_insert_ne by done. destruct (Hback k c' Hk Hc') as (c0 & Hc0 & Hor).
      destruct (H7 k c0 Hc0). by destruct Hor as [->|[p ->]].
Qed.

Lemma new_serving N w pkt d :
  serving N w -> datagram_of_bytes pkt = Some d ->
  wp (tcp_new_connection pkt) (fun _ w' => in_service w') anywhere w.
Proof.
  intros Hw Hd. pose proof Hw as (order & E & [Hs Hall] & Ha). pose proof (serving_served _ _ Hw) as H.
  assert (Hs0 : safe_state (ConnLaws0 := sys_laws) w order E).
  { destruct Hs as [S1 S2 S3 S4 S5]. split; [done|apply (sv_ok _ _ H)|done..]. }
  assert (Hh : forall h, head_of (w_sys w) = Some h -> is_Some (ConnInv.conns (w_sys w) !! h)).
  { intros h Hh. destruct (sv_list _ _ H) as (cs & _ & Hl). rewrite Hh in Hl.
    eapply linked_in; [exact Hl|]. destruct cs as [|c cs]; [done|]. destruct Hl as ([= <-] & _). left. }
  eapply wp_mono_exit; [by eapply (new_connection_made w order E pkt d); [|apply H|..]|done|].
  intros p w'. destruct (_ >=? _); [intros [_ ->]; by exists N|].
  intros (l & c & cfg & -> & Hl & Hst & Hmd & Hs'). cbv zeta in *. set (cl := brk _) in *.
  pose proof (ss_lib _ _ _ Hs') as Hok. cbn [lib_inv sys_laws] in Hok.
  exists (<[cl := l]> N), (l :: order), (<[l := ep_init (Some cl) cfg]> E). split; [split|].
  - destruct Hs' as [S1 S2 S3 S4 S5]. split; [done| |done..]. by eapply served_joined.
  - intros k e [[<- <-]|[_ He]]%lookup_insert_Some; [apply at_work_init|by eapply Hall].
  - intros k l' [[<- <-]|[Hne Hk]]%lookup_insert_Some.
    + exists (ep_init (Some cl) cfg). split; [apply lookup_insert_eq|done].
    + destruct (Ha k l' Hk) as (e & He & Hc). exists e. split; [|done].
      rewrite lookup_insert_ne; [done|]. intros <-. apply Hl.
      destruct Hs as [(O & Hi) _ _ _ _]. apply (inv_dom _ _ _ _ Hi). by eexists.
Qed.

Lemma packet_serving N buf len p w :
  serving N w -> length buf = Z.to_nat MAX_PACKET_SIZE ->
  (forall c, p = Some c -> is_Some (ConnInv.conns (w_sys w) !! c)) ->
  (forall d, p <> None -> datagram_of_bytes buf = Some d -> tcphdr_wf (dg_tcp d) /\
     FULL_HDR_SIZE <= ntohs (ip_tot_len (dg_ip d)) <= Z.of_nat (length buf) /\
     has_flag (th_flags (dg_tcp d)) TH_FIN = false) ->
  wp (handle_packet p buf len) (fun _ w' => in_service w') anywhere w.
Proof.
  intros Hw Hb Hp Hfit. assert (Hlen : Z.of_nat (length buf) = MAX_PACKET_SIZE) by (rewrite Hb; by vm_compute).
  destruct (datagram_of_bytes_Some buf) as (d & Hd & _).
  { rewrite Hlen. by vm_compute. }
  unfold handle_packet. apply wp_when; intros _; [|by exists N]. destruct p as [c|].
  - destruct (Hfit d ltac:(done) Hd) as (F1 & F2 & F3).
    eapply wp_mono; [apply (segment_serving N c buf len d); auto; by rewrite Hlen|].
    intros [] w' Hw'. by exists N.
  - apply wp_bind. eapply wp_deref; [exact Hd|]. apply wp_when; intros _; [|by exists N].
    apply wp_bind. eapply wp_mono; [by eapply new_serving|]. intros q w1 [N1 Hw1].
    apply wp_bind, wp_on_sys, wp_opt. rewrite (sv_plain _ _ (serving_served _ _ Hw1)).
    replace (w_set_sys (w_sys w1) w1) with w1 by by destruct w1.
    assert (Hrest : wp (on_sys (modify (set_sys_new_connection (th_sport (dg_tcp d)))))
      (fun _ w' => in_service w') anywhere w1).
    { apply wp_on_sys, wp_modify. exists N1. apply serving_sys; [done|].
      apply kept_alike; [by apply serving_served|done]. }
    apply wp_bind. by destruct q; apply wp_ret.
Qed.

(** What the network brings. *)
Lemma received_fits bs rest d fd env :
  fst (os_recv fd MAX_PACKET_SIZE env) = IoOk bs -> FULL_HDR_SIZE <= Z.of_nat (length bs) ->
  datagram_of_bytes (bs ++ rest) = Some d ->
  tcphdr_wf (dg_tcp d) /\
  FULL_HDR_SIZE <= ntohs (ip_tot_len (dg_ip d)) <= Z.of_nat (length (bs ++ rest)) /\
  has_flag (th_flags (dg_tcp d)) TH_FIN = false.
Proof.
  intros Hr Hlen Hd. destruct (os_recv fd MAX_PACKET_SIZE env) as [r e] eqn:Hrecv.
  cbn [fst] in Hr. subst r. destruct (received_headers _ _ _ Hlen Hd) as (payload & Hbs & Hwf).
  destruct (server_recv _ _ _ _ _ _ Hrecv Hbs) as [Ha Hfin]. cbn [dg_ip dg_tcp] in *.
  rewrite length_app. split_and!; [done|lia|lia|done].
Qed.

Lemma socket_serving N w :
  serving N w -> wp handle_socket (fun _ w' => in_service w') anywhere w.
Proof.
  intros Hw. unfold handle_socket, receive_packet. apply wp_bind, (revents_serving N); [done|by vm_compute|].
  intros b. apply wp_when; intros _; [|by exists N].
  apply wp_bind, wp_on_sys, wp_conf. replace (w_set_sys (w_sys w) w) with w by by destruct w.
  set (fd := socket _). set (buf := replicate (Z.to_nat MAX_PACKET_SIZE) Byte.x00).
  assert (Hbuf : length buf = Z.to_nat MAX_PACKET_SIZE) by apply length_replicate. clearbody buf.
  apply wp_bind, (wp_sys_serving N); [done|]. intros H.
  apply (wp_recv_filter (fun c => is_Some (ConnInv.conns (w_sys w) !! c))); [done| | |].
  - intros o ip tcp s' Es. destruct (sv_list _ _ H) as (cs & Hn & Hl).
    assert (Ec : ConnInv.conns s' = ConnInv.conns (w_sys w)) by (unfold ConnInv.conns; by rewrite Es).
    rewrite <- Ec in Hl |- *.
    apply (find_serving cs); [done|]. pose proof (linked_bound _ _ _ Hn Hl). lia.
  - intros r buf' s' _ Hb' Hq. split; [by apply kept_quiet|].
    intros Hw'. apply (packet_serving N); [done|congruence|done|done].
  - intros bs d p s' Hlen Hq _ Hrecv Hd Hp. split; [by apply kept_quiet|]. intros Hw'.
    apply (packet_serving N); [done| | |].
    + rewrite length_app, length_drop. lia.
    + intros c Hc. destruct (quiet_keeps _ _ Hq) as (Ec & _).
      cbn [w_set_sys w_sys]. unfold ConnInv.conns in *. rewrite Ec. by apply Hp.
    + intros d' _ Hd'. eapply received_fits; [exact Hrecv|lia|exact Hd'].
Qed.

(** *** The timer *)

(** [m], whose loops run with the fuel it is given, comes to a call of [ctcp_timer]
    with two connections or more, which does not come back. *)
Definition stuck_in_timer (m : nat -> M W unit) w : Prop :=
  exists w1 l1 l2 order E (k : M W unit),
    represents w1 (l1 :: l2 :: order) E /\ (forall fuel, endless (ctcp_timer fuel w1)) /\
    forall fuel, m fuel w = (ctcp_timer fuel;; k) w1.

(** [m] leaves a server in service, or gets stuck. *)
Definition goes_round (m : nat -> M W unit) w : Prop :=
  (forall fuel, wp (m (S fuel)) (fun _ w' => in_service w') anywhere w) \/ stuck_in_timer m w.

Lemma round_bind (m : M W unit) (k : nat -> M W unit) w :
  wp m (fun _ w' => in_service w') anywhere w -> (forall w', in_service w' -> goes_round k w') ->
  goes_round (fun fuel => m;; k fuel) w.
Proof.
  intros Hm Hk. destruct (wp_inv _ _ _ _ Hm) as [([] & w1 & Hrun & Hw1)|(code & w1 & Hrun & _)].
  - destruct (Hk w1 Hw1) as [H|(w2 & l1 & l2 & order & E & k2 & Hr & Hend & H)]; [left|right].
    + intros fuel. unfold wp. rewrite (bind_Done _ _ _ _ _ Hrun). apply H.
    + exists w2, l1, l2, order, E, k2. split_and!; [done..|]. intros fuel.
      by rewrite (bind_Done _ _ _ _ _ Hrun).
  - left. intros fuel. unfold wp. by rewrite (bind_Exit _ _ _ _ _ Hrun).
Qed.

Lemma round_then (m : nat -> M W unit) (k : M W unit) w :
  goes_round m w -> (forall w', in_service w' -> wp k (fun _ w' => in_service w') anywhere w') ->
  goes_round (fun fuel => m fuel;; k) w.
Proof.
  intros [H|(w2 & l1 & l2 & order & E & k2 & Hr & Hend & H)] Hk; [left|right].
  - intros fuel. apply wp_bind. eapply wp_mono; [apply H|]. intros []. apply Hk.
  - exists w2, l1, l2, order, E, (k2;; k). split_and!; [done..|]. intros fuel.
    unfold mbind at 1, M_bind at 1. rewrite H. unfold mbind, M_bind.
    by destruct (ctcp_timer fuel w2).
Qed.

Lemma ctcp_timer_serving w : in_service w -> goes_round ctcp_timer w.
Proof.
  intros [N (order & E & Hw & Ha)]. destruct order as [|l1 [|l2 order]].
  - left. intros fuel. eapply wp_Done; [apply (timer_idle w E), Hw|]. by exists N, [], E.
  - left. intros fuel. destruct (safe_endpoint _ _ _ l1 (proj1 Hw)) as [e He]; [left|].
    eapply wp_mono; [by apply (timer_alone (L := server_laws N) w E l1 e)|]. intros [] w' (e' & Hw' & Hc).
    exists N, [l1], (<[l1 := e']> E). split; [done|]. by eapply assigned_insert.
  - right. exists w, l1, l2, order, E, (mret tt). split; [apply Hw|].
    split; [intros fuel; by eapply (timer_endless (L := server_laws N))|]. intros fuel. unfold mbind, M_bind.
    by destruct (ctcp_timer fuel w) as [[]| | |].
Qed.

Lemma clock_serving N (Q : timespec -> W -> Prop) w :
  serving N w -> (forall ts w', serving N w' -> Q ts w') -> wp (on_sys get_time) Q anywhere w.
Proof.
  intros Hw HQ. apply (wp_sys_serving N); [done|]. intros H. unfold get_time.
  apply wp_bind. unfold wp at 1, syscall. destruct (os_gettimeofday (sys_env (w_sys w))) as [[sec usec] e].
  apply wp_ret. split; [by apply kept_alike|]. intros Hw'. by apply HQ.
Qed.

Lemma timer_serving w : in_service w -> goes_round handle_timer w.
Proof.
  intros [N Hw]. destruct (os_gettimeofday (sys_env (w_sys w))) as [[sec usec] e] eqn:Ht.
  set (w1 := w_set_sys (set_sys_env e (w_sys w)) w).
  assert (Hw1 : serving N w1).
  { apply serving_sys; [done|]. apply kept_alike; [by apply serving_served|done]. }
  set (left_ms := timer_left (Timespec sec (usec * 1000)) (sys_last_timeout (w_sys w))
    (cfg_timer (sys_ctcp_cfg (w_sys w)))).
  assert (Heq : forall fuel, handle_timer fuel w = (when (bool_decide (left_ms = 0))
    (ctcp_timer fuel;; ts ← on_sys get_time; on_sys (modify (set_sys_last_timeout ts)))) w1).
  { intros fuel. unfold handle_timer, need_timer_in, get_time, on_sys, zoom, gets, syscall, mbind, M_bind.
    subst w1 left_ms. destruct w as [sl ST SG AT TD LL buf tr sy]. cbn [w_sys] in Ht. cbn. by rewrite Ht. }
  destruct (bool_decide (left_ms = 0)); cbn [when] in Heq.
  - assert (Hrest : goes_round (fun fuel => ctcp_timer fuel;;
      ts ← on_sys get_time; on_sys (modify (set_sys_last_timeout ts))) w1).
    { apply round_then; [by apply ctcp_timer_serving; exists N|]. intros w2 [N2 Hw2].
      apply wp_bind, (clock_serving N2); [done|]. intros ts w3 Hw3.
      apply (wp_sys_serving N2); [done|]. intros H3. apply wp_modify.
      split; [by apply kept_alike|by exists N2]. }
    destruct Hrest as [H|(w2 & l1 & l2 & order & E & k2 & Hr & Hend & H)]; [left|right].
    + intros fuel. unfold wp. rewrite Heq. apply H.
    + exists w2, l1, l2, order, E, k2. split_and!; [done..|]. intros fuel. by rewrite Heq.
  - left. intros fuel. unfold wp. rewrite Heq. by exists N.
Qed.

(** *** The main loop *)

Lemma keeps_in_service (m : M W unit) :
  (forall N, keeps_serving N m) -> forall w, in_service w -> wp m (fun _ w' => in_service w') anywhere w.
Proof.
  intros Hm w [N Hw]. eapply wp_mono; [by apply (Hm N)|]. intros [] w' Hw'. by exists N.
Qed.

Lemma do_loop_body_serving w : in_service w -> goes_round do_loop_body w.
Proof.
  intros Hw. unfold do_loop_body.
  apply round_bind; [apply keeps_in_service; [apply poll_serving|done]|]. clear w Hw; intros w Hw.
  apply round_bind; [apply keeps_in_service; [apply stdin_serving|done]|]. clear w Hw; intros w Hw.
  apply round_bind; [apply keeps_in_service; [apply stdout_serving|done]|]. clear w Hw; intros w Hw.
  apply round_bind; [apply keeps_in_service; [apply programs_serving|done]|]. clear w Hw; intros w Hw.
  apply round_bind; [destruct Hw as [N Hw]; by eapply socket_serving|]. clear w Hw; intros w Hw.
  apply round_then; [by apply timer_serving|]. apply keeps_in_service. apply delete_serving.
Qed.

(** What [n] iterations of the loop come to. *)
Lemma do_loop_serving fuel n w :
  in_service w ->
  (exists code w', forall m, do_loop (S fuel) (n + m) w = Exit code w') \/
  (exists w', in_service w' /\ forall m, do_loop (S fuel) (n + m) w = do_loop (S fuel) m w') \/
  (exists j w', (j < n)%nat /\ in_service w' /\ stuck_in_timer do_loop_body w' /\
     forall m, do_loop (S fuel) (j + m) w = do_loop (S fuel) m w').
Proof.
  revert w. induction n as [|n IH]; intros w Hw; [right; left; by exists w|].
  destruct (do_loop_body_serving w Hw) as [Hb|Hstuck].
  2: { right. right. exists 0%nat, w. split; [lia|]. by split_and!. }
  destruct (wp_inv _ _ _ _ (Hb fuel)) as [([] & w1 & Hrun & Hw1)|(code & w1 & Hrun & _)].
  - assert (Hstep : forall m, do_loop (S fuel) (S m) w = do_loop (S fuel) m w1).
    { intros m. cbn [do_loop]. by erewrite bind_Done. }
    destruct (IH w1 Hw1) as [(code & w' & H)|[(w' & Hw' & H)|(j & w' & Hj & Hw' & Hs & H)]].
    + left. exists code, w'. intros m. by rewrite <- (H m), <- Hstep.
    + right. left. exists w'. split; [done|]. intros m. by rewrite <- (H m), <- Hstep.
    + right. right. exists (S j), w'. split; [lia|]. split; [done|]. split; [done|].
      intros m. by rewrite <- (H m), <- Hstep.
  - left. exists code, w1. intros m. cbn [Nat.add do_loop]. by erewrite bind_Exit.
Qed.
End Clients.

(** ** From the start *)

Section Program.
Context {Env : Type} `{!Os Env, !OsLaws Env, !ServerLaws Env, !Setup Env, !SetupLaws Env}.
Implicit Types (w : W (E := Env)).

Lemma started_in_service w :
  server_started w -> sys_conns (w_sys w) = heap_empty ->
  run_program (sys_options (w_sys w)) = false -> test_debug_on (sys_options (w_sys w)) = false ->
  lab5_mode (sys_options (w_sys w)) = false -> in_service w.
Proof.
  intros (Hsrv & Hh & _ & [S1 S2 S3 S4 S5]) Hc Hrp Hdbg Hlab.
  assert (Hno : forall c : loc, ConnInv.conns (w_sys w) !! c = None).
  { intros c. unfold ConnInv.conns. rewrite Hc. apply lookup_empty. }
  exists ∅, [], ∅. split; [split|by intros c l; rewrite lookup_empty].
  - split; [done| |done..]. split; [exact S2|done..| | |].
    + exists []. split; [apply NoDup_nil_2|done].
    + intros c. by rewrite Hno, lookup_empty.
    + intros c k. by rewrite Hno.
  - intros l e. by rewrite lookup_empty.
Qed.

(** C2: a server without a program to run, with the modes of the tester and of
    lab 5 off, on the machine of its clients, with a terminal that takes what it is
    given, an input that goes on and clients that send no FIN, has no undefined
    behaviour at any time, whoever connects and whatever else they send: it fails
    to start, the process ends, or it is in the main loop, in a safe state with any
    number of connections, after any number of iterations; or an iteration calls
    [ctcp_timer] with two connections or more, which never returns. *)
Theorem server_never_undefined w fuel n port k :
  represents w [] ∅ -> server_booted (w_sys w) -> test_debug_on (sys_options (w_sys w)) = false ->
  lab5_mode (sys_options (w_sys w)) = false -> is_Some (atoi port) ->
  (String.length port <= 106)%nat ->
  (exists r w', r < 0 /\ start_server (S fuel) k n port [] w = Done r w') \/
  (exists code w', start_server (S fuel) k n port [] w = Exit code w') \/
  (exists w', in_service w' /\ forall m,
     start_server (S fuel) (k + m) n port [] w = (do_loop (S fuel) m;; mret 0) w') \/
  (exists j w', (j < k)%nat /\ in_service w' /\ stuck_in_timer do_loop_body w' /\ forall m,
     start_server (S fuel) (j + m) n port [] w = (do_loop (S fuel) m;; mret 0) w').
Proof.
  intros Hr Hb Hdbg Hlab Hp Hl. pose proof (wp_server_started w n port [] Hr Hb Hp Hl) as Hw. unfold wp in Hw.
  destruct (on_sys (server_ready n port []) w) as [r w1|code w1| |] eqn:Hrun; try done.
  2: { right. left. exists code, w1. unfold start_server. by erewrite bind_Exit. }
  destruct Hw as [Hneg|(-> & Hst & Hc & _ & Ho)].
  { left. exists (-1), w1. split; [lia|]. unfold start_server. erewrite bind_Done by exact Hrun.
    destruct (Z.ltb_spec r 0); [done|lia]. }
  right. assert (Hin : in_service w1).
  { apply started_in_service; rewrite ?Ho by done; try done. apply Hb. }
  assert (Hgo : forall j, start_server (S fuel) j n port [] w = (do_loop (S fuel) j;; mret 0) w1).
  { intros j. unfold start_server. by erewrite bind_Done by exact Hrun. }
  destruct (do_loop_serving fuel k w1 Hin) as [(code & w' & H)|[(w' & Hw' & H)|(j & w' & Hj & Hw' & Hs & H)]].
  - left. exists code, w'. rewrite Hgo. specialize (H 0%nat). rewrite Nat.add_0_r in H. by apply bind_Exit.
  - right. left. exists w'. split; [done|]. intros m. rewrite Hgo. unfold mbind, M_bind. by rewrite H.
  - right. right. exists j, w'. split; [done|]. split; [done|]. split; [done|].
    intros m. rewrite Hgo. unfold mbind, M_bind. by rewrite H.
Qed.
End Program.

(** ** Witness: a steady system

    The calm system of [Client.v], where nothing to read is no end of the input, and
    packets with a FIN are not received. *)

Inductive steady := Steady (e : calm).

Definition no_fin (bs : list byte) : bool :=
  match datagram_of_bytes bs with
  | Some d => negb (has_flag (th_flags (dg_tcp d)) TH_FIN)
  | None => true
  end.

Definition steadily {A} (f : calm -> A * calm) (c : steady) : A * steady :=
  let '(Steady e) := c in let '(a, e) := f e in (a, Steady e).

Definition some_input (r : io_result (list byte)) : io_result (list byte) :=
  match r with IoOk (b :: bs) => IoOk (b :: bs) | _ => IoErr EAGAIN end.
Definition without_fin (r : io_result (list byte)) : io_result (list byte) :=
  match r with IoOk bs => if no_fin bs then IoOk bs else IoErr EAGAIN | IoErr errno => IoErr errno end.

#[export] Instance steady_os : Os steady := {|
  os_read fd n := steadily (fun e => let '(r, e) := os_read fd n e in (some_input r, e));
  os_write fd bs := steadily (os_write fd bs);
  os_recv fd n := steadily (fun e => let '(r, e) := os_recv fd n e in (without_fin r, e));
  os_sendto fd bs a := steadily (os_sendto fd bs a);
  os_rand := steadily os_rand;
  os_fork := steadily os_fork;
  os_gettimeofday := steadily os_gettimeofday;
  os_poll evs ms := steadily (os_poll evs ms);
  os_pipe := steadily os_pipe;
  os_dup2 fd fd' := steadily (os_dup2 fd fd');
  os_execvp := steadily os_execvp;
  os_fcntl fd cmd arg := steadily (os_fcntl fd cmd arg);
|}.

Lemma steadily_inv {A} (f : calm -> A * calm) c a c' :
  steadily f c = (a, c') -> exists e e', f e = (a, e').
Proof. destruct c as [e]. cbn [steadily]. destruct (f e) as [x e'] eqn:Hf. intros [= <- _]. eauto. Qed.

Lemma steady_read fd n c bs c' :
  os_read fd n c = (IoOk bs, c') -> bs <> [] /\ exists e e', os_read (E := calm) fd n e = (IoOk bs, e').
Proof.
  intros (e & e' & H)%steadily_inv. destruct (os_read fd n e) as [[[|b bs']|] e2] eqn:Hr; try done.
  injection H as <- <-. split; [done|]. eauto.
Qed.

Lemma steady_recv fd n c bs c' :
  os_recv fd n c = (IoOk bs, c') -> no_fin bs = true /\ exists e e', os_recv (E := calm) fd n e = (IoOk bs, e').
Proof.
  intros (e & e' & H)%steadily_inv. destruct (os_recv fd n e) as [[bs'|] e2] eqn:Hr; [|done].
  cbn [without_fin] in H. destruct (no_fin bs') eqn:Hf; [|done]. injection H as <- <-. eauto.
Qed.

#[export] Instance steady_laws : OsLaws steady.
Proof.
  split.
  - intros fd n c bs c' Hn (_ & e & e' & H)%steady_read. by eapply os_read_law.
  - intros fd n c bs c' Hn (_ & e & e' & H)%steady_recv. by eapply os_recv_law.
  - intros fd bs c x c' (e & e' & H)%steadily_inv. by eapply os_write_law.
  - intros fd bs a c n c' (e & e' & H)%steadily_inv. by eapply os_sendto_law.
  - intros [e]. cbn [os_rand steady_os steadily]. pose proof (os_rand_law e). by destruct (os_rand e).
  - intros evs ms [e]. cbn [os_poll steady_os steadily]. pose proof (os_poll_law evs ms e).
    by destruct (os_poll evs ms e).
Qed.

#[export] Instance steady_server : ServerLaws steady.
Proof.
  split.
  - intros fd bs c r c' ([e] & e' & H)%steadily_inv. by injection H as <- _.
  - intros fd n c r c' Hn H. destruct r as [bs|errno].
    + right. exists bs. split; [done|]. by apply steady_read in H as [Hne _].
    + left. apply steadily_inv in H as (e & e' & H).
      destruct (os_read fd n e) as [[[|b bs']|] e2]; cbn [some_input] in H; congruence.
  - intros fd n c bs c' d (Hf & e & e' & H)%steady_recv Hd. unfold no_fin in Hf. rewrite Hd in Hf.
    split; [by eapply os_recv_announced|]. by apply negb_true_iff.
Qed.

#[export] Instance steady_setup : Setup steady := script_setup [lo; eth0].
#[export] Instance steady_setup_laws : SetupLaws steady.
Proof.
  split.
  - intros e. change (Forall good_name [lo; eth0]). auto using good_lo, good_eth0.
  - by intros name e l e' [= <- _].
Qed.

(** A server to which two clients will connect, from two ports. *)
Definition steady_syn (client : Z) : datagram :=
  Datagram (made_iphdr LOCALHOST LOCALHOST 40)
    (TcpHdr (htons client) (htons 8888) (htonl 5) 0 0 5 TH_SYN (htons 1440) 0 0) [].
Definition steady_world : W (E := steady) :=
  w_set_sys (Sys (ex_options true true 0) (Config 0 0 0 None None) (CtcpConfig 1440 1440 40 200)
    false 0 0 ex_events (Timespec 0 0) heap_empty heap_empty []
    (Steady (Calm (OsScript [] [] [IoErr EAGAIN; IoOk (datagram_bytes (steady_syn 9999));
       IoOk (datagram_bytes (steady_syn 7777))] false [] [] (9, 0)))))
  (boot_world (Config 0 0 0 None None) (Steady (Calm quiet_script))).

Lemma server_never_undefined_witness :
  (exists r w', r < 0 /\ start_server 1 4 2 "8888" [] steady_world = Done r w') \/
  (exists code w', start_server 1 4 2 "8888" [] steady_world = Exit code w') \/
  (exists w', in_service w' /\ forall m,
     start_server 1 (4 + m) 2 "8888" [] steady_world = (do_loop 1 m;; mret 0) w') \/
  (exists j w', (j < 4)%nat /\ in_service w' /\ stuck_in_timer do_loop_body w' /\ forall m,
     start_server 1 (j + m) 2 "8888" [] steady_world = (do_loop 1 m;; mret 0) w').
Proof.
  apply server_never_undefined.
  - apply represents_sys, boot_represents.
  - by split.
  - reflexivity.
  - reflexivity.
  - by eexists.
  - simpl. lia.
Defined.
